(* ===== verification/_CoqProject ===== *)
-Q . S2P
Prelude.v
CMem.v
Stream.v
Metrics.v
Types.v
Filter.v
Parse.v
Hash.v
Sqlite.v
Policy.v
Cache.v
Persist.v
PersistSpec.v
DomainCache.v
IpCache.v
CacheLife.v
Proc.v
NetPort.v
ProcSpec.v
Plant.v
Enforce.v
Worker.v
Writable.v
Process.v
Lab.v
WorkerLab.v
Main.v
MemDb.v
ProcessLab.v
