(* ===== verification/Prelude.v ===== *)
(** * The DPDK filtering worker: a verification development

    ** The program

    The worker ([src/worker]) stands between two network interfaces.  It reads
    bursts of packets from the incoming port, finds the destination address or
    the name asked for in a DNS request, and forwards or drops each packet by a
    policy that a controller sends over gRPC.  Decisions are cached, per domain
    and per address, for a time to live; the caches are saved to SQLite
    periodically and at exit and loaded at start.  Its parts, under
    [src/worker/src] unless a path is given:

    - [dpdk_filter/filtr_packets.c]: the verdict on a packet, from block and
      allow lists and from the categories and the trust level of its target;
    - [dpdk_filter/pars_packets.c]: the parser of packet headers and DNS names;
    - [dpdk_filter/domain_cache.c] and [dpdk_filter/ip_cache.c]: the decision
      caches, hash tables under a spinlock with persistence in SQLite; the two
      files are the same code for two key types;
    - [dpdk_filter/proc_packets.c]: the packet path, from receive burst to
      transmission; it calls the parser, the caches, the filter and the
      classification service of the worker object;
    - [worker.cpp]: the worker object: classification and policy requests to
      the controller, the main loop, the packet counters, threads and signals,
      and the life of the object from its constructor over [initDPDK] to its
      destructor;
    - [main.cpp]: the process around the worker object: environment variables,
      test modes, exceptions and exit codes;
    - [metrics_collector.cpp]: a thread that reads the usage of processors and
      memory from /proc and pushes it with the packet counters to a gateway;
    - [dpdk_filter/net_port.c]: creation and removal of the ports;
    - [dpdk_filter/main.c]: a stand-alone program with a loop of its own.

    ** How the code is modelled

    A C function is a function into [res] (value or fault) or, with state, into
    the monad [M]: explicit state passing with faults.  A fault is undefined
    behaviour: an access outside an array, a dangling or null pointer, a double
    free, a second acquisition of a lock, a division by zero, an overflow of a
    signed sum, a read of uninitialised memory.  Theorems that say that code
    returns [Ok] therefore say that it is free of these.  Arrays are lists of their fixed length,
    accessed with [array_get] and [array_set], which fault out of bounds; heap
    objects live in finite maps from addresses; integers are [Z] with the
    conversions of their C types written out ([u16], [u32], [u64], [i32],
    [i64]).  C loops are [c_for] (with break and return), [for_each] and
    [fill_rows], or a Fixpoint of their own.

    Code outside the repository is a type class with its operations, and a
    second class with the documented behaviour the proofs rely on: the hash
    table and the allocator ([Hash.v]), SQLite, inet_ntop/pton and malloc
    ([Sqlite.v]), receive and transmit bursts ([Proc.v], [ProcSpec.v]), the
    packet-type library ([Parse.v]), the header checksum ([Proc.v],
    [Enforce.v]), ethernet devices ([NetPort.v]), the controller, the clock and
    rand ([Worker.v]), environment variables, signal registration and the
    initialisation of DPDK ([Plant.v]), the files of /proc and the gateway
    ([Metrics.v]).  Each has an instance on which the theorems are
    evaluated ([Hash.v], [Lab.v], [WorkerLab.v], [MemDb.v], [NetPort.v],
    [Metrics.v], [ProcessLab.v]).  Input streams and number conversions of the
    C++ library are defined ([Stream.v]), doubles are the binary64 numbers of
    the Standard Library's SpecFloat.

    ** Files

    - [Prelude.v]: faults, monad, loops, arrays, tactics, shared lemmas.
    - [CMem.v]: machine integers, byte buffers, C strings and the functions of
      string.h.
    - [Stream.v]: extraction from input streams, getline, stoull, to_string.
    - [Metrics.v]: metrics_collector.cpp: constructor, samples of the processor
      usage, pushing, and the thread as a machine with steps.
    - [Types.v]: the structs of include/dpdk_filter/types.h and constants.h and
      what it means for them to be well formed.
    - [Filter.v]: filtr_packets.c, function by function; the loops equal a
      cascade of rules (block list, allow list, classification).  The README of
      the administration tool gives the allow list priority: for names that are
      not on both lists this is the same.  The reads behind
      [categories_with_lvl] are an argument ([Platform]).
    - [Parse.v]: pars_packets.c; termination on every packet, round trip of
      names, and what malformed packets do.
    - [Hash.v], [Sqlite.v]: interfaces to libraries.
    - [Policy.v]: how worker.cpp builds a policy and a classification from
      messages; which names and addresses the filter then finds.
    - [Cache.v]: the caches in memory, once for both key types: the state of a
      cache with its nodes and key copies, lookup, insertion, clearing,
      freeing; ownership invariant [cache_inv]; refinement of a map with time
      to live.
    - [Persist.v], [PersistSpec.v]: saving and loading, the save timer,
      initialisation and shutdown; the round trip through the database.
    - [DomainCache.v], [IpCache.v]: the two instances, with the functions of
      domain_cache.c and ip_cache.c by name, their keys and SQL texts.
    - [CacheLife.v]: a cache from its initialisation on whatever database to its
      shutdown: always memory safe.
    - [Proc.v]: proc_packets.c; [world] is the worker's state as the packet
      path sees it.
    - [NetPort.v]: net_port.c.
    - [ProcSpec.v]: the abstract machine that decides on packets over two maps
      with time to live ([adecide], [aremember]), forwards them ([moved_in]) and
      runs through a burst ([burst]), and the refinement; conservation of mbufs;
      the failure of the classifier; filtering turned off.
    - [Plant.v]: ports, caches and databases together: what worker.cpp and
      main.c set up before their loops and take down after them.
    - [Enforce.v]: no packet on the block lists gets through; what forwarding
      does to a packet.
    - [Worker.v]: the worker object, with the collector it owns, as a machine
      with steps [wstep] (loop iterations, policy threads, signals, changes of
      the environment by other threads) and the invariant that carries
      enforcement through policy updates.
    - [Writable.v]: whatever the loop does, its caches can be saved afterwards.
    - [Process.v]: the worker object from constructor to destructor, [MainLoop]
      as a loop beside policy threads, cache saves and signals, and main.cpp's
      [main]; exceptions are values.
    - [Lab.v], [WorkerLab.v], [MemDb.v], [ProcessLab.v]: concrete environments,
      the theorems applied to them, the execution in which a policy update
      overlaps an iteration, and executions of both programs from start to
      exit.
    - [Main.v]: main.c: signal handler, raw forwarding, set-up, loop and
      [main].

    ** Bounds and fuel

    The two name loops of the parser run with fuel [S (length data)] for a
    packet of [length data] bytes, and [parsing_pakage_terminates] shows that
    this is never used up, since each round consumes at least one byte.  The
    loop over the lines of /proc/stat has fuel for one line more than the text
    has characters; [GetCPUUsage_measures] and [collector_thread_joins] state
    that it returns.  The loop of the collector's constructor takes its fuel as
    an argument, because it may run for ever: [collector_constructor_decided]
    shows that it ends within [constructor_rounds] rounds or never, and
    [collector_registers_cpus] and [collector_constructor_hangs] which of the
    two.  [MainLoop] and [packet_loop] run over a schedule, one list of signals
    (and policy threads and saves) for each test of their condition; a schedule without a
    stop signal is a prefix of an endless run, and [MainLoop_stops] shows that
    one with a stop signal is enough.  All other loops recur on their counter
    or on the list they walk.

    ** What the theorems show

    - The filter and the parser compute what they should on well-formed input
      (for a name that is not on both lists, [main_filtring_by_domain_correct]; [main_filtring_by_ip_correct],
      [parsing_pakage_dns_name], [parsing_pakage_wf]).
    - The caches are memory safe and behave as maps with time to live
      whose clock readings are the program's ([cache_refines_ttl_map],
      [cache_free_releases_all], [dns_cache_hit_after_add]); saving and loading
      keeps every live decision on a name or an IPv6 address
      ([save_load_roundtrip]).
    - The packet path implements its abstract machine, loses no mbuf and drops
      what the policy blocks and does not allow ([pakage_processing_refines],
      [pakage_processing_conserves], [pakage_processing_blocks]); over any
      sequence of iterations and policy updates the policy in force is enforced
      ([worker_enforces]), and that policy is the controller's
      ([load_policy_correct], [loaded_policy_lists]).
    - The process as a whole: a configured process that is sent a stop signal
      exits with everything given back ([process_exits]); a first start ends in a
      state from which the policy is enforced ([process_enforces]), a stop signal
      ends the loop with the packet counts handed to the collector
      ([MainLoop_stops]), the destructor gives everything back and, if SQLite
      works, has saved the decisions ([worker_destructor_releases]), a start that
      fails exits with code 1 and leaves nothing behind ([failed_start_exits]);
      the stand-alone program's set-up tests every result
      ([set_up_establishes]).  The ports are set up and taken down
      ([net_port_init_spec], [net_port_lifecycle]) whatever the driver answers.
    - The collector measures processor usage ([GetCPUUsage_measures]) and its
      thread ends when it is told to ([collector_thread_joins]).
    - Where the code does not do what it means to, a theorem says so:
      overruns ([main_filtring_by_domain_overrun],
      [parsing_pakage_domain_overflow], [load_policy_overflow],
      [save_race_overruns]), leaks ([cache_clear_leaks],
      [dns_cache_embedded_null_leaks]), stale or wrong decisions
      ([block_overrides_allow], where the documentation says otherwise,
      [policy_race_forwards_blocked], [cleared_decisions_return],
      [stale_category_drops], [ip4_loaded_key_uninitialised],
      [classification_failure_fails_open], [check_categories_unused_slot],
      [check_ip_is_block_zero_byte], [parsing_pakage_icmp_as_tcp]), a
      constructor that never returns ([collector_constructor_hangs]), a thread
      that outlives the object ([late_policy_thread_dangles]), a counter
      ([refused_packet_counted_passed]) and a gauge
      ([decreasing_iowait_overshoots]).

    The theorems on the packet path assume that the reads behind
    [categories_with_lvl] are defined ([overrun_wf], true of the struct layout
    of the build targets, [flat_platform]), that the classification struct the
    packet path leaves uninitialised has nulls at the ends of its rows
    ([GarbageClean]) and that the packets parse ([TrafficOk] in the theorems on
    the worker and the process); the theorems named above show what happens
    otherwise.  [worker_enforces], [process_enforces], [MainLoop_stops] and
    [process_exits] ask for a controller whose policies fit the arrays and which
    answers every classification ([cooperative]); neither is guaranteed by the
    controller, and [load_policy_overflow] and
    [classification_failure_fails_open] show what happens otherwise.
    [worker_enforces] takes iterations and policy updates one after the other;
    [policy_race_forwards_blocked] shows that this matters.  The theorems on the
    process start with empty databases, enough memory for [malloc], two different
    interfaces, tables that can be created and a first policy ([first_start]);
    they do not assume that SQLite or the driver succeed.  [process_exits]
    excludes a policy thread that goes on after the object is destroyed
    ([late_policy_thread_dangles] shows one).  [worker_destructor_releases] asks
    for caches that can be written ([orderly_worker]), which the loop keeps;
    only its part on the rows in the database asks for a working SQLite and keys
    with different texts.  [save_load_roundtrip] asks for a working SQLite and
    for keys their texts determine ([saving]), which IPv4 keys are not
    ([ip4_loaded_key_uninitialised]).

    ** What is not modelled

    Logging (with [LogStateChange]); the construction of gRPC channels and of
    the Prometheus registry, beyond the gauges and counters in it; the
    controller (Go), the administration tool and the traffic generators, which
    are other programs.  [record_packet_received] and its companions are without
    their branch for a null object, which is set before any packet arrives.
    Prometheus counters, doubles in the library, are integers.  Concurrency is
    modelled at the granularity of whole operations (iterations, policy
    requests, saves): the caches' spinlocks are taken and released, and acquiring
    a held lock is a fault.  Where the source lets an operation be interleaved,
    [policy_race_forwards_blocked] and [save_race_overruns] show an execution. *)

From Stdlib Require Import ZArith Lia.
From stdpp Require Import prelude gmap strings.

(** ** Outcomes of C code

    A C function either returns or runs into undefined behaviour.  The faults
    are the kinds of undefined behaviour this program can meet; [OutOfFuel]
    marks a loop the model gave up on: it is proved unreachable, except where
    the code itself can run for ever (the loop of the collector's constructor,
    and the main loops until they are stopped). *)

Inductive fault :=
| OutOfBounds
| BadPointer
| BadFree
| Deadlock
| DivByZero
| SignedOverflow
| Uninit
| OutOfFuel.

Inductive res (A : Type) :=
| Ok (a : A)
| Fault (f : fault).
Arguments Ok {A} a.
Arguments Fault {A} f.

#[global] Instance fault_eq_dec : EqDecision fault.
Proof. solve_decision. Defined.
#[global] Instance res_eq_dec `{EqDecision A} : EqDecision (res A).
Proof. solve_decision. Defined.

Definition rbind {A B} (m : res A) (k : A → res B) : res B :=
  match m with
  | Ok a => k a
  | Fault f => Fault f
  end.

(** ** State passing with faults *)

Definition M (S A : Type) : Type := S → res (A * S).

Definition ret {S A} (a : A) : M S A := λ s, Ok (a, s).

Definition bind {S A B} (m : M S A) (k : A → M S B) : M S B := λ s,
  match m s with
  | Ok (a, s') => k a s'
  | Fault f => Fault f
  end.

Definition lift {S A} (r : res A) : M S A := λ s, rbind r (λ a, Ok (a, s)).
Definition gets {S A} (f : S → A) : M S A := λ s, Ok (f s, s).
Definition modify {S} (f : S → S) : M S unit := λ s, Ok (tt, f s).
Definition fail {S A} (f : fault) : M S A := λ _, Fault f.

(** A computation on a component of the state. *)
Definition zoom {S T A} (g : S → T) (p : T → S → S) (m : M T A) : M S A := λ s,
  match m (g s) with
  | Ok (a, t) => Ok (a, p t s)
  | Fault f => Fault f
  end.

Fixpoint for_each {S A} (body : A → M S unit) (l : list A) : M S unit :=
  match l with
  | [] => ret tt
  | x :: l' => bind (body x) (λ _, for_each body l')
  end.

Declare Scope c_scope.
Delimit Scope c_scope with C.

Notation "'let*' x := e 'in' k" := (rbind e (λ x, k))
  (at level 10, x pattern, e at level 200, k at level 200) : c_scope.
Notation "'let!' x := e 'in' k" := (bind e (λ x, k))
  (at level 10, x pattern, e at level 200, k at level 200) : c_scope.
Notation "e1 ;;; e2" := (bind e1 (λ _, e2))
  (at level 100, e2 at level 200, right associativity) : c_scope.
Open Scope c_scope.

(** ** Counted loops with early exit

    [c_for n i body] runs [for (; n > 0; n--, i++) body(i)] where the body may
    fall through, [break] out of the loop, or [return] from the function. *)

Inductive ctl (R : Type) :=
| Next
| Break
| Return (r : R).
Arguments Next {R}.
Arguments Break {R}.
Arguments Return {R} r.

Fixpoint c_for {R} (n i : nat) (body : nat → res (ctl R)) : res (option R) :=
  match n with
  | O => Ok None
  | S n' =>
      let* c := body i in
      match c with
      | Next => c_for n' (S i) body
      | Break => Ok None
      | Return r => Ok (Some r)
      end
  end.

(** The outcome of a nested loop as the control of the enclosing one. *)
Definition as_ctl {R} (r : option R) : ctl R :=
  match r with
  | Some x => Return x
  | None => Next
  end.

(** ** Arrays: reads and writes are faults out of range *)

Definition array_get {A} (l : list A) (i : nat) : res A :=
  match l !! i with
  | Some x => Ok x
  | None => Fault OutOfBounds
  end.

Definition array_set {A} (l : list A) (i : nat) (x : A) : res (list A) :=
  if decide (i < length l) then Ok (<[i:=x]> l) else Fault OutOfBounds.

(** The loop [for (i...) table[i] = f(x_i, table[i])] over the remaining values,
    the first of which goes to index [i]. *)
Fixpoint fill_rows {A B} (f : A → B → res B) (xs : list A) (i : nat) (table : list B) :
    res (list B) :=
  match xs with
  | [] => Ok table
  | x :: xs' =>
      let* row := array_get table i in
      let* row := f x row in
      let* table := array_set table i row in
      fill_rows f xs' (S i) table
  end.

(** The entries of a list before the first one satisfying [stop]: what a loop
    that breaks at [stop] gets to see. *)
Fixpoint live {A} (stop : A → bool) (l : list A) : list A :=
  match l with
  | [] => []
  | x :: l' => if stop x then [] else x :: live stop l'
  end.

(** ** Automation *)

Create HintDb cdb.
Create Rewrite HintDb crw.

(** Case analysis on the matches and conditionals of the goal or of a
    hypothesis, keeping the equations. *)
Ltac split_match :=
  match goal with
  | |- context [match ?x with _ => _ end] =>
      let E := fresh "E" in destruct x eqn:E
  end.
Ltac split_match_in H :=
  match type of H with
  | context [match ?x with _ => _ end] =>
      let E := fresh "E" in destruct x eqn:E
  end.

(** ** Generic lemmas *)

Section res_lemmas.
Context {A B : Type}.

Lemma rbind_Ok (m : res A) (k : A → res B) b :
  rbind m k = Ok b ↔ ∃ a, m = Ok a ∧ k a = Ok b.
Proof. destruct m; simpl; naive_solver. Qed.

Lemma array_get_Ok (l : list A) i x : array_get l i = Ok x ↔ l !! i = Some x.
Proof. unfold array_get. destruct (l !! i); naive_solver. Qed.

Lemma array_get_lt (l : list A) i :
  i < length l → ∃ x, array_get l i = Ok x ∧ l !! i = Some x.
Proof.
  intros Hi. destruct (lookup_lt_is_Some_2 l i Hi) as [x Hx].
  exists x. by rewrite array_get_Ok.
Qed.

Lemma array_get_ge (l : list A) i :
  length l ≤ i → array_get l i = Fault OutOfBounds.
Proof. intros Hi. unfold array_get. by rewrite lookup_ge_None_2. Qed.

Lemma array_set_Ok (l l' : list A) i x :
  array_set l i x = Ok l' ↔ i < length l ∧ l' = <[i:=x]> l.
Proof. unfold array_set. case_decide; naive_solver. Qed.
End res_lemmas.

Section state_lemmas.
Context {S A B : Type}.

Lemma bind_Ok (m : M S A) (k : A → M S B) s r :
  bind m k s = Ok r ↔ ∃ a s', m s = Ok (a, s') ∧ k a s' = Ok r.
Proof. unfold bind. destruct (m s) as [[a s']|f]; naive_solver. Qed.

Lemma bind_eq (m : M S A) (k : A → M S B) s a s' :
  m s = Ok (a, s') → bind m k s = k a s'.
Proof. intros H. unfold bind. by rewrite H. Qed.

Lemma bind_lift (a : A) (k : A → M S B) s : bind (lift (Ok a)) k s = k a s.
Proof. done. Qed.

Lemma zoom_eq {T} (g : S → T) (p : T → S → S) (m : M T A) s a t :
  m (g s) = Ok (a, t) → zoom g p m s = Ok (a, p t s).
Proof. intros H. unfold zoom. by rewrite H. Qed.

(** Consecutive computations on the same component are one. *)
Lemma zoom_bind {T} (g : S → T) (p : T → S → S) (m : M T A) (k : A → M T B) s :
  (∀ t s, g (p t s) = t) → (∀ t t' s, p t (p t' s) = p t s) →
  bind (zoom g p m) (λ a, zoom g p (k a)) s = zoom g p (bind m k) s.
Proof.
  intros Hg Hp. unfold bind, zoom. destruct (m (g s)) as [[a t]|]; [|done].
  rewrite Hg. destruct (k a t) as [[b t']|]; [|done]. by rewrite Hp.
Qed.
End state_lemmas.

(** ** Preservation

    A predicate on the state that a computation preserves whenever it returns;
    [yields] is what its value is then known to satisfy. *)
Definition preserves {S A} (P : S → Prop) (m : M S A) : Prop :=
  ∀ s a s', P s → m s = Ok (a, s') → P s'.
Definition yields {S A} (P : S → Prop) (m : M S A) (Q : A → Prop) : Prop :=
  ∀ s a s', P s → m s = Ok (a, s') → Q a.

Section preservation.
Context {S A B : Type} (P : S → Prop).

Lemma preserves_ret (a : A) : preserves P (ret a).
Proof. by intros s b s' Hs [= _ <-]. Qed.
Lemma preserves_fail f : preserves P (fail (A:=A) f).
Proof. by intros s b s' Hs. Qed.
Lemma preserves_gets (f : S → A) : preserves P (gets f).
Proof. by intros s b s' Hs [= _ <-]. Qed.
Lemma preserves_lift (r : res A) : preserves P (lift r).
Proof. intros s b s' Hs. unfold lift. destruct r; [|done]. by intros [= _ <-]. Qed.
Lemma preserves_modify (f : S → S) : (∀ s, P s → P (f s)) → preserves P (modify f).
Proof. intros Hf s b s' Hs [= _ <-]. by apply Hf. Qed.

Lemma preserves_bind_with (m : M S A) (k : A → M S B) (Q : A → Prop) :
  preserves P m → yields P m Q → (∀ a, Q a → preserves P (k a)) → preserves P (bind m k).
Proof.
  intros Hm Hq Hk s b s' Hs (a & s1 & H1 & H2)%bind_Ok. eapply Hk; [by eapply Hq| |done]. by eapply Hm.
Qed.
Lemma preserves_bind (m : M S A) (k : A → M S B) :
  preserves P m → (∀ a, preserves P (k a)) → preserves P (bind m k).
Proof. intros Hm Hk. apply (preserves_bind_with m k (λ _, True)); [done|done|]. intros a _. apply Hk. Qed.

Lemma preserves_for_each (f : A → M S unit) l : (∀ x, preserves P (f x)) → preserves P (for_each f l).
Proof.
  intros Hf. induction l as [|x l IH]; [by intros s b s' Hs [= _ <-]|].
  intros s b s' Hs ([] & s1 & H1 & H2)%bind_Ok. eapply IH; [|done]. by eapply Hf.
Qed.

Lemma preserves_zoom {T} (Q : T → Prop) (g : S → T) (p : T → S → S) (m : M T A) :
  (∀ s, P s → Q (g s)) → (∀ t s, P s → Q t → P (p t s)) → preserves Q m → preserves P (zoom g p m).
Proof.
  intros Hg Hp Hm s b s' Hs. unfold zoom. destruct (m (g s)) as [[a t]|] eqn:Er; [|done].
  intros [= _ <-]. apply Hp; [done|]. eapply Hm; [|exact Er]. by apply Hg.
Qed.
End preservation.

#[export] Hint Resolve preserves_ret preserves_fail preserves_gets preserves_lift : cdb.

(** Takes a computation apart down to the calls the hints know. *)
Ltac preserve :=
  repeat first
    [ progress auto with cdb
    | match goal with
      | |- preserves _ (bind _ _) => apply preserves_bind; [|intros ?]
      | |- preserves _ (match ?x with _ => _ end) => destruct x eqn:?
      end ].

Section live_lemmas.
Context {A : Type} (stop : A → bool).

Lemma elem_of_live l x : x ∈ live stop l → x ∈ l ∧ stop x = false.
Proof.
  induction l as [|y l IH]; simpl; [by intros ?%elem_of_nil|].
  destruct (stop y) eqn:Hy; [by intros ?%elem_of_nil|].
  rewrite !elem_of_cons. naive_solver.
Qed.

End live_lemmas.

(** A counted loop whose body looks at one array entry, breaks at [stop] and
    returns at [hit], is a search among the live entries. *)
Lemma c_for_scan {A R} (stop hit : A → bool) (r : R) (l : list A) n i body :
  n ≤ length l →
  (∀ j x, l !! j = Some x → j < n →
     body (i + j) = Ok (if stop x then Break else if hit x then Return r else Next)) →
  c_for n i body = Ok (if existsb hit (live stop (take n l)) then Some r else None).
Proof.
  revert i l. induction n as [|n IH]; intros i l Hn Hbody; [by destruct l|].
  destruct l as [|x l]; simpl in Hn; [lia|].
  pose proof (Hbody 0 x eq_refl ltac:(lia)) as H0. rewrite Nat.add_0_r in H0.
  simpl. rewrite H0. simpl.
  destruct (stop x); [done|]. simpl.
  destruct (hit x); [done|]. simpl.
  apply IH; [lia|]. intros j y Hj Hlt.
  replace (S i + j) with (i + S j) by lia. apply Hbody; [done|lia].
Qed.

Lemma c_for_scan0 {A R} (stop hit : A → bool) (r : R) (l : list A) n body :
  n ≤ length l →
  (∀ j x, l !! j = Some x → j < n →
     body j = Ok (if stop x then Break else if hit x then Return r else Next)) →
  c_for n 0 body = Ok (if existsb hit (live stop (take n l)) then Some r else None).
Proof. apply (c_for_scan stop hit r l n 0 body). Qed.

Lemma live_all {A} (l : list A) : live (λ _, false) l = l.
Proof. induction l as [|x l IH]; [done|]. simpl. by rewrite IH. Qed.

(** Two nested counted loops over the rows of two tables. *)
Lemma c_for_nested {A B R} (hit : A → B → bool) (r : R) la lb n m
    (body : nat → nat → res (ctl R)) :
  n ≤ length la → m ≤ length lb →
  (∀ i j a b, la !! i = Some a → lb !! j = Some b →
     body i j = Ok (if hit a b then Return r else Next)) →
  c_for n 0 (λ i, let* r' := c_for m 0 (body i) in Ok (as_ctl r'))
  = Ok (if existsb (λ a, existsb (hit a) (take m lb)) (take n la) then Some r else None).
Proof.
  intros Hn Hm Hbody.
  rewrite (c_for_scan0 (λ _, false) (λ a, existsb (hit a) (take m lb)) r la); [|done|].
  - by rewrite live_all.
  - intros i a Ha _.
    rewrite (c_for_scan0 (λ _, false) (hit a) r lb); [|done|by eauto].
    rewrite live_all. simpl. by destruct (existsb _ _).
Qed.

(** A loop that overruns its array: it returns at the first entry that hits and
    otherwise meets the fault of the first read behind the array. *)
Lemma c_for_overrun {A R} (hit : A → bool) (r : R) (l : list A) n i f body :
  length l < n →
  (∀ j x, l !! j = Some x →
     body (i + j) = Ok (if hit x then Return r else Next)) →
  body (i + length l) = Fault f →
  c_for n i body = if existsb hit l then Ok (Some r) else Fault f.
Proof.
  revert n i. induction l as [|x l IH]; intros n i Hn Hbody Hf; simpl in *.
  - destruct n; [lia|]. simpl. rewrite Nat.add_0_r in Hf. by rewrite Hf.
  - destruct n as [|n]; [lia|]. simpl.
    pose proof (Hbody 0 x eq_refl) as H0. rewrite Nat.add_0_r in H0. rewrite H0. simpl.
    destruct (hit x); [done|]. simpl. apply IH; [lia| |].
    + intros j y Hj. replace (S i + j) with (i + S j) by lia. by apply Hbody.
    + by replace (S i + length l) with (i + S (length l)) by lia.
Qed.

(** A loop that fills the rows of a table replaces the first rows and keeps the
    others; with more values than rows it runs into the end of the table. *)
Section fill_rows.
Context {A B : Type} (f : A → B → res B) (g : A → B → B) (P : B → Prop).
Hypothesis Hf : ∀ x row, P row → f x row = Ok (g x row).

Lemma fill_rows_step x xs pre row rows :
  P row → fill_rows f (x :: xs) (length pre) (pre ++ row :: rows)
          = fill_rows f xs (length (pre ++ [g x row])) ((pre ++ [g x row]) ++ rows).
Proof using Hf.
  intros Hrow. cbn [fill_rows]. rewrite (proj2 (array_get_Ok _ _ row)) by apply list_lookup_middle, eq_refl.
  cbn [rbind]. rewrite Hf by done. cbn [rbind].
  rewrite (proj2 (array_set_Ok _ (pre ++ g x row :: rows) _ _)); cycle 1.
  { rewrite length_app. cbn. split; [lia|]. rewrite insert_app_r_alt, Nat.sub_diag by lia. done. }
  cbn [rbind]. rewrite length_app, Nat.add_1_r. by rewrite <- app_assoc.
Qed.

Lemma fill_rows_app xs pre rows :
  Forall P rows → length xs ≤ length rows →
  fill_rows f xs (length pre) (pre ++ rows)
  = Ok (pre ++ zip_with g xs rows ++ drop (length xs) rows).
Proof using Hf.
  revert pre rows. induction xs as [|x xs IH]; intros pre rows HP Hlen; [done|].
  destruct HP as [|row rows Hrow HP]; cbn in Hlen; [lia|].
  rewrite fill_rows_step, IH by (done || lia). by rewrite <- app_assoc.
Qed.

Lemma fill_rows_spec xs rows :
  Forall P rows → length xs ≤ length rows →
  fill_rows f xs 0 rows = Ok (zip_with g xs rows ++ drop (length xs) rows).
Proof using Hf. apply (fill_rows_app xs []). Qed.

Lemma fill_rows_overflow xs pre rows :
  Forall P rows → length rows < length xs →
  fill_rows f xs (length pre) (pre ++ rows) = Fault OutOfBounds.
Proof using Hf.
  revert pre rows. induction xs as [|x xs IH]; intros pre rows HP Hlen; cbn in Hlen; [lia|].
  destruct HP as [|row rows Hrow HP].
  - cbn [fill_rows]. rewrite app_nil_r, array_get_ge by done. done.
  - cbn in Hlen. rewrite fill_rows_step, IH by (done || lia). done.
Qed.
End fill_rows.

#[export] Hint Resolve array_get_lt : cdb.
#[global] Arguments c_for : simpl never.
