(* ===== verification/CMem.v ===== *)
(** * The C the program is written in

    Machine integers as [Z] with their wrap-around written out, little-endian
    loads and stores (both targets of the build, x86_64 and riscv64, are
    little-endian), byte buffers as lists of [Z], and the functions of
    [<string.h>] the sources call: [strcmp], [strncpy], [memcmp], [memcpy].  A
    read or write outside its buffer is [Fault OutOfBounds]. *)

From Stdlib Require Import ZArith Lia.
From stdpp Require Import prelude gmap strings.
From S2P Require Import Prelude.

Local Open Scope Z_scope.

(** ** Machine integers *)

Definition u16 (z : Z) : Z := z mod 2 ^ 16.
Definition u32 (z : Z) : Z := z mod 2 ^ 32.
Definition u64 (z : Z) : Z := z mod 2 ^ 64.

(** Conversion to the signed types [int] and [sqlite3_int64]. *)
Definition i32 (z : Z) : Z := (z + 2 ^ 31) mod 2 ^ 32 - 2 ^ 31.
Definition i64 (z : Z) : Z := (z + 2 ^ 63) mod 2 ^ 64 - 2 ^ 63.

(** Unsigned 64-bit division; the C operator is undefined on a zero divisor. *)
Definition div64 (a b : Z) : res Z := if b =? 0 then Fault DivByZero else Ok (a / b).

(** Little-endian loads of 16 and 32 bits, and the byte swap that
    [rte_cpu_to_be_16] and [rte_be_to_cpu_16] perform on these targets. *)
Definition le16 (b0 b1 : Z) : Z := b0 + 256 * b1.
Definition le32 (b0 b1 b2 b3 : Z) : Z := b0 + 256 * (b1 + 256 * (b2 + 256 * b3)).
Definition bswap16 (z : Z) : Z := 256 * (z mod 256) + (z / 256) mod 256.
Definition rte_cpu_to_be_16 (z : Z) : Z := bswap16 z.
Definition rte_be_to_cpu_16 (z : Z) : Z := bswap16 z.

Definition le_bytes32 (z : Z) : list Z :=
  [z mod 256; (z / 256) mod 256; (z / 65536) mod 256; (z / 16777216) mod 256].

(** ** Byte buffers *)

Definition zeros (n : nat) : list Z := replicate n 0.

Definition bytes_of_string (s : string) : list Z :=
  (λ a, Z.of_N (Ascii.N_of_ascii a)) <$> String.list_ascii_of_string s.

(** A string literal, or the result of [std::string::c_str]: the characters
    followed by a null. *)
Definition c_str (s : list Z) : list Z := s ++ [0].

(** The string a buffer holds: the bytes before the first null, if there is
    one. *)
Fixpoint cstr (a : list Z) : option (list Z) :=
  match a with
  | [] => None
  | x :: a' => if x =? 0 then Some [] else cons x <$> cstr a'
  end.

Definition terminated (a : list Z) : bool := existsb (λ x, x =? 0) a.

Fixpoint strcmp (a b : list Z) : res Z :=
  match a, b with
  | x :: a', y :: b' =>
      if x =? y then (if x =? 0 then Ok 0 else strcmp a' b') else Ok (x - y)
  | _, _ => Fault OutOfBounds
  end.

(** The [n] bytes [strncpy] stores: the source up to its null, padded with
    nulls; no terminator when the source is [n] bytes or longer. *)
Fixpoint strncpy_bytes (src : list Z) (n : nat) {struct n} : res (list Z) :=
  match n with
  | O => Ok []
  | S n' =>
      match src with
      | [] => Fault OutOfBounds
      | c :: src' =>
          if c =? 0 then Ok (zeros n)
          else let* r := strncpy_bytes src' n' in Ok (c :: r)
      end
  end.

(** Overwriting the bytes of a buffer from index [i] on. *)
Definition store (dst : list Z) (i : nat) (bs : list Z) : res (list Z) :=
  if decide (i + length bs ≤ length dst)%nat
  then Ok (take i dst ++ bs ++ drop (i + length bs) dst)
  else Fault OutOfBounds.

(** Reading [n] bytes of a buffer from index [i] on. *)
Definition load (src : list Z) (i n : nat) : res (list Z) :=
  if decide (i + n ≤ length src)%nat
  then Ok (take n (drop i src))
  else Fault OutOfBounds.

Definition strncpy (dst src : list Z) (n : nat) : res (list Z) :=
  let* bs := strncpy_bytes src n in store dst 0 bs.

Definition memcpy (dst : list Z) (i : nat) (src : list Z) (j n : nat) : res (list Z) :=
  let* bs := load src j n in store dst i bs.

(** [memcmp(a, b, n) == 0]. *)
Definition memcmp_eq (a b : list Z) (n : nat) : res bool :=
  let* x := load a 0 n in
  let* y := load b 0 n in
  Ok (bool_decide (x = y)).

(** ** Lemmas *)

Section integers.
Lemma u64_small z : 0 ≤ z < 2 ^ 64 → u64 z = z.
Proof. apply Z.mod_small. Qed.
Lemma u32_small z : 0 ≤ z < 2 ^ 32 → u32 z = z.
Proof. apply Z.mod_small. Qed.
Lemma u64_range z : 0 ≤ u64 z < 2 ^ 64.
Proof. apply Z.mod_pos_bound. lia. Qed.
Lemma u32_range z : 0 ≤ u32 z < 2 ^ 32.
Proof. apply Z.mod_pos_bound. lia. Qed.

(** The casts through the signed SQLite columns lose nothing. *)
Lemma u64_i64 z : u64 (i64 z) = u64 z.
Proof.
  unfold u64, i64. rewrite Zminus_mod_idemp_l.
  f_equal. lia.
Qed.
Lemma u32_i32 z : u32 (i32 z) = u32 z.
Proof.
  unfold u32, i32. rewrite Zminus_mod_idemp_l.
  f_equal. lia.
Qed.
Lemma i32_range z : - 2 ^ 31 ≤ i32 z < 2 ^ 31.
Proof. unfold i32. pose proof (Z.mod_pos_bound (z + 2 ^ 31) (2 ^ 32)). lia. Qed.
Lemma bswap16_invol z : 0 ≤ z < 65536 → bswap16 (bswap16 z) = z.
Proof.
  intros H. unfold bswap16.
  pose proof (Z.div_mod z 256 ltac:(lia)).
  assert (0 ≤ z mod 256 < 256) by (apply Z.mod_pos_bound; lia).
  assert (0 ≤ z / 256 < 256) by (split; [apply Z.div_pos | apply Z.div_lt_upper_bound]; lia).
  rewrite (Z.mod_small (z / 256)) by lia.
  replace ((256 * (z mod 256) + z / 256) mod 256) with (z / 256).
  2:{ symmetry. rewrite Z.add_comm, Z.mul_comm, Z_mod_plus_full. apply Z.mod_small. lia. }
  replace ((256 * (z mod 256) + z / 256) / 256) with (z mod 256).
  2:{ rewrite Z.add_comm, Z.mul_comm, Z_div_plus_full by lia.
      rewrite (Z.div_small (z / 256)) by lia. lia. }
  rewrite (Z.mod_small (z mod 256)) by lia. lia.
Qed.
(** A 32-bit number is determined by its bytes. *)
Lemma le_bytes32_le32 z :
  0 ≤ z < 2 ^ 32 →
  z = le32 (z mod 256) ((z / 256) mod 256) ((z / 65536) mod 256) ((z / 16777216) mod 256).
Proof.
  intros Hz. unfold le32.
  replace (z / 65536) with (z / 256 / 256) by (rewrite Z.div_div by lia; done).
  replace (z / 16777216) with (z / 256 / 256 / 256) by (rewrite !Z.div_div by lia; done).
  pose proof (Z.div_mod z 256 ltac:(lia)).
  pose proof (Z.div_mod (z / 256) 256 ltac:(lia)).
  pose proof (Z.div_mod (z / 256 / 256) 256 ltac:(lia)).
  rewrite (Z.mod_small (z / 256 / 256 / 256)); [lia|].
  rewrite !Z.div_div by lia. split; [apply Z.div_pos; lia|].
  apply Z.div_lt_upper_bound; lia.
Qed.

Lemma le_bytes32_inj a b :
  0 ≤ a < 2 ^ 32 → 0 ≤ b < 2 ^ 32 → le_bytes32 a = le_bytes32 b → a = b.
Proof.
  intros Ha Hb [= H0 H1 H2 H3].
  rewrite (le_bytes32_le32 a), (le_bytes32_le32 b) by done. congruence.
Qed.
End integers.

Section buffers.
Implicit Types a b src dst bs : list Z.

Lemma store_length dst i bs dst' :
  store dst i bs = Ok dst' → length dst' = length dst.
Proof.
  unfold store. case_decide; intros [= <-].
  rewrite !length_app, length_take, length_drop. lia.
Qed.

Lemma load_length src i n bs : load src i n = Ok bs → length bs = n.
Proof.
  unfold load. case_decide; intros [= <-].
  rewrite length_take, length_drop. lia.
Qed.

Lemma load_all src n : length src = n → load src 0 n = Ok src.
Proof.
  intros <-. unfold load. rewrite decide_True by lia.
  by rewrite drop_0, take_ge.
Qed.

Lemma memcmp_eq_all a b n :
  length a = n → length b = n → memcmp_eq a b n = Ok (bool_decide (a = b)).
Proof.
  intros Ha Hb. unfold memcmp_eq. rewrite (load_all a n Ha). simpl.
  by rewrite (load_all b n Hb).
Qed.
End buffers.

Lemma zeros_length n : length (zeros n) = n.
Proof. apply length_replicate. Qed.

Section strings.
Implicit Types a b s src dst : list Z.

Lemma cstr_terminated a : terminated a = true ↔ is_Some (cstr a).
Proof.
  induction a as [|x a IH]; simpl; [by split; [|intros [??]]|].
  destruct (x =? 0); simpl; [by split; eauto|].
  rewrite IH. by rewrite fmap_is_Some.
Qed.

Lemma cstr_no_null a s : cstr a = Some s → Forall (λ x, x ≠ 0) s.
Proof.
  revert s. induction a as [|x a IH]; simpl; intros s; [done|].
  destruct (Z.eqb_spec x 0); [by intros [= <-]|].
  destruct (cstr a); intros [= <-]. constructor; eauto.
Qed.

Lemma cstr_app s a : Forall (λ x, x ≠ 0) s → cstr (s ++ 0 :: a) = Some s.
Proof.
  induction 1 as [|x s Hx Hs IH]; simpl; [done|].
  destruct (Z.eqb_spec x 0); [done|]. by rewrite IH.
Qed.

Lemma cstr_split a s : cstr a = Some s → ∃ r, a = s ++ 0 :: r.
Proof.
  revert s. induction a as [|x a IH]; simpl; intros s; [done|].
  destruct (Z.eqb_spec x 0) as [->|]; [intros [= <-]; by exists a|].
  destruct (cstr a) as [s'|]; intros [= <-].
  destruct (IH s' eq_refl) as [r ->]. by exists r.
Qed.

(** On terminated strings [strcmp] does not leave its buffers and returns
    zero exactly for equal strings. *)
Lemma strcmp_cstr a b s t :
  cstr a = Some s → cstr b = Some t →
  ∃ c, strcmp a b = Ok c ∧ (c = 0 ↔ s = t).
Proof.
  revert b s t. induction a as [|x a IH]; intros b s t Ha Hb; [done|].
  destruct b as [|y b]; [done|]. simpl in *.
  destruct (Z.eqb_spec x y) as [->|Hne].
  - destruct (Z.eqb_spec y 0) as [->|Hy].
    + simplify_eq. exists 0. done.
    + destruct (cstr a) as [s'|]; [|done]. destruct (cstr b) as [t'|] eqn:Eb; [|done].
      simplify_eq/=. destruct (IH b s' t' eq_refl Eb) as (c & Hc & Hiff).
      exists c. split; [done|]. rewrite Hiff. naive_solver.
  - exists (x - y). split; [done|]. split; [lia|]. intros ->.
    destruct (Z.eqb_spec x 0), (Z.eqb_spec y 0);
      destruct (cstr a), (cstr b); simplify_eq/=; try lia; congruence.
Qed.

Lemma strcmp_eqb a b s t :
  cstr a = Some s → cstr b = Some t →
  (let* c := strcmp a b in Ok (c =? 0)) = Ok (bool_decide (s = t)).
Proof.
  intros Ha Hb. destruct (strcmp_cstr a b s t Ha Hb) as (c & -> & Hc). simpl.
  f_equal. case_bool_decide as Hst.
  - apply Z.eqb_eq. by apply Hc.
  - apply Z.eqb_neq. tauto.
Qed.

Lemma strncpy_bytes_length src n bs :
  strncpy_bytes src n = Ok bs → length bs = n.
Proof.
  revert src bs. induction n as [|n IH]; intros src bs H; simpl in H.
  - by simplify_eq.
  - destruct src as [|c src]; [done|]. destruct (c =? 0).
    + simplify_eq. apply length_replicate.
    + apply rbind_Ok in H as (r & Hr & H). simplify_eq/=. f_equal. eauto.
Qed.

(** A source string shorter than [n] is copied and padded; a longer one is
    cut at [n] bytes. *)
Lemma strncpy_bytes_fits src s n :
  cstr src = Some s → (length s ≤ n)%nat →
  strncpy_bytes src n = Ok (s ++ zeros (n - length s)).
Proof.
  revert src s. induction n as [|n IH]; intros src s Hs Hn; simpl.
  - destruct s; [done|simpl in Hn; lia].
  - destruct src as [|c src]; [done|]. simpl in Hs.
    destruct (c =? 0); [by simplify_eq/=|].
    destruct (cstr src) as [s'|] eqn:E; simplify_eq/=.
    by rewrite (IH src s' E) by lia.
Qed.

Lemma strncpy_bytes_cut src s n :
  cstr src = Some s → (n ≤ length s)%nat → strncpy_bytes src n = Ok (take n s).
Proof.
  revert src s. induction n as [|n IH]; intros src s Hs Hn; simpl; [done|].
  destruct src as [|c src]; [done|]. simpl in Hs.
  destruct (c =? 0); simplify_eq/=; [lia|].
  destruct (cstr src) as [s'|] eqn:E; simplify_eq/=.
  by rewrite (IH src s' E) by lia.
Qed.
(** From a terminated source [strncpy] reads no further than the null. *)
Lemma strncpy_bytes_total src n :
  terminated src = true → ∃ bs, strncpy_bytes src n = Ok bs ∧ length bs = n.
Proof.
  intros [s Hs]%cstr_terminated.
  destruct (decide (length s ≤ n)%nat) as [Hn|Hn].
  - rewrite (strncpy_bytes_fits src s n) by done. eexists. split; [done|].
    rewrite length_app, zeros_length. lia.
  - rewrite (strncpy_bytes_cut src s n) by (done || lia). eexists. split; [done|].
    rewrite length_take. lia.
Qed.

Lemma terminated_elem a : 0 ∈ a → terminated a = true.
Proof. intros Hin. apply existsb_exists. exists 0. split; [by apply list_elem_of_In|done]. Qed.

Lemma c_str_terminated s : terminated (c_str s) = true.
Proof. unfold terminated, c_str. rewrite existsb_app. cbn. apply orb_true_r. Qed.

Lemma cstr_c_str s : Forall (λ x, x ≠ 0) s → cstr (c_str s) = Some s.
Proof. apply (cstr_app s []). Qed.
End strings.

#[export] Hint Resolve u64_range u32_range i32_range : cdb.
#[export] Hint Rewrite u64_i64 u32_i32 : crw.
#[global] Arguments strcmp : simpl never.
#[global] Arguments strncpy_bytes : simpl never.
#[global] Arguments memcmp_eq : simpl never.
#[global] Arguments cstr : simpl never.
