(* ===== verification/Stream.v ===== *)
(** * Reading numbers and words: the C++ streams and conversions

    What the sources use of [std::istream] ([operator>>] of words and integers,
    [std::getline]), of [std::stoull] and of [std::to_string], which are part of
    the language.  A stream is the text not read yet and its state bits; an
    extraction from a stream that is not good sets the failure bit and leaves
    its variable as it was ([None]). *)

From Stdlib Require Import ZArith Lia.
From stdpp Require Import prelude gmap strings.
From S2P Require Import Prelude CMem.

Local Open Scope Z_scope.

(** ** Characters *)

(** White space and digits of the "C" locale. *)
Definition isspace (c : Z) : bool := (c =? 32) || ((9 <=? c) && (c <=? 13)).
Definition isdigit (c : Z) : bool := (48 <=? c) && (c <=? 57).

(** The longest prefix of characters with the property, and the rest. *)
Fixpoint span (p : Z → bool) (l : list Z) : list Z * list Z :=
  match l with
  | [] => ([], [])
  | c :: l' => if p c then let (a, r) := span p l' in (c :: a, r) else ([], l)
  end.

Definition skip_space (l : list Z) : list Z := (span isspace l).2.

(** The sign and the digits in front of a text. *)
Definition scan_sign (l : list Z) : bool * list Z :=
  match l with
  | c :: l' => if c =? 45 then (true, l') else if c =? 43 then (false, l') else (false, l)
  | [] => (false, l)
  end.

Definition digits_value (ds : list Z) : Z := foldl (λ v d, 10 * v + (d - 48)) 0 ds.

(** ** Streams *)

Record istream := IStream { is_rest : list Z; is_eof : bool; is_fail : bool }.

Definition good (s : istream) : bool := negb (is_eof s) && negb (is_fail s).

(** A file that could not be opened gives a failed stream. *)
Definition open_stream (content : option (list Z)) : istream :=
  match content with
  | Some text => IStream text false false
  | None => IStream [] false true
  end.

(** The sentry of a formatted extraction: white space is skipped; at the end of
    the text, or if the stream is not good, the extraction fails. *)
Definition sentry (s : istream) : bool * istream :=
  if good s then
    match skip_space (is_rest s) with
    | [] => (false, IStream [] true true)
    | r => (true, IStream r false false)
    end
  else (false, IStream (is_rest s) (is_eof s) true).

Definition at_end (r : list Z) : bool := match r with [] => true | _ => false end.

(** [stream >> word] *)
Definition read_word (s : istream) : option (list Z) * istream :=
  let (ok, s) := sentry s in
  if (ok : bool) then
    let (w, r) := span (λ c, negb (isspace c)) (is_rest s) in
    (Some w, IStream r (at_end r) false)
  else (None, s).

(** The integer types read: [long], [int] and [uint64_t]. *)
Record int_type := IntType { it_signed : bool; it_max : Z }.
Definition long_t : int_type := IntType true (2 ^ 63 - 1).
Definition int_t : int_type := IntType true (2 ^ 31 - 1).
Definition uint64_t : int_type := IntType false (2 ^ 64 - 1).

(** The value stored for a sign and digits, and whether they fit: out of range
    the nearest limit is stored and the extraction fails.  A negative number is
    negated modulo the range of an unsigned type. *)
Definition int_value (t : int_type) (neg : bool) (v : Z) : Z * bool :=
  if it_signed t then
    let x := if neg then - v else v in
    if x >? it_max t then (it_max t, false)
    else if x <? - it_max t - 1 then (- it_max t - 1, false)
    else (x, true)
  else
    if v >? it_max t then (it_max t, false)
    else ((if neg then - v else v) mod (it_max t + 1), true).

(** [stream >> number]; without digits the variable becomes 0. *)
Definition read_int (t : int_type) (s : istream) : option Z * istream :=
  let (ok, s) := sentry s in
  if (ok : bool) then
    let (neg, r) := scan_sign (is_rest s) in
    let (ds, r) := span isdigit r in
    match ds with
    | [] => (Some 0, IStream r (at_end r) true)
    | _ => let (v, fits) := int_value t neg (digits_value ds) in
           (Some v, IStream r (at_end r) (negb fits))
    end
  else (None, s).

(** [std::getline]: the characters up to the end of the line, which is removed.
    Nothing to extract is a failure. *)
Definition getline (s : istream) : option (list Z) * istream :=
  if good s then
    if at_end (is_rest s) then (Some [], IStream [] true true) else
    let (l, r) := span (λ c, negb (c =? 10)) (is_rest s) in
    match r with
    | [] => (Some l, IStream [] true false)
    | _ :: r' => (Some l, IStream r' false false)
    end
  else (None, IStream (is_rest s) (is_eof s) true).

(** ** Conversions *)

Inductive exn :=
| invalid_argument
| out_of_range
| runtime_error (what : string).

#[global] Instance exn_eq_dec : EqDecision exn.
Proof. solve_decision. Defined.

(** [std::stoull]: white space and a sign are accepted in front, anything
    behind; a negative number is negated modulo [2 ^ 64]. *)
Definition stoull (s : list Z) : exn + Z :=
  let (neg, r) := scan_sign (skip_space s) in
  let (ds, _) := span isdigit r in
  match ds with
  | [] => inl invalid_argument
  | _ =>
      let (v, fits) := int_value uint64_t neg (digits_value ds) in
      if (fits : bool) then inr v else inl out_of_range
  end.

(** The decimal digits of a number below [10 ^ n]. *)
Fixpoint dec_digits (n : nat) (v : Z) : list Z :=
  match n with
  | O => []
  | S n' => if v <? 10 then [48 + v] else dec_digits n' (v / 10) ++ [48 + v mod 10]
  end.

(** [std::to_string] of a 64-bit number. *)
Definition to_string (v : Z) : list Z := dec_digits 20 v.

(** ** Lemmas *)

(** The rest of a text does not go on with characters of the property. *)
Definition stops (p : Z → bool) (r : list Z) : Prop :=
  match r with [] => True | c :: _ => p c = false end.

Section span.
Context (p : Z → bool).
Implicit Types (l r : list Z).

Lemma span_eq l : (span p l).1 ++ (span p l).2 = l.
Proof.
  induction l as [|c l IH]; [done|]. cbn. destruct (p c); [|done].
  destruct (span p l). cbn in *. by rewrite IH.
Qed.

Lemma span_stops l : stops p (span p l).2.
Proof.
  induction l as [|c l IH]; [done|]. cbn. destruct (p c) eqn:Ec; [|done].
  destruct (span p l). done.
Qed.

Lemma span_app l r : Forall (λ c, p c = true) l → stops p r → span p (l ++ r) = (l, r).
Proof.
  intros Hl Hr. induction Hl as [|c l Hc _ IH]; cbn.
  - destruct r as [|c r]; [done|]. cbn in *. by rewrite Hr.
  - by rewrite Hc, IH.
Qed.

Lemma span_length l : (length (span p l).2 ≤ length l)%nat.
Proof. rewrite <- (span_eq l) at 2. rewrite length_app. lia. Qed.
End span.

(** *** Decimal numbers *)

Lemma isdigit_true c : isdigit c = true ↔ 48 ≤ c ≤ 57.
Proof. unfold isdigit. rewrite andb_true_iff, !Z.leb_le. lia. Qed.

Lemma digits_value_app ds d : digits_value (ds ++ [d]) = 10 * digits_value ds + (d - 48).
Proof. unfold digits_value. by rewrite foldl_app. Qed.

Lemma dec_digits_spec n v :
  0 ≤ v < 10 ^ Z.of_nat (S n) →
  dec_digits (S n) v ≠ [] ∧ Forall (λ c, isdigit c = true) (dec_digits (S n) v)
  ∧ digits_value (dec_digits (S n) v) = v.
Proof.
  revert v. induction n as [|n IH]; intros v Hv; change (dec_digits (S ?m) v) with
    (if v <? 10 then [48 + v] else dec_digits m (v / 10) ++ [48 + v mod 10]);
    destruct (Z.ltb_spec v 10) as [Hs|Hs].
  2: { cbn in Hv. lia. }
  1, 2: split; [done|]; split; [apply Forall_singleton, isdigit_true; lia|];
    unfold digits_value; cbn; lia.
  pose proof (Z.div_mod v 10 ltac:(lia)). pose proof (Z.mod_pos_bound v 10 ltac:(lia)).
  rewrite Nat2Z.inj_succ, Z.pow_succ_r in Hv by lia.
  destruct (IH (v / 10)) as (Hne & Hd & Hval); [split; [apply Z.div_pos; lia|apply Z.div_lt_upper_bound; lia]|].
  split; [by destruct (dec_digits (S n) (v / 10))|]. split.
  - apply Forall_app. split; [done|]. apply Forall_singleton, isdigit_true. lia.
  - rewrite digits_value_app, Hval. lia.
Qed.

Lemma to_string_spec v :
  0 ≤ v < 2 ^ 64 →
  to_string v ≠ [] ∧ Forall (λ c, isdigit c = true) (to_string v) ∧ digits_value (to_string v) = v.
Proof.
  intros Hv. apply dec_digits_spec. split; [lia|].
  eapply Z.lt_trans; [apply Hv|]. apply Z.ltb_lt. vm_compute. reflexivity.
Qed.

(** A text that begins with a digit has no white space and no sign in front. *)
Lemma scan_digits d l : isdigit d = true → scan_sign (d :: l) = (false, d :: l).
Proof.
  intros Hd%isdigit_true. cbn. rewrite (proj2 (Z.eqb_neq d 45)), (proj2 (Z.eqb_neq d 43)) by lia. done.
Qed.

Lemma skip_space_app sep r :
  Forall (λ c, isspace c = true) sep → stops isspace r → skip_space (sep ++ r) = r.
Proof. intros Hs Hr. unfold skip_space. by rewrite span_app. Qed.

Lemma digit_not_space d : isdigit d = true → isspace d = false.
Proof.
  intros Hd%isdigit_true. unfold isspace.
  rewrite (proj2 (Z.eqb_neq d 32)), (proj2 (Z.leb_gt d 13)) by lia. by rewrite andb_false_r.
Qed.

(** The digits of a number, as a scanner meets them. *)
Lemma scan_dec v r :
  0 ≤ v < 2 ^ 64 → stops isdigit r →
  stops isspace (to_string v ++ r)
  ∧ scan_sign (to_string v ++ r) = (false, to_string v ++ r)
  ∧ span isdigit (to_string v ++ r) = (to_string v, r).
Proof.
  intros Hv Hr. destruct (to_string_spec v Hv) as (Hne & Hd & _).
  split_and!; [| |by apply span_app]; destruct (to_string v) as [|d ds]; try done;
    apply Forall_cons in Hd as [Hd _].
  - by apply digit_not_space.
  - by apply scan_digits.
Qed.

(** *** Conversions *)

(** What [stoull] makes of white space, an optional sign, digits and whatever
    follows. *)
Lemma stoull_signed sep (neg : bool) v r :
  Forall (λ c, isspace c = true) sep → 0 ≤ v < 2 ^ 64 → stops isdigit r →
  stoull (sep ++ (if neg then 45 :: to_string v else to_string v) ++ r)
  = inr ((if neg then - v else v) mod 2 ^ 64).
Proof.
  intros Hsep Hv Hr. destruct (scan_dec v r Hv Hr) as (Hsp & Hsign & Hdig).
  destruct (to_string_spec v Hv) as (Hne & _ & Hval). unfold stoull.
  rewrite skip_space_app; [|done|by destruct neg].
  assert (scan_sign ((if neg then 45 :: to_string v else to_string v) ++ r)
          = (neg, to_string v ++ r)) as -> by (by destruct neg).
  rewrite Hdig. destruct (to_string v) as [|d ds]; [done|]. rewrite Hval.
  unfold int_value. cbn [it_signed it_max uint64_t]. destruct (Z.gtb_spec v (2 ^ 64 - 1)); [lia|].
  by replace (2 ^ 64 - 1 + 1) with (2 ^ 64) by lia.
Qed.

(** *** Extractions *)

(** Nothing is read from a stream that is not good. *)
Lemma sentry_bad s : good s = false → sentry s = (false, IStream (is_rest s) (is_eof s) true).
Proof. intros H. unfold sentry. by rewrite H. Qed.

Lemma read_word_bad s : good s = false → read_word s = (None, IStream (is_rest s) (is_eof s) true).
Proof. intros H. unfold read_word. by rewrite (sentry_bad s H). Qed.

Lemma read_int_bad t s : good s = false → read_int t s = (None, IStream (is_rest s) (is_eof s) true).
Proof. intros H. unfold read_int. by rewrite (sentry_bad s H). Qed.

Lemma failed_bad r e : good (IStream r e true) = false.
Proof. by destruct e. Qed.

Lemma sentry_at sep r :
  Forall (λ c, isspace c = true) sep → stops isspace r → r ≠ [] →
  sentry (IStream (sep ++ r) false false) = (true, IStream r false false).
Proof. intros Hs Hr Hne. unfold sentry. cbn. rewrite skip_space_app by done. by destruct r. Qed.

Lemma read_word_at sep w r :
  Forall (λ c, isspace c = true) sep → Forall (λ c, isspace c = false) w → w ≠ [] →
  stops (λ c, negb (isspace c)) r →
  read_word (IStream (sep ++ w ++ r) false false) = (Some w, IStream r (at_end r) false).
Proof.
  intros Hs Hw Hne Hr. unfold read_word. rewrite sentry_at; [|done| |by destruct w]; cycle 1.
  { destruct Hw; [done|]. done. }
  cbn [is_rest]. rewrite span_app; [done| |done].
  eapply Forall_impl; [exact Hw|]. by intros c ->.
Qed.

(** A number in the text: the value, or the limit of the type and a failure. *)
Lemma read_int_at t sep v r :
  Forall (λ c, isspace c = true) sep → 0 ≤ v < 2 ^ 64 → stops isdigit r →
  read_int t (IStream (sep ++ to_string v ++ r) false false)
  = (Some (int_value t false v).1, IStream r (at_end r) (negb (int_value t false v).2)).
Proof.
  intros Hs Hv Hr. destruct (scan_dec v r Hv Hr) as (Hsp & Hsign & Hdig).
  destruct (to_string_spec v Hv) as (Hne & _ & Hval). unfold read_int.
  rewrite sentry_at; [|done|done|by destruct (to_string v)].
  cbn [is_rest]. rewrite Hsign, Hdig. destruct (to_string v) as [|d ds] eqn:E; [done|].
  rewrite Hval. by destruct (int_value t false v).
Qed.

Lemma int_value_fits t v : 0 ≤ v ≤ it_max t → int_value t false v = (v, true).
Proof.
  intros Hv. unfold int_value. destruct (Z.gtb_spec v (it_max t)); [lia|].
  destruct (it_signed t).
  - destruct (Z.ltb_spec v (- it_max t - 1)); [lia|done].
  - rewrite Z.mod_small by lia. done.
Qed.

Lemma int_value_large t v : it_max t < v → int_value t false v = (it_max t, false).
Proof.
  intros Hv. unfold int_value. destruct (Z.gtb_spec v (it_max t)); [|lia]. by destruct (it_signed t).
Qed.

Lemma getline_at l r :
  Forall (λ c, c ≠ 10) l →
  getline (IStream (l ++ 10 :: r) false false) = (Some l, IStream r false false).
Proof.
  intros Hl. unfold getline. cbn [good is_eof is_fail is_rest negb andb].
  rewrite span_app; [by destruct l| |done].
  eapply Forall_impl; [exact Hl|]. intros c Hc. cbn. by rewrite (proj2 (Z.eqb_neq c 10)).
Qed.

(** *** Progress *)

(** [s'] is a stream further on than [s]: no less was read, and failures
    stay. *)
Definition further (s s' : istream) : Prop :=
  (length (is_rest s') ≤ length (is_rest s))%nat ∧ (is_fail s = true → is_fail s' = true).

Lemma further_refl s : further s s.
Proof. by split. Qed.

Lemma sentry_further s : further s (sentry s).2.
Proof.
  unfold sentry. destruct (good s) eqn:Hg; [|by split].
  pose proof (span_length isspace (is_rest s)) as Hl. unfold skip_space.
  destruct (span isspace (is_rest s)).2 as [|c r]; split; cbn in *; try done; try lia.
  intros Hf. unfold good in Hg. by rewrite Hf, andb_false_r in Hg.
Qed.

(** A sentry that succeeds has found a character that is no white space. *)
Lemma sentry_true s s' :
  sentry s = (true, s') → ∃ c r, s' = IStream (c :: r) false false ∧ isspace c = false.
Proof.
  unfold sentry. destruct (good s); [|done]. unfold skip_space.
  pose proof (span_stops isspace (is_rest s)) as Hst.
  destruct (span isspace (is_rest s)).2 as [|c r]; [done|]. intros [= <-]. by exists c, r.
Qed.

Lemma read_word_progress s o s' :
  read_word s = (o, s') →
  further s s' ∧ (is_fail s' = false → (length (is_rest s') < length (is_rest s))%nat ∧ is_Some o).
Proof.
  unfold read_word. pose proof (sentry_further s) as Hf.
  destruct (sentry s) as [[] s1] eqn:Es; cbn [snd] in Hf.
  - destruct (sentry_true s s1 Es) as (c & r & -> & Hc). cbn [is_rest span]. rewrite Hc. cbn [negb].
    pose proof (span_length (λ c, negb (isspace c)) r) as Hl.
    destruct (span _ r) as [a r']. intros [= <- <-]. destruct Hf as [Hlen Hfail]. cbn in *.
    split; [split; [cbn; lia|done]|]. intros _. split; [lia|by eexists].
  - intros [= <- <-]. split; [done|]. intros Hs. unfold sentry in Es.
    destruct (good s); [|by injection Es as <-].
    destruct (skip_space (is_rest s)); [|done]. by injection Es as <-.
Qed.

Lemma scan_sign_length l : (length (scan_sign l).2 ≤ length l)%nat.
Proof. destruct l as [|c l]; [done|]. cbn. repeat case_match; cbn; lia. Qed.

Lemma read_int_further t s : further s (read_int t s).2.
Proof.
  unfold read_int. pose proof (sentry_further s) as Hf.
  destruct (sentry s) as [[] s1] eqn:Es; cbn [snd] in *; [|done].
  destruct (sentry_true s s1 Es) as (c & r & -> & _). cbn [is_rest] in *.
  pose proof (scan_sign_length (c :: r)) as Hl1. destruct (scan_sign (c :: r)) as [neg r1].
  pose proof (span_length isdigit r1) as Hl2. destruct (span isdigit r1) as [ds r2].
  destruct Hf as [Hlen Hfail]. cbn in *.
  destruct ds as [|d ds]; [|destruct (int_value t neg (digits_value (d :: ds))) as [v fits]].
  all: split; cbn; [lia|]; intros Hs; by specialize (Hfail Hs).
Qed.

#[export] Hint Resolve further_refl read_int_further : cdb.

(** The round trip of identifiers: a 64-bit number printed with [to_string] is read
    back by [stoull], with white space in front and anything but a digit
    behind. *)
Theorem stoull_to_string sep v r :
  Forall (λ c, isspace c = true) sep → 0 ≤ v < 2 ^ 64 → stops isdigit r →
  stoull (sep ++ to_string v ++ r) = inr v.
Proof.
  intros Hs Hv Hr. rewrite (stoull_signed sep false v r) by done. by rewrite Z.mod_small.
Qed.
