(* ===== verification/Metrics.v ===== *)
(** * The metrics collector: metrics_collector.cpp

    The collector reads the memory and processor usage from /proc once a second
    in a thread of its own and pushes them, with the packet counters the worker
    hands it, to a Prometheus gateway.  The files, the page size and the gateway
    are parameters; a gauge of the family [cpu_usage] is named by its label
    (adding a metric with known labels gives the existing one), and the state
    records the value each gauge was last set to and the sum of the increments
    of each counter.  Doubles are IEEE binary64 numbers, with the operations of
    [SpecFloat]. *)

From Stdlib Require Import ZArith Lia SpecFloat.
From stdpp Require Import prelude gmap strings relations.
From S2P Require Import Prelude CMem Stream.

Local Open Scope Z_scope.

(** ** Outside the program *)

(** The text of /proc/stat and /proc/self/statm when the file is opened, nothing
    when it cannot be; the status of a push. *)
Class MetricsEnv (E : Type) := {
  open_proc_stat : E → option (list Z) * E;
  open_proc_statm : E → option (list Z) * E;
  getpagesize : Z;
  gateway_PushAdd : E → Z * E
}.

(** ** Doubles *)

Definition double_of (z : Z) : spec_float := binary_normalize 53 1024 z 0 false.
Definition dmul : spec_float → spec_float → spec_float := SFmul 53 1024.
Definition ddiv : spec_float → spec_float → spec_float := SFdiv 53 1024.

(** ** State *)

Record Time := MkTime {
  user : option Z;
  user_low : option Z;
  sys : option Z;
  idle : option Z
}.

Record CPUInfo := MkCPUInfo {
  gauge : list Z;
  time : Time;
  last_total : Z;
  last_non_idle : Z
}.

Record MetricsCollector (E : Type) := Collector {
  mc_env : E;
  cpu_usage : gmap (list Z) CPUInfo;
  cpu_gauges : gmap (list Z) spec_float;
  memory_used_gauge : option spec_float;
  packets_received_counter : Z;
  packets_passed_counter : Z;
  packets_dropped_counter : Z;
  push_errors_total : Z;
  is_running : bool
}.
Arguments Collector {E}.
Arguments mc_env {E}.
Arguments cpu_usage {E}.
Arguments cpu_gauges {E}.
Arguments memory_used_gauge {E}.
Arguments packets_received_counter {E}.
Arguments packets_passed_counter {E}.
Arguments packets_dropped_counter {E}.
Arguments push_errors_total {E}.
Arguments is_running {E}.

(** [name.find("cpu") == 0] *)
Definition starts_cpu (name : list Z) : bool := bool_decide (bytes_of_string "cpu" `prefix_of` name).

(** A sum of two values of type [long]; a variable that was never assigned has
    no value. *)
Definition add_long (a b : res Z) : res Z :=
  let* x := a in
  let* y := b in
  if (- 2 ^ 63 <=? x + y) && (x + y <? 2 ^ 63) then Ok (x + y) else Fault SignedOverflow.

Definition assigned (v : option Z) : res Z :=
  match v with
  | Some x => Ok x
  | None => Fault Uninit
  end.

Section collector.
Context {E : Type} {HM : MetricsEnv E}.
#[local] Abbreviation MC := (MetricsCollector E).

Definition mc_call {A} (f : E → A * E) : M MC A := λ c,
  let (a, e) := f (mc_env c) in
  Ok (a, Collector e (cpu_usage c) (cpu_gauges c) (memory_used_gauge c) (packets_received_counter c)
           (packets_passed_counter c) (packets_dropped_counter c) (push_errors_total c) (is_running c)).
Definition set_usage (u : gmap (list Z) CPUInfo) (c : MC) : MC :=
  Collector (mc_env c) u (cpu_gauges c) (memory_used_gauge c) (packets_received_counter c)
    (packets_passed_counter c) (packets_dropped_counter c) (push_errors_total c) (is_running c).
Definition set_gauges (g : gmap (list Z) spec_float) (c : MC) : MC :=
  Collector (mc_env c) (cpu_usage c) g (memory_used_gauge c) (packets_received_counter c)
    (packets_passed_counter c) (packets_dropped_counter c) (push_errors_total c) (is_running c).
Definition set_memory (d : spec_float) (c : MC) : MC :=
  Collector (mc_env c) (cpu_usage c) (cpu_gauges c) (Some d) (packets_received_counter c)
    (packets_passed_counter c) (packets_dropped_counter c) (push_errors_total c) (is_running c).
Definition set_counts (r p d errors : Z) (c : MC) : MC :=
  Collector (mc_env c) (cpu_usage c) (cpu_gauges c) (memory_used_gauge c) r p d errors (is_running c).
Definition set_running (b : bool) (c : MC) : MC :=
  Collector (mc_env c) (cpu_usage c) (cpu_gauges c) (memory_used_gauge c) (packets_received_counter c)
    (packets_passed_counter c) (packets_dropped_counter c) (push_errors_total c) b.

(** ** Memory *)

Definition GetMemoryUsed : M MC spec_float :=
  let! file := mc_call open_proc_statm in
  match file with
  | None => ret (S754_zero false)
  | Some text =>
      let (_, s) := read_int long_t (open_stream (Some text)) in
      let (rss_pages, _) := read_int long_t s in
      ret (dmul (double_of (default 0 rss_pages)) (double_of getpagesize))
  end.

(** ** The constructor *)

(** One round of extractions from /proc/stat: the name, four times and six
    numbers that are ignored but read as [int]. *)
Definition read_cpu (file : istream) (cpu_name : list Z) : list Z * Time * istream :=
  let (name, s) := read_word file in
  let (u, s) := read_int uint64_t s in
  let (ul, s) := read_int uint64_t s in
  let (sy, s) := read_int uint64_t s in
  let (id, s) := read_int uint64_t s in
  let (_, s) := read_int int_t s in
  let (_, s) := read_int int_t s in
  let (_, s) := read_int int_t s in
  let (_, s) := read_int int_t s in
  let (_, s) := read_int int_t s in
  let (_, s) := read_int int_t s in
  (default cpu_name name, MkTime u ul sy id, s).

(** [cpu_usage.insert] does not replace an entry. *)
Definition insert_cpu (name : list Z) (cpu : CPUInfo) (u : gmap (list Z) CPUInfo) :
    gmap (list Z) CPUInfo :=
  match u !! name with
  | Some _ => u
  | None => <[name := cpu]> u
  end.

(** The loop [while (true)] of the constructor. *)
Fixpoint cpu_loop (fuel : nat) (file : istream) (cpu_name : list Z) : M MC unit :=
  match fuel with
  | O => fail OutOfFuel
  | S fuel' =>
      let '(cpu_name, t, file) := read_cpu file cpu_name in
      if negb (starts_cpu cpu_name) then ret tt else
      modify (λ c, set_usage (insert_cpu cpu_name (MkCPUInfo cpu_name t 0 0) (cpu_usage c)) c) ;;;
      cpu_loop fuel' file cpu_name
  end.

(** The fields before the constructor's body runs. *)
Definition collector_fields (e : E) : MC := Collector e ∅ ∅ None 0 0 0 0 true.

Definition new_MetricsCollector (fuel : nat) (e : E) : res MC :=
  let* r := (let! file := mc_call open_proc_stat in
             cpu_loop fuel (open_stream file) []) (collector_fields e) in
  Ok r.2.

(** ** Processor usage *)

Definition percentage (non_idle_diff total_diff : Z) : spec_float :=
  if total_diff =? 0 then S754_zero false
  else dmul (ddiv (double_of non_idle_diff) (double_of total_diff)) (double_of 100).

(** The gauge and the totals of a processor the constructor found. *)
Definition update_cpu (cpu_name : list Z) (non_idle total : Z) (c : MC) : MC :=
  match cpu_usage c !! cpu_name with
  | None => c
  | Some cpu =>
      let c' :=
        if last_total cpu >? 0 then
          set_gauges (<[gauge cpu :=
            percentage (u64 (non_idle - last_non_idle cpu)) (u64 (total - last_total cpu))]>
            (cpu_gauges c)) c
        else c in
      set_usage (<[cpu_name := MkCPUInfo (gauge cpu) (time cpu) total non_idle]> (cpu_usage c')) c'
  end.

(** The body of the loop over the lines. *)
Definition cpu_line (line : list Z) : M MC unit :=
  let (name, s) := read_word (open_stream (Some line)) in
  let cpu_name := default [] name in
  let (user, s) := read_int long_t s in
  let (nice, s) := read_int long_t s in
  let (sys, s) := read_int long_t s in
  let (idle, s) := read_int long_t s in
  let (iowait, s) := read_int long_t s in
  let (irq, s) := read_int long_t s in
  let (softirq, s) := read_int long_t s in
  let (steal, s) := read_int long_t s in
  let (guest, s) := read_int long_t s in
  let (guest_nice, s) := read_int long_t s in
  if at_end cpu_name then ret tt else
  let! non_idle := lift (let* v := add_long (add_long (add_long (add_long (add_long (assigned user)
    (assigned nice)) (assigned sys)) (assigned irq)) (assigned softirq)) (assigned steal) in Ok (u64 v)) in
  let! total := lift (let* i := assigned idle in let* w := assigned iowait in
    Ok (u64 (u64 (non_idle + u64 i) + u64 w))) in
  modify (update_cpu cpu_name non_idle total).

(** [while (std::getline(file, line))] with its break. *)
Fixpoint cpu_lines (fuel : nat) (file : istream) : M MC unit :=
  match fuel with
  | O => fail OutOfFuel
  | S fuel' =>
      let (line, file) := getline file in
      if is_fail file then ret tt else
      let line := default [] line in
      if negb (starts_cpu line) then ret tt else
      cpu_line line ;;;
      cpu_lines fuel' file
  end.

(** Each line takes at least one character. *)
Definition GetCPUUsage : M MC unit :=
  let! file := mc_call open_proc_stat in
  match file with
  | None => ret tt
  | Some text => cpu_lines (S (S (length text))) (open_stream (Some text))
  end.

(** ** Pushing and counting *)

(** The pointers to the counters are set by the constructor. *)
Definition PushMetrics : M MC unit :=
  let! status := mc_call gateway_PushAdd in
  if negb (status =? 200)
  then modify (λ c, set_counts (packets_received_counter c) (packets_passed_counter c)
                      (packets_dropped_counter c) (push_errors_total c + 1) c)
  else ret tt.

Definition IncrementPacketsReceived (count : Z) : M MC unit := modify (λ c,
  set_counts (packets_received_counter c + count) (packets_passed_counter c)
    (packets_dropped_counter c) (push_errors_total c) c).
Definition IncrementPacketsPassed (count : Z) : M MC unit := modify (λ c,
  set_counts (packets_received_counter c) (packets_passed_counter c + count)
    (packets_dropped_counter c) (push_errors_total c) c).
Definition IncrementPacketsDropped (count : Z) : M MC unit := modify (λ c,
  set_counts (packets_received_counter c) (packets_passed_counter c)
    (packets_dropped_counter c + count) (push_errors_total c) c).

(** ** The thread *)

(** The body of [MainLoop] after its sleep. *)
Definition collect : M MC unit :=
  let! used := GetMemoryUsed in
  modify (set_memory used) ;;;
  GetCPUUsage ;;;
  PushMetrics.

(** Where the thread is: before the test of [is_running], in the body (or its
    sleep), or at its end. *)
Inductive thread_pc := Testing | Sleeping | Ended.

Definition thread_step (s : thread_pc * MC) : res (thread_pc * MC) :=
  match s.1 with
  | Testing => Ok (if is_running s.2 then Sleeping else Ended, s.2)
  | Sleeping => let* r := collect s.2 in Ok (Testing, r.2)
  | Ended => Ok s
  end.

(** The destructor: the store, after which it waits for [Ended]. *)
Definition stop_MetricsCollector : M MC unit := modify (set_running false).

(** What the worker's threads do beside it. *)
Inductive other_step : MC → MC → Prop :=
| O_received n c c' : IncrementPacketsReceived n c = Ok (tt, c') → other_step c c'
| O_passed n c c' : IncrementPacketsPassed n c = Ok (tt, c') → other_step c c'
| O_dropped n c c' : IncrementPacketsDropped n c = Ok (tt, c') → other_step c c'
| O_stop c c' : stop_MetricsCollector c = Ok (tt, c') → other_step c c'.

(** Interleavings, with the number of steps the collector's thread makes. *)
Inductive collector_run : nat → thread_pc * MC → thread_pc * MC → Prop :=
| R_done s : collector_run 0 s s
| R_thread n s s1 s' : s.1 ≠ Ended → thread_step s = Ok s1 → collector_run n s1 s' → collector_run (S n) s s'
| R_other n pc c c1 s' : other_step c c1 → collector_run n (pc, c1) s' → collector_run n (pc, c) s'.

End collector.

(** ** The loop of the constructor *)

(** Runs through the integer extractions of a round, collecting what they
    promise. *)
Ltac extractions :=
  repeat match goal with
  | |- context [read_int ?t ?s] =>
      let H := fresh "Hf" in
      pose proof (read_int_further t s) as H; destruct (read_int t s); cbn [snd] in H
  | H : context [read_int ?t ?s] |- _ =>
      let Hf := fresh "Hf" in
      pose proof (read_int_further t s) as Hf; destruct (read_int t s); cbn [snd] in Hf
  end.

Lemma read_cpu_failed s name :
  is_fail s = true → read_cpu s name = (name, MkTime None None None None, IStream (is_rest s) (is_eof s) true).
Proof.
  intros Hf. unfold read_cpu.
  assert (good s = false) as Hb by (unfold good; by rewrite Hf, andb_false_r).
  rewrite (read_word_bad s Hb). by rewrite !read_int_bad by apply failed_bad.
Qed.

(** A round that does not fail has read the name at least. *)
Lemma read_cpu_progress s name name' t s' :
  read_cpu s name = (name', t, s') → is_fail s' = false → (length (is_rest s') < length (is_rest s))%nat.
Proof.
  unfold read_cpu. destruct (read_word s) as [o s1] eqn:Ew. apply read_word_progress in Ew as [_ Hw].
  extractions. intros [= _ _ ->] Hs'.
  repeat match goal with H : further _ _ |- _ => destruct H end.
  destruct (is_fail s1); [|destruct (Hw eq_refl); lia].
  assert (is_fail s' = true) by auto 12. congruence.
Qed.

Section loop.
Context {E : Type} {HM : MetricsEnv E}.
#[local] Abbreviation MC := (MetricsCollector E).
Implicit Types (c : MC).

(** Once an extraction fails after the name of a processor, the name stays and
    the loop goes on for ever. *)
Lemma cpu_loop_stuck s name fuel c :
  is_fail s = true → starts_cpu name = true → cpu_loop fuel s name c = Fault OutOfFuel.
Proof.
  intros Hf Hn. revert s Hf c. induction fuel as [|fuel IH]; intros s Hf c; [done|].
  cbn [cpu_loop]. rewrite (read_cpu_failed s name Hf), Hn. cbn [negb].
  erewrite bind_eq by reflexivity. by apply IH.
Qed.

Lemma cpu_loop_decided n s name c :
  (length (is_rest s) < n)%nat →
  (∃ c', ∀ fuel, (n ≤ fuel)%nat → cpu_loop fuel s name c = Ok (tt, c'))
  ∨ (∀ fuel, cpu_loop fuel s name c = Fault OutOfFuel).
Proof.
  revert s name c. induction n as [|n IH]; intros s name c Hn; [lia|].
  destruct (read_cpu s name) as [[name' t] s'] eqn:Er.
  assert (∀ fuel, cpu_loop (S fuel) s name c =
    if negb (starts_cpu name') then Ok (tt, c)
    else cpu_loop fuel s' name' (set_usage (insert_cpu name' (MkCPUInfo name' t 0 0) (cpu_usage c)) c)) as Hstep.
  { intros fuel. cbn [cpu_loop]. rewrite Er. by destruct (starts_cpu name'). }
  destruct (starts_cpu name') eqn:Hc; cbn [negb] in Hstep; cycle 1.
  { left. exists c. intros [|fuel] Hf; [lia|]. by rewrite Hstep. }
  destruct (is_fail s') eqn:Hfail.
  { right. intros [|fuel]; [done|]. rewrite Hstep. by apply cpu_loop_stuck. }
  pose proof (read_cpu_progress _ _ _ _ _ Er Hfail).
  destruct (IH s' name' (set_usage (insert_cpu name' (MkCPUInfo name' t 0 0) (cpu_usage c)) c))
    as [[c' Hc']|Hnever]; [lia| |].
  - left. exists c'. intros [|fuel] Hf; [lia|]. rewrite Hstep. apply Hc'. lia.
  - right. intros [|fuel]; [done|]. by rewrite Hstep.
Qed.
End loop.

(** *** The text of /proc/stat *)

(** A line of a processor: its name, more blanks if any, and its times. *)
Record stat_line := StatLine { sl_name : list Z; sl_gap : list Z; sl_times : list Z }.

Definition fields (vs : list Z) : list Z := concat ((λ v, 32 :: to_string v) <$> vs).
Definition line_text (l : stat_line) : list Z := sl_name l ++ sl_gap l ++ fields (sl_times l).
Definition stat_text (ls : list stat_line) (rest : list Z) : list Z :=
  concat ((λ l, line_text l ++ [10]) <$> ls) ++ rest.

Record line_wf (l : stat_line) : Prop := {
  lw_name : starts_cpu (sl_name l) = true;
  lw_word : Forall (λ c, isspace c = false) (sl_name l);
  lw_gap : Forall (λ c, c = 32) (sl_gap l);
  lw_times : Forall (λ v, 0 ≤ v < 2 ^ 63) (sl_times l);
  lw_len : length (sl_times l) = 10%nat
}.

(** The fields the constructor ignores fit into an [int]. *)
Definition ignored_fit (l : stat_line) : Prop := Forall (λ v, v < 2 ^ 31) (drop 4 (sl_times l)).

Lemma starts_cpu_ne name : starts_cpu name = true → name ≠ [].
Proof. unfold starts_cpu. rewrite bool_decide_eq_true. intros [k ->]. done. Qed.

Lemma fields_stops_digit vs r : stops isdigit r → stops isdigit (fields vs ++ r).
Proof. by destruct vs. Qed.

Lemma fields_stops_word vs r :
  stops (λ c, negb (isspace c)) r → stops (λ c, negb (isspace c)) (fields vs ++ r).
Proof. by destruct vs. Qed.

(** The next field, read as a value of a type: after blanks, its digits. *)
Lemma read_field t sep v vs r :
  Forall (λ c, c = 32) sep → 0 ≤ v < 2 ^ 63 → stops isdigit r →
  read_int t (IStream (sep ++ fields (v :: vs) ++ r) false false)
  = (Some (int_value t false v).1,
     IStream (fields vs ++ r) (at_end (fields vs ++ r)) (negb (int_value t false v).2)).
Proof.
  intros Hsep Hv Hr. change (fields (v :: vs)) with ((32 :: to_string v) ++ fields vs).
  rewrite <- app_assoc. cbn [app]. rewrite cons_middle, (assoc_L (++)).
  apply read_int_at; [|lia|by apply fields_stops_digit].
  apply Forall_app. split; [|by apply Forall_singleton].
  eapply Forall_impl; [exact Hsep|]. by intros c ->.
Qed.

Lemma read_next t v vs r :
  0 ≤ v < 2 ^ 63 → stops isdigit r →
  read_int t (IStream (fields (v :: vs) ++ r) false false)
  = (Some (int_value t false v).1,
     IStream (fields vs ++ r) (at_end (fields vs ++ r)) (negb (int_value t false v).2)).
Proof. apply (read_field t []). constructor. Qed.

Lemma fields_not_end vs c r : at_end (fields vs ++ c :: r) = false.
Proof. by destruct vs. Qed.

(** Reading over fields that are ignored. *)
Definition skip_ints (s : istream) (vs : list Z) : istream := foldl (λ s _, (read_int int_t s).2) s vs.

Lemma skip_ints_failed s vs : is_fail s = true → is_fail (skip_ints s vs) = true.
Proof.
  revert s. induction vs as [|v vs IH]; intros s Hf; [done|]. apply IH.
  by apply (proj2 (read_int_further int_t s)).
Qed.

Lemma skip_fields vs c r :
  Forall (λ v, 0 ≤ v < 2 ^ 63) vs → isdigit c = false →
  (Forall (λ v, v < 2 ^ 31) vs →
   skip_ints (IStream (fields vs ++ c :: r) false false) vs = IStream (c :: r) false false)
  ∧ (¬ Forall (λ v, v < 2 ^ 31) vs →
     is_fail (skip_ints (IStream (fields vs ++ c :: r) false false) vs) = true).
Proof.
  intros Hvs Hc. induction Hvs as [|v vs Hv Hvs [IH1 IH2]]; [split; [done|]; intros []; constructor|].
  unfold skip_ints. cbn [foldl]. rewrite read_next by done. cbn [snd].
  rewrite fields_not_end. rewrite Forall_cons. destruct (decide (v < 2 ^ 31)) as [Hs|Hs].
  - rewrite int_value_fits by (cbn [it_max int_t]; lia). cbn [snd negb]. split.
    + intros [_ Hfit]. by apply IH1.
    + intros Hn. apply IH2. intros Hfit. by apply Hn.
  - rewrite int_value_large by (cbn [it_max int_t]; lia). cbn [snd negb].
    split; [by intros [? _]|]. intros _. by apply skip_ints_failed.
Qed.

Lemma read_cpu_skips file name :
  read_cpu file name =
    let (w, s) := read_word file in
    let (u, s) := read_int uint64_t s in
    let (ul, s) := read_int uint64_t s in
    let (sy, s) := read_int uint64_t s in
    let (id, s) := read_int uint64_t s in
    (default name w, MkTime u ul sy id, skip_ints s (replicate 6 0)).
Proof.
  unfold read_cpu, skip_ints. cbn [replicate foldl]. destruct (read_word file) as [w s].
  do 10 (match goal with |- context [read_int ?t ?s] => destruct (read_int t s) end; cbn [snd]). done.
Qed.

Lemma gap_stops_word gap r :
  Forall (λ c, c = 32) gap → stops (λ c, negb (isspace c)) r → stops (λ c, negb (isspace c)) (gap ++ r).
Proof. intros Hg Hr. destruct Hg as [|c gap -> _]; done. Qed.

(** The name in front of a line. *)
Lemma read_name sep l r :
  line_wf l → Forall (λ c, isspace c = true) sep → stops (λ c, negb (isspace c)) r →
  read_word (IStream (sep ++ line_text l ++ r) false false)
  = (Some (sl_name l), IStream (sl_gap l ++ fields (sl_times l) ++ r) false false).
Proof.
  intros Hl Hsep Hr. unfold line_text. rewrite <- !app_assoc.
  rewrite read_word_at; [|done|apply Hl|apply starts_cpu_ne, Hl|].
  - destruct Hl as [_ _ Hg _ Hlen]. destruct (sl_times l) as [|v vs]; [done|].
    by destruct Hg as [|c gap -> _].
  - apply gap_stops_word; [apply Hl|]. by apply fields_stops_word.
Qed.

(** One round of the constructor's loop over a line. *)
Lemma read_cpu_line sep l r prev :
  line_wf l → Forall (λ c, isspace c = true) sep →
  ∃ t s', read_cpu (IStream (sep ++ line_text l ++ 10 :: r) false false) prev = (sl_name l, t, s')
    ∧ t = MkTime (sl_times l !! 0%nat) (sl_times l !! 1%nat) (sl_times l !! 2%nat) (sl_times l !! 3%nat)
    ∧ (ignored_fit l → s' = IStream (10 :: r) false false)
    ∧ (¬ ignored_fit l → is_fail s' = true).
Proof.
  intros Hl Hsep. rewrite read_cpu_skips, read_name by done. destruct Hl as [_ _ Hg Ht Hlen].
  unfold ignored_fit. destruct (sl_times l) as [|v0 [|v1 [|v2 [|v3 vs]]]]; try done.
  do 4 (apply Forall_cons in Ht as [? Ht]).
  rewrite (read_field _ (sl_gap l)) by done. rewrite fields_not_end, int_value_fits by (cbn [it_max uint64_t]; lia).
  do 3 (cbn [fst snd negb]; rewrite read_next by done;
        rewrite fields_not_end, int_value_fits by (cbn [it_max uint64_t]; lia)).
  cbn [fst snd negb drop]. replace (replicate 6 0) with ((λ _, 0) <$> vs).
  2: { apply list_eq_same_length with 6%nat; [done|rewrite length_fmap; cbn in Hlen; lia|].
       intros i x y Hi Hx Hy. apply lookup_replicate in Hy as [-> _].
       rewrite list_lookup_fmap in Hx. destruct (vs !! i); cbn in Hx; congruence. }
  assert (skip_ints (IStream (fields vs ++ 10 :: r) false false) ((λ _, 0) <$> vs)
          = skip_ints (IStream (fields vs ++ 10 :: r) false false) vs) as ->.
  { unfold skip_ints. by rewrite foldl_fmap. }
  destruct (skip_fields vs 10 r Ht eq_refl) as [Hfit Hbig].
  eexists _, _. split; [done|]. split; [done|]. by split.
Qed.

(** ** What the constructor does *)

(** The entry the constructor makes for a line. *)
Definition new_cpu (l : stat_line) : CPUInfo :=
  MkCPUInfo (sl_name l)
    (MkTime (sl_times l !! 0%nat) (sl_times l !! 1%nat) (sl_times l !! 2%nat) (sl_times l !! 3%nat)) 0 0.

Definition register (u : gmap (list Z) CPUInfo) (l : stat_line) : gmap (list Z) CPUInfo :=
  insert_cpu (sl_name l) (new_cpu l) u.

(** A text that goes on with a word other than a processor's name. *)
Definition other_word (rest : list Z) : Prop :=
  starts_cpu rest = false ∧ match rest with [] => False | c :: _ => isspace c = false end.

Lemma starts_cpu_app a b : starts_cpu a = true → starts_cpu (a ++ b) = true.
Proof. unfold starts_cpu. rewrite !bool_decide_eq_true. intros H. by apply prefix_app_r. Qed.

Lemma read_other sep rest prev :
  Forall (λ c, isspace c = true) sep → other_word rest →
  ∃ name t s, read_cpu (IStream (sep ++ rest) false false) prev = (name, t, s) ∧ starts_cpu name = false.
Proof.
  intros Hsep [Hn Hc]. pose proof (span_eq (λ c, negb (isspace c)) rest) as Heq.
  unfold read_cpu, read_word. rewrite sentry_at; [|done|by destruct rest|by destruct rest].
  cbn [is_rest]. destruct (span _ rest) as [w r]. cbn in Heq. extractions.
  eexists _, _, _. split; [done|]. cbn. destruct (starts_cpu w) eqn:Ew; [|done].
  apply (starts_cpu_app w r) in Ew. rewrite Heq in Ew. congruence.
Qed.

Section constructor.
Context {E : Type} {HM : MetricsEnv E}.
#[local] Abbreviation MC := (MetricsCollector E).
Implicit Types (c : MC) (e : E) (ls : list stat_line).

(** The loop runs over the lines that fit and stands behind them. *)
Lemma cpu_loop_lines ls sep rest prev c :
  Forall line_wf ls → Forall ignored_fit ls → Forall (λ ch, isspace ch = true) sep →
  ∃ sep' prev', Forall (λ ch, isspace ch = true) sep'
    ∧ (starts_cpu prev = true ∨ ls ≠ [] → starts_cpu prev' = true)
    ∧ ∀ fuel, cpu_loop (length ls + fuel) (IStream (sep ++ stat_text ls rest) false false) prev c
      = cpu_loop fuel (IStream (sep' ++ rest) false false) prev'
          (set_usage (foldl register (cpu_usage c) ls) c).
Proof.
  intros Hls Hfit. revert sep prev c. induction ls as [|l ls IH]; intros sep prev c Hsep.
  { exists sep, prev. split_and!; [done|by intros [?|?]|]. intros fuel. by destruct c. }
  apply Forall_cons in Hls as [Hl Hls], Hfit as [Hlf Hfit].
  destruct (read_cpu_line sep l (stat_text ls rest) prev Hl Hsep) as (t & s' & Hread & -> & Hs' & _).
  specialize (Hs' Hlf). subst s'.
  destruct (IH Hls Hfit [10] (sl_name l) (set_usage (register (cpu_usage c) l) c)) as (sep' & prev' & Hsep' & Hp & Hrun);
    [by apply Forall_singleton|].
  exists sep', prev'. split; [done|]. split; [intros _; apply Hp; left; apply Hl|].
  intros fuel. specialize (Hrun fuel). cbn [length plus cpu_loop].
  assert (stat_text (l :: ls) rest = line_text l ++ 10 :: stat_text ls rest) as ->.
  { unfold stat_text. cbn. by rewrite <- !app_assoc. }
  rewrite Hread, (lw_name l Hl). cbn [negb]. erewrite bind_eq by reflexivity. exact Hrun.
Qed.

Lemma new_collector_eq fuel e file :
  fst (open_proc_stat e) = file →
  new_MetricsCollector fuel e
  = let* r := cpu_loop fuel (open_stream file) [] (collector_fields (snd (open_proc_stat e))) in Ok r.2.
Proof.
  intros <-. unfold new_MetricsCollector, mc_call, bind. cbn [mc_env collector_fields].
  by destruct (open_proc_stat e).
Qed.

(** The number of rounds after which the constructor has ended if it ends. *)
Definition constructor_rounds (e : E) : nat :=
  match fst (open_proc_stat e) with
  | Some text => S (length text)
  | None => 1
  end.

Lemma new_collector_decided e :
  (∃ c, ∀ fuel, (constructor_rounds e ≤ fuel)%nat → new_MetricsCollector fuel e = Ok c)
  ∨ (∀ fuel, new_MetricsCollector fuel e = Fault OutOfFuel).
Proof.
  destruct (cpu_loop_decided (constructor_rounds e) (open_stream (fst (open_proc_stat e))) []
    (collector_fields (snd (open_proc_stat e)))) as [[c Hc]|Hnever].
  { unfold constructor_rounds. destruct (fst (open_proc_stat e)); cbn; lia. }
  - left. exists c. intros fuel Hf. rewrite (new_collector_eq fuel e _ eq_refl), Hc by done. done.
  - right. intros fuel. by rewrite (new_collector_eq fuel e _ eq_refl), Hnever.
Qed.

(** The constructor of the collector ends after at most as many rounds as
    /proc/stat has characters, and one, or never. *)
Theorem collector_constructor_decided e :
  (∃ c, ∀ fuel, (constructor_rounds e ≤ fuel)%nat → new_MetricsCollector fuel e = Ok c)
  ∨ (∀ fuel, new_MetricsCollector fuel e = Fault OutOfFuel).
Proof. apply new_collector_decided. Qed.

(** C24: On a well-formed /proc/stat whose ignored fields fit into an [int] the
    constructor ends and has an entry for each processor, with no totals
    yet. *)
Theorem collector_registers_cpus e ls rest fuel :
  fst (open_proc_stat e) = Some (stat_text ls rest) →
  Forall line_wf ls → Forall ignored_fit ls → other_word rest → (length ls < fuel)%nat →
  new_MetricsCollector fuel e
  = Ok (set_usage (foldl register ∅ ls) (collector_fields (snd (open_proc_stat e)))).
Proof.
  intros Hfile Hls Hfit Hrest Hfuel. rewrite (new_collector_eq fuel e _ Hfile).
  destruct (cpu_loop_lines ls [] rest [] (collector_fields (snd (open_proc_stat e))))
    as (sep & prev & Hsep & _ & Hrun); [done|done|done|].
  replace fuel with (length ls + S (fuel - length ls - 1))%nat by lia.
  cbn [open_stream app] in *. rewrite Hrun. cbn [cpu_loop].
  destruct (read_other sep rest prev Hsep Hrest) as (name & t & s & -> & ->). done.
Qed.

(** C34: The constructor never returns when a field it ignores does not fit into an
    [int], or when the text ends with the last processor. *)
Theorem collector_constructor_hangs e ls rest :
  fst (open_proc_stat e) = Some (stat_text ls rest) →
  Forall line_wf ls → Forall ignored_fit ls →
  (rest = [] ∧ ls ≠ [] ∨ ∃ l r, line_wf l ∧ ¬ ignored_fit l ∧ rest = line_text l ++ 10 :: r) →
  ∀ fuel, new_MetricsCollector fuel e = Fault OutOfFuel.
Proof.
  intros Hfile Hls Hfit Hrest.
  destruct (new_collector_decided e) as [[c Hc]|Hnever]; [exfalso|done].
  destruct (cpu_loop_lines ls [] rest [] (collector_fields (snd (open_proc_stat e))))
    as (sep & prev & Hsep & Hprev & Hrun); [done|done|done|].
  specialize (Hc (length ls + S (constructor_rounds e))%nat ltac:(lia)).
  rewrite (new_collector_eq _ e _ Hfile) in Hc. cbn [open_stream app] in *. rewrite Hrun in Hc.
  cbn [cpu_loop] in Hc. destruct Hrest as [[-> Hne]|(l & r & Hl & Hbig & ->)].
  - specialize (Hprev (or_intror Hne)).
    assert (read_word (IStream (sep ++ []) false false) = (None, IStream [] true true)) as Hw.
    { unfold read_word, sentry. cbn [good is_eof is_fail negb andb is_rest].
      by rewrite skip_space_app. }
    unfold read_cpu in Hc. rewrite Hw, !read_int_bad in Hc by apply failed_bad. cbn [default] in Hc.
    rewrite Hprev in Hc. cbn [negb] in Hc. erewrite bind_eq in Hc by reflexivity.
    by rewrite cpu_loop_stuck in Hc.
  - destruct (read_cpu_line sep l r prev Hl Hsep) as (t & s' & Hread & _ & _ & Hs').
    rewrite Hread, (lw_name l Hl) in Hc. cbn [negb] in Hc. erewrite bind_eq in Hc by reflexivity.
    rewrite cpu_loop_stuck in Hc; [done|by apply Hs'|apply Hl].
Qed.
End constructor.

(** ** Processor usage *)

Definition nth_time (l : stat_line) (i : nat) : Z := default 0 (sl_times l !! i).
Definition non_idle_of (l : stat_line) : Z :=
  nth_time l 0 + nth_time l 1 + nth_time l 2 + nth_time l 5 + nth_time l 6 + nth_time l 7.
Definition total_of (l : stat_line) : Z := non_idle_of l + nth_time l 3 + nth_time l 4.

(** The times of a line, together, fit into a [long]. *)
Definition sums_fit (l : stat_line) : Prop := total_of l < 2 ^ 63.

Lemma add_long_Ok a b x y :
  a = Ok x → b = Ok y → 0 ≤ x → 0 ≤ y → x + y < 2 ^ 63 → add_long a b = Ok (x + y).
Proof.
  intros -> -> Hx Hy Hs. unfold add_long. cbn [rbind].
  rewrite (proj2 (Z.leb_le _ _)), (proj2 (Z.ltb_lt _ _)) by lia. done.
Qed.

Lemma line_text_no_newline l : line_wf l → Forall (λ c, c ≠ 10) (line_text l).
Proof.
  intros [_ Hn Hg Ht _]. unfold line_text, fields. rewrite !Forall_app. split_and!.
  - eapply Forall_impl; [exact Hn|]. by intros c Hc ->.
  - eapply Forall_impl; [exact Hg|]. by intros c ->.
  - apply Forall_concat, Forall_fmap. eapply Forall_impl; [exact Ht|].
    intros v [Hv1 Hv2]. apply Forall_cons. split; [done|].
    destruct (to_string_spec v) as (_ & Hd & _); [lia|].
    eapply Forall_impl; [exact Hd|]. by intros c Hc ->.
Qed.

Section usage.
Context {E : Type} {HM : MetricsEnv E}.
#[local] Abbreviation MC := (MetricsCollector E).
Implicit Types (c : MC) (e : E) (l : stat_line) (ls : list stat_line).

Definition account (c : MC) (l : stat_line) : MC := update_cpu (sl_name l) (non_idle_of l) (total_of l) c.

(** The fields of a line are read as they are. *)
Ltac read_fields :=
  repeat (first [rewrite read_field by done | rewrite read_next by done];
          rewrite int_value_fits by (cbn [it_max long_t]; lia);
          cbn [fst snd negb];
          match goal with |- context [at_end (fields (?v :: ?vs) ++ [])] =>
            change (at_end (fields (v :: vs) ++ [])) with false
          end).

Lemma cpu_line_spec l c :
  line_wf l → sums_fit l → cpu_line (line_text l) c = Ok (tt, account c l).
Proof.
  intros Hl Hsum. unfold cpu_line. cbn [open_stream].
  replace (line_text l) with ([] ++ line_text l ++ []) by apply app_nil_r.
  rewrite read_name by done. pose proof (starts_cpu_ne _ (lw_name l Hl)) as Hne.
  destruct Hl as [_ _ Hg Ht Hlen]. unfold account, sums_fit, total_of, non_idle_of, nth_time in *.
  destruct (sl_times l) as [|t0 [|t1 [|t2 [|t3 [|t4 [|t5 [|t6 [|t7 [|t8 [|t9 [|]]]]]]]]]]]; try done.
  change (t0 + t1 + t2 + t5 + t6 + t7 + t3 + t4 < 2 ^ 63) in Hsum.
  do 10 (apply Forall_cons in Ht as [[? ?] Ht]). read_fields.
  destruct (sl_name l) as [|ch name] eqn:En; [done|]. cbn [at_end default].
  assert (add_long (add_long (add_long (add_long (add_long (assigned (Some t0)) (assigned (Some t1)))
    (assigned (Some t2))) (assigned (Some t5))) (assigned (Some t6))) (assigned (Some t7))
    = Ok (t0 + t1 + t2 + t5 + t6 + t7)) as ->.
  { repeat (apply add_long_Ok; [|done|lia|lia|lia]). done. }
  destruct (read_int long_t _) as [guest_nice s]. cbn [rbind id at_end].
  do 2 (erewrite bind_eq by reflexivity).
  rewrite (u64_small (t0 + t1 + t2 + t5 + t6 + t7)), (u64_small t3), (u64_small t4) by lia.
  rewrite (u64_small (t0 + t1 + t2 + t5 + t6 + t7 + t3)), u64_small by lia.
  done.
Qed.
(** The loop over the lines accounts for each of them and stops at the first
    that is not a processor's. *)
Lemma cpu_lines_spec ls rest fuel c :
  Forall line_wf ls → Forall sums_fit ls → starts_cpu rest = false → (length ls < fuel)%nat →
  cpu_lines fuel (IStream (stat_text ls rest) false false) c = Ok (tt, foldl account c ls).
Proof.
  intros Hls Hsums Hrest. revert fuel c. induction ls as [|l ls IH]; intros [|fuel] c Hfuel; cbn in Hfuel; try lia.
  - cbn [cpu_lines stat_text concat fmap list_fmap app foldl]. unfold getline.
    pose proof (span_eq (λ ch, negb (ch =? 10)) rest) as Heq.
    destruct rest as [|ch rest]; [done|]. cbn [good is_eof is_fail is_rest negb andb at_end].
    destruct (span _ (ch :: rest)) as [line r]. cbn [fst snd] in Heq.
    assert (starts_cpu line = false) as Hl.
    { destruct (starts_cpu line) eqn:El; [|done]. apply (starts_cpu_app _ r) in El.
      rewrite Heq in El. congruence. }
    destruct r; cbn [is_fail default id]; by rewrite Hl.
  - apply Forall_cons in Hls as [Hl Hls], Hsums as [Hs Hsums]. cbn [cpu_lines].
    assert (stat_text (l :: ls) rest = line_text l ++ 10 :: stat_text ls rest) as ->.
    { unfold stat_text. cbn. by rewrite <- !app_assoc. }
    rewrite getline_at by (by apply line_text_no_newline). cbn [is_fail default id].
    assert (starts_cpu (line_text l) = true) as -> by (apply starts_cpu_app, Hl). cbn [negb].
    erewrite bind_eq by (by apply cpu_line_spec). apply IH; [done|done|lia].
Qed.

Lemma stat_text_length ls rest : (length ls ≤ length (stat_text ls rest))%nat.
Proof.
  unfold stat_text. induction ls as [|l ls IH]; [cbn; lia|].
  cbn [fmap list_fmap concat length app]. rewrite !length_app in *. cbn. lia.
Qed.

(** A sample of /proc/stat as the collector finds it. *)
Record sample (e : E) (ls : list stat_line) : Prop := {
  sm_text : ∃ rest, fst (open_proc_stat e) = Some (stat_text ls rest) ∧ starts_cpu rest = false;
  sm_wf : Forall line_wf ls;
  sm_sums : Forall sums_fit ls;
  sm_names : NoDup (sl_name <$> ls)
}.

Lemma GetCPUUsage_spec c ls :
  sample (mc_env c) ls →
  ∃ c1, mc_call open_proc_stat c = Ok (fst (open_proc_stat (mc_env c)), c1)
    ∧ cpu_usage c1 = cpu_usage c ∧ cpu_gauges c1 = cpu_gauges c ∧ mc_env c1 = snd (open_proc_stat (mc_env c))
    ∧ GetCPUUsage c = Ok (tt, foldl account c1 ls).
Proof.
  intros [(rest & Hfile & Hrest) Hwf Hsums _]. unfold GetCPUUsage, mc_call, bind.
  destruct (open_proc_stat (mc_env c)) as [file e]. cbn in Hfile. subst file.
  eexists. split; [done|]. do 3 (split; [done|]). apply cpu_lines_spec; try done.
  pose proof (stat_text_length ls rest). lia.
Qed.

(** *** One processor among the others *)

(** Every gauge is the one with the name of its processor. *)
Definition gauges_named (c : MC) : Prop := ∀ n cpu, cpu_usage c !! n = Some cpu → gauge cpu = n.

Lemma account_named c l : gauges_named c → gauges_named (account c l).
Proof.
  intros Hg n cpu. unfold account, update_cpu.
  destruct (cpu_usage c !! sl_name l) as [cpu0|] eqn:El; [|apply Hg].
  destruct (last_total cpu0 >? 0); cbn;
    (destruct (decide (n = sl_name l)) as [->|Hn];
     [rewrite lookup_insert_eq; intros [= <-]; exact (Hg _ _ El)|rewrite lookup_insert_ne by done; apply Hg]).
Qed.

Lemma account_other c l n :
  gauges_named c → n ≠ sl_name l →
  cpu_usage (account c l) !! n = cpu_usage c !! n ∧ cpu_gauges (account c l) !! n = cpu_gauges c !! n.
Proof.
  intros Hg Hn. unfold account, update_cpu. destruct (cpu_usage c !! sl_name l) as [cpu0|] eqn:El; [|done].
  pose proof (Hg _ _ El) as Hname.
  destruct (last_total cpu0 >? 0); cbn; (split; [by rewrite lookup_insert_ne|]); [|done].
  rewrite Hname. by rewrite lookup_insert_ne.
Qed.

Lemma account_env c l : mc_env (account c l) = mc_env c.
Proof.
  unfold account, update_cpu. destruct (cpu_usage c !! sl_name l) as [cpu0|]; [|done].
  by destruct (last_total cpu0 >? 0).
Qed.

Lemma accounts_named c ls : gauges_named c → gauges_named (foldl account c ls).
Proof. revert c. induction ls as [|l ls IH]; intros c Hg; [done|]. by apply IH, account_named. Qed.

Lemma accounts_other c ls n :
  gauges_named c → n ∉ sl_name <$> ls →
  cpu_usage (foldl account c ls) !! n = cpu_usage c !! n
  ∧ cpu_gauges (foldl account c ls) !! n = cpu_gauges c !! n.
Proof.
  revert c. induction ls as [|l ls IH]; intros c Hg Hn; [done|].
  rewrite fmap_cons, not_elem_of_cons in Hn. destruct Hn as [Hn1 Hn2].
  cbn [foldl]. destruct (IH (account c l)) as [-> ->]; [by apply account_named|done|]. by apply account_other.
Qed.

(** What accounting for a line leaves for its processor. *)
Definition accounted (c c' : MC) (l : stat_line) (cpu : CPUInfo) : Prop :=
  cpu_usage c' !! sl_name l = Some (MkCPUInfo (gauge cpu) (time cpu) (total_of l) (non_idle_of l))
  ∧ (0 < last_total cpu →
     cpu_gauges c' !! sl_name l
     = Some (percentage (u64 (non_idle_of l - last_non_idle cpu)) (u64 (total_of l - last_total cpu)))).

Lemma account_own c l cpu :
  gauges_named c → cpu_usage c !! sl_name l = Some cpu → accounted c (account c l) l cpu.
Proof.
  intros Hg El. pose proof (Hg _ _ El) as Hname. unfold accounted, account, update_cpu. rewrite El.
  destruct (Z.gtb_spec (last_total cpu) 0); cbn; (split; [by rewrite lookup_insert_eq|]); [|lia].
  intros _. rewrite Hname. by rewrite lookup_insert_eq.
Qed.

Lemma accounts_own c ls l cpu :
  gauges_named c → NoDup (sl_name <$> ls) → l ∈ ls → cpu_usage c !! sl_name l = Some cpu →
  accounted c (foldl account c ls) l cpu.
Proof.
  revert c. induction ls as [|l' ls IH]; intros c Hg Hnd Hin Hcpu; [by apply elem_of_nil in Hin|].
  rewrite fmap_cons in Hnd. apply NoDup_cons in Hnd as [Hnot Hnd]. cbn [foldl].
  apply elem_of_cons in Hin as [->|Hin].
  - destruct (account_own c l' cpu Hg Hcpu) as [H1 H2].
    destruct (accounts_other (account c l') ls (sl_name l')) as [Hu Hga]; [by apply account_named|done|].
    split; [by rewrite Hu|]. intros Ht. rewrite Hga. by apply H2.
  - assert (sl_name l ≠ sl_name l') as Hne.
    { intros Heq. apply Hnot. rewrite <- Heq. by apply list_elem_of_fmap_2. }
    destruct (account_other c l' (sl_name l) Hg Hne) as [Hu Hga].
    destruct (IH (account c l')) as [H1 H2]; [by apply account_named|done|done|by rewrite Hu|]. done.
Qed.
Definition set_env (e : E) (c : MC) : MC :=
  Collector e (cpu_usage c) (cpu_gauges c) (memory_used_gauge c) (packets_received_counter c)
    (packets_passed_counter c) (packets_dropped_counter c) (push_errors_total c) (is_running c).

Lemma nth_time_nonneg l i : line_wf l → 0 ≤ nth_time l i.
Proof.
  intros Hl. unfold nth_time. destruct (sl_times l !! i) as [v|] eqn:Ev; [|done].
  pose proof (lw_times l Hl) as Ht. rewrite Forall_lookup in Ht. by apply (Ht i v).
Qed.

Lemma non_idle_bounds l : line_wf l → 0 ≤ non_idle_of l ≤ total_of l.
Proof.
  intros Hl. pose proof (λ i, nth_time_nonneg l i Hl) as Hi. unfold total_of, non_idle_of.
  pose proof (Hi 0%nat). pose proof (Hi 1%nat). pose proof (Hi 2%nat). pose proof (Hi 3%nat).
  pose proof (Hi 4%nat). pose proof (Hi 5%nat). pose proof (Hi 6%nat). pose proof (Hi 7%nat). lia.
Qed.

(** One sample of a processor known to the collector. *)
Lemma GetCPUUsage_sample c ls l cpu :
  gauges_named c → sample (mc_env c) ls → l ∈ ls → cpu_usage c !! sl_name l = Some cpu →
  ∃ c', GetCPUUsage c = Ok (tt, c') ∧ gauges_named c' ∧ accounted c c' l cpu.
Proof.
  intros Hg Hs Hin Hcpu. destruct (GetCPUUsage_spec c ls Hs) as (c1 & _ & Hu & Hga & _ & Hrun).
  assert (gauges_named c1) as Hg1 by (intros n x; rewrite Hu; apply Hg).
  exists (foldl account c1 ls). split; [done|]. split; [by apply accounts_named|].
  destruct (accounts_own c1 ls l cpu) as [H1 H2]; [done|apply Hs|done|by rewrite Hu|]. done.
Qed.

(** C23: Processor usage: two samples of /proc/stat, with the counters of a processor not
    decreasing, set its gauge to the share of the time between them it was not
    idle, in per cent. *)
Theorem GetCPUUsage_measures c e2 ls1 ls2 l1 l2 cpu :
  gauges_named c → cpu_usage c !! sl_name l1 = Some cpu →
  sample (mc_env c) ls1 → l1 ∈ ls1 → sample e2 ls2 → l2 ∈ ls2 → sl_name l2 = sl_name l1 →
  0 < total_of l1 ≤ total_of l2 → non_idle_of l1 ≤ non_idle_of l2 →
  ∃ c1 c2, GetCPUUsage c = Ok (tt, c1) ∧ GetCPUUsage (set_env e2 c1) = Ok (tt, c2)
    ∧ cpu_gauges c2 !! sl_name l1
      = Some (percentage (non_idle_of l2 - non_idle_of l1) (total_of l2 - total_of l1)).
Proof.
  intros Hg Hcpu Hs1 Hl1 Hs2 Hl2 Hname Ht Hn.
  destruct (GetCPUUsage_sample c ls1 l1 cpu) as (c1 & Hr1 & Hg1 & Hu1 & _); try done.
  destruct (GetCPUUsage_sample (set_env e2 c1) ls2 l2 (MkCPUInfo (gauge cpu) (time cpu) (total_of l1) (non_idle_of l1)))
    as (c2 & Hr2 & _ & _ & Hg2); try done; [by rewrite Hname|].
  exists c1, c2. split; [done|]. split; [done|]. rewrite <- Hname, Hg2 by (cbn; lia).
  cbn [last_non_idle last_total].
  pose proof (sm_sums e2 ls2 Hs2) as Hsum. rewrite Forall_forall in Hsum. specialize (Hsum l2 Hl2).
  assert (∀ e ls l, sample e ls → l ∈ ls → 0 ≤ non_idle_of l ≤ total_of l) as Hb.
  { intros e ls l Hs Hl. apply non_idle_bounds. pose proof (sm_wf e ls Hs) as Hw.
    rewrite Forall_forall in Hw. by apply Hw. }
  pose proof (Hb _ ls1 l1 Hs1 Hl1). pose proof (Hb e2 ls2 l2 Hs2 Hl2).
  unfold sums_fit in Hsum. rewrite !u64_small by lia. done.
Qed.
End usage.

(** ** The thread *)

Section thread.
Context {E : Type} {HM : MetricsEnv E}.
#[local] Abbreviation MC := (MetricsCollector E).
Implicit Types (c : MC) (e : E).

(** /proc/stat cannot be opened, or is a sample. *)
Definition stat_readable (e : E) : Prop :=
  fst (open_proc_stat e) = None ∨ ∃ ls, sample e ls.

(** What measuring leaves alone. *)
Definition same_counts c c' : Prop :=
  is_running c' = is_running c ∧ push_errors_total c' = push_errors_total c
  ∧ packets_received_counter c' = packets_received_counter c
  ∧ packets_passed_counter c' = packets_passed_counter c
  ∧ packets_dropped_counter c' = packets_dropped_counter c.

#[local] Instance same_counts_preorder : PreOrder same_counts.
Proof. split; [by intros c|]. intros c1 c2 c3. unfold same_counts. intuition congruence. Qed.

Lemma accounts_counts c ls : same_counts c (foldl account c ls).
Proof.
  revert c. induction ls as [|l ls IH]; intros c; [done|]. cbn [foldl].
  etransitivity; [|apply IH]. unfold account, update_cpu.
  destruct (cpu_usage c !! sl_name l) as [cpu|]; [|done]. by destruct (last_total cpu >? 0).
Qed.

Lemma mc_call_spec {A} (f : E → A * E) c :
  ∃ c', mc_call f c = Ok (fst (f (mc_env c)), c') ∧ same_counts c c'.
Proof. unfold mc_call. destruct (f (mc_env c)) as [a e]. by eexists. Qed.

Lemma GetCPUUsage_returns c :
  stat_readable (mc_env c) → ∃ c', GetCPUUsage c = Ok (tt, c') ∧ same_counts c c'.
Proof.
  intros [Hnone|[ls Hs]].
  - unfold GetCPUUsage. destruct (mc_call_spec open_proc_stat c) as (c1 & Hrun & Hc).
    erewrite bind_eq by exact Hrun. rewrite Hnone. by eexists.
  - destruct (GetCPUUsage_spec c ls Hs) as (c1 & Hcall & _ & _ & _ & Hrun).
    destruct (mc_call_spec open_proc_stat c) as (c1' & Hrun' & Hc).
    rewrite Hcall in Hrun'. injection Hrun' as <-.
    eexists. split; [done|]. etransitivity; [done|]. apply accounts_counts.
Qed.

Lemma GetMemoryUsed_returns c : ∃ d c', GetMemoryUsed c = Ok (d, c') ∧ same_counts c c'.
Proof.
  unfold GetMemoryUsed. destruct (mc_call_spec open_proc_statm c) as (c1 & Hrun & Hc).
  erewrite bind_eq by exact Hrun. destruct (fst (open_proc_statm (mc_env c))) as [text|]; [|by eexists _, _].
  destruct (read_int _ _) as [total s]. destruct (read_int _ _) as [rss s']. by eexists _, _.
Qed.

(** A round of the thread returns; only the count of failed pushes changes. *)
Lemma collect_returns c :
  (∀ e, stat_readable e) →
  ∃ c' status, collect c = Ok (tt, c') ∧ is_running c' = is_running c
    ∧ push_errors_total c' = push_errors_total c + (if status =? 200 then 0 else 1)
    ∧ packets_received_counter c' = packets_received_counter c
    ∧ packets_passed_counter c' = packets_passed_counter c
    ∧ packets_dropped_counter c' = packets_dropped_counter c.
Proof.
  intros Hstat. unfold collect. destruct (GetMemoryUsed_returns c) as (d & c1 & H1 & Hc1).
  erewrite bind_eq by exact H1. erewrite bind_eq by reflexivity.
  destruct (GetCPUUsage_returns (set_memory d c1) (Hstat _)) as (c2 & H2 & Hc2).
  erewrite bind_eq by exact H2. unfold PushMetrics.
  destruct (mc_call_spec gateway_PushAdd c2) as (c3 & H3 & Hc3). erewrite bind_eq by exact H3.
  set (status := fst (gateway_PushAdd (mc_env c2))).
  assert (same_counts c c3) as (Hr & He & Hcr & Hcp & Hcd).
  { etransitivity; [exact Hc1|]. etransitivity; [|exact Hc3]. exact Hc2. }
  destruct (status =? 200) eqn:Est; cbn [negb]; eexists _, status; rewrite Est;
    (split; [done|]); cbn; split_and!; try done; lia.
Qed.

(** How many steps the thread can still make once it is told to stop. *)
Definition steps_left (pc : thread_pc) : nat :=
  match pc with Testing => 1 | Sleeping => 2 | Ended => 0 end.

Lemma other_step_stopped c c' : other_step c c' → is_running c = false → is_running c' = false.
Proof. by intros [n ? ? [= <-]|n ? ? [= <-]|n ? ? [= <-]|? ? [= <-]]. Qed.

Lemma thread_step_stopped s :
  (∀ e, stat_readable e) → is_running s.2 = false → s.1 ≠ Ended →
  ∃ s', thread_step s = Ok s' ∧ is_running s'.2 = false ∧ (steps_left s'.1 < steps_left s.1)%nat.
Proof.
  intros Hstat. destruct s as [[] c]; cbn [fst snd]; intros Hr Hpc; [| |done].
  - eexists. split; [done|]. cbn. rewrite Hr. cbn. by split; [|lia].
  - destruct (collect_returns c Hstat) as (c' & status & Hrun & Hr' & _).
    eexists. unfold thread_step. cbn. rewrite Hrun. cbn. split; [done|]. cbn. rewrite Hr'. by split; [|lia].
Qed.

Lemma collector_run_bound n s s' :
  (∀ e, stat_readable e) → collector_run n s s' → is_running s.2 = false →
  is_running s'.2 = false ∧ (n + steps_left s'.1 ≤ steps_left s.1)%nat.
Proof.
  intros Hstat. induction 1 as [s|n s s1 s' Hpc Hstep _ IH|n pc c c1 s' Hstep _ IH]; intros Hr.
  - split; [done|lia].
  - destruct (thread_step_stopped s Hstat Hr Hpc) as (s1' & Hs1 & Hr1 & Hlt).
    rewrite Hstep in Hs1. injection Hs1 as <-. destruct (IH Hr1) as [? ?]. split; [done|lia].
  - destruct IH as [? ?]; [by eapply other_step_stopped|]. split; [done|]. cbn in *. lia.
Qed.

(** C25: The destructor does not wait for ever: after its store, whatever
    the other threads do, the collector's thread makes at most two more steps
    (the round it may be in and the test), and until it has ended it can make
    one. *)
Theorem collector_thread_joins n s s' :
  (∀ e, stat_readable e) → is_running s.2 = false → collector_run n s s' →
  (n ≤ 2)%nat ∧ (s'.1 = Ended ∨ ∃ s'', thread_step s' = Ok s'').
Proof.
  intros Hstat Hr Hrun. destruct (collector_run_bound n s s' Hstat Hrun Hr) as [Hr' Hle].
  split; [destruct s as [[] ?]; cbn in *; lia|].
  destruct (decide (steps_left s'.1 = 0)%nat) as [H0|H0]; [left; by destruct s' as [[] ?]|right].
  destruct (thread_step_stopped s' Hstat Hr') as (s'' & Hs & _); [by destruct s' as [[] ?]|]. by exists s''.
Qed.
End thread.

(** ** A concrete machine *)

(** The texts /proc/stat is going to have and the answers of the gateway. *)
Record proc_env := ProcEnv { pe_stat : list (list Z); pe_status : list Z }.

#[global] Instance proc_env_metrics : MetricsEnv proc_env := {|
  open_proc_stat e := (Some (hd (bytes_of_string "intr 0") (pe_stat e)), ProcEnv (tl (pe_stat e)) (pe_status e));
  open_proc_statm e := (Some (bytes_of_string "5000 1200 300 10 0 900 0"), e);
  getpagesize := 4096;
  gateway_PushAdd e := (hd 200 (pe_status e), ProcEnv (pe_stat e) (tl (pe_status e)))
|}.

Definition cpu0 : list Z := bytes_of_string "cpu0".
Definition sample_line (iowait user : Z) : stat_line :=
  StatLine cpu0 [] [user; 0; 100; 500; iowait; 0; 0; 0; 0; 0].
Definition total_line (iowait user : Z) : stat_line :=
  StatLine (bytes_of_string "cpu") [32] [user; 0; 100; 500; iowait; 0; 0; 0; 0; 0].
Definition stat_rest : list Z := 105 :: bytes_of_string "ntr 42 0 7".
Definition stat_file (iowait user : Z) : list Z :=
  stat_text [total_line iowait user; sample_line iowait user] stat_rest.

Example stat_file_text :
  stat_file 50 200 = bytes_of_string "cpu  200 0 100 500 50 0 0 0 0 0" ++ [10]
    ++ bytes_of_string "cpu0 200 0 100 500 50 0 0 0 0 0" ++ [10] ++ bytes_of_string "intr 42 0 7".
Proof. vm_compute. reflexivity. Qed.

#[global] Instance line_wf_dec l : Decision (line_wf l).
Proof.
  refine (cast_if_and5 (decide (starts_cpu (sl_name l) = true)) (decide (Forall (λ c, isspace c = false) (sl_name l)))
    (decide (Forall (λ c, c = 32) (sl_gap l))) (decide (Forall (λ v, 0 ≤ v < 2 ^ 63) (sl_times l)))
    (decide (length (sl_times l) = 10%nat))); [by constructor|by intros []..].
Defined.

#[global] Instance ignored_fit_dec l : Decision (ignored_fit l).
Proof. unfold ignored_fit. apply _. Defined.
#[global] Instance sums_fit_dec l : Decision (sums_fit l).
Proof. unfold sums_fit. apply _. Defined.

Lemma stat_file_sample iowait user rest :
  Forall line_wf [total_line iowait user; sample_line iowait user] →
  Forall sums_fit [total_line iowait user; sample_line iowait user] →
  sample (ProcEnv (stat_file iowait user :: rest) []) [total_line iowait user; sample_line iowait user].
Proof.
  intros Hw Hs. constructor; [|done|done|].
  - exists stat_rest. split; [done|]. vm_compute. reflexivity.
  - refine (bool_decide_unpack _ _). vm_compute. exact I.
Qed.

Lemma stat_rest_other : other_word stat_rest.
Proof. split; [|done]. vm_compute. reflexivity. Qed.

(** The collector as the constructor leaves it, on a machine with one
    processor. *)
Definition sample_collector (stats : list (list Z)) : MetricsCollector proc_env :=
  set_usage (foldl register ∅ [total_line 50 200; sample_line 50 200])
    (collector_fields (ProcEnv stats [])).

Lemma collector_registers_cpus_witness :
  Forall line_wf [total_line 50 200; sample_line 50 200]
  ∧ new_MetricsCollector 3 (ProcEnv [stat_file 50 200] []) = Ok (sample_collector []).
Proof.
  assert (Forall line_wf [total_line 50 200; sample_line 50 200]) as Hwf
    by (refine (bool_decide_unpack _ _); vm_compute; exact I).
  split; [exact Hwf|].
  refine (collector_registers_cpus (ProcEnv [stat_file 50 200] []) [total_line 50 200; sample_line 50 200]
            stat_rest 3 _ _ _ _ _).
  - reflexivity.
  - exact Hwf.
  - refine (bool_decide_unpack _ _). vm_compute. exact I.
  - apply stat_rest_other.
  - cbn. lia.
Defined.

(** 3000000000 ticks of waiting for input and output: 347 days at 100 ticks a
    second, over all processors. *)
Lemma collector_constructor_hangs_witness :
  line_wf (total_line 3000000000 200)
  ∧ ∀ fuel, new_MetricsCollector fuel (ProcEnv [stat_file 3000000000 200] []) = Fault OutOfFuel.
Proof.
  assert (line_wf (total_line 3000000000 200)) as Hwf
    by (refine (bool_decide_unpack _ _); vm_compute; exact I).
  split; [exact Hwf|].
  apply (collector_constructor_hangs (ProcEnv [stat_file 3000000000 200] []) []
           (stat_file 3000000000 200)).
  - reflexivity.
  - constructor.
  - constructor.
  - right. exists (total_line 3000000000 200), (line_text (sample_line 3000000000 200) ++ 10 :: stat_rest).
    split; [exact Hwf|]. split; [|vm_compute; reflexivity].
    refine (bool_decide_unpack _ _). vm_compute. exact I.
Defined.

Lemma GetCPUUsage_measures_witness :
  let c := sample_collector [stat_file 50 200] in
  let e2 := ProcEnv [stat_file 100 250] [] in
  ∃ c1 c2, GetCPUUsage c = Ok (tt, c1) ∧ GetCPUUsage (set_env e2 c1) = Ok (tt, c2)
    ∧ cpu_gauges c2 !! cpu0 = Some (double_of 50).
Proof.
  assert (double_of 50 = percentage (non_idle_of (sample_line 100 250) - non_idle_of (sample_line 50 200))
    (total_of (sample_line 100 250) - total_of (sample_line 50 200))) as -> by (vm_compute; reflexivity).
  apply (GetCPUUsage_measures (sample_collector [stat_file 50 200]) (ProcEnv [stat_file 100 250] [])
           [total_line 50 200; sample_line 50 200] [total_line 100 250; sample_line 100 250]
           (sample_line 50 200) (sample_line 100 250) (new_cpu (sample_line 50 200))).
  - intros n cpu.
    change (cpu_usage (sample_collector [stat_file 50 200]))
      with (<[cpu0 := new_cpu (sample_line 50 200)]>
              (<[bytes_of_string "cpu" := new_cpu (total_line 50 200)]> ∅ : gmap (list Z) CPUInfo)).
    intros [[<- <-]|[_ [[<- <-]|[_ H]]%lookup_insert_Some]]%lookup_insert_Some; done.
  - vm_compute. reflexivity.
  - apply stat_file_sample; refine (bool_decide_unpack _ _); vm_compute; exact I.
  - right. left.
  - apply stat_file_sample; refine (bool_decide_unpack _ _); vm_compute; exact I.
  - right. left.
  - reflexivity.
  - vm_compute. split; congruence.
  - vm_compute. congruence.
Defined.

(** /proc/stat documents that the time of waiting for input and output may
    decrease: the gauge then shows more than a hundred per cent. *)
Theorem decreasing_iowait_overshoots :
  match (GetCPUUsage ;;; GetCPUUsage) (sample_collector [stat_file 50 200; stat_file 45 210]) with
  | Ok (_, c) => cpu_gauges c !! cpu0 = Some (double_of 200)
  | Fault _ => False
  end.
Proof. vm_compute. reflexivity. Qed.

(** A machine whose /proc/stat never changes. *)
#[local] Instance still_metrics : MetricsEnv unit := {|
  open_proc_stat e := (Some (stat_file 50 200), e);
  open_proc_statm e := (None, e);
  getpagesize := 4096;
  gateway_PushAdd e := (503, e)
|}.

Lemma collector_thread_joins_witness :
  let c : MetricsCollector unit := Collector tt ∅ ∅ None 0 0 0 0 false in
  ∃ s', collector_run 1 (Sleeping, c) s'
    ∧ (1 ≤ 2)%nat ∧ (s'.1 = Ended ∨ ∃ s'', thread_step s' = Ok s'').
Proof.
  assert (∀ e : unit, stat_readable e) as Hstat.
  { intros []. right. exists [total_line 50 200; sample_line 50 200]. constructor.
    - exists stat_rest. split; [done|]. vm_compute. reflexivity.
    - refine (bool_decide_unpack _ _). vm_compute. exact I.
    - refine (bool_decide_unpack _ _). vm_compute. exact I.
    - refine (bool_decide_unpack _ _). vm_compute. exact I. }
  set (c := Collector tt ∅ ∅ None 0 0 0 0 false : MetricsCollector unit).
  assert (∃ c', collect c = Ok (tt, c')) as [c' Hrun].
  { destruct (collect_returns c Hstat) as (c' & _ & Hrun & _). by exists c'. }
  assert (collector_run 1 (Sleeping, c) (Testing, c')) as Hr.
  { eapply R_thread; [done| |apply R_done]. unfold thread_step. cbn [fst snd]. by rewrite Hrun. }
  exists (Testing, c'). split; [exact Hr|].
  exact (collector_thread_joins 1 (Sleeping, c) (Testing, c') Hstat eq_refl Hr).
Defined.
