(* ===== verification/Types.v ===== *)
(** * Constants and data types of the filter

    [src/worker/include/dpdk_filter/constants.h] and [src/worker/include/dpdk_filter/types.h]: one
    Record per struct with the source's field names, fixed-size character
    arrays as byte lists, and the well-formedness of each type (array lengths,
    null-terminated strings). *)

From Stdlib Require Import ZArith Lia.
From stdpp Require Import prelude gmap strings.
From S2P Require Import Prelude CMem.

(** ** constants.h *)

Definition DNS_CACHE_DEFAULT_TTL : Z := 7 * 24 * 60 * 60.
Definition IP_CACHE_DEFAULT_TTL : Z := 7 * 24 * 60 * 60.
Definition FORWARD_TO_OUT_BURST_SIZE : nat := 32.
Definition MAX_CATEGORIES_BY_TRUST_LVL : nat := 64.
Definition MAX_DOMAINS : nat := 64.
Definition CACHE_SIZE : nat := 1024.
Definition MAX_IP4 : nat := 1024.
Definition MAX_IP6 : nat := 1024.
Definition IP6_LEN : nat := 16.
Definition DOMAIN_MAX_LEN : nat := 260.
Definition MAX_CATEGORIES : nat := 100.
Definition CATEGORY_MAX_LEN : nat := 64.
Definition LEN_LIST_EXCEPTION_PORTS : nat := 1.

(** ** errno values and the NULL convention *)

Definition ENOENT : Z := 2.
Definition ENOMEM : Z := 12.
Definition EINVAL : Z := 22.

(** Pointers to heap objects; NULL is [None]. *)
Definition ptr := positive.

(** ** types.h *)

(** [enum ip_version].  The constants are 1 and 2; the cache code stores the
    numbers 4 and 6 in the same enum type, so the type stays an integer. *)
Definition IP_4 : Z := 1.
Definition IP_6 : Z := 2.

Record net_port := NetPort {
  port_id : Z;
  iface_name : list Z;
  dev_name : list Z;
  dev_args : list Z;
  mbuf_pool : option ptr;
  mac_addr : list Z;
  neighbor_mac : list Z;
  neighbor_learned : bool
}.

Record info_of_pakage := InfoOfPakage {
  ethernet_type_host : Z;
  ethernet_type_protocol : Z;
  number_port : Z;
  domain : list Z;
  ip_version : Z;
  ip4_src : Z;
  ip4_dist : Z;
  ip6_src : list Z;
  ip6_dist : list Z
}.

Record trust_categories_with_lvl := TrustCategory {
  locked_by_trust_category : list Z;
  trust_lvl : Z
}.

Record BASE_POLICY := BasePolicy {
  locked_categories : list (list Z);
  categories_with_lvl : list trust_categories_with_lvl;
  ttl_ip : Z;
  ttl_domain : Z;
  block_domains : list (list Z);
  allow_domains : list (list Z);
  block_ip4 : list Z;
  allow_ip4 : list Z;
  block_ip6 : list (list Z);
  allow_ip6 : list (list Z);
  min_trust_level : Z
}.

Record requested_classification := RequestedClassification {
  get_categories : list (list Z);
  get_trust_level : Z
}.

Record node_cache_domain := NodeCacheDomain {
  nd_categories : list (list Z);
  nd_solution_is_send : bool;
  nd_trust_lvl : Z;
  nd_timestamp : Z;
  nd_ttl_seconds : Z;
  nd_ip : Z;
  nd_ip4_src : Z;
  nd_ip6_src : list Z;
  nd_key_domain : option ptr
}.

(** [struct ip_key]: the union of a 32-bit and a 16-byte address is its 16
    bytes of storage, of which [ip4] occupies the first four. *)
Record ip_key := IpKey {
  version : Z;
  addr : list Z
}.

Record node_cache_ip := NodeCacheIp {
  ni_categories : list (list Z);
  ni_solution_is_send : bool;
  ni_trust_lvl : Z;
  ni_timestamp : Z;
  ni_ttl_seconds : Z;
  ni_key : option ptr
}.

Record snapshot_domain := SnapshotDomain {
  sd_node : node_cache_domain;
  sd_domain : list Z
}.

Record snapshot_ip := SnapshotIp {
  si_node : node_cache_ip;
  si_key : ip_key
}.

Inductive load_result := LOAD_OK | LOAD_EXPIRED | LOAD_ERROR.

(** ** Zero-filled objects: [memset(&x, 0, sizeof(x))] and [rte_calloc] *)

Definition zero_table (rows cols : nat) : list (list Z) := replicate rows (zeros cols).

Definition info_zero : info_of_pakage :=
  {| ethernet_type_host := 0; ethernet_type_protocol := 0; number_port := 0;
     domain := zeros DOMAIN_MAX_LEN; ip_version := 0; ip4_src := 0; ip4_dist := 0;
     ip6_src := zeros IP6_LEN; ip6_dist := zeros IP6_LEN |}.

Definition policy_zero : BASE_POLICY :=
  {| locked_categories := zero_table MAX_CATEGORIES CATEGORY_MAX_LEN;
     categories_with_lvl :=
       replicate MAX_CATEGORIES_BY_TRUST_LVL (TrustCategory (zeros CATEGORY_MAX_LEN) 0);
     ttl_ip := 0; ttl_domain := 0;
     block_domains := zero_table MAX_DOMAINS DOMAIN_MAX_LEN;
     allow_domains := zero_table MAX_DOMAINS DOMAIN_MAX_LEN;
     block_ip4 := zeros MAX_IP4; allow_ip4 := zeros MAX_IP4;
     block_ip6 := zero_table MAX_IP6 IP6_LEN; allow_ip6 := zero_table MAX_IP6 IP6_LEN;
     min_trust_level := 0 |}.

Definition node_domain_zero : node_cache_domain :=
  {| nd_categories := zero_table MAX_CATEGORIES CATEGORY_MAX_LEN;
     nd_solution_is_send := false; nd_trust_lvl := 0; nd_timestamp := 0;
     nd_ttl_seconds := 0; nd_ip := 0; nd_ip4_src := 0; nd_ip6_src := zeros IP6_LEN;
     nd_key_domain := None |}.

Definition node_ip_zero : node_cache_ip :=
  {| ni_categories := zero_table MAX_CATEGORIES CATEGORY_MAX_LEN;
     ni_solution_is_send := false; ni_trust_lvl := 0; ni_timestamp := 0;
     ni_ttl_seconds := 0; ni_key := None |}.

(** ** Decidable equality and countability *)

#[global] Instance info_of_pakage_eq_dec : EqDecision info_of_pakage.
Proof. solve_decision. Defined.
#[global] Instance net_port_eq_dec : EqDecision net_port.
Proof. solve_decision. Defined.
#[global] Instance trust_categories_with_lvl_eq_dec : EqDecision trust_categories_with_lvl.
Proof. solve_decision. Defined.
#[global] Instance requested_classification_eq_dec : EqDecision requested_classification.
Proof. solve_decision. Defined.
#[global] Instance node_cache_domain_eq_dec : EqDecision node_cache_domain.
Proof. solve_decision. Defined.
#[global] Instance node_cache_ip_eq_dec : EqDecision node_cache_ip.
Proof. solve_decision. Defined.
#[global] Instance ip_key_eq_dec : EqDecision ip_key.
Proof. solve_decision. Defined.
#[global] Instance load_result_eq_dec : EqDecision load_result.
Proof. solve_decision. Defined.

#[global] Program Instance ip_key_countable : Countable ip_key :=
  inj_countable' (λ k, (version k, addr k)) (λ p, IpKey p.1 p.2) _.
Next Obligation. by intros []. Qed.

(** ** Well-formedness of the types *)

(** A table of [rows] character arrays of [cols] bytes. *)
Definition table_wf (rows cols : nat) (t : list (list Z)) : Prop :=
  length t = rows ∧ Forall (λ r, length r = cols) t.

(** A table of null-terminated strings. *)
Definition str_table_wf (rows cols : nat) (t : list (list Z)) : Prop :=
  table_wf rows cols t ∧ Forall (λ r, terminated r = true) t.

Definition entry_wf (e : trust_categories_with_lvl) : Prop :=
  length (locked_by_trust_category e) = CATEGORY_MAX_LEN
  ∧ terminated (locked_by_trust_category e) = true.

Record policy_wf (p : BASE_POLICY) : Prop := {
  wf_locked : str_table_wf MAX_CATEGORIES CATEGORY_MAX_LEN (locked_categories p);
  wf_lvl_len : length (categories_with_lvl p) = MAX_CATEGORIES_BY_TRUST_LVL;
  wf_lvl : Forall entry_wf (categories_with_lvl p);
  wf_block_dom : str_table_wf MAX_DOMAINS DOMAIN_MAX_LEN (block_domains p);
  wf_allow_dom : str_table_wf MAX_DOMAINS DOMAIN_MAX_LEN (allow_domains p);
  wf_block_ip4 : length (block_ip4 p) = MAX_IP4;
  wf_allow_ip4 : length (allow_ip4 p) = MAX_IP4;
  wf_block_ip6 : table_wf MAX_IP6 IP6_LEN (block_ip6 p);
  wf_allow_ip6 : table_wf MAX_IP6 IP6_LEN (allow_ip6 p)
}.

Record info_wf (i : info_of_pakage) : Prop := {
  wf_domain_len : length (domain i) = DOMAIN_MAX_LEN;
  wf_domain_term : terminated (domain i) = true;
  wf_ip6_src : length (ip6_src i) = IP6_LEN;
  wf_ip6_dist : length (ip6_dist i) = IP6_LEN
}.

Definition clas_wf (c : requested_classification) : Prop :=
  str_table_wf MAX_CATEGORIES CATEGORY_MAX_LEN (get_categories c).

(** The last byte of every row is null: whatever [strncpy] writes into the
    bytes before it, the row stays a string. *)
Definition clas_clean (c : requested_classification) : Prop :=
  table_wf MAX_CATEGORIES CATEGORY_MAX_LEN (get_categories c)
  ∧ Forall (λ r, last r = Some 0%Z) (get_categories c).

(** ** Lemmas *)

Lemma last_terminated r : last r = Some 0%Z → terminated r = true.
Proof.
  induction r as [|x r IH]; [done|]. destruct r as [|y r]; [by intros [= ->]|].
  intros H. cbn [terminated existsb] in *. rewrite IH by done. apply orb_true_r.
Qed.

Lemma terminated_zeros n : 0 < n → terminated (zeros n) = true.
Proof. destruct n; [lia|done]. Qed.

Lemma zero_table_wf rows cols : table_wf rows cols (zero_table rows cols).
Proof.
  split; [apply length_replicate|]. apply Forall_replicate, length_replicate.
Qed.

Lemma zero_str_table_wf rows cols :
  0 < cols → str_table_wf rows cols (zero_table rows cols).
Proof.
  intros H. split; [apply zero_table_wf|].
  by apply Forall_replicate, terminated_zeros.
Qed.

Lemma str_table_lookup rows cols t i r :
  str_table_wf rows cols t → t !! i = Some r →
  length r = cols ∧ ∃ s, cstr r = Some s.
Proof.
  intros [[_ Hlen] Hterm] Hr.
  rewrite Forall_lookup in Hlen, Hterm. split; [by eapply Hlen|].
  apply cstr_terminated. by eapply Hterm.
Qed.

Lemma policy_zero_wf : policy_wf policy_zero.
Proof.
  constructor;
    first [ apply length_replicate
          | apply zero_str_table_wf; unfold CATEGORY_MAX_LEN, DOMAIN_MAX_LEN; lia
          | apply zero_table_wf
          | apply Forall_replicate; done ].
Qed.

Lemma info_zero_wf : info_wf info_zero.
Proof. by split. Qed.

(** A string stored in a character array of [cols] bytes, and a table whose
    first rows hold the given strings. *)
Definition pad (cols : nat) (s : list Z) : list Z := s ++ zeros (cols - length s).

Definition str_table (rows cols : nat) (ss : list string) : list (list Z) :=
  (pad cols ∘ bytes_of_string <$> ss) ++ zero_table (rows - length ss) cols.

Lemma pad_length cols s : length s ≤ cols → length (pad cols s) = cols.
Proof. intros H. unfold pad, zeros. rewrite length_app, length_replicate. lia. Qed.

Lemma pad_cstr cols s :
  Forall (λ x, x ≠ 0%Z) s → length s < cols → cstr (pad cols s) = Some s.
Proof.
  intros Hs Hlen. unfold pad.
  replace (cols - length s) with (S (cols - length s - 1)) by lia.
  by apply cstr_app.
Qed.

Lemma pad_terminated cols s : length s < cols → terminated (pad cols s) = true.
Proof.
  intros H. unfold pad, terminated. rewrite existsb_app.
  pose proof (terminated_zeros (cols - length s) ltac:(lia)) as Hz.
  unfold terminated in Hz. by rewrite Hz, orb_true_r.
Qed.

Lemma bytes_of_string_length s : length (bytes_of_string s) = String.length s.
Proof.
  unfold bytes_of_string. rewrite length_fmap.
  induction s as [|a s IH]; [done|]. simpl. by rewrite IH.
Qed.

Lemma str_table_str_wf rows cols ss :
  0 < cols → length ss ≤ rows → Forall (λ s, String.length s < cols) ss →
  str_table_wf rows cols (str_table rows cols ss).
Proof.
  intros Hc Hr Hss. destruct (zero_str_table_wf (rows - length ss) cols Hc) as [[Hl Hz] Ht].
  unfold str_table. split; [split|].
  - rewrite length_app, length_fmap, Hl. lia.
  - apply Forall_app; split; [|done]. apply Forall_fmap.
    eapply Forall_impl; [exact Hss|]. intros s Hs. simpl in *.
    apply pad_length. rewrite bytes_of_string_length. lia.
  - apply Forall_app; split; [|done]. apply Forall_fmap.
    eapply Forall_impl; [exact Hss|]. intros s Hs. simpl in *.
    apply pad_terminated. by rewrite bytes_of_string_length.
Qed.

#[export] Hint Resolve policy_zero_wf info_zero_wf zero_table_wf : cdb.
