(* ===== verification/Filter.v ===== *)
(** * The filter: filtr_packets.c

    One definition per function of [src/worker/src/dpdk_filter/filtr_packets.c], loop for
    loop, with the array accesses of the source; then the reference
    definitions of the same checks (membership in the list of configured
    strings or addresses, a verdict as a cascade of rules) and the theorems
    that the loops compute them. *)

From Stdlib Require Import ZArith Lia.
From stdpp Require Import prelude gmap strings.
From S2P Require Import Prelude CMem Types.

Local Open Scope Z_scope.

(** ** The memory behind [categories_with_lvl]

    [check_categories_with_lvl] indexes its 64-entry array up to 99.  What the
    36 reads behind the array see is not defined by C; it is an argument of
    the model.  [strict_platform] makes them faults, as the C standard does;
    [flat_platform] is the layout of [struct BASE_POLICY] on the build
    targets, where the reads land in [ttl_ip], [ttl_domain] and
    [block_domains]. *)
Class Platform := {
  overrun_entries : BASE_POLICY → list trust_categories_with_lvl
}.

Definition strict_platform : Platform := {| overrun_entries := λ _, [] |}.

(** The bytes of [struct BASE_POLICY] from [ttl_ip] to the end of
    [block_domains]. *)
Definition policy_tail (p : BASE_POLICY) : list Z :=
  le_bytes32 (ttl_ip p) ++ le_bytes32 (ttl_domain p) ++ concat (block_domains p).

(** The [k]-th 68-byte entry behind the array: a string that starts there and
    the 32-bit integer 64 bytes further. *)
Definition tail_entry (mem : list Z) (k : nat) : trust_categories_with_lvl :=
  let m := drop (68 * k) mem in
  {| locked_by_trust_category := m;
     trust_lvl := match drop 64 m with
                  | b0 :: b1 :: b2 :: b3 :: _ => i32 (le32 b0 b1 b2 b3)
                  | _ => 0
                  end |}.

Definition flat_platform : Platform :=
  {| overrun_entries p := tail_entry (policy_tail p) <$> seq 0 36 |}.

(** ** The functions of filtr_packets.c *)

Definition check_domain_is_block (dom : list Z) (block_doms : list (list Z)) : res bool :=
  let* r := c_for MAX_DOMAINS 0 (λ i,
    let* row := array_get block_doms i in
    let* c0 := array_get row 0 in
    if c0 =? 0 then Ok Break else
    let* c := strcmp row dom in
    if c =? 0 then Ok (Return true) else Ok Next) in
  Ok (default false r).

Definition check_domain_is_allow (dom : list Z) (allow_doms : list (list Z)) : res bool :=
  let* r := c_for MAX_DOMAINS 0 (λ i,
    let* row := array_get allow_doms i in
    let* c0 := array_get row 0 in
    if c0 =? 0 then Ok Break else
    let* c := strcmp row dom in
    if c =? 0 then Ok (Return true) else Ok Next) in
  Ok (default false r).

Definition check_trust_level (get_trust min_trust : Z) : bool :=
  if get_trust <? min_trust then false else true.

Definition check_ip_is_block (info_pac : info_of_pakage) (policy : BASE_POLICY) : res bool :=
  let* r :=
    if ip_version info_pac =? IP_4 then
      c_for MAX_IP4 0 (λ i,
        let* a := array_get (block_ip4 policy) i in
        if a =? 0 then Ok Break else
        if ip4_dist info_pac =? a then Ok (Return true) else Ok Next)
    else
      c_for MAX_IP6 0 (λ i,
        let* row := array_get (block_ip6 policy) i in
        let* b0 := array_get row 0 in
        if b0 =? 0 then Ok Break else
        let* e := memcmp_eq (ip6_dist info_pac) row IP6_LEN in
        if (e : bool) then Ok (Return true) else Ok Next) in
  Ok (default false r).

Definition check_ip_is_allow (info_pac : info_of_pakage) (policy : BASE_POLICY) : res bool :=
  let* r :=
    if ip_version info_pac =? IP_4 then
      c_for MAX_IP4 0 (λ i,
        let* a := array_get (allow_ip4 policy) i in
        if a =? 0 then Ok Break else
        if ip4_dist info_pac =? a then Ok (Return true) else Ok Next)
    else
      c_for MAX_IP6 0 (λ i,
        let* row := array_get (allow_ip6 policy) i in
        let* b0 := array_get row 0 in
        if b0 =? 0 then Ok Break else
        let* e := memcmp_eq (ip6_dist info_pac) row IP6_LEN in
        if (e : bool) then Ok (Return true) else Ok Next) in
  Ok (default false r).

Definition check_categories (get_cats locked_cats : list (list Z)) : res bool :=
  let* r := c_for MAX_CATEGORIES 0 (λ i,
    let* r' := c_for MAX_CATEGORIES 0 (λ j,
      let* g := array_get get_cats i in
      let* l := array_get locked_cats j in
      let* c := strcmp g l in
      if c =? 0 then Ok (Return false) else Ok Next) in
    Ok (as_ctl r')) in
  Ok (default true r).

(** Both loops run to [MAX_CATEGORIES], the outer one over an array of
    [MAX_CATEGORIES_BY_TRUST_LVL] entries. *)
Definition check_categories_with_lvl (req_clas : requested_classification)
    (cats_with_lvl : list trust_categories_with_lvl) : res bool :=
  let* r := c_for MAX_CATEGORIES 0 (λ i,
    let* r' := c_for MAX_CATEGORIES 0 (λ j,
      let* g := array_get (get_categories req_clas) j in
      let* e := array_get cats_with_lvl i in
      let* c := strcmp g (locked_by_trust_category e) in
      if (c =? 0) && (get_trust_level req_clas <? trust_lvl e)
      then Ok (Return false) else Ok Next) in
    Ok (as_ctl r')) in
  Ok (default true r).

Definition unknown_str : list Z := c_str (bytes_of_string "unknown").

Section filter.
Context {platform : Platform}.

Definition check_categories_and_trust_level (req_clas : requested_classification)
    (policy : BASE_POLICY) : res bool :=
  let* is_unknown :=
    if get_trust_level req_clas =? 0 then
      let* g := array_get (get_categories req_clas) 0 in
      let* c := strcmp g unknown_str in
      Ok (c =? 0)
    else Ok false in
  if (is_unknown : bool) then Ok true else
  let* cats := check_categories (get_categories req_clas) (locked_categories policy) in
  if negb cats then Ok false else
  if negb (check_trust_level (get_trust_level req_clas) (min_trust_level policy))
  then Ok false else
  let* lvl := check_categories_with_lvl req_clas
                (categories_with_lvl policy ++ overrun_entries policy) in
  if negb lvl then Ok false else
  Ok true.

Definition main_filtring_by_domain (req_clas : requested_classification)
    (policy : BASE_POLICY) (info_pac : info_of_pakage) : res bool :=
  let* b := check_domain_is_block (domain info_pac) (block_domains policy) in
  if (b : bool) then Ok false else
  let* a := check_domain_is_allow (domain info_pac) (allow_domains policy) in
  if (a : bool) then Ok true else
  check_categories_and_trust_level req_clas policy.

Definition main_filtring_by_ip (req_clas : requested_classification)
    (policy : BASE_POLICY) (info_pac : info_of_pakage) : res bool :=
  let* b := check_ip_is_block info_pac policy in
  if (b : bool) then Ok false else
  let* a := check_ip_is_allow info_pac policy in
  if (a : bool) then Ok true else
  check_categories_and_trust_level req_clas policy.

End filter.

(** ** Reference definitions *)

(** The strings a table lists: the rows before the first empty one. *)
Definition row_empty (r : list Z) : bool := bool_decide (head r = Some 0).
Definition listed_strings (t : list (list Z)) : list (list Z) :=
  omap cstr (live row_empty t).

(** The addresses a list holds: those before the first terminator. *)
Definition listed_ip4 (l : list Z) : list Z := live (λ a, a =? 0) l.
Definition listed_ip6 (l : list (list Z)) : list (list Z) := live row_empty l.

(** All strings of a table, empty ones included. *)
Definition strings_of (t : list (list Z)) : list (list Z) := omap cstr t.

Definition domain_rule (dom : list Z) (t : list (list Z)) : bool :=
  bool_decide (dom ∈ listed_strings t).

Definition ip_rule (i : info_of_pakage) (l4 : list Z) (l6 : list (list Z)) : bool :=
  if ip_version i =? IP_4
  then bool_decide (ip4_dist i ∈ listed_ip4 l4)
  else bool_decide (ip6_dist i ∈ listed_ip6 l6).

Definition category_locked (cats locked : list (list Z)) : bool :=
  existsb (λ c, bool_decide (c ∈ locked)) cats.

Definition lvl_locked (cats : list (list Z)) (trust : Z)
    (entries : list trust_categories_with_lvl) : bool :=
  existsb (λ e, bool_decide (default [] (cstr (locked_by_trust_category e)) ∈ cats)
                && (trust <? trust_lvl e)) entries.

(** The verdict on a classification, given the level entries consulted. *)
Definition class_rule (c : requested_classification) (p : BASE_POLICY)
    (entries : list trust_categories_with_lvl) : bool :=
  let cats := strings_of (get_categories c) in
  if (get_trust_level c =? 0) && bool_decide (head cats = cstr unknown_str) then true
  else negb (category_locked cats (strings_of (locked_categories p)))
       && negb (get_trust_level c <? min_trust_level p)
       && negb (lvl_locked cats (get_trust_level c) entries).

Definition verdict (blocked allowed by_class : bool) : bool :=
  if blocked then false else if allowed then true else by_class.

(** What the platform must provide for the reads behind the array to be
    defined: 36 further entries with terminated strings. *)
Definition overrun_wf {platform : Platform} (p : BASE_POLICY) : Prop :=
  (36 ≤ length (overrun_entries p))%nat
  ∧ Forall (λ e, terminated (locked_by_trust_category e) = true) (overrun_entries p).

(** The entries the loop of [check_categories_with_lvl] consults. *)
Definition consulted {platform : Platform} (p : BASE_POLICY) :=
  take MAX_CATEGORIES (categories_with_lvl p ++ overrun_entries p).

(** ** Searching a table *)

Lemma row_empty_head r x r' : r = x :: r' → row_empty r = (x =? 0).
Proof.
  intros ->. unfold row_empty. simpl.
  case_bool_decide as H; symmetry; [apply Z.eqb_eq|apply Z.eqb_neq]; congruence.
Qed.

Lemma existsb_bool_decide {A} `{EqDecision B} (f : A → option B) (y : B) (l : list A) :
  (∀ x, x ∈ l → is_Some (f x)) →
  existsb (λ x, bool_decide (f x = Some y)) l = bool_decide (y ∈ omap f l).
Proof.
  induction l as [|x l IH]; intros Hall; [done|].
  cbn [existsb].
  - rewrite IH by (intros z Hz; apply Hall; rewrite elem_of_cons; by right).
    destruct (Hall x) as [z Hz]; [rewrite elem_of_cons; by left|]. csimpl. rewrite Hz.
    apply eq_bool_prop_intro. rewrite orb_True, !bool_decide_spec, elem_of_cons.
    naive_solver.
Qed.

Lemma existsb_ext_elem {A} (f g : A → bool) (l : list A) :
  (∀ x, x ∈ l → f x = g x) → existsb f l = existsb g l.
Proof.
  induction l as [|x l IH]; intros H; [done|]. simpl.
  rewrite (H x), IH; [done| |rewrite elem_of_cons; by left].
  intros y Hy. apply H. rewrite elem_of_cons. by right.
Qed.

Lemma list_omap_id_Some {A} (l : list A) : omap Some l = l.
Proof. induction l as [|x l IH]; [done|]. csimpl. by rewrite IH. Qed.

Section checks.
Implicit Types t : list (list Z).

Lemma domain_scan dom s t :
  str_table_wf MAX_DOMAINS DOMAIN_MAX_LEN t → cstr dom = Some s →
  check_domain_is_block dom t = Ok (domain_rule s t).
Proof.
  intros Hwf Hs. unfold check_domain_is_block.
  rewrite (c_for_scan0 row_empty (λ r, bool_decide (cstr r = Some s)) true t).
  - rewrite take_ge by (destruct Hwf as [[-> _] _]; lia).
    rewrite existsb_bool_decide; [by unfold domain_rule, listed_strings; case_bool_decide|].
    intros r [Hr _]%elem_of_live. apply list_elem_of_lookup in Hr as [k Hk].
    apply (str_table_lookup _ _ _ _ _ Hwf) in Hk as [_ [s' ->]]. eauto.
  - destruct Hwf as [[-> _] _]. lia.
  - intros j r Hr _. destruct (str_table_lookup _ _ _ _ _ Hwf Hr) as [Hlen [s' Hs']].
    rewrite (proj2 (array_get_Ok _ _ _) Hr).
    destruct r as [|x r']; [done|].
    rewrite (row_empty_head _ x r' eq_refl). simpl.
    destruct (x =? 0); [done|].
    destruct (strcmp_cstr _ _ _ _ Hs' Hs) as (c & -> & Hc). simpl.
    rewrite Hs'. case_bool_decide as Heq.
    + rewrite (proj2 Hc) by congruence. done.
    + rewrite (proj2 (Z.eqb_neq c 0)); [done|]. intros ?%Hc. congruence.
Qed.

Lemma domain_scan_allow dom s t :
  str_table_wf MAX_DOMAINS DOMAIN_MAX_LEN t → cstr dom = Some s →
  check_domain_is_allow dom t = Ok (domain_rule s t).
Proof. exact (domain_scan dom s t). Qed.


Lemma ip4_scan (l : list Z) (a : Z) :
  length l = MAX_IP4 →
  c_for MAX_IP4 0 (λ i,
    let* x := array_get l i in
    if x =? 0 then Ok Break else if a =? x then Ok (Return true) else Ok Next)
  = Ok (if bool_decide (a ∈ listed_ip4 l) then Some true else None).
Proof.
  intros Hlen.
  rewrite (c_for_scan0 (λ x, x =? 0) (λ x, bool_decide (Some x = Some a)) true l).
  - rewrite take_ge by lia. rewrite (existsb_bool_decide Some) by eauto.
    by rewrite list_omap_id_Some.
  - lia.
  - intros j x Hx _. rewrite (proj2 (array_get_Ok _ _ _) Hx). simpl.
    destruct (x =? 0); [done|].
    destruct (Z.eqb_spec a x); case_bool_decide; naive_solver.
Qed.

Lemma ip6_scan t (a : list Z) :
  table_wf MAX_IP6 IP6_LEN t → length a = IP6_LEN →
  c_for MAX_IP6 0 (λ i,
    let* row := array_get t i in
    let* b0 := array_get row 0 in
    if b0 =? 0 then Ok Break else
    let* e := memcmp_eq a row IP6_LEN in
    if (e : bool) then Ok (Return true) else Ok Next)
  = Ok (if bool_decide (a ∈ listed_ip6 t) then Some true else None).
Proof.
  intros [Hlen Hrows] Ha.
  rewrite (c_for_scan0 row_empty (λ r, bool_decide (Some r = Some a)) true t).
  - rewrite take_ge by lia. rewrite (existsb_bool_decide Some) by eauto.
    by rewrite list_omap_id_Some.
  - lia.
  - intros j r Hr _. rewrite (proj2 (array_get_Ok _ _ _) Hr).
    rewrite Forall_lookup in Hrows. pose proof (Hrows _ _ Hr) as Hrlen.
    destruct r as [|x r']; [done|].
    rewrite (row_empty_head _ x r' eq_refl). simpl.
    destruct (x =? 0); [done|]. rewrite memcmp_eq_all by done. simpl.
    repeat case_bool_decide; naive_solver.
Qed.


(** A category string of one table against one of another. *)
Lemma category_hit g l s s' (v : bool) (c : ctl bool) :
  cstr g = Some s → cstr l = Some s' →
  (let* k := strcmp g l in if (k =? 0) && v then Ok c else Ok Next)
  = Ok (if bool_decide (s = s') && v then c else Next).
Proof.
  intros Hs Ht. destruct (strcmp_cstr _ _ _ _ Hs Ht) as (k & -> & Hk). simpl.
  case_bool_decide as Heq.
  - rewrite (proj2 Hk Heq). by destruct v.
  - rewrite (proj2 (Z.eqb_neq k 0)) by tauto. done.
Qed.

(** Searching the strings of a terminated table. *)
Lemma existsb_strings rows cols t (f : list Z → bool) :
  str_table_wf rows cols t →
  existsb f (strings_of t) = existsb (λ r, f (default [] (cstr r))) t.
Proof.
  intros [_ Hterm]. unfold strings_of. induction Hterm as [|r t Hr _ IH]; [done|].
  apply cstr_terminated in Hr as [s Hs]. csimpl. rewrite Hs. simpl. by rewrite IH.
Qed.

Lemma existsb_elem {A} `{EqDecision A} (x : A) l :
  existsb (λ y, bool_decide (x = y)) l = bool_decide (x ∈ l).
Proof.
  induction l as [|y l IH]; [done|]. cbn [existsb]. rewrite IH.
  apply eq_bool_prop_intro. rewrite orb_True, !bool_decide_spec, elem_of_cons. done.
Qed.

Lemma check_categories_eq g l :
  str_table_wf MAX_CATEGORIES CATEGORY_MAX_LEN g →
  str_table_wf MAX_CATEGORIES CATEGORY_MAX_LEN l →
  check_categories g l = Ok (negb (category_locked (strings_of g) (strings_of l))).
Proof.
  intros Hg Hl. unfold check_categories, category_locked.
  rewrite (c_for_nested
    (λ x y, bool_decide (default [] (cstr x) = default [] (cstr y))) false g l).
  - pose proof (proj1 (proj1 Hg)). pose proof (proj1 (proj1 Hl)).
    rewrite !take_ge by lia. rewrite (existsb_strings _ _ g _ Hg).
    rewrite (existsb_ext_elem _ (λ r, bool_decide (default [] (cstr r) ∈ strings_of l))).
    + simpl. by destruct (existsb _ _).
    + intros r _. rewrite <- existsb_elem. by rewrite (existsb_strings _ _ l _ Hl).
  - destruct Hg as [[-> _] _]. lia.
  - destruct Hl as [[-> _] _]. lia.
  - intros i j x y Hx Hy.
    rewrite (proj2 (array_get_Ok _ _ _) Hx), (proj2 (array_get_Ok _ _ _) Hy).
    apply (str_table_lookup _ _ _ _ _ Hg) in Hx as [_ [s Hs]].
    apply (str_table_lookup _ _ _ _ _ Hl) in Hy as [_ [s' Hs']]. simpl.
    pose proof (category_hit x y s s' true (Return false) Hs Hs') as H.
    rewrite Hs, Hs'. simpl. rewrite andb_true_r in H. rewrite <- H.
    destruct (strcmp x y); simpl; [|done]. by rewrite andb_true_r.
Qed.

(** The inner loop of [check_categories_with_lvl] for one level entry. *)
Definition lvl_hit (c : requested_classification) (e : trust_categories_with_lvl) : bool :=
  bool_decide (default [] (cstr (locked_by_trust_category e))
                 ∈ strings_of (get_categories c))
  && (get_trust_level c <? trust_lvl e).

Lemma lvl_inner c es i e :
  clas_wf c → es !! i = Some e → terminated (locked_by_trust_category e) = true →
  c_for MAX_CATEGORIES 0 (λ j,
    let* g := array_get (get_categories c) j in
    let* e := array_get es i in
    let* k := strcmp g (locked_by_trust_category e) in
    if (k =? 0) && (get_trust_level c <? trust_lvl e)
    then Ok (Return false) else Ok Next)
  = Ok (if lvl_hit c e then Some false else None).
Proof.
  intros Hc He [s' Hs']%cstr_terminated.
  rewrite (c_for_scan0 (λ _, false)
    (λ x, bool_decide (default [] (cstr x) = s') && (get_trust_level c <? trust_lvl e))
    false (get_categories c)).
  - rewrite live_all, (take_ge (get_categories c)) by (destruct Hc as [[-> _] _]; lia).
    unfold lvl_hit. rewrite Hs'. simpl.
    rewrite <- existsb_elem, (existsb_strings _ _ _ _ Hc).
    match goal with |- Ok (if ?a then _ else _) = Ok (if ?b then _ else _) =>
      enough (a = b) as -> by done end.
    induction (get_categories c) as [|x l IH]; [done|]. cbn [existsb]. rewrite IH.
    rewrite andb_orb_distrib_l. do 2 f_equal. by apply bool_decide_ext.
  - destruct Hc as [[-> _] _]. lia.
  - intros j x Hx _.
    rewrite (proj2 (array_get_Ok _ _ _) Hx), (proj2 (array_get_Ok _ _ _) He). simpl.
    apply (str_table_lookup _ _ _ _ _ Hc) in Hx as [_ [s Hs]].
    rewrite (category_hit _ _ s s') by done. by rewrite Hs.
Qed.

Lemma check_categories_with_lvl_eq c es :
  clas_wf c → (MAX_CATEGORIES ≤ length es)%nat →
  Forall (λ e, terminated (locked_by_trust_category e) = true) es →
  check_categories_with_lvl c es
  = Ok (negb (lvl_locked (strings_of (get_categories c)) (get_trust_level c)
                (take MAX_CATEGORIES es))).
Proof.
  intros Hc Hlen Hterm. unfold check_categories_with_lvl, lvl_locked.
  rewrite (c_for_scan0 (λ _, false) (lvl_hit c) false es); [|done|].
  - rewrite live_all. cbn [rbind]. fold (lvl_hit c). by destruct (existsb _ _).
  - intros i e He _. rewrite Forall_lookup in Hterm.
    rewrite (lvl_inner c es i e) by eauto. simpl. by destruct (lvl_hit c e).
Qed.

End checks.

(** ** The verdict *)

Section verdicts.
Context {platform : Platform}.
Implicit Types (p : BASE_POLICY) (c : requested_classification) (i : info_of_pakage).

Lemma is_unknown_eq c :
  clas_wf c →
  (if get_trust_level c =? 0 then
     let* g := array_get (get_categories c) 0 in
     let* k := strcmp g unknown_str in Ok (k =? 0)
   else Ok false)
  = Ok ((get_trust_level c =? 0)
        && bool_decide (head (strings_of (get_categories c)) = cstr unknown_str)).
Proof.
  intros Hwf. destruct (get_trust_level c =? 0); [|done].
  destruct (get_categories c) as [|g gs] eqn:Eg.
  { destruct Hwf as [[Hlen _] _]. by rewrite Eg in Hlen. }
  simpl. destruct (str_table_lookup _ _ _ 0 g Hwf) as [_ [s Hs]]; [by rewrite Eg|].
  rewrite (strcmp_eqb _ _ s (bytes_of_string "unknown") Hs) by done.
  unfold strings_of. csimpl. rewrite Hs. simpl. f_equal.
  apply bool_decide_ext. split; [by intros ->|].
  intros H. change (cstr unknown_str) with (Some (bytes_of_string "unknown")) in H.
  congruence.
Qed.

Lemma consulted_terminated p :
  policy_wf p → overrun_wf p →
  Forall (λ e, terminated (locked_by_trust_category e) = true)
    (categories_with_lvl p ++ overrun_entries p).
Proof.
  intros Hp [_ Ho]. apply Forall_app; split; [|done].
  eapply Forall_impl; [apply (wf_lvl _ Hp)|]. by intros e [_ ?].
Qed.

Lemma class_rule_eq c p :
  clas_wf c → policy_wf p → overrun_wf p →
  check_categories_and_trust_level c p = Ok (class_rule c p (consulted p)).
Proof.
  intros Hc Hp Ho. unfold check_categories_and_trust_level, class_rule.
  rewrite is_unknown_eq by done. cbn [rbind]. destruct (_ && _); [done|].
  rewrite check_categories_eq by (done || apply Hp). cbn [rbind].
  destruct (category_locked _ _); [done|]. cbn [negb andb].
  unfold check_trust_level. destruct (_ <? _); [done|]. cbn [negb andb].
  rewrite check_categories_with_lvl_eq; [|done| |by apply consulted_terminated].
  - cbn [rbind]. unfold consulted. by destruct (lvl_locked _ _ _).
  - rewrite length_app, (wf_lvl_len _ Hp). destruct Ho as [Ho _].
    unfold MAX_CATEGORIES, MAX_CATEGORIES_BY_TRUST_LVL. lia.
Qed.

Lemma check_ip_is_block_eq i p :
  policy_wf p → info_wf i →
  check_ip_is_block i p = Ok (ip_rule i (block_ip4 p) (block_ip6 p)).
Proof.
  intros Hp Hi. unfold check_ip_is_block, ip_rule. destruct (_ =? _).
  - rewrite ip4_scan by apply Hp. simpl. by case_bool_decide.
  - rewrite ip6_scan by (apply Hp || apply Hi). simpl. by case_bool_decide.
Qed.

Lemma check_ip_is_allow_eq i p :
  policy_wf p → info_wf i →
  check_ip_is_allow i p = Ok (ip_rule i (allow_ip4 p) (allow_ip6 p)).
Proof.
  intros Hp Hi. unfold check_ip_is_allow, ip_rule. destruct (_ =? _).
  - rewrite ip4_scan by apply Hp. simpl. by case_bool_decide.
  - rewrite ip6_scan by (apply Hp || apply Hi). simpl. by case_bool_decide.
Qed.

(** The specification of the two entry points of the filter. *)
Definition domain_verdict (c : requested_classification) (p : BASE_POLICY)
    (i : info_of_pakage) : bool :=
  let s := default [] (cstr (domain i)) in
  verdict (domain_rule s (block_domains p)) (domain_rule s (allow_domains p))
    (class_rule c p (consulted p)).

(** The verdict the administrator's guide (src/admin/README.md) describes: the
    allow list has priority over the block list. *)
Definition documented_verdict (c : requested_classification) (p : BASE_POLICY)
    (i : info_of_pakage) : bool :=
  let s := default [] (cstr (domain i)) in
  if domain_rule s (allow_domains p) then true
  else if domain_rule s (block_domains p) then false
  else class_rule c p (consulted p).

(** The name asked for is on both lists. *)
Definition on_both_lists (p : BASE_POLICY) (i : info_of_pakage) : bool :=
  let s := default [] (cstr (domain i)) in
  domain_rule s (block_domains p) && domain_rule s (allow_domains p).

Definition ip_verdict (c : requested_classification) (p : BASE_POLICY)
    (i : info_of_pakage) : bool :=
  verdict (ip_rule i (block_ip4 p) (block_ip6 p)) (ip_rule i (allow_ip4 p) (allow_ip6 p))
    (class_rule c p (consulted p)).

Lemma domain_verdict_eq c p i :
  clas_wf c → policy_wf p → overrun_wf p → info_wf i →
  main_filtring_by_domain c p i = Ok (domain_verdict c p i).
Proof.
  intros Hc Hp Ho Hi. unfold main_filtring_by_domain, domain_verdict.
  destruct (proj1 (cstr_terminated _) (wf_domain_term _ Hi)) as [s Hs].
  rewrite (domain_scan _ s) by (done || apply Hp). rewrite Hs. cbn.
  destruct (domain_rule s (block_domains p)); [done|].
  rewrite (domain_scan_allow _ s) by (done || apply Hp). cbn.
  destruct (domain_rule s (allow_domains p)); [done|]. by apply class_rule_eq.
Qed.

Lemma ip_verdict_eq c p i :
  clas_wf c → policy_wf p → overrun_wf p → info_wf i →
  main_filtring_by_ip c p i = Ok (ip_verdict c p i).
Proof.
  intros Hc Hp Ho Hi. unfold main_filtring_by_ip, ip_verdict.
  rewrite check_ip_is_block_eq by done. cbn. destruct (ip_rule _ _ _); [done|].
  rewrite check_ip_is_allow_eq by done. cbn. destruct (ip_rule _ _ _); [done|].
  by apply class_rule_eq.
Qed.

(** Without readable memory behind the array the level check finds a locking
    entry among the 64 configured ones or runs out of bounds. *)
Lemma check_categories_with_lvl_overrun c es :
  clas_wf c → length es = MAX_CATEGORIES_BY_TRUST_LVL →
  Forall (λ e, terminated (locked_by_trust_category e) = true) es →
  check_categories_with_lvl c es
  = if lvl_locked (strings_of (get_categories c)) (get_trust_level c) es
    then Ok false else Fault OutOfBounds.
Proof.
  intros Hc Hlen Hterm. unfold check_categories_with_lvl, lvl_locked.
  rewrite (c_for_overrun (lvl_hit c) false es _ 0 OutOfBounds).
  - fold (lvl_hit c). by destruct (existsb _ _).
  - unfold MAX_CATEGORIES, MAX_CATEGORIES_BY_TRUST_LVL in *. lia.
  - intros i e He. rewrite Forall_lookup in Hterm. simpl.
    rewrite (lvl_inner c es i e) by eauto. simpl. by destruct (lvl_hit c e).
  - destruct (get_categories c) as [|g gs] eqn:Eg.
    { destruct Hc as [[Hl _] _]. by rewrite Eg in Hl. }
    change MAX_CATEGORIES with (S 99). cbn. by rewrite array_get_ge by lia.
Qed.

End verdicts.

(** The layout of the build targets makes the overrun reads defined for every
    well-formed policy: they stay inside the structure. *)
Lemma terminated_drop n (a b : list Z) :
  (n ≤ length a)%nat → terminated b = true → terminated (drop n (a ++ b)) = true.
Proof.
  intros Hn Hb. rewrite drop_app_le by done. unfold terminated in *.
  by rewrite existsb_app, Hb, orb_true_r.
Qed.

Lemma length_concat_rows (cols : nat) (t : list (list Z)) :
  Forall (λ r, length r = cols) t → length (concat t) = (cols * length t)%nat.
Proof. induction 1; simpl; [lia|]. rewrite length_app. lia. Qed.

Lemma flat_overrun_wf p : policy_wf p → overrun_wf (platform:=flat_platform) p.
Proof.
  intros Hp. unfold overrun_wf, flat_platform. cbn [overrun_entries].
  split; [by rewrite length_fmap, length_seq|].
  apply Forall_fmap, Forall_forall. intros k Hk%list_elem_of_In%in_seq.
  destruct (wf_block_dom _ Hp) as [[Hlen Hrows] Hterm].
  cbn [tail_entry locked_by_trust_category]. unfold policy_tail.
  destruct (block_domains p) as [|r t _] eqn:E using rev_ind; [done|].
  rewrite concat_app, !app_assoc. cbn [concat]. rewrite app_nil_r.
  apply Forall_app in Hrows as [Hrows _].
  apply Forall_app in Hterm as [_ Hr].
  rewrite length_app in Hlen. simpl in Hlen. unfold MAX_DOMAINS in Hlen.
  apply Forall_cons in Hr as [Hr _].
  apply (terminated_drop (68 * k)); [|done].
  rewrite length_app, (length_concat_rows _ _ Hrows). unfold DOMAIN_MAX_LEN. lia.
Qed.

(** ** Theorems *)

(** Sample data for the witnesses: a policy that blocks bad.com, allows
    good.com and locks the category ads, and a classification. *)
Definition sample_policy : BASE_POLICY :=
  {| locked_categories := str_table MAX_CATEGORIES CATEGORY_MAX_LEN ["ads"];
     categories_with_lvl := categories_with_lvl policy_zero;
     ttl_ip := 60; ttl_domain := 60;
     block_domains := str_table MAX_DOMAINS DOMAIN_MAX_LEN ["bad.com"];
     allow_domains := str_table MAX_DOMAINS DOMAIN_MAX_LEN ["good.com"];
     block_ip4 := block_ip4 policy_zero; allow_ip4 := allow_ip4 policy_zero;
     block_ip6 := block_ip6 policy_zero; allow_ip6 := allow_ip6 policy_zero;
     min_trust_level := 10 |}.

Definition sample_clas (cats : list string) (trust : Z) : requested_classification :=
  {| get_categories := str_table MAX_CATEGORIES CATEGORY_MAX_LEN cats;
     get_trust_level := trust |}.

Definition sample_info (dom : string) : info_of_pakage :=
  {| ethernet_type_host := 8; ethernet_type_protocol := 8; number_port := 13568;
     domain := pad DOMAIN_MAX_LEN (bytes_of_string dom); ip_version := IP_4;
     ip4_src := 1; ip4_dist := 16909060; ip6_src := zeros IP6_LEN; ip6_dist := zeros IP6_LEN |}.

Lemma sample_policy_wf : policy_wf sample_policy.
Proof.
  constructor; try apply policy_zero_wf; apply str_table_str_wf;
    repeat (constructor || unfold CATEGORY_MAX_LEN, DOMAIN_MAX_LEN, MAX_CATEGORIES,
              MAX_DOMAINS || simpl || lia).
Qed.

Lemma sample_clas_wf cats trust :
  (length cats ≤ MAX_CATEGORIES)%nat →
  Forall (λ s, (String.length s < CATEGORY_MAX_LEN)%nat) cats →
  clas_wf (sample_clas cats trust).
Proof. intros. apply str_table_str_wf; [unfold CATEGORY_MAX_LEN; lia|done|done]. Qed.

Lemma sample_info_wf dom :
  (String.length dom < DOMAIN_MAX_LEN)%nat → info_wf (sample_info dom).
Proof.
  intros H. constructor; simpl; try done.
  - apply pad_length. rewrite bytes_of_string_length. lia.
  - apply pad_terminated. by rewrite bytes_of_string_length.
Qed.



(** C30: a name on both lists is refused, whatever its classification, although
    the administrator's guide gives the allow list priority. *)
Theorem block_overrides_allow {platform : Platform} c p i :
  policy_wf p → info_wf i → on_both_lists p i = true →
  main_filtring_by_domain c p i = Ok false ∧ documented_verdict c p i = true.
Proof.
  intros Hp Hi Hb. unfold main_filtring_by_domain, documented_verdict, on_both_lists in *.
  destruct (proj1 (cstr_terminated _) (wf_domain_term _ Hi)) as [s Hs]. rewrite Hs in *. cbn in *.
  apply andb_prop in Hb as [Hblock Hallow].
  rewrite (domain_scan _ s), Hblock by (done || apply Hp). by rewrite Hallow.
Qed.

(** A policy with a name on both lists. *)
Definition both_policy : BASE_POLICY :=
  {| locked_categories := locked_categories sample_policy;
     categories_with_lvl := categories_with_lvl policy_zero;
     ttl_ip := 60; ttl_domain := 60;
     block_domains := block_domains sample_policy; allow_domains := block_domains sample_policy;
     block_ip4 := block_ip4 policy_zero; allow_ip4 := allow_ip4 policy_zero;
     block_ip6 := block_ip6 policy_zero; allow_ip6 := allow_ip6 policy_zero;
     min_trust_level := 10 |}.

Lemma block_overrides_allow_witness :
  on_both_lists both_policy (sample_info "bad.com") = true
  ∧ @main_filtring_by_domain flat_platform (sample_clas ["news"] 50) both_policy
      (sample_info "bad.com") = Ok false.
Proof.
  split; [vm_compute; reflexivity|].
  refine (proj1 (@block_overrides_allow flat_platform _ both_policy (sample_info "bad.com") _ _ _)).
  - destruct sample_policy_wf, policy_zero_wf. by constructor.
  - apply sample_info_wf. unfold DOMAIN_MAX_LEN. simpl. lia.
  - vm_compute. reflexivity.
Defined.

(** C15: likewise for [main_filtring_by_ip], with the IPv4 or the IPv6 address
    lists according to the packet, up to their first zero terminator. *)
Theorem main_filtring_by_ip_correct {platform : Platform} c p i :
  clas_wf c → policy_wf p → overrun_wf p → info_wf i →
  main_filtring_by_ip c p i = Ok (ip_verdict c p i).
Proof. apply ip_verdict_eq. Qed.

Lemma main_filtring_by_ip_correct_witness :
  @main_filtring_by_ip flat_platform (sample_clas ["unknown"] 0) sample_policy
    (sample_info "") = Ok true.
Proof.
  rewrite (@main_filtring_by_ip_correct flat_platform); [by vm_compute|..].
  - apply sample_clas_wf; repeat constructor; unfold MAX_CATEGORIES, CATEGORY_MAX_LEN; simpl; lia.
  - apply sample_policy_wf.
  - apply flat_overrun_wf, sample_policy_wf.
  - apply sample_info_wf. unfold DOMAIN_MAX_LEN. simpl. lia.
Defined.

(** C35: in standard C, where nothing behind the 64-entry level array may be
    read, every site that is on neither domain list, is not unknown, has no
    locked category, enough trust and no locking level entry (so that the
    policy would pass it) makes the filter read out of bounds; in every other
    case the filter answers as the rules say. *)
Theorem main_filtring_by_domain_overrun c p i s :
  clas_wf c → policy_wf p → cstr (domain i) = Some s →
  let cats := strings_of (get_categories c) in
  @main_filtring_by_domain strict_platform c p i =
    if domain_rule s (block_domains p) then Ok false
    else if domain_rule s (allow_domains p) then Ok true
    else if (get_trust_level c =? 0) && bool_decide (head cats = cstr unknown_str) then Ok true
    else if category_locked cats (strings_of (locked_categories p)) then Ok false
    else if get_trust_level c <? min_trust_level p then Ok false
    else if lvl_locked cats (get_trust_level c) (categories_with_lvl p) then Ok false
    else Fault OutOfBounds.
Proof.
  intros Hc Hp Hs cats. unfold main_filtring_by_domain.
  rewrite (domain_scan _ s) by (done || apply Hp). cbn [rbind].
  destruct (domain_rule s (block_domains p)); [done|].
  rewrite (domain_scan_allow _ s) by (done || apply Hp). cbn [rbind].
  destruct (domain_rule s (allow_domains p)); [done|].
  unfold check_categories_and_trust_level.
  rewrite is_unknown_eq by done. cbn [rbind]. fold cats. destruct (_ && _); [done|].
  rewrite check_categories_eq by (done || apply Hp). cbn [rbind]. fold cats.
  destruct (category_locked _ _); [done|]. cbn [negb].
  unfold check_trust_level. destruct (_ <? _); [done|]. cbn [negb].
  cbn [overrun_entries strict_platform]. rewrite app_nil_r.
  rewrite check_categories_with_lvl_overrun; [|done|apply Hp|].
  - fold cats. by destruct (lvl_locked _ _ _).
  - eapply Forall_impl; [apply (wf_lvl _ Hp)|]. by intros e [_ ?].
Qed.

Lemma main_filtring_by_domain_overrun_witness :
  @main_filtring_by_domain strict_platform
    (RequestedClassification (replicate MAX_CATEGORIES (pad CATEGORY_MAX_LEN (bytes_of_string "news"))) 50)
    sample_policy (sample_info "site.org") = Fault OutOfBounds.
Proof.
  rewrite (main_filtring_by_domain_overrun _ _ _ (bytes_of_string "site.org")).
  - by vm_compute.
  - split; [split; [done|]|]; by apply Forall_replicate.
  - apply sample_policy_wf.
  - done.
Defined.

(** [check_categories] compares unused (empty) slots too: when both the
    classification and the policy leave a slot unused, the site counts as
    locked and is refused, whatever its categories and trust level. *)
Theorem check_categories_unused_slot {platform : Platform} c p :
  clas_wf c → policy_wf p →
  [] ∈ strings_of (get_categories c) → [] ∈ strings_of (locked_categories p) →
  get_trust_level c ≠ 0 →
  check_categories_and_trust_level c p = Ok false.
Proof.
  intros Hc Hp Hcat Hlock Ht. unfold check_categories_and_trust_level.
  rewrite (proj2 (Z.eqb_neq _ _) Ht). cbn [rbind].
  rewrite check_categories_eq by (done || apply Hp). cbn [rbind].
  replace (category_locked _ _) with true; [done|]. symmetry.
  apply existsb_exists. exists []. split; [by apply list_elem_of_In|].
  by apply bool_decide_eq_true.
Qed.

Lemma check_categories_unused_slot_witness :
  @check_categories_and_trust_level flat_platform (sample_clas ["news"] 100) policy_zero
  = Ok false.
Proof.
  apply check_categories_unused_slot.
  - apply sample_clas_wf; repeat constructor; unfold MAX_CATEGORIES, CATEGORY_MAX_LEN; simpl; lia.
  - apply policy_zero_wf.
  - apply (bool_decide_unpack _). by vm_compute.
  - apply (bool_decide_unpack _). by vm_compute.
  - done.
Defined.

(** An IPv6 block entry whose first byte is zero (such as ::1 or a mapped
    IPv4 address) ends the list: neither it nor any entry after it is ever
    enforced. *)
Theorem check_ip_is_block_zero_byte i p k row :
  policy_wf p → info_wf i → ip_version i ≠ IP_4 →
  block_ip6 p !! k = Some row → row !! 0%nat = Some 0 →
  (∀ j r, (j < k)%nat → block_ip6 p !! j = Some r → r ≠ ip6_dist i) →
  check_ip_is_block i p = Ok false.
Proof.
  intros Hp Hi Hv Hk Hrow Hbefore. rewrite check_ip_is_block_eq by done.
  unfold ip_rule. rewrite (proj2 (Z.eqb_neq _ _) Hv). f_equal.
  apply bool_decide_eq_false. unfold listed_ip6.
  clear Hp Hi Hv. revert k Hk Hbefore. generalize (block_ip6 p) as l.
  induction l as [|x l IH]; intros k Hk Hbefore; [done|]. simpl.
  destruct k as [|k]; simplify_eq/=.
  - replace (row_empty row) with true; [apply not_elem_of_nil|].
    symmetry. apply bool_decide_eq_true. by destruct row.
  - destruct (row_empty x); [apply not_elem_of_nil|].
    rewrite elem_of_cons. intros [Heq|Hin].
    + apply (Hbefore 0%nat x); [lia|done|done].
    + apply (IH k) in Hin; [done|done|]. intros j r Hj Hr.
      apply (Hbefore (S j) r); [lia|done].
Qed.

Definition loopback_policy : BASE_POLICY :=
  {| locked_categories := locked_categories policy_zero;
     categories_with_lvl := categories_with_lvl policy_zero;
     ttl_ip := 60; ttl_domain := 60;
     block_domains := block_domains policy_zero; allow_domains := allow_domains policy_zero;
     block_ip4 := block_ip4 policy_zero; allow_ip4 := allow_ip4 policy_zero;
     block_ip6 := (zeros 15 ++ [1]) :: zero_table 1023 IP6_LEN;
     allow_ip6 := allow_ip6 policy_zero; min_trust_level := 0 |}.

Definition loopback_info : info_of_pakage :=
  {| ethernet_type_host := 56710; ethernet_type_protocol := 56710; number_port := 0;
     domain := zeros DOMAIN_MAX_LEN; ip_version := IP_6; ip4_src := 0; ip4_dist := 0;
     ip6_src := zeros IP6_LEN; ip6_dist := zeros 15 ++ [1] |}.

Lemma check_ip_is_block_zero_byte_witness :
  check_ip_is_block loopback_info loopback_policy = Ok false
  ∧ ip6_dist loopback_info ∈ block_ip6 loopback_policy.
Proof.
  split; [|cbn; rewrite elem_of_cons; by left].
  apply (check_ip_is_block_zero_byte _ _ 0%nat (zeros 15 ++ [1])); try done; [|lia].
  constructor; try apply policy_zero_wf. split; [done|]. constructor; [done|].
  apply zero_table_wf.
Defined.
