(* ===== verification/Parse.v ===== *)
(** * The packet parser: pars_packets.c

    [parsing_pakage] of [src/worker/src/dpdk_filter/pars_packets.c]: header fields at the
    offsets DPDK's packet-type detection reports, and the extraction of the
    queried name of a DNS request into the 260-byte [domain] array.  Reads
    outside the packet buffer and writes outside [domain] are faults.  The
    theorems show what the parser extracts, that its two name loops terminate
    on every packet, and exactly when they leave the [domain] array. *)

From Stdlib Require Import ZArith Lia.
From stdpp Require Import prelude gmap strings.
From S2P Require Import Prelude CMem Types.

Local Open Scope Z_scope.

(** ** DPDK's view of a packet *)

(** A single-segment [struct rte_mbuf]: the bytes from the start of the packet
    data to the end of its buffer, and the length of the packet. *)
Record rte_mbuf := Mbuf {
  mb_data : list Z;
  mb_data_len : Z
}.

#[global] Instance rte_mbuf_eq_dec : EqDecision rte_mbuf.
Proof. solve_decision. Defined.

Record rte_net_hdr_lens := HdrLens {
  l2_len : nat;
  l3_len : nat;
  l4_len : nat
}.

(** The packet-type detection of [librte_net] is not part of this program. *)
Class NetPtype := {
  rte_net_get_ptype : rte_mbuf → Z * rte_net_hdr_lens
}.

(** Constants of [rte_mbuf_ptype.h] and [rte_ether.h]. *)
Definition RTE_PTYPE_UNKNOWN : Z := 0x00000000.
Definition RTE_PTYPE_L2_ETHER : Z := 0x00000001.
Definition RTE_PTYPE_L3_IPV4 : Z := 0x00000010.
Definition RTE_PTYPE_L3_IPV6 : Z := 0x00000040.
Definition RTE_PTYPE_L4_TCP : Z := 0x00000100.
Definition RTE_PTYPE_L4_UDP : Z := 0x00000200.
Definition RTE_PTYPE_L4_FRAG : Z := 0x00000300.
Definition RTE_PTYPE_L4_ICMP : Z := 0x00000500.
Definition RTE_ETHER_TYPE_IPV4 : Z := 0x0800.
Definition RTE_ETHER_TYPE_IPV6 : Z := 0x86DD.

(** [pkt_type & FLAG] as a condition. *)
Definition has_flag (pkt_type flag : Z) : bool := negb (Z.land pkt_type flag =? 0).

Definition load16 (data : list Z) (off : nat) : res Z :=
  let* b0 := array_get data off in
  let* b1 := array_get data (off + 1) in
  Ok (le16 b0 b1).

Definition load32 (data : list Z) (off : nat) : res Z :=
  let* b0 := array_get data off in
  let* b1 := array_get data (off + 1) in
  let* b2 := array_get data (off + 2) in
  let* b3 := array_get data (off + 3) in
  Ok (le32 b0 b1 b2 b3).

(** ** Assignments to the fields of [struct info_of_pakage] *)

Definition set_ethernet_type_host (i : info_of_pakage) (v : Z) : info_of_pakage :=
  InfoOfPakage v (ethernet_type_protocol i) (number_port i) (domain i) (ip_version i)
    (ip4_src i) (ip4_dist i) (ip6_src i) (ip6_dist i).
Definition set_l3 (i : info_of_pakage) (ver proto : Z) : info_of_pakage :=
  InfoOfPakage (ethernet_type_host i) proto (number_port i) (domain i) ver
    (ip4_src i) (ip4_dist i) (ip6_src i) (ip6_dist i).
Definition set_ip4 (i : info_of_pakage) (src dst : Z) : info_of_pakage :=
  InfoOfPakage (ethernet_type_host i) (ethernet_type_protocol i) (number_port i) (domain i)
    (ip_version i) src dst (ip6_src i) (ip6_dist i).
Definition set_ip6 (i : info_of_pakage) (src dst : list Z) : info_of_pakage :=
  InfoOfPakage (ethernet_type_host i) (ethernet_type_protocol i) (number_port i) (domain i)
    (ip_version i) (ip4_src i) (ip4_dist i) src dst.
Definition set_number_port (i : info_of_pakage) (v : Z) : info_of_pakage :=
  InfoOfPakage (ethernet_type_host i) (ethernet_type_protocol i) v (domain i)
    (ip_version i) (ip4_src i) (ip4_dist i) (ip6_src i) (ip6_dist i).
Definition set_domain (i : info_of_pakage) (d : list Z) : info_of_pakage :=
  InfoOfPakage (ethernet_type_host i) (ethernet_type_protocol i) (number_port i) d
    (ip_version i) (ip4_src i) (ip4_dist i) (ip6_src i) (ip6_dist i).

(** ** The name loops *)

(** [while ( *pos != 0 && domain_len < 255) { domain_len += *pos + 1; pos += *pos + 1; }] *)
Fixpoint scan_name (fuel : nat) (data : list Z) (pos : nat) (domain_len : Z) :
    res (nat * Z) :=
  match fuel with
  | O => Fault OutOfFuel
  | S fuel =>
      let* b := array_get data pos in
      if negb (b =? 0) && (domain_len <? 255)
      then scan_name fuel data (pos + (Z.to_nat b + 1)) (domain_len + (b + 1))
      else Ok (pos, domain_len)
  end.

(** The second loop: each label is copied behind a dot (none before the first
    label). *)
Fixpoint copy_name (fuel : nat) (data : list Z) (pos : nat) (dom : list Z) (dst : nat) :
    res (list Z * nat) :=
  match fuel with
  | O => Fault OutOfFuel
  | S fuel =>
      let* label_len := array_get data pos in
      if label_len =? 0 then Ok (dom, dst) else
      let* (dom, dst) :=
        if (dst =? 0)%nat then Ok (dom, dst)
        else let* dom := array_set dom dst 46 in Ok (dom, S dst) in
      let* dom := memcpy dom dst data (S pos) (Z.to_nat label_len) in
      copy_name fuel data (S pos + Z.to_nat label_len) dom (dst + Z.to_nat label_len)
  end.

Section parser.
Context {np : NetPtype}.

(** The destination port of the TCP or UDP header, in network byte order. *)
Definition parse_l4 (data : list Z) (pkt_type : Z) (off : nat) (info_pac : info_of_pakage) :
    res info_of_pakage :=
  if has_flag pkt_type RTE_PTYPE_L4_TCP then
    let* p := load16 data (off + 2) in Ok (set_number_port info_pac p)
  else if has_flag pkt_type RTE_PTYPE_L4_UDP then
    let* p := load16 data (off + 2) in Ok (set_number_port info_pac p)
  else Ok info_pac.

Definition parse_dns (data : list Z) (data_len : Z) (l4_offset : nat)
    (info_pac : info_of_pakage) : res info_of_pakage :=
  let len_dns_header := 12%nat in
  if data_len >? Z.of_nat (l4_offset + len_dns_header) then
    let dns_name_start := (l4_offset + len_dns_header)%nat in
    let fuel := S (length data) in
    let* (pos, domain_len) := scan_name fuel data dns_name_start 0 in
    let* b := array_get data pos in
    if (b =? 0) && (domain_len >? 0) then
      let* (dom, dst) := copy_name fuel data dns_name_start (domain info_pac) 0 in
      let* dom := array_set dom dst 0 in
      Ok (set_domain info_pac dom)
    else Ok info_pac
  else Ok info_pac.

(** The part of [parsing_pakage] between the packet-type test and the DNS
    request: ethernet type, addresses and destination port. *)
Definition parse_headers (data : list Z) (pkt_type : Z) (hdr_lens : rte_net_hdr_lens)
    (info_pac : info_of_pakage) : res info_of_pakage :=
  let* ety := load16 data 12 in
  let info_pac := set_ethernet_type_host info_pac ety in
  let l3_offset := l2_len hdr_lens in
  if has_flag pkt_type RTE_PTYPE_L3_IPV4 then
    let info_pac := set_l3 info_pac IP_4 (rte_cpu_to_be_16 RTE_ETHER_TYPE_IPV4) in
    let* src := load32 data (l3_offset + 12) in
    let* dst := load32 data (l3_offset + 16) in
    let info_pac := set_ip4 info_pac src dst in
    parse_l4 data pkt_type (l3_offset + l3_len hdr_lens) info_pac
  else if has_flag pkt_type RTE_PTYPE_L3_IPV6 then
    let info_pac := set_l3 info_pac IP_6 (rte_cpu_to_be_16 RTE_ETHER_TYPE_IPV6) in
    let* src := load data (l3_offset + 8) IP6_LEN in
    let* dst := load data (l3_offset + 24) IP6_LEN in
    let info_pac := set_ip6 info_pac src dst in
    parse_l4 data pkt_type (l3_offset + l3_len hdr_lens) info_pac
  else Ok info_pac.

Definition parsing_pakage (packet : rte_mbuf) (info_pac : info_of_pakage) :
    res info_of_pakage :=
  let (pkt_type, hdr_lens) := rte_net_get_ptype packet in
  if pkt_type =? RTE_PTYPE_UNKNOWN then Ok info_pac else
  let data := mb_data packet in
  let* info_pac := parse_headers data pkt_type hdr_lens info_pac in
  if has_flag pkt_type RTE_PTYPE_L4_UDP && (number_port info_pac =? rte_cpu_to_be_16 53)
  then parse_dns data (mb_data_len packet)
         (l2_len hdr_lens + l3_len hdr_lens + l4_len hdr_lens) info_pac
  else Ok info_pac.

End parser.

(** ** Names on the wire and in text *)

(** The wire encoding of a name: each label behind its length, then a null. *)
Definition encode_label (l : list Z) : list Z := Z.of_nat (length l) :: l.
Definition encode_name (ls : list (list Z)) : list Z := concat (encode_label <$> ls) ++ [0].

(** Its textual form: the labels separated by dots. *)
Definition dot_labels (ls : list (list Z)) : list Z := concat (cons 46 <$> ls).
Definition dotted (ls : list (list Z)) : list Z :=
  match ls with
  | [] => []
  | l :: ls => l ++ dot_labels ls
  end.

(** The bytes the labels occupy on the wire, length bytes included. *)
Fixpoint wire_len (ls : list (list Z)) : nat :=
  match ls with
  | [] => 0
  | l :: ls => S (length l) + wire_len ls
  end.

Definition label_ok (l : list Z) : Prop := (0 < length l < 256)%nat.

(** ** The loops terminate *)

Lemma scan_name_fuel fuel data pos n :
  (0 < fuel)%nat → (length data < fuel + pos)%nat →
  scan_name fuel data pos n ≠ Fault OutOfFuel.
Proof.
  revert pos n. induction fuel as [|fuel IH]; intros pos n H0 Hfuel; [lia|]. simpl.
  unfold array_get. destruct (data !! pos) as [b|] eqn:Hb; [|done].
  apply lookup_lt_Some in Hb. simpl. destruct (_ && _); [|done]. apply IH; lia.
Qed.

Lemma store_no_fuel dst i bs : store dst i bs ≠ Fault OutOfFuel.
Proof. unfold store. by case_decide. Qed.
Lemma load_no_fuel src i n : load src i n ≠ Fault OutOfFuel.
Proof. unfold load. by case_decide. Qed.
Lemma memcpy_no_fuel dst i src j n : memcpy dst i src j n ≠ Fault OutOfFuel.
Proof.
  unfold memcpy. pose proof (load_no_fuel src j n) as H.
  destruct (load src j n); simpl; [apply store_no_fuel|done].
Qed.
Lemma array_get_no_fuel {A} (l : list A) i : array_get l i ≠ Fault OutOfFuel.
Proof. unfold array_get. by destruct (l !! i). Qed.
Lemma array_set_no_fuel {A} (l : list A) i x : array_set l i x ≠ Fault OutOfFuel.
Proof. unfold array_set. by case_decide. Qed.
Lemma rbind_no_fuel {A B} (m : res A) (k : A → res B) :
  m ≠ Fault OutOfFuel → (∀ a, m = Ok a → k a ≠ Fault OutOfFuel) → rbind m k ≠ Fault OutOfFuel.
Proof. destruct m; simpl; naive_solver. Qed.

#[local] Hint Resolve store_no_fuel load_no_fuel memcpy_no_fuel array_get_no_fuel
  array_set_no_fuel : cdb.

Lemma copy_name_fuel fuel data pos dom dst :
  (0 < fuel)%nat → (length data < fuel + pos)%nat →
  copy_name fuel data pos dom dst ≠ Fault OutOfFuel.
Proof.
  revert pos dom dst. induction fuel as [|fuel IH]; intros pos dom dst H0 Hfuel; [lia|].
  cbn [copy_name]. apply rbind_no_fuel; [auto with cdb|]. intros b Hb%array_get_Ok.
  apply lookup_lt_Some in Hb. destruct (b =? 0); [done|].
  apply rbind_no_fuel.
  - destruct (dst =? 0)%nat; [done|]. apply rbind_no_fuel; [auto with cdb|done].
  - intros [dom' dst'] _. apply rbind_no_fuel; [auto with cdb|].
    intros dom'' _. apply IH; lia.
Qed.

Lemma parse_dns_fuel data len off i : parse_dns data len off i ≠ Fault OutOfFuel.
Proof.
  unfold parse_dns. destruct (_ >? _); [|done].
  apply rbind_no_fuel; [apply scan_name_fuel; lia|]. intros [pos n] _.
  apply rbind_no_fuel; [auto with cdb|]. intros b _. destruct (_ && _); [|done].
  apply rbind_no_fuel; [apply copy_name_fuel; lia|]. intros [dom dst] _.
  apply rbind_no_fuel; [auto with cdb|done].
Qed.

(** ** What the loops compute on an encoded name *)

Lemma drop_S_app (data : list Z) pos x r :
  drop pos data = x :: r → drop (S pos) data = r.
Proof. intros H. replace (S pos) with (pos + 1)%nat by lia. by rewrite <- drop_drop, H. Qed.

Lemma drop_add_app (data a b : list Z) pos :
  drop pos data = a ++ b → drop (pos + length a) data = b.
Proof. intros H. by rewrite <- drop_drop, H, drop_app_length. Qed.

Lemma array_get_drop (data : list Z) pos x r :
  drop pos data = x :: r → array_get data pos = Ok x.
Proof.
  intros H. apply array_get_Ok.
  rewrite <- (Nat.add_0_r pos). by rewrite <- lookup_drop, H.
Qed.

Lemma load_drop (data a b : list Z) pos :
  drop pos data = a ++ b → (0 < length a)%nat → load data pos (length a) = Ok a.
Proof.
  intros H Ha. unfold load.
  assert (length (drop pos data) = length a + length b)%nat as Hl
    by (rewrite H; apply length_app).
  rewrite length_drop in Hl. rewrite decide_True by lia.
  by rewrite H, take_app_length.
Qed.

Lemma encode_name_cons l ls : encode_name (l :: ls) = encode_label l ++ encode_name ls.
Proof. unfold encode_name. csimpl. by rewrite app_assoc. Qed.

Lemma label_ok_eqb l : label_ok l → (Z.of_nat (length l) =? 0) = false.
Proof. unfold label_ok. intros. apply Z.eqb_neq. lia. Qed.

(** Every proper prefix of the name is short enough for the scan to go on. *)
Fixpoint scannable (n : nat) (ls : list (list Z)) : Prop :=
  match ls with
  | [] => True
  | l :: ls => (n < 255)%nat ∧ scannable (n + S (length l)) ls
  end.

Lemma scannable_wire n ls : (n + wire_len ls ≤ 255)%nat → scannable n ls.
Proof.
  revert n. induction ls as [|l ls IH]; intros n H; simpl in *; [done|].
  split; [lia|]. apply IH. lia.
Qed.

Lemma scan_name_encoded fuel data pos n ls post :
  Forall label_ok ls → scannable n ls → (length ls < fuel)%nat →
  drop pos data = encode_name ls ++ post →
  scan_name fuel data pos (Z.of_nat n)
  = Ok ((pos + wire_len ls)%nat, Z.of_nat (n + wire_len ls)).
Proof.
  intros Hls. revert fuel pos n. induction Hls as [|l ls Hl Hls IH];
    intros fuel pos n Hs Hfuel Hd; (destruct fuel as [|fuel]; [simpl in *; lia|]); simpl.
  - rewrite (array_get_drop _ _ 0 post) by done. simpl. by rewrite !Nat.add_0_r.
  - destruct Hs as [Hn Hs]. rewrite encode_name_cons in Hd. unfold encode_label in Hd.
    rewrite <- !app_assoc in Hd. cbn [app] in Hd.
    rewrite (array_get_drop _ _ _ _ Hd). simpl.
    rewrite label_ok_eqb by done. rewrite (proj2 (Z.ltb_lt _ _)) by lia. simpl.
    replace (Z.of_nat n + (Z.of_nat (length l) + 1)) with (Z.of_nat (n + S (length l))) by lia.
    rewrite Nat2Z.id, (IH fuel _ (n + S (length l))%nat Hs); [|simpl in *; lia|].
    + do 2 f_equal; lia.
    + replace (pos + (length l + 1))%nat with (S pos + length l)%nat by lia.
      apply drop_S_app in Hd. by apply drop_add_app in Hd.
Qed.

Lemma store_store_app (dom a b : list Z) (k : nat) :
  (k + length a + length b ≤ length dom)%nat →
  let dom' := take k dom ++ a ++ drop (k + length a) dom in
  take (k + length a) dom' ++ b ++ drop (k + length a + length b) dom'
  = take k dom ++ (a ++ b) ++ drop (k + length (a ++ b)) dom.
Proof.
  intros H dom'. unfold dom'.
  assert (length (take k dom) = k) as Hk by (rewrite length_take; lia).
  rewrite (app_assoc (take k dom)), take_app_length' by (rewrite length_app; lia).
  rewrite drop_app_ge by (rewrite length_app; lia).
  rewrite drop_drop, !length_app, Hk, <- !app_assoc.
  do 3 f_equal. f_equal. lia.
Qed.

(** A label and the dot before it, stored at [dst]. *)
Lemma copy_step (dom data l post : list Z) pos dst :
  label_ok l → drop pos data = encode_label l ++ post → (0 < dst)%nat →
  (let* (dom, dst) := (let* dom := array_set dom dst 46 in Ok (dom, S dst)) in
   let* dom := memcpy dom dst data (S pos) (length l) in Ok (dom, dst + length l)%nat)
  = if decide (dst + S (length l) ≤ length dom)%nat
    then Ok (take dst dom ++ (46 :: l) ++ drop (dst + S (length l)) dom, (dst + S (length l))%nat)
    else Fault OutOfBounds.
Proof.
  intros Hl Hd Hdst. unfold array_set. destruct Hl as [Hl _].
  apply drop_S_app in Hd.
  destruct (decide (dst < length dom)%nat) as [Hlt|Hge]; cycle 1.
  { rewrite decide_False by lia. done. }
  cbn [rbind]. unfold memcpy. rewrite (load_drop _ _ _ _ Hd Hl). cbn [rbind].
  unfold store. rewrite length_insert.
  destruct (decide (S dst + length l ≤ length dom)%nat) as [Hfit|Hno].
  - rewrite decide_True by lia. cbn [rbind]. do 2 f_equal; [|lia].
    rewrite insert_take_drop by done.
    pose proof (store_store_app dom [46] l dst) as Hss. simpl in Hss.
    rewrite !Nat.add_1_r in Hss. rewrite Hss by lia.
    rewrite <- Nat.add_succ_comm. done.
  - rewrite decide_False by lia. done.
Qed.

Lemma dot_labels_length ls : length (dot_labels ls) = wire_len ls.
Proof.
  induction ls as [|l ls IH]; [done|]. unfold dot_labels in *. csimpl.
  rewrite length_app, IH. lia.
Qed.

Lemma dotted_length l ls : S (length (dotted (l :: ls))) = wire_len (l :: ls).
Proof. simpl. rewrite length_app, dot_labels_length. done. Qed.

(** From the second label on: each label goes behind a dot, and the copy
    leaves the array exactly when the name does not fit. *)
Lemma copy_name_rest fuel data pos dom dst ls post :
  Forall label_ok ls → (length ls < fuel)%nat →
  drop pos data = encode_name ls ++ post → (0 < dst ≤ length dom)%nat →
  copy_name fuel data pos dom dst =
    if decide (dst + wire_len ls ≤ length dom)%nat
    then Ok (take dst dom ++ dot_labels ls ++ drop (dst + wire_len ls) dom,
             (dst + wire_len ls)%nat)
    else Fault OutOfBounds.
Proof.
  intros Hls. revert fuel pos dom dst. induction Hls as [|l ls Hl Hls IH];
    intros fuel pos dom dst Hfuel Hd Hdst; (destruct fuel as [|fuel]; [simpl in *; lia|]).
  - cbn [copy_name]. rewrite (array_get_drop _ _ 0 post) by done. simpl.
    rewrite Nat.add_0_r, decide_True by lia. by rewrite take_drop.
  - rewrite encode_name_cons, <- app_assoc in Hd. cbn [copy_name].
    rewrite (array_get_drop _ _ _ _ Hd). cbn [rbind].
    rewrite label_ok_eqb by done.
    rewrite (proj2 (Nat.eqb_neq dst 0)) by lia. rewrite Nat2Z.id.
    pose proof (copy_step dom data l _ pos dst Hl Hd ltac:(lia)) as Hstep.
    assert (drop (S pos + length l) data = encode_name ls ++ post) as Hd'.
    { apply drop_S_app in Hd. by apply drop_add_app in Hd. }
    cbn [wire_len].
    destruct (array_set dom dst 46) as [dom1|f]; cbn [rbind] in *; cycle 1.
    { case_decide; [done|]. rewrite decide_False by lia. by simplify_eq. }
    destruct (memcpy dom1 (S dst) data (S pos) (length l)) as [dom2|f]; cbn [rbind] in *; cycle 1.
    { case_decide; [done|]. rewrite decide_False by lia. by simplify_eq. }
    case_decide as Hfit; [|done]. simplify_eq.
    assert (length (take dst dom) = dst) as Ht by (rewrite length_take; lia).
    rewrite IH; [|simpl in *; lia|done|].
    + replace (S dst + length l)%nat with (dst + S (length l))%nat by lia.
      assert (length (take dst dom ++ (46 :: l) ++ drop (dst + S (length l)) dom) = length dom) as Hlen.
      { rewrite !length_app, length_drop. simpl. lia. }
      change (46 :: l ++ drop (dst + S (length l)) dom) with ((46 :: l) ++ drop (dst + S (length l)) dom).
      rewrite Hlen. cbn [wire_len].
      destruct (decide (dst + S (length l) + wire_len ls ≤ length dom)%nat) as [Hf|Hf].
      * rewrite decide_True by lia. do 2 f_equal; [|lia].
        pose proof (store_store_app dom (46 :: l) (dot_labels ls) dst) as Hss.
        rewrite dot_labels_length in Hss. cbn [length] in Hss.
        rewrite Hss by lia. unfold dot_labels. csimpl. do 3 f_equal.
        rewrite length_app. fold (dot_labels ls). by rewrite dot_labels_length.
      * by rewrite decide_False by lia.
    + rewrite length_app. simpl. rewrite length_app, length_drop. lia.
Qed.

(** The whole name into an array: its text and a null, or a write behind the
    end of the array. *)
Lemma copy_name_encoded fuel data pos dom l ls post :
  Forall label_ok (l :: ls) → (S (length ls) < fuel)%nat →
  drop pos data = encode_name (l :: ls) ++ post →
  (let* (dom, dst) := copy_name fuel data pos dom 0 in array_set dom dst 0) =
    if decide (wire_len (l :: ls) ≤ length dom)%nat
    then Ok (dotted (l :: ls) ++ 0 :: drop (wire_len (l :: ls)) dom)
    else Fault OutOfBounds.
Proof.
  intros [Hl Hls]%Forall_cons Hfuel Hd.
  destruct fuel as [|fuel]; [lia|]. rewrite encode_name_cons, <- app_assoc in Hd.
  cbn [copy_name]. rewrite (array_get_drop _ _ _ _ Hd). cbn [rbind].
  rewrite label_ok_eqb by done. cbn [Nat.eqb rbind]. rewrite Nat2Z.id.
  apply drop_S_app in Hd. pose proof Hl as [Hl0 _].
  unfold memcpy. rewrite (load_drop _ _ _ _ Hd Hl0). cbn [rbind].
  apply drop_add_app in Hd. unfold store. rewrite Nat.add_0_l.
  destruct (decide (length l ≤ length dom)%nat) as [Hfit|Hno]; cycle 1.
  { rewrite decide_False by (simpl; lia). done. }
  cbn [rbind]. rewrite take_0. cbn [app].
  rewrite (copy_name_rest _ _ _ _ _ ls post) by
    (done || lia || rewrite length_app, length_drop; lia).
  assert (length (l ++ drop (length l) dom) = length dom) as Hlen
    by (rewrite length_app, length_drop; lia).
  rewrite Hlen. cbn [wire_len].
  destruct (decide (length l + wire_len ls ≤ length dom)%nat) as [Hf|Hf]; cycle 1.
  { rewrite decide_False by lia. done. }
  cbn [rbind]. unfold array_set.
  rewrite take_app_length, drop_app_ge by lia.
  replace (length l + wire_len ls - length l)%nat with (wire_len ls) by lia.
  rewrite drop_drop.
  assert (length (l ++ dot_labels ls ++ drop (length l + wire_len ls) dom) = length dom) as Hlen2.
  { rewrite !length_app, dot_labels_length, length_drop. lia. }
  rewrite Hlen2.
  destruct (decide (length l + wire_len ls < length dom)%nat) as [Hlt|Hge]; cycle 1.
  { rewrite decide_False by lia. done. }
  rewrite decide_True by lia. f_equal. unfold dotted. rewrite <- !app_assoc.
  assert (length (l ++ dot_labels ls) = length l + wire_len ls)%nat as Hld
    by (rewrite length_app, dot_labels_length; done).
  rewrite app_assoc, insert_app_r_alt by lia.
  rewrite Hld, Nat.sub_diag, <- app_assoc. do 2 f_equal.
  destruct (drop (length l + wire_len ls) dom) as [|x r] eqn:Hr.
  - apply (f_equal length) in Hr. rewrite length_drop in Hr. simpl in Hr. lia.
  - simpl. f_equal. by apply drop_S_app in Hr.
Qed.

(** Both loops fit into the fuel: a name needs one step per label. *)
Lemma wire_len_labels ls : Forall label_ok ls → (length ls ≤ wire_len ls)%nat.
Proof. induction 1; simpl; lia. Qed.

Lemma encode_name_length ls : length (encode_name ls) = S (wire_len ls).
Proof.
  unfold encode_name. rewrite length_app. simpl. rewrite Nat.add_1_r. f_equal.
  induction ls as [|l ls IH]; [done|]. csimpl. rewrite length_app, IH. done.
Qed.

Lemma parse_dns_encoded data len off i l ls post :
  Forall label_ok (l :: ls) → scannable 0 (l :: ls) →
  drop (off + 12) data = encode_name (l :: ls) ++ post →
  Z.of_nat (off + 12) < len →
  parse_dns data len off i =
    if decide (wire_len (l :: ls) ≤ length (domain i))%nat
    then Ok (set_domain i (dotted (l :: ls) ++ 0 :: drop (wire_len (l :: ls)) (domain i)))
    else Fault OutOfBounds.
Proof.
  intros Hls Hs Hd Hlen. unfold parse_dns.
  assert (S (length ls) < S (length data))%nat as Hfuel.
  { apply (f_equal length) in Hd.
    rewrite length_drop, length_app, encode_name_length in Hd.
    apply wire_len_labels in Hls. simpl in *. lia. }
  rewrite Z.gtb_ltb, (proj2 (Z.ltb_lt _ _) Hlen).
  rewrite (scan_name_encoded _ _ _ 0 (l :: ls) post) by done. cbn [rbind Nat.add].
  assert (array_get data (off + 12 + wire_len (l :: ls)) = Ok 0) as ->.
  { apply (array_get_drop _ _ 0 post). rewrite <- drop_drop, Hd. unfold encode_name.
    rewrite <- app_assoc. apply drop_app_length'.
    pose proof (encode_name_length (l :: ls)) as He. unfold encode_name in He.
    rewrite length_app in He. simpl in *. lia. }
  cbn [rbind]. rewrite Z.gtb_ltb, (proj2 (Z.ltb_lt 0 _)) by (simpl; lia). simpl andb.
  cbv iota. pose proof (copy_name_encoded _ data (off + 12) (domain i) l ls post Hls Hfuel Hd) as Hc.
  destruct (copy_name _ _ _ _ _) as [[dom dst]|f]; cbn [rbind] in *.
  - rewrite Hc. by case_decide.
  - case_decide; by simplify_eq.
Qed.

Lemma pad_dotted l ls :
  (wire_len (l :: ls) ≤ DOMAIN_MAX_LEN)%nat →
  dotted (l :: ls) ++ 0 :: drop (wire_len (l :: ls)) (zeros DOMAIN_MAX_LEN)
  = pad DOMAIN_MAX_LEN (dotted (l :: ls)).
Proof.
  intros H. unfold pad, zeros. f_equal. rewrite drop_replicate.
  pose proof (dotted_length l ls).
  by replace (DOMAIN_MAX_LEN - length (dotted (l :: ls)))%nat
    with (S (DOMAIN_MAX_LEN - wire_len (l :: ls)))%nat by lia.
Qed.

(** ** The packet information stays well-formed *)

Lemma set_number_port_wf i v : info_wf i → info_wf (set_number_port i v).
Proof. by intros []. Qed.

Lemma parse_l4_wf data pt off i i' :
  info_wf i → parse_l4 data pt off i = Ok i' → info_wf i'.
Proof.
  intros Hi. unfold parse_l4. repeat destruct (has_flag _ _);
    rewrite ?rbind_Ok; [intros (v & _ & [= <-])..|by intros [= <-]];
    by apply set_number_port_wf.
Qed.

Lemma parse_headers_wf data pt lens i i' :
  info_wf i → parse_headers data pt lens i = Ok i' → info_wf i'.
Proof.
  intros Hi. unfold parse_headers. rewrite rbind_Ok. intros (ety & _ & H).
  destruct (has_flag pt RTE_PTYPE_L3_IPV4); [|destruct (has_flag pt RTE_PTYPE_L3_IPV6)].
  - apply rbind_Ok in H as (src & _ & H). apply rbind_Ok in H as (dst & _ & H).
    eapply parse_l4_wf; [|exact H]. by destruct Hi.
  - apply rbind_Ok in H as (src & Hsrc & H). apply rbind_Ok in H as (dst & Hdst & H).
    apply load_length in Hsrc, Hdst. eapply parse_l4_wf; [|exact H]. by destruct Hi.
  - simplify_eq. by destruct Hi.
Qed.

Lemma array_set_length {A} (l l' : list A) k x :
  array_set l k x = Ok l' → length l' = length l.
Proof. intros [_ ->]%array_set_Ok. apply length_insert. Qed.

Lemma memcpy_length dst k src j n dst' :
  memcpy dst k src j n = Ok dst' → length dst' = length dst.
Proof. unfold memcpy. intros (bs & _ & H)%rbind_Ok. by eapply store_length. Qed.

Lemma copy_name_length fuel data pos dom dst dom' dst' :
  copy_name fuel data pos dom dst = Ok (dom', dst') → length dom' = length dom.
Proof.
  revert pos dom dst. induction fuel as [|fuel IH]; intros pos dom dst H; [done|].
  cbn [copy_name] in H. apply rbind_Ok in H as (b & _ & H).
  destruct (b =? 0); [by simplify_eq|].
  apply rbind_Ok in H as ([dom1 dst1] & H1 & H).
  apply rbind_Ok in H as (dom2 & H2%memcpy_length & H). apply IH in H.
  destruct (dst =? 0)%nat; [simplify_eq; congruence|].
  apply rbind_Ok in H1 as (d & Hd%array_set_length & H1). simplify_eq. congruence.
Qed.

Lemma parse_dns_wf data len off i i' :
  info_wf i → parse_dns data len off i = Ok i' → info_wf i'.
Proof.
  intros Hi. unfold parse_dns. destruct (_ >? _); [|by intros [= <-]].
  intros ([pos n] & _ & H)%rbind_Ok. apply rbind_Ok in H as (b & _ & H).
  destruct (_ && _); [|by simplify_eq].
  apply rbind_Ok in H as ([dom dst] & Hc%copy_name_length & H).
  apply rbind_Ok in H as (dom' & Hset & H). simplify_eq.
  pose proof (array_set_length _ _ _ _ Hset) as Hl.
  apply array_set_Ok in Hset as [Hlt ->]. destruct Hi. constructor; simpl; try done; [congruence|].
  apply existsb_exists. exists 0. split; [|done]. apply list_elem_of_In, list_elem_of_lookup.
  exists dst. by apply list_lookup_insert_eq.
Qed.

Lemma parsing_pakage_wf_ok {np : NetPtype} m i i' :
  info_wf i → parsing_pakage m i = Ok i' → info_wf i'.
Proof.
  intros Hi. unfold parsing_pakage. destruct (rte_net_get_ptype m) as [pt lens].
  destruct (pt =? RTE_PTYPE_UNKNOWN); [by intros [= <-]|].
  intros (i1 & H1%parse_headers_wf & H)%rbind_Ok; [|done].
  destruct (_ && _); [|by simplify_eq]. by eapply parse_dns_wf.
Qed.

Lemma load16_no_fuel data off : load16 data off ≠ Fault OutOfFuel.
Proof. unfold load16. repeat (apply rbind_no_fuel; [auto with cdb|intros ? _]). done. Qed.
Lemma load32_no_fuel data off : load32 data off ≠ Fault OutOfFuel.
Proof. unfold load32. repeat (apply rbind_no_fuel; [auto with cdb|intros ? _]). done. Qed.
#[local] Hint Resolve load16_no_fuel load32_no_fuel : cdb.

Lemma parse_headers_no_fuel data pt lens i : parse_headers data pt lens i ≠ Fault OutOfFuel.
Proof.
  unfold parse_headers, parse_l4. apply rbind_no_fuel; [auto with cdb|]. intros ety _.
  repeat (destruct (has_flag _ _) || (apply rbind_no_fuel; [auto with cdb|intros ? _]));
    try done; by apply rbind_no_fuel; [auto with cdb|].
Qed.

Lemma parse_headers_domain data pt lens i i' :
  parse_headers data pt lens i = Ok i' → domain i' = domain i.
Proof.
  unfold parse_headers, parse_l4. intros (ety & _ & H)%rbind_Ok.
  repeat (destruct (has_flag _ _) || (apply rbind_Ok in H as (? & _ & H)));
    by simplify_eq.
Qed.

Lemma has_flag_known pt f : has_flag pt f = true → (pt =? RTE_PTYPE_UNKNOWN) = false.
Proof. intros H. apply Z.eqb_neq. intros ->. by rewrite <- Bool.not_false_iff_true in H. Qed.

(** A UDP packet to port 53 in which DPDK finds the headers. *)
Definition dns_request {np : NetPtype} (m : rte_mbuf) (off : nat) (i : info_of_pakage) : Prop :=
  ∃ pt lens, rte_net_get_ptype m = (pt, lens)
  ∧ has_flag pt RTE_PTYPE_L4_UDP = true
  ∧ off = (l2_len lens + l3_len lens + l4_len lens)%nat
  ∧ parse_headers (mb_data m) pt lens info_zero = Ok i
  ∧ number_port i = rte_cpu_to_be_16 53.

Lemma parsing_pakage_dns_request {np : NetPtype} m off i :
  dns_request m off i →
  parsing_pakage m info_zero = parse_dns (mb_data m) (mb_data_len m) off i
  ∧ domain i = zeros DOMAIN_MAX_LEN.
Proof.
  intros (pt & lens & Hpt & Hudp & -> & Hh & Hport). split.
  - unfold parsing_pakage. rewrite Hpt, (has_flag_known _ _ Hudp), Hh. cbn [rbind].
    by rewrite Hudp, Hport, Z.eqb_refl.
  - by rewrite (parse_headers_domain _ _ _ _ _ Hh).
Qed.

Lemma load16_lt data off : (off + 1 < length data)%nat → ∃ v, load16 data off = Ok v.
Proof.
  intros H. unfold load16.
  destruct (array_get_lt data off) as (b0 & -> & _); [lia|]. simpl.
  destruct (array_get_lt data (off + 1)) as (b1 & -> & _); [lia|]. by eexists.
Qed.

Lemma load32_lt data off : (off + 3 < length data)%nat → ∃ v, load32 data off = Ok v.
Proof.
  intros H. unfold load32.
  destruct (array_get_lt data off) as (b0 & -> & _); [lia|]. simpl.
  destruct (array_get_lt data (off + 1)) as (b1 & -> & _); [lia|]. simpl.
  destruct (array_get_lt data (off + 2)) as (b2 & -> & _); [lia|]. simpl.
  destruct (array_get_lt data (off + 3)) as (b3 & -> & _); [lia|]. by eexists.
Qed.

(** ** Theorems *)

(** A DNS request as DPDK sees it, for the witnesses: an IPv4 frame with
    20-byte and 8-byte headers and the name right behind the DNS header. *)
Definition sample_ptype : NetPtype :=
  {| rte_net_get_ptype _ :=
       (Z.lor RTE_PTYPE_L2_ETHER (Z.lor RTE_PTYPE_L3_IPV4 RTE_PTYPE_L4_UDP), HdrLens 14 20 8) |}.

Definition sample_headers : list Z :=
  replicate 6 2 ++ replicate 6 3 ++ [8; 0]
  ++ [0x45; 0; 0; 60; 0; 0; 0; 0; 64; 17; 0; 0; 10; 0; 0; 1; 10; 0; 0; 2]
  ++ [4; 0; 0; 53; 0; 40; 0; 0] ++ zeros 12.

Definition sample_dns_packet (labels : list (list Z)) : rte_mbuf :=
  {| mb_data := sample_headers ++ encode_name labels ++ [0; 1; 0; 1];
     mb_data_len := Z.of_nat (length (sample_headers ++ encode_name labels ++ [0; 1; 0; 1])) |}.

(** C5: printing a name on the wire and parsing it gives its dotted text: for
    a DNS request carrying labels of at most 255 bytes in all (the limit of the
    DNS), the parser returns and stores the labels joined by dots, padded with
    nulls, in [domain], leaving the header fields as read. *)
Theorem parsing_pakage_dns_name {np : NetPtype} m off i l ls post :
  dns_request m off i →
  Forall label_ok (l :: ls) → (wire_len (l :: ls) ≤ 255)%nat →
  drop (off + 12) (mb_data m) = encode_name (l :: ls) ++ post →
  Z.of_nat (off + 12) < mb_data_len m →
  parsing_pakage m info_zero
  = Ok (set_domain i (pad DOMAIN_MAX_LEN (dotted (l :: ls)))).
Proof.
  intros [-> Hdom]%parsing_pakage_dns_request Hls Hw Hd Hlen.
  rewrite (parse_dns_encoded _ _ _ _ l ls post) by (done || by apply scannable_wire).
  rewrite Hdom, decide_True by (rewrite zeros_length; unfold DOMAIN_MAX_LEN; lia).
  by rewrite pad_dotted by (unfold DOMAIN_MAX_LEN; lia).
Qed.

Lemma parsing_pakage_dns_name_witness :
  ∃ i, @parsing_pakage sample_ptype
         (sample_dns_packet [bytes_of_string "www"; bytes_of_string "example"; bytes_of_string "org"])
         info_zero
       = Ok (set_domain i (pad DOMAIN_MAX_LEN (bytes_of_string "www.example.org"))).
Proof.
  eexists. eapply (@parsing_pakage_dns_name sample_ptype _ 42 _ (bytes_of_string "www")
            [bytes_of_string "example"; bytes_of_string "org"] [0; 1; 0; 1]).
  - do 2 eexists. repeat split.
  - repeat constructor; simpl; lia.
  - simpl. lia.
  - reflexivity.
  - reflexivity.
Defined.

(** C36: the length test in the first loop comes before the last label is
    added, so a name whose labels but the last take fewer than 255 bytes is
    accepted although it may be longer than the 260-byte array: the copy loop
    then writes behind [domain]. *)
Theorem parsing_pakage_domain_overflow {np : NetPtype} m off i l ls post :
  dns_request m off i →
  Forall label_ok (l :: ls) → scannable 0 (l :: ls) →
  (DOMAIN_MAX_LEN < wire_len (l :: ls))%nat →
  drop (off + 12) (mb_data m) = encode_name (l :: ls) ++ post →
  Z.of_nat (off + 12) < mb_data_len m →
  parsing_pakage m info_zero = Fault OutOfBounds.
Proof.
  intros [-> Hdom]%parsing_pakage_dns_request Hls Hs Hw Hd Hlen.
  rewrite (parse_dns_encoded _ _ _ _ l ls post) by done.
  by rewrite Hdom, decide_False by (rewrite zeros_length; lia).
Qed.

(** Labels of legal length (at most 63 bytes) are enough. *)
Lemma parsing_pakage_domain_overflow_witness :
  @parsing_pakage sample_ptype
    (sample_dns_packet (replicate 3 (replicate 63 97) ++ [replicate 61 98; replicate 63 99]))
    info_zero = Fault OutOfBounds.
Proof.
  eapply (@parsing_pakage_domain_overflow sample_ptype _ 42 _ (replicate 63 97)
            (replicate 2 (replicate 63 97) ++ [replicate 61 98; replicate 63 99]) [0; 1; 0; 1]).
  - do 2 eexists. repeat split.
  - repeat constructor; simpl; lia.
  - simpl. lia.
  - unfold DOMAIN_MAX_LEN. simpl. lia.
  - reflexivity.
  - reflexivity.
Defined.

(** C18: the parser terminates on every packet and every initial information:
    the fuel of the two name loops, one more than the bytes of the buffer, is
    never used up. *)
Theorem parsing_pakage_terminates {np : NetPtype} m i :
  parsing_pakage m i ≠ Fault OutOfFuel.
Proof.
  unfold parsing_pakage. destruct (rte_net_get_ptype m) as [pt lens].
  destruct (_ =? _); [done|]. apply rbind_no_fuel; [apply parse_headers_no_fuel|].
  intros i1 _. destruct (_ && _); [apply parse_dns_fuel|done].
Qed.

(** C19: the parser keeps the packet information well-formed: array lengths are
    kept and [domain] is null-terminated whatever the packet contains. *)
Theorem parsing_pakage_wf {np : NetPtype} m i i' :
  info_wf i → parsing_pakage m i = Ok i' → info_wf i'.
Proof. apply parsing_pakage_wf_ok. Qed.

Lemma parsing_pakage_wf_witness :
  ∃ i', @parsing_pakage sample_ptype (sample_dns_packet [bytes_of_string "org"]) info_zero = Ok i'
        ∧ info_wf i'.
Proof.
  eexists. split; [by vm_compute|].
  eapply (@parsing_pakage_wf sample_ptype (sample_dns_packet [bytes_of_string "org"]) info_zero);
    [apply info_zero_wf|by vm_compute].
Defined.

(** The packet-type tests check single bits of DPDK's 4-bit layer-4 type:
    an ICMP packet (type 5) passes the TCP test (type 1), so the checksum of
    its ICMP header is taken for a destination port. *)
Theorem parsing_pakage_icmp_as_tcp {np : NetPtype} m lens csum i :
  rte_net_get_ptype m
  = (Z.lor RTE_PTYPE_L2_ETHER (Z.lor RTE_PTYPE_L3_IPV4 RTE_PTYPE_L4_ICMP), lens) →
  load16 (mb_data m) (l2_len lens + l3_len lens + 2) = Ok csum →
  (l2_len lens = 14)%nat → (20 ≤ l3_len lens)%nat →
  ∃ i', parsing_pakage m i = Ok i' ∧ number_port i' = csum.
Proof.
  intros Hpt Hcs Hl2 Hl3. unfold parsing_pakage. rewrite Hpt. simpl.
  assert (l2_len lens + l3_len lens + 2 < length (mb_data m))%nat as Hlen.
  { unfold load16 in Hcs. apply rbind_Ok in Hcs as (b & Hb%array_get_Ok & _).
    by apply lookup_lt_Some in Hb. }
  unfold parse_headers.
  destruct (load16_lt (mb_data m) 12) as [ety ->]; [lia|].
  destruct (load32_lt (mb_data m) (l2_len lens + 12)) as [src Hsrc]; [lia|].
  destruct (load32_lt (mb_data m) (l2_len lens + 16)) as [dst Hdst]; [lia|].
  cbn. rewrite Hsrc. cbn. rewrite Hdst. cbn. unfold parse_l4. cbn. rewrite Hcs. cbn.
  by eexists.
Qed.

(** An echo request with checksum 0x0016 is taken for traffic to port 22. *)
Lemma parsing_pakage_icmp_as_tcp_witness :
  ∃ i', @parsing_pakage
          {| rte_net_get_ptype _ := (0x511, HdrLens 14 20 8) |}
          (Mbuf (take 34 sample_headers ++ [8; 0; 0; 22; 0; 0; 0; 0]) 42) info_zero = Ok i'
        ∧ number_port i' = rte_cpu_to_be_16 22.
Proof.
  eapply (@parsing_pakage_icmp_as_tcp
    {| rte_net_get_ptype _ := (0x511, HdrLens 14 20 8) |}); [done|done|done|simpl; lia].
Defined.
