(* ===== verification/Hash.v ===== *)
(** * The DPDK services the caches use

    The interfaces of [rte_hash], of the DPDK allocator and of the DPDK timer,
    which are not part of this program: the operations as the sources call
    them, and the documented behaviour the theorems rely on as laws of a class.
    [gmap_hash] is a concrete table that satisfies the laws. *)

From Stdlib Require Import ZArith Lia.
From stdpp Require Import prelude gmap strings.
From S2P Require Import Prelude CMem Types.

Local Open Scope Z_scope.

(** ** rte_hash

    A table from fixed-size keys to data pointers.  The key bytes are copied
    into the table.  [rte_hash_iterate h] lists the pairs that iterating from
    [next = 0] until a negative result yields. *)
Class RteHash (K : Type) := {
  hash_t : Type;
  rte_hash_add_key_data : hash_t → K → ptr → Z * hash_t;
  rte_hash_lookup_data : hash_t → K → Z * option ptr;
  rte_hash_del_key : hash_t → K → Z * hash_t;
  rte_hash_iterate : hash_t → list (K * ptr);
  rte_hash_count : hash_t → Z;
  rte_hash_reset : hash_t → hash_t
}.

(** Documented behaviour: adding returns 0 and maps the key, replacing earlier
    data, or returns a negative value and changes nothing; a table created with
    the extendable-bucket flag accepts a new key while fewer than [entries] are
    stored and refuses it (-ENOSPC) when it is full, and updates a stored key
    always; looking up returns a non-negative position and the data, or
    [-ENOENT]; deleting a stored key returns its position. *)
Class RteHashOk (K : Type) `{Countable K} (H : RteHash K) := {
  hash_view : hash_t → gmap K ptr;
  hash_lookup_hit h k p :
    hash_view h !! k = Some p → ∃ r, 0 ≤ r ∧ rte_hash_lookup_data h k = (r, Some p);
  hash_lookup_miss h k :
    hash_view h !! k = None → rte_hash_lookup_data h k = (- ENOENT, None);
  hash_add h k p r h' :
    rte_hash_add_key_data h k p = (r, h') →
    r = 0 ∧ hash_view h' = <[k := p]> (hash_view h) ∨ r < 0 ∧ hash_view h' = hash_view h;
  hash_add_room h k p :
    (size (hash_view h) < CACHE_SIZE)%nat → fst (rte_hash_add_key_data h k p) = 0;
  hash_add_update h k p :
    is_Some (hash_view h !! k) → fst (rte_hash_add_key_data h k p) = 0;
  hash_add_full h k p :
    (CACHE_SIZE ≤ size (hash_view h))%nat → hash_view h !! k = None →
    fst (rte_hash_add_key_data h k p) < 0;
  hash_del h k p r h' :
    hash_view h !! k = Some p → rte_hash_del_key h k = (r, h') →
    0 ≤ r ∧ hash_view h' = delete k (hash_view h);
  hash_iterate h : rte_hash_iterate h ≡ₚ map_to_list (hash_view h);
  hash_count h : rte_hash_count h = Z.of_nat (size (hash_view h));
  hash_reset h : hash_view (rte_hash_reset h) = ∅
}.

(** ** Allocator and timer

    The allocator decides whether the next request succeeds; the cycle counter
    is read through the environment; the frequency is fixed. *)
Class RteEnv (E : Type) := {
  rte_malloc_ok : E → bool * E;
  rte_get_timer_cycles : E → Z * E;
  rte_get_timer_hz : E → Z
}.

(** The cycle counter is an unsigned 64-bit number and the frequency, which is
    positive and 64-bit, does not change. *)
Class RteEnvOk (E : Type) {HE : RteEnv E} := {
  timer_cycles_range e : 0 ≤ fst (rte_get_timer_cycles e) < 2 ^ 64;
  timer_hz_range e : 0 < rte_get_timer_hz e < 2 ^ 64;
  timer_hz_malloc e : rte_get_timer_hz (snd (rte_malloc_ok e)) = rte_get_timer_hz e;
  timer_hz_cycles e : rte_get_timer_hz (snd (rte_get_timer_cycles e)) = rte_get_timer_hz e
}.

(** ** A concrete hash table *)

Definition ENOSPC : Z := 28.

Section gmap_hash.
Context {K : Type} `{Countable K}.

Definition gmap_add (h : gmap K ptr) (k : K) (p : ptr) : Z * gmap K ptr :=
  if decide (size h < CACHE_SIZE)%nat then (0, <[k := p]> h)
  else match h !! k with
       | Some _ => (0, <[k := p]> h)
       | None => (- ENOSPC, h)
       end.

Definition gmap_lookup (h : gmap K ptr) (k : K) : Z * option ptr :=
  match h !! k with
  | Some p => (0, Some p)
  | None => (- ENOENT, None)
  end.

Definition gmap_del (h : gmap K ptr) (k : K) : Z * gmap K ptr :=
  match h !! k with
  | Some _ => (0, delete k h)
  | None => (- ENOENT, h)
  end.

#[global] Instance gmap_hash : RteHash K := {|
  hash_t := gmap K ptr;
  rte_hash_add_key_data := gmap_add;
  rte_hash_lookup_data := gmap_lookup;
  rte_hash_del_key := gmap_del;
  rte_hash_iterate := map_to_list;
  rte_hash_count h := Z.of_nat (size h);
  rte_hash_reset _ := ∅
|}.

#[global] Program Instance gmap_hash_ok : RteHashOk K gmap_hash := {|
  hash_view h := h
|}.
Next Obligation.
  intros h k p Hp. simpl. unfold gmap_lookup. rewrite Hp. exists 0. by split.
Qed.
Next Obligation. intros h k Hp. simpl. unfold gmap_lookup. by rewrite Hp. Qed.
Next Obligation.
  intros h k p r h'. cbn [rte_hash_add_key_data gmap_hash]. unfold gmap_add.
  case_decide; [|split_match]; intros Heq; inversion Heq; [by left..|by right].
Qed.
Next Obligation. intros h k p Hs. simpl. unfold gmap_add. by rewrite decide_True. Qed.
Next Obligation.
  intros h k p [p0 Hk]. cbn. unfold gmap_add. case_decide; [done|]. by rewrite Hk.
Qed.
Next Obligation.
  intros h k p Hs Hk. cbn. unfold gmap_add. rewrite decide_False by lia. by rewrite Hk.
Qed.
Next Obligation.
  intros h k p r h' Hp. simpl. unfold gmap_del. rewrite Hp. intros Heq. by inversion Heq.
Qed.
Next Obligation. done. Qed.
Next Obligation. done. Qed.
Next Obligation. done. Qed.

End gmap_hash.

(** ** A concrete environment: a clock at a fixed reading and a list of
    allocation outcomes (success when it runs out) *)

Record test_env := TestEnv { te_now : Z; te_hz : Z; te_allocs : list bool }.

#[global] Instance test_env_rte : RteEnv test_env := {|
  rte_malloc_ok e :=
    match te_allocs e with
    | [] => (true, e)
    | b :: bs => (b, TestEnv (te_now e) (te_hz e) bs)
    end;
  rte_get_timer_cycles e := (u64 (te_now e), e);
  rte_get_timer_hz e := Z.max 1 (te_hz e mod 2 ^ 64)
|}.

#[global] Instance test_env_ok : RteEnvOk test_env.
Proof.
  constructor; intros [now hz bs]; simpl.
  - apply u64_range.
  - pose proof (Z.mod_pos_bound hz (2 ^ 64)). lia.
  - by destruct bs.
  - done.
Qed.
