(* ===== verification/Sqlite.v ===== *)
(** * SQLite, address parsing and uninitialised memory

    The interfaces the persistence of the caches is built on.  A database is
    used through SQL texts; the documented effect of the statements the caches
    prepare is stated in [SqliteOk], relative to the texts of one cache.  The C
    strings the library returns and takes are byte lists with their null. *)

From Stdlib Require Import ZArith Lia.
From stdpp Require Import prelude gmap strings.
From S2P Require Import Prelude CMem Types Hash.

Local Open Scope Z_scope.

Definition SQLITE_OK : Z := 0.
Definition SQLITE_DONE : Z := 101.

Inductive sqlval :=
| SqlInt (z : Z)
| SqlText (t : list Z)
| SqlNull.

(** [sqlite3_run d sql args] binds the arguments of a prepared statement, steps
    it once and finalizes it; [sqlite3_rows d sql args] are the rows that
    stepping yields until the result is not [SQLITE_ROW].  [sqlite3_open]
    also says whether the handle it leaves is not NULL. *)
Class Sqlite (D : Type) := {
  sqlite3_open : D → string → (Z * bool) * D;
  sqlite3_close : D → Z * D;
  sqlite3_exec : D → string → Z * D;
  sqlite3_prepare_v2 : D → string → Z * D;
  sqlite3_run : D → string → list sqlval → Z * D;
  sqlite3_rows : D → string → list sqlval → list (list sqlval) * D;
  sqlite3_column_text : sqlval → option (list Z);
  sqlite3_column_int : sqlval → Z;
  sqlite3_column_int64 : sqlval → Z
}.

(** [sqlite3_bind_text(stmt, i, s, -1, ...)] binds the bytes before the null; a
    NULL pointer binds NULL. *)
Definition bind_text (s : option (list Z)) : res sqlval :=
  match s with
  | None => Ok SqlNull
  | Some b =>
      match cstr b with
      | Some t => Ok (SqlText t)
      | None => Fault OutOfBounds
      end
  end.

(** [inet_ntop] of the four or sixteen bytes of an address, as a C string, and
    [inet_pton] of a C string; [None] is a text it does not accept. *)
Class Inet := {
  inet_ntop4 : list Z → list Z;
  inet_ntop6 : list Z → list Z;
  inet_pton4 : list Z → option (list Z);
  inet_pton6 : list Z → option (list Z)
}.

(** Printing yields a terminated string; parsing it gives the address back, and
    the text of an IPv6 address is not one of an IPv4 address; parsing writes a
    whole address. *)
Class InetOk {I : Inet} := {
  ntop4_str b : length b = 4%nat → ∃ s, cstr (inet_ntop4 b) = Some s;
  ntop6_str b : length b = 16%nat → ∃ s, cstr (inet_ntop6 b) = Some s;
  pton4_ntop4 b s : length b = 4%nat → cstr (inet_ntop4 b) = Some s →
    inet_pton4 (c_str s) = Some b;
  pton6_ntop6 b s : length b = 16%nat → cstr (inet_ntop6 b) = Some s →
    inet_pton4 (c_str s) = None ∧ inet_pton6 (c_str s) = Some b;
  pton4_len s b : inet_pton4 s = Some b → length b = 4%nat;
  pton6_len s b : inet_pton6 s = Some b → length b = 16%nat
}.

(** The content of memory that was allocated but not written. *)
Class UninitMem (E A : Type) := {
  uninit : E → A * E
}.

(** [malloc] of the C library. *)
Class LibcEnv (E : Type) := {
  malloc_ok : E → bool * E
}.

(** The SQL texts of one cache. *)
Record cache_sql := CacheSql {
  q_file : string;
  q_create_main : string;
  q_create_categories : string;
  q_select_main : string;
  q_select_categories : string;
  q_insert_main : string;
  q_delete_categories : string;
  q_insert_category : string
}.

(** The row of a decision in the main table. *)
Record db_row := DbRow {
  db_send : Z;
  db_trust : Z;
  db_timestamp : Z;
  db_ttl : Z
}.

Definition main_row (kr : list Z * db_row) : list sqlval :=
  [SqlText kr.1; SqlInt (db_send kr.2); SqlInt (db_trust kr.2);
   SqlInt (db_timestamp kr.2); SqlInt (db_ttl kr.2)].

(** Documented behaviour of the statements: the main table maps the key text to
    one row, inserting replaces it; the categories of a key are a list without
    duplicates (the pair is the primary key of its table); a statement that
    does not report [SQLITE_DONE] changes nothing; selecting yields the rows
    there are, in some order.  Texts and integers come back as stored, integers cut to the
    width of the accessor. *)
Class SqliteOk (D : Type) {HS : Sqlite D} (q : cache_sql) := {
  db_main : D → gmap (list Z) db_row;
  db_categories : D → gmap (list Z) (list (list Z));
  column_text_text t : sqlite3_column_text (SqlText t) = Some (c_str t);
  column_int_int z : sqlite3_column_int (SqlInt z) = i32 z;
  column_int64_int z : sqlite3_column_int64 (SqlInt z) = i64 z;
  prepare_keeps d s :
    db_main (snd (sqlite3_prepare_v2 d s)) = db_main d
    ∧ db_categories (snd (sqlite3_prepare_v2 d s)) = db_categories d;
  transaction_keeps d s :
    s = "BEGIN TRANSACTION;" ∨ s = "COMMIT;" →
    db_main (snd (sqlite3_exec d s)) = db_main d
    ∧ db_categories (snd (sqlite3_exec d s)) = db_categories d;
  run_insert_main d k r :
    let (rc, d') := sqlite3_run d (q_insert_main q) (main_row (k, r)) in
    db_categories d' = db_categories d
    ∧ db_main d' = if rc =? SQLITE_DONE then <[k := r]> (db_main d) else db_main d;
  run_delete_categories d k :
    let (rc, d') := sqlite3_run d (q_delete_categories q) [SqlText k] in
    db_main d' = db_main d
    ∧ db_categories d' = if rc =? SQLITE_DONE then delete k (db_categories d) else db_categories d;
  run_insert_category d k c :
    let (rc, d') := sqlite3_run d (q_insert_category q) [SqlText k; SqlText c] in
    db_main d' = db_main d
    ∧ db_categories d' =
      if rc =? SQLITE_DONE
      then <[k := default [] (db_categories d !! k) ++ [c]]> (db_categories d)
      else db_categories d;
  rows_main d :
    let (rows, d') := sqlite3_rows d (q_select_main q) [] in
    rows ≡ₚ main_row <$> map_to_list (db_main d)
    ∧ db_main d' = db_main d ∧ db_categories d' = db_categories d;
  rows_categories d k :
    let (rows, d') := sqlite3_rows d (q_select_categories q) [SqlText k] in
    rows ≡ₚ (λ c, [SqlText c]) <$> default [] (db_categories d !! k)
    ∧ db_main d' = db_main d ∧ db_categories d' = db_categories d
}.

(** A database on which no statement of the cache fails, as long as a category
    is not inserted twice for a key. *)
Class SqliteUp (D : Type) {HS : Sqlite D} (q : cache_sql) {HSO : SqliteOk D q} := {
  exec_ok d s : fst (sqlite3_exec d s) = SQLITE_OK;
  prepare_ok d s : fst (sqlite3_prepare_v2 d s) = SQLITE_OK;
  insert_main_ok d k r :
    fst (sqlite3_run d (q_insert_main q) (main_row (k, r))) = SQLITE_DONE;
  delete_categories_ok d k :
    fst (sqlite3_run d (q_delete_categories q) [SqlText k]) = SQLITE_DONE;
  insert_category_ok d k c :
    c ∉ default [] (db_categories d !! k) →
    fst (sqlite3_run d (q_insert_category q) [SqlText k; SqlText c]) = SQLITE_DONE
}.
