(* ===== verification/Policy.v ===== *)
(** * Policies and classifications: the messages of the controller

    How [src/worker/src/worker.cpp] turns the messages of the controller into
    the structs of the packet path: the loops of
    [Worker::requestPolicyFromController] that fill [current_policy], and the
    one of [Worker::classify] that fills [out_req].  The messages are records
    of the fields [src/worker/communication.proto] declares; strings are byte
    lists, as [std::string] holds them.  The theorems say which policy results,
    which names and addresses the filter then finds in it, and what happens to
    messages that are larger than the arrays. *)

From Stdlib Require Import ZArith Lia.
From stdpp Require Import prelude gmap strings.
From S2P Require Import Prelude CMem Types Filter Sqlite.

Local Open Scope Z_scope.

(** ** Messages *)

(** [block_by_trust] is a map; its entries in the order it is iterated.  The
    worker does not read [extra], a protobuf Struct: its serialised bytes. *)
Record WorkerPolicy := MkWorkerPolicy {
  pol_block_categories : list (list Z);
  pol_block_by_trust : list (list Z * Z);
  pol_block_domains : list (list Z);
  pol_allow_domains : list (list Z);
  pol_block_ips : list (list Z);
  pol_allow_ips : list (list Z);
  pol_min_trust_level : Z;
  pol_ttl_ip : Z;
  pol_ttl_domain : Z;
  pol_config_version : Z;
  pol_extra : list Z
}.

Record ClassifyResponse := MkClassifyResponse {
  resp_categories : list (list Z);
  resp_trust_level : Z
}.

(** ** Filling the arrays *)

(** [strncpy(row, s.c_str(), cols - 1); row[cols - 1] = '\0'] *)
Definition copy_field (cols : nat) (s row : list Z) : res (list Z) :=
  let* row := strncpy row (c_str s) (cols - 1) in
  array_set row (cols - 1) 0.

(** The loops over a repeated string field, which test no bound. *)
Definition copy_strings (cols : nat) (ss table : list (list Z)) : res (list (list Z)) :=
  fill_rows (copy_field cols) ss 0 table.

(** The loop over [block_by_trust], which ends at the size of the array. *)
Fixpoint copy_trust (es : list (list Z * Z)) (idx : nat)
    (table : list trust_categories_with_lvl) : res (list trust_categories_with_lvl) :=
  match es with
  | [] => Ok table
  | (category, min_trust) :: es' =>
      if (MAX_CATEGORIES_BY_TRUST_LVL <=? idx)%nat then Ok table else
      let* e := array_get table idx in
      let* row := copy_field CATEGORY_MAX_LEN category (locked_by_trust_category e) in
      let* table := array_set table idx (TrustCategory row min_trust) in
      copy_trust es' (S idx) table
  end.

Section policy.
Context {inet : Inet}.

(** [in_addr.s_addr]: the four bytes as a 32-bit number. *)
Definition s_addr (b : list Z) : res Z :=
  match b with
  | [b0; b1; b2; b3] => Ok (le32 b0 b1 b2 b3)
  | _ => Fault OutOfBounds
  end.

(** The loops over the lists of addresses: texts that are neither IPv4 nor IPv6
    addresses are skipped, as are addresses that no longer fit. *)
Fixpoint copy_ips (ips : list (list Z)) (i4 i6 : nat) (l4 : list Z) (l6 : list (list Z)) :
    res (list Z * list (list Z)) :=
  match ips with
  | [] => Ok (l4, l6)
  | ip :: ips' =>
      match inet_pton4 (c_str ip) with
      | Some b =>
          if (i4 <? MAX_IP4)%nat then
            let* a := s_addr b in
            let* l4 := array_set l4 i4 a in
            copy_ips ips' (S i4) i6 l4 l6
          else copy_ips ips' i4 i6 l4 l6
      | None =>
          match inet_pton6 (c_str ip) with
          | Some b =>
              if (i6 <? MAX_IP6)%nat then
                let* row := array_get l6 i6 in
                let* row := memcpy row 0 b 0 IP6_LEN in
                let* l6 := array_set l6 i6 row in
                copy_ips ips' i4 (S i6) l4 l6
              else copy_ips ips' i4 i6 l4 l6
          | None => copy_ips ips' i4 i6 l4 l6
          end
      end
  end.

(** The policy built from a message, from [memset] on. *)
Definition load_policy (pol : WorkerPolicy) : res BASE_POLICY :=
  let p := policy_zero in
  let* locked := copy_strings CATEGORY_MAX_LEN (pol_block_categories pol) (locked_categories p) in
  let* lvl := copy_trust (pol_block_by_trust pol) 0 (categories_with_lvl p) in
  let* bdom := copy_strings DOMAIN_MAX_LEN (pol_block_domains pol) (block_domains p) in
  let* adom := copy_strings DOMAIN_MAX_LEN (pol_allow_domains pol) (allow_domains p) in
  let* (b4, b6) := copy_ips (pol_block_ips pol) 0 0 (block_ip4 p) (block_ip6 p) in
  let* (a4, a6) := copy_ips (pol_allow_ips pol) 0 0 (allow_ip4 p) (allow_ip6 p) in
  Ok {| locked_categories := locked; categories_with_lvl := lvl;
        ttl_ip := pol_ttl_ip pol; ttl_domain := pol_ttl_domain pol;
        block_domains := bdom; allow_domains := adom;
        block_ip4 := b4; allow_ip4 := a4; block_ip6 := b6; allow_ip6 := a6;
        min_trust_level := pol_min_trust_level pol |}.

End policy.

(** The loop of [classify]: no terminator is written behind the copied bytes. *)
Definition copy_categories (cats table : list (list Z)) : res (list (list Z)) :=
  fill_rows (λ cat row, strncpy row (c_str cat) (CATEGORY_MAX_LEN - 1)) cats 0 table.

(** Filling [out_req] from a response. *)
Definition fill_classification (resp : ClassifyResponse) (out_req : requested_classification) :
    res requested_classification :=
  let cat_count := Nat.min (length (resp_categories resp)) MAX_CATEGORIES in
  let* rows := copy_categories (take cat_count (resp_categories resp)) (get_categories out_req) in
  Ok (RequestedClassification rows (resp_trust_level resp)).

(** ** What is stored *)

(** The characters of a [std::string] that its C string shows, and those that
    fit a character array of [cols] bytes. *)
Definition text (s : list Z) : list Z := default [] (cstr (c_str s)).
Definition stored (cols : nat) (s : list Z) : list Z := take (cols - 1) (text s).

Definition table_of (rows cols : nat) (ss : list (list Z)) : list (list Z) :=
  (pad cols ∘ stored cols <$> ss) ++ zero_table (rows - length ss) cols.

Lemma text_cstr s : cstr (c_str s) = Some (text s).
Proof.
  unfold text. destruct (proj1 (cstr_terminated _) (c_str_terminated s)) as [t Ht]. by rewrite Ht.
Qed.

Lemma stored_no_null cols s : Forall (λ x, x ≠ 0) (stored cols s).
Proof. apply Forall_take, (cstr_no_null (c_str s)), text_cstr. Qed.

Lemma stored_length cols s : (0 < cols)%nat → (length (stored cols s) < cols)%nat.
Proof. intros H. unfold stored. rewrite length_take. lia. Qed.

Lemma stored_cstr cols s : (0 < cols)%nat → cstr (pad cols (stored cols s)) = Some (stored cols s).
Proof. intros H. apply pad_cstr; [apply stored_no_null|by apply stored_length]. Qed.

Lemma strncpy_text s n : strncpy_bytes (c_str s) n = Ok (pad n (take n (text s))).
Proof.
  unfold pad. destruct (decide (length (text s) ≤ n)%nat) as [Hle|Hgt].
  - rewrite (strncpy_bytes_fits _ _ _ (text_cstr s)), take_ge by done. done.
  - rewrite (strncpy_bytes_cut _ _ _ (text_cstr s)) by lia. rewrite length_take.
    replace (n - _)%nat with 0%nat by lia. by rewrite app_nil_r.
Qed.

(** [strncpy] into the first [n] bytes of an array keeps the others. *)
Lemma strncpy_spec s row n :
  (n ≤ length row)%nat →
  strncpy row (c_str s) n = Ok (pad n (take n (text s)) ++ drop n row).
Proof.
  intros Hn. unfold strncpy. rewrite strncpy_text. cbn [rbind]. unfold store.
  rewrite pad_length by (rewrite length_take; lia). rewrite decide_True by lia. done.
Qed.

Lemma copy_field_spec cols s row :
  (0 < cols)%nat → length row = cols → copy_field cols s row = Ok (pad cols (stored cols s)).
Proof.
  intros Hc Hlen. unfold copy_field. rewrite strncpy_spec by lia. cbn [rbind]. fold (stored cols s).
  pose proof (stored_length cols s Hc) as Hst.
  assert (length (pad (cols - 1) (stored cols s)) = cols - 1)%nat as Hp by (apply pad_length; lia).
  apply array_set_Ok. rewrite length_app, length_drop, Hp. split; [lia|].
  rewrite insert_app_r_alt, Hp, Nat.sub_diag by lia.
  destruct (drop (cols - 1) row) as [|x [|y r]] eqn:Ed;
    apply (f_equal length) in Ed; rewrite length_drop in Ed; cbn in Ed; try lia.
  unfold pad, zeros. cbn [insert list_insert]. rewrite <- app_assoc. f_equal.
  replace (cols - length (stored cols s))%nat with (S (cols - 1 - length (stored cols s))) by lia.
  by rewrite replicate_S_end.
Qed.

Lemma zip_with_const {A B C} (h : A → C) (xs : list A) (l : list B) :
  (length xs ≤ length l)%nat → zip_with (λ x _, h x) xs l = h <$> xs.
Proof.
  revert l. induction xs as [|x xs IH]; intros [|y l] Hl; cbn in *; try done; [lia|].
  by rewrite IH by lia.
Qed.

Lemma copy_strings_spec rows cols ss :
  (0 < cols)%nat → (length ss ≤ rows)%nat →
  copy_strings cols ss (zero_table rows cols) = Ok (table_of rows cols ss).
Proof.
  intros Hc Hl. unfold copy_strings, table_of.
  assert (length (zero_table rows cols) = rows) as Hz by apply length_replicate.
  rewrite (fill_rows_spec _ (λ s _, pad cols (stored cols s)) (λ r, length r = cols)).
  - rewrite zip_with_const by lia. unfold zero_table. by rewrite drop_replicate.
  - intros s row Hrow. by apply copy_field_spec.
  - apply zero_table_wf.
  - lia.
Qed.

Lemma copy_strings_overflow rows cols ss :
  (0 < cols)%nat → (rows < length ss)%nat →
  copy_strings cols ss (zero_table rows cols) = Fault OutOfBounds.
Proof.
  intros Hc Hl. apply (fill_rows_overflow _ (λ s _, pad cols (stored cols s)) (λ r, length r = cols) )
    with (pre := []).
  - intros s row Hrow. by apply copy_field_spec.
  - apply zero_table_wf.
  - by unfold zero_table; rewrite length_replicate.
Qed.

(** The entries by category and trust level. *)
Definition trust_entry (ct : list Z * Z) : trust_categories_with_lvl :=
  TrustCategory (pad CATEGORY_MAX_LEN (stored CATEGORY_MAX_LEN ct.1)) ct.2.

Definition trust_table (es : list (list Z * Z)) : list trust_categories_with_lvl :=
  (trust_entry <$> take MAX_CATEGORIES_BY_TRUST_LVL es)
  ++ replicate (MAX_CATEGORIES_BY_TRUST_LVL - length es) (TrustCategory (zeros CATEGORY_MAX_LEN) 0).

(** The loop with its test is the loop over the entries that fit. *)
Lemma copy_trust_fill es idx table :
  (idx ≤ MAX_CATEGORIES_BY_TRUST_LVL)%nat →
  copy_trust es idx table
  = fill_rows (λ ct e, let* row := copy_field CATEGORY_MAX_LEN ct.1 (locked_by_trust_category e) in
                       Ok (TrustCategory row ct.2))
      (take (MAX_CATEGORIES_BY_TRUST_LVL - idx) es) idx table.
Proof.
  revert idx table. induction es as [|[c t] es IH]; intros idx table Hi.
  { by rewrite take_nil. }
  cbn [copy_trust]. destruct (Nat.leb_spec MAX_CATEGORIES_BY_TRUST_LVL idx).
  { by replace (MAX_CATEGORIES_BY_TRUST_LVL - idx)%nat with 0%nat by lia. }
  replace (MAX_CATEGORIES_BY_TRUST_LVL - idx)%nat
    with (S (MAX_CATEGORIES_BY_TRUST_LVL - S idx)) by lia.
  cbn [take fill_rows fst snd]. destruct (array_get table idx) as [e|]; [|done]. cbn [rbind].
  destruct (copy_field _ _ _) as [row|]; [|done]. cbn [rbind].
  destruct (array_set _ _ _) as [table'|]; [|done]. cbn [rbind]. apply IH. lia.
Qed.

Lemma copy_trust_spec es :
  copy_trust es 0 (categories_with_lvl policy_zero) = Ok (trust_table es).
Proof.
  rewrite copy_trust_fill, Nat.sub_0_r by lia. cbn [categories_with_lvl policy_zero].
  rewrite (fill_rows_spec _ (λ ct _, trust_entry ct)
             (λ e, length (locked_by_trust_category e) = CATEGORY_MAX_LEN)).
  - rewrite zip_with_const by (rewrite length_take, length_replicate; lia).
    rewrite drop_replicate, length_take. unfold trust_table. do 3 f_equal. lia.
  - intros [c t] e He. rewrite copy_field_spec by (done || unfold CATEGORY_MAX_LEN; lia). done.
  - by apply Forall_replicate.
  - rewrite length_take, length_replicate. lia.
Qed.

Section addresses.
Context {inet : Inet} {io : InetOk}.

(** The IPv4 and the IPv6 addresses among the texts of a list. *)
Definition ip4_of (ip : list Z) : option Z :=
  match inet_pton4 (c_str ip) with
  | Some [b0; b1; b2; b3] => Some (le32 b0 b1 b2 b3)
  | _ => None
  end.

Definition ip6_of (ip : list Z) : option (list Z) :=
  match inet_pton4 (c_str ip) with
  | Some _ => None
  | None => inet_pton6 (c_str ip)
  end.

Lemma omap_cons_eq {A B} (f : A → option B) x l o :
  f x = o → omap f (x :: l) = match o with Some y => y :: omap f l | None => omap f l end.
Proof. by intros <-. Qed.

(** The first [n] values, then what an array held before. *)
Definition overlay {A} (xs rest : list A) : list A :=
  take (length rest) xs ++ drop (length xs) rest.

Lemma overlay_cons {A} x (xs : list A) y rest : overlay (x :: xs) (y :: rest) = x :: overlay xs rest.
Proof. done. Qed.

Lemma overlay_nil_r {A} (xs : list A) : overlay xs [] = [].
Proof. unfold overlay. by rewrite drop_nil. Qed.

Lemma array_set_middle {A} (pre : list A) y rest x :
  array_set (pre ++ y :: rest) (length pre) x = Ok ((pre ++ [x]) ++ rest).
Proof.
  apply array_set_Ok. rewrite length_app. cbn. split; [lia|].
  rewrite insert_app_r_alt, Nat.sub_diag by lia. by rewrite <- app_assoc.
Qed.

Lemma copy_ips_spec ips p4 r4 p6 r6 :
  length (p4 ++ r4) = MAX_IP4 → length (p6 ++ r6) = MAX_IP6 →
  Forall (λ r, length r = IP6_LEN) r6 →
  copy_ips ips (length p4) (length p6) (p4 ++ r4) (p6 ++ r6)
  = Ok (p4 ++ overlay (omap ip4_of ips) r4, p6 ++ overlay (omap ip6_of ips) r6).
Proof.
  revert p4 r4 p6 r6. induction ips as [|ip ips IH]; intros p4 r4 p6 r6 H4 H6 Hr6.
  { change (omap ip4_of []) with (@nil Z). change (omap ip6_of []) with (@nil (list Z)).
    unfold overlay. by rewrite !take_nil. }
  cbn [copy_ips]. rewrite length_app in H4, H6.
  destruct (inet_pton4 (c_str ip)) as [b|] eqn:Hb4.
  - pose proof (pton4_len _ _ Hb4). destruct b as [|b0 [|b1 [|b2 [|b3 [|]]]]]; try done.
    rewrite (omap_cons_eq ip4_of ip ips (Some (le32 b0 b1 b2 b3)))
      by (unfold ip4_of; by rewrite Hb4).
    rewrite (omap_cons_eq ip6_of ip ips None) by (unfold ip6_of; by rewrite Hb4). destruct r4 as [|y r4]; cbn in H4.
    + rewrite (proj2 (Nat.ltb_ge _ _)) by lia. rewrite IH by (rewrite ?length_app; cbn; lia || done).
      by rewrite !overlay_nil_r.
    + rewrite (proj2 (Nat.ltb_lt _ _)) by lia. cbn [s_addr rbind]. rewrite array_set_middle. cbn [rbind].
      replace (S (length p4)) with (length (p4 ++ [le32 b0 b1 b2 b3])) by (rewrite length_app; cbn; lia).
      rewrite IH by (rewrite ?length_app; cbn; lia || done). by rewrite overlay_cons, <- app_assoc.
  - rewrite (omap_cons_eq ip4_of ip ips None) by (unfold ip4_of; by rewrite Hb4).
    rewrite (omap_cons_eq ip6_of ip ips (inet_pton6 (c_str ip))) by (unfold ip6_of; by rewrite Hb4).
    destruct (inet_pton6 (c_str ip)) as [b|] eqn:Hb6; cycle 1.
    { by rewrite IH by (rewrite ?length_app; lia || done). }
    pose proof (pton6_len _ _ Hb6) as Hlb. destruct Hr6 as [|y r6 Hy Hr6]; cbn in H6.
    + rewrite (proj2 (Nat.ltb_ge _ _)) by lia. rewrite IH by (rewrite ?length_app; cbn; lia || done).
      by rewrite !overlay_nil_r.
    + rewrite (proj2 (Nat.ltb_lt _ _)) by lia.
      rewrite (proj2 (array_get_Ok _ _ y)) by apply list_lookup_middle, eq_refl. cbn [rbind].
      unfold memcpy. rewrite (load_all b IP6_LEN) by done. cbn [rbind]. unfold store.
      rewrite decide_True by (rewrite Hlb, Hy; done). cbn [rbind take app].
      rewrite Nat.add_0_l, drop_ge, app_nil_r, array_set_middle by (rewrite Hlb, Hy; done). cbn [rbind].
      replace (S (length p6)) with (length (p6 ++ [b])) by (rewrite length_app; cbn; lia).
      rewrite IH by (rewrite ?length_app; cbn; lia || done). by rewrite overlay_cons, <- app_assoc.
Qed.
End addresses.

(** ** The policy that results *)

(** The message has no more strings than the arrays have rows. *)
Definition policy_fits (pol : WorkerPolicy) : Prop :=
  (length (pol_block_categories pol) ≤ MAX_CATEGORIES)%nat
  ∧ (length (pol_block_domains pol) ≤ MAX_DOMAINS)%nat
  ∧ (length (pol_allow_domains pol) ≤ MAX_DOMAINS)%nat.

Section load.
Context {inet : Inet} {io : InetOk}.

Definition policy_of (pol : WorkerPolicy) : BASE_POLICY :=
  {| locked_categories := table_of MAX_CATEGORIES CATEGORY_MAX_LEN (pol_block_categories pol);
     categories_with_lvl := trust_table (pol_block_by_trust pol);
     ttl_ip := pol_ttl_ip pol; ttl_domain := pol_ttl_domain pol;
     block_domains := table_of MAX_DOMAINS DOMAIN_MAX_LEN (pol_block_domains pol);
     allow_domains := table_of MAX_DOMAINS DOMAIN_MAX_LEN (pol_allow_domains pol);
     block_ip4 := overlay (omap ip4_of (pol_block_ips pol)) (zeros MAX_IP4);
     allow_ip4 := overlay (omap ip4_of (pol_allow_ips pol)) (zeros MAX_IP4);
     block_ip6 := overlay (omap ip6_of (pol_block_ips pol)) (zero_table MAX_IP6 IP6_LEN);
     allow_ip6 := overlay (omap ip6_of (pol_allow_ips pol)) (zero_table MAX_IP6 IP6_LEN);
     min_trust_level := pol_min_trust_level pol |}.

Lemma copy_ips_zero ips :
  copy_ips ips 0 0 (zeros MAX_IP4) (zero_table MAX_IP6 IP6_LEN)
  = Ok (overlay (omap ip4_of ips) (zeros MAX_IP4),
        overlay (omap ip6_of ips) (zero_table MAX_IP6 IP6_LEN)).
Proof.
  apply (copy_ips_spec ips [] (zeros MAX_IP4) [] (zero_table MAX_IP6 IP6_LEN));
    rewrite ?app_nil_l; [apply zeros_length|apply zero_table_wf|apply zero_table_wf].
Qed.

Lemma load_policy_fits pol : policy_fits pol → load_policy pol = Ok (policy_of pol).
Proof.
  intros (Hc & Hb & Ha). unfold load_policy.
  cbn [locked_categories block_domains allow_domains block_ip4 block_ip6 allow_ip4 allow_ip6 policy_zero].
  rewrite copy_strings_spec by (done || unfold CATEGORY_MAX_LEN; lia). cbn [rbind].
  rewrite copy_trust_spec. cbn [rbind].
  rewrite !copy_strings_spec by (done || unfold DOMAIN_MAX_LEN; lia). cbn [rbind].
  by rewrite !copy_ips_zero.
Qed.

Lemma table_of_wf rows cols ss :
  (0 < cols)%nat → (length ss ≤ rows)%nat → str_table_wf rows cols (table_of rows cols ss).
Proof.
  intros Hc Hl. destruct (zero_str_table_wf (rows - length ss) cols Hc) as [[Hzl Hz] Hzt].
  unfold table_of. split; [split|].
  - rewrite length_app, length_fmap, Hzl. lia.
  - apply Forall_app. split; [|done]. apply Forall_fmap, Forall_forall. intros s _. cbn.
    apply pad_length. pose proof (stored_length cols s Hc). lia.
  - apply Forall_app. split; [|done]. apply Forall_fmap, Forall_forall. intros s _. cbn.
    apply pad_terminated. by apply stored_length.
Qed.

Lemma overlay_length {A} (xs rest : list A) : length (overlay xs rest) = length rest.
Proof. unfold overlay. rewrite length_app, length_take, length_drop. lia. Qed.

Lemma overlay_Forall {A} (P : A → Prop) xs rest :
  Forall P xs → Forall P rest → Forall P (overlay xs rest).
Proof. intros. apply Forall_app. split; [by apply Forall_take|by apply Forall_drop]. Qed.

Lemma ip6_of_length ips : Forall (λ r, length r = IP6_LEN) (omap ip6_of ips).
Proof.
  apply Forall_forall. intros r (ip & _ & Hr)%list_elem_of_omap. unfold ip6_of in Hr.
  destruct (inet_pton4 (c_str ip)); [done|]. by apply pton6_len in Hr.
Qed.

Lemma overlay_table_wf ips :
  table_wf MAX_IP6 IP6_LEN (overlay (omap ip6_of ips) (zero_table MAX_IP6 IP6_LEN)).
Proof.
  split; [rewrite overlay_length; apply length_replicate|].
  apply overlay_Forall; [apply ip6_of_length|apply zero_table_wf].
Qed.

Lemma trust_table_wf es :
  length (trust_table es) = MAX_CATEGORIES_BY_TRUST_LVL ∧ Forall entry_wf (trust_table es).
Proof.
  unfold trust_table. split.
  - rewrite length_app, length_fmap, length_take, length_replicate. lia.
  - apply Forall_app. split; [|by apply Forall_replicate].
    apply Forall_fmap, Forall_forall. intros [c t] _.
    split; cbn [compose locked_by_trust_category trust_entry fst].
    + apply pad_length, Nat.lt_le_incl, stored_length. unfold CATEGORY_MAX_LEN. lia.
    + apply pad_terminated, stored_length. unfold CATEGORY_MAX_LEN. lia.
Qed.

Lemma policy_of_wf pol : policy_fits pol → policy_wf (policy_of pol).
Proof.
  intros (Hc & Hb & Ha). destruct (trust_table_wf (pol_block_by_trust pol)).
  constructor; cbn [locked_categories categories_with_lvl block_domains allow_domains block_ip4
    allow_ip4 block_ip6 allow_ip6 policy_of]; try done.
  - apply table_of_wf; [unfold CATEGORY_MAX_LEN; lia|done].
  - apply table_of_wf; [unfold DOMAIN_MAX_LEN; lia|done].
  - apply table_of_wf; [unfold DOMAIN_MAX_LEN; lia|done].
  - rewrite overlay_length. apply zeros_length.
  - rewrite overlay_length. apply zeros_length.
  - apply overlay_table_wf.
  - apply overlay_table_wf.
Qed.

(** A message that does not fit. *)
Lemma load_policy_misfit pol : ¬ policy_fits pol → load_policy pol = Fault OutOfBounds.
Proof.
  intros Hn. unfold load_policy.
  cbn [locked_categories block_domains allow_domains block_ip4 block_ip6 allow_ip4 allow_ip6 policy_zero].
  destruct (decide (length (pol_block_categories pol) ≤ MAX_CATEGORIES)%nat) as [Hc|Hc]; cycle 1.
  { by rewrite copy_strings_overflow by (unfold CATEGORY_MAX_LEN; lia). }
  rewrite copy_strings_spec by (done || unfold CATEGORY_MAX_LEN; lia). cbn [rbind].
  rewrite copy_trust_spec. cbn [rbind].
  destruct (decide (length (pol_block_domains pol) ≤ MAX_DOMAINS)%nat) as [Hb|Hb]; cycle 1.
  { by rewrite copy_strings_overflow by (unfold DOMAIN_MAX_LEN; lia). }
  rewrite copy_strings_spec by (done || unfold DOMAIN_MAX_LEN; lia). cbn [rbind].
  destruct (decide (length (pol_allow_domains pol) ≤ MAX_DOMAINS)%nat) as [Ha|Ha]; cycle 1.
  { by rewrite copy_strings_overflow by (unfold DOMAIN_MAX_LEN; lia). }
  by destruct Hn.
Qed.

(** ** What the filter finds in it *)

(** The names a message lists: those before the first empty one, cut to the
    length of an array. *)
Definition listed_names (ss : list (list Z)) : list (list Z) :=
  stored DOMAIN_MAX_LEN <$> live (λ s, bool_decide (stored DOMAIN_MAX_LEN s = [])) ss.

(** The addresses it lists: as many as fit, before the first that ends the list,
    which is 0.0.0.0 or an IPv6 address whose first byte is zero. *)
Definition listed_addrs4 (ips : list (list Z)) : list Z :=
  live (λ a, a =? 0) (take MAX_IP4 (omap ip4_of ips)).
Definition listed_addrs6 (ips : list (list Z)) : list (list Z) :=
  live row_empty (take MAX_IP6 (omap ip6_of ips)).

Lemma live_fmap_app {A B} (f : A → B) (stop : B → bool) (l : list A) (tl : list B) :
  live stop tl = [] → live stop ((f <$> l) ++ tl) = f <$> live (stop ∘ f) l.
Proof. intros Ht. induction l as [|x l IH]; [done|]. cbn. destruct (stop (f x)); cbn; congruence. Qed.

Lemma live_ext {A} (f g : A → bool) (l : list A) : (∀ x, f x = g x) → live f l = live g l.
Proof. intros H. induction l as [|x l IH]; [done|]. cbn. by rewrite H, IH. Qed.

Lemma live_replicate {A} (stop : A → bool) n x : stop x = true → live stop (replicate n x) = [].
Proof. intros H. destruct n; [done|]. cbn. by rewrite H. Qed.

Lemma row_empty_pad cols t :
  Forall (λ x, x ≠ 0) t → (length t < cols)%nat → row_empty (pad cols t) = bool_decide (t = []).
Proof.
  intros Ht Hl. unfold row_empty, pad. destruct Ht as [|x t Hx Ht]; cbn.
  - destruct cols; [cbn in Hl; lia|]. done.
  - rewrite !bool_decide_eq_false_2 by congruence. done.
Qed.

Lemma listed_table rows ss :
  listed_strings (table_of rows DOMAIN_MAX_LEN ss) = listed_names ss.
Proof.
  unfold listed_strings, table_of, listed_names.
  assert (0 < DOMAIN_MAX_LEN)%nat as Hc by (unfold DOMAIN_MAX_LEN; lia).
  rewrite live_fmap_app by (by apply live_replicate).
  rewrite (live_ext _ (λ s, bool_decide (stored DOMAIN_MAX_LEN s = []))); cycle 1.
  { intros s. apply row_empty_pad; [apply stored_no_null|by apply stored_length]. }
  induction (live _ ss) as [|s l IH]; [done|]. rewrite !fmap_cons.
  rewrite (omap_cons_eq cstr _ _ (Some (stored DOMAIN_MAX_LEN s))) by (by apply stored_cstr).
  by rewrite IH.
Qed.

Lemma listed_overlay {A} (stop : A → bool) (xs : list A) n x :
  stop x = true → live stop (overlay xs (replicate n x)) = live stop (take n xs).
Proof.
  intros Hx. unfold overlay. rewrite length_replicate, drop_replicate.
  rewrite <- (list_fmap_id (take n xs)) at 1. rewrite live_fmap_app by (by apply live_replicate).
  by rewrite list_fmap_id.
Qed.

(** C20: the policy built from a message of the controller that fits the arrays
    is well formed, and holds the strings and addresses of the message: each
    string cut to its array, the trust levels and addresses that fit. *)
Theorem load_policy_correct pol :
  policy_fits pol → load_policy pol = Ok (policy_of pol) ∧ policy_wf (policy_of pol).
Proof. intros H. split; [by apply load_policy_fits|by apply policy_of_wf]. Qed.

(** C13: with a policy loaded from a message the filter finds a name or an address
    exactly if the message lists it before the end of the list: a name before
    the first empty one; an IPv4 address among the first 1024 and before the
    first that is 0.0.0.0; an IPv6 address among the first 1024 and before the
    first whose first byte is zero, such as ::1. *)
Theorem loaded_policy_lists pol p info s :
  load_policy pol = Ok p → info_wf info → cstr (domain info) = Some s →
  check_domain_is_block (domain info) (block_domains p)
    = Ok (bool_decide (s ∈ listed_names (pol_block_domains pol)))
  ∧ check_domain_is_allow (domain info) (allow_domains p)
    = Ok (bool_decide (s ∈ listed_names (pol_allow_domains pol)))
  ∧ check_ip_is_block info p
    = Ok (if ip_version info =? IP_4
          then bool_decide (ip4_dist info ∈ listed_addrs4 (pol_block_ips pol))
          else bool_decide (ip6_dist info ∈ listed_addrs6 (pol_block_ips pol)))
  ∧ check_ip_is_allow info p
    = Ok (if ip_version info =? IP_4
          then bool_decide (ip4_dist info ∈ listed_addrs4 (pol_allow_ips pol))
          else bool_decide (ip6_dist info ∈ listed_addrs6 (pol_allow_ips pol))).
Proof.
  intros Hload Hi Hs. assert (policy_fits pol) as Hfit.
  { destruct (decide (policy_fits pol)) as [|Hn]; [done|]. by rewrite load_policy_misfit in Hload. }
  rewrite load_policy_fits in Hload by done. injection Hload as <-.
  pose proof (policy_of_wf pol Hfit) as Hwf.
  rewrite (domain_scan _ s), (domain_scan_allow _ s) by (done || apply Hwf).
  rewrite check_ip_is_block_eq, check_ip_is_allow_eq by done. unfold domain_rule, ip_rule.
  cbn [block_domains allow_domains block_ip4 allow_ip4 block_ip6 allow_ip6 policy_of].
  rewrite !listed_table. unfold listed_ip4, listed_ip6, zeros, zero_table.
  by rewrite !listed_overlay by done.
Qed.

(** C33: a message with more blocked categories, blocked domains or allowed domains
    than the policy has rows is copied without a bound: the loop writes behind
    the array. *)
Theorem load_policy_overflow pol : ¬ policy_fits pol → load_policy pol = Fault OutOfBounds.
Proof. exact (load_policy_misfit pol). Qed.

End load.

(** ** Classifications *)

Section classification.
Implicit Types (out : requested_classification) (resp : ClassifyResponse).

(** A row whose last byte is null receives the string as if it were cleared. *)
Lemma copy_category_spec cat row :
  length row = CATEGORY_MAX_LEN ∧ last row = Some 0 →
  strncpy row (c_str cat) (CATEGORY_MAX_LEN - 1)
  = Ok (pad CATEGORY_MAX_LEN (stored CATEGORY_MAX_LEN cat)).
Proof.
  intros [Hlen Hlast]. assert (0 < CATEGORY_MAX_LEN)%nat as Hc by (unfold CATEGORY_MAX_LEN; lia).
  pose proof (copy_field_spec CATEGORY_MAX_LEN cat row Hc Hlen) as Hf. unfold copy_field in Hf.
  rewrite strncpy_spec in Hf |- * by lia. cbn [rbind] in Hf.
  apply array_set_Ok in Hf as [Hlt ->]. f_equal.
  symmetry. apply list_insert_id. fold (stored CATEGORY_MAX_LEN cat).
  pose proof (stored_length CATEGORY_MAX_LEN cat Hc).
  assert (length (pad (CATEGORY_MAX_LEN - 1) (stored CATEGORY_MAX_LEN cat)) = CATEGORY_MAX_LEN - 1)%nat
    as Hp by (apply pad_length; lia).
  rewrite lookup_app_r, Hp by lia.
  rewrite lookup_drop. rewrite last_lookup, Hlen in Hlast. by rewrite <- Hlast.
Qed.

Lemma strings_of_terminated t :
  Forall (λ r, terminated r = true) t → strings_of t = default [] ∘ cstr <$> t.
Proof.
  induction 1 as [|r t Hr _ IH]; [done|]. apply cstr_terminated in Hr as [s Hs].
  unfold strings_of in *. rewrite (omap_cons_eq cstr r t (Some s)), IH, fmap_cons by done.
  cbn [compose]. by rewrite Hs.
Qed.

Lemma fill_classification_eq resp out :
  clas_clean out →
  fill_classification resp out
  = Ok (RequestedClassification
          ((pad CATEGORY_MAX_LEN ∘ stored CATEGORY_MAX_LEN
              <$> take MAX_CATEGORIES (resp_categories resp))
           ++ drop (length (resp_categories resp)) (get_categories out))
          (resp_trust_level resp)).
Proof.
  intros [[Hlen Hrows] Hlast]. unfold fill_classification, copy_categories.
  rewrite Nat.min_comm, <- take_take, firstn_all.
  rewrite (fill_rows_spec _ (λ cat _, pad CATEGORY_MAX_LEN (stored CATEGORY_MAX_LEN cat))
    (λ r, length r = CATEGORY_MAX_LEN ∧ last r = Some 0)).
  - cbn [rbind]. rewrite zip_with_const by (rewrite length_take, Hlen; lia). do 3 f_equal.
    rewrite length_take. destruct (decide (length (resp_categories resp) ≤ MAX_CATEGORIES)%nat).
    { f_equal. lia. }
    rewrite !drop_ge; [done|lia|lia].
  - apply copy_category_spec.
  - by apply Forall_and.
  - rewrite length_take, Hlen. lia.
Qed.

Lemma fill_strings resp out c :
  clas_clean out → fill_classification resp out = Ok c →
  clas_wf c ∧ get_trust_level c = resp_trust_level resp
  ∧ strings_of (get_categories c)
    = (stored CATEGORY_MAX_LEN <$> take MAX_CATEGORIES (resp_categories resp))
      ++ drop (length (resp_categories resp)) (strings_of (get_categories out)).
Proof.
  intros Hout Hc. rewrite fill_classification_eq in Hc by done. injection Hc as <-.
  destruct Hout as [[Hlen Hrows] Hlast].
  assert (0 < CATEGORY_MAX_LEN)%nat as Hpos by (unfold CATEGORY_MAX_LEN; lia).
  assert (Forall (λ r, terminated r = true) (get_categories out)) as Hterm.
  { eapply Forall_impl; [exact Hlast|]. apply last_terminated. }
  assert (Forall (λ r, terminated r = true) (pad CATEGORY_MAX_LEN ∘ stored CATEGORY_MAX_LEN
    <$> take MAX_CATEGORIES (resp_categories resp))) as Hnew.
  { apply Forall_fmap, Forall_forall. intros s _. by apply pad_terminated, stored_length. }
  unfold clas_wf. cbn [get_categories get_trust_level]. split_and!; [split; [split|]|done|].
  - rewrite length_app, length_fmap, length_take, length_drop, Hlen. lia.
  - apply Forall_app. split; [|by apply Forall_drop].
    apply Forall_fmap, Forall_forall. intros s _. by apply pad_length, Nat.lt_le_incl, stored_length.
  - apply Forall_app. split; [done|by apply Forall_drop].
  - rewrite !strings_of_terminated by (try apply Forall_app; try split; try apply Forall_drop; done).
    rewrite fmap_app, fmap_drop, <- list_fmap_compose. f_equal. apply list_fmap_ext. intros _ s _.
    cbn [compose]. by rewrite stored_cstr.
Qed.

(** C22: a response of the classifier fills the struct with its first 100
    categories, cut to their arrays; the rows behind them keep what the struct
    held before. *)
Theorem classification_strings resp out :
  clas_clean out →
  ∃ c, fill_classification resp out = Ok c ∧ clas_wf c
    ∧ get_trust_level c = resp_trust_level resp
    ∧ strings_of (get_categories c)
      = (stored CATEGORY_MAX_LEN <$> take MAX_CATEGORIES (resp_categories resp))
        ++ drop (length (resp_categories resp)) (strings_of (get_categories out)).
Proof.
  intros Hout. eexists. split; [by apply fill_classification_eq|].
  apply (fill_strings resp out); [done|by apply fill_classification_eq].
Qed.

(** A category left in the struct by an earlier classification counts: if the
    policy locks it and the response has fewer categories than rows, the target
    is dropped although the controller did not name that category. *)
Theorem stale_category_drops {platform : Platform} resp out c policy info s l :
  clas_clean out → policy_wf policy → overrun_wf policy → info_wf info →
  fill_classification resp out = Ok c → resp_trust_level resp ≠ 0 →
  l ∈ drop (length (resp_categories resp)) (strings_of (get_categories out)) →
  l ∈ strings_of (locked_categories policy) →
  cstr (domain info) = Some s → domain_rule s (allow_domains policy) = false →
  main_filtring_by_domain c policy info = Ok false.
Proof.
  intros Hout Hp Ho Hi Hc Htrust Hold Hlocked Hs Hallow.
  destruct (fill_strings resp out c Hout Hc) as (Hwf & Ht & Hstr).
  rewrite domain_verdict_eq by done. f_equal. unfold domain_verdict. rewrite Hs. cbn [default from_option].
  unfold verdict, id.
  rewrite Hallow. destruct (domain_rule s (block_domains policy)); [done|].
  unfold class_rule.
  rewrite Ht, (proj2 (Z.eqb_neq _ _)) by done. cbn [andb].
  assert (category_locked (strings_of (get_categories c)) (strings_of (locked_categories policy)) = true)
    as Hcat; [|by rewrite Hcat].
  apply existsb_exists. exists l. split; [|by apply bool_decide_eq_true].
  rewrite <- list_elem_of_In, Hstr, elem_of_app. by right.
Qed.
End classification.
