(* ===== verification/Cache.v ===== *)
(** * The decision cache shared by domain_cache.c and ip_cache.c

    The two cache files are the same code for two key types and two node
    structs.  The code is modelled once, generic in the key type [K] and the
    node type [N] (class [CacheNode]), and instantiated in [DomainCache.v] and
    [IpCache.v].  The state of a cache is its hash table, the heap blocks of its
    nodes and key copies, and its spinlock.  A node is reached through the
    pointer the hash table stores; its key copy through the node.  Freeing a
    block twice, reading a freed block and taking the lock twice are faults. *)

From Stdlib Require Import ZArith Lia.
From stdpp Require Import prelude gmap strings.
From S2P Require Import Prelude CMem Types Hash.

Local Open Scope Z_scope.

(** ** Nodes *)

(** The fields of a cache node the cache code reads and assigns. *)
Class CacheNode (N : Type) := {
  n_send : N → bool;
  n_timestamp : N → Z;
  n_ttl : N → Z;
  n_key : N → option ptr;
  n_stamp : Z → Z → N → N;
  n_set_key : ptr → N → N
}.

Class CacheNodeOk (N : Type) {HN : CacheNode N} := {
  stamp_send t l n : n_send (n_stamp t l n) = n_send n;
  stamp_timestamp t l n : n_timestamp (n_stamp t l n) = t;
  stamp_ttl t l n : n_ttl (n_stamp t l n) = l;
  set_key_send q n : n_send (n_set_key q n) = n_send n;
  set_key_timestamp q n : n_timestamp (n_set_key q n) = n_timestamp n;
  set_key_ttl q n : n_ttl (n_set_key q n) = n_ttl n;
  set_key_key q n : n_key (n_set_key q n) = Some q
}.

(** ** State *)

Record cache (K N : Type) {H : RteHash K} := Cache {
  c_hash : option hash_t;
  c_nodes : gmap ptr N;
  c_keys : gmap ptr K;
  c_lock : bool
}.
Arguments Cache {K N H}.
Arguments c_hash {K N H}.
Arguments c_nodes {K N H}.
Arguments c_keys {K N H}.
Arguments c_lock {K N H}.

Section cache.
Context {K N E : Type} {H : RteHash K} {HE : RteEnv E} {HN : CacheNode N}.

#[local] Abbreviation cache := (cache K N).
#[local] Abbreviation S := (E * cache)%type.

Definition with_hash (h : option hash_t) (c : cache) : cache :=
  Cache h (c_nodes c) (c_keys c) (c_lock c).
Definition with_nodes (m : gmap ptr N) (c : cache) : cache :=
  Cache (c_hash c) m (c_keys c) (c_lock c).
Definition with_keys (m : gmap ptr K) (c : cache) : cache :=
  Cache (c_hash c) (c_nodes c) m (c_lock c).
Definition with_lock (b : bool) (c : cache) : cache :=
  Cache (c_hash c) (c_nodes c) (c_keys c) b.

(** ** Calls into DPDK *)

Definition spinlock_lock : M S unit := λ '(e, c),
  if c_lock c then Fault Deadlock else Ok (tt, (e, with_lock true c)).
Definition spinlock_unlock : M S unit := λ '(e, c), Ok (tt, (e, with_lock false c)).

Definition timer_cycles : M S Z := λ '(e, c),
  let (t, e') := rte_get_timer_cycles e in Ok (t, (e', c)).
Definition timer_hz : M S Z := λ '(e, c), Ok (rte_get_timer_hz e, (e, c)).

(** [rte_malloc] and [rte_calloc] of a node or a key copy. *)
Definition alloc_node (init : N) : M S (option ptr) := λ '(e, c),
  let (ok, e') := rte_malloc_ok e in
  if (ok : bool) then
    let p := fresh (dom (c_nodes c)) in
    Ok (Some p, (e', with_nodes (<[p := init]> (c_nodes c)) c))
  else Ok (None, (e', c)).
Definition alloc_key (content : res K) : M S (option (ptr * K)) := λ '(e, c),
  let (ok, e') := rte_malloc_ok e in
  if (ok : bool) then
    let* k := content in
    let q := fresh (dom (c_keys c)) in
    Ok (Some (q, k), (e', with_keys (<[q := k]> (c_keys c)) c))
  else Ok (None, (e', c)).

Definition free_node (p : ptr) : M S unit := λ '(e, c),
  match c_nodes c !! p with
  | Some _ => Ok (tt, (e, with_nodes (delete p (c_nodes c)) c))
  | None => Fault BadFree
  end.
(** [rte_free] of a key copy; freeing NULL does nothing. *)
Definition free_key (o : option ptr) : M S unit := λ '(e, c),
  match o with
  | None => Ok (tt, (e, c))
  | Some q =>
      match c_keys c !! q with
      | Some _ => Ok (tt, (e, with_keys (delete q (c_keys c)) c))
      | None => Fault BadFree
      end
  end.

Definition read_node (p : ptr) : M S N := λ '(e, c),
  match c_nodes c !! p with
  | Some n => Ok (n, (e, c))
  | None => Fault BadPointer
  end.
Definition update_node (p : ptr) (f : N → N) : M S unit := λ '(e, c),
  match c_nodes c !! p with
  | Some n => Ok (tt, (e, with_nodes (<[p := f n]> (c_nodes c)) c))
  | None => Fault BadPointer
  end.

(** The hash table calls; on a NULL table they return [-EINVAL]. *)
Definition table_add (k : K) (p : ptr) : M S Z := λ '(e, c),
  match c_hash c with
  | Some h => let (r, h') := rte_hash_add_key_data h k p in Ok (r, (e, with_hash (Some h') c))
  | None => Ok (- EINVAL, (e, c))
  end.
Definition table_lookup (k : K) : M S (Z * option ptr) := λ '(e, c),
  match c_hash c with
  | Some h => Ok (rte_hash_lookup_data h k, (e, c))
  | None => Ok ((- EINVAL, None), (e, c))
  end.
Definition table_del (k : K) : M S Z := λ '(e, c),
  match c_hash c with
  | Some h => let (r, h') := rte_hash_del_key h k in Ok (r, (e, with_hash (Some h') c))
  | None => Ok (- EINVAL, (e, c))
  end.

(** ** The operations of the caches *)

(** [(now - timestamp) / hz >= ttl_seconds], in 64-bit arithmetic. *)
Definition age_seconds (now timestamp hz : Z) : res Z := div64 (u64 (now - timestamp)) hz.

(** [lookup_*_cache]: the result and the pointer left in [*return_node], which
    the caller initialised to NULL. *)
Definition cache_lookup (k : K) : M S (Z * option ptr) :=
  spinlock_lock ;;;
  let! (r, node) := table_lookup k in
  match node with
  | Some p =>
      if r >=? 0 then
        let! now := timer_cycles in
        let! hz := timer_hz in
        let! n := read_node p in
        let! age := lift (age_seconds now (n_timestamp n) hz) in
        if age >=? n_ttl n then
          let! ret_del := table_del k in
          if ret_del <? 0 then
            spinlock_unlock ;;; ret (- ENOENT, Some p)
          else
            free_key (n_key n) ;;;
            free_node p ;;;
            spinlock_unlock ;;;
            ret (- ENOENT, None)
        else
          spinlock_unlock ;;; ret (r, Some p)
      else
        spinlock_unlock ;;; ret (r, Some p)
  | None => spinlock_unlock ;;; ret (r, None)
  end.

(** [add_to_*_cache]: takes over the node; [content] is the key copied into the
    fresh block. *)
Definition cache_add (content : res K) (node : ptr) (ttl : Z) : M S unit :=
  let! key_copy := alloc_key content in
  match key_copy with
  | None => free_node node
  | Some (q, k) =>
      let! now := timer_cycles in
      update_node node (n_stamp now (u32 ttl)) ;;;
      update_node node (n_set_key q) ;;;
      spinlock_lock ;;;
      let! r := table_add k node in
      spinlock_unlock ;;;
      if negb (r =? 0) then
        free_key (Some q) ;;; free_node node
      else ret tt
  end.

(** [insert_loaded_node_*]: 0 or a negative error code. *)
Definition cache_insert_loaded (content : res K) (node : ptr) : M S Z :=
  let! key_copy := alloc_key content in
  match key_copy with
  | None => ret (- ENOMEM)
  | Some (q, k) =>
      update_node node (n_set_key q) ;;;
      spinlock_lock ;;;
      let! r := table_add k node in
      spinlock_unlock ;;;
      if r <? 0 then free_key (Some q) ;;; ret r else ret 0
  end.

(** [clear_*_cache]: only the table is emptied. *)
Definition cache_clear : M S unit := λ '(e, c),
  match c_hash c with
  | None => Ok (tt, (e, c))
  | Some h =>
      (spinlock_lock ;;;
       modify (λ s, (s.1, with_hash (Some (rte_hash_reset h)) s.2)) ;;;
       spinlock_unlock) (e, c)
  end.

(** [free_*_cache]: every node and its key copy, then the table. *)
Definition free_entry (kp : K * ptr) : M S unit :=
  let! n := read_node kp.2 in
  free_key (n_key n) ;;;
  free_node kp.2.

Definition cache_free : M S unit := λ '(e, c),
  match c_hash c with
  | None => Ok (tt, (e, c))
  | Some h =>
      (spinlock_lock ;;;
       for_each free_entry (rte_hash_iterate h) ;;;
       modify (λ s, (s.1, with_hash None s.2)) ;;;
       spinlock_unlock) (e, c)
  end.

(** ** The abstract cache: a map with time-to-live *)

Record entry := Entry { e_send : bool; e_timestamp : Z; e_ttl : Z }.

Definition entry_of (n : N) : entry := Entry (n_send n) (n_timestamp n) (n_ttl n).

Definition expired (now hz : Z) (e : entry) : bool :=
  u64 (now - e_timestamp e) / hz >=? e_ttl e.

End cache.

(** The operations of the abstract cache.  They run in the same environment as
    the code: the clock is read where the code reads it and memory is asked for
    where the code asks, so that the answer and the new contents are determined
    by the call and the state. *)
Section abstract.
Context {K E : Type} `{Countable K} {HE : RteEnv E}.
#[local] Abbreviation A := (gmap K entry).

(** Looking a key up answers with the decision stored under it, unless its age
    at the present reading of the clock has reached its lifetime; then it is
    forgotten. *)
Definition alookup (k : K) (s : E * A) : option bool * (E * A) :=
  let (e, m) := s in
  match m !! k with
  | None => (None, (e, m))
  | Some x =>
      let (now, e') := rte_get_timer_cycles e in
      if expired now (rte_get_timer_hz e) x then (None, (e', delete k m))
      else (Some (e_send x), (e', m))
  end.

(** The table takes a key it holds, or any key while it is not full. *)
Definition accepts (m : A) (k : K) : bool :=
  bool_decide (size m < CACHE_SIZE)%nat || bool_decide (is_Some (m !! k)).

(** Storing a decision that has its node: memory for the key copy, then the
    clock is read, then the table takes the entry or not. *)
Definition astore (k : K) (send : bool) (ttl : Z) (s : E * A) : E * A :=
  let (e, m) := s in
  let (key_ok, e) := rte_malloc_ok e in
  if (key_ok : bool) then
    let (now, e) := rte_get_timer_cycles e in
    (e, if accepts m k then <[k := Entry send now (u32 ttl)]> m else m)
  else (e, m).

(** Storing a decision: memory for the node first. *)
Definition ainsert (k : K) (send : bool) (ttl : Z) (s : E * A) : E * A :=
  let (e, m) := s in
  let (node_ok, e) := rte_malloc_ok e in
  if (node_ok : bool) then astore k send ttl (e, m) else (e, m).

Lemma alookup_Some k e (m : A) b s :
  alookup k (e, m) = (Some b, s) → s.2 = m ∧ ∃ x, m !! k = Some x ∧ b = e_send x.
Proof.
  cbn. destruct (m !! k) as [x|]; [|done]. destruct (rte_get_timer_cycles e).
  destruct (expired _ _ _); [done|]. intros [= <- <-]. eauto.
Qed.

Lemma alookup_None k e (m : A) s : alookup k (e, m) = (None, s) → s.2 ⊆ m.
Proof.
  cbn. destruct (m !! k) as [x|]; [|by intros [= <-]]. destruct (rte_get_timer_cycles e).
  destruct (expired _ _ _); [|done]. intros [= <-]. apply delete_subseteq.
Qed.

Lemma alookup_miss k e (m : A) : m !! k = None → alookup k (e, m) = (None, (e, m)).
Proof. cbn. by intros ->. Qed.

Lemma ainsert_cases k b ttl s :
  (ainsert k b ttl s).2 = s.2 ∨ ∃ now, (ainsert k b ttl s).2 = <[k := Entry b now (u32 ttl)]> s.2.
Proof.
  destruct s as [e m]. unfold ainsert, astore. destruct (rte_malloc_ok e) as [[] e1]; [|by left].
  destruct (rte_malloc_ok e1) as [[] e2]; [|by left]. destruct (rte_get_timer_cycles e2) as [now e3].
  cbn. destruct (accepts m k); eauto.
Qed.
End abstract.

Section invariant.
Context {K N : Type} `{Countable K} {HH : RteHash K} {HO : RteHashOk K HH}.
Context {HN : CacheNode N} {HNO : CacheNodeOk N}.

#[local] Abbreviation cache := (cache K N).
Implicit Types (c : cache) (F G : gset ptr).

(** The pointers stored in the table. *)
Definition view (c : cache) : gmap K ptr :=
  match c_hash c with
  | Some h => hash_view h
  | None => ∅
  end.

(** What the cache means: the decision stored for each key. *)
Definition abs (c : cache) : gmap K entry :=
  omap (λ p, entry_of <$> c_nodes c !! p) (view c).

(** The invariant.  [F] are the allocated nodes and [G] the allocated key
    copies that the table does not own.  The lock is free; every stored pointer
    is an allocated node that owns an allocated copy of the very key it is
    stored under; there are no other nodes than these and [F], and no other key
    copies than these and [G].  With both sets empty nothing has leaked. *)
Record cache_inv (F G : gset ptr) (c : cache) : Prop := {
  inv_lock : c_lock c = false;
  inv_entry k p : view c !! k = Some p →
    ∃ n q, c_nodes c !! p = Some n ∧ n_key n = Some q ∧ c_keys c !! q = Some k ∧ (q ∉ G);
  inv_own p n : c_nodes c !! p = Some n → p ∈ F ∨ ∃ k, view c !! k = Some p;
  inv_float p : p ∈ F → is_Some (c_nodes c !! p) ∧ ∀ k, view c !! k ≠ Some p;
  inv_keys q k : c_keys c !! q = Some k → q ∈ G ∨
    ∃ p n, view c !! k = Some p ∧ c_nodes c !! p = Some n ∧ n_key n = Some q;
  inv_float_key q : q ∈ G → is_Some (c_keys c !! q)
}.

(** A cache just created owns nothing. *)
Lemma cache_inv_created h : hash_view h = ∅ → cache_inv ∅ ∅ (Cache (N:=N) (Some h) ∅ ∅ false).
Proof.
  intros Hh. constructor; unfold view; cbn; try done.
  - intros k p. by rewrite Hh, lookup_empty.
Qed.

(** A cache with one entry that owns its node and key copy. *)
Lemma cache_inv_single h k p n q :
  hash_view h = {[k := p]} → n_key n = Some q →
  cache_inv ∅ ∅ (Cache (Some h) {[p := n]} {[q := k]} false).
Proof.
  intros Hh Hq. constructor; unfold view; cbn; try rewrite Hh; try done.
  - intros k' p' [<- <-]%lookup_singleton_Some. exists n, q. by rewrite !lookup_singleton_eq.
  - intros p' n' [<- <-]%lookup_singleton_Some. right. exists k. apply lookup_singleton_eq.
  - intros q' k' [<- <-]%lookup_singleton_Some. right. exists p, n.
    by rewrite !lookup_singleton_eq.
Qed.

(** Distinct keys are stored with distinct nodes. *)
Lemma view_inj F G c k k' p :
  cache_inv F G c → view c !! k = Some p → view c !! k' = Some p → k = k'.
Proof.
  intros Hi Hk Hk'. destruct (inv_entry _ _ _ Hi _ _ Hk) as (n & q & Hn & Hq & Hkey & _).
  destruct (inv_entry _ _ _ Hi _ _ Hk') as (n' & q' & Hn' & Hq' & Hkey' & _). naive_solver.
Qed.

Lemma abs_lookup c k : abs c !! k = (view c !! k ≫= (λ p, entry_of <$> c_nodes c !! p)).
Proof. apply lookup_omap. Qed.

Lemma abs_lookup_inv F G c k p :
  cache_inv F G c → view c !! k = Some p →
  ∃ n q, c_nodes c !! p = Some n ∧ n_key n = Some q ∧ c_keys c !! q = Some k
         ∧ abs c !! k = Some (entry_of n).
Proof.
  intros Hi Hk. destruct (inv_entry _ _ _ Hi _ _ Hk) as (n & q & Hn & Hq & Hkey & _).
  exists n, q. repeat split; try done. by rewrite abs_lookup, Hk; simpl; rewrite Hn.
Qed.

Lemma abs_lookup_None F G c k : cache_inv F G c → abs c !! k = None ↔ view c !! k = None.
Proof.
  intros Hi. destruct (view c !! k) as [p|] eqn:E.
  - destruct (abs_lookup_inv _ _ _ _ _ Hi E) as (n & q & _ & _ & _ & ->). done.
  - by rewrite abs_lookup, E.
Qed.

Lemma dom_abs F G c : cache_inv F G c → dom (abs c) = dom (view c).
Proof.
  intros Hi. apply set_eq. intros k. rewrite !elem_of_dom, <- !not_eq_None_Some.
  by rewrite (abs_lookup_None F G).
Qed.

(** The abstract cache accepts what the table accepts. *)
Lemma accepts_table F G c h k p :
  cache_inv F G c → c_hash c = Some h →
  accepts (abs c) k = (fst (rte_hash_add_key_data h k p) =? 0).
Proof.
  intros Hi Hh. assert (view c = hash_view h) as Hv by (unfold view; by rewrite Hh).
  unfold accepts. rewrite <- (size_dom (D:=gset K) (abs c)), (dom_abs F G), size_dom, Hv by done.
  case_bool_decide as Hs; [by rewrite (hash_add_room h k p Hs)|]. cbn.
  case_bool_decide as Hk.
  - rewrite <- not_eq_None_Some, (abs_lookup_None F G), Hv, not_eq_None_Some in Hk by done.
    by rewrite (hash_add_update h k p Hk).
  - assert (abs c !! k = None) as Hn by (by apply eq_None_not_Some).
    rewrite (abs_lookup_None F G), Hv in Hn by done.
    pose proof (hash_add_full h k p ltac:(lia) Hn). symmetry. apply Z.eqb_neq. lia.
Qed.

(** *** Removing an entry *)

(** The node and the key copy of an entry belong to that entry alone. *)
Lemma entry_unique F G c k p n q :
  cache_inv F G c → view c !! k = Some p → c_nodes c !! p = Some n → n_key n = Some q →
  (p ∉ F) ∧ (q ∉ G)
  ∧ (∀ k' p', k' ≠ k → view c !! k' = Some p' → p' ≠ p)
  ∧ (∀ k' p' n' q', k' ≠ k → view c !! k' = Some p' → c_nodes c !! p' = Some n' →
       n_key n' = Some q' → q' ≠ q).
Proof.
  intros Hi Hk Hn Hq. destruct (inv_entry _ _ _ Hi _ _ Hk) as (n0 & q0 & ? & ? & ? & ?).
  simplify_eq. repeat split; [|done|..].
  - intros HpF. apply (inv_float _ _ _ Hi) in HpF as [_ HpF]. by eapply HpF.
  - intros k' p' Hne Hv ->. by apply Hne, (view_inj F G c k' k p).
  - intros k' p' n' q' Hne Hv Hnn Hqq ->.
    destruct (inv_entry _ _ _ Hi _ _ Hv) as (n1 & q1 & ? & ? & ? & ?). naive_solver.
Qed.

Lemma remove_inv F G c c' k p n q :
  cache_inv F G c → view c !! k = Some p → c_nodes c !! p = Some n → n_key n = Some q →
  view c' = delete k (view c) → c_nodes c' = delete p (c_nodes c) →
  c_keys c' = delete q (c_keys c) → c_lock c' = false →
  cache_inv F G c' ∧ abs c' = delete k (abs c).
Proof.
  intros Hi Hk Hn Hq Hv' Hn' Hk' Hl'.
  destruct (entry_unique _ _ _ _ _ _ _ Hi Hk Hn Hq) as (HpF & HqG & Hinj & Hqinj).
  split; [constructor|].
  - done.
  - intros k' p'. rewrite Hv', Hn', Hk'. intros [Hne Hv]%lookup_delete_Some.
    destruct (inv_entry _ _ _ Hi _ _ Hv) as (n' & q' & Hnn & Hqq & Hkk & ?).
    exists n', q'. by rewrite !lookup_delete_ne by eauto using not_eq_sym.
  - intros p' n'. rewrite Hv', Hn'. intros [Hne Hnn]%lookup_delete_Some.
    destruct (inv_own _ _ _ Hi _ _ Hnn) as [?|[k' Hv]]; [by left|right].
    exists k'. rewrite lookup_delete_ne; [done|]. intros ->. naive_solver.
  - intros p' HF. destruct (inv_float _ _ _ Hi _ HF) as [Hs Hf]. rewrite Hv', Hn'. split.
    + rewrite lookup_delete_ne; [done|]. naive_solver.
    + intros k' [_ Hv]%lookup_delete_Some. by eapply Hf.
  - intros q' k'. rewrite Hv', Hn', Hk'. intros [Hne Hkk]%lookup_delete_Some.
    destruct (inv_keys _ _ _ Hi _ _ Hkk) as [?|(p' & n' & Hv & Hnn & Hqq)]; [by left|right].
    assert (k' ≠ k) by naive_solver.
    exists p', n'. by rewrite !lookup_delete_ne by eauto using not_eq_sym.
  - intros q' HG. rewrite Hk', lookup_delete_ne by (intros ->; done). by apply Hi.
  - apply map_eq. intros k'. rewrite abs_lookup, Hv', Hn'.
    destruct (decide (k' = k)) as [->|Hne].
    + by rewrite !lookup_delete_eq.
    + rewrite !lookup_delete_ne, abs_lookup by done.
      destruct (view c !! k') as [p'|] eqn:Ev; [|done]. simpl.
      rewrite lookup_delete_ne; [done|]. by apply not_eq_sym, (Hinj k').
Qed.

(** *** A node leaves [F] for the table *)

Lemma insert_inv F G c c' k p n q :
  cache_inv F G c → p ∈ F → view c !! k = None → n_key n = Some q → c_keys c !! q = None →
  view c' = <[k := p]> (view c) → c_nodes c' = <[p := n]> (c_nodes c) →
  c_keys c' = <[q := k]> (c_keys c) → c_lock c' = false →
  cache_inv (F ∖ {[p]}) G c' ∧ abs c' = <[k := entry_of n]> (abs c).
Proof.
  intros Hi HpF Hk Hq Hfresh Hv' Hn' Hk' Hl'.
  destruct (inv_float _ _ _ Hi _ HpF) as [_ Hnotin].
  assert (∀ k' p', view c !! k' = Some p' → p' ≠ p) as Hinj by (intros k' p' Hv ->; naive_solver).
  assert (q ∉ G) as HqG.
  { intros HG. apply (inv_float_key _ _ _ Hi) in HG as [? ?]. congruence. }
  split; [constructor|].
  - done.
  - intros k' p'. rewrite Hv', Hn', Hk'. intros [[<- <-]|[Hne Hv]]%lookup_insert_Some.
    + exists n, q. by rewrite !lookup_insert_eq.
    + destruct (inv_entry _ _ _ Hi _ _ Hv) as (n' & q' & Hnn & Hqq & Hkk & ?).
      exists n', q'. rewrite !lookup_insert_ne; [done| |by apply not_eq_sym, (Hinj k')].
      intros ->. congruence.
  - intros p' n'. rewrite Hv', Hn'. intros [[<- <-]|[Hne Hnn]]%lookup_insert_Some.
    + right. exists k. by rewrite lookup_insert_eq.
    + destruct (inv_own _ _ _ Hi _ _ Hnn) as [?|[k' Hv]]; [left; set_solver|right].
      exists k'. rewrite lookup_insert_ne; [done|]. intros ->. congruence.
  - intros p' [HF Hne]%elem_of_difference. destruct (inv_float _ _ _ Hi _ HF) as [Hs Hf].
    rewrite Hv', Hn'. split.
    + rewrite lookup_insert_ne; [done|]. set_solver.
    + intros k' [[_ ->]|[_ Hv]]%lookup_insert_Some; [set_solver|by eapply Hf].
  - intros q' k'. rewrite Hv', Hn', Hk'. intros [[<- <-]|[Hne Hkk]]%lookup_insert_Some.
    + right. exists p, n. by rewrite !lookup_insert_eq.
    + destruct (inv_keys _ _ _ Hi _ _ Hkk) as [?|(p' & n' & Hv & Hnn & Hqq)]; [by left|right].
      exists p', n'. rewrite !lookup_insert_ne; [done| |].
      * by apply not_eq_sym, (Hinj k').
      * intros ->. congruence.
  - intros q' HG. rewrite Hk', lookup_insert_ne by (intros ->; done). by apply Hi.
  - apply map_eq. intros k'. rewrite abs_lookup, Hv', Hn'.
    destruct (decide (k' = k)) as [->|Hne].
    + by rewrite !lookup_insert_eq; simpl; rewrite lookup_insert_eq.
    + rewrite !(lookup_insert_ne _ k), abs_lookup by done.
      destruct (view c !! k') as [p'|] eqn:Ev; [|done]. simpl.
      rewrite lookup_insert_ne; [done|]. by apply not_eq_sym, (Hinj k').
Qed.

(** *** Nodes outside the table *)

Lemma float_inv F F' G c c' :
  cache_inv F G c → view c' = view c → c_keys c' = c_keys c → c_lock c' = false →
  (∀ p, p ∉ F → p ∉ F' → c_nodes c' !! p = c_nodes c !! p) →
  (∀ p, p ∈ F' → is_Some (c_nodes c' !! p)) →
  (∀ p, p ∈ F → p ∉ F' → c_nodes c' !! p = None) →
  (∀ p, p ∈ F' → p ∉ F → c_nodes c !! p = None) →
  cache_inv F' G c' ∧ abs c' = abs c.
Proof.
  intros Hi Hv Hk Hl Hsame HF' Hgone Hnew.
  assert (∀ k p, view c !! k = Some p → (p ∉ F) ∧ (p ∉ F')) as Hnot.
  { intros k p Hp. assert (p ∉ F) by (intros ?; by eapply (inv_float _ _ _ Hi)).
    split; [done|]. intros HpF'. destruct (inv_entry _ _ _ Hi _ _ Hp) as (n & q & Hn & _).
    rewrite Hnew in Hn; done. }
  split; [constructor|].
  - done.
  - intros k p. rewrite Hv, Hk. intros Hp. destruct (Hnot _ _ Hp).
    rewrite Hsame by done. by apply Hi.
  - intros p n Hn. rewrite Hv. destruct (decide (p ∈ F')) as [|HpF']; [by left|right].
    destruct (decide (p ∈ F)) as [HpF|HpF]; [by rewrite Hgone in Hn|].
    rewrite Hsame in Hn by done. by destruct (inv_own _ _ _ Hi _ _ Hn).
  - intros p Hp. split; [by apply HF'|]. rewrite Hv. intros k Hkp. by destruct (Hnot _ _ Hkp).
  - intros q k. rewrite Hv, Hk. intros Hq.
    destruct (inv_keys _ _ _ Hi _ _ Hq) as [?|(p & n & Hp & Hn & Hnq)]; [by left|right].
    exists p, n. destruct (Hnot _ _ Hp). by rewrite Hsame.
  - intros q HG. rewrite Hk. by apply Hi.
  - apply map_eq. intros k. rewrite !abs_lookup, Hv.
    destruct (view c !! k) as [p|] eqn:Ev; [|done]. simpl. destruct (Hnot _ _ Ev).
    by rewrite Hsame.
Qed.

(** *** An entry is dropped from the table without being freed *)

Lemma release_inv F G c c' k p n q :
  cache_inv F G c → view c !! k = Some p → c_nodes c !! p = Some n → n_key n = Some q →
  view c' = delete k (view c) → c_nodes c' = c_nodes c → c_keys c' = c_keys c →
  c_lock c' = false →
  cache_inv ({[p]} ∪ F) ({[q]} ∪ G) c' ∧ abs c' = delete k (abs c).
Proof.
  intros Hi Hk Hn Hq Hv' Hn' Hk' Hl'.
  destruct (entry_unique _ _ _ _ _ _ _ Hi Hk Hn Hq) as (HpF & HqG & Hinj & Hqinj).
  destruct (inv_entry _ _ _ Hi _ _ Hk) as (n0 & q0 & ? & ? & Hkey & _). simplify_eq.
  split; [constructor|].
  - done.
  - intros k' p'. rewrite Hv', Hn', Hk'. intros [Hne Hv]%lookup_delete_Some.
    destruct (inv_entry _ _ _ Hi _ _ Hv) as (n' & q' & Hnn & Hqq & Hkk & ?).
    exists n', q'. repeat split; try done. apply not_elem_of_union. split; [|done].
    apply not_elem_of_singleton. eauto using not_eq_sym.
  - intros p' n'. rewrite Hv', Hn'. intros Hnn.
    destruct (inv_own _ _ _ Hi _ _ Hnn) as [?|[k' Hv]]; [left; set_solver|].
    destruct (decide (k' = k)) as [->|]; [left; set_solver|right].
    exists k'. by rewrite lookup_delete_ne.
  - intros p' Hp'. rewrite Hv', Hn'. apply elem_of_union in Hp' as [->%elem_of_singleton|HF].
    + split; [by eexists|]. intros k' [Hne Hv]%lookup_delete_Some. by eapply Hinj.
    + destruct (inv_float _ _ _ Hi _ HF) as [Hs Hf]. split; [done|].
      intros k' [_ Hv]%lookup_delete_Some. by eapply Hf.
  - intros q' k'. rewrite Hv', Hn', Hk'. intros Hkk.
    destruct (inv_keys _ _ _ Hi _ _ Hkk) as [?|(p' & n' & Hv & Hnn & Hqq)]; [left; set_solver|].
    destruct (decide (k' = k)) as [->|]; [left|right].
    + apply elem_of_union_l, elem_of_singleton. congruence.
    + exists p', n'. by rewrite lookup_delete_ne.
  - intros q'. rewrite Hk'. intros [->%elem_of_singleton|HG]%elem_of_union; [by eexists|].
    by apply Hi.
  - apply map_eq. intros k'. rewrite abs_lookup, Hv', Hn'.
    destruct (decide (k' = k)) as [->|Hne].
    + by rewrite !lookup_delete_eq.
    + by rewrite !lookup_delete_ne, abs_lookup.
Qed.

(** A node goes into the table under any key; an entry it replaces is lost. *)
Lemma table_insert_inv F G c h h' k p n q :
  cache_inv F G c → p ∈ F → c_hash c = Some h → n_key n = Some q → c_keys c !! q = None →
  hash_view h' = <[k := p]> (hash_view h) →
  let c' := Cache (Some h') (<[p := n]> (c_nodes c)) (<[q := k]> (c_keys c)) false in
  ∃ F' G', cache_inv F' G' c' ∧ abs c' = <[k := entry_of n]> (abs c)
    ∧ (view c !! k = None → F' = F ∖ {[p]} ∧ G' = G).
Proof.
  intros Hi Hp Hh Hq Hfresh Hh' c'.
  assert (view c = hash_view h) as Hv by (unfold view; by rewrite Hh).
  destruct (view c !! k) as [p0|] eqn:Ek; cycle 1.
  { destruct (insert_inv F G c c' k p n q) as [Hinv Habs]; try done.
    - unfold view at 1. cbn. congruence.
    - exists (F ∖ {[p]}), G. auto. }
  destruct (inv_entry _ _ _ Hi _ _ Ek) as (n0 & q0 & Hn0 & Hq0 & Hk0 & _).
  destruct (rte_hash_del_key h k) as [r h1] eqn:Ed.
  rewrite Hv in Ek. destruct (hash_del _ _ _ _ _ Ek Ed) as [_ Hh1]. rewrite <- Hv in Ek.
  set (c1 := Cache (Some h1) (c_nodes c) (c_keys c) false).
  destruct (release_inv F G c c1 k p0 n0 q0) as [Hinv1 Habs1]; try done.
  { unfold view at 1. cbn. congruence. }
  assert (view c1 = delete k (hash_view h)) as Hv1 by done.
  destruct (insert_inv ({[p0]} ∪ F) ({[q0]} ∪ G) c1 c' k p n q) as [Hinv Habs]; try done.
  - set_solver.
  - by rewrite Hv1, lookup_delete_eq.
  - rewrite Hv1, insert_delete_eq. done.
  - do 2 eexists. split; [exact Hinv|]. split; [|done].
    by rewrite Habs, Habs1, insert_delete_eq.
Qed.

(** *** Forgetting the table: everything stored becomes unowned *)

Lemma forget_inv F G c c' :
  cache_inv F G c → view c' = ∅ → c_nodes c' = c_nodes c → c_keys c' = c_keys c →
  c_lock c' = false →
  cache_inv (dom (c_nodes c)) (dom (c_keys c)) c' ∧ abs c' = ∅.
Proof.
  intros Hi Hv Hn Hk Hl. split; [constructor|].
  - done.
  - intros k p. by rewrite Hv, lookup_empty.
  - intros p n. rewrite Hn. intros Hp. left. apply elem_of_dom. eauto.
  - intros p Hp%elem_of_dom. rewrite Hn, Hv. split; [done|].
    intros k. by rewrite lookup_empty.
  - intros q k. rewrite Hk. intros Hq. left. apply elem_of_dom. eauto.
  - intros q Hq%elem_of_dom. by rewrite Hk.
  - apply map_eq. intros k. by rewrite abs_lookup, Hv, !lookup_empty.
Qed.

End invariant.

(** ** The operations keep the invariant and act on the abstract cache *)

Section operations.
Context {K N E : Type} `{Countable K} {HH : RteHash K} {HO : RteHashOk K HH}.
Context {HE : RteEnv E} {HEO : RteEnvOk E} {HN : CacheNode N} {HNO : CacheNodeOk N}.

#[local] Abbreviation cache := (cache K N).
Implicit Types (c : cache) (F G : gset ptr) (e : E).

Lemma with_lock_id c : c_lock c = false → with_lock false (with_lock true c) = c.
Proof. destruct c. simpl. by intros ->. Qed.

Lemma div64_hz e a : div64 a (rte_get_timer_hz e) = Ok (a / rte_get_timer_hz e).
Proof.
  unfold div64. pose proof (timer_hz_range e). by rewrite (proj2 (Z.eqb_neq _ _)) by lia.
Qed.

(** What a lookup finds, at the time [now] it reads. *)
Definition lookup_outcome (now hz : Z) (k : K) (c c' : cache) (r : Z) (o : option ptr) : Prop :=
  match view c !! k with
  | None => r < 0 ∧ (c_hash c ≠ None → r = - ENOENT) ∧ o = None ∧ c' = c
  | Some p =>
      ∃ n, c_nodes c !! p = Some n ∧
      if expired now hz (entry_of n)
      then r = - ENOENT ∧ o = None ∧ abs c' = delete k (abs c)
           ∧ c_nodes c' = delete p (c_nodes c) ∧ view c' = delete k (view c)
      else 0 ≤ r ∧ o = Some p ∧ c' = c
  end.

Lemma cache_lookup_spec F G e c k :
  cache_inv F G c →
  ∃ r o e' c' now, cache_lookup k (e, c) = Ok ((r, o), (e', c'))
    ∧ cache_inv F G c' ∧ lookup_outcome now (rte_get_timer_hz e) k c c' r o
    ∧ now = fst (rte_get_timer_cycles e)
    ∧ e' = (if view c !! k is Some _ then snd (rte_get_timer_cycles e) else e).
Proof.
  intros Hi. unfold cache_lookup, bind, spinlock_lock, table_lookup, lookup_outcome.
  rewrite (inv_lock _ _ _ Hi). cbn. unfold view.
  pose proof (timer_hz_cycles e) as Hhz.
  destruct (c_hash c) as [h|] eqn:Eh; cycle 1.
  { rewrite lookup_empty. cbn. rewrite with_lock_id by apply Hi.
    exists (- EINVAL), None, e, c, (fst (rte_get_timer_cycles e)).
    split; [done|]. split; [done|]. split; [|by auto]. unfold EINVAL. by repeat split. }
  destruct (hash_view h !! k) as [p|] eqn:Ek; cycle 1.
  { rewrite (hash_lookup_miss _ _ Ek). cbn. rewrite with_lock_id by apply Hi.
    exists (- ENOENT), None, e, c, (fst (rte_get_timer_cycles e)).
    split; [done|]. split; [done|]. split; [|by auto]. unfold ENOENT. by repeat split. }
  assert (view c !! k = Some p) as Hv by (unfold view; by rewrite Eh).
  destruct (hash_lookup_hit _ _ _ Ek) as (r & Hr & ->).
  destruct (abs_lookup_inv _ _ _ _ _ Hi Hv) as (n & q & Hn & Hq & Hkey & Habs).
  rewrite Z.geb_leb, (proj2 (Z.leb_le _ _)) by lia. cbn. unfold timer_cycles.
  destruct (rte_get_timer_cycles e) as [now e1] eqn:Et. cbn in *. rewrite Hn. cbn.
  unfold lift, age_seconds. rewrite <- Hhz, div64_hz. cbn. unfold expired. cbn.
  destruct (_ >=? _) eqn:Eexp; cycle 1.
  { cbn. rewrite with_lock_id by apply Hi. do 5 eexists. split; [done|]. split; [done|].
    split; [|by auto]. exists n. by rewrite Eexp. }
  unfold table_del. cbn. rewrite Eh.
  destruct (rte_hash_del_key h k) as [rd h'] eqn:Ed.
  destruct (hash_del _ _ _ _ _ Ek Ed) as [Hrd Hh'].
  rewrite (proj2 (Z.ltb_ge _ _)) by lia. cbn. rewrite Hq. cbn. rewrite Hkey. cbn.
  rewrite Hn. cbn.
  set (c' := Cache (Some h') (delete p (c_nodes c)) (delete q (c_keys c)) false).
  exists (- ENOENT), None, e1, c', now. split; [done|].
  assert (view c' = delete k (view c)) as Hv' by (unfold view; cbn; by rewrite Eh).
  destruct (remove_inv F G c c' k p n q) as [Hinv Habs']; try done.
  split; [done|]. split; [|by auto]. exists n. split; [done|]. rewrite Eexp.
  by rewrite <- Hh' at 1.
Qed.

Lemma add_float_inv F G c p n :
  cache_inv F G c → c_nodes c !! p = None →
  (p ∉ F) ∧ cache_inv ({[p]} ∪ F) G (with_nodes (<[p := n]> (c_nodes c)) c)
  ∧ abs (with_nodes (<[p := n]> (c_nodes c)) c) = abs c.
Proof.
  intros Hi Hp. split; [intros [[? ?] _]%(inv_float _ _ _ Hi); congruence|].
  apply (float_inv F); try done.
  - apply Hi.
  - intros p' _ Hp'. simpl. rewrite lookup_insert_ne; [done|]. set_solver.
  - intros p' [->%elem_of_singleton|Hp']%elem_of_union; simpl.
    + rewrite lookup_insert_eq. by eexists.
    + destruct (decide (p' = p)) as [->|]; [rewrite lookup_insert_eq; by eexists|].
      rewrite lookup_insert_ne by done. by apply Hi.
  - set_solver.
  - intros p' [->%elem_of_singleton|Hp']%elem_of_union; done.
Qed.

Lemma alloc_node_spec F G e c init :
  cache_inv F G c →
  ∃ o e' c', alloc_node init (e, c) = Ok (o, (e', c'))
    ∧ rte_malloc_ok e = (bool_decide (is_Some o), e')
    ∧ match o with
      | None => c' = c
      | Some p => c_nodes c !! p = None ∧ c' = with_nodes (<[p := init]> (c_nodes c)) c
                  ∧ (p ∉ F) ∧ cache_inv ({[p]} ∪ F) G c' ∧ abs c' = abs c
      end.
Proof.
  intros Hi. unfold alloc_node.
  destruct (rte_malloc_ok e) as [[|] e1]; [|by do 3 eexists].
  assert (c_nodes c !! fresh (dom (c_nodes c)) = None) as Hp
    by apply not_elem_of_dom, is_fresh.
  do 3 eexists. split; [done|]. split; [done|]. do 2 (split; [done|]).
  by apply add_float_inv.
Qed.

Lemma alloc_node_some init e c :
  fst (rte_malloc_ok e) = true →
  alloc_node init (e, c)
  = Ok (Some (fresh (dom (c_nodes c))),
        (snd (rte_malloc_ok e), with_nodes (<[fresh (dom (c_nodes c)) := init]> (c_nodes c)) c)).
Proof. intros Hm. unfold alloc_node. by destruct (rte_malloc_ok e) as [[|] e1]. Qed.

Lemma free_float_inv F G c p :
  cache_inv F G c → p ∈ F →
  cache_inv (F ∖ {[p]}) G (with_nodes (delete p (c_nodes c)) c)
  ∧ abs (with_nodes (delete p (c_nodes c)) c) = abs c.
Proof.
  intros Hi Hp. apply (float_inv F); try done; [apply Hi|..].
  - intros p' HF _. simpl. rewrite lookup_delete_ne; [done|]. set_solver.
  - intros p' [HF Hne]%elem_of_difference. simpl.
    rewrite lookup_delete_ne by set_solver. by apply Hi.
  - intros p' HF Hnot. destruct (decide (p' = p)) as [->|]; [apply lookup_delete_eq|set_solver].
  - set_solver.
Qed.

Lemma update_float_inv F G c p n :
  cache_inv F G c → p ∈ F →
  cache_inv F G (with_nodes (<[p := n]> (c_nodes c)) c)
  ∧ abs (with_nodes (<[p := n]> (c_nodes c)) c) = abs c.
Proof.
  intros Hi Hp. apply (float_inv F); try done; [apply Hi|..].
  - intros p' HF _. simpl. rewrite lookup_insert_ne; [done|]. set_solver.
  - intros p' HF. simpl. destruct (decide (p' = p)) as [->|].
    + rewrite lookup_insert_eq. by eexists.
    + rewrite lookup_insert_ne by done. by apply Hi.
Qed.

(** Adding a node: it moves into the table with the current time and the given
    lifetime, or it and the key copy are freed; nothing else changes, and
    nothing leaks if the key was not stored before. *)
Lemma cache_add_spec F G e c k p n ttl :
  cache_inv F G c → p ∈ F → c_nodes c !! p = Some n →
  ∃ e' c' F' G', cache_add (Ok k) p ttl (e, c) = Ok (tt, (e', c'))
    ∧ cache_inv F' G' c'
    ∧ (view c !! k = None → F' = F ∖ {[p]} ∧ G' = G)
    ∧ (c_hash c ≠ None → (e', abs c') = astore k (n_send n) ttl (e, abs c))
    ∧ (fst (rte_malloc_ok e) = true → c_hash c ≠ None → (size (view c) < CACHE_SIZE)%nat →
       abs c' = <[k := Entry (n_send n)
                     (fst (rte_get_timer_cycles (snd (rte_malloc_ok e)))) (u32 ttl)]> (abs c)
       ∧ view c' = <[k := p]> (view c) ∧ c_hash c' ≠ None
       ∧ ∀ p', p' ≠ p → c_nodes c' !! p' = c_nodes c !! p').
Proof.
  intros Hi Hp Hn. unfold cache_add, bind, alloc_key, astore.
  destruct (free_float_inv F G c p Hi Hp) as [Hinv0 Habs0].
  destruct (rte_malloc_ok e) as [[|] e1] eqn:Em; cbn in *; cycle 1.
  { rewrite Hn. do 4 eexists. split; [done|].
    split_and!; [exact Hinv0|done| |done]. intros _. by rewrite Habs0. }
  set (q := fresh (dom (c_keys c))).
  assert (c_keys c !! q = None) as Hq.
  { apply not_elem_of_dom. unfold q. apply is_fresh. }
  unfold timer_cycles, update_node, spinlock_lock, table_add, spinlock_unlock.
  cbn. destruct (rte_get_timer_cycles e1) as [now e2] eqn:Et. cbn in *.
  rewrite Hn. cbn. rewrite lookup_insert_eq. cbn. rewrite (inv_lock _ _ _ Hi). cbn.
  rewrite insert_insert_eq. set (n' := n_set_key q (n_stamp now (u32 ttl) n)).
  assert (entry_of n' = Entry (n_send n) now (u32 ttl)) as He.
  { unfold entry_of, n'. by rewrite set_key_send, set_key_timestamp, set_key_ttl,
      stamp_send, stamp_timestamp, stamp_ttl. }
  unfold free_key, free_node, with_nodes, with_keys, with_lock, with_hash in *.
  rewrite (inv_lock _ _ _ Hi) in Hinv0, Habs0.
  destruct (c_hash c) as [h|] eqn:Eh; cbn; cycle 1.
  { replace (negb (- EINVAL =? 0)) with true by done. cbn.
    rewrite lookup_insert_eq. cbn. rewrite lookup_insert_eq, delete_insert_eq, delete_insert_id by done.
    do 4 eexists. split; [reflexivity|]. split_and!; [exact Hinv0|done|done|done]. }
  rewrite (accepts_table F G c h k p Hi Eh).
  destruct (rte_hash_add_key_data h k p) as [r h'] eqn:Ea. cbn.
  destruct (hash_add _ _ _ _ _ Ea) as [[-> Hh']|[Hr Hh']]; cbn.
  - destruct (table_insert_inv F G c h h' k p n' q) as (F' & G' & Hinv & Habs & Hsame);
      try done; [unfold n'; apply set_key_key|]. rewrite He in Habs.
    do 4 eexists. split; [reflexivity|]. split; [exact Hinv|].
    split; [done|]. split; [by rewrite Habs|]. intros _ _ _.
    split_and!; [done|by unfold view; cbn; rewrite Eh, Hh'|done|].
    intros p' Hp'. cbn. by rewrite lookup_insert_ne.
  - rewrite (proj2 (Z.eqb_neq r 0)) by lia. cbn. rewrite lookup_insert_eq. cbn.
    rewrite lookup_insert_eq, delete_insert_eq, delete_insert_id by done.
    destruct (float_inv (F ∖ {[p]}) (F ∖ {[p]}) G
      (Cache (Some h) (delete p (c_nodes c)) (c_keys c) false)
      (Cache (Some h') (delete p (c_nodes c)) (c_keys c) false)) as [Hinv Habs]; try done.
    { by apply Hinv0. }
    do 4 eexists. split; [reflexivity|]. split; [exact Hinv|].
    split; [done|]. split; [intros _; congruence|].
    intros _ _ Hroom. exfalso. unfold view in Hroom. rewrite Eh in Hroom.
    pose proof (hash_add_room h k p Hroom) as H0. rewrite Ea in H0. cbn in H0. lia.
Qed.

(** Inserting a loaded node: it moves into the table as it is, or stays with
    the caller. *)
Lemma cache_insert_loaded_spec F G e c k p n :
  cache_inv F G c → p ∈ F → c_nodes c !! p = Some n →
  ∃ r e' c', cache_insert_loaded (Ok k) p (e, c) = Ok (r, (e', c'))
    ∧ rte_get_timer_hz e' = rte_get_timer_hz e
    ∧ (r = 0 ∧ abs c' = <[k := entry_of n]> (abs c) ∧ view c' = <[k := p]> (view c)
       ∧ c_hash c' ≠ None
       ∧ (∃ F' G', cache_inv F' G' c' ∧ (view c !! k = None → F' = F ∖ {[p]} ∧ G' = G))
       ∨ r < 0 ∧ cache_inv F G c' ∧ abs c' = abs c)
    ∧ (fst (rte_malloc_ok e) = true → c_hash c ≠ None → (size (view c) < CACHE_SIZE)%nat → r = 0).
Proof.
  intros Hi Hp Hn. unfold cache_insert_loaded, bind, alloc_key.
  pose proof (timer_hz_malloc e) as Hhz.
  destruct (rte_malloc_ok e) as [[|] e1] eqn:Em; cbn in *; cycle 1.
  { exists (- ENOMEM), e1, c. split; [done|]. split; [done|]. split; [|done]. by right. }
  set (q := fresh (dom (c_keys c))).
  assert (c_keys c !! q = None) as Hq by apply not_elem_of_dom, is_fresh.
  unfold update_node, spinlock_lock, table_add, spinlock_unlock. cbn.
  rewrite Hn. cbn. rewrite (inv_lock _ _ _ Hi). cbn. set (n' := n_set_key q n).
  assert (entry_of n' = entry_of n) as He.
  { unfold entry_of, n'. by rewrite set_key_send, set_key_timestamp, set_key_ttl. }
  destruct (update_float_inv F G c p n' Hi Hp) as [Hinv0 Habs0].
  unfold free_key, with_nodes, with_keys, with_lock, with_hash in *.
  rewrite (inv_lock _ _ _ Hi) in Hinv0, Habs0.
  destruct (c_hash c) as [h|] eqn:Eh; cbn; cycle 1.
  { replace (- EINVAL <? 0) with true by done. cbn.
    rewrite lookup_insert_eq. cbn. rewrite delete_insert_id by done.
    do 3 eexists. split; [reflexivity|]. split; [congruence|]. split; [by right|done]. }
  destruct (rte_hash_add_key_data h k p) as [r h'] eqn:Ea. cbn.
  destruct (hash_add _ _ _ _ _ Ea) as [[-> Hh']|[Hr Hh']]; cbn.
  - destruct (table_insert_inv F G c h h' k p n' q) as (F' & G' & Hinv & Habs & Hsame);
      try done; [unfold n'; apply set_key_key|]. rewrite He in Habs.
    do 3 eexists. split; [reflexivity|]. split; [congruence|]. split; [|done]. left.
    split_and!; [done|done|by unfold view; cbn; rewrite Eh, Hh'|done|by exists F', G'].
  - rewrite (proj2 (Z.ltb_lt r 0)) by lia. cbn. rewrite lookup_insert_eq. cbn.
    rewrite delete_insert_id by done.
    destruct (float_inv F F G
      (Cache (Some h) (<[p := n']> (c_nodes c)) (c_keys c) false)
      (Cache (Some h') (<[p := n']> (c_nodes c)) (c_keys c) false)) as [Hinv Habs]; try done.
    { intros p' HpF. by apply Hinv0. }
    do 3 eexists. split; [reflexivity|]. split; [congruence|]. split.
    { right. split; [done|]. split; [done|]. congruence. }
    intros _ _ Hroom. exfalso. unfold view in Hroom. rewrite Eh in Hroom.
    pose proof (hash_add_room h k p Hroom) as H0. rewrite Ea in H0. cbn in H0. lia.
Qed.

(** The operations keep the table: it is created and freed elsewhere. *)
Definition has_table (s : E * cache) : Prop := c_hash s.2 ≠ None.

Ltac keeps_step :=
  first [ apply preserves_bind; [|intros ?]
        | match goal with |- preserves _ (match ?x with _ => _ end) => destruct x end
        | match goal with |- preserves _ ?m =>
            intros [? ?] ? ? ? Hrun; unfold has_table in *; cbn in *;
            repeat (split_match_in Hrun; cbn in *; simplify_eq; try done); simplify_eq/=; congruence end ].

Lemma keeps_cache_lookup k : preserves has_table (cache_lookup k).
Proof.
  unfold cache_lookup, spinlock_lock, spinlock_unlock, table_lookup, timer_cycles, timer_hz,
    read_node, lift, rbind, table_del, free_key, free_node, ret.
  repeat keeps_step.
Qed.

Lemma keeps_cache_add content p ttl : preserves has_table (cache_add content p ttl).
Proof.
  unfold cache_add, alloc_key, rbind, timer_cycles, update_node, spinlock_lock, table_add,
    free_key, free_node, spinlock_unlock, ret.
  repeat keeps_step.
Qed.

Lemma keeps_insert_loaded content p : preserves has_table (cache_insert_loaded content p).
Proof.
  unfold cache_insert_loaded, alloc_key, rbind, update_node, spinlock_lock, table_add,
    free_key, spinlock_unlock, ret.
  repeat keeps_step.
Qed.

Lemma keeps_cache_clear : preserves has_table cache_clear.
Proof.
  intros [e c] [] [e' c'] Hs. unfold cache_clear, bind, spinlock_lock. cbn.
  unfold has_table in *. cbn in *. destruct (c_hash c); [|done]. by destruct (c_lock c); intros [= <- <-].
Qed.

(** A decision stored with memory and room available is found by every later
    lookup until it expires, at whatever time that lookup reads. *)
Lemma cache_add_then_lookup F G e c k p n ttl :
  cache_inv F G c → p ∈ F → c_nodes c !! p = Some n →
  fst (rte_malloc_ok e) = true → c_hash c ≠ None → (size (view c) < CACHE_SIZE)%nat →
  let stored := Entry (n_send n) (fst (rte_get_timer_cycles (snd (rte_malloc_ok e)))) (u32 ttl) in
  ∃ e' c', cache_add (Ok k) p ttl (e, c) = Ok (tt, (e', c'))
    ∧ (∃ F' G', cache_inv F' G' c')
    ∧ abs c' = <[k := stored]> (abs c)
    ∧ ∀ e2, ∃ r o e3 c3, cache_lookup k (e2, c') = Ok ((r, o), (e3, c3))
        ∧ if expired (fst (rte_get_timer_cycles e2)) (rte_get_timer_hz e2) stored
          then r = - ENOENT ∧ o = None ∧ abs c3 !! k = None
          else 0 ≤ r ∧ c3 = c' ∧ ∃ q n', o = Some q ∧ c_nodes c3 !! q = Some n'
               ∧ entry_of n' = stored.
Proof.
  intros Hi Hp Hn Hm Hh Hroom stored.
  destruct (cache_add_spec F G e c k p n ttl Hi Hp Hn)
    as (e' & c' & F' & G' & Hrun & Hi' & _ & _ & Habs).
  destruct (Habs Hm Hh Hroom) as (Habs' & _). clear Habs. rename Habs' into Habs.
  fold stored in Habs.
  exists e', c'. split; [done|]. split; [eauto|]. split; [done|]. intros e2.
  destruct (cache_lookup_spec F' G' e2 c' k Hi')
    as (r & o & e3 & c3 & now & Hlook & _ & Hout & -> & _).
  exists r, o, e3, c3. split; [done|].
  assert (abs c' !! k = Some stored) as Hk by (rewrite Habs; apply lookup_insert_eq).
  unfold lookup_outcome in Hout. rewrite abs_lookup in Hk.
  destruct (view c' !! k) as [q|]; [|done]. cbn in Hk.
  destruct Hout as (n' & Hn' & Hout). rewrite Hn' in Hk. cbn in Hk.
  assert (entry_of n' = stored) as Hst by congruence. rewrite Hst in Hout. destruct (expired _ _ stored).
  - destruct Hout as (-> & -> & -> & _). by rewrite lookup_delete_eq.
  - destruct Hout as (? & -> & ->). eauto 10.
Qed.

Lemma cache_clear_spec F G e c :
  cache_inv F G c →
  ∃ c' F' G', cache_clear (e, c) = Ok (tt, (e, c')) ∧ cache_inv F' G' c' ∧ abs c' = ∅
    ∧ view c' = ∅ ∧ c_nodes c' = c_nodes c ∧ c_keys c' = c_keys c.
Proof.
  intros Hi. unfold cache_clear. destruct (c_hash c) as [h|] eqn:Eh; cycle 1.
  { exists c, F, G. assert (view c = ∅) as Hv by (unfold view; by rewrite Eh).
    split_and!; try done. apply map_eq. intros k.
    by rewrite abs_lookup, Hv, !lookup_empty. }
  unfold bind, spinlock_lock. rewrite (inv_lock _ _ _ Hi). cbn.
  set (c' := Cache (Some (rte_hash_reset h)) (c_nodes c) (c_keys c) false).
  assert (view c' = ∅) as Hv by apply hash_reset.
  destruct (forget_inv F G c c' Hi Hv) as [Hinv Habs]; try done.
  exists c', (dom (c_nodes c)), (dom (c_keys c)). by split_and!.
Qed.

(** *** Freeing the whole cache *)

(** The key copies owned by the nodes of a list of entries. *)
Definition owns (l : list (K * ptr)) (c : cache) (q : ptr) : Prop :=
  ∃ k p n, (k, p) ∈ l ∧ c_nodes c !! p = Some n ∧ n_key n = Some q.

(** The loop of [free_*_cache] over entries with distinct keys and nodes frees
    each node and each key copy once. *)
Lemma free_loop (l : list (K * ptr)) e c :
  NoDup l.*1 → NoDup l.*2 →
  (∀ k p, (k, p) ∈ l →
     ∃ n q, c_nodes c !! p = Some n ∧ n_key n = Some q ∧ c_keys c !! q = Some k) →
  ∃ c', for_each free_entry l (e, c) = Ok (tt, (e, c'))
    ∧ (∀ p, p ∈ l.*2 → c_nodes c' !! p = None)
    ∧ (∀ p, p ∉ l.*2 → c_nodes c' !! p = c_nodes c !! p)
    ∧ (∀ q, owns l c q → c_keys c' !! q = None)
    ∧ (∀ q, ¬ owns l c q → c_keys c' !! q = c_keys c !! q).
Proof.
  revert c. induction l as [|[k p] l IH]; intros c Hk Hp Hall.
  { exists c. split; [done|]. split_and!; try done.
    - intros p Hp0. by apply elem_of_nil in Hp0.
    - intros q (? & ? & ? & Hin & _). by apply elem_of_nil in Hin. }
  apply NoDup_cons in Hk as [Hk Hk']. apply NoDup_cons in Hp as [Hp Hp']. cbn in Hk, Hp.
  destruct (Hall k p) as (n & q & Hn & Hq & Hkey); [rewrite elem_of_cons; by left|].
  cbn [for_each]. unfold bind at 1, free_entry at 1, bind, read_node.
  cbn. rewrite Hn, Hq. cbn. rewrite Hkey. cbn. rewrite Hn.
  set (c1 := with_nodes (delete p (c_nodes c)) (with_keys (delete q (c_keys c)) c)).
  assert (∀ k' p', (k', p') ∈ l → p' ≠ p) as Hpne.
  { intros k' p' Hin ->. apply Hp, list_elem_of_fmap. by exists (k', p). }
  assert (∀ q', owns l c1 q' ↔ owns l c q') as Howns.
  { intros q'. unfold owns. cbn. split; intros (k' & p' & n' & Hin & Hn' & Hq');
      exists k', p', n'; split_and!; try done.
    - by apply lookup_delete_Some in Hn' as [_ ?].
    - rewrite lookup_delete_ne by (by eapply not_eq_sym, Hpne). done. }
  assert (¬ owns l c q) as Hnq.
  { intros (k' & p' & n' & Hin & Hn' & Hq').
    destruct (Hall k' p') as (n1 & q1 & ? & ? & ?); [rewrite elem_of_cons; by right|].
    assert (k' = k) as -> by congruence. apply Hk, list_elem_of_fmap. by exists (k, p'). }
  destruct (IH c1 Hk' Hp') as (c' & Hrun & H1 & H2 & H3 & H4).
  { intros k' p' Hin. destruct (Hall k' p') as (n' & q' & Hn' & Hq' & Hkey');
      [rewrite elem_of_cons; by right|].
    exists n', q'. split_and!; [|done|]; cbn; (rewrite lookup_delete_ne; [done|]).
    - by eapply not_eq_sym, Hpne.
    - intros ->. assert (k' = k) as -> by congruence.
      apply Hk, list_elem_of_fmap. by exists (k, p'). }
  exists c'. split; [exact Hrun|]. split_and!.
  - intros p'. cbn. destruct (decide (p' ∈ l.*2)) as [Hin|Hout]; [intros _; by apply H1|].
    rewrite elem_of_cons. intros [->|]; [|done]. rewrite H2 by done. apply lookup_delete_eq.
  - intros p' [Hne Hnot]%not_elem_of_cons. rewrite H2 by done.
    by apply lookup_delete_ne, not_eq_sym.
  - intros q' (k' & p' & n' & [Heq|Hin]%elem_of_cons & Hn' & Hq').
    + simplify_eq. rewrite H4 by (by rewrite Howns). apply lookup_delete_eq.
    + apply H3, Howns. by exists k', p', n'.
  - intros q' Hnot. rewrite H4.
    + apply lookup_delete_ne. intros ->. apply Hnot. exists k, p, n.
      split; [rewrite elem_of_cons; by left|done].
    + rewrite Howns. intros (k' & p' & n' & Hin & Hn' & Hq'). apply Hnot.
      exists k', p', n'. split; [rewrite elem_of_cons; by right|done].
Qed.

(** [free_*_cache] frees what the table owns and only that. *)
Lemma cache_free_spec F G e c :
  cache_inv F G c → c_hash c ≠ None →
  ∃ c', cache_free (e, c) = Ok (tt, (e, c')) ∧ c_hash c' = None ∧ c_lock c' = false
    ∧ dom (c_nodes c') = F ∧ dom (c_keys c') = G.
Proof.
  intros Hi Hh. unfold cache_free. destruct (c_hash c) as [h|] eqn:Eh; [|done].
  unfold bind, spinlock_lock. rewrite (inv_lock _ _ _ Hi). cbn.
  assert (view c = hash_view h) as Hv by (unfold view; by rewrite Eh).
  set (l := rte_hash_iterate h).
  assert (∀ k p, (k, p) ∈ l ↔ view c !! k = Some p) as Hl.
  { intros k p. unfold l. rewrite (hash_iterate h), Hv. apply elem_of_map_to_list. }
  assert (NoDup l.*1) as Hnd1.
  { unfold l. rewrite (hash_iterate h). apply NoDup_fst_map_to_list. }
  assert (NoDup l.*2) as Hnd2.
  { apply NoDup_fmap_2_strong; [|by eapply NoDup_fmap_1].
    intros [k p] [k' p'] Hin Hin' Heq. cbn in Heq. subst p'.
    f_equal. by apply (view_inj F G c k k' p); [|apply Hl|apply Hl]. }
  assert (∀ p, p ∈ l.*2 ↔ ∃ k, view c !! k = Some p) as Hl2.
  { intros p. rewrite list_elem_of_fmap. split.
    - intros ([k p'] & -> & Hin). exists k. by apply Hl.
    - intros [k Hk]. exists (k, p). split; [done|]. by apply Hl. }
  destruct (free_loop l e (with_lock true c)) as (c' & -> & H1 & H2 & H3 & H4);
    [done|done| |].
  { intros k p Hin%Hl. destruct (inv_entry _ _ _ Hi _ _ Hin) as (n & q & ? & ? & ? & _).
    by exists n, q. }
  cbn. eexists. split; [done|]. split; [done|]. split; [done|]. cbn in *.
  split; apply set_eq; intros x; rewrite elem_of_dom.
  - destruct (decide (x ∈ l.*2)) as [Hin|Hout].
    + rewrite H1 by done. apply Hl2 in Hin as [k Hk]. split; [by intros [? ?]|].
      intros HF. apply (inv_float _ _ _ Hi) in HF as [_ HF]. by destruct (HF k).
    + rewrite H2 by done. split; [|intros HF; by apply (inv_float _ _ _ Hi)].
      intros [n Hn]. destruct (inv_own _ _ _ Hi _ _ Hn) as [?|Hex]; [done|].
      by apply Hl2 in Hex.
  - split.
    + intros [k Hk]. destruct (decide (x ∈ G)) as [|HxG]; [done|exfalso].
      assert (¬ owns l (with_lock true c) x) as Hno by (intros Ho; by rewrite H3 in Hk).
      rewrite H4 in Hk by done. destruct (inv_keys _ _ _ Hi _ _ Hk) as [?|(p & n & ? & ? & ?)]; [done|].
      apply Hno. exists k, p, n. by rewrite Hl.
    + intros HG. rewrite H4; [by apply Hi|].
      intros (k & p & n & Hin%Hl & Hn & Hq).
      destruct (inv_entry _ _ _ Hi _ _ Hin) as (n' & q' & ? & ? & ? & ?). naive_solver.
Qed.

End operations.

(** ** Refinement: the cache implements a map with time-to-live *)

(** What clients do with a cache: look a key up and read the decision, store a
    freshly allocated node, empty the cache. *)
Inductive call (K N : Type) :=
| CLookup (k : K)
| CInsert (k : K) (init : N) (ttl : Z)
| CClear.
Arguments CLookup {K N} k.
Arguments CInsert {K N} k init ttl.
Arguments CClear {K N}.

Section calls.
Context {K N E : Type} {HH : RteHash K} {HE : RteEnv E} {HN : CacheNode N}.

Definition exec (a : call K N) : M (E * cache K N) (option bool) :=
  match a with
  | CLookup k =>
      let! (r, o) := cache_lookup k in
      match o with
      | Some p => let! n := read_node p in ret (Some (n_send n))
      | None => ret None
      end
  | CInsert k init ttl =>
      let! o := alloc_node init in
      match o with
      | Some p => cache_add (Ok k) p ttl ;;; ret None
      | None => ret None
      end
  | CClear => cache_clear ;;; ret None
  end.

Fixpoint exec_all (l : list (call K N)) : M (E * cache K N) (list (option bool)) :=
  match l with
  | [] => ret []
  | a :: l' =>
      let! r := exec a in
      let! rs := exec_all l' in
      ret (r :: rs)
  end.

End calls.

(** What the calls mean for the abstract cache. *)
Section abstract_calls.
Context {K N E : Type} `{Countable K} {HE : RteEnv E} {HN : CacheNode N}.

Definition acall (a : call K N) (s : E * gmap K entry) : option bool * (E * gmap K entry) :=
  match a with
  | CLookup k => alookup k s
  | CInsert k init ttl => (None, ainsert k (n_send init) ttl s)
  | CClear => (None, (s.1, ∅))
  end.

Fixpoint aruns (l : list (call K N)) (s : E * gmap K entry) :
    list (option bool) * (E * gmap K entry) :=
  match l with
  | [] => ([], s)
  | a :: l' =>
      let (r, s') := acall a s in
      let (rs, s'') := aruns l' s' in
      (r :: rs, s'')
  end.
End abstract_calls.

Section refinement.
Context {K N E : Type} `{Countable K} {HH : RteHash K} {HO : RteHashOk K HH}.
Context {HE : RteEnv E} {HEO : RteEnvOk E} {HN : CacheNode N} {HNO : CacheNodeOk N}.
Implicit Types (c : cache K N) (F G : gset ptr) (e : E).

(** A lookup as the packet path uses it: the decision of the abstract cache, or
    [-ENOENT]. *)
Lemma lookup_decision F G e c k :
  cache_inv F G c → c_hash c ≠ None →
  ∃ r o e' c', cache_lookup k (e, c) = Ok ((r, o), (e', c'))
    ∧ cache_inv F G c' ∧ c_hash c' ≠ None
    ∧ match o with
      | Some p => ∃ n, 0 ≤ r ∧ c_nodes c' !! p = Some n
          ∧ alookup k (e, abs c) = (Some (n_send n), (e', abs c'))
      | None => r = - ENOENT ∧ alookup k (e, abs c) = (None, (e', abs c'))
      end.
Proof.
  intros Hi Hh. destruct (cache_lookup_spec F G e c k Hi)
    as (r & o & e' & c' & now & Hrun & Hi' & Hout & -> & He').
  exists r, o, e', c'. split; [done|]. split; [done|].
  split; [by apply (λ H, keeps_cache_lookup k _ _ _ H Hrun)|].
  unfold alookup, lookup_outcome in *. destruct (view c !! k) as [p|] eqn:Ek; cycle 1.
  - destruct Hout as (_ & Hr & -> & ->). rewrite (Hr Hh). split; [done|].
    rewrite (proj2 (abs_lookup_None F G c k Hi) Ek). by subst e'.
  - destruct Hout as (n & Hn & Hout).
    destruct (abs_lookup_inv _ _ _ _ _ Hi Ek) as (n' & q & Hn' & _ & _ & ->). simplify_eq.
    destruct (rte_get_timer_cycles e) as [now e1]. cbn in *. destruct (expired _ _ _).
    + by destruct Hout as (-> & -> & -> & _).
    + destruct Hout as (Hr & -> & ->). by exists n.
Qed.

(** Storing a decision as the packet path does: a fresh node, then the add. *)
Definition cache_store (k : K) (n : N) (ttl : Z) : M (E * cache K N) unit :=
  let! o := alloc_node n in
  match o with
  | Some p => cache_add (Ok k) p ttl
  | None => ret tt
  end.

Lemma store_decision F G e c k n ttl :
  cache_inv F G c → c_hash c ≠ None →
  ∃ e' c', cache_store k n ttl (e, c) = Ok (tt, (e', c'))
    ∧ (∃ F' G', cache_inv F' G' c') ∧ c_hash c' ≠ None
    ∧ ainsert k (n_send n) ttl (e, abs c) = (e', abs c').
Proof.
  intros Hi Hh. unfold cache_store, ainsert.
  destruct (alloc_node_spec F G e c n Hi) as (o & e1 & c1 & Hrun & Hm & Ho).
  erewrite bind_eq by exact Hrun. rewrite Hm. destruct o as [p|]; cbn [bool_decide]; cycle 1.
  { subst c1. do 2 eexists. split; [done|]. split_and!; [eauto|done|done]. }
  destruct Ho as (_ & Hc1 & HpF & Hi1 & Habs1).
  assert (c_nodes c1 !! p = Some n) as Hp by (rewrite Hc1; apply lookup_insert_eq).
  destruct (cache_add_spec _ _ e1 c1 k p n ttl Hi1 ltac:(set_solver) Hp)
    as (e2 & c2 & F' & G' & Hadd & Hi2 & _ & Habs2 & _).
  assert (c_hash c1 ≠ None) as Hh1 by (by rewrite Hc1).
  rewrite Hadd. do 2 eexists. split; [done|]. split; [eauto|].
  split; [by apply (λ H, keeps_cache_add _ _ _ _ _ _ H Hadd)|].
  rewrite (Habs2 Hh1), Habs1. done.
Qed.

Lemma exec_step F G e c a :
  cache_inv F G c → c_hash c ≠ None →
  ∃ r e' c', exec a (e, c) = Ok (r, (e', c'))
    ∧ (∃ F' G', cache_inv F' G' c') ∧ c_hash c' ≠ None
    ∧ acall a (e, abs c) = (r, (e', abs c')).
Proof.
  intros Hi Hh. destruct a as [k|k n ttl|]; unfold exec, acall.
  - destruct (lookup_decision F G e c k Hi Hh) as (r & o & e' & c' & Hrun & Hi' & Hh' & Ho).
    erewrite bind_eq by exact Hrun. destruct o as [p|].
    + destruct Ho as (n & _ & Hn & ->). unfold bind, read_node. rewrite Hn.
      do 3 eexists. split; [done|]. eauto.
    + destruct Ho as (_ & ->). do 3 eexists. split; [done|]. eauto.
  - destruct (store_decision F G e c k n ttl Hi Hh) as (e' & c' & Hrun & Hi' & Hh' & ->).
    exists None, e', c'. split; [|done]. revert Hrun. unfold cache_store, bind.
    destruct (alloc_node n (e, c)) as [[[p|] s]|]; [|by intros [= ->]|done]. by intros ->.
  - destruct (cache_clear_spec F G e c Hi) as (c' & F' & G' & Hrun & Hi' & Habs & _).
    erewrite bind_eq by exact Hrun. do 3 eexists. split; [done|].
    split; [eauto|]. split; [by apply (λ H, keeps_cache_clear _ _ _ H Hrun)|]. by rewrite Habs.
Qed.

(** C4: refinement of the cache: whatever sequence of lookups, insertions and
    clears the clients make on a created cache, from any state satisfying the
    invariant, every call returns without fault (no use after free, no double
    free, no lock left taken), the invariant holds again, and the answers, the
    contents and the environment are exactly those of the map with time-to-live
    run on the same calls in the same environment: a lookup answers with the
    decision stored under that key if and only if its age, by the clock at this
    lookup, is below its lifetime; an insertion is stored with the time read
    then, unless an allocation fails or the table is full. *)
Theorem cache_refines_ttl_map F G e c l :
  cache_inv F G c → c_hash c ≠ None →
  ∃ rs e' c', exec_all l (e, c) = Ok (rs, (e', c'))
    ∧ (∃ F' G', cache_inv F' G' c') ∧ c_hash c' ≠ None
    ∧ aruns l (e, abs c) = (rs, (e', abs c')).
Proof.
  revert F G e c. induction l as [|a l IH]; intros F G e c Hi Hh; cbn [exec_all aruns].
  { do 3 eexists. split; [done|]. eauto. }
  destruct (exec_step F G e c a Hi Hh) as (r & e1 & c1 & Hrun & (F1 & G1 & Hi1) & Hh1 & ->).
  erewrite bind_eq by exact Hrun.
  destruct (IH F1 G1 e1 c1 Hi1 Hh1) as (rs & e2 & c2 & Hrun2 & Hi2 & Hh2 & ->).
  erewrite bind_eq by exact Hrun2. do 3 eexists. split; [done|]. done.
Qed.

(** C16: freeing a cache from which nothing has leaked releases every node and
    every key copy, each exactly once, and leaves no table. *)
Theorem cache_free_releases_all e c :
  cache_inv ∅ ∅ c → c_hash c ≠ None →
  ∃ c', cache_free (e, c) = Ok (tt, (e, c'))
    ∧ c_hash c' = None ∧ c_nodes c' = ∅ ∧ c_keys c' = ∅ ∧ c_lock c' = false.
Proof.
  intros Hi Hh. destruct (cache_free_spec ∅ ∅ e c Hi Hh) as (c' & Hrun & Hnone & Hl & Hn & Hk).
  exists c'. split_and!; try done; by apply dom_empty_inv_L.
Qed.

(** Emptying a cache empties the table but frees nothing: every node and
    key copy that was stored stays allocated with no pointer to it, so the
    cache leaks all its entries (the leak-free invariant fails unless the cache
    was empty). *)
Theorem cache_clear_leaks e c :
  cache_inv ∅ ∅ c → view c ≠ ∅ →
  ∃ c', cache_clear (e, c) = Ok (tt, (e, c'))
    ∧ view c' = ∅ ∧ c_nodes c' = c_nodes c ∧ c_keys c' = c_keys c
    ∧ ¬ cache_inv ∅ ∅ c'.
Proof.
  intros Hi Hne. destruct (cache_clear_spec ∅ ∅ e c Hi)
    as (c' & F' & G' & Hrun & _ & _ & Hv & Hn & Hk).
  exists c'. split_and!; try done. intros Hi'.
  apply map_choose in Hne as (k & p & Hkp).
  destruct (inv_entry _ _ _ Hi _ _ Hkp) as (n & q & Hnode & _).
  rewrite <- Hn in Hnode. destruct (inv_own _ _ _ Hi' _ _ Hnode) as [?|[k' Hk']]; [set_solver|].
  by rewrite Hv, lookup_empty in Hk'.
Qed.

End refinement.
