(* ===== verification/Persist.v ===== *)
(** * Persistence of the caches

    Saving a cache to SQLite and loading it at start-up, the part of
    [src/worker/src/dpdk_filter/domain_cache.c] and [src/worker/src/dpdk_filter/ip_cache.c] that is
    the same code for two key types, two node structs and two sets of SQL
    texts (class [CacheTable]).  The state adds to a cache its database, whether
    the connection pointer is set, the snapshots allocated with [malloc] and
    not freed, and the period of the save timer.  Saving is split where its
    thread can be interrupted: between reading the number of entries and taking
    the lock. *)

From Stdlib Require Import ZArith Lia.
From stdpp Require Import prelude gmap strings.
From S2P Require Import Prelude CMem Types Hash Sqlite Cache.

Local Open Scope Z_scope.

(** What differs between the two caches. *)
Class CacheTable (E K N : Type) := {
  t_sql : cache_sql;
  n_categories : N → list (list Z);
  n_set_categories : list (list Z) → N → N;
  n_trust : N → Z;
  (** the four assignments to a loaded node *)
  n_load : bool → Z → Z → Z → N → N;
  (** the row of a category that is NULL in the database *)
  null_category : list Z → res (list Z);
  (** the buffer with the key's text that is bound when saving *)
  key_text : K → res (list Z);
  (** the key a loaded text stands for; [None] is a text that is refused *)
  text_key : option (list Z) → M E (option (res K))
}.

(** One element of the snapshot array: the key's text or key and the node. *)
Abbreviation snapshot K N := (K * N)%type (only parsing).

Record pstate (E K N D : Type) {H : RteHash K} := PState {
  p_env : E;
  p_cache : cache K N;
  p_db : D;
  p_conn : bool;
  p_snapshots : nat;
  p_timer : option Z
}.
Arguments PState {E K N D H}.
Arguments p_env {E K N D H}.
Arguments p_cache {E K N D H}.
Arguments p_db {E K N D H}.
Arguments p_conn {E K N D H}.
Arguments p_snapshots {E K N D H}.
Arguments p_timer {E K N D H}.

Section persist.
Context {E K N D : Type} {H : RteHash K} {HE : RteEnv E} {HL : LibcEnv E} {HN : CacheNode N}.
Context {HS : Sqlite D} {HU : UninitMem E N} {HT : CacheTable E K N}.

#[local] Abbreviation pstate := (pstate E K N D).

Definition with_cache (s : E * cache K N) (p : pstate) : pstate :=
  PState s.1 s.2 (p_db p) (p_conn p) (p_snapshots p) (p_timer p).
Definition with_env (e : E) (p : pstate) : pstate := with_cache (e, p_cache p) p.
Definition with_db (d : D) (p : pstate) : pstate :=
  PState (p_env p) (p_cache p) d (p_conn p) (p_snapshots p) (p_timer p).
Definition with_conn (b : bool) (p : pstate) : pstate :=
  PState (p_env p) (p_cache p) (p_db p) b (p_snapshots p) (p_timer p).
Definition with_snapshots (n : nat) (p : pstate) : pstate :=
  PState (p_env p) (p_cache p) (p_db p) (p_conn p) n (p_timer p).
Definition with_timer (t : option Z) (p : pstate) : pstate :=
  PState (p_env p) (p_cache p) (p_db p) (p_conn p) (p_snapshots p) t.

Definition on_cache {A} (m : M (E * cache K N) A) : M pstate A :=
  zoom (λ p, (p_env p, p_cache p)) with_cache m.
Definition on_db {A} (f : D → A * D) : M pstate A := λ p,
  let (a, d) := f (p_db p) in Ok (a, with_db d p).
Definition on_env {A} (f : E → A * E) : M pstate A := λ p,
  let (a, e) := f (p_env p) in Ok (a, with_cache (e, p_cache p) p).

(** ** Saving *)

Definition insert_main_record (key : list Z) (node : N) : M pstate Z :=
  let sql := q_insert_main t_sql in
  let! r := on_db (λ d, sqlite3_prepare_v2 d sql) in
  if negb (r =? SQLITE_OK) then ret r else
  let! k := lift (bind_text (Some key)) in
  let! r := on_db (λ d, sqlite3_run d sql
    [k; SqlInt (if n_send node then 1 else 0); SqlInt (i32 (n_trust node));
     SqlInt (i64 (n_timestamp node)); SqlInt (i32 (n_ttl node))]) in
  if negb (r =? SQLITE_DONE) then ret r else ret SQLITE_OK.

Definition delete_categories (key : list Z) : M pstate Z :=
  let sql := q_delete_categories t_sql in
  let! r := on_db (λ d, sqlite3_prepare_v2 d sql) in
  if negb (r =? SQLITE_OK) then ret r else
  let! k := lift (bind_text (Some key)) in
  let! r := on_db (λ d, sqlite3_run d sql [k]) in
  ret (if r =? SQLITE_DONE then SQLITE_OK else r).

(** The loop over the categories up to the first empty one. *)
Fixpoint insert_category_rows (key : list Z) (rows : list (list Z)) : M pstate Z :=
  match rows with
  | [] => ret SQLITE_OK
  | row :: rows' =>
      let! c0 := lift (array_get row 0) in
      if c0 =? 0 then ret SQLITE_OK else
      let! k := lift (bind_text (Some key)) in
      let! c := lift (bind_text (Some row)) in
      let! r := on_db (λ d, sqlite3_run d (q_insert_category t_sql) [k; c]) in
      if negb (r =? SQLITE_DONE) then ret r else insert_category_rows key rows'
  end.

Definition insert_categories (key : list Z) (node : N) : M pstate Z :=
  let! r := on_db (λ d, sqlite3_prepare_v2 d (q_insert_category t_sql)) in
  if negb (r =? SQLITE_OK) then ret r else
  insert_category_rows key (take MAX_CATEGORIES (n_categories node)).

Definition save_single_node (key : K) (node : N) : M pstate Z :=
  let! text := lift (key_text key) in
  let! r := insert_main_record text node in
  if negb (r =? SQLITE_OK) then ret r else
  let! r := delete_categories text in
  if negb (r =? SQLITE_OK) then ret r else
  let! r := insert_categories text node in
  if negb (r =? SQLITE_OK) then ret r else ret SQLITE_OK.

(** The loop of [copy_data_from_hash_to_snapshot] over the entries the table
    yields, from index [i] on; [snapt] is the array [malloc] returned, NULL
    when it failed. *)
Fixpoint copy_entries (entries : list (K * ptr)) (i : nat)
    (snapt : option (list (option (snapshot K N)))) :
    M (E * cache K N) (option (list (option (snapshot K N)))) :=
  match entries with
  | [] => ret snapt
  | (key, data) :: entries' =>
      let! orig := read_node data in
      match snapt with
      | None => fail BadPointer
      | Some arr =>
          let! arr := lift (array_set arr i (Some (key, orig))) in
          copy_entries entries' (S i) (Some arr)
      end
  end.

Definition copy_data_from_hash_to_snapshot (snapt : option (list (option (snapshot K N)))) :
    M (E * cache K N) (option (list (option (snapshot K N)))) :=
  spinlock_lock ;;;
  let! h := gets (λ s, c_hash s.2) in
  let entries := match h with Some h => rte_hash_iterate h | None => [] end in
  let! snapt := copy_entries entries 0 snapt in
  spinlock_unlock ;;;
  ret snapt.

(** The first part of [save_all_cache_*_to_sqlite]: the checks, the number of
    entries and the allocation. *)
Definition save_begin : M pstate (option (nat * option (list (option (snapshot K N))))) :=
  let! h := gets (λ p, c_hash (p_cache p)) in
  match h with
  | None => ret None
  | Some h =>
      let! conn := gets p_conn in
      if negb conn then ret None else
      let count := Z.to_nat (u32 (rte_hash_count h)) in
      let! ok := on_env malloc_ok in
      if (ok : bool) then
        modify (λ p, with_snapshots (S (p_snapshots p)) p) ;;;
        ret (Some (count, Some (replicate count None)))
      else ret (Some (count, None))
  end.

(** The loop over the snapshot: the numbers of records and of errors. *)
Fixpoint save_records (n i : nat) (snapt : option (list (option (snapshot K N))))
    (records errors : Z) : M pstate (Z * Z) :=
  match n with
  | O => ret (records, errors)
  | S n' =>
      match snapt with
      | None => fail BadPointer
      | Some arr =>
          let! slot := lift (array_get arr i) in
          match slot with
          | None => fail Uninit
          | Some (key, node) =>
              let! r := save_single_node key node in
              if r =? SQLITE_OK
              then save_records n' (S i) snapt (records + 1) errors
              else save_records n' (S i) snapt records (errors + 1)
          end
      end
  end.

(** The rest: the snapshot, the transaction, [free] at the end. *)
Definition save_finish (count : nat) (snapt : option (list (option (snapshot K N)))) :
    M pstate (option (Z * Z)) :=
  let! snapt := on_cache (copy_data_from_hash_to_snapshot snapt) in
  let! r := on_db (λ d, sqlite3_exec d "BEGIN TRANSACTION;") in
  if negb (r =? SQLITE_OK) then ret None else
  let! stats := save_records count 0 snapt 0 0 in
  let! r := on_db (λ d, sqlite3_exec d "COMMIT;") in
  if negb (r =? SQLITE_OK) then ret None else
  (match snapt with
   | Some _ => modify (λ p, with_snapshots (pred (p_snapshots p)) p)
   | None => ret tt
   end) ;;;
  ret (Some stats).

Definition save_all_cache : M pstate (option (Z * Z)) :=
  let! b := save_begin in
  match b with
  | None => ret None
  | Some (count, snapt) => save_finish count snapt
  end.

(** ** Loading *)

(** The loop over the rows of the categories statement. *)
Fixpoint load_category_rows (rows : list (list sqlval)) (cat_idx : nat)
    (cats : list (list Z)) : res (list (list Z)) :=
  match rows with
  | [] => Ok cats
  | row :: rows' =>
      if decide (cat_idx < MAX_CATEGORIES)%nat then
        let* v := array_get row 0 in
        let* slot := array_get cats cat_idx in
        let* slot :=
          match sqlite3_column_text v with
          | Some cat =>
              let* slot := strncpy slot cat (CATEGORY_MAX_LEN - 1) in
              array_set slot (CATEGORY_MAX_LEN - 1) 0
          | None => null_category slot
          end in
        let* cats := array_set cats cat_idx slot in
        load_category_rows rows' (S cat_idx) cats
      else Ok cats
  end.

Definition load_categories (text : option (list Z)) (node : ptr) : M pstate Z :=
  let sql := q_select_categories t_sql in
  let! rc := on_db (λ d, sqlite3_prepare_v2 d sql) in
  if negb (rc =? SQLITE_OK) then ret (- 1) else
  let! k := lift (bind_text text) in
  let! rows := on_db (λ d, sqlite3_rows d sql [k]) in
  let! n := on_cache (read_node node) in
  let! cats := lift (load_category_rows rows 0 (n_categories n)) in
  on_cache (update_node node (n_set_categories cats)) ;;;
  ret 0.

Definition create_node_from_db_row (row : list sqlval) (now_cycles hz : Z) : M pstate load_result :=
  let! c0 := lift (array_get row 0) in
  let! c1 := lift (array_get row 1) in
  let! c2 := lift (array_get row 2) in
  let! c3 := lift (array_get row 3) in
  let! c4 := lift (array_get row 4) in
  let text := sqlite3_column_text c0 in
  let solution_is_send := sqlite3_column_int c1 in
  let trust_lvl := sqlite3_column_int c2 in
  let timestamp := u64 (sqlite3_column_int64 c3) in
  let ttl_seconds := u32 (sqlite3_column_int c4) in
  let! age := lift (age_seconds now_cycles timestamp hz) in
  if age >=? ttl_seconds then ret LOAD_EXPIRED else
  let! garbage := on_env uninit in
  let! node := on_cache (alloc_node garbage) in
  match node with
  | None => ret LOAD_ERROR
  | Some node =>
      on_cache (update_node node
        (n_load (negb (solution_is_send =? 0)) trust_lvl timestamp ttl_seconds)) ;;;
      let! r := load_categories text node in
      if negb (r =? 0) then on_cache (free_node node) ;;; ret LOAD_ERROR else
      let! key := zoom p_env with_env (text_key text) in
      match key with
      | None => on_cache (free_node node) ;;; ret LOAD_ERROR
      | Some content =>
          let! r := on_cache (cache_insert_loaded content node) in
          if negb (r =? 0) then on_cache (free_node node) ;;; ret LOAD_ERROR else
          ret LOAD_OK
      end
  end.

Fixpoint load_rows (rows : list (list sqlval)) (now_cycles hz loaded expired errors : Z) :
    M pstate (Z * Z * Z) :=
  match rows with
  | [] => ret (loaded, expired, errors)
  | row :: rows' =>
      let! r := create_node_from_db_row row now_cycles hz in
      match r with
      | LOAD_OK => load_rows rows' now_cycles hz (loaded + 1) expired errors
      | LOAD_EXPIRED => load_rows rows' now_cycles hz loaded (expired + 1) errors
      | LOAD_ERROR => load_rows rows' now_cycles hz loaded expired (errors + 1)
      end
  end.

Definition load_cache : M pstate (option (Z * Z * Z)) :=
  let! h := gets (λ p, c_hash (p_cache p)) in
  let! conn := gets p_conn in
  match h with
  | None => ret None
  | Some _ =>
      if negb conn then ret None else
      let! now_cycles := on_cache timer_cycles in
      let! hz := on_cache timer_hz in
      let sql := q_select_main t_sql in
      let! r := on_db (λ d, sqlite3_prepare_v2 d sql) in
      if negb (r =? SQLITE_OK) then ret None else
      let! rows := on_db (λ d, sqlite3_rows d sql []) in
      let! stats := load_rows rows now_cycles hz 0 0 0 in
      ret (Some stats)
  end.

(** The timer callback: a detached thread runs the save when it can be
    created. *)
Definition cache_save_timer_cb (created : bool) : M pstate unit :=
  if created then let! stats := save_all_cache in ret tt else ret tt.

(** ** Opening and closing *)

Definition close_sqlite : M pstate unit :=
  let! conn := gets p_conn in
  (if (conn : bool) then let! r := on_db sqlite3_close in ret tt else ret tt) ;;;
  modify (with_conn false).

Definition init_tables : M pstate unit :=
  let! (r, handle) := on_db (λ d, sqlite3_open d (q_file t_sql)) in
  modify (with_conn handle) ;;;
  if negb (r =? SQLITE_OK) then ret tt else
  let! r := on_db (λ d, sqlite3_exec d (q_create_main t_sql)) in
  if negb (r =? SQLITE_OK) then ret tt else
  let! r := on_db (λ d, sqlite3_exec d (q_create_categories t_sql)) in
  if negb (r =? SQLITE_OK) then ret tt else
  let! r := on_db (λ d, sqlite3_exec d "PRAGMA foreign_keys = ON;") in
  ret tt.

(** [init_*_cache]; [created] is what [rte_hash_create] returns. *)
Definition init_cache (created : option hash_t) : M pstate unit :=
  let! h := gets (λ p, c_hash (p_cache p)) in
  match h with
  | Some _ => ret tt
  | None =>
      modify (λ p, with_cache (p_env p, with_hash created (p_cache p)) p) ;;;
      match created with
      | None => ret tt
      | Some _ =>
          init_tables ;;;
          load_cache ;;;
          let! hz := on_cache timer_hz in
          modify (with_timer (Some (u64 (hz * 3600))))
      end
  end.

(** [free_*_cache]: the entries and the table under the lock, the connection
    too; then the timer. *)
Definition free_cache : M pstate unit :=
  let! h := gets (λ p, c_hash (p_cache p)) in
  match h with
  | None => ret tt
  | Some h =>
      on_cache spinlock_lock ;;;
      on_cache (for_each free_entry (rte_hash_iterate h)) ;;;
      close_sqlite ;;;
      on_cache (modify (λ s, (s.1, with_hash None s.2))) ;;;
      on_cache spinlock_unlock ;;;
      modify (with_timer None)
  end.

End persist.

(** ** Promises of the table class *)

(** Memory from the allocator has the shape of a node, and reading it does not
    change the timer frequency. *)
Class UninitOk (E K N : Type) {HE : RteEnv E} {HU : UninitMem E N} {HT : CacheTable E K N} := {
  uninit_cats e :
    table_wf MAX_CATEGORIES CATEGORY_MAX_LEN
      (n_categories (E:=E) (K:=K) (fst (uninit (A:=N) e)));
  uninit_hz e : rte_get_timer_hz (snd (uninit (A:=N) e)) = rte_get_timer_hz e
}.

(** The fields of a node, and the keys whose text determines them. *)
Class CacheTableOk (E K N : Type) {HE : RteEnv E} {HN : CacheNode N}
    {HT : CacheTable E K N} := {
  load_send b t ts l n : n_send (n_load (E:=E) (K:=K) b t ts l n) = b;
  load_timestamp b t ts l n : n_timestamp (n_load (E:=E) (K:=K) b t ts l n) = ts;
  load_ttl b t ts l n : n_ttl (n_load (E:=E) (K:=K) b t ts l n) = l;
  load_cats b t ts l n :
    n_categories (E:=E) (K:=K) (n_load (E:=E) (K:=K) b t ts l n) = n_categories (E:=E) (K:=K) n;
  cats_send c n : n_send (n_set_categories (E:=E) (K:=K) c n) = n_send n;
  cats_timestamp c n : n_timestamp (n_set_categories (E:=E) (K:=K) c n) = n_timestamp n;
  cats_ttl c n : n_ttl (n_set_categories (E:=E) (K:=K) c n) = n_ttl n;
  stamp_cats t l n : n_categories (E:=E) (K:=K) (n_stamp t l n) = n_categories (E:=E) (K:=K) n;
  set_key_cats q n : n_categories (E:=E) (K:=K) (n_set_key q n) = n_categories (E:=E) (K:=K) n;
  savable : K → Prop;
  key_str : K → list Z;
  key_text_str k : savable k →
    ∃ b, key_text (E:=E) (N:=N) k = Ok b ∧ cstr b = Some (key_str k);
  text_key_str k e : savable k →
    ∃ e', text_key (N:=N) (Some (c_str (key_str k))) e = Ok (Some (Ok k), e')
          ∧ rte_get_timer_hz e' = rte_get_timer_hz e
}.
