(* ===== verification/PersistSpec.v ===== *)
(** * What saving and loading a cache guarantee

    Saving writes one row per stored decision; loading a saved cache restores
    the decisions that have not expired meanwhile; the save thread overruns its
    array when entries are added between its two parts. *)

From Stdlib Require Import ZArith Lia.
From stdpp Require Import prelude gmap strings.
From S2P Require Import Prelude CMem Types Hash Sqlite Cache Persist.

Local Open Scope Z_scope.

(** ** Maps built by inserting the elements of a list *)

Definition insert_all {A B K V} `{Countable K} (key : A → K) (f : B → V)
    (m : gmap K V) (l : list (A * B)) : gmap K V :=
  foldl (λ m ab, <[key ab.1 := f ab.2]> m) m l.

Section insert_all.
Context {A B K V : Type} `{Countable K} (key : A → K) (f : B → V).

Lemma insert_all_cons m a b l :
  insert_all key f m ((a, b) :: l) = insert_all key f (<[key a := f b]> m) l.
Proof. done. Qed.

Lemma insert_all_notin m l t :
  t ∉ (key ∘ fst <$> l) → insert_all key f m l !! t = m !! t.
Proof.
  revert m. induction l as [|[a b] l IH]; intros m; [done|].
  rewrite fmap_cons. intros [Hne Hnot]%not_elem_of_cons.
  rewrite insert_all_cons, (IH _ Hnot). by rewrite lookup_insert_ne.
Qed.

Lemma insert_all_in m l a b :
  NoDup (key ∘ fst <$> l) → (a, b) ∈ l → insert_all key f m l !! key a = Some (f b).
Proof.
  revert m. induction l as [|[a' b'] l IH]; intros m Hnd Hin; [by apply elem_of_nil in Hin|].
  rewrite fmap_cons in Hnd. apply NoDup_cons in Hnd as [Hnot Hnd]. rewrite insert_all_cons.
  apply elem_of_cons in Hin as [[= <- <-]|Hin]; [|by apply IH].
  rewrite (insert_all_notin _ l) by done. apply lookup_insert_eq.
Qed.

Lemma insert_all_Some m l t v :
  insert_all key f m l !! t = Some v →
  (∃ a b, (a, b) ∈ l ∧ key a = t ∧ f b = v) ∨ m !! t = Some v.
Proof.
  revert m. induction l as [|[a b] l IH]; intros m; [by right|].
  rewrite insert_all_cons. intros Hl. destruct (IH _ Hl) as [(a' & b' & Hin & ? & ?)|Hm].
  - left. exists a', b'. split; [rewrite elem_of_cons; by right|done].
  - cbn in Hm. apply lookup_insert_Some in Hm as [[<- <-]|[_ Hm]]; [|by right].
    left. exists a, b. split; [rewrite elem_of_cons; by left|done].
Qed.
End insert_all.

Section saving.
Context {E K N D : Type} `{Countable K} {HH : RteHash K} {HO : RteHashOk K HH}.
Context {HE : RteEnv E} {HEO : RteEnvOk E} {HL : LibcEnv E}.
Context {HN : CacheNode N} {HNO : CacheNodeOk N}.
Context {HS : Sqlite D} {HU : UninitMem E N} {HT : CacheTable E K N}.
Context {HTO : CacheTableOk E K N} {HUO : UninitOk E K N}.
Context {HSO : SqliteOk D (t_sql (E:=E) (K:=K) (N:=N))} {HUP : SqliteUp D t_sql}.

#[local] Abbreviation pstate := (pstate E K N D).
Implicit Types (p : pstate) (c : cache K N) (F G : gset ptr).

(** The row of a node, and the decision a row stands for. *)
Definition row_of (n : N) : db_row :=
  DbRow (if n_send n then 1 else 0) (i32 (n_trust (E:=E) (K:=K) n)) (i64 (n_timestamp n))
    (i32 (n_ttl n)).

Definition row_entry (r : db_row) : entry :=
  Entry (negb (i32 (db_send r) =? 0)) (u64 (i64 (db_timestamp r))) (u32 (i32 (db_ttl r))).

(** A node whose categories are strings and whose numbers are in range. *)
Definition savable_node (n : N) : Prop :=
  Forall (λ row, terminated row = true) (n_categories (E:=E) (K:=K) n)
  ∧ 0 ≤ n_timestamp n < 2 ^ 64 ∧ 0 ≤ n_ttl n < 2 ^ 32.

(** The casts to SQLite's signed columns and back lose nothing. *)
Lemma row_entry_of n : savable_node n → row_entry (row_of n) = entry_of n.
Proof.
  intros (_ & Ht & Hl). unfold row_entry, row_of, entry_of. cbn.
  rewrite !u64_i64, !u32_i32, u64_small, u32_small by done. by destruct (n_send n).
Qed.

Lemma bind_on_db {A B} (f : D → A * D) (k : A → M pstate B) p a d :
  f (p_db p) = (a, d) → bind (on_db f) k p = k a (with_db d p).
Proof. intros Hf. unfold bind, on_db. by rewrite Hf. Qed.

Lemma with_db_id p : with_db (p_db p) p = p.
Proof. by destruct p. Qed.

(** A prepared statement leaves the tables as they are. *)
Lemma prepare_spec sql p :
  ∃ d, on_db (λ d, sqlite3_prepare_v2 d sql) p = Ok (SQLITE_OK, with_db d p)
    ∧ db_main d = db_main (p_db p) ∧ db_categories d = db_categories (p_db p).
Proof.
  destruct (prepare_keeps (p_db p) sql) as [Hm Hc]. pose proof (prepare_ok (p_db p) sql) as Hok.
  unfold on_db. destruct (sqlite3_prepare_v2 (p_db p) sql) as [r d]. cbn in *. subst r.
  by exists d.
Qed.

Lemma insert_main_spec key t n p :
  cstr key = Some t →
  ∃ d, insert_main_record key n p = Ok (SQLITE_OK, with_db d p)
    ∧ db_main d = <[t := row_of n]> (db_main (p_db p)).
Proof.
  intros Ht. unfold insert_main_record.
  destruct (prepare_spec (q_insert_main t_sql) p) as (d & Hprep & Hm & _).
  erewrite bind_eq by exact Hprep.
  cbn [negb Z.eqb SQLITE_OK]. unfold bind_text. rewrite Ht, bind_lift.
  pose proof (run_insert_main d t (row_of n)) as Hrun.
  pose proof (insert_main_ok d t (row_of n)) as Hok. unfold main_row in Hrun, Hok. cbn in Hrun, Hok.
  destruct (sqlite3_run d _ _) as [r d'] eqn:Er. cbn in Hok. subst r.
  erewrite bind_on_db by exact Er. cbn in *. exists d'. split; [done|]. destruct Hrun as [_ ->].
  by rewrite Hm.
Qed.

Lemma delete_categories_spec key t p :
  cstr key = Some t →
  ∃ d, delete_categories key p = Ok (SQLITE_OK, with_db d p) ∧ db_main d = db_main (p_db p).
Proof.
  intros Ht. unfold delete_categories.
  destruct (prepare_spec (q_delete_categories t_sql) p) as (d & Hprep & Hm & _).
  erewrite bind_eq by exact Hprep.
  cbn [negb Z.eqb SQLITE_OK]. unfold bind_text. rewrite Ht, bind_lift.
  pose proof (run_delete_categories d t) as Hrun.
  pose proof (delete_categories_ok d t) as Hok.
  destruct (sqlite3_run d _ _) as [r d'] eqn:Er. cbn in Hok. subst r.
  erewrite bind_on_db by exact Er. exists d'. split; [done|]. destruct Hrun as [-> _]. done.
Qed.

Lemma insert_category_rows_spec key t rows p :
  cstr key = Some t → Forall (λ row, terminated row = true) rows →
  ∃ r d, insert_category_rows key rows p = Ok (r, with_db d p) ∧ db_main d = db_main (p_db p).
Proof.
  intros Ht Hrows. revert p. induction Hrows as [|row rows Hrow _ IH]; intros p; cbn.
  { exists SQLITE_OK, (p_db p). by rewrite with_db_id. }
  destruct (proj1 (cstr_terminated _) Hrow) as [c Hc].
  destruct row as [|c0 row]; [done|].
  change (array_get (c0 :: row) 0) with (Ok c0). rewrite bind_lift.
  destruct (c0 =? 0). { exists SQLITE_OK, (p_db p). by rewrite with_db_id. }
  unfold bind_text. rewrite Ht, Hc, !bind_lift.
  pose proof (run_insert_category (p_db p) t c) as Hrun.
  destruct (sqlite3_run (p_db p) _ _) as [r d'] eqn:Er. destruct Hrun as [Hm _].
  erewrite bind_on_db by exact Er. destruct (negb (r =? SQLITE_DONE)).
  { by exists r, d'. }
  destruct (IH (with_db d' p)) as (r2 & d2 & Hrun2 & Hm2). exists r2, d2.
  split; [done|]. cbn in Hm2. congruence.
Qed.

(** A key whose text is a string, and an entry that can be written under it. *)
Definition prints (k : K) (t : list Z) : Prop :=
  ∃ b, key_text (E:=E) (N:=N) k = Ok b ∧ cstr b = Some t.
Definition strings (n : N) : Prop :=
  Forall (λ row, terminated row = true) (n_categories (E:=E) (K:=K) n).
Definition writable (txt : K → list Z) (kn : K * N) : Prop := prints kn.1 (txt kn.1) ∧ strings kn.2.

Lemma save_single_spec k t n p :
  prints k t → strings n →
  ∃ r d, save_single_node k n p = Ok (r, with_db d p)
    ∧ db_main d = <[t := row_of n]> (db_main (p_db p)).
Proof.
  intros (b & Hb & Ht) Hcats.
  unfold save_single_node. rewrite Hb, bind_lift.
  destruct (insert_main_spec b t n p Ht) as (d1 & Hrun1 & Hm1).
  erewrite bind_eq by exact Hrun1. cbn [negb Z.eqb SQLITE_OK].
  destruct (delete_categories_spec b t (with_db d1 p) Ht) as (d2 & Hrun2 & Hm2).
  erewrite bind_eq by exact Hrun2. cbn [negb Z.eqb SQLITE_OK]. unfold insert_categories.
  destruct (prepare_spec (q_insert_category t_sql) (with_db d2 p)) as (d3 & Hprep & Hm3 & _).
  destruct (insert_category_rows_spec b t (take MAX_CATEGORIES (n_categories n))
    (with_db d3 p) Ht) as (r & d4 & Hrun4 & Hm4); [by apply Forall_take|].
  erewrite bind_eq by (erewrite bind_eq by exact Hprep; exact Hrun4). cbn in *.
  assert (db_main d4 = <[t := row_of n]> (db_main (p_db p))) as Hd4 by congruence.
  destruct (negb (r =? SQLITE_OK)); by eexists _, d4.
Qed.

(** *** The snapshot *)

(** The entries of a table with their nodes. *)
Definition node_entries (c : cache K N) (l : list (K * ptr)) : list (K * N) :=
  omap (λ kp, (λ n, (kp.1, n)) <$> c_nodes c !! kp.2) l.

#[local] Arguments node_entries : simpl never.

Lemma node_entries_cons c k q n l :
  c_nodes c !! q = Some n → node_entries c ((k, q) :: l) = (k, n) :: node_entries c l.
Proof. intros Hn. unfold node_entries. csimpl. by rewrite Hn. Qed.

Lemma node_entries_length c l :
  Forall (λ kp, is_Some (c_nodes c !! kp.2)) l → length (node_entries c l) = length l.
Proof.
  induction 1 as [|[k q] l [n Hn] _ IH]; [done|].
  rewrite (node_entries_cons c k q n) by done. cbn. by rewrite IH.
Qed.

(** With room in the array the loop copies every entry. *)
Lemma copy_entries_spec (l : list (K * ptr)) i arr (e : E) c :
  Forall (λ kp, is_Some (c_nodes c !! kp.2)) l → (i + length l ≤ length arr)%nat →
  copy_entries l i (Some arr) (e, c)
  = Ok (Some (take i arr ++ (Some <$> node_entries c l) ++ drop (i + length l) arr), (e, c)).
Proof.
  intros Hl. revert i arr. induction Hl as [|[k q] l [n Hn] Hl IH]; intros i arr Hlen; cbn in *.
  { change (node_entries c []) with ([] : list (K * N)). cbn. by rewrite Nat.add_0_r, take_drop. }
  unfold bind, read_node. rewrite Hn. cbn. unfold array_set. rewrite decide_True by lia.
  unfold lift. cbn [rbind]. rewrite IH by (rewrite length_insert; lia).
  rewrite (node_entries_cons c k q n) by done. do 3 f_equal.
  rewrite (take_S_r _ i (Some (k, n))) by (apply list_lookup_insert_eq; lia).
  rewrite take_insert_ge, drop_insert_lt, <- app_assoc by lia.
  by replace (i + S (length l))%nat with (S i + length l)%nat by lia.
Qed.

(** Without room it writes behind the array. *)
Lemma copy_entries_overrun (l : list (K * ptr)) i arr (e : E) c :
  Forall (λ kp, is_Some (c_nodes c !! kp.2)) l → (i ≤ length arr < i + length l)%nat →
  copy_entries l i (Some arr) (e, c) = Fault OutOfBounds.
Proof.
  intros Hl. revert i arr. induction Hl as [|[k q] l [n Hn] Hl IH]; intros i arr Hlen; cbn in *;
    [lia|].
  unfold bind, read_node. rewrite Hn. cbn. unfold array_set. case_decide; [|done].
  unfold lift. cbn [rbind]. apply IH. rewrite length_insert. lia.
Qed.

(** What iterating a table yields. *)
Lemma iterate_entries F G c h :
  cache_inv F G c → c_hash c = Some h →
  Forall (λ kp, is_Some (c_nodes c !! kp.2)) (rte_hash_iterate h)
  ∧ length (rte_hash_iterate h) = size (view c)
  ∧ NoDup (rte_hash_iterate h).*1
  ∧ ∀ k n, (k, n) ∈ node_entries c (rte_hash_iterate h)
           ↔ ∃ q, view c !! k = Some q ∧ c_nodes c !! q = Some n.
Proof.
  intros Hi Hh. assert (view c = hash_view h) as Hv by (unfold view; by rewrite Hh).
  assert (∀ k q, (k, q) ∈ rte_hash_iterate h ↔ view c !! k = Some q) as Hin.
  { intros k q. rewrite (hash_iterate h), Hv. apply elem_of_map_to_list. }
  split_and!.
  - apply Forall_forall. intros [k q] Hk%Hin.
    destruct (inv_entry _ _ _ Hi _ _ Hk) as (n & ? & Hn & _). by exists n.
  - rewrite (hash_iterate h), length_map_to_list, Hv. done.
  - rewrite (hash_iterate h). apply NoDup_fst_map_to_list.
  - intros k n. unfold node_entries. rewrite list_elem_of_omap. split.
    + intros ([k' q] & Hk%Hin & Heq). cbn in *. destruct (c_nodes c !! q) eqn:Eq; [|done].
      cbn in Heq. simplify_eq. by exists q.
    + intros (q & Hk%Hin & Hn). exists (k, q). split; [done|]. cbn. by rewrite Hn.
Qed.

Lemma snapshot_spec F G c h (e : E) arr :
  cache_inv F G c → c_hash c = Some h → length arr = size (view c) →
  copy_data_from_hash_to_snapshot (Some arr) (e, c)
  = Ok (Some (Some <$> node_entries c (rte_hash_iterate h)), (e, c)).
Proof.
  intros Hi Hh Hlen. destruct (iterate_entries F G c h Hi Hh) as (Hall & Hsize & _ & _).
  unfold copy_data_from_hash_to_snapshot, bind, spinlock_lock. rewrite (inv_lock _ _ _ Hi). cbn.
  rewrite Hh, copy_entries_spec by (cbn; done || lia). cbn.
  rewrite drop_ge, app_nil_r by lia. by rewrite with_lock_id by apply Hi.
Qed.

(** *** The save *)

Definition savable_entry (kn : K * N) : Prop := savable kn.1 ∧ savable_node kn.2.

Lemma savable_writable kn : savable_entry kn → writable key_str kn.
Proof. intros [Hk [Hn _]]. split; [by apply key_text_str|done]. Qed.

Lemma save_records_spec txt (l : list (K * N)) i arr records errors p :
  (∀ j x, l !! j = Some x → arr !! (i + j)%nat = Some (Some x)) → Forall (writable txt) l →
  ∃ stats d, save_records (length l) i (Some arr) records errors p = Ok (stats, with_db d p)
    ∧ db_main d = insert_all txt row_of (db_main (p_db p)) l.
Proof.
  intros Harr Hl. revert i records errors p Harr.
  induction Hl as [|[k n] l [Hk Hn] _ IH]; intros i records errors p Harr; cbn [length save_records].
  { exists (records, errors), (p_db p). by rewrite with_db_id. }
  pose proof (Harr 0%nat _ eq_refl) as H0. rewrite Nat.add_0_r in H0.
  unfold array_get. rewrite H0, bind_lift.
  destruct (save_single_spec k (txt k) n p Hk Hn) as (r & d & Hrun & Hd).
  erewrite bind_eq by exact Hrun.
  assert (∀ j x, l !! j = Some x → arr !! (S i + j)%nat = Some (Some x)) as Harr'.
  { intros j x Hj. replace (S i + j)%nat with (i + S j)%nat by lia. by apply Harr. }
  destruct (r =? SQLITE_OK).
  - destruct (IH (S i) (records + 1) errors (with_db d p) Harr') as (stats & d' & Hrun' & Hd').
    exists stats, d'. split; [done|]. rewrite Hd'. cbn. by rewrite Hd.
  - destruct (IH (S i) records (errors + 1) (with_db d p) Harr') as (stats & d' & Hrun' & Hd').
    exists stats, d'. split; [done|]. rewrite Hd'. cbn. by rewrite Hd.
Qed.

Lemma transaction_spec sql p :
  sql = "BEGIN TRANSACTION;" ∨ sql = "COMMIT;" →
  ∃ d, on_db (λ d, sqlite3_exec d sql) p = Ok (SQLITE_OK, with_db d p)
    ∧ db_main d = db_main (p_db p).
Proof.
  intros Hsql. destruct (transaction_keeps (p_db p) sql Hsql) as [Hm _].
  pose proof (exec_ok (p_db p) sql) as Hok. unfold on_db.
  destruct (sqlite3_exec (p_db p) sql) as [r d]. cbn in *. subst r. by exists d.
Qed.

(** The number of entries, read without the lock. *)
Lemma save_begin_spec F G p h :
  cache_inv F G (p_cache p) → c_hash (p_cache p) = Some h → p_conn p = true →
  (size (view (p_cache p)) ≤ CACHE_SIZE)%nat → fst (malloc_ok (p_env p)) = true →
  ∃ e, save_begin p = Ok (Some (size (view (p_cache p)),
                                Some (replicate (size (view (p_cache p))) None)),
                          with_snapshots (S (p_snapshots p)) (with_env e p)).
Proof.
  intros Hi Hh Hc Hsize Hm. unfold save_begin, bind, gets. rewrite Hh, Hc. cbn.
  unfold on_env. destruct (malloc_ok (p_env p)) as [ok e]. cbn in Hm. subst ok. exists e.
  assert (view (p_cache p) = hash_view h) as Hv by (unfold view; by rewrite Hh).
  rewrite hash_count, <- Hv, u32_small by (unfold CACHE_SIZE in Hsize; lia).
  by rewrite Nat2Z.id.
Qed.

(** A save that is not interrupted writes every decision of the cache. *)
Lemma save_all_spec txt F G p h :
  cache_inv F G (p_cache p) → c_hash (p_cache p) = Some h → p_conn p = true →
  (size (view (p_cache p)) ≤ CACHE_SIZE)%nat → fst (malloc_ok (p_env p)) = true →
  Forall (writable txt) (node_entries (p_cache p) (rte_hash_iterate h)) →
  ∃ stats e d, save_all_cache p = Ok (Some stats, with_db d (with_env e p))
    ∧ db_main d = insert_all txt row_of (db_main (p_db p))
                    (node_entries (p_cache p) (rte_hash_iterate h)).
Proof.
  intros Hi Hh Hc Hsize Hm Hsav. unfold save_all_cache.
  destruct (save_begin_spec F G p h Hi Hh Hc Hsize Hm) as (e & Hbegin).
  erewrite bind_eq by exact Hbegin. unfold save_finish.
  set (p1 := with_snapshots (S (p_snapshots p)) (with_env e p)).
  erewrite bind_eq by (apply zoom_eq, (snapshot_spec F G _ h); [done|done|apply length_replicate]).
  change (with_cache (p_env p1, p_cache p1) p1) with p1.
  destruct (transaction_spec "BEGIN TRANSACTION;" p1) as (d1 & Hrun1 & Hd1); [by left|].
  erewrite bind_eq by exact Hrun1. cbn [negb Z.eqb SQLITE_OK].
  set (l := node_entries (p_cache p) (rte_hash_iterate h)) in *.
  destruct (iterate_entries F G (p_cache p) h Hi Hh) as (Hall & Hlen & _ & _).
  rewrite <- Hlen, <- (node_entries_length (p_cache p)) by done. fold l.
  destruct (save_records_spec txt l 0 (Some <$> l) 0 0 (with_db d1 p1)) as (stats & d2 & Hrun2 & Hd2);
    [|done|].
  { intros j x Hj. change (0 + j)%nat with j. by rewrite list_lookup_fmap, Hj. }
  erewrite bind_eq by exact Hrun2.
  destruct (transaction_spec "COMMIT;" (with_db d2 p1)) as (d3 & Hrun3 & Hd3); [by right|].
  erewrite bind_eq by exact Hrun3. cbn [negb Z.eqb SQLITE_OK].
  exists stats, e, d3. split; [done|]. cbn in *. by rewrite Hd3, Hd2, Hd1.
Qed.

(** Interrupted between its two parts by insertions, the save writes behind the
    snapshot array. *)
Lemma save_finish_overrun F G p count :
  cache_inv F G (p_cache p) → c_hash (p_cache p) ≠ None →
  (count < size (view (p_cache p)))%nat →
  save_finish count (Some (replicate count None)) p = Fault OutOfBounds.
Proof.
  intros Hi Hh Hlt. destruct (c_hash (p_cache p)) as [h|] eqn:Eh; [|done].
  destruct (iterate_entries F G (p_cache p) h Hi Eh) as (Hall & Hlen & _ & _).
  unfold save_finish, bind, on_cache, zoom, copy_data_from_hash_to_snapshot, bind, spinlock_lock.
  rewrite (inv_lock _ _ _ Hi). cbn. rewrite Eh.
  rewrite copy_entries_overrun; [done|done|]. rewrite length_replicate. lia.
Qed.

(** *** Loading *)

Lemma load_category_rows_spec rows i cats :
  Forall (λ row, ∃ t, row = [SqlText t]) rows →
  table_wf MAX_CATEGORIES CATEGORY_MAX_LEN cats →
  ∃ cats', load_category_rows (E:=E) (K:=K) (N:=N) rows i cats = Ok cats'.
Proof.
  intros Hrows. revert i cats. induction Hrows as [|row rows [t ->] _ IH]; intros i cats Hwf;
    cbn [load_category_rows].
  { by eexists. }
  change (array_get [SqlText t] 0) with (Ok (SqlText t)). cbn [rbind].
  destruct (decide (i < MAX_CATEGORIES)%nat) as [Hi|]; [|by eexists].
  destruct Hwf as [Hlen Hrow]. destruct (array_get_lt cats i) as (slot & -> & Hslot); [lia|].
  cbn [rbind]. rewrite column_text_text. unfold strncpy.
  destruct (strncpy_bytes_total (c_str t) (CATEGORY_MAX_LEN - 1) (c_str_terminated t))
    as (bs & -> & Hbs). cbn [rbind].
  assert (length slot = CATEGORY_MAX_LEN) as Hsl by (by eapply Forall_lookup in Hrow).
  unfold store. rewrite decide_True by (rewrite Hsl, Hbs; lia). cbn [rbind].
  set (slot1 := take 0 slot ++ bs ++ drop (0 + length bs) slot).
  assert (length slot1 = CATEGORY_MAX_LEN) as Hs1.
  { unfold slot1. rewrite !length_app, length_take, length_drop. unfold CATEGORY_MAX_LEN in *. lia. }
  unfold array_set at 1. rewrite decide_True by (rewrite Hs1; unfold CATEGORY_MAX_LEN; lia).
  cbn [rbind]. unfold array_set at 1. rewrite decide_True by lia. cbn [rbind].
  apply IH. split; [by rewrite length_insert|].
  apply Forall_insert; [done|]. by rewrite length_insert.
Qed.

(** The category slots behind the rows of the statement keep what the
    allocation left in them: a loaded node is only as initialised as its list
    of categories is long. *)
Lemma load_category_rows_tail rows i cats cats' j :
  load_category_rows (E:=E) (K:=K) (N:=N) rows i cats = Ok cats' →
  (i + length rows ≤ j)%nat → cats' !! j = cats !! j.
Proof.
  revert i cats. induction rows as [|row rows IH]; intros i cats Hrun Hj; cbn [load_category_rows length] in *.
  { by simplify_eq. }
  destruct (decide _); [|by simplify_eq].
  destruct (array_get row 0) as [v|]; [|done]. cbn [rbind] in Hrun.
  destruct (array_get cats i) as [slot|]; [|done]. cbn [rbind] in Hrun.
  match type of Hrun with rbind ?r _ = _ => destruct r as [slot'|]; [|done] end. cbn [rbind] in Hrun.
  unfold array_set in Hrun. destruct (decide _); [|done]. cbn [rbind] in Hrun.
  rewrite (IH _ _ Hrun) by lia. apply list_lookup_insert_ne. lia.
Qed.

Lemma load_categories_spec t q n p :
  Forall (λ b, b ≠ 0) t → c_nodes (p_cache p) !! q = Some n →
  table_wf MAX_CATEGORIES CATEGORY_MAX_LEN (n_categories (E:=E) (K:=K) n) →
  ∃ cats d, load_categories (Some (c_str t)) q p
      = Ok (0, with_db d (with_cache (p_env p, with_nodes
          (<[q := n_set_categories (E:=E) (K:=K) cats n]> (c_nodes (p_cache p))) (p_cache p)) p))
    ∧ db_main d = db_main (p_db p).
Proof.
  intros Ht Hn Hwf. unfold load_categories.
  destruct (prepare_spec (q_select_categories t_sql) p) as (d1 & Hprep & Hm1 & _).
  erewrite bind_eq by exact Hprep. cbn [negb Z.eqb SQLITE_OK].
  unfold bind_text. rewrite cstr_c_str, bind_lift by done.
  pose proof (rows_categories d1 t) as Hrows.
  destruct (sqlite3_rows d1 (q_select_categories t_sql) [SqlText t]) as [rows d2] eqn:Er.
  destruct Hrows as (Hrows & Hm2 & _). erewrite bind_on_db by exact Er.
  erewrite bind_eq by (apply zoom_eq; unfold read_node; cbn; by rewrite Hn).
  destruct (load_category_rows_spec rows 0 (n_categories n)) as (cats & Hcats); [|done|].
  { rewrite Hrows. apply Forall_fmap, Forall_forall. intros c _. by exists c. }
  rewrite Hcats, bind_lift.
  erewrite bind_eq by (apply zoom_eq; unfold update_node; cbn; by rewrite Hn).
  exists cats, d2. split; [done|]. cbn in *. congruence.
Qed.

(** One row of the main table: skipped when expired, else loaded as stored. *)
Lemma create_node_spec F G p k r now hz :
  cache_inv F G (p_cache p) → c_hash (p_cache p) ≠ None →
  (size (view (p_cache p)) < CACHE_SIZE)%nat → view (p_cache p) !! k = None →
  savable k → (∀ e, fst (rte_malloc_ok (E:=E) e) = true) → 0 < hz →
  ∃ res p', create_node_from_db_row (main_row (key_str k, r)) now hz p = Ok (res, p')
    ∧ p_conn p' = p_conn p ∧ db_main (p_db p') = db_main (p_db p)
    ∧ cache_inv F G (p_cache p') ∧ c_hash (p_cache p') ≠ None
    ∧ if expired now hz (row_entry r)
      then res = LOAD_EXPIRED ∧ p_cache p' = p_cache p
      else res = LOAD_OK ∧ abs (p_cache p') = <[k := row_entry r]> (abs (p_cache p))
           ∧ ∃ q, view (p_cache p') = <[k := q]> (view (p_cache p)).
Proof.
  intros Hi Hh Hroom Hk Hsav Hmem Hhz. destruct (key_text_str k Hsav) as (b & _ & Hb).
  pose proof (cstr_no_null _ _ Hb) as Hnn. unfold create_node_from_db_row, main_row.
  unfold array_get. cbn [lookup list_lookup fst snd]. rewrite !bind_lift.
  rewrite column_text_text, !column_int_int, column_int64_int.
  unfold age_seconds, div64. rewrite (proj2 (Z.eqb_neq hz 0)) by lia. rewrite bind_lift.
  unfold expired. cbn [row_entry e_timestamp e_ttl].
  destruct (_ >=? _) eqn:Eexp; [by eexists _, p|].
  pose proof (uninit_cats (p_env p)) as Hcats0.
  unfold bind at 1, on_env. destruct (uninit (p_env p)) as [g e1]. cbn in Hcats0.
  set (c := p_cache p) in *. set (q := fresh (dom (c_nodes c))).
  assert (c_nodes c !! q = None) as Hq by apply not_elem_of_dom, is_fresh.
  erewrite bind_eq by (apply zoom_eq, (alloc_node_some _ _ _ (Hmem _))).
  cbn [p_cache p_env with_cache fst snd]. fold q.
  destruct (add_float_inv F G c q g Hi Hq) as (HqF & Hi1 & Ha1).
  set (c1 := with_nodes (<[q := g]> (c_nodes c)) c) in *.
  erewrite bind_eq by (apply zoom_eq; unfold update_node; cbn; by rewrite lookup_insert_eq).
  set (n1 := n_load _ _ _ _ g).
  destruct (update_float_inv _ G c1 q n1 Hi1 ltac:(set_solver)) as [Hi2 Ha2].
  set (c2 := with_nodes (<[q := n1]> (c_nodes c1)) c1) in *.
  match goal with |- context [bind (load_categories _ q) _ ?p2] =>
    destruct (load_categories_spec (key_str k) q n1 p2 Hnn) as (cats & d & Hrun & Hd);
      [apply lookup_insert_eq|by unfold n1; rewrite load_cats|] end.
  erewrite bind_eq by exact Hrun. clear Hrun. cbn [negb Z.eqb p_cache with_cache p_env fst snd].
  destruct (update_float_inv _ G c2 q (n_set_categories (E:=E) (K:=K) cats n1) Hi2
    ltac:(set_solver)) as [Hi3 Ha3].
  set (n2 := n_set_categories (E:=E) (K:=K) cats n1) in *.
  change (with_nodes (<[q := n1]> (<[q := g]> (c_nodes c))) c1) with c2.
  change (<[q := n1]> (<[q := g]> (c_nodes c))) with (c_nodes c2).
  set (c3 := with_nodes (<[q := n2]> (c_nodes c2)) c2) in *.
  match goal with |- context [bind (zoom p_env with_env _) _ ?p3] =>
    destruct (text_key_str k (p_env p3) Hsav) as (e3 & Hkey & _) end.
  erewrite bind_eq by (apply zoom_eq; exact Hkey).
  destruct (cache_insert_loaded_spec ({[q]} ∪ F) G e3 c3 k q n2 Hi3 ltac:(set_solver))
    as (r0 & e4 & c4 & Hins & _ & Hcase & Hzero); [apply lookup_insert_eq|].
  rewrite (Hzero (Hmem _) Hh Hroom) in Hins, Hcase.
  destruct Hcase as [(_ & Habs & Hview & Hhash & F' & G' & Hi4 & Hsame)|[? _]]; [|lia].
  destruct (Hsame Hk) as [-> ->].
  assert (({[q]} ∪ F) ∖ {[q]} = F) as HF by set_solver. rewrite HF in Hi4.
  erewrite bind_eq by (apply zoom_eq; exact Hins). cbn [negb Z.eqb].
  eexists _, _. split; [done|]. cbn. split_and!; try done.
  - rewrite Habs. f_equal; [|congruence]. unfold entry_of, n2, n1.
    by rewrite cats_send, cats_timestamp, cats_ttl, load_send, load_timestamp, load_ttl.
  - by exists q.
Qed.

(** The rows of distinct keys, one after the other. *)
Definition live_row (now hz : Z) (kr : K * db_row) : bool := negb (expired now hz (row_entry kr.2)).

Lemma load_rows_spec F G (rs : list (K * db_row)) now hz x y z p :
  cache_inv F G (p_cache p) → c_hash (p_cache p) ≠ None → NoDup rs.*1 →
  Forall (λ kr, savable kr.1 ∧ view (p_cache p) !! kr.1 = None) rs →
  (size (view (p_cache p)) + length rs ≤ CACHE_SIZE)%nat →
  (∀ e, fst (rte_malloc_ok (E:=E) e) = true) → 0 < hz →
  ∃ stats p', load_rows ((λ kr, main_row (key_str kr.1, kr.2)) <$> rs) now hz x y z p
              = Ok (stats, p')
    ∧ cache_inv F G (p_cache p') ∧ c_hash (p_cache p') ≠ None
    ∧ p_conn p' = p_conn p ∧ db_main (p_db p') = db_main (p_db p)
    ∧ abs (p_cache p')
      = insert_all id row_entry (abs (p_cache p)) (List.filter (live_row now hz) rs).
Proof.
  intros Hi Hh Hnd Hall Hsize Hmem Hhz. revert x y z p Hi Hh Hall Hsize.
  induction rs as [|[k r] rs IH]; intros x y z p Hi Hh Hall Hsize; cbn [fmap list_fmap load_rows].
  { by exists (x, y, z), p. }
  apply NoDup_cons in Hnd as [Hnot Hnd]. apply Forall_cons in Hall as [[Hsav Hk] Hall].
  cbn in Hsize, Hsav, Hk, Hnot.
  destruct (create_node_spec F G p k r now hz Hi Hh ltac:(lia) Hk Hsav Hmem Hhz)
    as (res & p1 & Hrun & Hconn & Hdb & Hi1 & Hh1 & Hcase).
  cbn [fst snd]. erewrite bind_eq by exact Hrun. cbn [List.filter].
  assert (live_row now hz (k, r) = negb (expired now hz (row_entry r))) as Hlr by done.
  rewrite Hlr. destruct (expired now hz (row_entry r)); cbn [negb].
  - destruct Hcase as [-> Hc]. destruct (IH Hnd x (y + 1) z p1)
      as (stats & p2 & Hrun2 & ? & ? & ? & ? & Habs); rewrite ?Hc; try done; [lia|].
    exists stats, p2. rewrite Hc in Habs. split_and!; congruence || done.
  - destruct Hcase as (-> & Habs1 & q & Hview). destruct (IH Hnd (x + 1) y z p1)
      as (stats & p2 & Hrun2 & ? & ? & ? & ? & Habs); try done.
    + rewrite Hview. apply Forall_forall. intros [k' r'] Hin. rewrite Forall_forall in Hall.
      destruct (Hall _ Hin) as [? Hk']. split; [done|]. cbn in *.
      rewrite lookup_insert_ne; [done|]. intros <-. apply Hnot, list_elem_of_fmap.
      by exists (k, r').
    + rewrite Hview, map_size_insert_None by done. lia.
    + exists stats, p2. rewrite insert_all_cons. cbn [id fst snd]. rewrite <- Habs1.
      split_and!; congruence || done.
Qed.

(** The text determines the key. *)
Lemma key_str_inj (e : E) k k' : savable k → savable k' → key_str k = key_str k' → k = k'.
Proof.
  intros Hk Hk' Heq. destruct (text_key_str k e Hk) as (e1 & H1 & _).
  destruct (text_key_str k' e Hk') as (e2 & H2 & _). rewrite Heq in H1. congruence.
Qed.

(** A main table whose texts are those of keys. *)
Definition db_savable (m : gmap (list Z) db_row) : Prop :=
  ∀ t r, m !! t = Some r → ∃ k, savable k ∧ key_str k = t.

Lemma savable_rows (m : gmap (list Z) db_row) trs :
  db_savable m → trs ≡ₚ map_to_list m →
  ∃ rs, trs = (λ kr, (key_str kr.1, kr.2)) <$> rs
    ∧ Forall (λ kr, savable kr.1) rs ∧ NoDup rs.*1 ∧ length rs = size m.
Proof.
  intros Hm Hp.
  assert (∃ rs, trs = (λ kr, (key_str kr.1, kr.2)) <$> rs ∧ Forall (λ kr, savable kr.1) rs)
    as (rs & Heq & Hsav).
  { assert (Forall (λ tr, ∃ k, savable k ∧ key_str k = tr.1) trs) as Hall.
    { rewrite Hp. apply Forall_forall. intros [t r] Hin%elem_of_map_to_list. by apply (Hm t r). }
    clear Hp. induction Hall as [|[t r] trs (k & Hk & Ht) _ (rs & -> & Hrs)].
    - by exists [].
    - exists ((k, r) :: rs). split; [|by constructor]. cbn in *. by rewrite Ht. }
  exists rs. split_and!; [done|done| |].
  - apply (NoDup_fmap_1 key_str). assert (key_str <$> rs.*1 = trs.*1) as ->.
    { rewrite Heq, <- !list_fmap_compose. done. }
    rewrite Hp. apply NoDup_fst_map_to_list.
  - rewrite <- length_map_to_list, <- Hp, Heq. by rewrite length_fmap.
Qed.

(** Loading into an empty table yields exactly the rows that have not expired. *)
(** What the rows of a table of savable keys amount to. *)
Lemma loaded_rows (e1 : E) (m : gmap (list Z) db_row) rs now hz k e :
  Forall (λ kr, savable kr.1) rs → NoDup rs.*1 →
  map_to_list m ≡ₚ (λ kr, (key_str kr.1, kr.2)) <$> rs →
  insert_all id row_entry ∅ (List.filter (live_row now hz) rs) !! k = Some e
  ↔ savable k ∧ expired now hz e = false ∧ ∃ r, m !! key_str k = Some r ∧ row_entry r = e.
Proof.
  intros Hrs Hnd Hp.
  assert (∀ k r, (k, r) ∈ rs ↔ savable k ∧ m !! key_str k = Some r) as Hin.
  { clear k e. intros k r. rewrite <- elem_of_map_to_list, Hp. rewrite list_elem_of_fmap. split.
    - intros Hkr. split; [by rewrite Forall_forall in Hrs; apply (Hrs (k, r))|]. by exists (k, r).
    - intros (Hk & [k' r'] & [= Hkey ->] & Hkr).
      rewrite (key_str_inj e1 k k'); [done|done| |done].
      by rewrite Forall_forall in Hrs; apply (Hrs (k', r')). }
  assert (∀ k r, (k, r) ∈ List.filter (live_row now hz) rs
                 ↔ (k, r) ∈ rs ∧ expired now hz (row_entry r) = false) as Hflt.
  { clear k e. intros k r. rewrite list_elem_of_In, filter_In, <- list_elem_of_In. unfold live_row. cbn.
    by rewrite negb_true_iff. }
  split.
  - intros [(k' & r & Hkr & Hk & Hr)|He]%insert_all_Some; [|by rewrite lookup_empty in He].
    cbn in Hk. subst k'. apply Hflt in Hkr as [[? ?]%Hin Hexp]. rewrite <- Hr.
    split_and!; try done. by exists r.
  - intros (Hk & Hexp & r & Hr & <-). apply (insert_all_in id row_entry ∅ _ k r).
    + eapply sublist_NoDup; [exact Hnd|]. rewrite (list_fmap_compose fst id), list_fmap_id.
      clear. induction rs as [|kr rs IH]; cbn; [constructor|].
      destruct (live_row now hz kr); by constructor.
    + apply Hflt. by rewrite Hin.
Qed.

Lemma load_cache_spec F G p :
  cache_inv F G (p_cache p) → c_hash (p_cache p) ≠ None → view (p_cache p) = ∅ →
  p_conn p = true → db_savable (db_main (p_db p)) →
  (size (db_main (p_db p)) ≤ CACHE_SIZE)%nat → (∀ e, fst (rte_malloc_ok (E:=E) e) = true) →
  let now := fst (rte_get_timer_cycles (p_env p)) in
  let hz := rte_get_timer_hz (p_env p) in
  ∃ stats p', load_cache p = Ok (Some stats, p')
    ∧ cache_inv F G (p_cache p')
    ∧ ∀ k e, abs (p_cache p') !! k = Some e
        ↔ savable k ∧ expired now hz e = false
          ∧ ∃ r, db_main (p_db p) !! key_str k = Some r ∧ row_entry r = e.
Proof.
  intros Hi Hh Hview Hconn Hsav Hsize Hmem. cbv zeta. set (hz := rte_get_timer_hz (p_env p)).
  unfold load_cache.
  unfold bind at 1, gets at 1. unfold bind at 1, gets at 1. rewrite Hconn.
  destruct (c_hash (p_cache p)) as [h|] eqn:Eh; [|done]. cbn [negb].
  pose proof (timer_hz_cycles (p_env p)) as Hhz. pose proof (timer_hz_range (p_env p)) as Hpos.
  unfold bind at 1, on_cache at 1, zoom, timer_cycles.
  destruct (rte_get_timer_cycles (p_env p)) as [now' e1] eqn:Et. cbn in Hhz.
  cbn [fst].
  unfold bind at 1, on_cache at 1, zoom, timer_hz. cbn [p_env with_cache fst snd]. rewrite Hhz.
  fold hz. set (p1 := with_cache (e1, p_cache p) p).
  change (with_cache _ p1) with p1.
  destruct (prepare_spec (q_select_main t_sql) p1) as (d1 & Hprep & Hm1 & _).
  erewrite bind_eq by exact Hprep. cbn [negb Z.eqb SQLITE_OK].
  pose proof (rows_main d1) as Hrows.
  destruct (sqlite3_rows d1 (q_select_main t_sql) []) as [rows d2] eqn:Er.
  destruct Hrows as (Hrows & Hm2 & _). erewrite bind_on_db by exact Er.
  rewrite Hm1 in Hrows. cbn in Hrows.
  apply (Permutation_map_inv main_row) in Hrows as (trs & -> & Hp).
  destruct (savable_rows _ trs Hsav (Permutation_sym Hp)) as (rs & -> & Hrs & Hnd & Hlen).
  destruct (load_rows_spec F G rs now' hz 0 0 0 (with_db d2 (with_db d1 p1)))
    as (stats & p' & Hrun & Hi' & Hh' & _ & _ & Habs); try done.
  { cbn. by rewrite Eh. }
  { apply (Forall_impl _ _ _ Hrs). intros kr Hkr. split; [done|]. cbn. by rewrite Hview. }
  { cbn. rewrite Hview, map_size_empty. lia. }
  { lia. }
  rewrite <- list_fmap_compose. erewrite bind_eq by exact Hrun.
  exists stats, p'. split; [done|]. split; [done|].
  assert (abs (p_cache p) = ∅) as Habs0.
  { apply map_eq. intros k. by rewrite abs_lookup, Hview, !lookup_empty. }
  cbn in Habs. rewrite Habs0 in Habs.
  intros k e. rewrite Habs. by apply (loaded_rows e1).
Qed.

(** ** Theorems *)

(** Every decision of the cache can be written and read back. *)
Definition savable_cache (c : cache K N) : Prop :=
  ∀ k q n, view c !! k = Some q → c_nodes c !! q = Some n → savable k ∧ savable_node n.

Lemma savable_entries F G c h :
  cache_inv F G c → c_hash c = Some h → savable_cache c →
  Forall savable_entry (node_entries c (rte_hash_iterate h)).
Proof.
  intros Hi Hh Hsav. destruct (iterate_entries F G c h Hi Hh) as (_ & _ & _ & Hin).
  apply Forall_forall. intros [k n] (q & Hk & Hn)%Hin. by apply (Hsav k q n).
Qed.

Lemma node_entries_keys c l :
  Forall (λ kp, is_Some (c_nodes c !! kp.2)) l → (node_entries c l).*1 = l.*1.
Proof.
  induction 1 as [|[k q] l [n Hn] _ IH]; [done|].
  rewrite (node_entries_cons c k q n) by done. cbn. by rewrite IH.
Qed.

(** What saving into an empty database leaves there. *)
Lemma saved_rows F G (e0 : E) c h :
  cache_inv F G c → c_hash c = Some h → savable_cache c →
  let m := insert_all key_str row_of (∅ : gmap (list Z) db_row)
             (node_entries c (rte_hash_iterate h)) in
  db_savable m ∧ (size m ≤ size (view c))%nat
  ∧ ∀ k e, (abs c !! k = Some e ↔ savable k ∧ ∃ r, m !! key_str k = Some r ∧ row_entry r = e).
Proof.
  intros Hi Hh Hsav m. destruct (iterate_entries F G c h Hi Hh) as (Hall & Hlen & Hnd & Hin).
  pose proof (savable_entries F G c h Hi Hh Hsav) as Hent. rewrite Forall_forall in Hent.
  set (l := node_entries c (rte_hash_iterate h)) in *.
  assert (NoDup (key_str ∘ fst <$> l)) as Hnd'.
  { rewrite list_fmap_compose. apply NoDup_fmap_2_strong.
    - intros k k' ([k1 n1] & -> & H1)%list_elem_of_fmap ([k2 n2] & -> & H2)%list_elem_of_fmap.
      apply (key_str_inj e0); [apply (Hent _ H1)|apply (Hent _ H2)].
    - unfold l. by rewrite node_entries_keys. }
  assert (∀ t r, m !! t = Some r → ∃ k n, (k, n) ∈ l ∧ key_str k = t ∧ row_of n = r) as Hm.
  { intros t r [?|He]%insert_all_Some; [done|by rewrite lookup_empty in He]. }
  split_and!.
  - intros t r (k & n & Hkn & Hk & _)%Hm. exists k. split; [apply (Hent _ Hkn)|done].
  - rewrite <- Hlen, <- (node_entries_length c) by done. fold l.
    transitivity (length (key_str ∘ fst <$> l)); [|by rewrite length_fmap].
    rewrite <- (size_dom (D:=gset (list Z))), <- (size_list_to_set (C:=gset (list Z))) by done.
    apply subseteq_size. intros t [r Hr]%elem_of_dom. apply elem_of_list_to_set.
    apply Hm in Hr as (k & n & Hkn & <- & _). apply list_elem_of_fmap. by exists (k, n).
  - intros k e. rewrite abs_lookup. split.
    + destruct (view c !! k) as [q|] eqn:Ek; [|done]. cbn.
      destruct (c_nodes c !! q) as [n|] eqn:En; [|done]. intros [= <-].
      destruct (Hsav k q n Ek En) as [Hk Hn]. split; [done|]. exists (row_of n).
      split; [|by apply row_entry_of]. apply (insert_all_in key_str row_of ∅ l k n); [done|].
      apply Hin. by exists q.
    + intros (Hk & r & Hr & <-). apply Hm in Hr as (k' & n & Hkn & Hkey & <-).
      destruct (Hent _ Hkn) as [Hk' Hn']. assert (k' = k) as -> by (by apply (key_str_inj e0)).
      apply Hin in Hkn as (q & -> & Hn). cbn. rewrite Hn. cbn. f_equal. symmetry.
      by apply row_entry_of.
Qed.

(** A started process: a table with nothing in it and an open connection to a
    database with the given main table. *)
Record started (m : gmap (list Z) db_row) p : Prop := {
  st_inv : ∃ F G, cache_inv F G (p_cache p);
  st_table : c_hash (p_cache p) ≠ None;
  st_empty : view (p_cache p) = ∅;
  st_conn : p_conn p = true;
  st_db : db_main (p_db p) = m
}.

(** A running process whose cache can be saved. *)
Record saving p : Prop := {
  sv_inv : ∃ F G, cache_inv F G (p_cache p);
  sv_table : c_hash (p_cache p) ≠ None;
  sv_size : (size (view (p_cache p)) ≤ CACHE_SIZE)%nat;
  sv_conn : p_conn p = true;
  sv_savable : savable_cache (p_cache p)
}.

Lemma save_saving p :
  saving p → fst (malloc_ok (p_env p)) = true →
  ∃ stats e d l, save_all_cache p = Ok (Some stats, with_db d (with_env e p))
    ∧ db_main d = insert_all key_str row_of (db_main (p_db p)) l
    ∧ (view (p_cache p) = ∅ → l = [])
    ∧ (db_main (p_db p) = ∅ → db_savable (db_main d) ∧ (size (db_main d) ≤ CACHE_SIZE)%nat
       ∧ ∀ k en, abs (p_cache p) !! k = Some en
           ↔ savable k ∧ ∃ r, db_main d !! key_str k = Some r ∧ row_entry r = en).
Proof.
  intros [(F & G & Hi) Hh Hsize Hconn Hsav] Hm.
  destruct (c_hash (p_cache p)) as [h|] eqn:Eh; [|done].
  destruct (save_all_spec key_str F G p h Hi Eh Hconn Hsize Hm) as (stats & e & d & Hrun & Hd).
  { eapply Forall_impl; [by apply (savable_entries F G)|]. apply savable_writable. }
  exists stats, e, d, (node_entries (p_cache p) (rte_hash_iterate h)). split_and!; try done.
  - intros Hv. destruct (iterate_entries F G _ h Hi Eh) as (Hall & Hlen & _ & _).
    rewrite Hv, map_size_empty in Hlen. by apply nil_length_inv in Hlen as ->.
  - intros Hempty. rewrite Hempty in Hd.
    destruct (saved_rows F G (p_env p) _ h Hi Eh Hsav) as (Hdb & Hsz & Habs).
    rewrite <- Hd in Hdb, Hsz, Habs. split_and!; [done|lia|done].
Qed.

(** Restarting on a database loads its rows that have not expired. *)
Lemma load_started m p :
  started m p → db_savable m → (size m ≤ CACHE_SIZE)%nat →
  (∀ e, fst (rte_malloc_ok (E:=E) e) = true) →
  ∃ stats p', load_cache p = Ok (Some stats, p')
    ∧ (∃ F G, cache_inv F G (p_cache p'))
    ∧ ∀ k en, abs (p_cache p') !! k = Some en
        ↔ savable k ∧ expired (fst (rte_get_timer_cycles (p_env p)))
                        (rte_get_timer_hz (p_env p)) en = false
          ∧ ∃ r, m !! key_str k = Some r ∧ row_entry r = en.
Proof.
  intros [(F & G & Hi) Hh Hv Hc <-] Hsav Hsize Hmem.
  destruct (load_cache_spec F G p Hi Hh Hv Hc Hsav Hsize Hmem) as (stats & p' & Hrun & Hi' & Habs).
  exists stats, p'. split_and!; eauto.
Qed.

(** C11: round trip of a cache in memory that fits its table and whose entries can
    be saved without loss ([saving]: the connection is open; every key of the
    domain cache is a null-padded name, every key of the IP cache an IPv6
    address, for [ip4_loaded_key_uninitialised] shows that an IPv4 key is not
    restored; every row of categories is a string and the numbers are in range),
    as long as memory lasts and every call of SQLite succeeds ([SqliteUp]): saving
    it to an empty database and loading it in a restarted process restores
    exactly the decisions that have not expired by then, with their timestamps
    and lifetimes; the casts through SQLite's signed columns and the texts of the
    keys lose nothing. *)
Theorem save_load_roundtrip p :
  saving p → db_main (p_db p) = ∅ → fst (malloc_ok (p_env p)) = true →
  (∀ e, fst (rte_malloc_ok (E:=E) e) = true) →
  ∃ stats p', save_all_cache p = Ok (Some stats, p')
    ∧ ∀ p2, started (db_main (p_db p')) p2 →
      ∃ stats2 p3, load_cache p2 = Ok (Some stats2, p3)
        ∧ (∃ F G, cache_inv F G (p_cache p3))
        ∧ ∀ k en, abs (p_cache p3) !! k = Some en
            ↔ abs (p_cache p) !! k = Some en
              ∧ expired (fst (rte_get_timer_cycles (p_env p2)))
                  (rte_get_timer_hz (p_env p2)) en = false.
Proof.
  intros Hsv Hempty Hm Hmem.
  destruct (save_saving p Hsv Hm) as (stats & e & d & l & Hrun & _ & _ & Hd).
  destruct (Hd Hempty) as (Hdb & Hsize & Habs). eexists _, _. split; [exact Hrun|].
  intros p2 Hst. cbn in Hst.
  destruct (load_started _ p2 Hst Hdb Hsize Hmem) as (stats2 & p3 & Hload & Hinv & Habs3).
  exists stats2, p3. split_and!; [done|done|]. intros k en. rewrite Habs3, Habs. naive_solver.
Qed.

(** C38: decisions cleared by a policy update come back: clearing the cache does
    not delete rows, and saving the cleared cache does not either, so a restart
    within the lifetime of a decision made under the old policy loads it
    again. *)
Theorem cleared_decisions_return p k en :
  saving p → db_main (p_db p) = ∅ → (∀ e, fst (malloc_ok (E:=E) e) = true) →
  (∀ e, fst (rte_malloc_ok (E:=E) e) = true) → abs (p_cache p) !! k = Some en →
  ∃ stats p1 p2 stats3 p3, save_all_cache p = Ok (Some stats, p1)
    ∧ on_cache cache_clear p1 = Ok (tt, p2) ∧ abs (p_cache p2) = ∅
    ∧ save_all_cache p2 = Ok (Some stats3, p3)
    ∧ ∀ p4, started (db_main (p_db p3)) p4 →
        expired (fst (rte_get_timer_cycles (p_env p4))) (rte_get_timer_hz (p_env p4)) en = false →
        ∃ stats5 p5, load_cache p4 = Ok (Some stats5, p5) ∧ abs (p_cache p5) !! k = Some en.
Proof.
  intros Hsv Hempty Hm Hmem Hk.
  destruct (save_saving p Hsv (Hm _)) as (stats & e & d & l & Hrun & _ & _ & Hd).
  destruct (Hd Hempty) as (Hdb & Hsize & Habs). set (p1 := with_db d (with_env e p)) in *.
  destruct Hsv as [(F & G & Hi) Hh _ Hc _].
  destruct (cache_clear_spec F G (p_env p1) (p_cache p1) Hi)
    as (c' & F' & G' & Hclear & Hi' & Habs' & Hv' & Hh' & _).
  set (p2 := with_cache (p_env p1, c') p1).
  destruct (save_saving p2) as (stats3 & e3 & d3 & l3 & Hrun3 & Hd3 & Hl3 & _); [|apply Hm|].
  { constructor; [by exists F', G'| |cbn; rewrite Hv', map_size_empty; unfold CACHE_SIZE; lia
                 |done|intros ? ? ? Hn; cbn in Hn; by rewrite Hv' in Hn].
    apply (λ H, keeps_cache_clear (p_env p1, p_cache p1) tt (p_env p1, c') H Hclear). done. }
  cbn in Hd3. rewrite (Hl3 Hv') in Hd3. cbn in Hd3.
  exists stats, p1, p2, stats3, (with_db d3 (with_env e3 p2)).
  split_and!; [done|by apply zoom_eq|done|done|]. cbn. rewrite Hd3. intros p4 Hst Hexp.
  destruct (load_started _ p4 Hst Hdb Hsize Hmem) as (stats5 & p5 & Hload & _ & Habs5).
  exists stats5, p5. split; [done|]. apply Habs5. apply Habs in Hk as [Hsk Hr]. done.
Qed.

(** Other threads have added entries meanwhile. *)
Definition grown (p p2 : pstate) : Prop :=
  (∃ F G, cache_inv F G (p_cache p2)) ∧ c_hash (p_cache p2) ≠ None
  ∧ (size (view (p_cache p)) < size (view (p_cache p2)))%nat.

(** C39: the save thread reads the number of entries before it takes the lock:
    if entries were added in between, copying them writes behind the snapshot
    array it allocated. *)
Theorem save_race_overruns p :
  saving p → fst (malloc_ok (p_env p)) = true →
  ∃ count arr p1, save_begin p = Ok (Some (count, Some arr), p1)
    ∧ p_cache p1 = p_cache p
    ∧ ∀ p2, grown p p2 → save_finish count (Some arr) p2 = Fault OutOfBounds.
Proof.
  intros [(F & G & Hi) Hh Hsize Hconn _] Hm.
  destruct (c_hash (p_cache p)) as [h|] eqn:Eh; [|done].
  destruct (save_begin_spec F G p h Hi Eh Hconn Hsize Hm) as (e & Hrun).
  eexists _, _, _. split; [exact Hrun|]. split; [done|].
  intros p2 ((F' & G' & Hi') & Hh' & Hlt). by apply (save_finish_overrun F' G').
Qed.

End saving.
