(* ===== verification/DomainCache.v ===== *)
(** * domain_cache.c: the cache of decisions on domain names

    The operations of the generic cache ([Cache.v]) at the key type and node
    struct of [src/worker/src/dpdk_filter/domain_cache.c].  Keys are the 260 bytes of a
    [char domain[DOMAIN_MAX_LEN]]; a stored key is the copy [strncpy] makes of
    it. *)

From Stdlib Require Import ZArith Lia.
From stdpp Require Import prelude gmap strings.
From S2P Require Import Prelude CMem Types Hash Sqlite Cache Persist PersistSpec.

Local Open Scope Z_scope.

Definition domain_key := list Z.

#[global] Instance node_domain_fields : CacheNode node_cache_domain := {|
  n_send := nd_solution_is_send;
  n_timestamp := nd_timestamp;
  n_ttl := nd_ttl_seconds;
  n_key := nd_key_domain;
  n_stamp t l n := NodeCacheDomain (nd_categories n) (nd_solution_is_send n) (nd_trust_lvl n)
    t l (nd_ip n) (nd_ip4_src n) (nd_ip6_src n) (nd_key_domain n);
  n_set_key q n := NodeCacheDomain (nd_categories n) (nd_solution_is_send n) (nd_trust_lvl n)
    (nd_timestamp n) (nd_ttl_seconds n) (nd_ip n) (nd_ip4_src n) (nd_ip6_src n) (Some q)
|}.

#[global] Instance node_domain_fields_ok : CacheNodeOk node_cache_domain.
Proof. by constructor. Qed.

(** [strncpy(key_copy, domain, DOMAIN_MAX_LEN); key_copy[DOMAIN_MAX_LEN - 1] = 0]. *)
Definition copy_domain (domain : list Z) : res domain_key :=
  let* bs := strncpy_bytes domain DOMAIN_MAX_LEN in
  array_set bs (DOMAIN_MAX_LEN - 1) 0.

(** *** The database of the domain cache *)

Definition dns_create_main : string := "CREATE TABLE IF NOT EXISTS main_table(domain TEXT PRIMARY KEY, solution_is_send INT NOT NULL, trust_lvl INT NOT NULL, timestamp INT NOT NULL, ttl_seconds INT NOT NULL)".
Definition dns_create_categories : string := "CREATE TABLE IF NOT EXISTS categories_table(domain TEXT NOT NULL, certain_category TEXT NOT NULL, PRIMARY KEY (domain, certain_category), FOREIGN KEY (domain) REFERENCES main_table(domain))".
Definition dns_select_main : string := "SELECT domain, solution_is_send, trust_lvl, timestamp, ttl_seconds FROM main_table;".
Definition dns_select_categories : string := "SELECT certain_category FROM categories_table WHERE domain = ?;".
Definition dns_insert_main : string := "INSERT OR REPLACE INTO main_table (domain, solution_is_send, trust_lvl, timestamp, ttl_seconds) VALUES (?, ?, ?, ?, ?)".
Definition dns_delete_categories : string := "DELETE FROM categories_table WHERE domain = ?".
Definition dns_insert_category : string := "INSERT INTO categories_table (domain, certain_category) VALUES (?, ?)".

Definition dns_sql : cache_sql := {|
  q_file := "cache.db";
  q_create_main := dns_create_main;
  q_create_categories := dns_create_categories;
  q_select_main := dns_select_main;
  q_select_categories := dns_select_categories;
  q_insert_main := dns_insert_main;
  q_delete_categories := dns_delete_categories;
  q_insert_category := dns_insert_category
|}.

(** The text bound when saving is the snapshot's copy of the key:
    [strncpy(snapt[i].domain, key, DOMAIN_MAX_LEN - 1)] and a null. *)
Definition snapshot_text (key : domain_key) : res (list Z) :=
  let* bs := strncpy_bytes key (DOMAIN_MAX_LEN - 1) in Ok (bs ++ [0]).

#[global] Instance dns_table E : CacheTable E domain_key node_cache_domain := {|
  t_sql := dns_sql;
  n_categories := nd_categories;
  n_set_categories cats n := NodeCacheDomain cats (nd_solution_is_send n) (nd_trust_lvl n)
    (nd_timestamp n) (nd_ttl_seconds n) (nd_ip n) (nd_ip4_src n) (nd_ip6_src n) (nd_key_domain n);
  n_trust := nd_trust_lvl;
  n_load send trust t l n := NodeCacheDomain (nd_categories n) send trust t l (nd_ip n)
    (nd_ip4_src n) (nd_ip6_src n) (nd_key_domain n);
  null_category row := Ok row;
  key_text := snapshot_text;
  text_key text := λ e,
    Ok (Some (match text with Some b => copy_domain b | None => Fault BadPointer end), e)
|}.

Section domain_cache.
Context {E : Type} {H : RteHash domain_key} {HE : RteEnv E}.

#[local] Abbreviation St := (E * cache domain_key node_cache_domain)%type.

Definition lookup_dns_cache (domain : domain_key) : M St (Z * option ptr) :=
  cache_lookup domain.

Definition add_to_dns_cache (domain : list Z) (node : ptr) (ttl_dns : Z) : M St unit :=
  cache_add (copy_domain domain) node ttl_dns.

Definition insert_loaded_node_domain (domain : list Z) (node : ptr) : M St Z :=
  cache_insert_loaded (copy_domain domain) node.

Definition clear_dns_cache : M St unit := cache_clear.

(** [rte_calloc] of a node with the decision, then [add_to_dns_cache], as
    [pakage_processing] does. *)
Definition new_domain_node (solution_is_send : bool) : node_cache_domain :=
  NodeCacheDomain (nd_categories node_domain_zero) solution_is_send 0 0 0 0 0 (zeros IP6_LEN) None.

Context {D : Type} {HL : LibcEnv E} {HS : Sqlite D} {HU : UninitMem E node_cache_domain}.

#[local] Abbreviation Pt := (pstate E domain_key node_cache_domain D).

Definition load_domain_categories (domain : option (list Z)) (node : ptr) : M Pt Z :=
  load_categories domain node.
Definition create_domain_node_from_db_row (row : list sqlval) (now_cycles hz : Z) :
    M Pt load_result :=
  create_node_from_db_row row now_cycles hz.
Definition load_cache_from_sqlite : M Pt (option (Z * Z * Z)) := load_cache.
Definition close_sqlite_cache : M Pt unit := close_sqlite.
Definition insert_domain_main_record (domain : list Z) (node : node_cache_domain) : M Pt Z :=
  insert_main_record domain node.
Definition delete_domain_categories (domain : list Z) : M Pt Z := delete_categories domain.
Definition insert_domain_categories (domain : list Z) (node : node_cache_domain) : M Pt Z :=
  insert_categories domain node.
Definition save_single_node_to_sqlite (key : domain_key) (node : node_cache_domain) : M Pt Z :=
  save_single_node key node.
Definition save_all_cache_to_sqlite : M Pt (option (Z * Z)) := save_all_cache.
Definition init_tables_sqlite_dns_cache : M Pt unit := init_tables.
Definition init_dns_cache (created : option hash_t) : M Pt unit := init_cache created.
Definition free_dns_cache : M Pt unit := free_cache.

End domain_cache.

(** ** Lemmas *)

(** The keys [strncpy] produces: a string and nothing but nulls after it. *)
Definition canonical (d : domain_key) : Prop :=
  ∃ s, cstr d = Some s ∧ d = pad DOMAIN_MAX_LEN s ∧ (length s < DOMAIN_MAX_LEN)%nat.

(** Copying a terminated domain gives its string, padded. *)
Lemma copy_domain_pad d s :
  cstr d = Some s → (length s < DOMAIN_MAX_LEN)%nat →
  copy_domain d = Ok (pad DOMAIN_MAX_LEN s).
Proof.
  intros Hs Hlen. unfold copy_domain.
  rewrite (strncpy_bytes_fits d s) by (done || lia). cbn [rbind].
  change (s ++ zeros (DOMAIN_MAX_LEN - length s)) with (pad DOMAIN_MAX_LEN s).
  apply array_set_Ok. split; [rewrite pad_length; unfold DOMAIN_MAX_LEN in *; lia|].
  symmetry. apply list_insert_id. unfold pad.
  rewrite lookup_app_r by lia. apply lookup_replicate. split; [done|lia].
Qed.

Lemma copy_domain_canonical d : canonical d → copy_domain d = Ok d.
Proof. intros (s & Hs & Hd & Hlen). rewrite (copy_domain_pad d s) by done. by f_equal. Qed.

Lemma pad_canonical s :
  Forall (λ x, x ≠ 0) s → (length s < DOMAIN_MAX_LEN)%nat → canonical (pad DOMAIN_MAX_LEN s).
Proof. intros Hs Hlen. exists s. by rewrite pad_cstr. Qed.

Lemma terminated_cstr_length d s : cstr d = Some s → (length s < length d)%nat.
Proof. intros [r ->]%cstr_split. rewrite length_app. cbn. lia. Qed.

(** The texts of canonical keys determine them. *)
#[global] Instance dns_table_ok E {HE : RteEnv E} :
  CacheTableOk E domain_key node_cache_domain.
Proof.
  refine {| savable := canonical; key_str k := default [] (cstr k) |}; try done.
  - intros k (s & Hs & _ & Hlen). rewrite Hs. cbn. unfold snapshot_text.
    rewrite (strncpy_bytes_fits k s) by (done || (unfold DOMAIN_MAX_LEN in *; lia)).
    eexists. split; [done|]. rewrite <- app_assoc.
    pose proof (cstr_no_null _ _ Hs) as Hnn.
    assert (zeros (DOMAIN_MAX_LEN - 1 - length s) ++ [0] = 0 :: zeros (DOMAIN_MAX_LEN - 1 - length s))
      as -> by (unfold zeros; by rewrite replicate_cons_app).
    by apply cstr_app.
  - intros k e (s & Hs & Hk & Hlen). rewrite Hs. cbn. exists e. split; [|done]. do 3 f_equal.
    rewrite (copy_domain_pad _ s); [by f_equal| |done].
    apply cstr_c_str. by eapply cstr_no_null.
Defined.

(** A domain with bytes behind its null is copied to another key. *)
Lemma copy_domain_changes d s :
  length d = DOMAIN_MAX_LEN → cstr d = Some s → d ≠ pad DOMAIN_MAX_LEN s →
  ∃ k, copy_domain d = Ok k ∧ k ≠ d ∧ canonical k.
Proof.
  intros Hd Hs Hne. pose proof (terminated_cstr_length d s Hs).
  exists (pad DOMAIN_MAX_LEN s). split; [apply copy_domain_pad; [done|lia]|].
  split; [done|]. apply pad_canonical; [by eapply cstr_no_null|lia].
Qed.

(** ** Properties *)

Section properties.
Context {E : Type} {HH : RteHash domain_key} {HO : RteHashOk domain_key HH}.
Context {HE : RteEnv E} {HEO : RteEnvOk E}.
Implicit Types (c : cache domain_key node_cache_domain) (e : E).

(** Every key in the table is a [strncpy] copy. *)
Definition keys_canonical c : Prop := ∀ k p, view c !! k = Some p → canonical k.

(** A raw domain that is not such a copy is never found. *)
Lemma lookup_not_canonical F G e c d :
  cache_inv F G c → keys_canonical c → c_hash c ≠ None → ¬ canonical d →
  ∃ e', lookup_dns_cache d (e, c) = Ok ((- ENOENT, None), (e', c)).
Proof.
  intros Hi Hcan Hh Hd. destruct (cache_lookup_spec F G e c d Hi)
    as (r & o & e' & c' & now & Hrun & _ & Hout & _).
  unfold lookup_outcome in Hout. destruct (view c !! d) as [p|] eqn:Ed.
  - by apply Hcan in Ed.
  - destruct Hout as (_ & Hr & -> & ->). rewrite (Hr Hh) in Hrun. by exists e'.
Qed.

(** C17: a decision added for a domain (whose 260 bytes are a string and nulls
    after it) with memory and room available is what later lookups of the
    same 260 bytes answer, at any later clock reading, until
    [(now - timestamp) / hz] reaches the time-to-live; from then on the lookup
    answers [-ENOENT] and forgets the entry. *)
Theorem dns_cache_hit_after_add F G e c d p n ttl :
  canonical d → cache_inv F G c → p ∈ F → c_nodes c !! p = Some n →
  fst (rte_malloc_ok e) = true → c_hash c ≠ None → (size (view c) < CACHE_SIZE)%nat →
  let stored := Entry (nd_solution_is_send n)
                  (fst (rte_get_timer_cycles (snd (rte_malloc_ok e)))) (u32 ttl) in
  ∃ e' c', add_to_dns_cache d p ttl (e, c) = Ok (tt, (e', c'))
    ∧ (∃ F' G', cache_inv F' G' c')
    ∧ abs c' = <[d := stored]> (abs c)
    ∧ ∀ e2, ∃ r o e3 c3, lookup_dns_cache d (e2, c') = Ok ((r, o), (e3, c3))
        ∧ if expired (fst (rte_get_timer_cycles e2)) (rte_get_timer_hz e2) stored
          then r = - ENOENT ∧ o = None ∧ abs c3 !! d = None
          else 0 ≤ r ∧ c3 = c' ∧ ∃ q n', o = Some q ∧ c_nodes c3 !! q = Some n'
               ∧ entry_of n' = stored.
Proof.
  intros Hd Hi Hp Hn Hm Hh Hroom. unfold add_to_dns_cache.
  rewrite (copy_domain_canonical d Hd). exact (cache_add_then_lookup F G e c d p n ttl Hi Hp Hn Hm Hh Hroom).
Qed.

(** C37: a domain with bytes behind its first null (a DNS label may contain a
    null byte) is stored under another key than the 260 bytes it is looked up
    with: the lookup always misses, and storing the decision again replaces
    the earlier entry of the same string without freeing it, so that the
    earlier node stays allocated and unreachable. *)
Theorem dns_cache_embedded_null_leaks G e c d s p p0 n ttl :
  cache_inv {[p]} G c → keys_canonical c → c_hash c ≠ None →
  length d = DOMAIN_MAX_LEN → cstr d = Some s → d ≠ pad DOMAIN_MAX_LEN s →
  c_nodes c !! p = Some n → view c !! pad DOMAIN_MAX_LEN s = Some p0 →
  fst (rte_malloc_ok e) = true → (size (view c) < CACHE_SIZE)%nat →
  (∃ e', lookup_dns_cache d (e, c) = Ok ((- ENOENT, None), (e', c)))
  ∧ ∃ e' c', add_to_dns_cache d p ttl (e, c) = Ok (tt, (e', c'))
      ∧ is_Some (c_nodes c' !! p0) ∧ (∀ k, view c' !! k ≠ Some p0)
      ∧ ∃ e3, lookup_dns_cache d (e', c') = Ok ((- ENOENT, None), (e3, c')).
Proof.
  intros Hi Hcan Hh Hlen Hs Hne Hn Hp0 Hm Hroom.
  assert (¬ canonical d) as Hd.
  { intros (s' & Hs' & Heq & _). by simplify_eq. }
  split; [by apply (lookup_not_canonical {[p]} G)|].
  pose proof (terminated_cstr_length d s Hs) as Hsl. rewrite Hlen in Hsl.
  set (k := pad DOMAIN_MAX_LEN s) in *. assert (p0 ≠ p) as Hpp.
  { intros ->. destruct (inv_float _ _ _ Hi p) as [_ Hf]; [set_solver|by eapply Hf]. }
  destruct (cache_add_spec {[p]} G e c k p n ttl Hi ltac:(set_solver) Hn)
    as (e' & c' & F' & G' & Hrun & Hi' & _ & _ & Hroomed).
  destruct (Hroomed Hm Hh Hroom) as (_ & Hv & Hh' & Hothers).
  unfold add_to_dns_cache. rewrite (copy_domain_pad d s) by done.
  exists e', c'. split; [done|]. split_and!.
  - rewrite Hothers by done. destruct (inv_entry _ _ _ Hi _ _ Hp0) as (n0 & ? & -> & _). eauto.
  - intros k'. rewrite Hv. intros [[_ ?]|[Hk' Hv']]%lookup_insert_Some; [done|].
    apply Hk', (view_inj _ _ _ _ _ _ Hi Hp0 Hv').
  - apply (lookup_not_canonical F' G'); [done| |done|done].
    intros k' p'. rewrite Hv. intros [[<- _]|[_ Hv']]%lookup_insert_Some; [|by eapply Hcan].
    apply pad_canonical; [by eapply cstr_no_null|done].
Qed.

End properties.

(** ** Witnesses at a concrete table and environment *)

Definition sample_env : test_env := TestEnv 5000 1000 [].
Definition sample_key : domain_key := pad DOMAIN_MAX_LEN (bytes_of_string "example.com").
Definition stored_node : node_cache_domain :=
  NodeCacheDomain (nd_categories node_domain_zero) true 0 4000 60 0 0 (zeros IP6_LEN) (Some 1%positive).
Definition empty_domain_cache : cache domain_key node_cache_domain := Cache (Some ∅) ∅ ∅ false.
Definition sample_domain_cache : cache domain_key node_cache_domain :=
  Cache (Some {[sample_key := 1%positive]}) {[1%positive := stored_node]}
        {[1%positive := sample_key]} false.

Lemma empty_domain_cache_inv : cache_inv ∅ ∅ empty_domain_cache.
Proof. by apply cache_inv_created. Qed.

Lemma sample_domain_cache_inv : cache_inv ∅ ∅ sample_domain_cache.
Proof. by apply cache_inv_single. Qed.

Lemma sample_key_canonical : canonical sample_key.
Proof.
  apply pad_canonical; [|unfold DOMAIN_MAX_LEN; cbn; lia].
  refine (bool_decide_unpack _ _). vm_compute. exact I.
Qed.

Definition sample_calls : list (call domain_key node_cache_domain) :=
  [CInsert sample_key (new_domain_node true) 60; CLookup sample_key; CClear; CLookup sample_key].

Lemma cache_refines_ttl_map_witness :
  cache_inv ∅ ∅ empty_domain_cache ∧ c_hash empty_domain_cache ≠ None
  ∧ fst (aruns sample_calls (sample_env, abs empty_domain_cache)) = [None; Some true; None; None]
  ∧ ∃ rs e' c', exec_all sample_calls (sample_env, empty_domain_cache) = Ok (rs, (e', c'))
      ∧ (∃ F' G', cache_inv F' G' c') ∧ c_hash c' ≠ None
      ∧ aruns sample_calls (sample_env, abs empty_domain_cache) = (rs, (e', abs c')).
Proof.
  split; [apply empty_domain_cache_inv|]. split; [done|]. split; [vm_compute; reflexivity|].
  by apply (cache_refines_ttl_map ∅ ∅ sample_env empty_domain_cache); [apply empty_domain_cache_inv|].
Defined.

Lemma cache_free_releases_all_witness :
  cache_inv ∅ ∅ sample_domain_cache ∧ c_hash sample_domain_cache ≠ None
  ∧ ∃ c', cache_free (sample_env, sample_domain_cache) = Ok (tt, (sample_env, c'))
    ∧ c_hash c' = None ∧ c_nodes c' = ∅ ∧ c_keys c' = ∅ ∧ c_lock c' = false.
Proof.
  split; [apply sample_domain_cache_inv|]. split; [done|].
  by apply (cache_free_releases_all sample_env sample_domain_cache);
    [apply sample_domain_cache_inv|].
Defined.

Lemma cache_clear_leaks_witness :
  view sample_domain_cache ≠ ∅
  ∧ ∃ c', cache_clear (sample_env, sample_domain_cache) = Ok (tt, (sample_env, c'))
    ∧ view c' = ∅ ∧ c_nodes c' = c_nodes sample_domain_cache
    ∧ c_keys c' = c_keys sample_domain_cache ∧ ¬ cache_inv ∅ ∅ c'.
Proof.
  assert (view sample_domain_cache ≠ ∅) as Hv.
  { change (view sample_domain_cache) with ({[sample_key := 1%positive]} : gmap domain_key ptr).
    apply map_non_empty_singleton. }
  split; [exact Hv|].
  by apply (cache_clear_leaks sample_env sample_domain_cache);
    [apply sample_domain_cache_inv|].
Defined.

(** The caches of the witnesses with one more node, not yet added. *)
Definition floating_cache (c : cache domain_key node_cache_domain) :=
  with_nodes (<[2%positive := new_domain_node true]> (c_nodes c)) c.

Lemma floating_empty_inv : cache_inv {[2%positive]} ∅ (floating_cache empty_domain_cache).
Proof.
  rewrite <- (union_empty_r_L {[2%positive]}).
  apply add_float_inv; [apply empty_domain_cache_inv|done].
Qed.

Lemma floating_sample_inv : cache_inv {[2%positive]} ∅ (floating_cache sample_domain_cache).
Proof.
  rewrite <- (union_empty_r_L {[2%positive]}).
  apply add_float_inv; [apply sample_domain_cache_inv|done].
Qed.

Lemma dns_cache_hit_after_add_witness :
  let stored := Entry (nd_solution_is_send (new_domain_node true))
                  (fst (rte_get_timer_cycles (snd (rte_malloc_ok sample_env)))) (u32 60) in
  ∃ e' c', add_to_dns_cache sample_key 2%positive 60
             (sample_env, floating_cache empty_domain_cache) = Ok (tt, (e', c'))
    ∧ (∃ F' G', cache_inv F' G' c')
    ∧ abs c' = <[sample_key := stored]> (abs (floating_cache empty_domain_cache))
    ∧ ∀ e2, ∃ r o e3 c3, lookup_dns_cache sample_key (e2, c') = Ok ((r, o), (e3, c3))
        ∧ if expired (fst (rte_get_timer_cycles e2)) (rte_get_timer_hz e2) stored
          then r = - ENOENT ∧ o = None ∧ abs c3 !! sample_key = None
          else 0 ≤ r ∧ c3 = c' ∧ ∃ q n', o = Some q ∧ c_nodes c3 !! q = Some n'
               ∧ entry_of n' = stored.
Proof.
  refine (dns_cache_hit_after_add {[2%positive]} ∅ sample_env
           (floating_cache empty_domain_cache) sample_key 2%positive (new_domain_node true) 60
           _ _ _ _ _ _ _).
  - apply sample_key_canonical.
  - apply floating_empty_inv.
  - set_solver.
  - done.
  - done.
  - done.
  - change (view (floating_cache empty_domain_cache)) with (∅ : gmap domain_key ptr).
    rewrite map_size_empty. unfold CACHE_SIZE. lia.
Defined.

(** The name [example.com] followed by a null and the letter [x]. *)
Definition null_name : list Z := bytes_of_string "example.com" ++ 0 :: 120 :: zeros 247.

Lemma dns_cache_embedded_null_leaks_witness :
  (∃ e', lookup_dns_cache null_name (sample_env, floating_cache sample_domain_cache)
         = Ok ((- ENOENT, None), (e', floating_cache sample_domain_cache)))
  ∧ ∃ e' c', add_to_dns_cache null_name 2%positive 60
               (sample_env, floating_cache sample_domain_cache) = Ok (tt, (e', c'))
      ∧ is_Some (c_nodes c' !! 1%positive) ∧ (∀ k, view c' !! k ≠ Some 1%positive)
      ∧ ∃ e3, lookup_dns_cache null_name (e', c') = Ok ((- ENOENT, None), (e3, c')).
Proof.
  apply (dns_cache_embedded_null_leaks ∅ sample_env (floating_cache sample_domain_cache)
           null_name (bytes_of_string "example.com") 2%positive 1%positive (new_domain_node true) 60).
  - apply floating_sample_inv.
  - intros k p. change (view (floating_cache sample_domain_cache))
      with ({[sample_key := 1%positive]} : gmap domain_key ptr).
    intros [<- _]%lookup_singleton_Some. apply sample_key_canonical.
  - done.
  - done.
  - vm_compute. done.
  - refine (bool_decide_unpack _ _). vm_compute. exact I.
  - done.
  - change (view (floating_cache sample_domain_cache))
      with ({[sample_key := 1%positive]} : gmap domain_key ptr).
    apply lookup_singleton_eq.
  - done.
  - change (view (floating_cache sample_domain_cache))
      with ({[sample_key := 1%positive]} : gmap domain_key ptr).
    rewrite map_size_singleton. unfold CACHE_SIZE. lia.
Defined.
