(* ===== verification/IpCache.v ===== *)
(** * ip_cache.c: the cache of decisions on destination addresses

    The operations of the generic cache ([Cache.v]) at the key type and node
    struct of [src/worker/src/dpdk_filter/ip_cache.c].  A key is a [struct ip_key]: the
    version and the 16 bytes of the address union, all of which the hash table
    compares ([IP_MAX_LEN] is the size of the struct). *)

From Stdlib Require Import ZArith Lia.
From stdpp Require Import prelude gmap strings.
From S2P Require Import Prelude CMem Types Hash Sqlite Cache Persist PersistSpec.

Local Open Scope Z_scope.

#[global] Instance node_ip_fields : CacheNode node_cache_ip := {|
  n_send := ni_solution_is_send;
  n_timestamp := ni_timestamp;
  n_ttl := ni_ttl_seconds;
  n_key := ni_key;
  n_stamp t l n := NodeCacheIp (ni_categories n) (ni_solution_is_send n) (ni_trust_lvl n)
    t l (ni_key n);
  n_set_key q n := NodeCacheIp (ni_categories n) (ni_solution_is_send n) (ni_trust_lvl n)
    (ni_timestamp n) (ni_ttl_seconds n) (Some q)
|}.

#[global] Instance node_ip_fields_ok : CacheNodeOk node_cache_ip.
Proof. by constructor. Qed.

(** *** The database of the IP cache *)

Definition ip_create_main : string := "CREATE TABLE IF NOT EXISTS ip_main_table(ip_str TEXT PRIMARY KEY, solution_is_send INT NOT NULL, trust_lvl INT NOT NULL, timestamp INT NOT NULL, ttl_seconds INT NOT NULL)".
Definition ip_create_categories : string := "CREATE TABLE IF NOT EXISTS ip_categories_table(ip_str TEXT NOT NULL, certain_category TEXT NOT NULL, PRIMARY KEY (ip_str, certain_category), FOREIGN KEY (ip_str) REFERENCES ip_main_table(ip_str))".
Definition ip_select_main : string := "SELECT ip_str, solution_is_send, trust_lvl, timestamp, ttl_seconds FROM ip_main_table;".
Definition ip_select_categories : string := "SELECT certain_category FROM ip_categories_table WHERE ip_str = ?;".
Definition ip_insert_main : string := "INSERT OR REPLACE INTO ip_main_table (ip_str, solution_is_send, trust_lvl, timestamp, ttl_seconds) VALUES (?, ?, ?, ?, ?)".
Definition ip_delete_categories : string := "DELETE FROM ip_categories_table WHERE ip_str = ?".
Definition ip_insert_category : string := "INSERT INTO ip_categories_table (ip_str, certain_category) VALUES (?, ?)".

Definition ip_sql : cache_sql := {|
  q_file := "ip_cache.db";
  q_create_main := ip_create_main;
  q_create_categories := ip_create_categories;
  q_select_main := ip_select_main;
  q_select_categories := ip_select_categories;
  q_insert_main := ip_insert_main;
  q_delete_categories := ip_delete_categories;
  q_insert_category := ip_insert_category
|}.

(** The text of a key, printed with [inet_ntop]. *)
Definition ip_text {inet : Inet} (key : ip_key) : res (list Z) :=
  if version key =? 4
  then let* b := load (addr key) 0 4 in Ok (inet_ntop4 b)
  else let* b := load (addr key) 0 16 in Ok (inet_ntop6 b).

(** [ip_str_to_key] writes into an uninitialised [struct ip_key]: for an IPv4
    text only the first four of its sixteen address bytes. *)
Definition ip_str_to_key {E} {inet : Inet} {HK : UninitMem E ip_key} (ip_str : option (list Z)) :
    M E (option (res ip_key)) := λ e,
  match ip_str with
  | None => Fault BadPointer
  | Some s =>
      let (key, e') := uninit e in
      match inet_pton4 s with
      | Some b => let* a := store (addr key) 0 b in Ok (Some (Ok (IpKey 4 a)), e')
      | None =>
          match inet_pton6 s with
          | Some b => let* a := store (addr key) 0 b in Ok (Some (Ok (IpKey 6 a)), e')
          | None => Ok (None, e')
          end
      end
  end.

#[global] Instance ip_table E {inet : Inet} {HK : UninitMem E ip_key} :
    CacheTable E ip_key node_cache_ip := {|
  t_sql := ip_sql;
  n_categories := ni_categories;
  n_set_categories cats n := NodeCacheIp cats (ni_solution_is_send n) (ni_trust_lvl n)
    (ni_timestamp n) (ni_ttl_seconds n) (ni_key n);
  n_trust := ni_trust_lvl;
  n_load send trust t l n := NodeCacheIp (ni_categories n) send trust t l (ni_key n);
  null_category row := array_set row 0 0;
  key_text := ip_text;
  text_key := ip_str_to_key
|}.

Section ip_cache.
Context {E : Type} {H : RteHash ip_key} {HE : RteEnv E}.

#[local] Abbreviation St := (E * cache ip_key node_cache_ip)%type.

Definition lookup_ip_cache (key : ip_key) : M St (Z * option ptr) := cache_lookup key.

(** [memcpy(key_copy, key, IP_MAX_LEN)] copies the whole struct. *)
Definition add_to_ip_cache (key : ip_key) (node : ptr) (ttl : Z) : M St unit :=
  cache_add (Ok key) node ttl.

Definition insert_loaded_node_ip (key : ip_key) (node : ptr) : M St Z :=
  cache_insert_loaded (Ok key) node.

Definition clear_ip_cache : M St unit := cache_clear.

Context {D : Type} {HL : LibcEnv E} {HS : Sqlite D} {HU : UninitMem E node_cache_ip}.
Context {inet : Inet} {HK : UninitMem E ip_key}.

#[local] Abbreviation Pt := (pstate E ip_key node_cache_ip D).

Definition load_ip_categories (ip_str : option (list Z)) (node : ptr) : M Pt Z :=
  load_categories ip_str node.
Definition create_ip_node_from_db_row (row : list sqlval) (now_cycles hz : Z) : M Pt load_result :=
  create_node_from_db_row row now_cycles hz.
Definition load_cache_ip_from_sqlite : M Pt (option (Z * Z * Z)) := load_cache.
Definition close_sqlite_cache_ip : M Pt unit := close_sqlite.
Definition insert_ip_main_record (ip_str : list Z) (node : node_cache_ip) : M Pt Z :=
  insert_main_record ip_str node.
Definition delete_ip_categories (ip_str : list Z) : M Pt Z := delete_categories ip_str.
Definition insert_ip_categories (ip_str : list Z) (node : node_cache_ip) : M Pt Z :=
  insert_categories ip_str node.
Definition save_single_node_ip_to_sqlite (key : ip_key) (node : node_cache_ip) : M Pt Z :=
  save_single_node key node.
Definition copy_data_from_hash_to_snapshot_ip (snapt : option (list (option (snapshot ip_key node_cache_ip)))) :
    M St (option (list (option (snapshot ip_key node_cache_ip)))) :=
  copy_data_from_hash_to_snapshot snapt.
Definition save_all_cache_ip_to_sqlite : M Pt (option (Z * Z)) := save_all_cache.
Definition cache_save_timer_cb_ip (created : bool) : M Pt unit := cache_save_timer_cb created.
Definition init_tables_sqlite_ip_cache : M Pt unit := init_tables.
Definition init_ip_cache (created : option hash_t) : M Pt unit := init_cache created.
Definition free_ip_cache : M Pt unit := free_cache.

End ip_cache.

(** The node [pakage_processing] allocates with [rte_calloc] and fills. *)
Definition new_ip_node (solution_is_send : bool) : node_cache_ip :=
  NodeCacheIp (ni_categories node_ip_zero) solution_is_send 0 0 0 None.

(** The key [pakage_processing] builds in a zeroed [struct ip_key]: version 4
    and the four bytes of the address, or version 6 and its sixteen bytes. *)
Definition packet_ip_key (info_pac : info_of_pakage) : ip_key :=
  if Types.ip_version info_pac =? IP_4
  then IpKey 4 (le_bytes32 (ip4_dist info_pac) ++ zeros 12)
  else IpKey 6 (ip6_dist info_pac).

(** ** Keys and their texts *)

(** An uninitialised key has the size of a key. *)
Class UninitKeyOk (E : Type) {HE : RteEnv E} {HK : UninitMem E ip_key} := {
  uninit_key_len e : length (addr (fst (uninit (A:=ip_key) e))) = 16%nat;
  uninit_key_hz e : rte_get_timer_hz (snd (uninit (A:=ip_key) e)) = rte_get_timer_hz e
}.

Definition ip6_key (k : ip_key) : Prop := version k = 6 ∧ length (addr k) = 16%nat.

Lemma store_all dst bs : length bs = length dst → store dst 0 bs = Ok bs.
Proof.
  intros Hl. unfold store. rewrite decide_True by lia. cbn. rewrite drop_ge by lia.
  by rewrite app_nil_r.
Qed.

Definition ip_str {inet : Inet} (k : ip_key) : list Z :=
  default [] (cstr (if version k =? 4 then inet_ntop4 (take 4 (addr k)) else inet_ntop6 (addr k))).

(** The texts of IPv6 keys determine them. *)
#[global] Instance ip_table_ok E {HE : RteEnv E} {inet : Inet} {io : InetOk}
    {HK : UninitMem E ip_key} {HKO : UninitKeyOk E} : CacheTableOk E ip_key node_cache_ip.
Proof.
  refine {| savable := ip6_key; key_str := ip_str |}; try done.
  - intros k [Hv Hl]. cbn. unfold ip_text, ip_str. rewrite Hv. cbn. rewrite load_all by done.
    cbn. destruct (ntop6_str (addr k) Hl) as [s Hs]. exists (inet_ntop6 (addr k)).
    by rewrite Hs.
  - intros k e [Hv Hl]. cbn. unfold ip_str_to_key, ip_str. rewrite Hv. cbn.
    destruct (ntop6_str (addr k) Hl) as [s Hs]. rewrite Hs. cbn [default].
    destruct (pton6_ntop6 _ _ Hl Hs) as [Hp4 Hp6].
    pose proof (uninit_key_len e) as Hlen. pose proof (uninit_key_hz e) as Hhz.
    destruct (uninit e) as [g e']. cbn in Hlen, Hhz. change (id s) with s. rewrite Hp4, Hp6, store_all by lia. cbn.
    exists e'. split; [|done]. destruct k as [v a]. cbn in *. by subst v.
Defined.

(** ** Theorems *)

(** The twelve bytes of the address union an IPv4 address does not use. *)
Definition key_tail (k : ip_key) : list Z := drop 4 (addr k).

(** C40: an IPv4 key is saved as the text of its address but loaded into a key
    whose other twelve bytes were never written: the loaded decision is stored
    under the key of the packets only if that memory happened to be zero, and
    is never found otherwise. *)
Theorem ip4_loaded_key_uninitialised {E : Type} {HE : RteEnv E} {inet : Inet} {io : InetOk}
    {HK : UninitMem E ip_key} {HKO : UninitKeyOk E} (e : E) info text s :
  Types.ip_version info = IP_4 →
  ip_text (packet_ip_key info) = Ok text → cstr text = Some s →
  ∃ k e', ip_str_to_key (Some (c_str s)) e = Ok (Some (Ok k), e')
    ∧ version k = 4 ∧ take 4 (addr k) = le_bytes32 (ip4_dist info)
    ∧ key_tail k = key_tail (fst (uninit e))
    ∧ (k = packet_ip_key info ↔ key_tail (fst (uninit e)) = zeros 12).
Proof.
  intros Hv Htext Hs. unfold packet_ip_key in *. rewrite Hv in *. cbn [Z.eqb IP_4 Pos.eqb] in *.
  set (b := le_bytes32 (ip4_dist info)) in *. assert (length b = 4%nat) as Hb by done.
  assert (text = inet_ntop4 b) as ->.
  { unfold ip_text, load in Htext. cbn [version addr Z.eqb Pos.eqb] in Htext.
    rewrite decide_True in Htext by (rewrite length_app, Hb; lia).
    rewrite drop_0, take_app_length' in Htext by done. by injection Htext as <-. }
  unfold ip_str_to_key. pose proof (uninit_key_len e) as Hlen.
  destruct (uninit e) as [g e']. cbn in Hlen.
  rewrite (pton4_ntop4 b s Hb Hs). unfold store. rewrite decide_True by lia. cbn [rbind].
  rewrite take_0, app_nil_l, Hb. eexists _, e'. split; [done|]. cbn [version addr fst].
  split_and!; [done|by apply take_app_length'|unfold key_tail; by apply drop_app_length'|].
  unfold key_tail. cbn [addr]. split.
  - by intros [= Ha].
  - intros Hz. change (0 + 4)%nat with 4%nat. by rewrite Hz.
Qed.
