(* ===== verification/CacheLife.v ===== *)
(** * Start and end of a cache

    Initialising and freeing a cache is safe whatever the database holds and
    whichever of the calls to SQLite, to the allocator and to the hash table
    fail: the results are an error, a smaller cache or a cache without
    persistence, never a fault.  These are the lemmas the start-up and the
    shutdown of the process ([Process.v]) are built on. *)

From Stdlib Require Import ZArith Lia.
From stdpp Require Import prelude gmap strings.
From S2P Require Import Prelude CMem Types Hash Sqlite Cache Persist PersistSpec DomainCache IpCache.

Local Open Scope Z_scope.

(** Every text is refused or stands for a key. *)
Class TextKeyTotal (E K N : Type) {HT : CacheTable E K N} := {
  text_key_total t e :
    ∃ o e', text_key (N:=N) (Some (c_str t)) e = Ok (o, e') ∧ (o = None ∨ ∃ k : K, o = Some (Ok k))
}.

(** Opening the file, creating the tables that do not exist yet and closing the
    connection keep the rows there are. *)
Class SqliteSetup (D : Type) {HS : Sqlite D} (q : cache_sql) {HSO : SqliteOk D q} := {
  open_keeps d f : db_main (snd (sqlite3_open d f)) = db_main d;
  setup_keeps d s :
    s = q_create_main q ∨ s = q_create_categories q ∨ s = "PRAGMA foreign_keys = ON;" →
    db_main (snd (sqlite3_exec d s)) = db_main d;
  close_keeps d : db_main (snd (sqlite3_close d)) = db_main d
}.

Section life.
Context {E K N D : Type} `{Countable K} {HH : RteHash K} {HO : RteHashOk K HH}.
Context {HE : RteEnv E} {HEO : RteEnvOk E} {HL : LibcEnv E}.
Context {HN : CacheNode N} {HNO : CacheNodeOk N}.
Context {HS : Sqlite D} {HU : UninitMem E N} {HT : CacheTable E K N}.
Context {HTO : CacheTableOk E K N} {HUO : UninitOk E K N}.
Context {HSO : SqliteOk D (t_sql (E:=E) (K:=K) (N:=N))} {HTK : TextKeyTotal E K N}.
Context {HSS : SqliteSetup D (t_sql (E:=E) (K:=K) (N:=N))}.

#[local] Abbreviation pstate := (pstate E K N D).
#[local] Abbreviation cache := (cache K N).
Implicit Types (p : pstate) (c : cache) (F G : gset ptr).

(** A cache in order, possibly with nodes or key copies nobody reaches, and with
    its table. *)
Definition cache_ready (c : cache) : Prop := c_hash c ≠ None ∧ ∃ F G, cache_inv F G c.

(** A cache whose contents a save can write: strings as categories, keys with a
    text, and no more entries than the table was created for. *)
Record writable_cache (c : cache) : Prop := {
  wr_nodes : map_Forall (λ _ n, strings (E:=E) (K:=K) n) (c_nodes c);
  wr_keys k q : view c !! k = Some q → ∃ t, prints (E:=E) (N:=N) k t;
  wr_size : (size (view c) ≤ CACHE_SIZE)%nat
}.

(** The caller holds a node that is not in the table. *)
Definition holding (q : ptr) (n : N) (p : pstate) : Prop :=
  c_hash (p_cache p) ≠ None ∧ c_nodes (p_cache p) !! q = Some n
  ∧ ∃ F G, cache_inv F G (p_cache p) ∧ q ∈ F.

Lemma holding_free q n p :
  holding q n p → ∃ p', on_cache (free_node q) p = Ok (tt, p') ∧ cache_ready (p_cache p').
Proof.
  intros (Hh & Hn & F & G & Hi & Hq). eexists. split.
  { apply zoom_eq. unfold free_node. by rewrite Hn. }
  split; [done|]. exists (F ∖ {[q]}), G. by apply free_float_inv.
Qed.

Lemma holding_update q n f p :
  holding q n p → ∃ p', on_cache (update_node q f) p = Ok (tt, p') ∧ holding q (f n) p'.
Proof.
  intros (Hh & Hn & F & G & Hi & Hq). eexists. split.
  { apply zoom_eq. unfold update_node. by rewrite Hn. }
  split; [done|]. split; [apply lookup_insert_eq|]. exists F, G. split; [|done].
  by apply update_float_inv.
Qed.

Lemma cstr_c_str_some t : ∃ u, cstr (c_str t) = Some u.
Proof. apply cstr_terminated, c_str_terminated. Qed.

(** The categories of a node, whatever the statements answer. *)
Lemma load_categories_safe t q n p :
  holding q n p → table_wf MAX_CATEGORIES CATEGORY_MAX_LEN (n_categories (E:=E) (K:=K) n) →
  ∃ r n' p', load_categories (Some (c_str t)) q p = Ok (r, p') ∧ holding q n' p'.
Proof.
  intros Hq Hwf. unfold load_categories. unfold bind at 1, on_db.
  destruct (sqlite3_prepare_v2 (p_db p) (q_select_categories t_sql)) as [rc d1].
  destruct (rc =? SQLITE_OK); cbn [negb]; [|eexists _, n, _; split; [done|exact Hq]].
  destruct (cstr_c_str_some t) as [u Hu]. unfold bind_text. rewrite Hu, bind_lift.
  pose proof (rows_categories d1 u) as Hrows.
  destruct (sqlite3_rows d1 (q_select_categories t_sql) [SqlText u]) as [rows d2] eqn:Er.
  destruct Hrows as (Hrows & _). erewrite bind_eq by (unfold on_db; cbn; by rewrite Er).
  pose proof Hq as (_ & Hn & _).
  erewrite bind_eq by (apply zoom_eq; unfold read_node; cbn; by rewrite Hn).
  destruct (load_category_rows_spec rows 0 (n_categories n)) as (cats & Hcats); [|done|].
  { rewrite Hrows. apply Forall_fmap, Forall_forall. intros c _. by exists c. }
  rewrite Hcats, bind_lift.
  match goal with |- context [bind (on_cache (update_node q _)) _ ?p2] =>
    destruct (holding_update q n (n_set_categories (E:=E) (K:=K) cats) p2) as (p3 & Hrun & Hq3); [done|] end.
  erewrite bind_eq by exact Hrun. by eexists _, _, _.
Qed.

(** A row of the main table is loaded, skipped or refused; what was allocated
    for a refused row is freed. *)
Lemma create_node_safe t r now hz p :
  cache_ready (p_cache p) → 0 < hz →
  ∃ res p', create_node_from_db_row (main_row (t, r)) now hz p = Ok (res, p') ∧ cache_ready (p_cache p').
Proof.
  intros Hr Hhz. pose proof Hr as (Hh & F & G & Hi). unfold create_node_from_db_row, main_row, array_get.
  cbn [lookup list_lookup fst snd]. rewrite !bind_lift, column_text_text, !column_int_int, column_int64_int.
  unfold age_seconds, div64. rewrite (proj2 (Z.eqb_neq hz 0)) by lia. rewrite bind_lift.
  destruct (u64 (now - u64 _) / hz >=? _); [by eexists _, p|].
  pose proof (uninit_cats (p_env p)) as Hcats0.
  unfold bind at 1, on_env. destruct (uninit (p_env p)) as [g e1]. cbn in Hcats0.
  destruct (alloc_node_spec F G e1 (p_cache p) g Hi) as (o & e2 & c2 & Halloc & _ & Ho).
  erewrite bind_eq by (apply zoom_eq; exact Halloc). destruct o as [q|]; cycle 1.
  { subst c2. eexists _, _. split; [done|]. by split; [|exists F, G]. }
  destruct Ho as (_ & -> & _ & Hi2 & _).
  match goal with |- context [bind (on_cache (update_node q ?f)) _ ?p2] =>
    destruct (holding_update q g f p2) as (p3 & Hrun & Hq3) end.
  { split; [done|]. split; [apply lookup_insert_eq|]. eexists _, _. split; [exact Hi2|]. set_solver. }
  erewrite bind_eq by exact Hrun. clear Hrun.
  destruct (load_categories_safe t q _ p3 Hq3) as (rl & n4 & p4 & Hrun & Hq4); [by rewrite load_cats|].
  erewrite bind_eq by exact Hrun. clear Hrun Hq3.
  assert (∀ q n p, holding q n p → ∃ res p', (on_cache (free_node q) ;;; ret LOAD_ERROR) p = Ok (res, p')
    ∧ cache_ready (p_cache p')) as Hgive.
  { intros q' n' p' Hq'. destruct (holding_free q' n' p' Hq') as (p5 & Hrun5 & Hr5).
    erewrite bind_eq by exact Hrun5. by eexists _, _. }
  destruct (rl =? 0); cbn [negb]; [|by eapply Hgive].
  destruct (text_key_total t (p_env p4)) as (o & e5 & Hkey & Hok).
  erewrite bind_eq by (apply zoom_eq; exact Hkey).
  assert (holding q n4 (with_env e5 p4)) as Hq5 by exact Hq4.
  destruct Hok as [->|[k ->]]; [by eapply Hgive|].
  destruct Hq5 as (Hh5 & Hn5 & F5 & G5 & Hi5 & HF5).
  destruct (cache_insert_loaded_spec F5 G5 e5 (p_cache p4) k q n4 Hi5 HF5 Hn5)
    as (ri & e6 & c6 & Hins & _ & Hcase & _).
  assert (c_hash c6 ≠ None) as Hh6 by exact (keeps_insert_loaded _ _ (e5, p_cache p4) _ _ Hh5 Hins).
  erewrite bind_eq by (apply zoom_eq; exact Hins).
  destruct Hcase as [(-> & _ & _ & _ & F6 & G6 & Hi6 & _)|(Hneg & Hi6 & _)].
  - eexists _, _. split; [done|]. split; [done|]. by exists F6, G6.
  - rewrite (proj2 (Z.eqb_neq ri 0)) by lia. cbn [negb].
    destruct (inv_float _ _ _ Hi6 q HF5) as [[n6 Hn6] _]. apply (Hgive q n6).
    split; [done|]. split; [done|]. by exists F5, G5.
Qed.

Lemma load_rows_safe rs now hz x y z p :
  cache_ready (p_cache p) → 0 < hz →
  ∃ stats p', load_rows (main_row <$> rs) now hz x y z p = Ok (stats, p') ∧ cache_ready (p_cache p').
Proof.
  intros Hr Hhz. revert x y z p Hr. induction rs as [|[t r] rs IH]; intros x y z p Hr;
    cbn [fmap list_fmap load_rows]; [by eexists _, p|].
  destruct (create_node_safe t r now hz p Hr Hhz) as (res & p1 & Hrun & Hr1).
  erewrite bind_eq by exact Hrun. destruct res; by apply IH.
Qed.

(** Loading, whatever the table holds; an empty table leaves the cache as it
    was. *)
Lemma load_cache_safe p :
  cache_ready (p_cache p) →
  ∃ stats p', load_cache p = Ok (stats, p') ∧ cache_ready (p_cache p')
    ∧ (db_main (p_db p) = ∅ → p_cache p' = p_cache p).
Proof.
  intros Hr. pose proof Hr as [Hh _]. unfold load_cache. do 2 (erewrite bind_eq by reflexivity).
  destruct (c_hash (p_cache p)) as [h|]; [|done]. destruct (p_conn p); cbn [negb]; [|by eexists _, _].
  unfold bind at 1, on_cache at 1, zoom, timer_cycles.
  destruct (rte_get_timer_cycles (p_env p)) as [now e1] eqn:Et.
  unfold bind at 1, on_cache at 1, zoom, timer_hz. cbn [p_env with_cache fst snd].
  pose proof (timer_hz_range e1) as Hpos.
  unfold bind at 1, on_db. cbn [p_db with_cache].
  pose proof (prepare_keeps (p_db p) (q_select_main t_sql)) as [Hd1 _].
  destruct (sqlite3_prepare_v2 (p_db p) (q_select_main t_sql)) as [rc d1]. cbn in Hd1.
  destruct (rc =? SQLITE_OK); cbn [negb]; [|eexists _, _; split; [done|]; split; [exact Hr|done]].
  pose proof (rows_main d1) as Hrows.
  destruct (sqlite3_rows d1 (q_select_main t_sql) []) as [rows d2] eqn:Er. destruct Hrows as (Hrows & _).
  erewrite bind_eq by (unfold on_db; cbn; by rewrite Er).
  apply (Permutation_map_inv main_row) in Hrows as (trs & -> & Hp).
  match goal with |- context [bind (load_rows _ _ _ _ _ _) _ ?p2] =>
    destruct (load_rows_safe trs now (rte_get_timer_hz e1) 0 0 0 p2) as (stats & p3 & Hrun & Hr3); [exact Hr|lia|] end.
  erewrite bind_eq by exact Hrun. eexists _, _. split; [done|]. split; [done|]. intros Hempty.
  rewrite Hd1, Hempty, map_to_list_empty in Hp. apply Permutation_nil_l in Hp. subst trs.
  cbn in Hrun. by injection Hrun as _ <-.
Qed.

(** Opening the database changes neither the cache nor the rows. *)
Lemma init_tables_safe p :
  ∃ p', init_tables p = Ok (tt, p') ∧ p_cache p' = p_cache p ∧ db_main (p_db p') = db_main (p_db p).
Proof.
  unfold init_tables. unfold bind at 1, on_db at 1. pose proof (open_keeps (p_db p) (q_file t_sql)) as Hk.
  destruct (sqlite3_open (p_db p) (q_file t_sql)) as [[rc handle] d]. cbn in Hk.
  erewrite bind_eq by reflexivity. destruct (rc =? SQLITE_OK); cbn [negb]; [|by eexists].
  unfold bind at 1, on_db at 1. cbn [p_db with_conn with_db].
  pose proof (setup_keeps d (q_create_main t_sql) (or_introl eq_refl)) as Hk1.
  destruct (sqlite3_exec d _) as [rc1 d1]. cbn in Hk1.
  destruct (rc1 =? SQLITE_OK); cbn [negb]; [|eexists; split; [done|]; cbn; split; congruence].
  unfold bind at 1, on_db at 1. cbn [p_db with_conn with_db].
  pose proof (setup_keeps d1 (q_create_categories t_sql) (or_intror (or_introl eq_refl))) as Hk2.
  destruct (sqlite3_exec d1 _) as [rc2 d2]. cbn in Hk2.
  destruct (rc2 =? SQLITE_OK); cbn [negb]; [|eexists; split; [done|]; cbn; split; congruence].
  unfold bind at 1, on_db at 1. cbn [p_db with_conn with_db].
  pose proof (setup_keeps d2 "PRAGMA foreign_keys = ON;" (or_intror (or_intror eq_refl))) as Hk3.
  destruct (sqlite3_exec d2 _) as [rc3 d3]. cbn in Hk3. eexists. split; [done|]. cbn. split; congruence.
Qed.

(** Initialising a cache that has no table: without a table nothing happens;
    with one the cache is ready and the save timer is armed, and it is empty if
    the database is. *)
Lemma init_cache_safe created p :
  p_cache p = Cache None ∅ ∅ false → p_timer p = None →
  match created with Some h => hash_view h = ∅ | None => True end →
  ∃ p', init_cache created p = Ok (tt, p')
    ∧ match created with
      | None => p_cache p' = p_cache p ∧ p_timer p' = None
      | Some _ => cache_ready (p_cache p') ∧ is_Some (p_timer p')
                  ∧ (db_main (p_db p) = ∅ → abs (p_cache p') = ∅ ∧ writable_cache (p_cache p'))
      end.
Proof.
  intros Hc Ht Hview. unfold init_cache. erewrite bind_eq by reflexivity. rewrite Hc.
  cbn [c_hash]. erewrite bind_eq by reflexivity.
  destruct created as [h|]; [|eexists; split; [done|]; cbn; by rewrite ?Hc, Ht].
  match goal with |- context [bind init_tables _ ?p1] =>
    destruct (init_tables_safe p1) as (p2 & Hrun & Hc2 & Hd2) end.
  erewrite bind_eq by exact Hrun. cbn in Hc2, Hd2. rewrite Hc in Hc2.
  destruct (load_cache_safe p2) as (stats & p3 & Hrun3 & Hr3 & He3).
  { rewrite Hc2. split; [done|]. exists ∅, ∅. by apply cache_inv_created. }
  erewrite bind_eq by exact Hrun3. unfold bind, on_cache, zoom, timer_hz. cbn.
  eexists. split; [done|]. split; [done|]. split; [by eexists|]. cbn. intros Hempty.
  rewrite Hd2 in He3. rewrite (He3 Hempty), Hc2. split.
  - unfold abs, view. cbn. rewrite Hview. apply omap_empty.
  - constructor; unfold view; cbn; rewrite ?Hview; [apply map_Forall_empty|done|].
    rewrite map_size_empty. unfold CACHE_SIZE. lia.
Qed.

(** *** Saving, whatever SQLite answers *)

(** A computation that returns and changes the database only. *)
Definition db_safe {A} (m : M pstate A) : Prop := ∀ p, ∃ a d, m p = Ok (a, with_db d p).

Lemma db_safe_ret {A} (a : A) : db_safe (ret a).
Proof. intros p. exists a, (p_db p). by rewrite with_db_id. Qed.
Lemma db_safe_lift {A} (a : A) : db_safe (lift (Ok a)).
Proof. apply db_safe_ret. Qed.
Lemma db_safe_on_db {A} (f : D → A * D) : db_safe (on_db f).
Proof. intros p. unfold on_db. destruct (f (p_db p)) as [a d]. by exists a, d. Qed.
Lemma db_safe_bind {A B} (m : M pstate A) (k : A → M pstate B) :
  db_safe m → (∀ a, db_safe (k a)) → db_safe (bind m k).
Proof.
  intros Hm Hk p. destruct (Hm p) as (a & d & Hrun). erewrite bind_eq by exact Hrun.
  destruct (Hk a (with_db d p)) as (b & d' & Hrun'). by exists b, d'.
Qed.

Lemma db_safe_bind_lift {A B} (a : A) (k : A → M pstate B) : db_safe (k a) → db_safe (bind (lift (Ok a)) k).
Proof. intros Hk p. exact (Hk p). Qed.

Ltac db_steps :=
  repeat match goal with
  | |- db_safe (bind (lift (Ok _)) _) => apply db_safe_bind_lift
  | |- db_safe (bind _ _) => apply db_safe_bind; [|intros ?]
  | |- db_safe (ret _) => apply db_safe_ret
  | |- db_safe (lift (Ok _)) => apply db_safe_lift
  | |- db_safe (on_db _) => apply db_safe_on_db
  | |- db_safe (if ?b then _ else _) => destruct b
  end.

Lemma save_single_safe k t n : prints (E:=E) (N:=N) k t → strings (E:=E) (K:=K) n → db_safe (save_single_node k n).
Proof.
  intros (b & Hb & Ht) Hn.
  unfold save_single_node, insert_main_record, delete_categories, insert_categories, bind_text.
  rewrite Hb. apply db_safe_bind_lift. rewrite Ht. db_steps. apply Forall_take with (n := MAX_CATEGORIES) in Hn.
  induction Hn as [|row rows Hrow _ IH]; cbn [insert_category_rows]; [db_steps|].
  destruct (proj1 (cstr_terminated _) Hrow) as [c Hc]. destruct row as [|c0 row]; [done|].
  change (array_get (c0 :: row) 0) with (Ok c0). unfold bind_text. rewrite Ht, Hc. db_steps. exact IH.
Qed.

Lemma save_records_safe (l : list (K * N)) i arr records errors :
  (∀ j x, l !! j = Some x → arr !! (i + j)%nat = Some (Some x)) →
  Forall (λ kn, (∃ t, prints (E:=E) (N:=N) kn.1 t) ∧ strings (E:=E) (K:=K) kn.2) l →
  db_safe (save_records (length l) i (Some arr) records errors).
Proof.
  intros Harr Hl. revert i records errors Harr.
  induction Hl as [|[k n] l [[t Hk] Hn] _ IH]; intros i records errors Harr; cbn [length save_records]; [db_steps|].
  pose proof (Harr 0%nat _ eq_refl) as H0. rewrite Nat.add_0_r in H0. unfold array_get. rewrite H0.
  assert (∀ j x, l !! j = Some x → arr !! (S i + j)%nat = Some (Some x)) as Harr'.
  { intros j x Hj. replace (S i + j)%nat with (i + S j)%nat by lia. by apply Harr. }
  apply db_safe_bind_lift, db_safe_bind; [by eapply save_single_safe|]. intros r.
  destruct (r =? SQLITE_OK); by apply IH.
Qed.

(** Saving a cache that can be written returns and leaves the cache as it is,
    whatever the database holds and whichever statement fails; without a
    connection nothing is saved.  A save that fails keeps its snapshot. *)
Lemma save_safe p :
  cache_ready (p_cache p) → writable_cache (p_cache p) → fst (malloc_ok (p_env p)) = true →
  ∃ stats e d n, save_all_cache p = Ok (stats, with_snapshots n (with_db d (with_cache (e, p_cache p) p))).
Proof.
  intros (Hh & F & G & Hi) [Hn Hk Hs] Hm. destruct (c_hash (p_cache p)) as [h|] eqn:Eh; [|done].
  destruct (p_conn p) eqn:Ec; cycle 1.
  { exists None, (p_env p), (p_db p), (p_snapshots p). unfold save_all_cache, save_begin, bind, gets.
    rewrite Eh, Ec. cbn. by destruct p. }
  unfold save_all_cache. destruct (save_begin_spec F G p h Hi Eh Ec Hs Hm) as (e & Hbegin).
  erewrite bind_eq by exact Hbegin. unfold save_finish.
  set (p1 := with_snapshots (S (p_snapshots p)) (with_env e p)).
  erewrite bind_eq by (apply zoom_eq, (snapshot_spec F G _ h); [done|done|apply length_replicate]).
  change (with_cache (p_env p1, p_cache p1) p1) with p1.
  destruct (iterate_entries F G (p_cache p) h Hi Eh) as (Hall & Hlen & _ & Hin).
  set (l := node_entries (p_cache p) (rte_hash_iterate h)) in *.
  rewrite <- Hlen, <- (node_entries_length (p_cache p)) by done. fold l.
  assert (db_safe (save_records (length l) 0 (Some (Some <$> l)) 0 0)) as Hrec.
  { apply save_records_safe.
    - intros j x Hj. change (0 + j)%nat with j. by rewrite list_lookup_fmap, Hj.
    - apply Forall_forall. intros [k n] (q & Hq & Hnode)%Hin. split; [by eapply Hk|by apply (Hn q)]. }
  destruct (db_safe_on_db (λ d, sqlite3_exec d "BEGIN TRANSACTION;") p1) as (r1 & d1 & R1).
  erewrite bind_eq by exact R1. destruct (negb (r1 =? SQLITE_OK)); [by exists None, e, d1, (S (p_snapshots p))|].
  destruct (Hrec (with_db d1 p1)) as (stats & d2 & R2). erewrite bind_eq by exact R2.
  destruct (db_safe_on_db (λ d, sqlite3_exec d "COMMIT;") (with_db d2 (with_db d1 p1))) as (r3 & d3 & R3).
  erewrite bind_eq by exact R3. destruct (negb (r3 =? SQLITE_OK)); [by exists None, e, d3, (S (p_snapshots p))|].
  by exists (Some stats), e, d3, (p_snapshots p).
Qed.

(** The row a save writes for a decision.  Of several keys with the same text
    one is written; a decision whose text no other key has is the one. *)
Definition saved_rows (c : cache) (d : D) : Prop :=
  ∀ k q n t, view c !! k = Some q → c_nodes c !! q = Some n → prints (E:=E) (N:=N) k t →
  (∀ k' q', view c !! k' = Some q' → prints (E:=E) (N:=N) k' t → k' = k) →
  db_main d !! t = Some (row_of (E:=E) (K:=K) n).

Lemma insert_all_unique {A B V} (key : A → list Z) (f : B → V) m l a b :
  NoDup l.*1 → (a, b) ∈ l → (∀ a' b', (a', b') ∈ l → key a' = key a → a' = a) →
  insert_all key f m l !! key a = Some (f b).
Proof.
  revert m. induction l as [|[a0 b0] l IH]; intros m Hnd Hin Huniq; [by apply elem_of_nil in Hin|].
  rewrite fmap_cons in Hnd. apply NoDup_cons in Hnd as [Hnot Hnd]. rewrite insert_all_cons.
  apply elem_of_cons in Hin as [[= <- <-]|Hin].
  - rewrite insert_all_notin; [apply lookup_insert_eq|]. intros ([a' b'] & Heq & Hin)%list_elem_of_fmap.
    cbn in Heq. assert (a' = a) as ->; [|apply Hnot, list_elem_of_fmap; by exists (a, b')].
    apply (Huniq a' b'); [|done]. rewrite elem_of_cons. by right.
  - apply IH; [done|done|]. intros a' b' Hin' Heq. apply (Huniq a' b'); [|done]. rewrite elem_of_cons. by right.
Qed.

(** With a database in which every statement succeeds the decisions are in it. *)
Lemma save_writes {HUP : SqliteUp D (t_sql (E:=E) (K:=K) (N:=N))} p stats p' :
  cache_ready (p_cache p) → writable_cache (p_cache p) → fst (malloc_ok (p_env p)) = true →
  p_conn p = true → save_all_cache p = Ok (stats, p') → saved_rows (p_cache p) (p_db p').
Proof.
  intros (Hh & F & G & Hi) [Hn Hk Hs] Hm Hconn Hrun. destruct (c_hash (p_cache p)) as [h|] eqn:Eh; [|done].
  set (txt k := match key_text (E:=E) (N:=N) k with Ok b => default [] (cstr b) | Fault _ => [] end).
  assert (∀ k t, prints (E:=E) (N:=N) k t → txt k = t) as Htxt.
  { intros k t (b & Hb & Ht). unfold txt. by rewrite Hb, Ht. }
  destruct (iterate_entries F G (p_cache p) h Hi Eh) as (_ & _ & Hnd & Hin).
  destruct (save_all_spec txt F G p h Hi Eh Hconn Hs Hm) as (stats' & e & d & Hrun' & Hdb).
  { apply Forall_forall. intros [k n] (q & Hq & Hnode)%Hin. split; [|by apply (Hn q)].
    destruct (Hk k q Hq) as (t & Ht). cbn. by rewrite (Htxt k t Ht). }
  rewrite Hrun in Hrun'. injection Hrun' as _ ->. intros k q n t Hq Hnode Ht Huniq.
  change (p_db (with_db d (with_env e p))) with d. rewrite Hdb, <- (Htxt k t Ht).
  assert (NoDup (node_entries (p_cache p) (rte_hash_iterate h)).*1) as Hnd'.
  { revert Hnd. unfold node_entries. generalize (rte_hash_iterate h). intros l.
    induction l as [|[k' q'] l IH]; [done|]. csimpl. intros [Hnot Hl]%NoDup_cons.
    destruct (c_nodes (p_cache p) !! q') as [n'|]; cbn; [|by apply IH]. apply NoDup_cons. split; [|by apply IH].
    intros ([k1 n1] & -> & ([k2 q2] & Hin2 & Heq)%list_elem_of_omap)%list_elem_of_fmap. apply Hnot.
    cbn in Heq. destruct (c_nodes (p_cache p) !! q2); [|done]. cbn in Heq. injection Heq as -> _.
    apply list_elem_of_fmap. by exists (k1, q2). }
  apply insert_all_unique; [done|apply Hin; by exists q|].
  intros k' n' (q' & Hq' & _)%Hin Heq. destruct (Hk k' q' Hq') as (t' & Ht').
  apply (Huniq k' q' Hq'). rewrite (Htxt k' t' Ht'), (Htxt k t Ht) in Heq. by rewrite <- Heq.
Qed.

(** Freeing a cache: no table, no connection and no timer are left, and no nodes
    and key copies but those the table did not own. *)
Lemma free_cache_spec F G p :
  cache_inv F G (p_cache p) → c_hash (p_cache p) ≠ None →
  ∃ p', free_cache p = Ok (tt, p') ∧ c_hash (p_cache p') = None ∧ c_lock (p_cache p') = false
    ∧ dom (c_nodes (p_cache p')) = F ∧ dom (c_keys (p_cache p')) = G
    ∧ p_conn p' = false ∧ p_timer p' = None ∧ p_env p' = p_env p
    ∧ p_snapshots p' = p_snapshots p ∧ db_main (p_db p') = db_main (p_db p).
Proof.
  intros Hi Hh. destruct (cache_free_spec F G (p_env p) (p_cache p) Hi Hh) as (c' & Hrun & Hrest).
  unfold cache_free in Hrun. unfold free_cache. erewrite bind_eq by reflexivity.
  destruct (c_hash (p_cache p)) as [h|]; [|done].
  apply bind_Ok in Hrun as ([] & s1 & H1 & Hrun). apply bind_Ok in Hrun as ([] & s2 & H2 & Hrun).
  apply bind_Ok in Hrun as ([] & s3 & H3 & H4).
  erewrite bind_eq by (apply zoom_eq; exact H1).
  erewrite bind_eq by (apply zoom_eq; destruct s1; exact H2).
  assert (∀ p1, ∃ d, close_sqlite p1 = Ok (tt, with_conn false (with_db d p1))
    ∧ db_main d = db_main (p_db p1)) as Hclose.
  { intros p1. unfold close_sqlite. erewrite bind_eq by reflexivity. destruct (p_conn p1).
    - unfold bind, on_db. pose proof (close_keeps (p_db p1)) as Hk.
      destruct (sqlite3_close (p_db p1)) as [rc d]. by exists d.
    - exists (p_db p1). cbn. by destruct p1. }
  match goal with |- context [bind close_sqlite _ ?p1] => destruct (Hclose p1) as (d & Hc & Hd) end.
  erewrite bind_eq by exact Hc.
  erewrite bind_eq by (apply zoom_eq; destruct s2; exact H3).
  erewrite bind_eq by (apply zoom_eq; destruct s3; exact H4).
  eexists. split; [done|]. cbn. by destruct Hrest as (? & ? & ? & ?).
Qed.
End life.

(** Any text is copied into a key of the domain cache. *)
#[global] Instance dns_text_total E : TextKeyTotal E domain_key node_cache_domain.
Proof.
  constructor. intros t e. cbn. unfold copy_domain.
  destruct (strncpy_bytes_total (c_str t) DOMAIN_MAX_LEN (c_str_terminated t)) as (bs & -> & Hbs).
  cbn [rbind]. rewrite (proj2 (array_set_Ok bs (<[(DOMAIN_MAX_LEN - 1)%nat := 0]> bs) _ 0));
    [|split; [rewrite Hbs; unfold DOMAIN_MAX_LEN; lia|done]].
  eexists _, e. split; [done|]. right. by eexists.
Qed.

(** A text is an address or is refused. *)
#[global] Instance ip_text_total E {HE : RteEnv E} {inet : Inet} {io : InetOk} {HK : UninitMem E ip_key}
    {HKO : UninitKeyOk E} : TextKeyTotal E ip_key node_cache_ip.
Proof.
  constructor. intros t e. cbn. unfold ip_str_to_key. pose proof (uninit_key_len e) as Hlen.
  destruct (uninit e) as [g e']. cbn in Hlen.
  assert (∀ b v, (length b ≤ 16)%nat → ∃ k, (let* a := store (addr g) 0 b in
    Ok (Some (Ok (IpKey v a)), e')) = Ok (Some (Ok k), e')) as Hst.
  { intros b v Hb. unfold store. rewrite decide_True by lia. by eexists. }
  destruct (inet_pton4 (c_str t)) as [b|] eqn:E4; [|destruct (inet_pton6 (c_str t)) as [b|] eqn:E6].
  - destruct (Hst b 4) as [k ->]; [apply pton4_len in E4; lia|]. eexists _, e'. eauto.
  - destruct (Hst b 6) as [k ->]; [apply pton6_len in E6; lia|]. eexists _, e'. eauto.
  - eexists _, e'. eauto.
Qed.
