(* ===== verification/Proc.v ===== *)
(** * The packet path: proc_packets.c

    The state of the worker as the packet path sees it ([world]): the DPDK
    environment, the mbufs the program owns, the ports, the two caches, the
    packet counters of the worker object, and a trace of what happened to the
    mbufs.  An mbuf leaves the store when it is transmitted or freed; using it
    afterwards is [BadPointer], freeing it again [BadFree].  One definition per
    function of [src/worker/src/dpdk_filter/proc_packets.c], with the loop body of
    [pakage_processing] split at its two branches. *)

From Stdlib Require Import ZArith Lia.
From stdpp Require Import prelude gmap strings.
From S2P Require Import Prelude CMem Types Filter Parse Hash Sqlite Cache DomainCache IpCache.

Local Open Scope Z_scope.

(** ** Services outside the program *)

(** Receive and transmit bursts, and what a local variable without initialiser
    holds. *)
Class PacketEnv (E : Type) := {
  rte_eth_rx_burst : E → Z → Z → nat → list rte_mbuf * E;
  rte_eth_tx_burst : E → Z → Z → rte_mbuf → Z * E;
  stack_garbage : E → requested_classification * E
}.

(** The classification service the packet path calls, with a type, a target
    and the struct to fill; the worker object implements it (Worker.v). *)
Class Classifier (E : Type) := {
  worker_classify : string → list Z → requested_classification →
    M E (bool * requested_classification)
}.

(** The checksum of the IPv4 header that starts the given bytes. *)
Class Ipv4Cksum := {
  rte_ipv4_cksum : list Z → Z
}.

(** ** State *)

Inductive event :=
| Sent (port queue : Z) (pkt : ptr) (m : rte_mbuf)
| Freed (pkt : ptr).

Section proc_packets.
Context {E : Type} {HD : RteHash domain_key} {HI : RteHash ip_key}.
Context {HE : RteEnv E} {HP : PacketEnv E} {HC : Classifier E}.
Context {np : NetPtype} {platform : Platform} {inet : Inet} {ck : Ipv4Cksum}.

Record world := World {
  w_env : E;
  w_mbufs : gmap ptr rte_mbuf;
  w_ports : gmap ptr net_port;
  w_dom : cache domain_key node_cache_domain;
  w_ip : cache ip_key node_cache_ip;
  w_received : Z;
  w_passed : Z;
  w_dropped : Z;
  w_trace : list event
}.

Definition with_env (e : E) (w : world) : world :=
  World e (w_mbufs w) (w_ports w) (w_dom w) (w_ip w) (w_received w) (w_passed w)
    (w_dropped w) (w_trace w).
Definition with_mbufs (b : gmap ptr rte_mbuf) (w : world) : world :=
  World (w_env w) b (w_ports w) (w_dom w) (w_ip w) (w_received w) (w_passed w)
    (w_dropped w) (w_trace w).
Definition with_ports (p : gmap ptr net_port) (w : world) : world :=
  World (w_env w) (w_mbufs w) p (w_dom w) (w_ip w) (w_received w) (w_passed w)
    (w_dropped w) (w_trace w).
Definition with_dom (s : E * cache domain_key node_cache_domain) (w : world) : world :=
  World s.1 (w_mbufs w) (w_ports w) s.2 (w_ip w) (w_received w) (w_passed w)
    (w_dropped w) (w_trace w).
Definition with_ip (s : E * cache ip_key node_cache_ip) (w : world) : world :=
  World s.1 (w_mbufs w) (w_ports w) (w_dom w) s.2 (w_received w) (w_passed w)
    (w_dropped w) (w_trace w).
Definition with_counters (r p d : Z) (w : world) : world :=
  World (w_env w) (w_mbufs w) (w_ports w) (w_dom w) (w_ip w) r p d (w_trace w).
Definition emit (ev : event) (w : world) : world :=
  World (w_env w) (w_mbufs w) (w_ports w) (w_dom w) (w_ip w) (w_received w) (w_passed w)
    (w_dropped w) (w_trace w ++ [ev]).

(** The caches and the DPDK environment they share with the rest. *)
Definition on_dom {A} (m : M (E * cache domain_key node_cache_domain) A) : M world A :=
  zoom (λ w, (w_env w, w_dom w)) with_dom m.
Definition on_ip {A} (m : M (E * cache ip_key node_cache_ip) A) : M world A :=
  zoom (λ w, (w_env w, w_ip w)) with_ip m.

(** ** Memory and devices *)

Definition read_mbuf (pkt : ptr) : M world rte_mbuf := λ w,
  match w_mbufs w !! pkt with
  | Some m => Ok (m, w)
  | None => Fault BadPointer
  end.

Definition write_mbuf (pkt : ptr) (off : nat) (bs : list Z) : M world unit :=
  let! m := read_mbuf pkt in
  let! data := lift (store (mb_data m) off bs) in
  modify (λ w, with_mbufs (<[pkt := Mbuf data (mb_data_len m)]> (w_mbufs w)) w).

Definition read_port (p : ptr) : M world net_port := λ w,
  match w_ports w !! p with
  | Some x => Ok (x, w)
  | None => Fault BadPointer
  end.

Definition write_port (p : ptr) (x : net_port) : M world unit :=
  modify (λ w, with_ports (<[p := x]> (w_ports w)) w).

Definition rte_pktmbuf_free (pkt : ptr) : M world unit := λ w,
  match w_mbufs w !! pkt with
  | Some _ => Ok (tt, emit (Freed pkt) (with_mbufs (delete pkt (w_mbufs w)) w))
  | None => Fault BadFree
  end.

(** Transmitting one mbuf: on success it belongs to the driver. *)
Definition eth_tx_burst (port_id queue_number : Z) (pkt : ptr) : M world Z :=
  let! m := read_mbuf pkt in λ w,
  let (r, e) := rte_eth_tx_burst (w_env w) port_id queue_number m in
  if r >=? 1
  then Ok (r, emit (Sent port_id queue_number pkt m)
                (with_mbufs (delete pkt (w_mbufs w)) (with_env e w)))
  else Ok (r, with_env e w).

(** Mbufs the driver hands over, at fresh addresses. *)
Fixpoint rx_mbufs (ms : list rte_mbuf) (b : gmap ptr rte_mbuf) :
    list ptr * gmap ptr rte_mbuf :=
  match ms with
  | [] => ([], b)
  | m :: ms' =>
      let p := fresh (dom b) in
      let (ps, b') := rx_mbufs ms' (<[p := m]> b) in
      (p :: ps, b')
  end.

Definition eth_rx_burst (port_id queue_number : Z) (nb_pkts : nat) : M world (list ptr) := λ w,
  let (ms, e) := rte_eth_rx_burst (w_env w) port_id queue_number nb_pkts in
  let (ps, b) := rx_mbufs ms (w_mbufs w) in
  Ok (ps, with_env e (with_mbufs b w)).

(** The counters of the worker object (worker.cpp), 64-bit and atomic.  The
    functions return without counting when [Worker::instance] is null; the
    constructor sets it and nothing resets it, and packets are processed by
    [MainLoop] only, so that branch is not reached and is left out. *)
Definition record_packet_received : M world unit := modify (λ w,
  with_counters (u64 (w_received w + 1)) (w_passed w) (w_dropped w) w).
Definition record_packet_passed : M world unit := modify (λ w,
  with_counters (w_received w) (u64 (w_passed w + 1)) (w_dropped w) w).
Definition record_packet_dropped : M world unit := modify (λ w,
  with_counters (w_received w) (w_passed w) (u64 (w_dropped w + 1)) w).

(** ** proc_packets.c *)

Definition LIST_EXCEPTION_PORTS : list Z := [22].

(** [struct rte_ether_hdr]: destination at 0, source at 6, type at 12. *)
Definition set_neighbor (p : net_port) (mac : list Z) : net_port :=
  NetPort (port_id p) (iface_name p) (dev_name p) (dev_args p) (mbuf_pool p) (mac_addr p)
    mac true.

Definition learn_neighbor_mac (port pkt port_2 : ptr) : M world unit :=
  let! p := read_port port in
  if negb (neighbor_learned p) then
    let! m := read_mbuf pkt in
    let! neigh_mac := lift (load (mb_data m) 6 6) in
    let! p2 := read_port port_2 in
    if negb (bool_decide (neigh_mac = mac_addr p2)) && negb (bool_decide (neigh_mac = mac_addr p))
    then write_port port (set_neighbor p neigh_mac)
    else ret tt
  else ret tt.

Definition broadcast : list Z := replicate 6 0xff.

(** [struct rte_ipv4_hdr] behind the 14-byte ethernet header: time to live at
    8, checksum at 10. *)
Definition forward_packet_with_rewrite (pkt in_port out_port : ptr) (queue_number : Z) :
    M world unit :=
  learn_neighbor_mac in_port pkt out_port ;;;
  let! out := read_port out_port in
  write_mbuf pkt 6 (mac_addr out) ;;;
  write_mbuf pkt 0 (if neighbor_learned out then neighbor_mac out else broadcast) ;;;
  let! m := read_mbuf pkt in
  let! ether_type := lift (load16 (mb_data m) 12) in
  let transmit :=
    let! r := eth_tx_burst (port_id out) queue_number pkt in
    (if r <? 1 then record_packet_dropped ;;; rte_pktmbuf_free pkt else ret tt) ;;;
    record_packet_passed in
  if ether_type =? rte_cpu_to_be_16 RTE_ETHER_TYPE_IPV4 then
    let! time_to_live := lift (array_get (mb_data m) 22) in
    if time_to_live >? 1 then
      write_mbuf pkt 22 [time_to_live - 1] ;;;
      write_mbuf pkt 24 [0; 0] ;;;
      let! m := read_mbuf pkt in
      let hdr_checksum := u16 (rte_ipv4_cksum (drop 14 (mb_data m))) in
      write_mbuf pkt 24 [hdr_checksum mod 256; hdr_checksum / 256] ;;;
      transmit
    else rte_pktmbuf_free pkt
  else transmit.

Definition package_sending_decision (solution_is_send : bool) (pkt port_in port_out : ptr)
    (queue_number : Z) : M world unit :=
  if solution_is_send then forward_packet_with_rewrite pkt port_in port_out queue_number
  else record_packet_dropped ;;; rte_pktmbuf_free pkt.

Definition check_is_exception (port : Z) : res bool :=
  let host_port := rte_be_to_cpu_16 port in
  let* r := c_for LEN_LIST_EXCEPTION_PORTS 0 (λ i,
    let* x := array_get LIST_EXCEPTION_PORTS i in
    if host_port =? x then Ok (Return true) else Ok Next) in
  Ok (default false r).

(** Asking the classifier about the destination of a packet, with the
    uninitialised [req_clas] of the caller's frame. *)
Definition classify (type : string) (target : list Z) : M world (bool * requested_classification) :=
  λ w,
  let (req_clas, e) := stack_garbage (w_env w) in
  let* (r, e) := worker_classify type target req_clas e in
  Ok (r, with_env e w).

Definition packet_ip_str (info_pac : info_of_pakage) : list Z :=
  if Types.ip_version info_pac =? IP_4
  then inet_ntop4 (le_bytes32 (ip4_dist info_pac))
  else inet_ntop6 (ip6_dist info_pac).

(** The decision on a packet that is not cached: the filter's verdict, or to
    send when the classification fails. *)
Definition decide_ip (policy : BASE_POLICY) (info_pac : info_of_pakage) : M world bool :=
  let! (success, req_clas) := classify "ip" (packet_ip_str info_pac) in
  if (success : bool) then lift (main_filtring_by_ip req_clas policy info_pac) else ret true.

Definition decide_domain (policy : BASE_POLICY) (info_pac : info_of_pakage) : M world bool :=
  let! (success, req_clas) := classify "domain" (domain info_pac) in
  if (success : bool) then lift (main_filtring_by_domain req_clas policy info_pac) else ret true.

(** The branch for packets without a DNS name. *)
Definition process_ip (port_in port_out port_exception : ptr) (queue_number : Z)
    (policy : BASE_POLICY) (pkt : ptr) (info_pac : info_of_pakage) : M world unit :=
  let! exception := lift (check_is_exception (number_port info_pac)) in
  if exception then package_sending_decision true pkt port_in port_exception queue_number else
  let key := packet_ip_key info_pac in
  let! (r, cached_node_ip) := on_ip (lookup_ip_cache key) in
  match (if r >=? 0 then cached_node_ip else None) with
  | Some node =>
      let! n := on_ip (read_node node) in
      package_sending_decision (ni_solution_is_send n) pkt port_in port_out queue_number
  | None =>
      if r =? - ENOENT then
        let! solution_is_send := decide_ip policy info_pac in
        package_sending_decision solution_is_send pkt port_in port_out queue_number ;;;
        let! new_node := on_ip (alloc_node (new_ip_node solution_is_send)) in
        match new_node with
        | Some node => on_ip (add_to_ip_cache key node (ttl_ip policy))
        | None => ret tt
        end
      else record_packet_dropped ;;; rte_pktmbuf_free pkt
  end.

(** The branch for DNS requests. *)
Definition process_domain (port_in port_out port_exception : ptr) (queue_number : Z)
    (policy : BASE_POLICY) (pkt : ptr) (info_pac : info_of_pakage) : M world unit :=
  let! exception := lift (check_is_exception (number_port info_pac)) in
  if exception then package_sending_decision true pkt port_in port_exception queue_number else
  let! (r, cached_node_domain) := on_dom (lookup_dns_cache (domain info_pac)) in
  match (if r >=? 0 then cached_node_domain else None) with
  | Some node =>
      let! n := on_dom (read_node node) in
      package_sending_decision (nd_solution_is_send n) pkt port_in port_out queue_number
  | None =>
      if r =? - ENOENT then
        let! solution_is_send := decide_domain policy info_pac in
        package_sending_decision solution_is_send pkt port_in port_out queue_number ;;;
        let! new_node := on_dom (alloc_node (new_domain_node solution_is_send)) in
        match new_node with
        | Some node => on_dom (add_to_dns_cache (domain info_pac) node (ttl_domain policy))
        | None => ret tt
        end
      else record_packet_dropped ;;; rte_pktmbuf_free pkt
  end.

Definition process_packet (port_in port_out port_exception : ptr) (queue_number : Z)
    (policy : BASE_POLICY) (pkt : ptr) : M world unit :=
  record_packet_received ;;;
  let! m := read_mbuf pkt in
  let! info_pac := lift (parsing_pakage m info_zero) in
  let! c0 := lift (array_get (domain info_pac) 0) in
  if c0 =? 0
  then process_ip port_in port_out port_exception queue_number policy pkt info_pac
  else process_domain port_in port_out port_exception queue_number policy pkt info_pac.

Definition pakage_processing (port_in port_out port_exception : ptr) (queue_number : Z)
    (nb_pkts : nat) (policy : BASE_POLICY) (filtring_is_turned_off : bool) : M world unit :=
  let! inp := read_port port_in in
  let! pkts := eth_rx_burst (port_id inp) queue_number nb_pkts in
  if filtring_is_turned_off then
    for_each (λ pkt,
      record_packet_received ;;;
      package_sending_decision true pkt port_in port_out queue_number) pkts
  else for_each (process_packet port_in port_out port_exception queue_number policy) pkts.

End proc_packets.

Arguments world E {HD HI}.

(** ** Ethernet frames

    The fields of a frame the forwarder reads and writes. *)
Record frame := Frame {
  f_dst : list Z;
  f_src : list Z;
  f_type0 : Z;
  f_type1 : Z;
  f_hdr : list Z;
  f_ttl : Z;
  f_proto : Z;
  f_ck0 : Z;
  f_ck1 : Z;
  f_rest : list Z
}.

Definition frame_bytes (f : frame) : list Z :=
  f_dst f ++ f_src f ++ [f_type0 f; f_type1 f] ++ f_hdr f
  ++ [f_ttl f; f_proto f; f_ck0 f; f_ck1 f] ++ f_rest f.

Definition frame_wf (f : frame) : Prop :=
  length (f_dst f) = 6%nat ∧ length (f_src f) = 6%nat ∧ length (f_hdr f) = 8%nat.

Definition frame_is_ipv4 (f : frame) : bool :=
  le16 (f_type0 f) (f_type1 f) =? rte_cpu_to_be_16 RTE_ETHER_TYPE_IPV4.

Definition set_macs (dst src : list Z) (f : frame) : frame :=
  Frame dst src (f_type0 f) (f_type1 f) (f_hdr f) (f_ttl f) (f_proto f) (f_ck0 f) (f_ck1 f)
    (f_rest f).
Definition set_ttl (t : Z) (f : frame) : frame :=
  Frame (f_dst f) (f_src f) (f_type0 f) (f_type1 f) (f_hdr f) t (f_proto f) (f_ck0 f) (f_ck1 f)
    (f_rest f).
Definition set_ck (c0 c1 : Z) (f : frame) : frame :=
  Frame (f_dst f) (f_src f) (f_type0 f) (f_type1 f) (f_hdr f) (f_ttl f) (f_proto f) c0 c1
    (f_rest f).

(** The bytes of an mbuf reach past the largest IPv4 header (DPDK's buffers
    have two kilobytes), and addresses have six bytes. *)
Definition mbuf_wf (m : rte_mbuf) : Prop := (74 ≤ length (mb_data m))%nat.
Definition port_wf (p : net_port) : Prop :=
  length (mac_addr p) = 6%nat ∧ length (neighbor_mac p) = 6%nat.
Definition ports_wf (ps : gmap ptr net_port) : Prop := map_Forall (λ _, port_wf) ps.

(** What forwarding does to a frame: addresses of the outgoing link, and for
    IPv4 one hop less and a new checksum. *)
Section rewriting.
Context {ck : Ipv4Cksum}.

Definition link_frame (out : net_port) (f : frame) : frame :=
  set_macs (if neighbor_learned out then neighbor_mac out else broadcast) (mac_addr out) f.

Definition hop_frame (f : frame) : frame :=
  let g := set_ck 0 0 (set_ttl (f_ttl f - 1) f) in
  let c := u16 (rte_ipv4_cksum (drop 14 (frame_bytes g))) in
  set_ck (c mod 256) (c / 256) g.

Definition rewrite_frame (out : net_port) (f : frame) : frame :=
  if frame_is_ipv4 f then hop_frame (link_frame out f) else link_frame out f.

(** The port a frame came in on learns its source address once. *)
Definition learn_port (p p2 : net_port) (f : frame) : net_port :=
  if negb (neighbor_learned p) && negb (bool_decide (f_src f = mac_addr p2))
     && negb (bool_decide (f_src f = mac_addr p))
  then set_neighbor p (f_src f) else p.
End rewriting.

Lemma frame_of data :
  (74 ≤ length data)%nat → ∃ f, frame_wf f ∧ frame_bytes f = data ∧ (48 ≤ length (f_rest f))%nat.
Proof.
  intros Hlen.
  set (t := drop 12 data). set (u := drop 22 data).
  assert (length t = (length data - 12)%nat) as Ht by apply length_drop.
  assert (length u = (length data - 22)%nat) as Hu by apply length_drop.
  assert (u = drop 10 t) as Hut by (unfold t, u; by rewrite drop_drop).
  destruct t as [|t0 [|t1 t']] eqn:Et; cbn in Ht; try lia.
  destruct u as [|u0 [|u1 [|u2 [|u3 u']]]] eqn:Eu; cbn in Hu; try lia.
  exists (Frame (take 6 data) (take 6 (drop 6 data)) t0 t1 (take 8 t') u0 u1 u2 u3 u').
  unfold frame_wf, frame_bytes. cbn.
  rewrite !length_take, length_drop. cbn in Hut. split_and!; [lia|lia|lia| |lia].
  rewrite Hut. transitivity (take 6 data ++ take 6 (drop 6 data) ++ t0 :: t1 :: (take 8 t' ++ drop 8 t'));
    [done|].
  rewrite take_drop, <- Et. change t with (drop (6 + 6) data).
  by rewrite <- drop_drop, !take_drop.
Qed.

(** Storing over a part of a buffer of known position. *)
Lemma store_at a b bs c : length b = length bs →
  store (a ++ b ++ c) (length a) bs = Ok (a ++ bs ++ c).
Proof.
  intros Hb. unfold store. rewrite decide_True by (rewrite !length_app; lia).
  rewrite take_app_length. do 3 f_equal.
  rewrite drop_app, drop_ge, app_nil_l by lia.
  replace (length a + length bs - length a)%nat with (length b) by lia.
  by rewrite drop_app_length.
Qed.

Lemma store_src f src : frame_wf f → length src = 6%nat →
  store (frame_bytes f) 6 src = Ok (frame_bytes (set_macs (f_dst f) src f)).
Proof.
  intros (H1 & H2 & H3) Hs. unfold frame_bytes.
  pose proof (store_at (f_dst f) (f_src f) src ([f_type0 f; f_type1 f] ++ f_hdr f
    ++ [f_ttl f; f_proto f; f_ck0 f; f_ck1 f] ++ f_rest f) ltac:(congruence)) as Hst.
  rewrite H1 in Hst. exact Hst.
Qed.

Lemma store_dst f dst : frame_wf f → length dst = 6%nat →
  store (frame_bytes f) 0 dst = Ok (frame_bytes (set_macs dst (f_src f) f)).
Proof.
  intros (H1 & H2 & H3) Hs. apply (store_at [] (f_dst f)). congruence.
Qed.

Lemma store_ttl f t : frame_wf f →
  store (frame_bytes f) 22 [t] = Ok (frame_bytes (set_ttl t f)).
Proof.
  intros (H1 & H2 & H3).
  pose proof (store_at (f_dst f ++ f_src f ++ [f_type0 f; f_type1 f] ++ f_hdr f) [f_ttl f] [t]
    ([f_proto f; f_ck0 f; f_ck1 f] ++ f_rest f) eq_refl) as Hs.
  rewrite !length_app, H1, H2, H3 in Hs. cbn [length Nat.add] in Hs.
  rewrite <- !app_assoc in Hs. exact Hs.
Qed.

Lemma store_ck f c0 c1 : frame_wf f →
  store (frame_bytes f) 24 [c0; c1] = Ok (frame_bytes (set_ck c0 c1 f)).
Proof.
  intros (H1 & H2 & H3).
  pose proof (store_at (f_dst f ++ f_src f ++ [f_type0 f; f_type1 f] ++ f_hdr f
      ++ [f_ttl f; f_proto f]) [f_ck0 f; f_ck1 f] [c0; c1] (f_rest f) eq_refl) as Hs.
  rewrite !length_app, H1, H2, H3 in Hs. cbn [length Nat.add] in Hs.
  rewrite <- !app_assoc in Hs. exact Hs.
Qed.

Lemma load_src f : frame_wf f → load (frame_bytes f) 6 6 = Ok (f_src f).
Proof.
  intros (H1 & H2 & H3). unfold load, frame_bytes.
  rewrite decide_True by (rewrite !length_app, H1, H2, H3; cbn; lia).
  by rewrite (drop_app_length' _ _ 6), (take_app_length' _ _ 6) by done.
Qed.

Lemma frame_byte f i x a b : frame_bytes f = a ++ x :: b → length a = i →
  array_get (frame_bytes f) i = Ok x.
Proof. intros -> <-. apply array_get_Ok. by rewrite list_lookup_middle. Qed.

Lemma load_type f : frame_wf f → load16 (frame_bytes f) 12 = Ok (le16 (f_type0 f) (f_type1 f)).
Proof.
  intros (H1 & H2 & H3). unfold load16.
  rewrite (frame_byte f 12 (f_type0 f) (f_dst f ++ f_src f)
    ([f_type1 f] ++ f_hdr f ++ [f_ttl f; f_proto f; f_ck0 f; f_ck1 f] ++ f_rest f)).
  2:{ unfold frame_bytes. by rewrite <- !app_assoc. }
  2:{ by rewrite length_app, H1, H2. }
  cbn [rbind]. rewrite (frame_byte f _ (f_type1 f) (f_dst f ++ f_src f ++ [f_type0 f])
    (f_hdr f ++ [f_ttl f; f_proto f; f_ck0 f; f_ck1 f] ++ f_rest f)); [done| |].
  - unfold frame_bytes. by rewrite <- !app_assoc.
  - by rewrite !length_app, H1, H2.
Qed.

Lemma load_ttl f : frame_wf f → array_get (frame_bytes f) 22 = Ok (f_ttl f).
Proof.
  intros (H1 & H2 & H3).
  apply (frame_byte f 22 (f_ttl f) (f_dst f ++ f_src f ++ [f_type0 f; f_type1 f] ++ f_hdr f)
    ([f_proto f; f_ck0 f; f_ck1 f] ++ f_rest f)).
  - unfold frame_bytes. by rewrite <- !app_assoc.
  - by rewrite !length_app, H1, H2, H3.
Qed.

(** ** Forwarding one packet *)

Section forwarding.
Context {E : Type} {HD : RteHash domain_key} {HI : RteHash ip_key}.
Context {HP : PacketEnv E} {ck : Ipv4Cksum}.
#[local] Abbreviation world := (world E).
Implicit Types (w : world).

(** The world after an mbuf is gone. *)
Definition consume (pkt : ptr) (ev : event) (w : world) : world :=
  emit ev (with_mbufs (delete pkt (w_mbufs w)) w).

Definition count_dropped (w : world) : world :=
  with_counters (w_received w) (w_passed w) (u64 (w_dropped w + 1)) w.
Definition count_passed (w : world) : world :=
  with_counters (w_received w) (u64 (w_passed w + 1)) (w_dropped w) w.

(** The outcome of forwarding: an IPv4 packet on its last hop is freed and not
    counted; any other is rewritten and handed to the driver, and freed when
    the driver refuses it, in which case both counters advance. *)
Definition forward_result (pkt i o : ptr) (q : Z) (pin pout : net_port) (m : rte_mbuf)
    (f : frame) (w : world) : world :=
  let ports := <[i := learn_port pin pout f]> (w_ports w) in
  let w1 := with_ports ports w in
  let out := default pout (ports !! o) in
  if frame_is_ipv4 f && (f_ttl f <=? 1) then consume pkt (Freed pkt) w1 else
  let m' := Mbuf (frame_bytes (rewrite_frame out f)) (mb_data_len m) in
  let (r, e) := rte_eth_tx_burst (w_env w) (port_id out) q m' in
  let w2 := with_env e w1 in
  if r >=? 1 then count_passed (consume pkt (Sent (port_id out) q pkt m') w2)
  else count_passed (consume pkt (Freed pkt) (count_dropped w2)).

Lemma with_ports_id w : with_ports (w_ports w) w = w.
Proof. by destruct w. Qed.

Lemma learn_spec w port pkt port_2 p p2 m f :
  w_ports w !! port = Some p → w_ports w !! port_2 = Some p2 → w_mbufs w !! pkt = Some m →
  frame_wf f → frame_bytes f = mb_data m →
  learn_neighbor_mac port pkt port_2 w
  = Ok (tt, with_ports (<[port := learn_port p p2 f]> (w_ports w)) w).
Proof.
  intros Hp Hp2 Hm Hf Hb. unfold learn_neighbor_mac, bind, read_port, read_mbuf, learn_port.
  rewrite Hp. destruct (neighbor_learned p); cbn.
  { by rewrite insert_id, with_ports_id. }
  rewrite Hm, <- Hb, load_src by done. cbn. rewrite Hp2.
  destruct (negb (bool_decide (f_src f = mac_addr p2))); cbn;
    [destruct (negb (bool_decide (f_src f = mac_addr p))); cbn|];
    by rewrite ?insert_id, ?with_ports_id by done.
Qed.

Lemma write_mbuf_spec w pkt off bs m data :
  w_mbufs w !! pkt = Some m → store (mb_data m) off bs = Ok data →
  write_mbuf pkt off bs w
  = Ok (tt, with_mbufs (<[pkt := Mbuf data (mb_data_len m)]> (w_mbufs w)) w).
Proof. intros Hm Hs. unfold write_mbuf, bind, read_mbuf. rewrite Hm. cbn. by rewrite Hs. Qed.

Lemma learn_port_wf p p2 f : port_wf p → frame_wf f → port_wf (learn_port p p2 f).
Proof. intros [] (? & ? & ?). unfold learn_port. by destruct (_ && _). Qed.

Lemma learn_ports_wf (ps : gmap ptr net_port) i p p2 f :
  ports_wf ps → ps !! i = Some p → frame_wf f → ports_wf (<[i := learn_port p p2 f]> ps).
Proof. intros Hps Hi Hf. apply map_Forall_insert_2; [|done]. apply learn_port_wf; [by eapply Hps|done]. Qed.

(** Handing a rewritten packet to the driver. *)
Lemma transmit_spec w out q pkt m :
  w_mbufs w !! pkt = Some m →
  (let! r := eth_tx_burst out q pkt in
   (if r <? 1 then record_packet_dropped ;;; rte_pktmbuf_free pkt else ret tt) ;;;
   record_packet_passed) w
  = Ok (tt, let (r, e) := rte_eth_tx_burst (w_env w) out q m in
            if r >=? 1 then count_passed (consume pkt (Sent out q pkt m) (with_env e w))
            else count_passed (consume pkt (Freed pkt) (count_dropped (with_env e w)))).
Proof.
  intros Hm. unfold bind at 1, eth_tx_burst, bind at 1, read_mbuf. rewrite Hm.
  destruct (rte_eth_tx_burst _ _ _ _) as [r e].
  rewrite Z.geb_leb. destruct (1 <=? r) eqn:Er; cbn; rewrite Z.ltb_antisym, Er; [done|]. cbn.
  unfold bind, rte_pktmbuf_free. cbn. by rewrite Hm.
Qed.

Lemma with_mbufs_twice b b' w : with_mbufs b (with_mbufs b' w) = with_mbufs b w.
Proof. done. Qed.

(** The outgoing port after learning, also when it is the port learned on. *)
Lemma learned_out (ps : gmap ptr net_port) i o pin pout f :
  ps !! i = Some pin → ps !! o = Some pout → ports_wf ps → frame_wf f →
  ∃ out, <[i := learn_port pin pout f]> ps !! o = Some out ∧ port_wf out.
Proof.
  intros Hi Ho Hwf Hf. pose proof (learn_ports_wf ps i pin pout f Hwf Hi Hf) as Hp.
  destruct (decide (i = o)) as [->|Hne].
  - eexists. split; [apply lookup_insert_eq|]. eapply Hp, lookup_insert_eq.
  - exists pout. rewrite lookup_insert_ne by done. split; [done|]. by eapply Hwf.
Qed.

(** [forward_packet_with_rewrite] computes [forward_result]. *)
Lemma forward_spec w pkt i o q pin pout m f :
  w_ports w !! i = Some pin → w_ports w !! o = Some pout → ports_wf (w_ports w) →
  w_mbufs w !! pkt = Some m → frame_wf f → frame_bytes f = mb_data m →
  forward_packet_with_rewrite pkt i o q w = Ok (tt, forward_result pkt i o q pin pout m f w).
Proof.
  intros Hi Ho Hwf Hm Hf Hb. unfold forward_packet_with_rewrite, forward_result.
  erewrite bind_eq by (by apply (learn_spec w i pkt o pin pout m f)).
  set (ports := <[i := learn_port pin pout f]> (w_ports w)).
  destruct (learned_out (w_ports w) i o pin pout f) as (out & Hout & Howf); try done. fold ports in Hout.
  unfold bind at 1, read_port. cbn [with_ports w_ports]. rewrite Hout. cbn [default].
  set (w1 := with_ports ports w). destruct Howf as [Hmac Hneigh].
  assert (frame_wf (set_macs (f_dst f) (mac_addr out) f)) as Hf1 by (destruct Hf as (?&?&?); done).
  erewrite bind_eq by (apply (write_mbuf_spec w1 pkt 6 _ m); [done|rewrite <- Hb; by apply store_src]).
  erewrite bind_eq by (eapply write_mbuf_spec; [apply lookup_insert_eq|];
    apply store_dst; [done|by destruct (neighbor_learned out)]).
  set (g := link_frame out f).
  change (set_macs _ _ (set_macs _ _ f)) with g.
  assert (frame_wf g) as Hg.
  { destruct Hf as (?&?&?). unfold g, link_frame, frame_wf. cbn.
    by destruct (neighbor_learned out). }
  cbn [w_mbufs with_mbufs mb_data_len]. rewrite insert_insert_eq, !with_mbufs_twice.
  unfold bind at 1, read_mbuf. cbn [w_mbufs with_mbufs]. rewrite lookup_insert_eq.
  cbn [mb_data]. rewrite load_type by done. unfold bind at 1, lift at 1. cbn [rbind].
  change (le16 (f_type0 g) (f_type1 g) =? rte_cpu_to_be_16 RTE_ETHER_TYPE_IPV4) with (frame_is_ipv4 f).
  unfold rewrite_frame. destruct (frame_is_ipv4 f); cbn [andb]; cycle 1.
  { rewrite (transmit_spec _ _ _ _ (Mbuf (frame_bytes g) (mb_data_len m))) by apply lookup_insert_eq.
    cbn. destruct (rte_eth_tx_burst _ _ _ _) as [r e].
    unfold consume. cbn. by rewrite delete_insert_eq. }
  rewrite load_ttl by done. unfold bind at 1, lift at 1. cbn [rbind].
  change (f_ttl g) with (f_ttl f). rewrite Z.gtb_ltb, (Z.ltb_antisym (f_ttl f) 1).
  destruct (f_ttl f <=? 1); cbn [negb].
  { unfold rte_pktmbuf_free, consume. cbn. by rewrite lookup_insert_eq, delete_insert_eq. }
  erewrite bind_eq by (eapply write_mbuf_spec; [apply lookup_insert_eq|by apply store_ttl]).
  erewrite bind_eq by (eapply write_mbuf_spec; [apply lookup_insert_eq|by apply store_ck]).
  unfold bind at 1, read_mbuf. cbn [w_mbufs with_mbufs mb_data_len].
  rewrite !insert_insert_eq, !with_mbufs_twice, lookup_insert_eq.
  erewrite bind_eq by (eapply write_mbuf_spec; [apply lookup_insert_eq|by apply store_ck]).
  cbn [w_mbufs with_mbufs mb_data_len mb_data]. rewrite !insert_insert_eq, !with_mbufs_twice.
  rewrite (transmit_spec _ _ _ _ (Mbuf (frame_bytes (hop_frame g)) (mb_data_len m)))
    by apply lookup_insert_eq.
  cbn [w_env with_mbufs with_ports w1].
  destruct (rte_eth_tx_burst _ _ _ _) as [r e]. unfold consume. cbn.
  by rewrite delete_insert_eq.
Qed.

End forwarding.
