(* ===== verification/NetPort.v ===== *)
(** * Network ports: net_port.c

    One definition per function of [src/worker/src/dpdk_filter/net_port.c].
    The ethernet devices and the virtual-device bus of DPDK are parameters; the
    state adds to them the [struct net_port]s the program allocated and, as a
    record of the calls made, the virtual devices it created and did not
    remove. *)

From Stdlib Require Import ZArith Lia.
From stdpp Require Import prelude gmap strings.
From S2P Require Import Prelude CMem Types Hash Sqlite Policy Cache DomainCache IpCache Proc.

Local Open Scope Z_scope.

(** ** DPDK's devices *)

(** Calls return 0 or a negative error number ([rte_eth_dev_get_name_by_port]
    the name, or nothing when it fails). *)
Class EthDev (E : Type) := {
  rte_vdev_init : list Z → list Z → E → Z * E;
  rte_vdev_uninit : list Z → E → Z * E;
  rte_eth_dev_count_avail : E → nat;
  rte_eth_dev_info_get : Z → E → Z * E;
  rte_eth_dev_get_name_by_port : Z → E → option (list Z);
  rte_eth_dev_is_valid_port : Z → E → bool;
  rte_eth_dev_configure : Z → E → Z * E;
  rte_eth_rx_queue_setup : Z → E → Z * E;
  rte_eth_tx_queue_setup : Z → E → Z * E;
  rte_eth_macaddr_get : Z → E → (Z * list Z) * E;
  rte_eth_dev_start : Z → E → Z * E;
  rte_eth_promiscuous_enable : Z → E → Z * E;
  rte_eth_dev_stop : Z → E → Z * E;
  rte_eth_dev_close : Z → E → Z * E
}.

Definition EINVAL : Z := 22.

(** ** State *)

Record nstate (E : Type) := NState {
  ns_env : E;
  ns_ports : gmap ptr net_port;
  ns_vdevs : gset (list Z)
}.
Arguments NState {E}.
Arguments ns_env {E}.
Arguments ns_ports {E}.
Arguments ns_vdevs {E}.

(** [snprintf] of a text into an array of zeros. *)
Definition snprintf (cols : nat) (s : list Z) : list Z := pad cols (take (cols - 1) s).

Section net_port.
Context {E : Type} {HE : EthDev E} {HL : LibcEnv E}.
#[local] Abbreviation St := (nstate E).

Definition ns_call {A} (f : E → A * E) : M St A := λ s,
  let (a, e) := f (ns_env s) in Ok (a, NState e (ns_ports s) (ns_vdevs s)).

Definition get_port (p : ptr) : M St net_port := λ s,
  match ns_ports s !! p with
  | Some x => Ok (x, s)
  | None => Fault BadPointer
  end.

Definition set_port (p : ptr) (x : net_port) : M St unit :=
  modify (λ s, NState (ns_env s) (<[p := x]> (ns_ports s)) (ns_vdevs s)).

Definition vdev_init (name args : list Z) : M St Z :=
  let! r := ns_call (rte_vdev_init name args) in
  (if r <? 0 then ret tt else modify (λ s, NState (ns_env s) (ns_ports s) ({[name]} ∪ ns_vdevs s))) ;;;
  ret r.

Definition vdev_uninit (name : list Z) : M St Z :=
  let! r := ns_call (rte_vdev_uninit name) in
  (if r =? 0 then modify (λ s, NState (ns_env s) (ns_ports s) (ns_vdevs s ∖ {[name]}))
   else ret tt) ;;;
  ret r.

(** ** The functions *)

(** The loop over the port numbers, [n] of them left. *)
Fixpoint find_loop (dev_name : list Z) (n : nat) (port_id : Z) : M St (Z * option Z) :=
  match n with
  | O => ret (-1, None)
  | S n' =>
      let! r := ns_call (rte_eth_dev_info_get port_id) in
      if negb (r =? 0) then ret (r, None) else
      let! name := gets (λ s, rte_eth_dev_get_name_by_port port_id (ns_env s)) in
      let! same := match name with
                   | Some name => lift (let* c := strcmp name dev_name in Ok (c =? 0))
                   | None => ret false
                   end in
      if (same : bool) then ret (0, Some port_id) else find_loop dev_name n' (u16 (port_id + 1))
  end.

(** The result and the port number written to [port_id_dev]. *)
Definition find_port_by_dev_name (dev_name : list Z) : M St (Z * option Z) :=
  let! count_ports := gets (λ s, rte_eth_dev_count_avail (ns_env s)) in
  find_loop dev_name count_ports 0.

(** [calloc] of a port and its names; interface names are given by the
    characters of their C strings. *)
Definition init_struct (dev_args dev_name iface : list Z) (mbuf_pool : option ptr) :
    M St (option ptr) :=
  let! ok := ns_call malloc_ok in
  if (ok : bool) then λ s,
    let p := fresh (dom (ns_ports s)) in
    let port := NetPort (u16 (-1)) (pad 32 (take 31 iface)) (snprintf 64 dev_name)
                  (snprintf 256 dev_args) mbuf_pool (zeros 6) (zeros 6) false in
    Ok (Some p, NState (ns_env s) (<[p := port]> (ns_ports s)) (ns_vdevs s))
  else ret None.

Definition init_struct_tap_port (tap_iface_name : list Z) (mbuf_pool : option ptr) :
    M St (option ptr) :=
  init_struct
    (bytes_of_string "iface=" ++ tap_iface_name ++ bytes_of_string ", remote=" ++ tap_iface_name)
    (bytes_of_string "net_tap_" ++ tap_iface_name) tap_iface_name mbuf_pool.

(** [WITH_AF_PACKET] is a compile-time switch. *)
Definition init_struct_af_xdp_port (with_af_packet : bool) (iface_name : list Z)
    (mbuf_pool : option ptr) : M St (option ptr) :=
  if with_af_packet then
    init_struct
      (bytes_of_string "iface=" ++ iface_name
       ++ bytes_of_string ",qpairs=1,blocksz=16384,framesz=2048,framecnt=4096")
      (bytes_of_string "eth_af_packet_" ++ iface_name) iface_name mbuf_pool
  else
    init_struct
      (bytes_of_string "iface=" ++ iface_name ++ bytes_of_string ",start_queue=0,queue_count=1")
      (bytes_of_string "net_af_xdp_" ++ iface_name) iface_name mbuf_pool.

Definition set_port_id (id : Z) (x : net_port) : net_port :=
  NetPort id (iface_name x) (dev_name x) (dev_args x) (mbuf_pool x) (mac_addr x) (neighbor_mac x)
    (neighbor_learned x).

Definition set_mac (mac : list Z) (learned : bool) (x : net_port) : net_port :=
  NetPort (port_id x) (iface_name x) (dev_name x) (dev_args x) (mbuf_pool x) mac (neighbor_mac x)
    learned.

(** [rte_vdev_uninit(dev_name); return r;] *)
Definition give_up_port (dev_name : list Z) (r : Z) : M St Z := vdev_uninit dev_name ;;; ret r.

Definition net_port_init (port : ptr) : M St Z :=
  let! p := get_port port in
  let dev := dev_name p in
  let! r := vdev_init dev (dev_args p) in
  if r <? 0 then ret r else
  let! (r, found) := find_port_by_dev_name dev in
  match found with
  | None => give_up_port dev (-1)
  | Some port_id =>
      set_port port (set_port_id port_id p) ;;;
      let! valid := gets (λ s, rte_eth_dev_is_valid_port port_id (ns_env s)) in
      if negb valid then give_up_port dev (- EINVAL) else
      let! r := ns_call (rte_eth_dev_configure port_id) in
      if r <? 0 then give_up_port dev r else
      let! r := ns_call (rte_eth_rx_queue_setup port_id) in
      if r <? 0 then give_up_port dev r else
      let! r := ns_call (rte_eth_tx_queue_setup port_id) in
      if r <? 0 then give_up_port dev r else
      let! (r, mac) := ns_call (rte_eth_macaddr_get port_id) in
      if r <? 0 then give_up_port dev r else
      set_port port (set_mac mac false (set_port_id port_id p)) ;;;
      ret 0
  end.

Definition net_port_start (port_id : Z) : M St Z :=
  let! r := ns_call (rte_eth_dev_start port_id) in
  if r <? 0 then ret r else
  let! r := ns_call (rte_eth_promiscuous_enable port_id) in
  if negb (r =? 0) then ret r else ret 0.

Definition net_port_destroy (port : option ptr) : M St unit :=
  match port with
  | None => ret tt
  | Some p => λ s,
      match ns_ports s !! p with
      | Some _ => Ok (tt, NState (ns_env s) (delete p (ns_ports s)) (ns_vdevs s))
      | None => Fault BadFree
      end
  end.

Definition net_port_close (port : option ptr) : M St unit :=
  match port with
  | None => ret tt
  | Some port =>
      let! p := get_port port in
      let! r := ns_call (rte_eth_dev_stop (port_id p)) in
      if negb (r =? 0) then ret tt else
      let! r := ns_call (rte_eth_dev_close (port_id p)) in
      if negb (r =? 0) then ret tt else
      let! r := vdev_uninit (dev_name p) in
      if negb (r =? 0) then ret tt else
      set_port port (set_port_id (u16 (-1)) p)
  end.

End net_port.

(** ** Promises of the devices *)

(** Names are strings of at most 64 bytes with their null; an address has six
    bytes; a query changes nothing. *)
Class EthDevOk (E : Type) {HE : EthDev E} := {
  dev_name_str p e n : rte_eth_dev_get_name_by_port p e = Some n → terminated n = true;
  dev_count e : Z.of_nat (rte_eth_dev_count_avail e) ≤ 65535;
  info_get_pure p e : snd (rte_eth_dev_info_get p e) = e;
  macaddr_len p e : length (snd (fst (rte_eth_macaddr_get p e))) = 6%nat
}.

(** Port [p] has the given device name. *)
Definition named {E} {HE : EthDev E} (dev : list Z) (e : E) (p : Z) : bool :=
  match rte_eth_dev_get_name_by_port p e with
  | Some n => bool_decide (cstr n = cstr dev)
  | None => false
  end.

Section ports.
Context {E : Type} {HE : EthDev E} {HEO : EthDevOk E} {HL : LibcEnv E}.
#[local] Abbreviation St := (nstate E).
Implicit Types (s : St).

Lemma name_test dev t p s :
  cstr dev = Some t →
  (match rte_eth_dev_get_name_by_port p (ns_env s) with
   | Some n => lift (let* c := strcmp n dev in Ok (c =? 0))
   | None => ret false
   end) s = Ok (named dev (ns_env s) p, s).
Proof.
  intros Ht. unfold named. destruct (rte_eth_dev_get_name_by_port p (ns_env s)) as [n|] eqn:En; [|done].
  destruct (proj1 (cstr_terminated n) (dev_name_str _ _ _ En)) as [u Hu].
  unfold lift. rewrite (strcmp_eqb n dev u t) by done. cbn [rbind]. do 2 f_equal.
  rewrite Hu, Ht. apply bool_decide_ext. naive_solver.
Qed.

(** The port numbers from [a] on. *)
Definition ids (a : Z) (n : nat) : list Z := (λ j, a + Z.of_nat j) <$> seq 0 n.

Lemma ids_cons a n : ids a (S n) = a :: ids (a + 1) n.
Proof.
  unfold ids. cbn [seq fmap list_fmap]. rewrite Z.add_0_r. f_equal.
  rewrite <- seq_shift, <- list_fmap_compose. apply list_fmap_ext. intros _ j _. cbn. lia.
Qed.

(** The loop stops at the first port with the name, or at the first failing
    query. *)
Lemma find_loop_spec dev t n a s :
  cstr dev = Some t → 0 ≤ a → a + Z.of_nat n ≤ 65535 →
  (∀ p, p ∈ ids a n → fst (rte_eth_dev_info_get p (ns_env s)) = 0) →
  find_loop dev n a s
  = Ok (match List.find (named dev (ns_env s)) (ids a n) with
        | Some p => (0, Some p)
        | None => (-1, None)
        end, s).
Proof.
  intros Ht. revert a. induction n as [|n IH]; intros a Ha Hn Hinfo; [done|].
  rewrite ids_cons in *. cbn [find_loop List.find].
  assert (ns_call (rte_eth_dev_info_get a) s = Ok (0, s)) as Hc.
  { unfold ns_call. pose proof (info_get_pure a (ns_env s)) as Hp.
    specialize (Hinfo a ltac:(left)). destruct (rte_eth_dev_info_get a (ns_env s)) as [r e].
    cbn in Hp, Hinfo. subst. by destruct s. }
  erewrite bind_eq by exact Hc. cbn [negb Z.eqb]. erewrite bind_eq by reflexivity.
  erewrite bind_eq by (by apply (name_test dev t)).
  destruct (named dev (ns_env s) a); [done|].
  unfold u16. rewrite Z.mod_small by lia. apply IH; [lia|lia|].
  intros p Hp. apply Hinfo. by right.
Qed.

(** Looking a port up by its device name gives the first port number with
    that name among the [rte_eth_dev_count_avail] lowest ones, and -1 if there
    is none. *)
Theorem find_port_first dev t s :
  cstr dev = Some t →
  let n := rte_eth_dev_count_avail (ns_env s) in
  (∀ p, p ∈ ids 0 n → fst (rte_eth_dev_info_get p (ns_env s)) = 0) →
  find_port_by_dev_name dev s
  = Ok (match List.find (named dev (ns_env s)) (ids 0 n) with
        | Some p => (0, Some p)
        | None => (-1, None)
        end, s).
Proof.
  intros Ht n Hinfo. unfold find_port_by_dev_name. erewrite bind_eq by reflexivity.
  apply (find_loop_spec dev t); [done|lia| |done]. pose proof (dev_count (ns_env s)). lia.
Qed.

(** The port number the lookup finds: the first one with the name, if no query
    of a number up to it fails. *)
Definition query_ok (e : E) (p : Z) : bool := fst (rte_eth_dev_info_get p e) =? 0.

Definition port_named (dev : list Z) (e : E) (l : list Z) : option Z :=
  match List.find (λ p, negb (query_ok e p) || named dev e p) l with
  | Some p => if query_ok e p then Some p else None
  | None => None
  end.

Lemma find_total dev t n a s :
  cstr dev = Some t → 0 ≤ a → a + Z.of_nat n ≤ 65535 →
  ∃ r, find_loop dev n a s = Ok ((r, port_named dev (ns_env s) (ids a n)), s).
Proof.
  intros Ht. revert a. induction n as [|n IH]; intros a Ha Hn; [by exists (-1)|].
  rewrite ids_cons. unfold port_named. cbn [find_loop List.find].
  pose proof (info_get_pure a (ns_env s)) as Hp. unfold query_ok at 1.
  unfold bind at 1, ns_call. destruct (rte_eth_dev_info_get a (ns_env s)) as [r e] eqn:Eq. cbn in Hp. subst e.
  destruct s as [e ps vs]. cbn [ns_env ns_ports ns_vdevs fst] in *.
  destruct (Z.eqb_spec r 0) as [->|Hr]; cbn [negb orb]; cycle 1.
  { exists r. unfold query_ok. rewrite Eq. cbn. by rewrite (proj2 (Z.eqb_neq r 0)). }
  erewrite bind_eq by reflexivity. erewrite bind_eq by (by apply (name_test dev t)). cbn [ns_env].
  destruct (named dev e a) eqn:En.
  { exists 0. unfold query_ok. by rewrite Eq. }
  unfold u16. rewrite Z.mod_small by lia. apply IH; lia.
Qed.

Lemma port_named_range dev e n p :
  port_named dev e (ids 0 n) = Some p →
  0 ≤ p < Z.of_nat n ∧ named dev e p = true.
Proof.
  unfold port_named. destruct (List.find _ _) as [q|] eqn:Ef; [|done].
  apply List.find_some in Ef as [Hin Hq]. destruct (query_ok e q); [|done]. intros [= <-]. split; [|done].
  apply list_elem_of_In, list_elem_of_fmap in Hin as (j & -> & Hj). apply elem_of_seq in Hj. lia.
Qed.

(** *** What initialising a port does to the devices *)

(** The calls in their order, in the environment each leaves to the next: the
    error they end with (and whether the device exists by then), or the number
    and the address of the port. *)
Definition init_calls (dev args : list Z) (e : E) : (Z * bool * E) + (Z * list Z * E) :=
  let (r, e) := rte_vdev_init dev args e in
  if r <? 0 then inl (r, false, e) else
  match port_named dev e (ids 0 (rte_eth_dev_count_avail e)) with
  | None => inl (-1, true, e)
  | Some id =>
      if negb (rte_eth_dev_is_valid_port id e) then inl (- EINVAL, true, e) else
      let (r, e) := rte_eth_dev_configure id e in
      if r <? 0 then inl (r, true, e) else
      let (r, e) := rte_eth_rx_queue_setup id e in
      if r <? 0 then inl (r, true, e) else
      let (r, e) := rte_eth_tx_queue_setup id e in
      if r <? 0 then inl (r, true, e) else
      let '(r, mac, e) := rte_eth_macaddr_get id e in
      if r <? 0 then inl (r, true, e) else inr (id, mac, e)
  end.

(** The device is asked to go; it stays if it does not. *)
Definition removed (dev : list Z) (s : St) (e : E) (s' : St) : Prop :=
  let (r, e') := rte_vdev_uninit dev e in
  ns_env s' = e' ∧ ns_vdevs s' = if r =? 0 then ns_vdevs s else {[dev]} ∪ ns_vdevs s.

Lemma give_up_spec port dev r s s1 :
  dev ∉ ns_vdevs s → ns_vdevs s1 = {[dev]} ∪ ns_vdevs s →
  delete port (ns_ports s1) = delete port (ns_ports s) →
  ∃ s', give_up_port dev r s1 = Ok (r, s') ∧ removed dev s (ns_env s1) s'
    ∧ delete port (ns_ports s') = delete port (ns_ports s).
Proof.
  intros Hnew Hv Hp. unfold give_up_port, vdev_uninit, ns_call, bind, removed.
  destruct (rte_vdev_uninit dev (ns_env s1)) as [ru e]. cbn.
  destruct (ru =? 0); eexists; (split; [done|]); cbn; rewrite ?Hv; (split; [split|]); try done. set_solver.
Qed.

(** What [net_port_init] has done when it returns [r]. *)
Definition init_result (port : ptr) (p : net_port) (s : St) (r : Z) (s' : St) : Prop :=
  match init_calls (dev_name p) (dev_args p) (ns_env s) with
  | inl (error, created, e) =>
      r = error ∧ r < 0 ∧ delete port (ns_ports s') = delete port (ns_ports s)
      ∧ if (created : bool) then removed (dev_name p) s e s' else s' = NState e (ns_ports s) (ns_vdevs s)
  | inr (id, mac, e) =>
      r = 0 ∧ s' = NState e (<[port := set_mac mac false (set_port_id id p)]> (ns_ports s))
                            ({[dev_name p]} ∪ ns_vdevs s)
      ∧ port_wf (set_mac mac false (set_port_id id p)) ∧ 0 ≤ id < 65535
  end.

Lemma init_cases port p t s :
  ns_ports s !! port = Some p → cstr (dev_name p) = Some t → dev_name p ∉ ns_vdevs s →
  length (neighbor_mac p) = 6%nat →
  ∃ r s', net_port_init port s = Ok (r, s') ∧ init_result port p s r s'.
Proof.
  intros Hp Ht Hnew Hneigh. unfold net_port_init, init_result, init_calls.
  erewrite bind_eq by (unfold get_port; by rewrite Hp).
  unfold vdev_init at 1, ns_call at 1, bind at 1, bind at 1.
  destruct (rte_vdev_init (dev_name p) (dev_args p) (ns_env s)) as [r e].
  destruct (Z.ltb_spec r 0) as [Hr|Hr].
  { erewrite bind_eq by reflexivity. cbn [ret]. rewrite (proj2 (Z.ltb_lt _ _)) by done.
    eexists _, _. split; [done|]. by split_and!. }
  erewrite bind_eq by reflexivity. cbn [ret]. rewrite (proj2 (Z.ltb_ge _ _)) by done. cbn [ns_env ns_ports ns_vdevs].
  set (vs := {[dev_name p]} ∪ ns_vdevs s). pose proof (dev_count e) as Hcount.
  assert (∀ r s2, ns_vdevs s2 = vs → delete port (ns_ports s2) = delete port (ns_ports s) →
    ∃ s', give_up_port (dev_name p) r s2 = Ok (r, s') ∧ removed (dev_name p) s (ns_env s2) s'
      ∧ delete port (ns_ports s') = delete port (ns_ports s)) as Hfail.
  { intros r' s2 Hv Hd. by apply give_up_spec. }
  destruct (find_total (dev_name p) t (rte_eth_dev_count_avail e) 0 (NState e (ns_ports s) vs))
    as (rf & Hfind); [done|lia|cbn; lia|].
  erewrite bind_eq by exact Hfind. cbn [ns_env].
  destruct (port_named _ _ _) as [id|] eqn:Eid; cycle 1.
  { destruct (Hfail (-1) (NState e (ns_ports s) vs)) as (s' & H1 & H2 & H3); [done|done|].
    exists (-1), s'. by split_and!. }
  apply port_named_range in Eid as [Hid _]. erewrite bind_eq by reflexivity. cbn [ns_env ns_ports ns_vdevs].
  set (ps := <[port := set_port_id id p]> (ns_ports s)).
  assert (delete port ps = delete port (ns_ports s)) as Hps by apply delete_insert_eq.
  assert (∀ r e', r < 0 → ∃ r0 s', give_up_port (dev_name p) r (NState e' ps vs) = Ok (r0, s')
    ∧ r0 = r ∧ r0 < 0 ∧ delete port (ns_ports s') = delete port (ns_ports s)
    ∧ removed (dev_name p) s e' s') as Hbad.
  { intros r' e' Hr'. destruct (Hfail r' (NState e' ps vs)) as (s' & H1 & H2 & H3); [done|done|].
    exists r', s'. by split_and!. }
  unfold bind at 1, gets at 1. cbn [ns_env].
  destruct (rte_eth_dev_is_valid_port id e); cbn [negb]; [|by apply Hbad].
  unfold ns_call at 1, bind at 1. cbn [ns_env ns_ports ns_vdevs].
  destruct (rte_eth_dev_configure id e) as [r1 e1]. destruct (Z.ltb_spec r1 0); [by apply Hbad|].
  unfold ns_call at 1, bind at 1. cbn [ns_env ns_ports ns_vdevs].
  destruct (rte_eth_rx_queue_setup id e1) as [r2 e2]. destruct (Z.ltb_spec r2 0); [by apply Hbad|].
  unfold ns_call at 1, bind at 1. cbn [ns_env ns_ports ns_vdevs].
  destruct (rte_eth_tx_queue_setup id e2) as [r3 e3]. destruct (Z.ltb_spec r3 0); [by apply Hbad|].
  unfold ns_call at 1, bind at 1. cbn [ns_env ns_ports ns_vdevs]. pose proof (macaddr_len id e3) as Hlen.
  destruct (rte_eth_macaddr_get id e3) as [[r4 mac] e4]. cbn in Hlen. destruct (Z.ltb_spec r4 0); [by apply Hbad|].
  eexists 0, _. split; [done|]. split; [done|]. split; [cbn; unfold ps; by rewrite insert_insert_eq|].
  split; [done|lia].
Qed.

(** C26: initialising a port of a device that does not exist yet does what the
    calls of the devices say, made in this order: create the device, look its
    number up by its name, check the number, configure it, set its two queues
    up, read its address.  If all succeed the result is 0 and the port has the
    first number with its device's name, the address read for that number, and
    no neighbour learned; at the first one that fails the result is its error,
    the other ports are as they were, and a device that was created is asked to
    go (it stays if [rte_vdev_uninit] fails). *)
Theorem net_port_init_spec port p t s :
  ns_ports s !! port = Some p → cstr (dev_name p) = Some t → dev_name p ∉ ns_vdevs s →
  length (neighbor_mac p) = 6%nat →
  ∃ r s', net_port_init port s = Ok (r, s')
    ∧ match init_calls (dev_name p) (dev_args p) (ns_env s) with
      | inl (error, created, e) =>
          r = error ∧ r < 0 ∧ delete port (ns_ports s') = delete port (ns_ports s)
          ∧ if (created : bool) then removed (dev_name p) s e s'
            else s' = NState e (ns_ports s) (ns_vdevs s)
      | inr (id, mac, e) =>
          r = 0 ∧ s' = NState e (<[port := set_mac mac false (set_port_id id p)]> (ns_ports s))
                                ({[dev_name p]} ∪ ns_vdevs s)
          ∧ port_wf (set_mac mac false (set_port_id id p)) ∧ 0 ≤ id < 65535
      end.
Proof. apply init_cases. Qed.

(** The three calls that take a device down succeed, one after the other. *)
Definition closes (id : Z) (dev : list Z) (e : E) : bool :=
  let (r, e) := rte_eth_dev_stop id e in
  (r =? 0) && let (r, e) := rte_eth_dev_close id e in
  (r =? 0) && let (r, e) := rte_vdev_uninit dev e in (r =? 0).

(** Closing removes the device and marks the port, if these calls succeed;
    otherwise the ports and the devices stay as they are. *)
Lemma close_spec port p s :
  ns_ports s !! port = Some p →
  ∃ s', net_port_close (Some port) s = Ok (tt, s')
    ∧ if closes (port_id p) (dev_name p) (ns_env s)
      then ns_vdevs s' = ns_vdevs s ∖ {[dev_name p]}
           ∧ ns_ports s' = <[port := set_port_id 65535 p]> (ns_ports s)
      else ns_vdevs s' = ns_vdevs s ∧ ns_ports s' = ns_ports s.
Proof.
  intros Hp. unfold net_port_close, closes. erewrite bind_eq by (unfold get_port; by rewrite Hp).
  unfold ns_call at 1, bind at 1. destruct (rte_eth_dev_stop (port_id p) (ns_env s)) as [r e].
  destruct (r =? 0); cbn [andb negb]; [|by eexists].
  unfold ns_call at 1, bind at 1. cbn [ns_env]. destruct (rte_eth_dev_close (port_id p) e) as [r2 e2].
  destruct (r2 =? 0); cbn [andb negb]; [|by eexists].
  unfold vdev_uninit, ns_call, bind. cbn [ns_env]. destruct (rte_vdev_uninit (dev_name p) e2) as [r3 e3].
  destruct (r3 =? 0) eqn:E3; cbn; rewrite E3; by eexists.
Qed.

(** C27: closing a port that was initialised: if stopping and closing the device
    and [rte_vdev_uninit] succeed, the device that was created for the port is
    removed and the port marked as closed; if one of them fails, the device and
    the port are kept as they are.  The other ports are never touched. *)
Theorem net_port_lifecycle port p t s s1 :
  ns_ports s !! port = Some p → cstr (dev_name p) = Some t → dev_name p ∉ ns_vdevs s →
  length (neighbor_mac p) = 6%nat → net_port_init port s = Ok (0, s1) →
  ∃ s2 x y, ns_ports s1 !! port = Some x ∧ net_port_close (Some port) s1 = Ok (tt, s2)
    ∧ ns_ports s2 !! port = Some y ∧ dev_name y = dev_name p
    ∧ delete port (ns_ports s2) = delete port (ns_ports s)
    ∧ if closes (port_id x) (dev_name p) (ns_env s1)
      then ns_vdevs s2 = ns_vdevs s ∧ port_id y = 65535
      else ns_vdevs s2 = {[dev_name p]} ∪ ns_vdevs s ∧ y = x.
Proof.
  intros Hp Ht Hnew Hn Hinit.
  destruct (init_cases port p t s Hp Ht Hnew Hn) as (r & s' & Hrun & Hcase).
  rewrite Hinit in Hrun. injection Hrun as <- <-. unfold init_result in Hcase.
  destruct (init_calls _ _ _) as [[[err created] e]|[[id mac] e]]; [by destruct Hcase as (_ & ? & _)|].
  destruct Hcase as (_ & -> & _). set (s1 := NState _ _ _). set (x := set_mac mac false (set_port_id id p)).
  assert (ns_ports s1 !! port = Some x) as Hx by apply lookup_insert_eq.
  destruct (close_spec port x s1 Hx) as (s2 & Hrun & Hclose). change (dev_name x) with (dev_name p) in Hclose.
  exists s2, x. destruct (closes _ _ _).
  - destruct Hclose as [Hv2 Hps2]. exists (set_port_id 65535 x). rewrite Hps2. split_and!; try done.
    + apply lookup_insert_eq.
    + cbn. by rewrite insert_insert_eq, delete_insert_eq.
    + rewrite Hv2. cbn. set_solver.
  - destruct Hclose as [Hv2 Hps2]. exists x. rewrite Hps2. split_and!; try done. cbn. by rewrite delete_insert_eq.
Qed.
End ports.

(** ** A concrete bus *)

(** Devices in the order they were created. *)
Record bench := Bench { bn_devs : list (list Z) }.

#[global] Instance bench_dev : EthDev bench := {|
  rte_vdev_init name _ e := (0, Bench (bn_devs e ++ [name]));
  rte_vdev_uninit name e := (0, Bench (filter (λ d, d ≠ name) (bn_devs e)));
  rte_eth_dev_count_avail e := Z.to_nat (Z.min 65535 (Z.of_nat (length (bn_devs e))));
  rte_eth_dev_info_get _ e := (0, e);
  rte_eth_dev_get_name_by_port p e := c_str <$> bn_devs e !! Z.to_nat p;
  rte_eth_dev_is_valid_port _ _ := true;
  rte_eth_dev_configure _ e := (0, e);
  rte_eth_rx_queue_setup _ e := (0, e);
  rte_eth_tx_queue_setup _ e := (0, e);
  rte_eth_macaddr_get p e := ((0, replicate 6 (p + 2)), e);
  rte_eth_dev_start _ e := (0, e);
  rte_eth_promiscuous_enable _ e := (0, e);
  rte_eth_dev_stop _ e := (0, e);
  rte_eth_dev_close _ e := (0, e)
|}.

#[global] Instance bench_libc : LibcEnv bench := {| malloc_ok e := (true, e) |}.

#[global] Instance bench_dev_ok : EthDevOk bench.
Proof.
  constructor; try done.
  - intros p e n. cbn. destruct (bn_devs e !! Z.to_nat p); [|done]. intros [= <-].
    apply c_str_terminated.
  - intros e. cbn. lia.
Qed.

(** A tap port just allocated, beside a device that exists. *)
Definition bench_start : nstate bench := NState (Bench [bytes_of_string "net_af_xdp_eth0"]) ∅ ∅.

Definition bench_state : nstate bench :=
  match init_struct_tap_port (bytes_of_string "tap0") None bench_start with
  | Ok (_, s) => s
  | Fault _ => bench_start
  end.

Definition bench_port : net_port := default (NetPort 0 [] [] [] None [] [] false) (ns_ports bench_state !! 1%positive).

Lemma find_port_first_witness :
  find_port_by_dev_name (c_str (bytes_of_string "net_af_xdp_eth0")) bench_state = Ok ((0, Some 0), bench_state).
Proof.
  rewrite (find_port_first (c_str (bytes_of_string "net_af_xdp_eth0")) (bytes_of_string "net_af_xdp_eth0")).
  - vm_compute. reflexivity.
  - vm_compute. reflexivity.
  - done.
Defined.

Lemma net_port_init_spec_witness :
  init_calls (dev_name bench_port) (dev_args bench_port) (ns_env bench_state)
  = inr (1, replicate 6 3, Bench [bytes_of_string "net_af_xdp_eth0"; dev_name bench_port])
  ∧ ∃ r s', net_port_init 1%positive bench_state = Ok (r, s')
    ∧ match init_calls (dev_name bench_port) (dev_args bench_port) (ns_env bench_state) with
      | inl (error, created, e) =>
          r = error ∧ r < 0 ∧ delete 1%positive (ns_ports s') = delete 1%positive (ns_ports bench_state)
          ∧ if (created : bool) then removed (dev_name bench_port) bench_state e s'
            else s' = NState e (ns_ports bench_state) (ns_vdevs bench_state)
      | inr (id, mac, e) =>
          r = 0 ∧ s' = NState e (<[1%positive := set_mac mac false (set_port_id id bench_port)]> (ns_ports bench_state))
                                ({[dev_name bench_port]} ∪ ns_vdevs bench_state)
          ∧ port_wf (set_mac mac false (set_port_id id bench_port)) ∧ 0 ≤ id < 65535
      end.
Proof.
  split; [vm_compute; reflexivity|].
  apply (net_port_init_spec 1%positive bench_port (bytes_of_string "net_tap_tap0") bench_state).
  - vm_compute. reflexivity.
  - vm_compute. reflexivity.
  - intros H. vm_compute in H. discriminate.
  - vm_compute. reflexivity.
Defined.

Definition bench_initialised : nstate bench :=
  match net_port_init 1%positive bench_state with
  | Ok (_, s) => s
  | Fault _ => bench_state
  end.

Lemma net_port_lifecycle_witness :
  ∃ s2 x y, ns_ports bench_initialised !! 1%positive = Some x
    ∧ net_port_close (Some 1%positive) bench_initialised = Ok (tt, s2)
    ∧ ns_ports s2 !! 1%positive = Some y ∧ dev_name y = dev_name bench_port
    ∧ delete 1%positive (ns_ports s2) = delete 1%positive (ns_ports bench_state)
    ∧ if closes (port_id x) (dev_name bench_port) (ns_env bench_initialised)
      then ns_vdevs s2 = ns_vdevs bench_state ∧ port_id y = 65535
      else ns_vdevs s2 = {[dev_name bench_port]} ∪ ns_vdevs bench_state ∧ y = x.
Proof.
  apply (net_port_lifecycle 1%positive bench_port (bytes_of_string "net_tap_tap0") bench_state).
  - vm_compute. reflexivity.
  - vm_compute. reflexivity.
  - intros H. vm_compute in H. discriminate.
  - vm_compute. reflexivity.
  - vm_compute. reflexivity.
Defined.
