(* ===== verification/ProcSpec.v ===== *)
(** * What the packet path guarantees

    The promises of the devices and of the classifier the packet path relies
    on; an abstract machine that decides on each packet by the policy and by two
    maps with time-to-live, reading the clock, asking the classifier and
    allocating memory where the code does; and the theorems that
    [pakage_processing] implements it: every received packet is handed to the
    driver of the port the abstract machine chooses, or freed, and the events,
    counters, cache contents and environment are those of the machine. *)

From Stdlib Require Import ZArith Lia.
From stdpp Require Import prelude gmap strings.
From S2P Require Import Prelude CMem Types Filter Parse Hash Sqlite Cache DomainCache IpCache Proc.

Local Open Scope Z_scope.

(** ** Promises of the environment *)

(** A receive burst yields at most the number of packets asked for, in buffers
    of DPDK's size. *)
Class PacketEnvOk (E : Type) {HP : PacketEnv E} := {
  rx_count e p q n : (length (fst (rte_eth_rx_burst e p q n)) ≤ n)%nat;
  rx_wf e p q n : Forall mbuf_wf (fst (rte_eth_rx_burst e p q n))
}.

(** The packet path hands the classifier a struct it never initialised.  What
    follows holds while the last byte of each of its rows happens to be null;
    [Worker.v] shows what happens otherwise. *)
Class GarbageClean (E : Type) {HP : PacketEnv E} := {
  garbage_clean e : clas_clean (fst (stack_garbage e))
}.

(** Asked with a string and such a struct, the classifier returns, and a
    classification reported as successful is a table of strings. *)
Class ClassifierOk (E : Type) {HC : Classifier E} := {
  classify_ok e ty target req : terminated target = true → clas_clean req →
    ∃ ok c e', worker_classify ty target req e = Ok ((ok, c), e') ∧ (ok = true → clas_wf c)
}.

Section spec.
Context {E : Type} {HD : RteHash domain_key} {HI : RteHash ip_key}.
Context {HDO : RteHashOk domain_key HD} {HIO : RteHashOk ip_key HI}.
Context {HE : RteEnv E} {HP : PacketEnv E} {HC : Classifier E}.
Context {HEO : RteEnvOk E} {HPO : PacketEnvOk E} {HGC : GarbageClean E} {HCO : ClassifierOk E}.
Context {np : NetPtype} {platform : Platform} {inet : Inet} {io : InetOk} {ck : Ipv4Cksum}.
#[local] Abbreviation world := (world E).
Implicit Types (w : world).

(** ** The invariant of the running worker *)

Record world_inv (i o x : ptr) (w : world) : Prop := {
  wi_dom : ∃ F G, cache_inv F G (w_dom w);
  wi_ip : ∃ F G, cache_inv F G (w_ip w);
  wi_dom_table : c_hash (w_dom w) ≠ None;
  wi_ip_table : c_hash (w_ip w) ≠ None;
  wi_ports : ports_wf (w_ports w);
  wi_in : is_Some (w_ports w !! i);
  wi_out : is_Some (w_ports w !! o);
  wi_exception : is_Some (w_ports w !! x)
}.

(** ** The abstract machine *)

Record astate := AState {
  a_dom : gmap domain_key entry;
  a_ip : gmap ip_key entry
}.

Definition abs_world (w : world) : astate := AState (abs (w_dom w)) (abs (w_ip w)).

Inductive route := ToOut | ToException | Drop.

Definition send_route (send : bool) : route := if send then ToOut else Drop.

(** The port a packet carries is 22, in network byte order. *)
Definition exception_port (info : info_of_pakage) : bool :=
  rte_be_to_cpu_16 (number_port info) =? 22.

Definition has_domain (info : info_of_pakage) : Prop :=
  match domain info with [] => False | c :: _ => c ≠ 0 end.

#[global] Instance has_domain_dec info : Decision (has_domain info).
Proof. unfold has_domain. destruct (domain info); apply _. Defined.

(** The classifier can give this answer about a target. *)
Definition answers (ty : string) (target : list Z) (success : bool)
    (c : requested_classification) : Prop :=
  ∃ e req e', worker_classify ty target req e = Ok ((success, c), e').

(** The classifier can succeed, or can fail. *)
Definition may_classify (success : bool) : Prop := ∃ ty target c, answers ty target success c.

(** The classifier is asked with the struct the stack happens to hold. *)
Definition aclassify (ty : string) (target : list Z) (e : E) :
    res (bool * requested_classification * E) :=
  let (req, e') := stack_garbage e in worker_classify ty target req e'.

(** The decision on a packet that is not cached: the filter's verdict on the
    classification of its target, or to send when the classifier fails. *)
Definition averdict (ty : string) (target : list Z) (v : requested_classification → bool) (e : E) :
    res (bool * E) :=
  let* (r, e') := aclassify ty target e in
  let (success, c) := r in
  Ok (if (success : bool) then v c else true, e').

(** The route of a packet, and the decision to be remembered if it is new: port
    22 goes to the exception interface; a live cached decision is followed;
    otherwise the classifier and the filter decide. *)
Definition adecide (policy : BASE_POLICY) (info : info_of_pakage) (s : E * astate) :
    res (route * option bool * (E * astate)) :=
  if exception_port info then Ok (ToException, None, s) else
  if decide (has_domain info) then
    let '(cached, (e, A)) := alookup (K:=domain_key) (domain info) (s.1, a_dom s.2) in
    match cached with
    | Some b => Ok (send_route b, None, (e, AState A (a_ip s.2)))
    | None =>
        let* (b, e) := averdict "domain" (domain info) (λ c, domain_verdict c policy info) e in
        Ok (send_route b, Some b, (e, AState A (a_ip s.2)))
    end
  else
    let '(cached, (e, A)) := alookup (packet_ip_key info) (s.1, a_ip s.2) in
    match cached with
    | Some b => Ok (send_route b, None, (e, AState (a_dom s.2) A))
    | None =>
        let* (b, e) := averdict "ip" (packet_ip_str info) (λ c, ip_verdict c policy info) e in
        Ok (send_route b, Some b, (e, AState (a_dom s.2) A))
    end.

(** A new decision is stored, after the packet is on its way, for the policy's
    time to live: under the copy of the name, or under the address. *)
Definition aremember (policy : BASE_POLICY) (info : info_of_pakage) (new : option bool)
    (s : E * astate) : res (E * astate) :=
  match new with
  | None => Ok s
  | Some b =>
      if decide (has_domain info) then
        let* k := copy_domain (domain info) in
        let (e, A) := ainsert (K:=domain_key) k b (ttl_domain policy) (s.1, a_dom s.2) in
        Ok (e, AState A (a_ip s.2))
      else
        let (e, A) := ainsert (packet_ip_key info) b (ttl_ip policy) (s.1, a_ip s.2) in
        Ok (e, AState (a_dom s.2) A)
  end.

(** ** What happens to the packet *)

(** Where a route leads; [None] is the drop. *)
Definition destination (o x : ptr) (r : route) : option ptr :=
  match r with
  | ToOut => Some o
  | ToException => Some x
  | Drop => None
  end.

(** A packet with frame [f] goes from port [i] to port [p], in environment [e]:
    the incoming port learns its neighbour; a packet whose time to live is over
    is freed (and not counted); any other one is handed to the driver of [p]
    with its header rewritten and counted as passed, and if the driver does not
    take it, it is freed and counted as dropped too.  The environment afterwards
    is the driver's. *)
Definition forwarded (i : ptr) (e e' : E) (p : ptr) (q : Z) (pkt : ptr) (m : rte_mbuf) (f : frame)
    (ev : event) (w w' : world) : Prop :=
  ∃ pin pout out, w_ports w !! i = Some pin ∧ w_ports w !! p = Some pout
  ∧ w_ports w' = <[i := learn_port pin pout f]> (w_ports w) ∧ w_ports w' !! p = Some out
  ∧ if frame_is_ipv4 f && (f_ttl f <=? 1)
    then ev = Freed pkt ∧ e' = e ∧ w_passed w' = w_passed w ∧ w_dropped w' = w_dropped w
    else
      let m' := Mbuf (frame_bytes (rewrite_frame out f)) (mb_data_len m) in
      let (r, e1) := rte_eth_tx_burst e (port_id out) q m' in
      e' = e1 ∧ w_passed w' = u64 (w_passed w + 1)
      ∧ if r >=? 1 then ev = Sent (port_id out) q pkt m' ∧ w_dropped w' = w_dropped w
        else ev = Freed pkt ∧ w_dropped w' = u64 (w_dropped w + 1).

(** The packet is gone and exactly one event tells how: forwarded to its
    destination, or, without one, freed and counted as dropped. *)
Record moved_in (i : ptr) (e e' : E) (dst : option ptr) (q : Z) (pkt : ptr) (m : rte_mbuf)
    (w w' : world) : Prop := {
  mv_mbufs : w_mbufs w' = delete pkt (w_mbufs w);
  mv_received : w_received w' = w_received w;
  mv_event : ∃ ev, w_trace w' = w_trace w ++ [ev] ∧
    match dst with
    | Some p => ∃ f, frame_wf f ∧ frame_bytes f = mb_data m ∧ forwarded i e e' p q pkt m f ev w w'
    | None => ev = Freed pkt ∧ e' = e ∧ w_ports w' = w_ports w
              ∧ w_dropped w' = u64 (w_dropped w + 1) ∧ w_passed w' = w_passed w
    end
}.

Definition moved (dst : option ptr) (q : Z) (pkt : ptr) (m : rte_mbuf) (w w' : world) : Prop :=
  ∃ i e e', moved_in i e e' dst q pkt m w w'.

(** The state the packet path leaves alone while forwarding. *)
Record same_caches (w w' : world) : Prop := {
  sc_dom : w_dom w' = w_dom w;
  sc_ip : w_ip w' = w_ip w
}.

Lemma default_out (ps : gmap ptr net_port) i p' o out :
  ps !! o = Some out →
  ∃ out', <[i := p']> ps !! o = Some out' ∧ default out (<[i := p']> ps !! o) = out'.
Proof.
  intros Ho. destruct (decide (i = o)) as [->|].
  - exists p'. by rewrite lookup_insert_eq.
  - exists out. by rewrite lookup_insert_ne, Ho.
Qed.

Lemma world_inv_ports i o x w w' ps :
  world_inv i o x w → ports_wf ps → dom ps = dom (w_ports w) → same_caches w w' →
  w_ports w' = ps → world_inv i o x w'.
Proof.
  intros [] Hwf Hdom [Hd Hip] Hps.
  constructor; try (rewrite Hd || rewrite Hip); rewrite ?Hps; try done;
    apply elem_of_dom; rewrite Hdom; by apply elem_of_dom.
Qed.

(** Forwarding from [i] to a present port moves the packet there. *)
Lemma forward_moved i o x p q pkt m w :
  world_inv i o x w → is_Some (w_ports w !! p) → w_mbufs w !! pkt = Some m → mbuf_wf m →
  ∃ w', forward_packet_with_rewrite pkt i p q w = Ok (tt, w')
    ∧ world_inv i o x w' ∧ same_caches w w'
    ∧ moved_in i (w_env w) (w_env w') (Some p) q pkt m w w'.
Proof.
  intros Hinv [pout Ho] Hm Hwf. destruct (frame_of _ Hwf) as (f & Hf & Hb & _).
  destruct (wi_in _ _ _ _ Hinv) as [pin Hi].
  pose proof (wi_ports _ _ _ _ Hinv) as Hps.
  rewrite (forward_spec w pkt i p q pin pout m f) by done.
  set (ps := <[i := learn_port pin pout f]> (w_ports w)).
  assert (ports_wf ps) as Hps' by (by apply learn_ports_wf).
  assert (dom ps = dom (w_ports w)) as Hdom by (apply dom_insert_lookup_L; by eexists).
  destruct (default_out (w_ports w) i (learn_port pin pout f) p pout Ho) as (out & Hout & Hdef).
  set (w' := forward_result pkt i p q pin pout m f w).
  assert (same_caches w w' ∧ w_ports w' = ps ∧ w_mbufs w' = delete pkt (w_mbufs w)
    ∧ w_received w' = w_received w ∧ ∃ ev, w_trace w' = w_trace w ++ [ev]
    ∧ forwarded i (w_env w) (w_env w') p q pkt m f ev w w') as (Hc & Hp & Hmb & Hr & ev & Ht & Hev).
  { unfold w', forwarded, forward_result. fold ps in Hout, Hdef |- *. rewrite Hdef.
    destruct (frame_is_ipv4 f && _).
    { do 4 (split; [done|]). exists (Freed pkt). split; [done|]. by exists pin, pout, out. }
    destruct (rte_eth_tx_burst _ _ _ _) as [r e] eqn:Etx.
    destruct (r >=? 1) eqn:Er; do 4 (split; [done|]);
      (eexists; split; [done|]); exists pin, pout, out; rewrite Etx, Er; by split_and!. }
  exists w'. split; [done|]. split; [by apply (world_inv_ports i o x w _ ps)|]. split; [done|].
  constructor; [done|done|]. exists ev. split; [done|]. by exists f.
Qed.

Lemma sending_moved i o x p q send pkt m w :
  world_inv i o x w → is_Some (w_ports w !! p) → w_mbufs w !! pkt = Some m → mbuf_wf m →
  ∃ w', package_sending_decision send pkt i p q w = Ok (tt, w')
    ∧ world_inv i o x w' ∧ same_caches w w'
    ∧ moved_in i (w_env w) (w_env w') (if send then Some p else None) q pkt m w w'.
Proof.
  intros Hinv Hp Hm Hwf. unfold package_sending_decision. destruct send.
  { by apply forward_moved. }
  unfold bind, record_packet_dropped, modify, rte_pktmbuf_free. cbn. rewrite Hm.
  eexists. split; [done|]. split; [by apply (world_inv_ports i o x w _ (w_ports w)); destruct Hinv|].
  split; [done|]. constructor; [done|done|]. by exists (Freed pkt).
Qed.

(** ** The caches within the world *)

(** Only the environment and the caches change. *)
Record same_plane (w w' : world) : Prop := {
  sp_mbufs : w_mbufs w' = w_mbufs w;
  sp_ports : w_ports w' = w_ports w;
  sp_counters : w_received w' = w_received w ∧ w_passed w' = w_passed w
                ∧ w_dropped w' = w_dropped w;
  sp_trace : w_trace w' = w_trace w
}.

Lemma moved_plane i e e' dst q pkt m w1 w2 w3 w4 :
  same_plane w1 w2 → moved_in i e e' dst q pkt m w2 w3 → same_plane w3 w4 →
  moved_in i e e' dst q pkt m w1 w4.
Proof.
  intros [Hm Hp (Hr & Hpa & Hd) Ht] [Mm Mr (ev & Me & Mdst)] [Hm' Hp' (Hr' & Hpa' & Hd') Ht'].
  constructor; [congruence|congruence|]. exists ev. split; [congruence|].
  destruct dst as [p|]; unfold forwarded in *; rewrite ?Hp', ?Hpa', ?Hd', <- ?Hpa, <- ?Hd, <- ?Hp; done.
Qed.

Lemma world_inv_with_ip i o x w e c F G :
  world_inv i o x w → cache_inv F G c → c_hash c ≠ None → world_inv i o x (with_ip (e, c) w).
Proof. intros [] ? ?. constructor; cbn; eauto. Qed.

Lemma world_inv_with_dom i o x w e c F G :
  world_inv i o x w → cache_inv F G c → c_hash c ≠ None → world_inv i o x (with_dom (e, c) w).
Proof. intros [] ? ?. constructor; cbn; eauto. Qed.

Lemma on_ip_store k n ttl w :
  (let! new_node := on_ip (alloc_node n) in
   match new_node with Some p => on_ip (add_to_ip_cache k p ttl) | None => ret tt end) w
  = on_ip (cache_store k n ttl) w.
Proof.
  unfold cache_store, on_ip, zoom, bind. by destruct (alloc_node n _) as [[[p|] [e c]]|].
Qed.

Lemma on_dom_store d k n ttl w :
  copy_domain d = Ok k →
  (let! new_node := on_dom (alloc_node n) in
   match new_node with Some p => on_dom (add_to_dns_cache d p ttl) | None => ret tt end) w
  = on_dom (cache_store k n ttl) w.
Proof.
  intros Hd. unfold cache_store, on_dom, zoom, bind, add_to_dns_cache. rewrite Hd.
  by destruct (alloc_node n _) as [[[p|] [e c]]|].
Qed.

(** Asking the classifier changes the environment only, as the abstract machine
    says. *)
Lemma classify_spec ty target w :
  terminated target = true →
  ∃ success c e, classify ty target w = Ok ((success, c), with_env e w)
    ∧ aclassify ty target (w_env w) = Ok ((success, c), e) ∧ (success = true → clas_wf c).
Proof.
  intros Ht. unfold classify, aclassify. pose proof (garbage_clean (w_env w)) as Hclean.
  destruct (stack_garbage (w_env w)) as [req e1]. cbn in Hclean.
  destruct (classify_ok e1 ty target req Ht Hclean) as (success & c & e2 & Hrun & Hwf).
  exists success, c, e2. by rewrite Hrun.
Qed.

(** What the answer of the classifier may be. *)
Lemma averdict_cases ty target v e b e' :
  terminated target = true → averdict ty target v e = Ok (b, e') →
  ∃ success c, answers ty target success c ∧ if success then clas_wf c ∧ b = v c else b = true.
Proof.
  intros Ht. unfold averdict, aclassify. pose proof (garbage_clean e) as Hclean.
  destruct (stack_garbage e) as [req e1]. cbn in Hclean.
  destruct (classify_ok e1 ty target req Ht Hclean) as (success & c & e2 & Hrun & Hwf).
  rewrite Hrun. cbn. intros [= <- <-]. exists success, c. split; [by exists e1, req, e2|].
  destruct success; auto.
Qed.

Lemma packet_ip_str_terminated info : info_wf info → terminated (packet_ip_str info) = true.
Proof.
  intros Hi. apply cstr_terminated. unfold packet_ip_str. destruct (_ =? _).
  - destruct (ntop4_str (le_bytes32 (ip4_dist info))) as [s Hs]; [done|by exists s].
  - destruct (ntop6_str (ip6_dist info)) as [s Hs]; [apply Hi|by exists s].
Qed.

Lemma check_is_exception_eq info :
  check_is_exception (number_port info) = Ok (exception_port info).
Proof.
  unfold check_is_exception, exception_port.
  rewrite (c_for_scan0 (λ _, false) (λ a, rte_be_to_cpu_16 (number_port info) =? a) true
    LIST_EXCEPTION_PORTS); [|done|].
  - cbn. rewrite orb_false_r. by destruct (_ =? _).
  - intros j a Ha _. unfold array_get. rewrite Ha. cbn. by destruct (_ =? _).
Qed.

(** ** One packet *)

(** The packet is routed as the abstract machine decides: the decision in the
    present environment and caches, the packet on its way, the decision
    remembered. *)
Definition routed (i o x : ptr) (q : Z) (policy : BASE_POLICY) (info : info_of_pakage)
    (pkt : ptr) (m : rte_mbuf) (w w' : world) : Prop :=
  ∃ rt new e1 s1 e2,
    adecide policy info (w_env w, abs_world w) = Ok (rt, new, (e1, s1))
    ∧ moved_in i e1 e2 (destination o x rt) q pkt m w w'
    ∧ aremember policy info new (e2, s1) = Ok (w_env w', abs_world w').

Lemma destination_send o x b : destination o x (send_route b) = if b then Some o else None.
Proof. by destruct b. Qed.

Lemma same_plane_ip e c w : same_plane w (with_ip (e, c) w).
Proof. by constructor. Qed.
Lemma same_plane_dom e c w : same_plane w (with_dom (e, c) w).
Proof. by constructor. Qed.
Lemma same_plane_refl w : same_plane w w.
Proof. by constructor. Qed.

(** An exception port sends the packet to the exception interface. *)
Lemma exception_routed i o x q policy info pkt m w :
  world_inv i o x w → exception_port info = true →
  w_mbufs w !! pkt = Some m → mbuf_wf m →
  ∃ w', package_sending_decision true pkt i x q w = Ok (tt, w')
    ∧ world_inv i o x w' ∧ routed i o x q policy info pkt m w w'.
Proof.
  intros Hinv Hex Hm Hwf.
  destruct (sending_moved i o x x q true pkt m w Hinv) as (w' & Hrun & Hinv' & [Hd Hi] & Hmv);
    try done; [apply Hinv|].
  exists w'. split; [done|]. split; [done|]. exists ToException, None. do 3 eexists.
  unfold adecide. rewrite Hex. split; [done|]. split; [exact Hmv|].
  unfold aremember, abs_world. by rewrite Hd, Hi.
Qed.

(** The decision on a miss: what the filter says of the classification. *)
Lemma decide_ip_spec policy info w :
  policy_wf policy → overrun_wf policy → info_wf info →
  ∃ send e, decide_ip policy info w = Ok (send, with_env e w)
    ∧ averdict "ip" (packet_ip_str info) (λ c, ip_verdict c policy info) (w_env w) = Ok (send, e).
Proof.
  intros Hp Ho Hi. destruct (classify_spec "ip" (packet_ip_str info) w)
    as (success & c & e & Hrun & Ha & Hc); [by apply packet_ip_str_terminated|].
  unfold decide_ip, averdict. erewrite bind_eq by exact Hrun. rewrite Ha. cbn.
  destruct success; [|by eexists _, _].
  eexists _, _. split; [unfold lift; by rewrite ip_verdict_eq by auto|done].
Qed.

Lemma decide_domain_spec policy info w :
  policy_wf policy → overrun_wf policy → info_wf info →
  ∃ send e, decide_domain policy info w = Ok (send, with_env e w)
    ∧ averdict "domain" (domain info) (λ c, domain_verdict c policy info) (w_env w) = Ok (send, e).
Proof.
  intros Hp Ho Hi. destruct (classify_spec "domain" (domain info) w)
    as (success & c & e & Hrun & Ha & Hc); [apply Hi|].
  unfold decide_domain, averdict. erewrite bind_eq by exact Hrun. rewrite Ha. cbn.
  destruct success; [|by eexists _, _].
  eexists _, _. split; [unfold lift; by rewrite domain_verdict_eq by auto|done].
Qed.

(** Environment changes do not touch the invariant. *)
Lemma world_inv_with_env i o x w e : world_inv i o x w → world_inv i o x (with_env e w).
Proof. by intros []. Qed.

Lemma process_ip_spec i o x q policy pkt info m w :
  world_inv i o x w → policy_wf policy → overrun_wf policy → info_wf info →
  ¬ has_domain info → w_mbufs w !! pkt = Some m → mbuf_wf m →
  ∃ w', process_ip i o x q policy pkt info w = Ok (tt, w')
    ∧ world_inv i o x w' ∧ routed i o x q policy info pkt m w w'.
Proof.
  intros Hinv Hp Ho Hi Hdom Hm Hwf. unfold process_ip. rewrite check_is_exception_eq, bind_lift.
  destruct (exception_port info) eqn:Hex; [by apply exception_routed|].
  destruct (wi_ip _ _ _ _ Hinv) as (F & G & Hc).
  destruct (lookup_decision F G (w_env w) (w_ip w) (packet_ip_key info) Hc
    (wi_ip_table _ _ _ _ Hinv)) as (r & node & e1 & c1 & Hrun & Hc1 & Hh1 & Hdec).
  erewrite bind_eq by (apply zoom_eq; exact Hrun).
  set (w1 := with_ip (e1, c1) w).
  assert (world_inv i o x w1) as Hinv1 by (by eapply world_inv_with_ip).
  unfold routed, adecide. rewrite Hex, decide_False by done. cbn [fst snd abs_world a_ip a_dom].
  cbn beta iota. destruct node as [p|].
  - destruct Hdec as (n & Hr & Hn & ->). rewrite Z.geb_leb, (proj2 (Z.leb_le _ _)) by done.
    erewrite bind_eq by (apply zoom_eq; unfold read_node; cbn; by rewrite Hn).
    change (with_ip (w_env w1, w_ip w1) w1) with w1.
    destruct (sending_moved i o x o q (ni_solution_is_send n) pkt m w1 Hinv1)
      as (w2 & Hrun2 & Hinv2 & [Hd2 Hi2] & Hmv); try done; [apply Hinv1|].
    exists w2. split; [done|]. split; [done|]. do 5 eexists. split; [done|].
    rewrite destination_send. split; [by eapply moved_plane; [|exact Hmv|apply same_plane_refl]|].
    unfold aremember, abs_world. by rewrite Hd2, Hi2.
  - destruct Hdec as (-> & ->). change (if - ENOENT >=? 0 then None else None) with (@None ptr).
    cbn iota. rewrite Z.eqb_refl.
    destruct (decide_ip_spec policy info w1 Hp Ho Hi) as (send & e2 & Hrun2 & Hv).
    erewrite bind_eq by exact Hrun2. set (w2 := with_env e2 w1). cbn in Hv. rewrite Hv.
    destruct (sending_moved i o x o q send pkt m w2)
      as (w3 & Hrun3 & Hinv3 & [Hd3 Hi3] & Hmv); try done;
      [by apply world_inv_with_env|apply Hinv1|].
    erewrite bind_eq by exact Hrun3. rewrite on_ip_store.
    destruct (wi_ip _ _ _ _ Hinv3) as (F3 & G3 & Hc3).
    destruct (store_decision F3 G3 (w_env w3) (w_ip w3) (packet_ip_key info) (new_ip_node send)
      (ttl_ip policy) Hc3 (wi_ip_table _ _ _ _ Hinv3))
      as (e4 & c4 & Hrun4 & (F4 & G4 & Hc4) & Hh4 & Hins).
    exists (with_ip (e4, c4) w3). split; [by apply zoom_eq|].
    split; [by eapply world_inv_with_ip|]. do 5 eexists. split; [done|].
    rewrite destination_send. split.
    + eapply moved_plane; [|exact Hmv|by apply same_plane_ip]. by constructor.
    + unfold aremember. rewrite decide_False by done. cbn in *. rewrite Hi3 in Hins. cbn in Hins.
      rewrite Hins. unfold abs_world. cbn. by rewrite Hd3.
Qed.

(** The domain of a parsed packet can be copied into a key. *)
Lemma copy_domain_wf info : info_wf info → ∃ k, copy_domain (domain info) = Ok k.
Proof.
  intros Hi. destruct (proj1 (cstr_terminated _) (wf_domain_term _ Hi)) as [s Hs].
  exists (pad DOMAIN_MAX_LEN s). apply copy_domain_pad; [done|].
  rewrite <- (wf_domain_len _ Hi). by apply terminated_cstr_length.
Qed.

Lemma process_domain_spec i o x q policy pkt info m w :
  world_inv i o x w → policy_wf policy → overrun_wf policy → info_wf info →
  has_domain info → w_mbufs w !! pkt = Some m → mbuf_wf m →
  ∃ w', process_domain i o x q policy pkt info w = Ok (tt, w')
    ∧ world_inv i o x w' ∧ routed i o x q policy info pkt m w w'.
Proof.
  intros Hinv Hp Ho Hi Hdom Hm Hwf.
  destruct (copy_domain_wf info Hi) as [k Hk]. unfold process_domain. rewrite check_is_exception_eq, bind_lift.
  destruct (exception_port info) eqn:Hex; [by apply exception_routed|].
  destruct (wi_dom _ _ _ _ Hinv) as (F & G & Hc).
  destruct (lookup_decision F G (w_env w) (w_dom w) (domain info) Hc
    (wi_dom_table _ _ _ _ Hinv)) as (r & node & e1 & c1 & Hrun & Hc1 & Hh1 & Hdec).
  erewrite bind_eq by (apply zoom_eq; exact Hrun).
  set (w1 := with_dom (e1, c1) w).
  assert (world_inv i o x w1) as Hinv1 by (by eapply world_inv_with_dom).
  unfold routed, adecide. rewrite Hex, decide_True by done. cbn [fst snd abs_world a_ip a_dom].
  cbn beta iota. destruct node as [p|].
  - destruct Hdec as (n & Hr & Hn & ->). rewrite Z.geb_leb, (proj2 (Z.leb_le _ _)) by done.
    erewrite bind_eq by (apply zoom_eq; unfold read_node; cbn; by rewrite Hn).
    change (with_dom (w_env w1, w_dom w1) w1) with w1.
    destruct (sending_moved i o x o q (nd_solution_is_send n) pkt m w1 Hinv1)
      as (w2 & Hrun2 & Hinv2 & [Hd2 Hi2] & Hmv); try done; [apply Hinv1|].
    exists w2. split; [done|]. split; [done|]. do 5 eexists. split; [done|].
    rewrite destination_send. split; [by eapply moved_plane; [|exact Hmv|apply same_plane_refl]|].
    unfold aremember, abs_world. by rewrite Hd2, Hi2.
  - destruct Hdec as (-> & ->). change (if - ENOENT >=? 0 then None else None) with (@None ptr).
    cbn iota. rewrite Z.eqb_refl.
    destruct (decide_domain_spec policy info w1 Hp Ho Hi) as (send & e2 & Hrun2 & Hv).
    erewrite bind_eq by exact Hrun2. set (w2 := with_env e2 w1). cbn in Hv. rewrite Hv.
    destruct (sending_moved i o x o q send pkt m w2)
      as (w3 & Hrun3 & Hinv3 & [Hd3 Hi3] & Hmv); try done;
      [by apply world_inv_with_env|apply Hinv1|].
    erewrite bind_eq by exact Hrun3. rewrite (on_dom_store _ k) by done.
    destruct (wi_dom _ _ _ _ Hinv3) as (F3 & G3 & Hc3).
    destruct (store_decision F3 G3 (w_env w3) (w_dom w3) k (new_domain_node send)
      (ttl_domain policy) Hc3 (wi_dom_table _ _ _ _ Hinv3))
      as (e4 & c4 & Hrun4 & (F4 & G4 & Hc4) & Hh4 & Hins).
    exists (with_dom (e4, c4) w3). split; [by apply zoom_eq|].
    split; [by eapply world_inv_with_dom|]. do 5 eexists. split; [done|].
    rewrite destination_send. split.
    + eapply moved_plane; [|exact Hmv|by apply same_plane_dom]. by constructor.
    + unfold aremember. rewrite decide_True, Hk by done. cbn in *. rewrite Hd3 in Hins. cbn in Hins.
      rewrite Hins. unfold abs_world. cbn. by rewrite Hi3.
Qed.

Definition count_received (w : world) : world :=
  with_counters (u64 (w_received w + 1)) (w_passed w) (w_dropped w) w.

Lemma process_packet_spec i o x q policy pkt info m w :
  world_inv i o x w → policy_wf policy → overrun_wf policy →
  w_mbufs w !! pkt = Some m → mbuf_wf m → parsing_pakage m info_zero = Ok info →
  ∃ w', process_packet i o x q policy pkt w = Ok (tt, w')
    ∧ world_inv i o x w' ∧ routed i o x q policy info pkt m (count_received w) w'.
Proof.
  intros Hinv Hp Ho Hm Hwf Hparse. unfold process_packet.
  assert (info_wf info) as Hi by (by eapply parsing_pakage_wf_ok; [apply info_zero_wf|]).
  erewrite bind_eq by reflexivity. fold (count_received w).
  erewrite bind_eq by (unfold read_mbuf; cbn; by rewrite Hm).
  rewrite Hparse, bind_lift. assert (world_inv i o x (count_received w)) as Hinv' by by destruct Hinv.
  destruct (array_get_lt (domain info) 0) as (c0 & -> & Hc0).
  { rewrite (wf_domain_len _ Hi). unfold DOMAIN_MAX_LEN. lia. }
  rewrite bind_lift. destruct (domain info) as [|c d] eqn:Ed; cbn in Hc0; simplify_eq.
  destruct (Z.eqb_spec c0 0) as [->|Hne].
  - apply process_ip_spec; try done. unfold has_domain. rewrite Ed. lia.
  - apply process_domain_spec; try done. unfold has_domain. by rewrite Ed.
Qed.

(** ** Bursts *)

(** A burst of packets routed one after the other. *)
Inductive burst (i o x : ptr) (q : Z) (policy : BASE_POLICY) :
    list (ptr * rte_mbuf * info_of_pakage) → world → world → Prop :=
| B_nil w : burst i o x q policy [] w w
| B_cons pkt m info l w w1 w2 :
    routed i o x q policy info pkt m (count_received w) w1 →
    burst i o x q policy l w1 w2 →
    burst i o x q policy ((pkt, m, info) :: l) w w2.

(** The packets of a burst are present, parse, and are distinct. *)
Definition burst_ok (l : list (ptr * rte_mbuf * info_of_pakage)) (b : gmap ptr rte_mbuf) : Prop :=
  NoDup (l.*1).*1
  ∧ Forall (λ '(pkt, m, info), b !! pkt = Some m ∧ mbuf_wf m
                              ∧ parsing_pakage m info_zero = Ok info) l.

Lemma burst_spec i o x q policy l w :
  world_inv i o x w → policy_wf policy → overrun_wf policy → burst_ok l (w_mbufs w) →
  ∃ w', for_each (process_packet i o x q policy) (l.*1).*1 w = Ok (tt, w')
    ∧ world_inv i o x w' ∧ burst i o x q policy l w w'.
Proof.
  intros Hinv Hp Ho. revert w Hinv. induction l as [|[[pkt m] info] l IH]; intros w Hinv [Hnd Hall].
  { exists w. split; [done|]. split; [done|constructor]. }
  apply NoDup_cons in Hnd as [Hnot Hnd]. apply Forall_cons in Hall as [(Hm & Hwf & Hparse) Hall].
  destruct (process_packet_spec i o x q policy pkt info m w) as (w1 & Hrun & Hinv1 & Hr); try done.
  cbn in Hnot |- *. erewrite bind_eq by exact Hrun.
  pose proof Hr as (rt & new & e1 & s1 & e2 & _ & [Hb _ _] & _).
  destruct (IH w1 Hinv1) as (w2 & Hrun2 & Hinv2 & Hburst).
  { split; [done|]. rewrite Hb. apply Forall_forall. intros [[pkt' m'] info'] Hin.
    rewrite Forall_forall in Hall. destruct (Hall _ Hin) as (Hm' & ? & ?).
    split; [|done]. cbn. rewrite lookup_delete_ne; [done|]. intros <-. apply Hnot.
    apply list_elem_of_fmap. exists (pkt, m'). split; [done|].
    apply list_elem_of_fmap. by exists (pkt, m', info'). }
  exists w2. split; [done|]. split; [done|]. by econstructor.
Qed.

(** The addresses a receive burst allocates are new and distinct, and giving
    them all back restores the store. *)
Lemma rx_mbufs_spec ms b ps b' :
  rx_mbufs ms b = (ps, b') →
  NoDup ps ∧ Forall (λ p, b !! p = None) ps ∧ length ps = length ms
  ∧ Forall2 (λ p m, b' !! p = Some m) ps ms ∧ b ⊆ b' ∧ foldl (λ c p, delete p c) b' ps = b.
Proof.
  revert b ps b'. induction ms as [|m ms IH]; intros b ps b' Hrx; cbn in Hrx.
  { simplify_eq. split_and!; try constructor; done. }
  set (p := fresh (dom b)) in *. destruct (rx_mbufs ms (<[p := m]> b)) as [ps' b1] eqn:Erx.
  simplify_eq. destruct (IH _ _ _ Erx) as (Hnd & Hnew & Hlen & Hf & Hsub & Hdel).
  assert (b !! p = None) as Hp by apply not_elem_of_dom, is_fresh.
  assert (p ∉ ps') as Hnot.
  { intros Hin. rewrite Forall_forall in Hnew. apply Hnew in Hin. by rewrite lookup_insert_eq in Hin. }
  split_and!.
  - by constructor.
  - constructor; [done|]. eapply Forall_impl; [exact Hnew|]. intros p' Hp'.
    by apply lookup_insert_None in Hp' as [? _].
  - cbn. by rewrite Hlen.
  - constructor; [|done]. eapply lookup_weaken; [apply lookup_insert_eq|done].
  - etrans; [by apply insert_subseteq|done].
  - cbn. assert (foldl (λ c p, delete p c) (delete p b') ps' = delete p (<[p := m]> b)) as ->.
    { rewrite <- Hdel. clear. revert b'. induction ps' as [|p' ps' IH]; intros b'; [done|].
      cbn. rewrite <- IH. by rewrite delete_delete. }
    by apply delete_insert_id.
Qed.

Definition event_pkt (ev : event) : ptr :=
  match ev with
  | Sent _ _ pkt _ => pkt
  | Freed pkt => pkt
  end.

(** One event for the packet; a drop frees it. *)
Lemma moved_event i e e' dst q pkt m w w' :
  moved_in i e e' dst q pkt m w w' →
  ∃ ev, w_trace w' = w_trace w ++ [ev] ∧ event_pkt ev = pkt ∧ (dst = None → ev = Freed pkt).
Proof.
  intros [_ _ (ev & Ht & Hev)]. exists ev. split; [done|].
  destruct dst as [p|]; [|by destruct Hev as (-> & _)]. split; [|done].
  destruct Hev as (f & _ & _ & pin & pout & out & _ & _ & _ & _ & Hev).
  destruct (_ && _); [by destruct Hev as (-> & _)|].
  cbn zeta in Hev. destruct (rte_eth_tx_burst _ _ _ _) as [r e1]. destruct Hev as (_ & _ & Hev).
  by destruct (r >=? 1); destruct Hev as (-> & _).
Qed.

Lemma burst_summary i o x q policy l w w' :
  burst i o x q policy l w w' →
  w_mbufs w' = foldl (λ c p, delete p c) (w_mbufs w) (l.*1).*1
  ∧ u64 (w_received w') = u64 (w_received w + Z.of_nat (length l))
  ∧ ∃ evs, w_trace w' = w_trace w ++ evs ∧ event_pkt <$> evs = (l.*1).*1.
Proof.
  induction 1 as [w|pkt m info l w w1 w2 (rt & new & e1 & s1 & e2 & _ & Hmv & _) _ IH].
  { split; [done|]. rewrite Z.add_0_r. split; [done|]. exists []. by rewrite app_nil_r. }
  destruct IH as (-> & Hrec & evs & Ht & Hpk).
  destruct (moved_event _ _ _ _ _ _ _ _ _ Hmv) as (ev & Ht1 & Hpk1 & _).
  destruct Hmv as [Hmb Hr1 _]. split; [by rewrite Hmb|]. split.
  - rewrite Hrec, Hr1. cbn [w_received count_received with_counters].
    unfold u64. cbn [length]. rewrite Nat2Z.inj_succ, Zplus_mod_idemp_l. f_equal. lia.
  - exists (ev :: evs). rewrite Ht, Ht1, <- app_assoc. cbn. by rewrite Hpk1, Hpk.
Qed.

(** The packets the next receive burst on port [i] yields. *)
Definition incoming (i : ptr) (q : Z) (n : nat) (w : world) : list rte_mbuf :=
  match w_ports w !! i with
  | Some p => fst (rte_eth_rx_burst (w_env w) (port_id p) q n)
  | None => []
  end.

(** The receive burst of the packet path: the packets, at fresh addresses, in
    the environment the driver leaves. *)
Definition received (i : ptr) (q : Z) (n : nat) (ps : list ptr) (w w0 : world) : Prop :=
  ∃ pin, w_ports w !! i = Some pin ∧ eth_rx_burst (port_id pin) q n w = Ok (ps, w0).

Lemma received_spec i o x q n w :
  world_inv i o x w →
  ∃ ps w0, received i q n ps w w0 ∧ world_inv i o x w0
    ∧ (∀ A (k : list ptr → M world A), (let! inp := read_port i in
         let! pkts := eth_rx_burst (port_id inp) q n in k pkts) w = k ps w0)
    ∧ NoDup ps ∧ Forall (λ p, w_mbufs w !! p = None) ps ∧ length ps = length (incoming i q n w)
    ∧ Forall2 (λ p m, w_mbufs w0 !! p = Some m ∧ mbuf_wf m) ps (incoming i q n w)
    ∧ foldl (λ c p, delete p c) (w_mbufs w0) ps = w_mbufs w
    ∧ w_dom w0 = w_dom w ∧ w_ip w0 = w_ip w ∧ w_trace w0 = w_trace w ∧ w_received w0 = w_received w.
Proof.
  intros Hinv. destruct (wi_in _ _ _ _ Hinv) as [pin Hin]. unfold received, incoming. rewrite Hin.
  pose proof (rx_wf (w_env w) (port_id pin) q n) as Hwf.
  assert (∃ ps w0, eth_rx_burst (port_id pin) q n w = Ok (ps, w0) ∧ world_inv i o x w0
    ∧ NoDup ps ∧ Forall (λ p, w_mbufs w !! p = None) ps
    ∧ length ps = length (fst (rte_eth_rx_burst (w_env w) (port_id pin) q n))
    ∧ Forall2 (λ p m, w_mbufs w0 !! p = Some m) ps (fst (rte_eth_rx_burst (w_env w) (port_id pin) q n))
    ∧ foldl (λ c p, delete p c) (w_mbufs w0) ps = w_mbufs w
    ∧ w_dom w0 = w_dom w ∧ w_ip w0 = w_ip w ∧ w_trace w0 = w_trace w ∧ w_received w0 = w_received w)
    as (ps & w0 & Hrun & Hinv0 & Hnd & Hnew & Hlen & Hget & Hdel & Hsame).
  { unfold eth_rx_burst. destruct (rte_eth_rx_burst _ _ _ _) as [ms e].
    destruct (rx_mbufs ms (w_mbufs w)) as [ps b] eqn:Erx.
    destruct (rx_mbufs_spec _ _ _ _ Erx) as (Hnd & Hnew & Hlen & Hget & Hsub & Hdel).
    eexists _, _. split; [done|]. split; [by destruct Hinv|]. by split_and!. }
  exists ps, w0. split; [by exists pin|]. split; [done|]. split.
  { intros A k. erewrite bind_eq by (unfold read_port; by rewrite Hin). by erewrite bind_eq by exact Hrun. }
  split_and!; try done; [|apply Hsame..]. apply Forall2_same_length_lookup. split; [done|].
  intros j p m Hj Hm. split; [by eapply Forall2_lookup_lr in Hget|by eapply Forall_lookup in Hwf].
Qed.

(** Running the loop on what a receive burst yields. *)
Lemma pakage_processing_burst i o x q n policy infos w :
  world_inv i o x w → policy_wf policy → overrun_wf policy →
  Forall2 (λ m info, parsing_pakage m info_zero = Ok info) (incoming i q n w) infos →
  ∃ ps w0 w', pakage_processing i o x q n policy false w = Ok (tt, w')
    ∧ world_inv i o x w' ∧ received i q n ps w w0
    ∧ burst i o x q policy (zip (zip ps (incoming i q n w)) infos) w0 w'
    ∧ length ps = length (incoming i q n w) ∧ length infos = length (incoming i q n w)
    ∧ NoDup ps ∧ Forall (λ p, w_mbufs w !! p = None) ps
    ∧ foldl (λ c p, delete p c) (w_mbufs w0) ps = w_mbufs w
    ∧ abs_world w0 = abs_world w ∧ w_trace w0 = w_trace w ∧ w_received w0 = w_received w.
Proof.
  intros Hinv Hp Ho Hparse. destruct (received_spec i o x q n w Hinv)
    as (ps & w0 & Hrx & Hinv0 & Hrun & Hnd & Hnew & Hlen & Hget & Hdel & Hd & Hi & Ht & Hr).
  unfold pakage_processing. rewrite Hrun.
  apply Forall2_length in Hparse as Hlen2. set (l := zip (zip ps (incoming i q n w)) infos).
  assert ((l.*1).*1 = ps) as Hl11.
  { unfold l. rewrite !fst_zip; [done|lia|rewrite length_zip; lia]. }
  destruct (burst_spec i o x q policy l w0 Hinv0 Hp Ho) as (w' & Hfor & Hinv' & Hb).
  { split; [by rewrite Hl11|]. apply Forall_lookup. intros j [[pkt m] info] Hj.
    apply lookup_zip_with_Some in Hj as ([? ?] & ? & [= <- <- <-] & Hj & Hinfo).
    apply lookup_zip_with_Some in Hj as (? & ? & [= <- <-] & Hj1 & Hj2).
    destruct (Forall2_lookup_lr _ _ _ _ _ _ Hget Hj1 Hj2) as [? ?].
    do 2 (split; [done|]). by eapply Forall2_lookup_lr in Hparse. }
  rewrite Hl11 in Hfor. exists ps, w0, w'. split_and!; try done.
  unfold abs_world. by rewrite Hd, Hi.
Qed.

(** The packets, their addresses and what they parse to. *)
Lemma burst_lists {A B C} (ps : list A) (ms : list B) (infos : list C) :
  length ps = length ms → length infos = length ms →
  let l := zip (zip ps ms) infos in
  (l.*1).*1 = ps ∧ l.*2 = infos ∧ length l = length ms.
Proof.
  intros H1 H2. cbn. rewrite !fst_zip, snd_zip, !length_zip; rewrite ?length_zip; try lia. split_and!; [done|done|lia].
Qed.

(** C2: refinement of the packet path: while filtering is on, for any burst of
    packets that the parser accepts, [pakage_processing] returns without fault,
    keeps the invariant of the worker, and treats the packets one after the
    other exactly as the abstract machine does ([burst], [routed]): the machine
    decides in the present environment (port 22 to the exception interface, a
    live cached decision as cached, any other packet by the filter's verdict on
    the classifier's answer, or sent when the classifier fails); the packet is
    counted as received, handed to the driver of the chosen port with its header
    rewritten and counted as passed (freed, if its time to live is over or the
    driver does not take it), or freed and counted as dropped; then a new
    decision is stored for the policy's time-to-live.  Events, counters, ports,
    mbufs, cache contents and the environment are those of the machine. *)
Theorem pakage_processing_refines i o x q n policy infos w :
  world_inv i o x w → policy_wf policy → overrun_wf policy →
  Forall2 (λ m info, parsing_pakage m info_zero = Ok info) (incoming i q n w) infos →
  ∃ ps w0 w', pakage_processing i o x q n policy false w = Ok (tt, w')
    ∧ world_inv i o x w' ∧ received i q n ps w w0 ∧ length ps = length (incoming i q n w)
    ∧ burst i o x q policy (zip (zip ps (incoming i q n w)) infos) w0 w'.
Proof.
  intros Hinv Hp Ho Hparse.
  destruct (pakage_processing_burst i o x q n policy infos w Hinv Hp Ho Hparse)
    as (ps & w0 & w' & Hrun & Hinv' & Hrx & Hb & Hlen & _). by exists ps, w0, w'.
Qed.

(** C10: conservation of packets: under the same conditions every mbuf of the
    burst leaves the program exactly once, transmitted or freed, in the order
    received; afterwards the program owns exactly the mbufs it owned before (no
    leak, no double free), and the received counter grew by the number of
    packets, modulo 2^64. *)
Theorem pakage_processing_conserves i o x q n policy infos w :
  world_inv i o x w → policy_wf policy → overrun_wf policy →
  Forall2 (λ m info, parsing_pakage m info_zero = Ok info) (incoming i q n w) infos →
  ∃ w' evs, pakage_processing i o x q n policy false w = Ok (tt, w')
    ∧ w_mbufs w' = w_mbufs w
    ∧ w_trace w' = w_trace w ++ evs ∧ length evs = length (incoming i q n w)
    ∧ NoDup (event_pkt <$> evs)
    ∧ Forall (λ ev, w_mbufs w !! event_pkt ev = None) evs
    ∧ u64 (w_received w') = u64 (w_received w + Z.of_nat (length (incoming i q n w))).
Proof.
  intros Hinv Hp Ho Hparse.
  destruct (pakage_processing_burst i o x q n policy infos w Hinv Hp Ho Hparse)
    as (ps & w0 & w' & Hrun & _ & _ & Hb & Hl1 & Hl2 & Hnd & Hnew & Hdel & _ & Ht & Hr).
  destruct (burst_lists ps (incoming i q n w) infos Hl1 Hl2) as (Hps & _ & Hlen).
  destruct (burst_summary _ _ _ _ _ _ _ _ Hb) as (Hm & Hrec & evs & Htr & Hpk).
  rewrite Hps in Hm, Hpk. rewrite Hlen, Hr in Hrec. rewrite Ht in Htr.
  exists w', evs. split_and!; try done.
  - by rewrite Hm.
  - by rewrite <- Hl1, <- (length_fmap event_pkt evs), Hpk.
  - by rewrite Hpk.
  - apply (Forall_fmap event_pkt (λ p, w_mbufs w !! p = None)). by rewrite Hpk.
Qed.

(** C31: the path fails open: while the classifier does not answer for it, a DNS
    request that is not cached is forwarded whatever its name is, block list
    included, and the decision to send is cached under its name for the
    policy's time-to-live (unless memory runs out), outliving the failure. *)
Theorem classification_failure_fails_open i o x q policy info pkt m k w :
  world_inv i o x w → policy_wf policy → overrun_wf policy →
  w_mbufs w !! pkt = Some m → mbuf_wf m → parsing_pakage m info_zero = Ok info →
  (∀ c, ¬ answers "domain" (domain info) true c) → has_domain info → exception_port info = false →
  copy_domain (domain info) = Ok k → abs (w_dom w) !! domain info = None →
  ∃ w', process_packet i o x q policy pkt w = Ok (tt, w')
    ∧ moved (Some o) q pkt m (count_received w) w'
    ∧ (abs (w_dom w') = abs (w_dom w)
       ∨ ∃ now, abs (w_dom w') = <[k := Entry true now (u32 (ttl_domain policy))]> (abs (w_dom w))).
Proof.
  intros Hinv Hp Ho Hm Hwf Hparse Hfail Hdom Hex Hk Hmiss.
  destruct (process_packet_spec i o x q policy pkt info m w) as (w' & Hrun & _ & Hr); try done.
  exists w'. split; [done|]. destruct Hr as (rt & new & e1 & s1 & e2 & Hdec & Hmv & Hrem).
  assert (info_wf info) as Hi by (by eapply parsing_pakage_wf_ok; [apply info_zero_wf|]).
  unfold adecide in Hdec. rewrite Hex, decide_True in Hdec by done. cbn [fst snd abs_world a_dom] in Hdec.
  rewrite (alookup_miss (K:=domain_key)) in Hdec by done. cbn iota beta in Hdec.
  destruct (averdict _ _ _ _) as [[b e3]|] eqn:Ev; [|done]. cbn in Hdec. injection Hdec as <- <- <- <-.
  destruct (averdict_cases _ _ _ _ _ _ (wf_domain_term _ Hi) Ev) as ([] & c & Ha & Hb);
    [by destruct (Hfail c)|]. subst b. split; [by exists i, e3, e2|].
  unfold aremember in Hrem. rewrite decide_True, Hk in Hrem by done. cbn [rbind fst snd a_dom a_ip abs_world] in Hrem.
  pose proof (ainsert_cases (K:=domain_key) k true (ttl_domain policy) (e2, abs (w_dom w))) as Hcase.
  change (w_dom (count_received w)) with (w_dom w) in Hrem.
  destruct (ainsert (K:=domain_key) _ _ _ _) as [e4 A]. unfold abs_world in Hrem.
  injection Hrem as _ <- _. exact Hcase.
Qed.

(** Packets forwarded to port [o] one after the other, each after a change of
    the counters; the caches stay as they are. *)
Inductive forwards (cnt : world → world) (i o : ptr) (q : Z) :
    list (ptr * rte_mbuf) → world → world → Prop :=
| F_nil w : forwards cnt i o q [] w w
| F_cons pkt m l w w1 w2 :
    moved_in i (w_env w) (w_env w1) (Some o) q pkt m (cnt w) w1 → same_caches w w1 →
    forwards cnt i o q l w1 w2 → forwards cnt i o q ((pkt, m) :: l) w w2.

Lemma forward_all_spec cnt i o x q l w :
  (∀ w, ∃ r p d, cnt w = with_counters r p d w) →
  world_inv i o x w → NoDup l.*1 →
  Forall (λ pm, w_mbufs w !! pm.1 = Some pm.2 ∧ mbuf_wf pm.2) l →
  ∃ w', for_each (λ pkt, modify cnt ;;; package_sending_decision true pkt i o q) l.*1 w = Ok (tt, w')
    ∧ world_inv i o x w' ∧ forwards cnt i o q l w w'.
Proof.
  intros Hcnt. revert w. induction l as [|[p m] l IH]; intros w Hinv Hnd Hall.
  { exists w. split; [done|]. split; [done|constructor]. }
  apply NoDup_cons in Hnd as [Hp Hnd]. apply Forall_cons in Hall as [[Hm Hwf] Hall]. cbn in *.
  destruct (Hcnt w) as (cr & cp & cd & Hc).
  assert (world_inv i o x (cnt w)) as Hinv0 by (rewrite Hc; by destruct Hinv).
  destruct (sending_moved i o x o q true p m (cnt w) Hinv0)
    as (w1 & Hrun & Hinv1 & [Hd1 Hi1] & Hmv); [apply Hinv0|by rewrite Hc|done|].
  erewrite bind_eq by (erewrite bind_eq by reflexivity; exact Hrun).
  assert (w_env (cnt w) = w_env w) as Henv by (by rewrite Hc). rewrite Henv in Hmv.
  pose proof (mv_mbufs _ _ _ _ _ _ _ _ _ Hmv) as Hb. rewrite Hc in Hb, Hd1, Hi1. cbn in Hb, Hd1, Hi1.
  destruct (IH w1 Hinv1 Hnd) as (w2 & Hrun2 & Hinv2 & Hf).
  { apply Forall_forall. intros [p' m'] Hin. rewrite Forall_forall in Hall.
    destruct (Hall _ Hin) as [Hm' ?]. split; [|done]. cbn in *.
    rewrite Hb, lookup_delete_ne; [done|]. intros ->. apply Hp, list_elem_of_fmap. by exists (p', m'). }
  exists w2. split; [done|]. split; [done|]. econstructor; [exact Hmv|done|done].
Qed.

Lemma forwards_summary cnt i o q l w w' :
  (∀ w, ∃ r p d, cnt w = with_counters r p d w) → forwards cnt i o q l w w' →
  w_dom w' = w_dom w ∧ w_ip w' = w_ip w
  ∧ w_mbufs w' = foldl (λ c p, delete p c) (w_mbufs w) l.*1
  ∧ ∃ evs, w_trace w' = w_trace w ++ evs ∧ event_pkt <$> evs = l.*1.
Proof.
  intros Hcnt. induction 1 as [w|pkt m l w w1 w2 Hmv [Hd Hi] _ (-> & -> & -> & evs & -> & Hpk)].
  { do 3 (split; [done|]). exists []. by rewrite app_nil_r. }
  destruct (moved_event _ _ _ _ _ _ _ _ _ Hmv) as (ev & Ht & Hp & _). destruct Hmv as [Hb _ _].
  destruct (Hcnt w) as (cr & cp & cd & Hc). rewrite Hc in Hb, Ht. cbn in Hb, Ht.
  do 2 (split; [done|]). split; [by rewrite Hb|].
  exists (ev :: evs). rewrite Ht, <- app_assoc. cbn. by rewrite Hp, Hpk.
Qed.

(** Forwarding what a receive burst yields. *)
Lemma forward_rx_spec cnt i o x q n w :
  (∀ w, ∃ r p d, cnt w = with_counters r p d w) → world_inv i o x w →
  ∃ ps w0 w', (let! inp := read_port i in
             let! pkts := eth_rx_burst (port_id inp) q n in
             for_each (λ pkt, modify cnt ;;; package_sending_decision true pkt i o q) pkts) w
            = Ok (tt, w')
    ∧ world_inv i o x w' ∧ same_caches w w' ∧ w_mbufs w' = w_mbufs w
    ∧ received i q n ps w w0 ∧ length ps = length (incoming i q n w)
    ∧ forwards cnt i o q (zip ps (incoming i q n w)) w0 w'
    ∧ ∃ evs, w_trace w' = w_trace w ++ evs ∧ length evs = length (incoming i q n w).
Proof.
  intros Hcnt Hinv. destruct (received_spec i o x q n w Hinv)
    as (ps & w0 & Hrx & Hinv0 & Hrun & Hnd & Hnew & Hlen & Hget & Hdel & Hd & Hi & Ht & Hr).
  rewrite Hrun. set (l := zip ps (incoming i q n w)).
  assert (l.*1 = ps) as Hl by (apply fst_zip; lia).
  destruct (forward_all_spec cnt i o x q l w0 Hcnt Hinv0) as (w' & Hfor & Hinv' & Hf).
  { by rewrite Hl. }
  { apply Forall_lookup. intros j [p m] (? & ? & [= <- <-] & Hj1 & Hj2)%lookup_zip_with_Some.
    by destruct (Forall2_lookup_lr _ _ _ _ _ _ Hget Hj1 Hj2). }
  destruct (forwards_summary _ _ _ _ _ _ _ Hcnt Hf) as (Hd' & Hi' & Hb & evs & Htr & Hpk).
  rewrite Hl in Hfor, Hb, Hpk. exists ps, w0, w'. split; [done|]. split; [done|].
  split; [constructor; congruence|]. split; [by rewrite Hb|]. do 3 (split; [done|]).
  exists evs. split; [congruence|]. by rewrite <- Hlen, <- Hpk, length_fmap.
Qed.

Lemma processing_off_spec i o x q n policy w :
  world_inv i o x w →
  ∃ ps w0 w', pakage_processing i o x q n policy true w = Ok (tt, w')
    ∧ world_inv i o x w' ∧ same_caches w w' ∧ w_mbufs w' = w_mbufs w
    ∧ received i q n ps w w0 ∧ length ps = length (incoming i q n w)
    ∧ forwards count_received i o q (zip ps (incoming i q n w)) w0 w'
    ∧ ∃ evs, w_trace w' = w_trace w ++ evs ∧ length evs = length (incoming i q n w).
Proof. apply (forward_rx_spec count_received). intros w0. by eexists _, _, _. Qed.

(** C29: with filtering turned off every received packet is, in the order
    received, counted as received and forwarded to the outgoing port, unparsed
    and whatever the policy and the caches say: its header is rewritten and it
    is handed to the driver of that port, and it is freed only if it is an IPv4
    packet whose time to live is over or the driver did not take it
    ([forwards], [moved_in]); the caches are not touched and no mbuf is lost. *)
Theorem filtering_off_forwards_all i o x q n policy w :
  world_inv i o x w →
  ∃ ps w0 w', pakage_processing i o x q n policy true w = Ok (tt, w')
    ∧ received i q n ps w w0 ∧ length ps = length (incoming i q n w)
    ∧ forwards count_received i o q (zip ps (incoming i q n w)) w0 w'
    ∧ w_dom w' = w_dom w ∧ w_ip w' = w_ip w ∧ w_mbufs w' = w_mbufs w.
Proof.
  intros Hinv. destruct (processing_off_spec i o x q n policy w Hinv)
    as (ps & w0 & w' & Hrun & _ & [Hd Hi] & Hm & Hrx & Hlen & Hf & _). exists ps, w0, w'. by split_and!.
Qed.

(** A packet the driver refuses is freed and counted twice: as dropped and
    as passed. *)
Theorem refused_packet_counted_passed i o x q pkt m w :
  world_inv i o x w → w_mbufs w !! pkt = Some m → mbuf_wf m →
  load16 (mb_data m) 12 = Ok (rte_cpu_to_be_16 RTE_ETHER_TYPE_IPV6) →
  (∀ e p m', fst (rte_eth_tx_burst e p q m') < 1) →
  ∃ w', forward_packet_with_rewrite pkt i o q w = Ok (tt, w')
    ∧ w_trace w' = w_trace w ++ [Freed pkt] ∧ w_mbufs w' = delete pkt (w_mbufs w)
    ∧ w_dropped w' = u64 (w_dropped w + 1) ∧ w_passed w' = u64 (w_passed w + 1).
Proof.
  intros Hinv Hm Hwf Hty Href.
  destruct (wi_in _ _ _ _ Hinv) as [pin Hi], (wi_out _ _ _ _ Hinv) as [pout Ho].
  destruct (frame_of _ Hwf) as (f & Hf & Hb & Hrest).
  pose proof (wi_ports _ _ _ _ Hinv) as Hps.
  rewrite (forward_spec w pkt i o q pin pout m f) by done. unfold forward_result.
  rewrite <- Hb, load_type in Hty by done. injection Hty as Hty.
  unfold frame_is_ipv4. rewrite Hty.
  replace (rte_cpu_to_be_16 RTE_ETHER_TYPE_IPV6 =? rte_cpu_to_be_16 RTE_ETHER_TYPE_IPV4)
    with false by done. cbn [andb].
  match goal with |- context [rte_eth_tx_burst ?e ?p q ?m] => specialize (Href e p m) end.
  destruct (rte_eth_tx_burst _ _ _ _) as [r e]. cbn in Href.
  rewrite Z.geb_leb, (proj2 (Z.leb_gt _ _)) by done. by eexists.
Qed.

End spec.
