(* ===== verification/Plant.v ===== *)
(** * The installation: ports, caches and databases together

    What the two programs ([worker.cpp] with [main.cpp], and
    [dpdk_filter/main.c]) set up before their loops and take down after them:
    the environment layer of DPDK, the three ports and the two caches with
    their databases.  [plant] is the state of the packet path with the virtual
    devices and the databases; the components' functions are run on their part
    of it. *)

From Stdlib Require Import ZArith Lia.
From stdpp Require Import prelude gmap strings.
From S2P Require Import Prelude CMem Types Hash Sqlite Policy Cache Persist PersistSpec DomainCache IpCache CacheLife Proc NetPort ProcSpec.

Local Open Scope Z_scope.

(** ** Outside the programs *)

(** The environment variables, [signal], the initialisation of DPDK with its
    memory pool and hash tables, sleeping and seeding [rand]. *)
Class SystemEnv (E : Type) {HD : RteHash domain_key} {HI : RteHash ip_key} := {
  getenv : string → E → option (list Z);
  signal_ok : Z → E → bool * E;
  rte_eal_init : E → Z * E;
  rte_pktmbuf_pool_create : E → option ptr * E;
  dns_hash_create : E → option (hash_t (K:=domain_key)) * E;
  ip_hash_create : E → option (hash_t (K:=ip_key)) * E;
  sleep_for : Z → E → unit * E;
  srand_time : E → unit * E
}.

(** ** State *)

(** The static variables of a cache file beside its table: the database, the
    connection, the snapshots allocated and the period of the timer. *)
Record store (D : Type) := Store {
  s_db : D;
  s_conn : bool;
  s_snapshots : nat;
  s_timer : option Z
}.
Arguments Store {D}.
Arguments s_db {D}.
Arguments s_conn {D}.
Arguments s_snapshots {D}.
Arguments s_timer {D}.

Record plant (E D1 D2 : Type) {HD : RteHash domain_key} {HI : RteHash ip_key} := Plant {
  pl_world : world E;
  pl_vdevs : gset (list Z);
  pl_dns : store D1;
  pl_ip : store D2
}.
Arguments Plant {E D1 D2 HD HI}.
Arguments pl_world {E D1 D2 HD HI}.
Arguments pl_vdevs {E D1 D2 HD HI}.
Arguments pl_dns {E D1 D2 HD HI}.
Arguments pl_ip {E D1 D2 HD HI}.

Section plant.
Context {E D1 D2 : Type} {HD : RteHash domain_key} {HI : RteHash ip_key}.
Context {HE : RteEnv E} {HL : LibcEnv E} {HV : EthDev E} {HY : SystemEnv E}.
Context {HS1 : Sqlite D1} {HS2 : Sqlite D2} {inet : Inet}.
Context {HUD : UninitMem E node_cache_domain} {HUI : UninitMem E node_cache_ip} {HUK : UninitMem E ip_key}.
#[local] Abbreviation plant := (plant E D1 D2).

Definition on_plant_world {A} (m : M (world E) A) : M plant A :=
  zoom pl_world (λ w s, Plant w (pl_vdevs s) (pl_dns s) (pl_ip s)) m.

Definition sys_call {A} (f : E → A * E) : M plant A := on_plant_world (λ w,
  let (a, e) := f (w_env w) in Ok (a, Proc.with_env e w)).

(** The components' views of the state. *)
Definition net_of (s : plant) : nstate E :=
  NState (w_env (pl_world s)) (w_ports (pl_world s)) (pl_vdevs s).
Definition set_net (n : nstate E) (s : plant) : plant :=
  Plant (with_ports (ns_ports n) (Proc.with_env (ns_env n) (pl_world s))) (ns_vdevs n) (pl_dns s) (pl_ip s).
Definition on_net {A} (m : M (nstate E) A) : M plant A := zoom net_of set_net m.

Definition dns_of (s : plant) : pstate E domain_key node_cache_domain D1 :=
  PState (w_env (pl_world s)) (w_dom (pl_world s)) (s_db (pl_dns s)) (s_conn (pl_dns s))
    (s_snapshots (pl_dns s)) (s_timer (pl_dns s)).
Definition set_dns (p : pstate E domain_key node_cache_domain D1) (s : plant) : plant :=
  Plant (with_dom (p_env p, p_cache p) (pl_world s)) (pl_vdevs s)
    (Store (p_db p) (p_conn p) (p_snapshots p) (p_timer p)) (pl_ip s).
Definition on_dns {A} (m : M (pstate E domain_key node_cache_domain D1) A) : M plant A :=
  zoom dns_of set_dns m.

Definition ips_of (s : plant) : pstate E ip_key node_cache_ip D2 :=
  PState (w_env (pl_world s)) (w_ip (pl_world s)) (s_db (pl_ip s)) (s_conn (pl_ip s))
    (s_snapshots (pl_ip s)) (s_timer (pl_ip s)).
Definition set_ips (p : pstate E ip_key node_cache_ip D2) (s : plant) : plant :=
  Plant (with_ip (p_env p, p_cache p) (pl_world s)) (pl_vdevs s) (pl_dns s)
    (Store (p_db p) (p_conn p) (p_snapshots p) (p_timer p)).
Definition on_ips {A} (m : M (pstate E ip_key node_cache_ip D2) A) : M plant A :=
  zoom ips_of set_ips m.

(** ** Setting up *)

(** [a || b || ...]: the first call that does not return 0 ends it. *)
Fixpoint any_nonzero {S} (calls : list (M S Z)) : M S bool :=
  match calls with
  | [] => ret false
  | m :: calls' =>
      let! r := m in
      if negb (r =? 0) then ret true else any_nonzero calls'
  end.

(** [net_port_init(port)] and [net_port_start(port->port_id)]; the pointer is
    dereferenced without a test. *)
Definition port_init (port : option ptr) : M plant Z :=
  match port with
  | Some p => on_net (net_port_init p)
  | None => fail BadPointer
  end.

Definition port_start (port : option ptr) : M plant Z :=
  match port with
  | Some p => on_net (let! x := get_port p in net_port_start (port_id x))
  | None => fail BadPointer
  end.

(** [rte_hash_create] is called when there is no table. *)
Definition init_dns : M plant unit :=
  let! h := gets (λ s, c_hash (w_dom (pl_world s))) in
  match h with
  | Some _ => on_dns (init_dns_cache None)
  | None =>
      let! created := sys_call dns_hash_create in
      on_dns (init_dns_cache created)
  end.

Definition init_ip : M plant unit :=
  let! h := gets (λ s, c_hash (w_ip (pl_world s))) in
  match h with
  | Some _ => on_ips (init_ip_cache None)
  | None =>
      let! created := sys_call ip_hash_create in
      on_ips (init_ip_cache created)
  end.

(** ** Taking down *)

(** The caches are saved and freed, the ports closed and freed. *)
Definition shutdown (port_in port_out port_exception : option ptr) : M plant unit :=
  on_dns save_all_cache_to_sqlite ;;;
  on_ips save_all_cache_ip_to_sqlite ;;;
  on_dns free_dns_cache ;;;
  on_ips free_ip_cache ;;;
  on_net (net_port_close port_in) ;;;
  on_net (net_port_close port_out) ;;;
  on_net (net_port_close port_exception) ;;;
  on_net (net_port_destroy port_in) ;;;
  on_net (net_port_destroy port_out) ;;;
  on_net (net_port_destroy port_exception).

(** The state the programs start in: nothing allocated, no tables. *)
Definition cold (e : E) (d1 : D1) (d2 : D2) : plant :=
  Plant (World e ∅ ∅ (Cache None ∅ ∅ false) (Cache None ∅ ∅ false) 0 0 0 []) ∅
    (Store d1 false 0 None) (Store d2 false 0 None).

End plant.

(** ** The ports *)

Section ports.
Context {E : Type} {HV : EthDev E} {HVO : EthDevOk E} {HL : LibcEnv E}.
#[local] Abbreviation St := (nstate E).
Implicit Types (s : St) (p : ptr).

Definition dev_names (ps : gmap ptr net_port) : gmap ptr (list Z) := dev_name <$> ps.

(** What the functions on ports keep: the structs with their device names, and
    their shape. *)
Definition kept (s0 s : St) : Prop :=
  dev_names (ns_ports s) = dev_names (ns_ports s0) ∧ ports_wf (ns_ports s).

#[local] Abbreviation keeps s0 m := (preserves (kept s0) m).

Lemma keeps_call {A} s0 (f : E → A * E) : keeps s0 (ns_call f).
Proof. intros s a s' Hs. unfold ns_call. destruct (f (ns_env s)) as [b e]. by intros [= _ <-]. Qed.

Lemma keeps_vdevs s0 f : keeps s0 (modify (λ s, NState (ns_env s) (ns_ports s) (f s))).
Proof. by intros s a s' Hs [= _ <-]. Qed.

(** A struct is replaced by one of the same device name. *)
Lemma keeps_set_port s0 p x x' :
  ns_ports s0 !! p = Some x → dev_name x' = dev_name x → port_wf x' → keeps s0 (set_port p x').
Proof.
  intros Hp Hname Hwf s a s' [Hn Hw] [= _ <-]. split; cbn; [|by apply map_Forall_insert_2].
  unfold dev_names in *. rewrite fmap_insert, Hn, Hname. apply insert_id. by rewrite lookup_fmap, Hp.
Qed.

#[local] Hint Resolve keeps_call keeps_vdevs : cdb.

Lemma keeps_uninit s0 dev : keeps s0 (vdev_uninit dev).
Proof. unfold vdev_uninit. preserve. Qed.
Lemma keeps_find s0 dev n a : keeps s0 (find_loop dev n a).
Proof. revert a. induction n as [|n IH]; intros a; cbn [find_loop]; preserve. Qed.
#[local] Hint Resolve keeps_uninit keeps_find : cdb.

(** The address [rte_eth_macaddr_get] writes has its length. *)
Lemma keeps_mac {B} s0 id (k : Z → list Z → M St B) :
  (∀ r mac, length mac = 6%nat → keeps s0 (k r mac)) →
  keeps s0 (let! (r, mac) := ns_call (rte_eth_macaddr_get id) in k r mac).
Proof.
  intros Hk s b s' Hs (a & s1 & H1 & H2)%bind_Ok. pose proof (keeps_call s0 _ _ _ _ Hs H1) as Hs1.
  unfold ns_call in H1. pose proof (macaddr_len id (ns_env s)) as Hlen.
  destruct (rte_eth_macaddr_get id (ns_env s)) as [[r mac] e]. injection H1 as <- _.
  by eapply (Hk r mac).
Qed.

Lemma net_port_init_keeps p x s r s' :
  ns_ports s !! p = Some x → ports_wf (ns_ports s) → net_port_init p s = Ok (r, s') → kept s s'.
Proof.
  intros Hp Hwf. assert (port_wf x) as [Hmac Hnb] by (by apply (Hwf p x)).
  assert (∀ id, keeps s (set_port p (set_port_id id x))) as Hid by (intros id; by eapply keeps_set_port).
  unfold net_port_init. erewrite bind_eq by (unfold get_port; by rewrite Hp).
  match goal with |- ?m s = _ → _ => assert (keeps s m) as Hm; [|by apply Hm] end.
  unfold vdev_init, find_port_by_dev_name, give_up_port.
  repeat first
    [ apply keeps_mac; intros ? ? ?
    | progress auto with cdb
    | apply preserves_bind; [|intros ?]
    | match goal with |- preserves _ (match ?x with _ => _ end) => destruct x eqn:? end ].
  by eapply keeps_set_port.
Qed.

(** Initialising a port whose device does not exist yet. *)
Lemma port_init_spec p x t s :
  ports_wf (ns_ports s) → ns_ports s !! p = Some x → cstr (dev_name x) = Some t → dev_name x ∉ ns_vdevs s →
  ∃ r s', net_port_init p s = Ok (r, s') ∧ kept s s'
    ∧ (r = 0 → ns_vdevs s' = {[dev_name x]} ∪ ns_vdevs s).
Proof.
  intros Hwf Hp Ht Hnew. destruct (init_cases p x t s Hp Ht Hnew) as (r & s' & Hrun & Hcase);
    [by apply (Hwf p x)|].
  exists r, s'. split; [done|]. split; [by eapply net_port_init_keeps|]. intros ->. unfold init_result in Hcase.
  destruct (init_calls _ _ _) as [[[err created] e]|[[id mac] e]]; [by destruct Hcase as (_ & ? & _)|].
  by destruct Hcase as (_ & -> & _).
Qed.

Lemma kept_refl s : ports_wf (ns_ports s) → kept s s.
Proof. by split. Qed.
Lemma kept_trans s1 s2 s3 : kept s1 s2 → kept s2 s3 → kept s1 s3.
Proof. intros [H1 _] [H2 ?]. split; [congruence|done]. Qed.

Lemma kept_port s s' p n :
  kept s s' → dev_names (ns_ports s) !! p = Some n → ∃ x, ns_ports s' !! p = Some x ∧ dev_name x = n.
Proof.
  intros [Hn _] Hp. rewrite <- Hn in Hp. unfold dev_names in Hp. rewrite lookup_fmap in Hp.
  destruct (ns_ports s' !! p) as [x|]; [|done]. exists x. by injection Hp as ->.
Qed.

(** Initialising ports one after the other, up to the first failure. *)
Lemma init_ports_spec (l : list (ptr * list Z)) s :
  ports_wf (ns_ports s) →
  Forall (λ pn, dev_names (ns_ports s) !! pn.1 = Some pn.2 ∧ is_Some (cstr pn.2) ∧ pn.2 ∉ ns_vdevs s) l →
  NoDup l.*2 →
  ∃ b s', any_nonzero (net_port_init <$> l.*1) s = Ok (b, s') ∧ kept s s'
    ∧ (b = false → ns_vdevs s' = list_to_set l.*2 ∪ ns_vdevs s).
Proof.
  revert s. induction l as [|[p n] l IH]; intros s Hwf Hall Hnd.
  { exists false, s. split; [done|]. split; [by apply kept_refl|]. intros _. cbn. set_solver. }
  apply Forall_cons in Hall as [(Hp & [t Ht] & Hn) Hall]. cbn in Hp, Ht, Hn.
  rewrite fmap_cons in Hnd. apply NoDup_cons in Hnd as [Hnot Hnd]. cbn in Hnot.
  destruct (kept_port s s p n) as (x & Hx & <-); [by apply kept_refl|done|].
  destruct (port_init_spec p x t s Hwf Hx Ht Hn) as (r & s1 & Hrun & Hk1 & Hv1).
  rewrite !fmap_cons. cbn [any_nonzero fst]. erewrite bind_eq by exact Hrun.
  destruct (Z.eqb_spec r 0) as [Hr0|]; cbn [negb]; [|by exists true, s1]. specialize (Hv1 Hr0).
  destruct (IH s1) as (b & s' & Hrun' & Hk' & Hv'); [apply Hk1| |done|].
  { apply Forall_forall. intros [q m] Hin. rewrite Forall_forall in Hall.
    destruct (Hall _ Hin) as (Hq & Hc & Hm). cbn in *. rewrite (proj1 Hk1). split_and!; [done|done|].
    rewrite Hv1. intros [->%elem_of_singleton|?]%elem_of_union; [|done].
    apply Hnot, list_elem_of_fmap. by exists (q, dev_name x). }
  exists b, s'. split; [done|]. split; [by eapply kept_trans|]. intros Hb. rewrite (Hv' Hb), Hv1. cbn. set_solver.
Qed.

(** Starting ports changes the devices only. *)
Definition same_ports s s' : Prop := ns_ports s' = ns_ports s ∧ ns_vdevs s' = ns_vdevs s.

Lemma ns_call_spec {A} (f : E → A * E) s :
  ∃ s', ns_call f s = Ok (fst (f (ns_env s)), s') ∧ same_ports s s'.
Proof. unfold ns_call. destruct (f (ns_env s)) as [a e]. by eexists. Qed.

Lemma start_port_spec p s :
  is_Some (ns_ports s !! p) →
  ∃ r s', (let! x := get_port p in net_port_start (port_id x)) s = Ok (r, s') ∧ same_ports s s'.
Proof.
  intros [x Hx]. erewrite bind_eq by (unfold get_port; by rewrite Hx). unfold net_port_start.
  destruct (ns_call_spec (rte_eth_dev_start (port_id x)) s) as (s1 & Hr1 & Hs1).
  erewrite bind_eq by exact Hr1. destruct (_ <? 0); [by eexists _, _|].
  destruct (ns_call_spec (rte_eth_promiscuous_enable (port_id x)) s1) as (s2 & Hr2 & Hs2).
  erewrite bind_eq by exact Hr2.
  assert (same_ports s s2) by (destruct Hs1, Hs2; split; congruence).
  destruct (negb _); by eexists _, _.
Qed.

Lemma start_ports_spec (l : list ptr) s :
  Forall (λ p, is_Some (ns_ports s !! p)) l →
  ∃ b s', any_nonzero ((λ p, let! x := get_port p in net_port_start (port_id x)) <$> l) s = Ok (b, s')
    ∧ same_ports s s'.
Proof.
  revert s. induction l as [|p l IH]; intros s Hall; [by exists false, s|].
  apply Forall_cons in Hall as [Hp Hall]. cbn [fmap list_fmap any_nonzero].
  destruct (start_port_spec p s Hp) as (r & s1 & Hrun & Hs1). erewrite bind_eq by exact Hrun.
  destruct (r =? 0); cbn [negb]; [|by exists true, s1].
  destruct (IH s1) as (b & s' & Hrun' & Hs'); [by rewrite (proj1 Hs1)|].
  exists b, s'. split; [done|]. destruct Hs1, Hs'. split; congruence.
Qed.

(** Closing a port returns whatever the device answers, and removes it if the
    device can be taken down. *)
Lemma close_port_total p n s :
  dev_names (ns_ports s) !! p = Some n → ports_wf (ns_ports s) →
  ∃ s', net_port_close (Some p) s = Ok (tt, s') ∧ kept s s'
    ∧ ((∀ q n (e : E), closes q n e = true) → ns_vdevs s' = ns_vdevs s ∖ {[n]}).
Proof.
  intros Hp Hwf. destruct (kept_port s s p n) as (x & Hx & <-); [by apply kept_refl|done|].
  destruct (close_spec p x s Hx) as (s' & Hrun & Hcase). exists s'. split; [done|].
  destruct (closes _ _ _) eqn:Ec; destruct Hcase as [Hv Hps].
  - split; [|done]. split; rewrite Hps.
    + unfold dev_names. rewrite fmap_insert. apply insert_id. by rewrite lookup_fmap, Hx.
    + apply map_Forall_insert_2; [|done]. exact (Hwf p x Hx).
  - split; [by split; rewrite Hps|]. intros Hall. by rewrite Hall in Ec.
Qed.

Lemma destroy_port_spec p s :
  is_Some (dev_names (ns_ports s) !! p) →
  ∃ s', net_port_destroy (Some p) s = Ok (tt, s')
    ∧ dev_names (ns_ports s') = delete p (dev_names (ns_ports s)) ∧ ns_vdevs s' = ns_vdevs s.
Proof.
  unfold dev_names. rewrite lookup_fmap. intros [n Hp].
  unfold net_port_destroy. destruct (ns_ports s !! p) as [x|]; [|done].
  eexists. split; [done|]. split; [|done]. cbn. apply fmap_delete.
Qed.

(** *** Allocation *)

Lemma snprintf_cstr cols (text : list Z) : (0 < cols)%nat → is_Some (cstr (snprintf cols text)).
Proof.
  intros Hc. apply cstr_terminated. unfold snprintf, terminated. apply existsb_exists. exists 0.
  split; [|done]. apply list_elem_of_In. unfold pad, zeros. apply elem_of_app. right.
  apply elem_of_replicate. split; [done|]. rewrite length_take. lia.
Qed.

Lemma init_struct_spec args name iface pool s :
  ports_wf (ns_ports s) →
  ∃ r s', init_struct args name iface pool s = Ok (r, s') ∧ ns_vdevs s' = ns_vdevs s
    ∧ ports_wf (ns_ports s')
    ∧ match r with
      | None => ns_ports s' = ns_ports s ∧ fst (malloc_ok (ns_env s)) = false
      | Some p => ns_ports s !! p = None
                  ∧ dev_names (ns_ports s') = <[p := snprintf 64 name]> (dev_names (ns_ports s))
      end.
Proof.
  intros Hwf. unfold init_struct. destruct (ns_call_spec malloc_ok s) as (s1 & Hr1 & Hp1 & Hv1).
  erewrite bind_eq by exact Hr1. destruct (fst (malloc_ok (ns_env s))) eqn:Em.
  - eexists _, _. split; [done|]. cbn. split; [done|]. rewrite <- Hp1 in *. split_and!.
    + by apply map_Forall_insert_2.
    + apply not_elem_of_dom, is_fresh.
    + unfold dev_names. by rewrite fmap_insert.
  - eexists _, _. split; [done|]. split; [done|]. by rewrite Hp1.
Qed.
End ports.

(** ** Promises *)

(** A table that was created is empty. *)
Class SystemEnvOk (E : Type) {HD : RteHash domain_key} {HI : RteHash ip_key}
    {HDO : RteHashOk domain_key HD} {HIO : RteHashOk ip_key HI} {HY : SystemEnv E} := {
  dns_created e h : fst (dns_hash_create e) = Some h → hash_view h = ∅;
  ip_created e h : fst (ip_hash_create e) = Some h → hash_view h = ∅
}.

Section spec.
Context {E D1 D2 : Type} {HD : RteHash domain_key} {HI : RteHash ip_key}.
Context {HDO : RteHashOk domain_key HD} {HIO : RteHashOk ip_key HI}.
Context {HE : RteEnv E} {HEO : RteEnvOk E} {HL : LibcEnv E} {HV : EthDev E} {HVO : EthDevOk E}.
Context {HY : SystemEnv E} {HYO : SystemEnvOk E} {inet : Inet} {io : InetOk}.
Context {HUD : UninitMem E node_cache_domain} {HUI : UninitMem E node_cache_ip} {HUK : UninitMem E ip_key}.
Context {HUDO : UninitOk E domain_key node_cache_domain} {HUIO : UninitOk E ip_key node_cache_ip} {HUKO : UninitKeyOk E}.
Context {HS1 : Sqlite D1} {HSO1 : SqliteOk D1 dns_sql} {HSS1 : SqliteSetup D1 dns_sql}.
Context {HS2 : Sqlite D2} {HSO2 : SqliteOk D2 ip_sql} {HSS2 : SqliteSetup D2 ip_sql}.
#[local] Abbreviation plant := (plant E D1 D2).
Implicit Types (s : plant).

Lemma on_net_eq {A} (m : M (nstate E) A) s a n :
  m (net_of s) = Ok (a, n) → on_net m s = Ok (a, set_net n s).
Proof. apply zoom_eq. Qed.

Lemma any_nonzero_on_net ms s : any_nonzero (on_net <$> ms) s = on_net (any_nonzero ms) s.
Proof.
  revert s. induction ms as [|m ms IH]; intros s; cbn [fmap list_fmap any_nonzero].
  { unfold on_net, zoom, ret. cbn. by destruct s as [[] ? ? ?]. }
  assert (on_net (let! r := m in if negb (r =? 0) then ret true else any_nonzero ms) s
    = bind (on_net m) (λ r, on_net (if negb (r =? 0) then ret true else any_nonzero ms)) s) as ->.
  { symmetry. apply zoom_bind; [by intros []|done]. }
  unfold bind. destruct (on_net m s) as [[r s1]|]; [|done].
  destruct (negb (r =? 0)); [|apply IH]. unfold on_net, zoom, ret. cbn. by destruct s1 as [[] ? ? ?].
Qed.

(** Everything but the named parts. *)
Record other_than_net s s' : Prop := {
  ot_dom : w_dom (pl_world s') = w_dom (pl_world s);
  ot_ip : w_ip (pl_world s') = w_ip (pl_world s);
  ot_dns_store : pl_dns s' = pl_dns s;
  ot_ip_store : pl_ip s' = pl_ip s
}.

Lemma set_net_other n s : other_than_net s (set_net n s).
Proof. by constructor. Qed.

(** *** The caches *)

Lemma sys_call_eq {A} (f : E → A * E) s :
  ∃ s', sys_call f s = Ok (fst (f (w_env (pl_world s))), s') ∧ other_than_net s s'
    ∧ w_ports (pl_world s') = w_ports (pl_world s) ∧ pl_vdevs s' = pl_vdevs s.
Proof.
  unfold sys_call, on_plant_world, zoom. destruct (f (w_env (pl_world s))) as [a e].
  eexists. split; [done|]. split; [by constructor|done].
Qed.

(** A cache that was not initialised, with its store. *)
Definition cold_store {D} (d : store D) : Prop := s_conn d = false ∧ s_timer d = None.

Lemma init_dns_spec s :
  w_dom (pl_world s) = Cache None ∅ ∅ false → s_timer (pl_dns s) = None →
  ∃ s', init_dns s = Ok (tt, s')
    ∧ w_ports (pl_world s') = w_ports (pl_world s) ∧ pl_vdevs s' = pl_vdevs s
    ∧ w_ip (pl_world s') = w_ip (pl_world s) ∧ pl_ip s' = pl_ip s
    ∧ (fst (dns_hash_create (w_env (pl_world s))) ≠ None →
       cache_ready (w_dom (pl_world s'))
       ∧ (db_main (s_db (pl_dns s)) = ∅ →
          abs (w_dom (pl_world s')) = ∅ ∧ writable_cache (E:=E) (w_dom (pl_world s')))).
Proof.
  intros Hc Ht. unfold init_dns. erewrite bind_eq by reflexivity. rewrite Hc. cbn [c_hash].
  destruct (sys_call_eq dns_hash_create s) as (s1 & Hrun & [Hd1 Hi1 Hs1 Hs2] & Hp1 & Hv1).
  pose proof (dns_created (w_env (pl_world s))) as Hnew. erewrite bind_eq by exact Hrun.
  destruct (init_cache_safe (E:=E) (D:=D1) (fst (dns_hash_create (w_env (pl_world s)))) (dns_of s1))
    as (p' & Hinit & Hcase).
  { cbn. by rewrite Hd1. }
  { cbn. by rewrite Hs1. }
  { destruct (fst (dns_hash_create _)) as [h|]; [by apply Hnew|done]. }
  eexists. split; [apply zoom_eq, Hinit|]. cbn. split_and!; try done.
  destruct (fst (dns_hash_create _)) as [h|]; [|done]. destruct Hcase as (Hr & _ & He). intros _.
  split; [done|]. cbn in He. by rewrite Hs1 in He.
Qed.

Lemma init_ip_spec s :
  w_ip (pl_world s) = Cache None ∅ ∅ false → s_timer (pl_ip s) = None →
  ∃ s', init_ip s = Ok (tt, s')
    ∧ w_ports (pl_world s') = w_ports (pl_world s) ∧ pl_vdevs s' = pl_vdevs s
    ∧ w_dom (pl_world s') = w_dom (pl_world s) ∧ pl_dns s' = pl_dns s
    ∧ (fst (ip_hash_create (w_env (pl_world s))) ≠ None →
       cache_ready (w_ip (pl_world s'))
       ∧ (db_main (s_db (pl_ip s)) = ∅ →
          abs (w_ip (pl_world s')) = ∅ ∧ writable_cache (E:=E) (w_ip (pl_world s')))).
Proof.
  intros Hc Ht. unfold init_ip. erewrite bind_eq by reflexivity. rewrite Hc. cbn [c_hash].
  destruct (sys_call_eq ip_hash_create s) as (s1 & Hrun & [Hd1 Hi1 Hs1 Hs2] & Hp1 & Hv1).
  pose proof (ip_created (w_env (pl_world s))) as Hnew. erewrite bind_eq by exact Hrun.
  destruct (init_cache_safe (E:=E) (D:=D2) (fst (ip_hash_create (w_env (pl_world s)))) (ips_of s1))
    as (p' & Hinit & Hcase).
  { cbn. by rewrite Hi1. }
  { cbn. by rewrite Hs2. }
  { destruct (fst (ip_hash_create _)) as [h|]; [by apply Hnew|done]. }
  eexists. split; [apply zoom_eq, Hinit|]. cbn. split_and!; try done.
  destruct (fst (ip_hash_create _)) as [h|]; [|done]. destruct Hcase as (Hr & _ & He). intros _.
  split; [done|]. cbn in He. by rewrite Hs2 in He.
Qed.

(** *** The ports *)

Definition names_at (s : plant) : gmap ptr (list Z) := dev_names (w_ports (pl_world s)).

(** The ports are in order and everything else is as it was. *)
Record ports_step (s s' : plant) : Prop := {
  ps_other : other_than_net s s';
  ps_wf : ports_wf (w_ports (pl_world s'))
}.

(** A call that allocates a port with the given device name, or fails. *)
Definition allocates (m : M (nstate E) (option ptr)) (name : list Z) : Prop := ∀ s,
  ports_wf (w_ports (pl_world s)) →
  ∃ r s', on_net m s = Ok (r, s') ∧ ports_step s s' ∧ pl_vdevs s' = pl_vdevs s
    ∧ match r with
      | None => names_at s' = names_at s ∧ fst (malloc_ok (w_env (pl_world s))) = false
      | Some p => names_at s !! p = None ∧ names_at s' = <[p := name]> (names_at s)
      end.

Lemma alloc_port args name iface pool : allocates (init_struct args name iface pool) (snprintf 64 name).
Proof.
  intros s Hwf. destruct (init_struct_spec args name iface pool (net_of s) Hwf) as (r & n & Hrun & Hv & Hw & Hr).
  exists r, (set_net n s). split; [by apply on_net_eq|]. split; [split; [apply set_net_other|done]|].
  split; [done|]. unfold names_at, dev_names in *. cbn in *.
  destruct r as [p|]; [|destruct Hr as [Hn Hm]; by rewrite Hn].
  destruct Hr as [Hp Hn]. split; [by rewrite lookup_fmap, Hp|done].
Qed.

Lemma init_ports_plant (l : list (ptr * list Z)) s :
  ports_wf (w_ports (pl_world s)) →
  Forall (λ pn, names_at s !! pn.1 = Some pn.2 ∧ is_Some (cstr pn.2) ∧ pn.2 ∉ pl_vdevs s) l →
  NoDup l.*2 →
  ∃ b s', any_nonzero (on_net <$> (net_port_init <$> l.*1)) s = Ok (b, s') ∧ ports_step s s'
    ∧ names_at s' = names_at s ∧ (b = false → pl_vdevs s' = list_to_set l.*2 ∪ pl_vdevs s).
Proof.
  intros Hwf Hall Hnd. destruct (init_ports_spec l (net_of s) Hwf Hall Hnd) as (b & n & Hrun & [Hn Hw] & Hv).
  exists b, (set_net n s). split; [rewrite any_nonzero_on_net; by apply on_net_eq|].
  split; [split; [apply set_net_other|done]|]. split; [exact Hn|exact Hv].
Qed.

Lemma start_ports_plant (l : list ptr) s :
  ports_wf (w_ports (pl_world s)) → Forall (λ p, is_Some (names_at s !! p)) l →
  ∃ b s', any_nonzero (on_net <$> ((λ p, let! x := get_port p in net_port_start (port_id x)) <$> l)) s = Ok (b, s')
    ∧ ports_step s s' ∧ names_at s' = names_at s ∧ pl_vdevs s' = pl_vdevs s.
Proof.
  intros Hwf Hall. destruct (start_ports_spec l (net_of s)) as (b & n & Hrun & Hn & Hv).
  { eapply Forall_impl; [exact Hall|]. unfold names_at, dev_names. intros p. rewrite lookup_fmap.
    cbn. destruct (w_ports (pl_world s) !! p); [by eexists|]. by intros [? ?]. }
  exists b, (set_net n s). split; [rewrite any_nonzero_on_net; by apply on_net_eq|].
  unfold names_at. cbn in *. rewrite Hn, Hv. split; [|done]. split; [apply set_net_other|]. cbn. by rewrite Hn.
Qed.
(** The device name of an interface's port. *)
Definition af_name (with_af_packet : bool) (iface : list Z) : list Z :=
  snprintf 64 (bytes_of_string (if with_af_packet then "eth_af_packet_" else "net_af_xdp_") ++ iface).
Definition tap_name (iface : list Z) : list Z := snprintf 64 (bytes_of_string "net_tap_" ++ iface).

Lemma alloc_af b iface pool : allocates (init_struct_af_xdp_port b iface pool) (af_name b iface).
Proof. destruct b; apply alloc_port. Qed.

Lemma alloc_tap iface pool : allocates (init_struct_tap_port iface pool) (tap_name iface).
Proof. apply alloc_port. Qed.

(** The names of the two kinds of devices differ in their fifth character or
    before. *)
Lemma af_tap_differ b iface tap : af_name b iface ≠ tap_name tap.
Proof.
  intros Heq. pose proof (f_equal (λ l, (l !! 0%nat, l !! 4%nat)) Heq) as H.
  destruct b; vm_compute in H; discriminate.
Qed.

(** Three ports that were just allocated, on a bus without devices. *)
Record allocated (s : plant) (i o x : ptr) (ni no nx : list Z) : Prop := {
  al_wf : ports_wf (w_ports (pl_world s));
  al_names : names_at s = <[x := nx]> (<[o := no]> {[i := ni]});
  al_distinct : NoDup [i; o; x];
  al_vdevs : pl_vdevs s = ∅
}.

Lemma allocated_names s i o x ni no nx :
  allocated s i o x ni no nx →
  names_at s !! i = Some ni ∧ names_at s !! o = Some no ∧ names_at s !! x = Some nx.
Proof.
  intros [_ Hn Hnd _]. rewrite !NoDup_cons in Hnd. rewrite Hn.
  assert (o ≠ i ∧ x ≠ i ∧ x ≠ o) as (? & ? & ?) by set_solver.
  split_and!; [by rewrite !lookup_insert_ne, lookup_singleton_eq|by rewrite lookup_insert_ne, lookup_insert_eq|by rewrite lookup_insert_eq].
Qed.

(** Initialising and starting them. *)
Lemma ports_initialised s i o x ni no nx :
  allocated s i o x ni no nx → NoDup [ni; no; nx] → Forall (λ n, is_Some (cstr n)) [ni; no; nx] →
  ∃ b s', any_nonzero [port_init (Some i); port_init (Some o); port_init (Some x)] s = Ok (b, s')
    ∧ ports_step s s' ∧ names_at s' = names_at s ∧ (b = false → pl_vdevs s' = {[ni; no; nx]}).
Proof.
  intros Hal Hnd Hstr. destruct (allocated_names _ _ _ _ _ _ _ Hal) as (Hi & Ho & Hx).
  destruct (init_ports_plant [(i, ni); (o, no); (x, nx)] s) as (b & s' & Hrun & Hst & Hn & Hv).
  - apply Hal.
  - rewrite !Forall_cons in Hstr. destruct Hstr as (? & ? & ? & _).
    repeat constructor; cbn; try done; rewrite (al_vdevs _ _ _ _ _ _ _ Hal); set_solver.
  - done.
  - exists b, s'. split; [exact Hrun|]. split_and!; [done|done|]. intros Hb.
    rewrite (Hv Hb), (al_vdevs _ _ _ _ _ _ _ Hal). cbn. set_solver.
Qed.

Lemma ports_started s i o x :
  ports_wf (w_ports (pl_world s)) → Forall (λ p, is_Some (names_at s !! p)) [i; o; x] →
  ∃ b s', any_nonzero [port_start (Some i); port_start (Some o); port_start (Some x)] s = Ok (b, s')
    ∧ ports_step s s' ∧ names_at s' = names_at s ∧ pl_vdevs s' = pl_vdevs s.
Proof. apply (start_ports_plant [i; o; x]). Qed.

(** *** The installation in order *)

Lemma plant_inv s i o x :
  ports_wf (w_ports (pl_world s)) → Forall (λ p, is_Some (names_at s !! p)) [i; o; x] →
  cache_ready (w_dom (pl_world s)) → cache_ready (w_ip (pl_world s)) → world_inv i o x (pl_world s).
Proof.
  intros Hwf Hall [Hd Hdi] [Hi Hii]. rewrite !Forall_cons in Hall. destruct Hall as (Hpi & Hpo & Hpx & _).
  assert (∀ p, is_Some (names_at s !! p) → is_Some (w_ports (pl_world s) !! p)) as Hsome.
  { intros p. unfold names_at, dev_names. rewrite lookup_fmap. destruct (_ !! p); [by eexists|].
    by intros [? ?]. }
  constructor; auto.
Qed.

(** *** Shutdown *)

Lemma destroy_plant p s :
  is_Some (names_at s !! p) →
  ∃ s', on_net (net_port_destroy (Some p)) s = Ok (tt, s') ∧ other_than_net s s'
    ∧ names_at s' = delete p (names_at s) ∧ pl_vdevs s' = pl_vdevs s.
Proof.
  intros Hp. destruct (destroy_port_spec p (net_of s) Hp) as (m & Hrun & Hn & Hv).
  exists (set_net m s). split; [by apply on_net_eq|]. split; [apply set_net_other|]. by split.
Qed.

Lemma other_than_net_trans s1 s2 s3 : other_than_net s1 s2 → other_than_net s2 s3 → other_than_net s1 s3.
Proof. intros [] []. constructor; congruence. Qed.

(** Taking down an installation whose caches were never initialised. *)
Lemma close_any p n s :
  names_at s !! p = Some n → ports_wf (w_ports (pl_world s)) →
  ∃ s', on_net (net_port_close (Some p)) s = Ok (tt, s') ∧ ports_step s s' ∧ names_at s' = names_at s
    ∧ ((∀ q n (e : E), closes q n e = true) → pl_vdevs s' = pl_vdevs s ∖ {[n]}).
Proof.
  intros Hp Hwf. destruct (close_port_total p n (net_of s) Hp Hwf) as (m & Hrun & [Hn Hw] & Hv).
  exists (set_net m s). split; [by apply on_net_eq|]. split; [split; [apply set_net_other|done]|]. done.
Qed.

Lemma cold_save {K N D} {HH : RteHash K} {HN : CacheNode N} {HT : CacheTable E K N} {HS : Sqlite D}
    (p : pstate E K N D) : c_hash (p_cache p) = None → save_all_cache p = Ok (None, p).
Proof.
  intros Hc. unfold save_all_cache, save_begin. unfold bind, gets. by rewrite Hc.
Qed.

Lemma cold_free {K N D} {HH : RteHash K} {HN : CacheNode N} {HT : CacheTable E K N} {HS : Sqlite D}
    (p : pstate E K N D) : c_hash (p_cache p) = None → free_cache p = Ok (tt, p).
Proof. intros Hc. unfold free_cache. unfold bind, gets. by rewrite Hc. Qed.

Lemma set_dns_of s : set_dns (dns_of s) s = s.
Proof. by destruct s as [[] ? [] ?]. Qed.
Lemma set_ips_of s : set_ips (ips_of s) s = s.
Proof. by destruct s as [[] ? ? []]. Qed.

(** Closing and freeing the three ports there are leaves none, whatever the
    driver answers, and no device, if they can be taken down. *)
Lemma ports_freed s i o x ni no nx :
  ports_wf (w_ports (pl_world s)) → NoDup [i; o; x] → names_at s = <[x := nx]> (<[o := no]> {[i := ni]}) →
  ∃ s', (on_net (net_port_close (Some i)) ;;; on_net (net_port_close (Some o)) ;;;
         on_net (net_port_close (Some x)) ;;; on_net (net_port_destroy (Some i)) ;;;
         on_net (net_port_destroy (Some o)) ;;; on_net (net_port_destroy (Some x))) s = Ok (tt, s')
    ∧ other_than_net s s' ∧ w_ports (pl_world s') = ∅
    ∧ ((∀ q n (e : E), closes q n e = true) → pl_vdevs s' = pl_vdevs s ∖ {[ni; no; nx]}).
Proof.
  intros Hwf Hnd Hnames.
  assert (o ≠ i ∧ x ≠ i ∧ x ≠ o) as (Hoi & Hxi & Hxo) by (rewrite !NoDup_cons in Hnd; set_solver).
  assert (names_at s !! i = Some ni ∧ names_at s !! o = Some no ∧ names_at s !! x = Some nx) as (Si & So & Sx).
  { rewrite Hnames. split_and!; [by rewrite !lookup_insert_ne, lookup_singleton_eq
      |by rewrite lookup_insert_ne, lookup_insert_eq|by rewrite lookup_insert_eq]. }
  destruct (close_any i ni s Si Hwf) as (s1 & R1 & [O1 W1] & N1 & V1). erewrite bind_eq by exact R1.
  destruct (close_any o no s1) as (s2 & R2 & [O2 W2] & N2 & V2); [by rewrite N1|done|]. erewrite bind_eq by exact R2.
  destruct (close_any x nx s2) as (s3 & R3 & [O3 W3] & N3 & V3); [by rewrite N2, N1|done|]. erewrite bind_eq by exact R3.
  assert (names_at s3 = names_at s) as N by congruence.
  destruct (destroy_plant i s3) as (s4 & R4 & O4 & N4 & V4); [by rewrite N, Si|]. erewrite bind_eq by exact R4.
  destruct (destroy_plant o s4) as (s5 & R5 & O5 & N5 & V5); [by rewrite N4, N, lookup_delete_ne, So|].
  erewrite bind_eq by exact R5.
  destruct (destroy_plant x s5) as (s6 & R6 & O6 & N6 & V6); [by rewrite N5, N4, N, !lookup_delete_ne, Sx|].
  exists s6. split; [done|]. split; [eauto 8 using other_than_net_trans|]. split.
  - assert (names_at s6 = ∅) as N0.
    { rewrite N6, N5, N4, N, Hnames. apply map_eq. intros k. rewrite lookup_empty.
      destruct (decide (k = x)) as [->|]; [by rewrite lookup_delete_eq|rewrite lookup_delete_ne by done].
      destruct (decide (k = o)) as [->|]; [by rewrite lookup_delete_eq|rewrite lookup_delete_ne by done].
      destruct (decide (k = i)) as [->|]; [by rewrite lookup_delete_eq|rewrite lookup_delete_ne by done].
      by rewrite !lookup_insert_ne, lookup_singleton_ne. }
    unfold names_at, dev_names in N0. by apply fmap_empty_inv in N0.
  - intros Hall. rewrite V6, V5, V4, (V3 Hall), (V2 Hall), (V1 Hall). set_solver.
Qed.

Lemma shutdown_cold s i o x ni no nx :
  c_hash (w_dom (pl_world s)) = None → c_hash (w_ip (pl_world s)) = None →
  ports_wf (w_ports (pl_world s)) → NoDup [i; o; x] → names_at s = <[x := nx]> (<[o := no]> {[i := ni]}) →
  ∃ s', shutdown (Some i) (Some o) (Some x) s = Ok (tt, s') ∧ other_than_net s s'
    ∧ w_ports (pl_world s') = ∅.
Proof.
  intros Hd Hi Hwf Hnd Hnames. unfold shutdown.
  assert (∀ {A} (m : M _ A) a, m (dns_of s) = Ok (a, dns_of s) → on_dns m s = Ok (a, s)) as Hdns.
  { intros A m a Hm. unfold on_dns. erewrite zoom_eq by exact Hm. by rewrite set_dns_of. }
  assert (∀ {A} (m : M _ A) a, m (ips_of s) = Ok (a, ips_of s) → on_ips m s = Ok (a, s)) as Hips.
  { intros A m a Hm. unfold on_ips. erewrite zoom_eq by exact Hm. by rewrite set_ips_of. }
  erewrite bind_eq by (apply Hdns, cold_save; exact Hd).
  erewrite bind_eq by (apply Hips, cold_save; exact Hi).
  erewrite bind_eq by (apply Hdns, cold_free; exact Hd).
  erewrite bind_eq by (apply Hips, cold_free; exact Hi).
  destruct (ports_freed s i o x ni no nx Hwf Hnd Hnames) as (s' & Hrun & Hother & Hp & _). by exists s'.
Qed.

(** The three ports of an installation, with the names of their devices. *)
Record three_ports (s : plant) (i o x : ptr) (ni no nx : list Z) : Prop := {
  tp_in : names_at s !! i = Some ni;
  tp_out : names_at s !! o = Some no;
  tp_exception : names_at s !! x = Some nx;
  tp_distinct : NoDup [i; o; x]
}.

(** Nothing is left: no table, no connection, no timer, no port. *)
Record all_gone s : Prop := {
  ag_tables : c_hash (w_dom (pl_world s)) = None ∧ c_hash (w_ip (pl_world s)) = None;
  ag_conns : s_conn (pl_dns s) = false ∧ s_conn (pl_ip s) = false;
  ag_timers : s_timer (pl_dns s) = None ∧ s_timer (pl_ip s) = None;
  ag_ports : w_ports (pl_world s) = ∅
}.

(** What was allocated for a cache's entries is freed; only nodes and key copies
    the table did not own are left. *)
Definition entries_freed {K N} `{Countable K} {HH : RteHash K} {HO : RteHashOk K HH} {HN : CacheNode N}
    (c c' : cache K N) : Prop :=
  ∀ F G, cache_inv F G c → dom (c_nodes c') = F ∧ dom (c_keys c') = G.

(** What is left of an installation with three devices: nothing; the decisions
    are in a database that is open and whose statements succeed; and the
    devices are gone if they can be taken down. *)
Record taken_down s s' (ni no nx : list Z) : Prop := {
  td_gone : all_gone s';
  td_dom : entries_freed (w_dom (pl_world s)) (w_dom (pl_world s'));
  td_ip : entries_freed (w_ip (pl_world s)) (w_ip (pl_world s'));
  td_dns_saved : SqliteUp D1 dns_sql → s_conn (pl_dns s) = true →
    saved_rows (E:=E) (w_dom (pl_world s)) (s_db (pl_dns s'));
  td_ip_saved : SqliteUp D2 ip_sql → s_conn (pl_ip s) = true →
    saved_rows (E:=E) (w_ip (pl_world s)) (s_db (pl_ip s'));
  td_vdevs : (∀ q n (e : E), closes q n e = true) → pl_vdevs s' = pl_vdevs s ∖ {[ni; no; nx]}
}.

(** Saving and, later, freeing a cache that can be written. *)
Lemma write_and_free {K N D} `{Countable K} {HH : RteHash K} {HO : RteHashOk K HH} {HN : CacheNode N}
    {HNO : CacheNodeOk N} {HU : UninitMem E N} {HT : CacheTable E K N} {HTO : CacheTableOk E K N}
    {HS : Sqlite D} {HSO : SqliteOk D (t_sql (E:=E) (K:=K) (N:=N))}
    {HSS : SqliteSetup D (t_sql (E:=E) (K:=K) (N:=N))} (p : pstate E K N D) :
  cache_ready (p_cache p) → writable_cache (E:=E) (p_cache p) → (∀ e : E, fst (malloc_ok e) = true) →
  ∃ stats e d n, save_all_cache p = Ok (stats, with_snapshots n (with_db d (with_cache (e, p_cache p) p)))
    ∧ (SqliteUp D (t_sql (E:=E) (K:=K) (N:=N)) → p_conn p = true → saved_rows (E:=E) (p_cache p) d)
    ∧ ∀ e2, ∃ p', free_cache (with_snapshots n (with_db d (with_cache (e2, p_cache p) p))) = Ok (tt, p')
        ∧ c_hash (p_cache p') = None ∧ p_conn p' = false ∧ p_timer p' = None
        ∧ entries_freed (p_cache p) (p_cache p') ∧ db_main (p_db p') = db_main d.
Proof.
  intros Hr Hw Hm. destruct (save_safe p Hr Hw (Hm _)) as (stats & e & d & n & Hrun).
  exists stats, e, d, n. split; [done|]. split.
  { intros HUP Hc. by apply (save_writes p stats _ Hr Hw (Hm _) Hc Hrun). }
  intros e2. destruct Hr as (Hh & F & G & Hi). set (p1 := with_snapshots _ _).
  destruct (free_cache_spec F G p1 Hi Hh) as (p' & Hfree & Hn & _ & _ & _ & Hc & Ht & _ & _ & Hdb).
  exists p'. split_and!; try done. intros F' G' Hi'.
  destruct (free_cache_spec F' G' p1 Hi' Hh) as (p2 & Hfree2 & _ & _ & HF' & HG' & _).
  rewrite Hfree in Hfree2. by injection Hfree2 as <-.
Qed.

Lemma saved_rows_main {K N D} `{Countable K} {HH : RteHash K} {HO : RteHashOk K HH} {HN : CacheNode N}
    {HT : CacheTable E K N} {HS : Sqlite D} {HSO : SqliteOk D (t_sql (E:=E) (K:=K) (N:=N))}
    (c : cache K N) (d d' : D) :
  db_main d' = db_main d → saved_rows (E:=E) c d → saved_rows (E:=E) c d'.
Proof. intros Hd Hs k q n t. rewrite Hd. apply Hs. Qed.

Lemma shutdown_writable s i o x ni no nx :
  cache_ready (w_dom (pl_world s)) → cache_ready (w_ip (pl_world s)) →
  writable_cache (E:=E) (w_dom (pl_world s)) → writable_cache (E:=E) (w_ip (pl_world s)) →
  (∀ e : E, fst (malloc_ok e) = true) → ports_wf (w_ports (pl_world s)) → NoDup [i; o; x] →
  names_at s = <[x := nx]> (<[o := no]> {[i := ni]}) →
  ∃ s', shutdown (Some i) (Some o) (Some x) s = Ok (tt, s') ∧ taken_down s s' ni no nx.
Proof.
  intros Hrd Hri Hwd Hwi Hm Hwf Hnd Hnames. unfold shutdown.
  destruct (write_and_free (dns_of s) Hrd Hwd Hm) as (st1 & e1 & d1 & n1 & Hsave1 & Hrows1 & Hfree1).
  erewrite bind_eq by (apply zoom_eq; exact Hsave1). set (s1 := set_dns _ s).
  destruct (write_and_free (ips_of s1) Hri Hwi Hm) as (st2 & e2 & d2 & n2 & Hsave2 & Hrows2 & Hfree2).
  erewrite bind_eq by (apply zoom_eq; exact Hsave2). set (s2 := set_ips _ s1).
  destruct (Hfree1 e2) as (p3 & Hf1 & Hh1 & Hc1 & Ht1 & He1 & Hd1).
  erewrite bind_eq by (apply zoom_eq; exact Hf1). set (s3 := set_dns p3 s2).
  destruct (Hfree2 (p_env p3)) as (p4 & Hf2 & Hh2 & Hc2 & Ht2 & He2 & Hd2).
  erewrite bind_eq by (apply zoom_eq; exact Hf2). set (s4 := set_ips p4 s3).
  destruct (ports_freed s4 i o x ni no nx Hwf Hnd Hnames) as (s5 & Hrun & [Hd Hi Hsd Hsi] & Hp & Hv).
  exists s5. split; [exact Hrun|]. constructor; [constructor|..|exact Hv]; rewrite ?Hd, ?Hi, ?Hsd, ?Hsi; try done.
  - intros HUP Hc. eapply saved_rows_main; [exact Hd1|]. by apply Hrows1.
  - intros HUP Hc. eapply saved_rows_main; [exact Hd2|]. by apply Hrows2.
Qed.
End spec.
