(* ===== verification/Enforce.v ===== *)
(** * Enforcement of the policy

    Consequences of the refinement of [ProcSpec.v]: what the policy blocks is
    not forwarded as long as the classifier answers; and what forwarding does
    to the bytes of a packet. *)

From Stdlib Require Import ZArith Lia.
From stdpp Require Import prelude gmap strings.
From S2P Require Import Prelude CMem Types Filter Parse Hash Sqlite Cache DomainCache IpCache Proc ProcSpec.

Local Open Scope Z_scope.

(** ** What the policy blocks *)

(** A DNS request for a name on the block list and not on the allow list.  (The
    code refuses a name on both lists too, against the administrator's guide:
    [block_overrides_allow].) *)
Definition blocked_domain (policy : BASE_POLICY) (d : list Z) : Prop :=
  ∃ s, cstr d = Some s ∧ domain_rule s (block_domains policy) = true
    ∧ domain_rule s (allow_domains policy) = false.

Definition blocked_ip (policy : BASE_POLICY) (info : info_of_pakage) : Prop :=
  ip_rule info (block_ip4 policy) (block_ip6 policy) = true.

(** The packet is blocked by name, or by destination address if it has none. *)
Definition blocked (policy : BASE_POLICY) (info : info_of_pakage) : Prop :=
  (has_domain info ∧ blocked_domain policy (domain info))
  ∨ (¬ has_domain info ∧ blocked_ip policy info).

(** The destination address is a 32-bit number. *)
Definition ip4_range (info : info_of_pakage) : Prop := 0 ≤ ip4_dist info < 2 ^ 32.

(** No cached decision lets through what the policy blocks. *)
Record caches_agree (policy : BASE_POLICY) (s : astate) : Prop := {
  agree_dom k e : blocked_domain policy k → a_dom s !! k = Some e → e_send e = false;
  agree_ip info e : ip4_range info → blocked_ip policy info →
    a_ip s !! packet_ip_key info = Some e → e_send e = false
}.

Lemma packet_ip_key_rule info info' l4 l6 :
  ip4_range info → ip4_range info' → packet_ip_key info = packet_ip_key info' →
  ip_rule info l4 l6 = ip_rule info' l4 l6.
Proof.
  intros Hr Hr'. unfold packet_ip_key, ip_rule.
  destruct (Types.ip_version info =? IP_4), (Types.ip_version info' =? IP_4); try done.
  - intros [= H0 H1 H2 H3]. assert (ip4_dist info = ip4_dist info') as ->; [|done].
    apply le_bytes32_inj; [done|done|]. unfold le_bytes32. congruence.
  - by intros [= ->].
Qed.

Lemma copy_domain_cstr d s : length d = DOMAIN_MAX_LEN → cstr d = Some s →
  ∃ k, copy_domain d = Ok k ∧ cstr k = Some s.
Proof.
  intros Hd Hs. pose proof (terminated_cstr_length d s Hs).
  exists (pad DOMAIN_MAX_LEN s). split; [apply copy_domain_pad; [done|lia]|].
  apply pad_cstr; [by eapply cstr_no_null|lia].
Qed.

Section enforce.
Context {E : Type} {HD : RteHash domain_key} {HI : RteHash ip_key}.
Context {HE : RteEnv E} {HP : PacketEnv E} {HC : Classifier E}.
Context {HGC : GarbageClean E} {HCO : ClassifierOk E}.
Context {platform : Platform} {inet : Inet} {io : InetOk} {ck : Ipv4Cksum}.
Context {HDO : RteHashOk domain_key HD} {HIO : RteHashOk ip_key HI}.

(** A classifier that never fails decides by the filter. *)
Lemma averdict_answered ty target v e b e' :
  ¬ may_classify (E:=E) false → terminated target = true → averdict ty target v e = Ok (b, e') →
  ∃ c, clas_wf c ∧ b = v c.
Proof.
  intros Hans Ht Hv. destruct (averdict_cases _ _ _ _ _ _ Ht Hv) as ([] & c & Ha & Hb); [by exists c|].
  destruct Hans. by exists ty, target, c.
Qed.

(** What is known of a name or an address once the machine has decided on a
    packet: a decision for a blocked target, cached or new, is not to send. *)
Lemma adecide_agree policy info e s rt new e1 s1 :
  ¬ may_classify (E:=E) false → info_wf info → ip4_range info → caches_agree policy s →
  adecide policy info (e, s) = Ok (rt, new, (e1, s1)) →
  caches_agree policy s1
  ∧ (blocked policy info → exception_port info = false → rt = Drop)
  ∧ (blocked policy info → new ≠ Some true).
Proof.
  intros Hans Hwf Hr Hag. unfold adecide. destruct (exception_port info) eqn:Hex; [by intros [= <- <- <- <-]|].
  cbn [fst snd]. destruct (decide (has_domain info)) as [Hd|Hd].
  - destruct (alookup _ _) as [[b|] [e2 A]] eqn:El.
    + apply alookup_Some in El as (HA & x & Hx & ->). cbn in HA. subst A. intros [= <- <- <- <-].
      split; [by destruct s|]. split; [|done]. intros [[_ Hb]|[? _]] _; [|done].
      by rewrite (agree_dom _ _ Hag _ x Hb Hx).
    + apply alookup_None in El. cbn in El. destruct (averdict _ _ _ _) as [[b e3]|] eqn:Ev; [|done].
      cbn. intros [= <- <- <- <-]. apply averdict_answered in Ev as (c & Hc & ->); [|done|apply Hwf].
      assert (blocked policy info → domain_verdict c policy info = false) as Hv.
      { intros [[_ (t & Ht & Hb & _)]|[? _]]; [|done]. unfold domain_verdict. rewrite Ht. cbn. by rewrite Hb. }
      split; [|by split; intros Hb; rewrite (Hv Hb)].
      constructor; cbn; [|apply Hag]. intros k x Hb Hx. eapply (agree_dom _ _ Hag); [done|]. by eapply lookup_weaken.
  - destruct (alookup _ _) as [[b|] [e2 A]] eqn:El.
    + apply alookup_Some in El as (HA & x & Hx & ->). cbn in HA. subst A. intros [= <- <- <- <-].
      split; [by destruct s|]. split; [|done]. intros [[? _]|[_ Hb]] _; [done|].
      by rewrite (agree_ip _ _ Hag info x Hr Hb Hx).
    + apply alookup_None in El. cbn in El. destruct (averdict _ _ _ _) as [[b e3]|] eqn:Ev; [|done].
      cbn. intros [= <- <- <- <-]. apply averdict_answered in Ev as (c & Hc & ->);
        [|done|by apply packet_ip_str_terminated].
      assert (blocked policy info → ip_verdict c policy info = false) as Hv.
      { intros [[? _]|[_ Hb]]; [done|]. unfold ip_verdict. by rewrite Hb. }
      split; [|by split; intros Hb; rewrite (Hv Hb)].
      constructor; cbn; [apply Hag|]. intros info' x Hr' Hb Hx.
      eapply (agree_ip _ _ Hag); [done|done|]. by eapply lookup_weaken.
Qed.

(** Remembering such a decision keeps the caches in agreement. *)
Lemma aremember_agree policy info new e s e' s' :
  info_wf info → ip4_range info → caches_agree policy s → (blocked policy info → new ≠ Some true) →
  aremember policy info new (e, s) = Ok (e', s') → caches_agree policy s'.
Proof.
  intros Hwf Hr Hag Hnew. unfold aremember. destruct new as [b|]; [|by intros [= <- <-]]. cbn [fst snd].
  destruct (decide (has_domain info)) as [Hd|Hd].
  - destruct (proj1 (cstr_terminated _) (wf_domain_term _ Hwf)) as [t Ht].
    destruct (copy_domain_cstr (domain info) t (wf_domain_len _ Hwf) Ht) as (k & Hk & Hs).
    rewrite Hk. cbn [rbind]. pose proof (ainsert_cases (K:=domain_key) k b (ttl_domain policy) (e, a_dom s)) as Hc.
    destruct (ainsert _ _ _ _) as [e2 A]. intros [= <- <-]. cbn in Hc.
    constructor; cbn; [|apply Hag]. intros k' x Hb Hx. destruct Hc as [->|[now ->]]; [by eapply (agree_dom _ _ Hag)|].
    apply lookup_insert_Some in Hx as [[<- <-]|[_ Hx]]; [|by eapply (agree_dom _ _ Hag)].
    destruct b; [|done]. destruct Hnew; [|done]. left. split; [done|].
    destruct Hb as (t' & Ht' & Hb). exists t. split; [done|]. by assert (t' = t) as -> by congruence.
  - pose proof (ainsert_cases (packet_ip_key info) b (ttl_ip policy) (e, a_ip s)) as Hc.
    destruct (ainsert _ _ _ _) as [e2 A]. intros [= <- <-]. cbn in Hc.
    constructor; cbn; [apply Hag|]. intros info' x Hr' Hb Hx.
    destruct Hc as [->|[now ->]]; [by eapply (agree_ip _ _ Hag info')|].
    apply lookup_insert_Some in Hx as [[Hkey <-]|[_ Hx]]; [|by eapply (agree_ip _ _ Hag info')].
    destruct b; [|done]. destruct Hnew; [|done]. right. split; [done|].
    unfold blocked_ip in *. by rewrite (packet_ip_key_rule info info').
Qed.

(** A burst keeps the caches in agreement with the policy and frees what is
    blocked, if the classifier always answers. *)
Lemma burst_agree i o x q policy l (w w' : world E) :
  ¬ may_classify (E:=E) false → Forall (λ info, info_wf info ∧ ip4_range info) l.*2 →
  burst i o x q policy l w w' → caches_agree policy (abs_world w) →
  caches_agree policy (abs_world w') ∧ ∃ evs, w_trace w' = w_trace w ++ evs
    ∧ Forall2 (λ info ev, blocked policy info → exception_port info = false → ∃ pkt, ev = Freed pkt) l.*2 evs.
Proof.
  intros Hans Hwf Hb. induction Hb as [w|pkt m info l w w1 w2 (rt & new & e1 & s1 & e2 & Hdec & Hmv & Hrem) _ IH].
  { intros Hag. split; [done|]. exists []. rewrite app_nil_r. by split; [|constructor]. }
  intros Hag. apply Forall_cons in Hwf as [[Hi Hr] Hwf].
  destruct (adecide_agree _ _ _ _ _ _ _ _ Hans Hi Hr Hag Hdec) as (Hag1 & Hdrop & Hnew).
  apply aremember_agree in Hrem as Hag2; [|done..].
  destruct (IH Hwf Hag2) as (Hag3 & evs & Ht & Hev). split; [done|].
  destruct (moved_event _ _ _ _ _ _ _ _ _ Hmv) as (ev & Ht1 & _ & Hfree).
  exists (ev :: evs). split; [by rewrite Ht, Ht1, <- app_assoc|]. constructor; [|done].
  intros Hbl Hex. exists pkt. apply Hfree. by rewrite (Hdrop Hbl Hex).
Qed.

End enforce.

(** ** Checksums *)

(** The sum of the 16-bit words of a header. *)
Fixpoint word_sum (l : list Z) : Z :=
  match l with
  | b0 :: b1 :: l' => le16 b0 b1 + word_sum l'
  | [b0] => b0
  | [] => 0
  end.

(** The length of an IPv4 header in bytes, from its first byte. *)
Definition ihl_bytes (h : list Z) : nat :=
  match h with
  | b :: _ => (4 * Z.to_nat (Z.land b 15))%nat
  | [] => 0%nat
  end.

(** Documented behaviour of [rte_ipv4_cksum]: with the checksum field zero, it
    is the 16-bit number that makes the one's complement sum of the header
    (the sum of its words modulo 65535) zero. *)
Class Ipv4CksumOk {ck : Ipv4Cksum} := {
  cksum_valid h :
    (20 ≤ ihl_bytes h ≤ length h)%nat → h !! 10%nat = Some 0 → h !! 11%nat = Some 0 →
    0 ≤ rte_ipv4_cksum h < 65536
    ∧ (word_sum (take (ihl_bytes h) h) + rte_ipv4_cksum h) mod 65535 = 0
}.

Section checksum.
Context {ck : Ipv4Cksum} {cko : Ipv4CksumOk}.

(** The IPv4 header of a frame. *)
Lemma frame_header f : frame_wf f →
  drop 14 (frame_bytes f) = f_hdr f ++ [f_ttl f; f_proto f; f_ck0 f; f_ck1 f] ++ f_rest f.
Proof.
  intros (H1 & H2 & H3). unfold frame_bytes. rewrite !app_assoc.
  rewrite <- (app_assoc _ (f_hdr f)), <- (app_assoc _ (f_hdr f ++ _)), <- !app_assoc.
  rewrite (app_assoc (f_dst f)), (app_assoc (f_dst f ++ f_src f)).
  apply drop_app_length'. rewrite !length_app, H1, H2. done.
Qed.

Lemma hop_frame_checksum f :
  frame_wf f → (48 ≤ length (f_rest f))%nat → (20 ≤ ihl_bytes (f_hdr f))%nat →
  word_sum (take (ihl_bytes (f_hdr f)) (drop 14 (frame_bytes (hop_frame f)))) mod 65535 = 0.
Proof.
  intros Hf Hrest Hihl. unfold hop_frame.
  set (g := set_ck 0 0 (set_ttl (f_ttl f - 1) f)).
  assert (frame_wf g) as Hg by done.
  assert (frame_wf (set_ck (u16 (rte_ipv4_cksum (drop 14 (frame_bytes g))) mod 256)
    (u16 (rte_ipv4_cksum (drop 14 (frame_bytes g))) / 256) g)) as Hg' by done.
  rewrite (frame_header _ Hg').
  destruct Hf as (_ & _ & H8). pose proof (frame_header g Hg) as Hh.
  destruct (f_hdr f) as [|h0 [|h1 [|h2 [|h3 [|h4 [|h5 [|h6 [|h7 [|]]]]]]]]] eqn:Ehdr; try done.
  cbn [ihl_bytes] in *. set (n := (4 * Z.to_nat (Z.land h0 15))%nat) in *.
  assert (f_hdr g = f_hdr f) as Hgh by done. rewrite Ehdr in Hgh.
  destruct (cksum_valid (drop 14 (frame_bytes g))) as [Hrange Hsum].
  { rewrite Hh, Hgh. cbn [ihl_bytes]. fold n. rewrite !length_app. cbn.
    assert (Z.to_nat (Z.land h0 15) ≤ 15)%nat; [|unfold n in *; lia].
    change 15 with (Z.ones 4). rewrite Z.land_ones by lia.
    pose proof (Z.mod_pos_bound h0 (2 ^ 4)). lia. }
  { by rewrite Hh, Hgh. }
  { by rewrite Hh, Hgh. }
  unfold u16. rewrite (Z.mod_small _ (2 ^ 16)) by lia.
  revert Hsum Hrange. generalize (rte_ipv4_cksum (drop 14 (frame_bytes g))). intros c.
  change (f_hdr (set_ck (c mod 256) (c / 256) g)) with (f_hdr g).
  rewrite Hh, Hgh. cbn [app ihl_bytes]. fold n.
  replace n with (12 + (n - 12))%nat by lia.
  cbn [take Nat.add word_sum g f_ttl f_proto f_ck0 f_ck1 f_rest set_ck set_ttl].
  intros Hsum Hrange. unfold le16 in *. pose proof (Z.div_mod c 256). rewrite <- Hsum. f_equal. lia.
Qed.

End checksum.

Section enforcement.
Context {E : Type} {HD : RteHash domain_key} {HI : RteHash ip_key}.
Context {HDO : RteHashOk domain_key HD} {HIO : RteHashOk ip_key HI}.
Context {HE : RteEnv E} {HP : PacketEnv E} {HC : Classifier E}.
Context {HEO : RteEnvOk E} {HPO : PacketEnvOk E} {HGC : GarbageClean E} {HCO : ClassifierOk E}.
Context {np : NetPtype} {platform : Platform} {inet : Inet} {io : InetOk} {ck : Ipv4Cksum}.
#[local] Abbreviation world := (world E).
Implicit Types (w : world).

(** The packets the next burst on port [i] yields parse, to addresses that are
    32-bit numbers. *)
Definition parses (i : ptr) (q : Z) (n : nat) (w : world) (infos : list info_of_pakage) : Prop :=
  Forall2 (λ m info, parsing_pakage m info_zero = Ok info) (incoming i q n w) infos
  ∧ Forall ip4_range infos.

Lemma processing_enforces i o x q n policy infos w :
  world_inv i o x w → policy_wf policy → overrun_wf policy → parses i q n w infos →
  ¬ may_classify (E:=E) false → caches_agree policy (abs_world w) →
  ∃ w' evs, pakage_processing i o x q n policy false w = Ok (tt, w')
    ∧ world_inv i o x w' ∧ caches_agree policy (abs_world w') ∧ w_trace w' = w_trace w ++ evs
    ∧ Forall2 (λ info ev, blocked policy info → exception_port info = false →
                          ∃ pkt, ev = Freed pkt) infos evs.
Proof.
  intros Hinv Hp Ho [Hparse Hr4] Hans Hag.
  destruct (pakage_processing_burst i o x q n policy infos w Hinv Hp Ho Hparse)
    as (ps & w0 & w' & Hrun & Hinv' & _ & Hb & Hl1 & Hl2 & _ & _ & _ & Habs & Ht & _).
  destruct (burst_lists ps (incoming i q n w) infos Hl1 Hl2) as (_ & Hinfos & _).
  assert (Forall (λ info, info_wf info ∧ ip4_range info) infos) as Hwf.
  { apply Forall_lookup. intros j info Hj. split; [|by eapply Forall_lookup in Hr4].
    apply Forall2_flip in Hparse. destruct (Forall2_lookup_l _ _ _ _ _ Hparse Hj) as (m & _ & Hm).
    by eapply parsing_pakage_wf_ok; [apply info_zero_wf|]. }
  rewrite <- Habs in Hag. rewrite <- Hinfos in Hwf.
  destruct (burst_agree _ _ _ _ _ _ _ _ Hans Hwf Hb Hag) as (Hag' & evs & Htr & Hev).
  exists w', evs. rewrite Hinfos in Hev. rewrite Ht in Htr. by split_and!.
Qed.

(** C9: enforcement of the block lists, with filtering on: as long as the
    packets of the burst parse, every classification is answered and no cached
    decision contradicts the policy, no packet of the burst whose name is on the
    policy's block list and not on its allow list (or, without a name, whose
    destination address is on the block list) is transmitted, apart from those
    for an exception port; they are freed; and the caches still agree with the
    policy afterwards. *)
Theorem pakage_processing_blocks i o x q n policy infos w :
  world_inv i o x w → policy_wf policy → overrun_wf policy →
  Forall2 (λ m info, parsing_pakage m info_zero = Ok info) (incoming i q n w) infos →
  Forall ip4_range infos → ¬ may_classify (E:=E) false → caches_agree policy (abs_world w) →
  ∃ w' evs, pakage_processing i o x q n policy false w = Ok (tt, w')
    ∧ caches_agree policy (abs_world w') ∧ w_trace w' = w_trace w ++ evs
    ∧ Forall2 (λ info ev, blocked policy info → exception_port info = false →
                          ∃ pkt, ev = Freed pkt) infos evs.
Proof.
  intros Hinv Hp Ho Hparse Hr4 Hans Hag.
  destruct (processing_enforces i o x q n policy infos w) as (w' & evs & Hrun & _ & Hrest); try done.
  by exists w', evs.
Qed.

(** The fields of a frame, found in its bytes. *)
Lemma frame_fields f data ttl :
  frame_wf f → frame_bytes f = data → data !! 22%nat = Some ttl →
  load16 data 12 = Ok (rte_cpu_to_be_16 RTE_ETHER_TYPE_IPV4) →
  f_ttl f = ttl ∧ frame_is_ipv4 f = true ∧ ihl_bytes (drop 14 data) = ihl_bytes (f_hdr f).
Proof.
  intros Hf <- Httl Hty. pose proof (load_ttl f Hf) as H1. rewrite array_get_Ok in H1.
  rewrite load_type in Hty by done. split; [congruence|]. split.
  - unfold frame_is_ipv4. injection Hty as ->. apply Z.eqb_refl.
  - rewrite frame_header by done. destruct Hf as (_ & _ & H8). by destruct (f_hdr f).
Qed.

(** Rewriting a frame changes its addresses, its time to live and its checksum
    and nothing else. *)
Lemma hop_frame_bytes out f :
  frame_wf f → port_wf out →
  let b := frame_bytes (hop_frame (link_frame out f)) in
  length b = length (frame_bytes f)
  ∧ take 6 b = (if neighbor_learned out then neighbor_mac out else broadcast)
  ∧ take 6 (drop 6 b) = mac_addr out ∧ b !! 22%nat = Some (f_ttl f - 1)
  ∧ ∀ j, (12 ≤ j)%nat → j ∉ [22; 24; 25]%nat → b !! j = frame_bytes f !! j.
Proof.
  intros Hf [Hmac Hneigh]. set (g := hop_frame (link_frame out f)).
  assert (frame_wf g) as Hg.
  { destruct Hf as (? & ? & ?). split_and!; cbn; [by destruct (neighbor_learned out)|done|done]. }
  pose proof (load_ttl g Hg) as Httl. rewrite array_get_Ok in Httl.
  destruct Hf as (H1 & H2 & H3), Hg as (G1 & G2 & G3). cbn zeta. unfold frame_bytes. split_and!.
  - rewrite !length_app, H1, H2, H3, G1, G2, G3. done.
  - by apply take_app_length'.
  - rewrite (drop_app_length' _ _ 6) by done. by apply take_app_length'.
  - exact Httl.
  - intros j Hj Hnot. rewrite !not_elem_of_cons in Hnot.
    rewrite !(lookup_app_r (f_dst _)), !(lookup_app_r (f_src _)) by lia.
    rewrite G1, G2, H1, H2. destruct (decide (j - 6 - 6 < 2)%nat).
    { by rewrite !(lookup_app_l [_; _]) by (cbn; lia). }
    rewrite !(lookup_app_r [_; _]) by (cbn; lia).
    destruct (decide (j - 6 - 6 - 2 < 8)%nat).
    { by rewrite !(lookup_app_l (f_hdr _)) by (cbn; lia). }
    rewrite !(lookup_app_r (f_hdr _)), G3, H3 by (cbn; lia). cbn [length].
    destruct (j - 6 - 6 - 2 - 8)%nat as [|[|[|[|u]]]] eqn:Eu; try done; lia.
Qed.

(** C14: what forwarding does to a packet: an IPv4 packet with hops left that
    the driver accepts leaves on the outgoing port with the port's own address
    as source, the learned neighbour (or broadcast) as destination, its time to
    live reduced by one, a header checksum that verifies, and every other byte
    as received. *)
Theorem forward_rewrites_hop {cko : Ipv4CksumOk} i o x q pkt m ttl w :
  world_inv i o x w → w_mbufs w !! pkt = Some m → mbuf_wf m →
  load16 (mb_data m) 12 = Ok (rte_cpu_to_be_16 RTE_ETHER_TYPE_IPV4) →
  mb_data m !! 22%nat = Some ttl → 1 < ttl → (20 ≤ ihl_bytes (drop 14 (mb_data m)))%nat →
  (∀ e p m', 1 ≤ fst (rte_eth_tx_burst e p q m')) →
  ∃ w' out b, forward_packet_with_rewrite pkt i o q w = Ok (tt, w')
    ∧ w_ports w' !! o = Some out
    ∧ w_trace w' = w_trace w ++ [Sent (port_id out) q pkt (Mbuf b (mb_data_len m))]
    ∧ length b = length (mb_data m)
    ∧ take 6 b = (if neighbor_learned out then neighbor_mac out else broadcast)
    ∧ take 6 (drop 6 b) = mac_addr out
    ∧ b !! 22%nat = Some (ttl - 1)
    ∧ word_sum (take (ihl_bytes (drop 14 (mb_data m))) (drop 14 b)) mod 65535 = 0
    ∧ ∀ j, (12 ≤ j)%nat → j ∉ [22; 24; 25]%nat → b !! j = mb_data m !! j.
Proof.
  intros Hinv Hm Hwf Hty Httl Hlive Hihl Hacc.
  destruct (wi_in _ _ _ _ Hinv) as [pin Hi], (wi_out _ _ _ _ Hinv) as [pout Ho].
  destruct (frame_of _ Hwf) as (f & Hf & Hb & Hrest).
  destruct (frame_fields f _ ttl Hf Hb Httl Hty) as (<- & Hip & Hih). rewrite Hih in *.
  pose proof (wi_ports _ _ _ _ Hinv) as Hps.
  rewrite (forward_spec w pkt i o q pin pout m f) by done. unfold forward_result.
  destruct (default_out (w_ports w) i (learn_port pin pout f) o pout Ho) as (out & Hout & Hdef).
  rewrite Hdef, Hip, (proj2 (Z.leb_gt _ _)) by lia. cbn [andb].
  unfold rewrite_frame. rewrite Hip.
  set (b := frame_bytes (hop_frame (link_frame out f))).
  specialize (Hacc (w_env w) (port_id out) (Mbuf b (mb_data_len m))).
  destruct (rte_eth_tx_burst _ _ _ _) as [r e]. cbn in Hacc.
  rewrite Z.geb_leb, (proj2 (Z.leb_le _ _)) by done.
  assert (port_wf out) as Howf by (by eapply (learn_ports_wf _ i pin pout f Hps Hi Hf)).
  destruct (hop_frame_bytes out f Hf Howf) as (Hlen & Hdst & Hsrc & Ht & Hothers).
  eexists _, out, b. split; [done|]. rewrite <- Hb. split_and!; try done.
  apply (hop_frame_checksum (link_frame out f)); [|done|done].
  destruct Hf as (? & ? & ?), Howf. split_and!; cbn; [by destruct (neighbor_learned out)|done|done].
Qed.

End enforcement.
