(* ===== verification/Worker.v ===== *)
(** * The worker object: worker.cpp

    [Worker::classify], which implements the classification service the packet
    path calls; the policy requests; the body of [Worker::MainLoop] with its
    timers and counters; and the threads: a policy request runs in a thread of
    its own beside the main loop.  The controller behind the gRPC stub, the
    clock, [rand] and [rte_timer_manage] are parameters. *)

From Stdlib Require Import ZArith Lia.
From stdpp Require Import prelude gmap strings relations.
From S2P Require Import Prelude CMem Metrics Types Filter Parse Hash Sqlite Policy Cache DomainCache IpCache Proc ProcSpec Enforce.

Local Open Scope Z_scope.

(** ** The controller and the run time *)

Record GetPolicyResponse := MkGetPolicyResponse {
  resp_result : Z;
  resp_policy : WorkerPolicy;
  resp_filtering_enabled : bool
}.

Definition POLICY_PROVIDED : Z := 0.
Definition POLICY_UNCHANGED : Z := 1.

(** Calls of the controller with a deadline; no response when the status is not
    ok or the call throws. *)
Class Controller (E : Type) := {
  stub_GetPolicy : Z → Z → E → option GetPolicyResponse * E;
  stub_Classify : Z → string → list Z → E → option ClassifyResponse * E
}.

(** The monotonic clock in nanoseconds, [rand], and the timer callbacks that are
    due.  A callback only starts a thread that saves a cache; the threads are
    events of their own in [Process.v] and may run between any two iterations. *)
Class LoopEnv (E : Type) := {
  steady_clock_now : E → Z * E;
  rand : E → Z * E;
  rte_timer_manage : E → unit * E
}.

(** ** State *)

Inductive WorkerState := FREE | SHUTTING_DOWN.

#[global] Instance WorkerState_eq_dec : EqDecision WorkerState.
Proof. solve_decision. Defined.

Definition MIN_POLICY_TIME : Z := 30.
Definition MAX_POLICY_TIME : Z := 45.
Definition METRICS_FLUSH_INTERVAL_SEC : Z := 5.
Definition DNS_CACHE_DEFAULT_TTL : Z := 7 * 24 * 60 * 60.
Definition IP_CACHE_DEFAULT_TTL : Z := 7 * 24 * 60 * 60.
Definition timer_check_interval : Z := 10000.

(** The fields of the object, its static [stop_flag], the local variables of
    [MainLoop] and the policy threads that were started and have not run yet;
    [wk_collector] is the metrics collector the object owns. *)
Record worker (E : Type) {HD : RteHash domain_key} {HI : RteHash ip_key} := Wk {
  wk_world : world E;
  wk_config_version : Z;
  wk_enable : bool;
  wk_policy : BASE_POLICY;
  wk_state : WorkerState;
  wk_stop : bool;
  wk_last_policy_time : Z;
  wk_policy_interval : Z;
  wk_last_metrics : Z;
  wk_collector : option (MetricsCollector E);
  wk_timer_counter : Z;
  wk_local : BASE_POLICY;
  wk_threads : nat
}.
Arguments Wk {E HD HI}.
Arguments wk_world {E HD HI}.
Arguments wk_config_version {E HD HI}.
Arguments wk_enable {E HD HI}.
Arguments wk_policy {E HD HI}.
Arguments wk_state {E HD HI}.
Arguments wk_stop {E HD HI}.
Arguments wk_last_policy_time {E HD HI}.
Arguments wk_policy_interval {E HD HI}.
Arguments wk_last_metrics {E HD HI}.
Arguments wk_collector {E HD HI}.
Arguments wk_timer_counter {E HD HI}.
Arguments wk_local {E HD HI}.
Arguments wk_threads {E HD HI}.

Section worker.
Context {E : Type} {HD : RteHash domain_key} {HI : RteHash ip_key}.
Context {HE : RteEnv E} {HP : PacketEnv E} {HK : Controller E} {HL : LoopEnv E}.
Context {np : NetPtype} {platform : Platform} {inet : Inet} {ck : Ipv4Cksum}.
#[local] Abbreviation world := (world E).
#[local] Abbreviation worker := (worker E).

Definition set_world (w : world) (k : worker) : worker :=
  Wk w (wk_config_version k) (wk_enable k) (wk_policy k) (wk_state k) (wk_stop k)
    (wk_last_policy_time k) (wk_policy_interval k) (wk_last_metrics k) (wk_collector k)
    (wk_timer_counter k) (wk_local k) (wk_threads k).
Definition set_enable (b : bool) (k : worker) : worker :=
  Wk (wk_world k) (wk_config_version k) b (wk_policy k) (wk_state k) (wk_stop k)
    (wk_last_policy_time k) (wk_policy_interval k) (wk_last_metrics k) (wk_collector k)
    (wk_timer_counter k) (wk_local k) (wk_threads k).
Definition set_policy (p : BASE_POLICY) (version : Z) (k : worker) : worker :=
  Wk (wk_world k) version (wk_enable k) p (wk_state k) (wk_stop k)
    (wk_last_policy_time k) (wk_policy_interval k) (wk_last_metrics k) (wk_collector k)
    (wk_timer_counter k) (wk_local k) (wk_threads k).
Definition set_run (s : WorkerState) (stop : bool) (k : worker) : worker :=
  Wk (wk_world k) (wk_config_version k) (wk_enable k) (wk_policy k) s stop
    (wk_last_policy_time k) (wk_policy_interval k) (wk_last_metrics k) (wk_collector k)
    (wk_timer_counter k) (wk_local k) (wk_threads k).
Definition set_schedule (now interval : Z) (threads : nat) (k : worker) : worker :=
  Wk (wk_world k) (wk_config_version k) (wk_enable k) (wk_policy k) (wk_state k) (wk_stop k)
    now interval (wk_last_metrics k) (wk_collector k)
    (wk_timer_counter k) (wk_local k) threads.
Definition set_metrics (now : Z) (c : option (MetricsCollector E)) (k : worker) : worker :=
  Wk (wk_world k) (wk_config_version k) (wk_enable k) (wk_policy k) (wk_state k) (wk_stop k)
    (wk_last_policy_time k) (wk_policy_interval k) now c
    (wk_timer_counter k) (wk_local k) (wk_threads k).
Definition set_counter (n : Z) (k : worker) : worker :=
  Wk (wk_world k) (wk_config_version k) (wk_enable k) (wk_policy k) (wk_state k) (wk_stop k)
    (wk_last_policy_time k) (wk_policy_interval k) (wk_last_metrics k) (wk_collector k)
    n (wk_local k) (wk_threads k).
Definition set_local (p : BASE_POLICY) (k : worker) : worker :=
  Wk (wk_world k) (wk_config_version k) (wk_enable k) (wk_policy k) (wk_state k) (wk_stop k)
    (wk_last_policy_time k) (wk_policy_interval k) (wk_last_metrics k) (wk_collector k)
    (wk_timer_counter k) p (wk_threads k).

Definition on_world {A} (m : M world A) : M worker A := zoom wk_world set_world m.
Definition on_env {A} (f : E → A * E) : M worker A := on_world (λ w,
  let (a, e) := f (w_env w) in Ok (a, with_env e w)).

(** ** Classification *)

(** [worker_classify] and [Worker::classify]: the target is read as a C string;
    the object exists. *)
Definition classify (worker_id : Z) (type : string) (target : list Z)
    (out_req : requested_classification) : M E (bool * requested_classification) := λ e,
  match cstr target with
  | None => Fault OutOfBounds
  | Some t =>
      let (resp, e') := stub_Classify worker_id type t e in
      match resp with
      | None => Ok ((false, out_req), e')
      | Some resp => let* c := fill_classification resp out_req in Ok ((true, c), e')
      end
  end.

Definition worker_classifier (worker_id : Z) : Classifier E :=
  {| worker_classify := classify worker_id |}.

(** ** Policies *)

Definition requestPolicyFromController (worker_id : Z) : M worker unit :=
  let! version := gets wk_config_version in
  let! resp := on_env (stub_GetPolicy worker_id version) in
  match resp with
  | None => ret tt
  | Some resp =>
      modify (set_enable (resp_filtering_enabled resp)) ;;;
      if resp_result resp =? POLICY_PROVIDED then
        let pol := resp_policy resp in
        let! p := lift (load_policy pol) in
        modify (set_policy p (pol_config_version pol)) ;;;
        on_world (on_ip clear_ip_cache) ;;;
        on_world (on_dom clear_dns_cache)
      else ret tt
  end.

(** A policy thread. *)
Definition policy_thread (worker_id : Z) : M worker unit :=
  modify (λ k, set_schedule (wk_last_policy_time k) (wk_policy_interval k)
                 (pred (wk_threads k)) k) ;;;
  requestPolicyFromController worker_id.

(** The copy of the policy the main loop works with. *)
Definition default_ttl (p : BASE_POLICY) : BASE_POLICY :=
  {| locked_categories := locked_categories p; categories_with_lvl := categories_with_lvl p;
     ttl_ip := if ttl_ip p <=? 0 then IP_CACHE_DEFAULT_TTL else ttl_ip p;
     ttl_domain := if ttl_domain p <=? 0 then DNS_CACHE_DEFAULT_TTL else ttl_domain p;
     block_domains := block_domains p; allow_domains := allow_domains p;
     block_ip4 := block_ip4 p; allow_ip4 := allow_ip4 p;
     block_ip6 := block_ip6 p; allow_ip6 := allow_ip6 p;
     min_trust_level := min_trust_level p |}.

Definition take_policy : M worker unit :=
  modify (λ k, set_local (default_ttl (wk_policy k)) k).

(** ** States and counters *)

Definition SetState (s : WorkerState) : M worker unit :=
  modify (λ k, if decide (wk_state k = s) then k else set_run s (wk_stop k) k).

Definition signal_handler (signum : Z) : M worker unit :=
  if (signum =? 2) || (signum =? 15) then modify (λ k, set_run (wk_state k) true k) else ret tt.

(** A call on the collector, through its pointer. *)
Definition on_collector {A} (m : M (MetricsCollector E) A) : M worker A := λ k,
  match wk_collector k with
  | None => Fault BadPointer
  | Some c =>
      let* (a, c') := m c in
      Ok (a, set_metrics (wk_last_metrics k) (Some c') k)
  end.

(** The atomic exchanges of the three counters with zero. *)
Definition exchange_counters : M worker (Z * Z * Z) := λ k,
  let w := wk_world k in
  Ok ((w_received w, w_passed w, w_dropped w), set_world (with_counters 0 0 0 w) k).

Definition flushLocalCounters : M worker unit :=
  let! collector := gets wk_collector in
  match collector with
  | None => ret tt
  | Some _ =>
      let! (received, passed, dropped) := exchange_counters in
      (if received >? 0 then on_collector (IncrementPacketsReceived received) else ret tt) ;;;
      (if passed >? 0 then on_collector (IncrementPacketsPassed passed) else ret tt) ;;;
      (if dropped >? 0 then on_collector (IncrementPacketsDropped dropped) else ret tt)
  end.

(** ** The main loop *)

Section main_loop.
Context {HC : Classifier E} (port_in port_out port_exception : ptr).

Definition forward_to_out (incoming_port outgoing_port : ptr) (queue_number : Z) : M world unit :=
  let! inp := read_port incoming_port in
  let! tap_pkts := eth_rx_burst (port_id inp) queue_number 32 in
  for_each (λ pkt, forward_packet_with_rewrite pkt incoming_port outgoing_port queue_number)
    tap_pkts.

(** The packets of one iteration, with the local policy. *)
Definition main_packets : M worker unit :=
  let! local_policy := gets wk_local in
  on_world (forward_to_out port_exception port_in 0) ;;;
  let! enable := gets wk_enable in
  on_world (pakage_processing port_in port_out port_exception 0 32 local_policy (negb enable)) ;;;
  on_world (forward_to_out port_out port_in 0).

Definition seconds (ns : Z) : Z := Z.quot ns 1000000000.

(** The timers behind the packets. *)
Definition main_timers : M worker unit :=
  let! counter := gets (λ k, u64 (wk_timer_counter k + 1)) in
  (if counter >=? timer_check_interval
   then on_env rte_timer_manage ;;; modify (set_counter 0)
   else modify (set_counter counter)) ;;;
  let! now := on_env steady_clock_now in
  let! since_policy := gets (λ k, seconds (now - wk_last_policy_time k)) in
  let! interval := gets wk_policy_interval in
  (if since_policy >=? interval then
     let! r := on_env rand in
     modify (λ k, set_schedule now
       (MIN_POLICY_TIME + Z.rem r (MAX_POLICY_TIME - MIN_POLICY_TIME + 1)) (S (wk_threads k)) k)
   else ret tt) ;;;
  let! since_metrics := gets (λ k, seconds (now - wk_last_metrics k)) in
  if since_metrics >=? METRICS_FLUSH_INTERVAL_SEC then
    flushLocalCounters ;;;
    modify (λ k, set_metrics now (wk_collector k) k)
  else ret tt.

Definition main_iteration : M worker unit := take_policy ;;; main_packets ;;; main_timers.

(** The condition of the loop, and what follows it. *)
Definition running (k : worker) : bool := negb (wk_stop k) && bool_decide (wk_state k ≠ SHUTTING_DOWN).

Definition main_exit : M worker unit :=
  flushLocalCounters ;;;
  let! stop := gets wk_stop in
  if (stop : bool) then SetState SHUTTING_DOWN else ret tt.

End main_loop.
End worker.

(** ** Promises *)

(** A controller the worker copes with: its policies fit the arrays, which the
    worker does not test ([load_policy_overflow] shows what happens otherwise;
    the controller does not bound its lists), and it answers every request for
    a classification (otherwise [classification_failure_fails_open]). *)
Record cooperative {E : Type} {HK : Controller E} (id : Z) : Prop := {
  co_fits v e r : fst (stub_GetPolicy id v e) = Some r → policy_fits (resp_policy r);
  co_answers ty t e : fst (stub_Classify id ty t e) ≠ None
}.

(** [rand] is not negative. *)
Class LoopEnvOk (E : Type) {HL : LoopEnv E} := {
  rand_range e : 0 ≤ fst (rand e)
}.

(** The reads behind the trust levels are defined. *)
Class PlatformOk {platform : Platform} := {
  platform_overrun p : policy_wf p → overrun_wf p
}.

#[global] Instance flat_platform_ok : PlatformOk (platform:=flat_platform).
Proof. constructor. apply flat_overrun_wf. Qed.

(** The packets received parse: no name overflows the parser's array
    ([parsing_pakage_domain_overflow] shows what happens otherwise). *)
Class TrafficOk (E : Type) {HP : PacketEnv E} {np : NetPtype} := {
  traffic_parses e p q n : Forall (λ m, ∃ info, parsing_pakage m info_zero = Ok info ∧ ip4_range info)
                             (fst (rte_eth_rx_burst e p q n))
}.

Section classifier.
Context {E : Type} {HK : Controller E}.

(** The worker object keeps the promise the packet path relies on. *)
#[global] Instance worker_classifier_ok id : ClassifierOk E (HC := worker_classifier id).
Proof.
  constructor. intros e ty target req [t Ht]%cstr_terminated Hclean. cbn. unfold classify. rewrite Ht.
  destruct (stub_Classify id ty t e) as [[resp|] e'].
  - pose proof (fill_classification_eq resp req Hclean) as Hfill. rewrite Hfill. cbn [rbind].
    eexists _, _, _. split; [done|]. intros _. by apply (fill_strings resp req).
  - by eexists _, _, _.
Qed.

(** A controller that answers makes a classifier that never fails. *)
Lemma classifier_answers id :
  cooperative id →
  ¬ may_classify (E:=E) (HC := worker_classifier id) false.
Proof.
  intros Hco (ty & target & c & e & req & e' & Hrun). cbn in Hrun. unfold classify in Hrun.
  destruct (cstr target) as [t|]; [|done]. pose proof (co_answers _ Hco ty t e) as Hans.
  destruct (stub_Classify id ty t e) as [[resp|] e1]; [|done].
  by destruct (fill_classification resp req).
Qed.
End classifier.

Section spec.
Context {E : Type} {HD : RteHash domain_key} {HI : RteHash ip_key}.
Context {HDO : RteHashOk domain_key HD} {HIO : RteHashOk ip_key HI}.
Context {HE : RteEnv E} {HP : PacketEnv E} {HK : Controller E} {HL : LoopEnv E}.
Context {HEO : RteEnvOk E} {HPO : PacketEnvOk E} {HGC : GarbageClean E}.
Context {HLO : LoopEnvOk E}.
Context {np : NetPtype} {HTO : TrafficOk E} {platform : Platform} {HPL : PlatformOk}.
Context {inet : Inet} {io : InetOk} {ck : Ipv4Cksum}.
Context (id : Z) (i o x : ptr).
#[local] Instance the_classifier : Classifier E := worker_classifier id.
#[local] Instance the_classifier_ok : ClassifierOk E := worker_classifier_ok id.
#[local] Abbreviation world := (world E).
#[local] Abbreviation worker := (worker E).
Implicit Types (w : world) (k : worker).

(** ** Policy requests *)

Lemma on_world_Ok {A} (m : M world A) k a w' :
  m (wk_world k) = Ok (a, w') → on_world m k = Ok (a, set_world w' k).
Proof. intros H. unfold on_world, zoom. by rewrite H. Qed.

Lemma clear_caches_spec w :
  world_inv i o x w →
  ∃ w', (on_ip clear_ip_cache ;;; on_dom clear_dns_cache) w = Ok (tt, w')
    ∧ world_inv i o x w' ∧ abs_world w' = AState ∅ ∅ ∧ same_plane w w'.
Proof.
  intros Hinv. destruct (wi_ip _ _ _ _ Hinv) as (F & G & Hci), (wi_dom _ _ _ _ Hinv) as (F' & G' & Hcd).
  destruct (cache_clear_spec F G (w_env w) (w_ip w) Hci) as (ci & F1 & G1 & Hi & Hci' & Hai & _).
  destruct (cache_clear_spec F' G' (w_env w) (w_dom w) Hcd) as (cd & F2 & G2 & Hd & Hcd' & Had & _).
  assert (c_hash ci ≠ None) as Hti by (eapply (λ H, keeps_cache_clear _ _ _ H Hi), Hinv).
  assert (c_hash cd ≠ None) as Htd by (eapply (λ H, keeps_cache_clear _ _ _ H Hd), Hinv).
  exists (with_dom (w_env w, cd) (with_ip (w_env w, ci) w)).
  unfold bind, on_ip, on_dom, zoom, clear_ip_cache, clear_dns_cache. rewrite Hi.
  cbn [with_ip w_env w_dom fst snd]. rewrite Hd.
  split; [done|]. split; [|split; [unfold abs_world; cbn; by rewrite Hai, Had|by constructor]].
  destruct Hinv. constructor; cbn; eauto.
Qed.

Lemma no_block_agree policy : caches_agree policy (AState ∅ ∅).
Proof.
  constructor; cbn; intros k e.
  - intros _ Hl. by rewrite lookup_empty in Hl.
  - intros _ _ Hl. by rewrite lookup_empty in Hl.
Qed.

(** What a policy request leaves: nothing changes without a response; otherwise
    filtering is switched as the response says, and a provided policy is
    installed with both caches emptied. *)
Lemma request_policy_spec k :
  world_inv i o x (wk_world k) →
  (∀ r, fst (stub_GetPolicy id (wk_config_version k) (w_env (wk_world k))) = Some r →
        policy_fits (resp_policy r)) →
  ∃ k', requestPolicyFromController id k = Ok (tt, k')
    ∧ world_inv i o x (wk_world k') ∧ wk_policy_interval k' = wk_policy_interval k
    ∧ match fst (stub_GetPolicy id (wk_config_version k) (w_env (wk_world k))) with
      | Some resp =>
          wk_enable k' = resp_filtering_enabled resp
          ∧ if resp_result resp =? POLICY_PROVIDED then
              wk_policy k' = policy_of (resp_policy resp)
              ∧ wk_config_version k' = pol_config_version (resp_policy resp)
              ∧ abs_world (wk_world k') = AState ∅ ∅
            else wk_policy k' = wk_policy k ∧ wk_config_version k' = wk_config_version k
                 ∧ abs_world (wk_world k') = abs_world (wk_world k)
      | None =>
          wk_enable k' = wk_enable k ∧ wk_policy k' = wk_policy k
          ∧ wk_config_version k' = wk_config_version k
          ∧ abs_world (wk_world k') = abs_world (wk_world k)
      end.
Proof.
  intros Hinv Hfit. unfold requestPolicyFromController. erewrite bind_eq by reflexivity.
  set (v := wk_config_version k) in *. unfold on_env, on_world at 1, zoom. unfold bind at 1.
  destruct (stub_GetPolicy id v (w_env (wk_world k))) as [[resp|] e]; cbn [fst] in *; cycle 1.
  { eexists. split; [done|]. split; [by apply world_inv_with_env|done]. }
  specialize (Hfit resp eq_refl). erewrite bind_eq by reflexivity.
  destruct (resp_result resp =? POLICY_PROVIDED); cycle 1.
  { eexists. split; [done|]. split; [by apply world_inv_with_env|done]. }
  rewrite load_policy_fits, bind_lift by done. erewrite bind_eq by reflexivity.
  destruct (clear_caches_spec (with_env e (wk_world k))) as (w' & Hrun & Hinv' & Habs & _).
  { by apply world_inv_with_env. }
  apply bind_Ok in Hrun as ([] & w1 & H1 & H2).
  erewrite bind_eq by (apply on_world_Ok; exact H1). eexists. split; [by apply on_world_Ok|]. done.
Qed.

(** ** One iteration of the main loop *)

Lemma world_inv_rotate a b c w : world_inv a b c w → world_inv c a b w.
Proof. intros []. by constructor. Qed.

Lemma forward_to_out_spec a b c q w :
  world_inv a b c w →
  ∃ w' evs, forward_to_out a b q w = Ok (tt, w')
    ∧ world_inv a b c w' ∧ same_caches w w' ∧ w_mbufs w' = w_mbufs w
    ∧ w_trace w' = w_trace w ++ evs ∧ length evs = length (incoming a q 32 w).
Proof.
  intros Hinv. destruct (forward_rx_spec (λ w, w) a b c q 32 w)
    as (ps & w0 & w' & Hrun & Hi & Hc & Hm & _ & _ & _ & evs & Ht & Hl); [|done|].
  { intros [] . by eexists _, _, _. }
  exists w', evs. split; [|done]. rewrite <- Hrun. unfold forward_to_out, bind.
  destruct (read_port a w) as [[inp w1]|]; [|done].
  by destruct (eth_rx_burst (port_id inp) q 32 w1) as [[ps2 w2]|].
Qed.

Lemma same_caches_abs w w' : same_caches w w' → abs_world w' = abs_world w.
Proof. intros [Hd Hi]. unfold abs_world. by rewrite Hd, Hi. Qed.

Lemma incoming_parses q n w : world_inv i o x w → ∃ infos, parses i q n w infos.
Proof.
  intros Hinv. destruct (wi_in _ _ _ _ Hinv) as [p Hp]. unfold parses, incoming. rewrite Hp.
  pose proof (traffic_parses (w_env w) (port_id p) q n) as Hall.
  induction (fst (rte_eth_rx_burst (w_env w) (port_id p) q n)) as [|m ms IH].
  - exists []. split; constructor.
  - apply Forall_cons in Hall as [(info & Hm & Hr) Hall].
    destruct (IH Hall) as (infos & Hps & Hrs). exists (info :: infos). split; by constructor.
Qed.

(** What an iteration does with the packets: [w1] is the worker's state when it
    receives the burst to filter. *)
Record filtered (k : worker) (w1 : world) (infos : list info_of_pakage) (evs : list event) : Prop := {
  fl_before : forward_to_out x i 0 (wk_world k) = Ok (tt, w1);
  fl_parses : parses i 0 32 w1 infos;
  fl_dropped : wk_enable k = true → Forall2 (λ info ev, blocked (wk_policy k) info →
    exception_port info = false → ∃ pkt, ev = Freed pkt) infos evs
}.

Lemma main_packets_spec k :
  wk_local k = default_ttl (wk_policy k) → world_inv i o x (wk_world k) → policy_wf (wk_policy k) →
  caches_agree (wk_policy k) (abs_world (wk_world k)) → ¬ may_classify (E:=E) false →
  ∃ w' w1 infos evs1 evs evs2, main_packets i o x k = Ok (tt, set_world w' k)
    ∧ world_inv i o x w' ∧ caches_agree (wk_policy k) (abs_world w')
    ∧ w_trace w' = w_trace (wk_world k) ++ evs1 ++ evs ++ evs2
    ∧ filtered k w1 infos evs.
Proof.
  intros Hlocal Hinv Hwf Hag Hans. unfold main_packets. erewrite bind_eq by reflexivity.
  destruct (forward_to_out_spec x i o 0 (wk_world k)) as (w1 & evs1 & Hf1 & Hi1 & Hc1 & _ & Ht1 & _).
  { by apply world_inv_rotate. }
  apply world_inv_rotate, world_inv_rotate in Hi1.
  erewrite bind_eq by (apply on_world_Ok; exact Hf1). erewrite bind_eq by reflexivity.
  rewrite <- (same_caches_abs _ _ Hc1) in Hag.
  assert (policy_wf (wk_local k)) as Hwfl by (rewrite Hlocal; by destruct Hwf).
  assert (∃ w2 infos evs, pakage_processing i o x 0 32 (wk_local k) (negb (wk_enable k)) w1 = Ok (tt, w2)
    ∧ world_inv i o x w2 ∧ caches_agree (wk_policy k) (abs_world w2) ∧ w_trace w2 = w_trace w1 ++ evs
    ∧ filtered k w1 infos evs) as (w2 & infos & evs & Hrun & Hi2 & Hag2 & Ht2 & Hfl).
  { destruct (incoming_parses 0 32 w1 Hi1) as (infos & Hparse). destruct (wk_enable k) eqn:Een.
    - destruct (processing_enforces i o x 0 32 (wk_local k) infos w1) as (w2 & evs & Hrun & Hi2 & Hag2 & Ht2 & Hev);
        [done|done|by apply platform_overrun|done|done|rewrite Hlocal; by destruct Hag|].
      exists w2, infos, evs. rewrite Hlocal in Hag2, Hev. split_and!; [done|done|by destruct Hag2|done|].
      by constructor.
    - destruct (processing_off_spec i o x 0 32 (wk_local k) w1 Hi1)
        as (ps & w0 & w2 & Hrun & Hi2 & Hc2 & _ & _ & _ & _ & evs & Ht2 & _).
      exists w2, infos, evs. rewrite (same_caches_abs _ _ Hc2). split_and!; try done.
      constructor; [done|done|congruence]. }
  erewrite bind_eq by (apply on_world_Ok; exact Hrun).
  destruct (forward_to_out_spec o i x 0 w2) as (w3 & evs2 & Hf3 & Hi3 & Hc3 & _ & Ht3 & _).
  { destruct Hi2. by constructor. }
  exists w3, w1, infos, evs1, evs, evs2. split_and!; [| | | |done].
  - exact (on_world_Ok (forward_to_out o i 0) (set_world w2 k) tt w3 Hf3).
  - destruct Hi3. by constructor.
  - by rewrite (same_caches_abs _ _ Hc3).
  - by rewrite Ht3, Ht2, Ht1, <- !app_assoc.
Qed.

(** The timers touch the schedule, the environment and the counters only. *)
Record same_policy (k k' : worker) : Prop := {
  sp_policy : wk_policy k' = wk_policy k;
  sp_enable : wk_enable k' = wk_enable k;
  sp_local : wk_local k' = wk_local k;
  sp_run : wk_state k' = wk_state k ∧ wk_stop k' = wk_stop k;
  sp_abs : abs_world (wk_world k') = abs_world (wk_world k);
  sp_events : w_trace (wk_world k') = w_trace (wk_world k);
  sp_inv : world_inv i o x (wk_world k) → world_inv i o x (wk_world k')
}.

Lemma same_policy_refl k : same_policy k k.
Proof. by constructor. Qed.

Lemma same_policy_trans k1 k2 k3 : same_policy k1 k2 → same_policy k2 k3 → same_policy k1 k3.
Proof.
  intros [P1 E1 L1 [S1 T1] A1 V1 I1] [P2 E2 L2 [S2 T2] A2 V2 I2].
  constructor; try congruence; [|by auto]. split; congruence.
Qed.

Lemma on_env_spec {A} (f : E → A * E) k :
  ∃ k', on_env f k = Ok (fst (f (w_env (wk_world k))), k') ∧ same_policy k k'
    ∧ wk_policy_interval k' = wk_policy_interval k ∧ wk_threads k' = wk_threads k.
Proof.
  unfold on_env, on_world, zoom. destruct (f (w_env (wk_world k))) as [a e].
  eexists. split; [done|]. split; [|done]. constructor; try done. apply world_inv_with_env.
Qed.

(** What a collector and the counters of the object have counted. *)
Definition counts (c : MetricsCollector E) : Z * Z * Z :=
  (packets_received_counter c, packets_passed_counter c, packets_dropped_counter c).

(** A flush moves the counters of the object into the collector's; without a
    collector it does nothing. *)
Lemma flush_spec k :
  let w := wk_world k in
  ∃ k', flushLocalCounters k = Ok (tt, k')
    ∧ (∃ r p d, wk_world k' = with_counters r p d w)
    ∧ (wk_policy k' = wk_policy k ∧ wk_enable k' = wk_enable k ∧ wk_local k' = wk_local k
       ∧ (wk_state k' = wk_state k ∧ wk_stop k' = wk_stop k) ∧ wk_last_metrics k' = wk_last_metrics k
       ∧ wk_policy_interval k' = wk_policy_interval k)
    ∧ match wk_collector k with
      | None => k' = k
      | Some c => ∃ c', wk_collector k' = Some c' ∧ wk_world k' = with_counters 0 0 0 w
          ∧ (0 ≤ w_received w → 0 ≤ w_passed w → 0 ≤ w_dropped w →
             counts c' = (packets_received_counter c + w_received w,
                          packets_passed_counter c + w_passed w,
                          packets_dropped_counter c + w_dropped w))
      end.
Proof.
  intros w. unfold flushLocalCounters. erewrite bind_eq by reflexivity.
  destruct (wk_collector k) as [c|] eqn:Ec; cycle 1.
  { exists k. split; [done|]. split; [|done]. exists (w_received w), (w_passed w), (w_dropped w).
    unfold w. by destruct (wk_world k). }
  erewrite bind_eq by reflexivity. fold w. unfold on_collector, counts.
  destruct (Z.gtb_spec (w_received w) 0), (Z.gtb_spec (w_passed w) 0), (Z.gtb_spec (w_dropped w) 0);
    unfold bind, ret; cbn; rewrite ?Ec; cbn; (eexists; split; [done|]);
    (split; [by exists 0, 0, 0|]); (split; [done|]); eexists; (split; [done|]); (split; [done|]);
    intros; cbn; repeat match goal with |- (_, _) = (_, _) => f_equal end; lia.
Qed.

Definition interval_ok (k : worker) : Prop :=
  MIN_POLICY_TIME ≤ wk_policy_interval k ≤ MAX_POLICY_TIME.

Lemma main_timers_spec k :
  interval_ok k → ∃ k', main_timers k = Ok (tt, k') ∧ same_policy k k' ∧ interval_ok k'.
Proof.
  intros Hint. unfold main_timers. erewrite bind_eq by reflexivity.
  set (c := u64 (wk_timer_counter k + 1)).
  assert (∃ k1, (if c >=? timer_check_interval then on_env rte_timer_manage ;;; modify (set_counter 0)
                 else modify (set_counter c)) k = Ok (tt, k1) ∧ same_policy k k1 ∧ interval_ok k1)
    as (k1 & Hr1 & Hs1 & Hi1).
  { destruct (c >=? timer_check_interval); [|by eexists].
    destruct (on_env_spec rte_timer_manage k) as (k1 & Hr & Hs & Hi & _).
    erewrite bind_eq by exact Hr. eexists. split; [done|]. split; [by destruct Hs|].
    unfold interval_ok in *. cbn. by rewrite Hi. }
  erewrite bind_eq by exact Hr1.
  destruct (on_env_spec steady_clock_now k1) as (k2 & Hr2 & Hs2 & Hi2 & _).
  erewrite bind_eq by exact Hr2. set (now := fst (steady_clock_now _)).
  do 2 (erewrite bind_eq by reflexivity).
  assert (∃ k3, (if seconds (now - wk_last_policy_time k2) >=? wk_policy_interval k2 then
       let! r := on_env rand in
       modify (λ k, set_schedule now
         (MIN_POLICY_TIME + Z.rem r (MAX_POLICY_TIME - MIN_POLICY_TIME + 1)) (S (wk_threads k)) k)
     else ret tt) k2 = Ok (tt, k3) ∧ same_policy k2 k3 ∧ interval_ok k3) as (k3 & Hr3 & Hs3 & Hi3).
  { assert (interval_ok k2) by (unfold interval_ok in *; by rewrite Hi2).
    destruct (seconds _ >=? wk_policy_interval k2); [|exists k2; split_and!; [done|apply same_policy_refl|done]].
    destruct (on_env_spec rand k2) as (k3 & Hr & Hs & _). erewrite bind_eq by exact Hr.
    eexists. split; [done|]. split; [by destruct Hs|]. unfold interval_ok. cbn.
    pose proof (rand_range (w_env (wk_world k2))) as Hrand.
    pose proof (Z.rem_bound_pos (fst (rand (w_env (wk_world k2)))) 16 Hrand ltac:(lia)).
    unfold MIN_POLICY_TIME, MAX_POLICY_TIME in *. change (45 - 30 + 1) with 16. lia. }
  erewrite bind_eq by exact Hr3. erewrite bind_eq by reflexivity.
  assert (same_policy k k3) as Hs by (by eapply same_policy_trans, same_policy_trans).
  destruct (seconds (now - wk_last_metrics k3) >=? _); [|by eexists].
  destruct (flush_spec k3) as (k4 & Hr4 & Hw4 & Hf4 & _). erewrite bind_eq by exact Hr4.
  eexists. split; [done|]. split; [eapply same_policy_trans; [exact Hs|]|].
  - destruct Hf4 as (P1 & P2 & P3 & P4 & P5 & _). destruct Hw4 as (r & p & d & Hw4).
    constructor; cbn; rewrite ?Hw4; try done. by intros [].
  - destruct Hf4 as (_ & _ & _ & _ & _ & P6). unfold interval_ok in *. cbn. by rewrite P6.
Qed.

(** ** The threads of the worker *)

(** The invariant of the running worker: its policy is well formed and no cached
    decision lets through what it blocks. *)
Record worker_inv (k : worker) : Prop := {
  ki_world : world_inv i o x (wk_world k);
  ki_policy : policy_wf (wk_policy k);
  ki_agree : caches_agree (wk_policy k) (abs_world (wk_world k));
  ki_interval : interval_ok k
}.

(** Iterations of the main loop, policy requests and signals, one after the
    other.  Between them other threads (the cache saves that the timer starts,
    the collector) may do anything to the environment. *)
Inductive wstep : worker → worker → Prop :=
| S_iteration k k' : running k = true → main_iteration i o x k = Ok (tt, k') → wstep k k'
| S_policy k k' : (0 < wk_threads k)%nat → policy_thread id k = Ok (tt, k') → wstep k k'
| S_signal n k k' : signal_handler n k = Ok (tt, k') → wstep k k'
| S_env e k : wstep k (set_world (with_env e (wk_world k)) k).

Lemma main_iteration_spec k :
  worker_inv k → ¬ may_classify (E:=E) false →
  ∃ k' w1 infos evs1 evs evs2, main_iteration i o x k = Ok (tt, k') ∧ worker_inv k'
    ∧ w_trace (wk_world k') = w_trace (wk_world k) ++ evs1 ++ evs ++ evs2
    ∧ filtered k w1 infos evs.
Proof.
  intros [Hw Hp Ha Hint] Hans. unfold main_iteration. erewrite bind_eq by reflexivity.
  set (k0 := set_local (default_ttl (wk_policy k)) k).
  destruct (main_packets_spec k0) as (w' & w1 & infos & evs1 & evs & evs2 & Hrun & Hw' & Ha' & Ht & Hfl);
    try done.
  erewrite bind_eq by exact Hrun.
  destruct (main_timers_spec (set_world w' k0)) as (k' & Hrun' & [Hpol _ _ _ Habs Hev Hi] & Hint'); [done|].
  exists k', w1, infos, evs1, evs, evs2. split_and!; [done| |by rewrite Hev|by destruct Hfl].
  constructor; [by apply Hi|by rewrite Hpol| |done]. rewrite Hpol, Habs. exact Ha'.
Qed.

Lemma policy_thread_spec k :
  cooperative id → worker_inv k → ∃ k', policy_thread id k = Ok (tt, k') ∧ worker_inv k'.
Proof.
  intros Hco [Hw Hp Ha Hint]. unfold policy_thread. erewrite bind_eq by reflexivity.
  set (k0 := set_schedule _ _ _ k).
  pose proof (co_fits _ Hco (wk_config_version k0) (w_env (wk_world k0))) as Hfit.
  destruct (request_policy_spec k0 Hw Hfit) as (k' & Hrun & Hw' & Hint' & Hresp).
  exists k'. split; [done|].
  assert (policy_wf (wk_policy k') ∧ caches_agree (wk_policy k') (abs_world (wk_world k'))) as [Hp' Ha'].
  { destruct (fst (stub_GetPolicy _ _ _)) as [resp|]; cycle 1.
    { destruct Hresp as (_ & -> & _ & ->). done. }
    destruct Hresp as [_ Hresp]. destruct (_ =? _).
    - destruct Hresp as (-> & _ & ->). split; [apply policy_of_wf, (Hfit resp eq_refl)|apply no_block_agree].
    - destruct Hresp as (-> & _ & ->). done. }
  constructor; [done|done|done|]. unfold interval_ok in *. by rewrite Hint'.
Qed.

Lemma wstep_inv k k' : cooperative id → wstep k k' → worker_inv k → worker_inv k'.
Proof.
  intros Hco Hstep Hinv. destruct Hstep as [k k' _ Hrun|k k' _ Hrun|n k k' Hrun|e k].
  - destruct (main_iteration_spec k Hinv (classifier_answers id Hco))
      as (k1 & _ & _ & _ & _ & _ & Hrun' & Hinv' & _). congruence.
  - destruct (policy_thread_spec k Hco Hinv) as (k1 & Hrun' & Hinv'). congruence.
  - unfold signal_handler in Hrun. destruct ((n =? 2) || (n =? 15)); injection Hrun as <-; [|done].
    by destruct Hinv.
  - destruct Hinv. constructor; [by apply world_inv_with_env|done..].
Qed.

Lemma wsteps_inv k k' : cooperative id → rtc wstep k k' → worker_inv k → worker_inv k'.
Proof. intros Hco Hs. induction Hs; [done|]. intros Hinv. apply IHHs. by eapply wstep_inv. Qed.

(** A worker that starts with empty caches. *)
Record worker_started (k : worker) : Prop := {
  ws_world : world_inv i o x (wk_world k);
  ws_policy : policy_wf (wk_policy k);
  ws_empty : abs_world (wk_world k) = AState ∅ ∅;
  ws_interval : interval_ok k
}.

Lemma started_inv k : worker_started k → worker_inv k.
Proof.
  intros [Hw Hp He Hi]. constructor; [done|done| |done]. rewrite He. apply no_block_agree.
Qed.

(** C6: enforcement over time, for traffic that parses ([TrafficOk]), a
    controller whose policies fit the arrays and which answers every
    classification ([cooperative]) and a classification struct that is clean
    ([GarbageClean]): however a worker that started with empty caches got to its
    present state by iterations of the main loop, policy requests, signals and
    changes other threads make to the environment, one after the other, its next
    iteration runs to its end, and if filtering is on, every received packet
    whose name is on the block list and not on the allow list of the policy in
    force, or which has no name and whose address is on its block list
    (exception ports apart), is freed. *)
Theorem worker_enforces k0 k :
  worker_started k0 → cooperative id → rtc wstep k0 k →
  ∃ k' w1 infos evs1 evs evs2, main_iteration i o x k = Ok (tt, k')
    ∧ w_trace (wk_world k') = w_trace (wk_world k) ++ evs1 ++ evs ++ evs2
    ∧ forward_to_out x i 0 (wk_world k) = Ok (tt, w1) ∧ parses i 0 32 w1 infos
    ∧ (wk_enable k = true →
       Forall2 (λ info ev, blocked (wk_policy k) info → exception_port info = false →
                           ∃ pkt, ev = Freed pkt) infos evs).
Proof.
  intros Hst Hco Hsteps.
  assert (worker_inv k) as Hinv by (by eapply wsteps_inv, started_inv).
  destruct (main_iteration_spec k Hinv (classifier_answers id Hco))
    as (k' & w1 & infos & evs1 & evs & evs2 & Hrun & _ & Ht & [Hf Hp Hd]).
  by exists k', w1, infos, evs1, evs, evs2.
Qed.

(** C21: a policy request that the controller answers with a policy that fits the
    arrays installs exactly that policy, its version and its filtering switch,
    and forgets every cached decision of the old one. *)
Theorem policy_request_installs k resp :
  world_inv i o x (wk_world k) →
  fst (stub_GetPolicy id (wk_config_version k) (w_env (wk_world k))) = Some resp →
  resp_result resp = POLICY_PROVIDED → policy_fits (resp_policy resp) →
  ∃ k', requestPolicyFromController id k = Ok (tt, k')
    ∧ wk_policy k' = policy_of (resp_policy resp)
    ∧ wk_config_version k' = pol_config_version (resp_policy resp)
    ∧ wk_enable k' = resp_filtering_enabled resp
    ∧ abs_world (wk_world k') = AState ∅ ∅ ∧ world_inv i o x (wk_world k').
Proof.
  intros Hw Hresp Hprov Hfit. destruct (request_policy_spec k Hw) as (k' & Hrun & Hw' & _ & Hcase).
  { intros r Hr. rewrite Hresp in Hr. by injection Hr as <-. }
  rewrite Hresp, Hprov in Hcase. destruct Hcase as (Hen & Hp & Hv & Ha). by exists k'.
Qed.

End spec.
