(* ===== verification/Writable.v ===== *)
(** * Running caches can be saved

    Whatever packets, policies and signals arrive, the caches of a worker that
    started with empty databases hold only entries the save can write: every
    row of categories is a string, every key has a text, and the table is not
    larger than it was created for.  The main loop keeps the names of the
    devices, too.  With these the destructor needs no assumption on what the
    loop did. *)

From Stdlib Require Import ZArith Lia.
From stdpp Require Import prelude gmap strings relations.
From S2P Require Import Prelude CMem Types Filter Parse Hash Sqlite Policy Cache Persist PersistSpec DomainCache IpCache CacheLife Proc NetPort ProcSpec Plant Enforce Worker.

Local Open Scope Z_scope.

(** ** The operations of a cache *)

Section cache.
Context {E K N : Type} `{Countable K} {HH : RteHash K} {HO : RteHashOk K HH}.
Context {HE : RteEnv E} {HN : CacheNode N} {HT : CacheTable E K N} {HTO : CacheTableOk E K N}.
#[local] Abbreviation cache := (cache K N).
#[local] Abbreviation St := (E * cache)%type.
#[local] Abbreviation strings := (strings (E:=E) (K:=K)).

Definition writable_state (s : St) : Prop := writable_cache (E:=E) s.2.

(** Changes beside the table and the nodes. *)
Lemma writable_same (c c' : cache) :
  c_nodes c' = c_nodes c → view c' = view c → writable_cache (E:=E) c → writable_cache (E:=E) c'.
Proof. intros Hn Hv [H1 H2 H3]. constructor; rewrite ?Hn, ?Hv; done. Qed.

Lemma writable_nodes (m : gmap ptr N) (c : cache) :
  map_Forall (λ _ n, strings n) m → writable_cache (E:=E) c → writable_cache (E:=E) (with_nodes m c).
Proof. intros Hm [_ H2 H3]. by constructor. Qed.

(** A smaller table. *)
Lemma writable_sub h (c : cache) :
  hash_view h ⊆ view c → writable_cache (E:=E) c → writable_cache (E:=E) (with_hash (Some h) c).
Proof.
  intros Hsub [H1 H2 H3]. constructor; [done| |].
  - intros k q Hk. eapply H2, lookup_weaken; [exact Hk|done].
  - change (size (hash_view h) ≤ CACHE_SIZE)%nat. pose proof (map_subseteq_size _ _ Hsub). lia.
Qed.

(** One more key, which has a text. *)
Lemma writable_table_add k q t :
  prints (E:=E) (N:=N) k t → preserves writable_state (table_add k q).
Proof.
  intros Hk [e c] r [e' c'] Hw. unfold table_add. destruct (c_hash c) as [h|] eqn:Eh; [|by intros [= _ _ <-]].
  destruct (rte_hash_add_key_data h k q) as [r' h'] eqn:Ea. intros [= _ _ <-].
  assert (view c = hash_view h) as Hv by (unfold view; by rewrite Eh).
  destruct (hash_add _ _ _ _ _ Ea) as [[-> Hv']|[_ Hv']]; cycle 1.
  { apply writable_sub; [|done]. by rewrite Hv, Hv'. }
  destruct Hw as [H1 H2 H3]. cbn in *. constructor; [done| |]; unfold view; cbn; rewrite Hv'.
  - intros k' q' [[<- _]|[_ Hk']]%lookup_insert_Some; [by exists t|]. eapply H2. by rewrite Hv.
  - rewrite map_size_insert. rewrite Hv in H3. destruct (hash_view h !! k) eqn:Ek; [done|].
    destruct (decide (size (hash_view h) < CACHE_SIZE)%nat) as [|Hfull]; [lia|].
    pose proof (hash_add_full h k q ltac:(lia) Ek) as Hneg. rewrite Ea in Hneg. by cbn in Hneg.
Qed.

Lemma writable_alloc n : strings n → preserves writable_state (alloc_node (E:=E) n).
Proof.
  intros Hn [e c] o [e' c'] Hw. unfold alloc_node. destruct (rte_malloc_ok e) as [[] e1]; intros [= _ _ <-];
    [|done]. apply writable_nodes; [|done]. apply map_Forall_insert_2; [done|apply Hw].
Qed.

Lemma writable_update q f :
  (∀ n, strings n → strings (f n)) → preserves writable_state (update_node q f).
Proof.
  intros Hf [e c] [] [e' c'] Hw. unfold update_node. destruct (c_nodes c !! q) as [n|] eqn:En; [|done].
  intros [= _ <-]. apply writable_nodes; [|done]. apply map_Forall_insert_2; [|apply Hw].
  apply Hf. by apply (wr_nodes _ Hw q).
Qed.

Lemma writable_free q : preserves writable_state (free_node q).
Proof.
  intros [e c] [] [e' c'] Hw. unfold free_node. destruct (c_nodes c !! q) as [n|]; [|done].
  intros [= _ <-]. apply writable_nodes; [|done]. apply map_Forall_delete, Hw.
Qed.

(** What touches neither nodes nor table. *)
Ltac beside :=
  first [intros [= _ _ <-] | intros [= _ <-]];
  match goal with H : writable_state (_, ?c) |- _ => by apply (writable_same c) end.

Lemma writable_lock : preserves writable_state (spinlock_lock (E:=E) (K:=K) (N:=N)).
Proof. intros [e c] [] [e' c'] Hw. unfold spinlock_lock. destruct (c_lock c); [done|beside]. Qed.
Lemma writable_unlock : preserves writable_state (spinlock_unlock (E:=E) (K:=K) (N:=N)).
Proof. intros [e c] [] [e' c'] Hw. beside. Qed.
Lemma writable_cycles : preserves writable_state (timer_cycles (E:=E) (K:=K) (N:=N)).
Proof. intros [e c] a [e' c'] Hw. unfold timer_cycles. destruct (rte_get_timer_cycles e). beside. Qed.
Lemma writable_hz : preserves writable_state (timer_hz (E:=E) (K:=K) (N:=N)).
Proof. intros [e c] a [e' c'] Hw. beside. Qed.
Lemma writable_read q : preserves writable_state (read_node (E:=E) (K:=K) (N:=N) q).
Proof. intros [e c] a [e' c'] Hw. unfold read_node. destruct (c_nodes c !! q); [beside|done]. Qed.
Lemma writable_free_key o : preserves writable_state (free_key (E:=E) (K:=K) (N:=N) o).
Proof.
  intros [e c] [] [e' c'] Hw. unfold free_key. destruct o as [q|]; [|beside].
  destruct (c_keys c !! q); [beside|done].
Qed.
Lemma writable_alloc_key content : preserves writable_state (alloc_key (E:=E) (K:=K) (N:=N) content).
Proof.
  intros [e c] a [e' c'] Hw. unfold alloc_key. destruct (rte_malloc_ok e) as [[] e1]; [|beside].
  destruct content; [beside|done].
Qed.

#[local] Hint Resolve writable_lock writable_unlock writable_cycles writable_hz writable_read
  writable_free writable_free_key writable_alloc_key : cdb.

(** *** The operations *)

Lemma writable_cache_clear : preserves writable_state (cache_clear (E:=E) (K:=K) (N:=N)).
Proof.
  intros [e c] [] [e' c'] Hw. unfold cache_clear, bind, spinlock_lock. destruct (c_hash c) as [h|]; [|by intros [= _ <-]].
  cbn. destruct (c_lock c); [done|]. intros [= _ <-].
  apply (writable_same (with_hash (Some (rte_hash_reset h)) c)); [done|done|].
  apply writable_sub; [rewrite hash_reset; apply map_empty_subseteq|done].
Qed.

Lemma writable_cache_add content q ttl :
  (∀ k, content = Ok k → ∃ t, prints (E:=E) (N:=N) k t) →
  preserves writable_state (cache_add content q ttl).
Proof.
  intros Hk. unfold cache_add.
  apply (preserves_bind_with _ _ _ (λ o, ∀ q k, o = Some (q, k) → content = Ok k)); [auto with cdb| |].
  { intros [e c] o [e' c'] _. unfold alloc_key. destruct (rte_malloc_ok e) as [[] e1]; [|by intros [= <- _ _]].
    destruct content; [|done]. intros [= <- _ _]. intros q' k [= _ <-]. done. }
  intros [[q' k]|] Ho; [|auto with cdb]. destruct (Hk k (Ho _ _ eq_refl)) as [t Ht].
  preserve.
  - apply writable_update. intros n Hn. unfold PersistSpec.strings. by rewrite stamp_cats.
  - apply writable_update. intros n Hn. unfold PersistSpec.strings. by rewrite set_key_cats.
  - by eapply writable_table_add.
Qed.

(** A lookup may delete an entry that expired. *)
Lemma writable_cache_lookup k : preserves writable_state (cache_lookup (E:=E) (N:=N) k).
Proof.
  intros [e c] a s' Hw. unfold cache_lookup. intros ([] & [e1 c1] & H1 & Hrun)%bind_Ok.
  assert (writable_state (e1, c1)) as Hw1 by (by eapply writable_lock).
  apply bind_Ok in Hrun as ([r o] & s2 & H2 & Hrun).
  assert (s2 = (e1, c1)) as -> by (unfold table_lookup in H2; destruct (c_hash c1); by injection H2 as _ <-).
  destruct o as [p|]; [|revert Hw1 Hrun; apply (preserves_bind _ _ _ writable_unlock); auto with cdb].
  assert (∃ h, c_hash c1 = Some h ∧ hash_view h !! k = Some p) as (h & Eh & Hk).
  { unfold table_lookup in H2. destruct (c_hash c1) as [h|]; [|done]. exists h. split; [done|].
    destruct (hash_view h !! k) as [q|] eqn:Ek; [|by rewrite (hash_lookup_miss h k Ek) in H2].
    destruct (hash_lookup_hit h k q Ek) as (r' & _ & Hl). rewrite Hl in H2. by injection H2 as _ <-. }
  assert (∀ (m : M St (Z * option ptr)) s, writable_state s → preserves writable_state m → m s = Ok (a, s') →
    writable_state s') as Hthen by (intros m s Hs Hm; by apply Hm).
  destruct (r >=? 0); [|revert Hrun; apply Hthen; [done|preserve]].
  apply bind_Ok in Hrun as (now & [e2 c2] & H3 & Hrun).
  assert (c2 = c1) as -> by (unfold timer_cycles in H3; destruct (rte_get_timer_cycles e1); by injection H3).
  apply bind_Ok in Hrun as (hz & s3 & [= _ <-] & Hrun).
  apply bind_Ok in Hrun as (n & s4 & H4 & Hrun).
  assert (s4 = (e2, c1)) as -> by (unfold read_node in H4; destruct (c_nodes c1 !! p); by simplify_eq).
  apply bind_Ok in Hrun as (age & s5 & H5 & Hrun).
  assert (s5 = (e2, c1)) as -> by (unfold lift in H5; destruct (age_seconds _ _ _); by simplify_eq/=).
  revert Hrun. destruct (age >=? n_ttl n).
  - intros (d & s6 & H6 & Hrun)%bind_Ok. unfold table_del in H6. rewrite Eh in H6.
    destruct (rte_hash_del_key h k) as [d' h'] eqn:Ed. injection H6 as _ <-.
    assert (writable_state (e2, with_hash (Some h') c1)) as Hw6.
    { apply writable_sub; [|done]. destruct (hash_del h k p _ _ Hk Ed) as [_ ->].
      unfold view. rewrite Eh. apply delete_subseteq. }
    revert Hrun. apply Hthen; [done|preserve].
  - apply Hthen; [done|preserve].
Qed.
End cache.

(** ** Keys and nodes of the packet path *)

Lemma copy_domain_prints {E} d k :
  copy_domain d = Ok k → ∃ t, prints (E:=E) (N:=node_cache_domain) k t.
Proof.
  unfold copy_domain. intros (bs & Hbs & [Hlen ->]%array_set_Ok)%rbind_Ok.
  apply strncpy_bytes_length in Hbs.
  assert (terminated (<[(DOMAIN_MAX_LEN - 1)%nat := 0]> bs) = true) as Ht.
  { apply terminated_elem, list_elem_of_lookup. exists (DOMAIN_MAX_LEN - 1)%nat. by apply list_lookup_insert_eq. }
  destruct (strncpy_bytes_total _ (DOMAIN_MAX_LEN - 1) Ht) as (bs' & Hcopy & _).
  assert (terminated (bs' ++ [0]) = true) as [t Hs]%cstr_terminated.
  { apply terminated_elem. set_solver. }
  exists t, (bs' ++ [0]). split; [|done].
  change (snapshot_text (<[(DOMAIN_MAX_LEN - 1)%nat := 0]> bs) = Ok (bs' ++ [0])).
  unfold snapshot_text. by rewrite Hcopy.
Qed.

Lemma packet_key_prints {E} {inet : Inet} {io : InetOk} {HK : UninitMem E ip_key} info :
  info_wf info → ∃ t, prints (E:=E) (N:=node_cache_ip) (packet_ip_key info) t.
Proof.
  intros Hwf. assert (∃ b t, ip_text (packet_ip_key info) = Ok b ∧ cstr b = Some t) as (b & t & Hb & Ht);
    [|by exists t, b].
  unfold packet_ip_key, ip_text. destruct (Types.ip_version info =? IP_4); cbn [version addr Z.eqb Pos.eqb].
  - destruct (ntop4_str (le_bytes32 (ip4_dist info))) as [s Hs]; [done|].
    exists (inet_ntop4 (le_bytes32 (ip4_dist info))), s. split; [|done].
    unfold load. rewrite decide_True by (rewrite length_app; cbn; lia). by rewrite drop_0, take_app_length'.
  - pose proof (wf_ip6_dist _ Hwf) as Hlen. destruct (ntop6_str (ip6_dist info)) as [s Hs]; [done|].
    exists (inet_ntop6 (ip6_dist info)), s. split; [|done]. by rewrite load_all.
Qed.

Lemma new_domain_strings {E} b : strings (E:=E) (K:=domain_key) (new_domain_node b).
Proof. by apply Forall_replicate. Qed.
Lemma new_ip_strings {E} {inet : Inet} {HK : UninitMem E ip_key} b :
  strings (E:=E) (K:=ip_key) (new_ip_node b).
Proof. by apply Forall_replicate. Qed.

(** ** The packet path *)

Section packets.
Context {E : Type} {HD : RteHash domain_key} {HI : RteHash ip_key}.
Context {HDO : RteHashOk domain_key HD} {HIO : RteHashOk ip_key HI}.
Context {HE : RteEnv E} {HP : PacketEnv E} {HC : Classifier E}.
Context {np : NetPtype} {platform : Platform} {inet : Inet} {io : InetOk} {ck : Ipv4Cksum}.
Context {HUK : UninitMem E ip_key} {HUKO : UninitKeyOk E}.
#[local] Abbreviation world := (world E).

(** Both caches can be saved, the ports are those of the given devices, and no
    counter is negative. *)
Record orderly (names : gmap ptr (list Z)) (w : world) : Prop := {
  or_dom : writable_cache (E:=E) (w_dom w);
  or_ip : writable_cache (E:=E) (w_ip w);
  or_names : dev_names (w_ports w) = names;
  or_counters : 0 ≤ w_received w ∧ 0 ≤ w_passed w ∧ 0 ≤ w_dropped w
}.

Context (names : gmap ptr (list Z)).
#[local] Abbreviation Ord := (orderly names).

Lemma orderly_on_dom {A} (m : M _ A) : preserves writable_state m → preserves Ord (on_dom m).
Proof.
  apply preserves_zoom; [by intros w []|]. intros [e c] w [H1 H2 H3 H4] Hc. by constructor.
Qed.
Lemma orderly_on_ip {A} (m : M _ A) : preserves writable_state m → preserves Ord (on_ip m).
Proof.
  apply preserves_zoom; [by intros w []|]. intros [e c] w [H1 H2 H3 H4] Hc. by constructor.
Qed.

(** What touches neither caches nor ports. *)
Ltac aside := let H := fresh in intros [= _ <-]; match goal with H : orderly _ _ |- _ => by destruct H end.

Lemma orderly_read_mbuf pkt : preserves Ord (read_mbuf pkt).
Proof. intros w m w' Hw. unfold read_mbuf. destruct (w_mbufs w !! pkt); [aside|done]. Qed.
Lemma orderly_free pkt : preserves Ord (rte_pktmbuf_free pkt).
Proof. intros w [] w' Hw. unfold rte_pktmbuf_free. destruct (w_mbufs w !! pkt); [|done]. intros [= <-]. by destruct Hw. Qed.
Lemma orderly_read_port p : preserves Ord (read_port p).
Proof. intros w m w' Hw. unfold read_port. destruct (w_ports w !! p); [aside|done]. Qed.
Lemma orderly_write_mbuf pkt off bs : preserves Ord (write_mbuf pkt off bs).
Proof. unfold write_mbuf. preserve; [apply orderly_read_mbuf|]. apply preserves_modify. by intros w []. Qed.
Lemma orderly_tx p q pkt : preserves Ord (eth_tx_burst p q pkt).
Proof.
  unfold eth_tx_burst. apply preserves_bind; [apply orderly_read_mbuf|]. intros m w r w' Hw.
  destruct (rte_eth_tx_burst _ _ _ _) as [z e]. destruct (z >=? 1); aside.
Qed.
Lemma orderly_rx p q n : preserves Ord (eth_rx_burst p q n).
Proof.
  intros w l w' Hw. unfold eth_rx_burst. destruct (rte_eth_rx_burst _ _ _ _) as [ms e].
  destruct (rx_mbufs ms (w_mbufs w)) as [ps b]. aside.
Qed.
(** Counting one more, modulo 2^64. *)
Lemma counter_up n : 0 ≤ u64 n.
Proof. apply u64_range. Qed.

Lemma orderly_received : preserves Ord record_packet_received.
Proof. apply preserves_modify. intros w [? ? ? (? & ? & ?)]. constructor; try done; split_and!; cbn; first [apply counter_up|done]. Qed.
Lemma orderly_passed : preserves Ord record_packet_passed.
Proof. apply preserves_modify. intros w [? ? ? (? & ? & ?)]. constructor; try done; split_and!; cbn; first [apply counter_up|done]. Qed.
Lemma orderly_dropped : preserves Ord record_packet_dropped.
Proof. apply preserves_modify. intros w [? ? ? (? & ? & ?)]. constructor; try done; split_and!; cbn; first [apply counter_up|done]. Qed.
Lemma orderly_classify ty target : preserves Ord (Proc.classify ty target).
Proof.
  intros w r w' Hw. unfold Proc.classify. destruct (stack_garbage (w_env w)) as [req e].
  destruct (worker_classify ty target req e) as [[a e']|]; [|done]. aside.
Qed.

#[local] Hint Resolve orderly_read_mbuf orderly_free orderly_read_port orderly_write_mbuf orderly_tx orderly_rx
  orderly_received orderly_passed orderly_dropped orderly_classify orderly_on_dom orderly_on_ip
  writable_cache_lookup writable_cache_clear writable_read : cdb.

(** Learning a neighbour keeps the device of the port. *)
Lemma orderly_learn port pkt port_2 : preserves Ord (learn_neighbor_mac port pkt port_2).
Proof.
  unfold learn_neighbor_mac.
  apply (preserves_bind_with _ _ _ (λ p, names !! port = Some (dev_name p))); [auto with cdb| |].
  { intros w p w' [_ _ <- _]. unfold read_port, dev_names. rewrite lookup_fmap.
    destruct (w_ports w !! port); [|done]. by intros [= <- _]. }
  intros p Hp. preserve. apply preserves_modify. intros w [H1 H2 H3 H4]. constructor; [done|done| |done].
  cbn. unfold dev_names in *. rewrite fmap_insert, H3. by apply insert_id.
Qed.
#[local] Hint Resolve orderly_learn : cdb.

Lemma orderly_forward pkt a b q : preserves Ord (forward_packet_with_rewrite pkt a b q).
Proof. unfold forward_packet_with_rewrite. preserve. Qed.
#[local] Hint Resolve orderly_forward : cdb.

Lemma orderly_decision b pkt i o q : preserves Ord (package_sending_decision b pkt i o q).
Proof. unfold package_sending_decision. preserve. Qed.
#[local] Hint Resolve orderly_decision : cdb.

Lemma orderly_process_ip i o x q pol pkt info :
  info_wf info → preserves Ord (process_ip i o x q pol pkt info).
Proof.
  intros Hwf. unfold process_ip, lookup_ip_cache, add_to_ip_cache, decide_ip. preserve.
  - apply orderly_on_ip, writable_alloc, new_ip_strings.
  - apply orderly_on_ip, writable_cache_add. intros k [= <-]. by apply packet_key_prints.
Qed.

Lemma orderly_process_domain i o x q pol pkt info : preserves Ord (process_domain i o x q pol pkt info).
Proof.
  unfold process_domain, lookup_dns_cache, add_to_dns_cache, decide_domain. preserve.
  - apply orderly_on_dom, writable_alloc, new_domain_strings.
  - apply orderly_on_dom, writable_cache_add. intros k. apply copy_domain_prints.
Qed.

Lemma orderly_process i o x q pol pkt : preserves Ord (process_packet i o x q pol pkt).
Proof.
  unfold process_packet. do 2 (apply preserves_bind; [auto with cdb|intros ?]).
  apply (preserves_bind_with _ _ _ info_wf); [auto with cdb| |].
  { intros w info w' _. unfold lift. destruct (parsing_pakage _ info_zero) as [info'|] eqn:Ep; [|done].
    intros [= <- _]. by eapply parsing_pakage_wf_ok, Ep. }
  intros info Hwf. preserve; [by apply orderly_process_ip|apply orderly_process_domain].
Qed.

Lemma orderly_packets i o x q n pol off : preserves Ord (pakage_processing i o x q n pol off).
Proof. unfold pakage_processing. preserve; apply preserves_for_each; intros pkt; preserve. apply orderly_process. Qed.

Lemma orderly_forward_to_out a b q : preserves Ord (forward_to_out a b q).
Proof. unfold forward_to_out. preserve. apply preserves_for_each. auto with cdb. Qed.
End packets.

(** ** The worker *)

Section worker.
Context {E : Type} {HD : RteHash domain_key} {HI : RteHash ip_key}.
Context {HDO : RteHashOk domain_key HD} {HIO : RteHashOk ip_key HI}.
Context {HE : RteEnv E} {HP : PacketEnv E} {HK : Controller E} {HL : LoopEnv E}.
Context {np : NetPtype} {platform : Platform} {inet : Inet} {io : InetOk} {ck : Ipv4Cksum}.
Context {HUK : UninitMem E ip_key} {HUKO : UninitKeyOk E}.
Context (names : gmap ptr (list Z)).

(** The object owns its collector, too. *)
Definition orderly_worker (k : worker E) : Prop := orderly names (wk_world k) ∧ is_Some (wk_collector k).

Lemma orderly_on_world {A} (m : M (world E) A) :
  preserves (orderly names) m → preserves orderly_worker (on_world m).
Proof. apply preserves_zoom; [by intros k []|]. intros w k [_ Hc] Hw. by split. Qed.

Lemma orderly_on_env {A} (f : E → A * E) : preserves orderly_worker (on_env f).
Proof.
  apply orderly_on_world. intros w a w' [H1 H2 H3 H4]. destruct (f (w_env w)) as [b e]. by intros [= _ <-].
Qed.

Lemma orderly_set (f : worker E → worker E) :
  (∀ k, wk_world (f k) = wk_world k ∧ (is_Some (wk_collector k) → is_Some (wk_collector (f k)))) →
  preserves orderly_worker (modify f).
Proof.
  intros Hf. apply preserves_modify. intros k [Hw Hc]. destruct (Hf k) as [E1 E2]. split; [congruence|auto].
Qed.

#[local] Hint Resolve orderly_on_world orderly_on_env orderly_forward_to_out orderly_packets
  orderly_on_dom orderly_on_ip writable_cache_clear : cdb.

Lemma orderly_request id : preserves orderly_worker (requestPolicyFromController id).
Proof.
  unfold requestPolicyFromController, clear_ip_cache, clear_dns_cache. preserve; by apply orderly_set.
Qed.

Lemma orderly_flush : preserves orderly_worker flushLocalCounters.
Proof.
  intros k [] k' [Hw [c Hc]] Hrun. destruct (flush_spec k) as (k1 & Hrun' & _ & _ & Hflush).
  rewrite Hrun in Hrun'. injection Hrun' as <-. rewrite Hc in Hflush.
  destruct Hflush as (c' & Hc' & Hw' & _). split; [|by exists c']. rewrite Hw'. by destruct Hw.
Qed.
#[local] Hint Resolve orderly_request orderly_flush : cdb.

Lemma orderly_iteration id i o x : preserves orderly_worker (main_iteration (HC := worker_classifier id) i o x).
Proof. unfold main_iteration, take_policy, main_packets, main_timers. preserve; by apply orderly_set. Qed.

Lemma orderly_exit : preserves orderly_worker main_exit.
Proof.
  unfold main_exit, SetState. preserve. apply orderly_set. intros k. by case_decide.
Qed.

(** However the worker gets somewhere, it can be saved from there. *)
Lemma orderly_steps id i o x k k' :
  rtc (wstep id i o x) k k' → orderly_worker k → orderly_worker k'.
Proof.
  induction 1 as [|k k1 k' Hstep _ IH]; [done|]. intros Hk. apply IH.
  destruct Hstep as [k k1 _ H|k k1 _ H|n k k1 H|e k].
  - by eapply orderly_iteration.
  - unfold policy_thread in H. revert Hk H.
    apply (preserves_bind orderly_worker); [by apply orderly_set|]. auto with cdb.
  - revert Hk H. unfold signal_handler. destruct (_ || _); [by apply orderly_set|]. by intros ? [= <-].
  - destruct Hk as [[] ?]. by split.
Qed.
End worker.
