(* ===== verification/Process.v ===== *)
(** * The worker process: worker.cpp's life cycle and main.cpp

    The constructor of the worker object, [initDPDK], [MainLoop] as a loop, the
    destructor, and [main] of [src/worker/src/main.cpp] around them.  A C++
    exception is a value of type [exn]; leaving the [try] block of [main] by an
    exception runs the destructor before the handler.  What the other threads
    (policy requests, saves of the caches) and the signals do is given by a
    schedule: the events delivered before each test of the loop's condition. *)

From Stdlib Require Import ZArith Lia.
From stdpp Require Import prelude gmap strings relations.
From S2P Require Import Prelude CMem Stream Metrics Types Filter Parse Hash Sqlite Policy Cache Persist PersistSpec DomainCache IpCache CacheLife Proc NetPort ProcSpec Plant Enforce Worker Writable.

Local Open Scope Z_scope.

(** ** State *)

(** The worker object with the installation it drives: its pointers to the ports
    and to the memory pool. *)
Record process (E D1 D2 : Type) {HD : RteHash domain_key} {HI : RteHash ip_key} := Process {
  pr_worker : worker E;
  pr_vdevs : gset (list Z);
  pr_dns : store D1;
  pr_ip : store D2;
  port_in : option ptr;
  port_out : option ptr;
  port_exception : option ptr;
  mbuf_pool : option ptr
}.
Arguments Process {E D1 D2 HD HI}.
Arguments pr_worker {E D1 D2 HD HI}.
Arguments pr_vdevs {E D1 D2 HD HI}.
Arguments pr_dns {E D1 D2 HD HI}.
Arguments pr_ip {E D1 D2 HD HI}.
Arguments port_in {E D1 D2 HD HI}.
Arguments port_out {E D1 D2 HD HI}.
Arguments port_exception {E D1 D2 HD HI}.
Arguments mbuf_pool {E D1 D2 HD HI}.

(** How [main] ends: with an exit code, or in [std::terminate] for an exception
    nobody catches. *)
Inductive outcome :=
| Exit (code : Z)
| Terminate (e : exn).

(** Signals, policy threads that run, and the threads a timer starts to save a
    cache, if they can be created. *)
Inductive wevent :=
| Signal (signum : Z)
| PolicyThread
| SaveDns (created : bool)
| SaveIp (created : bool).

Section process.
Context {E D1 D2 : Type} {HD : RteHash domain_key} {HI : RteHash ip_key}.
Context {HE : RteEnv E} {HP : PacketEnv E} {HK : Controller E} {HL : LoopEnv E}.
Context {HLC : LibcEnv E} {HV : EthDev E} {HY : SystemEnv E} {HM : MetricsEnv E}.
Context {HS1 : Sqlite D1} {HS2 : Sqlite D2}.
Context {HUD : UninitMem E node_cache_domain} {HUI : UninitMem E node_cache_ip} {HUK : UninitMem E ip_key}.
Context {HUP : UninitMem E BASE_POLICY}.
Context {np : NetPtype} {platform : Platform} {inet : Inet} {ck : Ipv4Cksum}.
#[local] Abbreviation plant := (plant E D1 D2).
#[local] Abbreviation process := (process E D1 D2).

Definition plant_of (s : process) : plant :=
  Plant (wk_world (pr_worker s)) (pr_vdevs s) (pr_dns s) (pr_ip s).
Definition set_plant (p : plant) (s : process) : process :=
  Process (set_world (pl_world p) (pr_worker s)) (pl_vdevs p) (pl_dns p) (pl_ip p)
    (port_in s) (port_out s) (port_exception s) (mbuf_pool s).
Definition on_plant {A} (m : M plant A) : M process A := zoom plant_of set_plant m.

Definition set_worker (k : worker E) (s : process) : process :=
  Process k (pr_vdevs s) (pr_dns s) (pr_ip s)
    (port_in s) (port_out s) (port_exception s) (mbuf_pool s).
Definition on_worker {A} (m : M (worker E) A) : M process A := zoom pr_worker set_worker m.

Definition set_ports (i o x pool : option ptr) (s : process) : process :=
  Process (pr_worker s) (pr_vdevs s) (pr_dns s) (pr_ip s) i o x pool.

Definition get_env (name : string) : M process (option (list Z)) :=
  gets (λ s, getenv name (w_env (wk_world (pr_worker s)))).

Definition throw {A} (e : exn) : M process (exn + A) := ret (inl e).

(** ** Construction *)

(** The fields before the constructor's body: the policy is not initialised,
    nor is the local copy of [MainLoop] before the loop writes it. *)
Definition worker_fields (w : world E) (garbage : BASE_POLICY) (c : MetricsCollector E) : worker E :=
  Wk (with_counters 0 0 0 w) 0 true garbage FREE false 0 MIN_POLICY_TIME 0 (Some c) 0 garbage 0.

(** The constructor.  The gRPC channel is the controller of [Worker.v], whatever
    its address; the results of [signal] are ignored.  The collector may never
    be constructed ([Metrics.v]). *)
Definition new_Worker (fuel : nat) (id : Z) (p : plant) : res process :=
  let (garbage, e) := uninit (w_env (pl_world p)) in
  let* c := new_MetricsCollector fuel e in
  let w := Proc.with_env (mc_env c) (pl_world p) in
  let s := Process (worker_fields w garbage c) (pl_vdevs p) (pl_dns p) (pl_ip p) None None None None in
  let* r := (on_plant (sys_call (signal_ok 2)) ;;;
             on_plant (sys_call (signal_ok 15)) ;;;
             on_plant (sys_call srand_time) ;;;
             on_worker (SetState FREE) ;;;
             on_worker (requestPolicyFromController id)) s in
  Ok r.2.

(** ** initDPDK *)

Definition initDPDK (with_af_packet : bool) : M process (exn + unit) :=
  let! ret_eal := on_plant (sys_call rte_eal_init) in
  if ret_eal <? 0 then throw (runtime_error "EAL init failed") else
  let! pool := on_plant (sys_call rte_pktmbuf_pool_create) in
  modify (λ s, set_ports (port_in s) (port_out s) (port_exception s) pool s) ;;;
  match pool with
  | None => throw (runtime_error "Failed to create mbuf pool")
  | Some _ =>
      let! iface_in := get_env "DPDK_PORT_IN" in
      let! iface_out := get_env "DPDK_PORT_OUT" in
      match iface_in, iface_out with
      | Some iface_in, Some iface_out =>
          let! i := on_plant (on_net (init_struct_af_xdp_port with_af_packet iface_in pool)) in
          modify (λ s, set_ports i (port_out s) (port_exception s) pool s) ;;;
          let! o := on_plant (on_net (init_struct_af_xdp_port with_af_packet iface_out pool)) in
          modify (λ s, set_ports i o (port_exception s) pool s) ;;;
          let! x := on_plant (on_net (init_struct_tap_port (bytes_of_string "tap0") pool)) in
          modify (λ s, set_ports i o x pool s) ;;;
          let! failed := on_plant (any_nonzero [port_init i; port_init o; port_init x]) in
          if (failed : bool) then throw (runtime_error "Init ports") else
          let! failed := on_plant (any_nonzero [port_start i; port_start o; port_start x]) in
          if (failed : bool) then throw (runtime_error "Start ports") else
          on_plant init_dns ;;;
          on_plant init_ip ;;;
          ret (inr tt)
      | _, _ => throw (runtime_error "DPDK_PORT_IN and DPDK_PORT_OUT must be set")
      end
  end.

(** ** MainLoop *)

(** A thread that saves a cache runs when the timer of the cache is armed. *)
Definition deliver (id : Z) (ev : wevent) : M process unit :=
  match ev with
  | Signal n => on_worker (signal_handler n)
  | PolicyThread =>
      let! threads := gets (λ s, wk_threads (pr_worker s)) in
      if decide (0 < threads)%nat then on_worker (policy_thread id) else ret tt
  | SaveDns created =>
      let! timer := gets (λ s, s_timer (pr_dns s)) in
      match timer with
      | Some _ => on_plant (on_dns (cache_save_timer_cb created))
      | None => ret tt
      end
  | SaveIp created =>
      let! timer := gets (λ s, s_timer (pr_ip s)) in
      match timer with
      | Some _ => on_plant (on_ips (cache_save_timer_cb_ip created))
      | None => ret tt
      end
  end.

(** One iteration reads the port pointers. *)
Definition loop_body (id : Z) : M process unit :=
  let! ports := gets (λ s, (port_in s, port_out s, port_exception s)) in
  match ports with
  | (Some i, Some o, Some x) =>
      on_worker (main_iteration (HC := worker_classifier id) i o x)
  | _ => fail BadPointer
  end.

(** [while (!stop_flag && GetState() != SHUTTING_DOWN)]: one entry of the
    schedule for each test. *)
Fixpoint main_loop (id : Z) (schedule : list (list wevent)) : M process unit :=
  match schedule with
  | [] => fail OutOfFuel
  | events :: schedule' =>
      for_each (deliver id) events ;;;
      let! go := gets (λ s, running (pr_worker s)) in
      if (go : bool) then loop_body id ;;; main_loop id schedule' else ret tt
  end.

(** Before the loop: the time of the last request, and the counter. *)
Definition loop_start : M process unit :=
  let! now := on_worker (on_env steady_clock_now) in
  on_worker (modify (λ k, set_schedule now (wk_policy_interval k) (wk_threads k) (set_counter 0 k))).

Definition MainLoop (id : Z) (schedule : list (list wevent)) : M process unit :=
  loop_start ;;;
  main_loop id schedule ;;;
  on_worker main_exit.

(** ** Destruction *)

(** The destructor of the collector the object owns, if it owns one; it waits
    for the collector's thread ([collector_thread_joins]). *)
Definition delete_collector : M (worker E) unit :=
  let! collector := gets wk_collector in
  match collector with
  | Some _ => on_collector stop_MetricsCollector
  | None => ret tt
  end.

(** The destructor, followed by that of the members. *)
Definition delete_Worker : M process unit :=
  let! ports := gets (λ s, (port_in s, port_out s, port_exception s)) in
  match ports with
  | (Some i, Some o, x) => on_plant (shutdown (Some i) (Some o) x)
  | _ => ret tt
  end ;;;
  on_worker delete_collector.

(** ** main.cpp *)

(** The [try] block after the construction: the test modes, or the worker's
    work.  A [return] leaves it like its end. *)
Definition run_worker (with_af_packet : bool) (id : Z) (schedule : list (list wevent)) :
    M process (exn + unit) :=
  let! request := get_env "TEST_REQUEST_POLICY" in
  let! test1 :=
    match request with
    | Some _ =>
        on_plant (sys_call (sleep_for 2)) ;;;
        on_worker (requestPolicyFromController id) ;;;
        ret true
    | None => ret false
    end in
  let! target := get_env "TEST_CLASSIFY_TARGET" in
  let! test_mode :=
    match target with
    | Some target =>
        let! type := get_env "TEST_CLASSIFY_TYPE" in
        let type := match type with
                    | Some t => String.string_of_list_ascii ((λ c, Ascii.ascii_of_N (Z.to_N c)) <$> t)
                    | None => "domain"%string
                    end in
        on_plant (sys_call (sleep_for 1)) ;;;
        let! _ := on_worker (on_world (zoom w_env Proc.with_env
          (classify id type (c_str target) (RequestedClassification (replicate MAX_CATEGORIES (zeros CATEGORY_MAX_LEN)) 0)))) in
        ret true
    | None => ret test1
    end in
  if (test_mode : bool) then ret (inr tt) else
  let! r := initDPDK with_af_packet in
  match r with
  | inl e => throw e
  | inr _ => MainLoop id schedule ;;; ret (inr tt)
  end.

(** [late] says whether a detached policy thread that was started and has not
    run goes on after the object is destroyed, before the process ends. *)
Definition main (with_af_packet late : bool) (fuel : nat) (schedule : list (list wevent)) (p : plant) :
    res (outcome * plant) :=
  let env name := getenv name (w_env (pl_world p)) in
  match env "WORKER_ID"%string with
  | None => Ok (Exit 1, p)
  | Some worker_id_str =>
      match stoull worker_id_str with
      | inl e => Ok (Terminate e, p)
      | inr worker_id =>
          match env "METRICS_GATEWAY_ADDRESS"%string, env "METRICS_GATEWAY_PORT"%string with
          | Some _, Some _ =>
              let* s := new_Worker fuel worker_id p in
              let* (r, s) := run_worker with_af_packet worker_id schedule s in
              let* (_, s) := delete_Worker s in
              if late && bool_decide (0 < wk_threads (pr_worker s))%nat then Fault BadPointer else
              Ok (match r with inl _ => Exit 1 | inr _ => Exit 0 end, plant_of s)
          | _, _ => Ok (Exit 1, p)
          end
      end
  end.

End process.

(** ** What initDPDK establishes *)

Section spec.
Context {E D1 D2 : Type} {HD : RteHash domain_key} {HI : RteHash ip_key}.
Context {HDO : RteHashOk domain_key HD} {HIO : RteHashOk ip_key HI}.
Context {HE : RteEnv E} {HEO : RteEnvOk E} {HP : PacketEnv E} {HPO : PacketEnvOk E} {HGC : GarbageClean E}.
Context {HK : Controller E} {HL : LoopEnv E} {HLO : LoopEnvOk E}.
Context {HLC : LibcEnv E} {HV : EthDev E} {HVO : EthDevOk E} {HY : SystemEnv E} {HYO : SystemEnvOk E}.
Context {HM : MetricsEnv E} {inet : Inet} {io : InetOk} {ck : Ipv4Cksum}.
Context {HUD : UninitMem E node_cache_domain} {HUI : UninitMem E node_cache_ip} {HUK : UninitMem E ip_key}.
Context {HUDO : UninitOk E domain_key node_cache_domain} {HUIO : UninitOk E ip_key node_cache_ip} {HUKO : UninitKeyOk E}.
Context {HUPo : UninitMem E BASE_POLICY}.
Context {HS1 : Sqlite D1} {HSO1 : SqliteOk D1 dns_sql} {HSS1 : SqliteSetup D1 dns_sql}.
Context {HS2 : Sqlite D2} {HSO2 : SqliteOk D2 ip_sql} {HSS2 : SqliteSetup D2 ip_sql}.
Context {np : NetPtype} {HTO : TrafficOk E} {platform : Platform} {HPL : PlatformOk}.
#[local] Abbreviation plant := (plant E D1 D2).
#[local] Abbreviation process := (process E D1 D2).
Implicit Types (s : process).

Lemma plant_of_set (p : plant) s : plant_of (set_plant p s) = p.
Proof. by destruct p. Qed.

Lemma on_plant_eq {A} (m : M plant A) s a p :
  m (plant_of s) = Ok (a, p) → on_plant m s = Ok (a, set_plant p s).
Proof. apply zoom_eq. Qed.

(** Only the installation changes, not the rest of the worker object. *)
Definition same_object s0 s : Prop :=
  pr_worker s = set_world (wk_world (pr_worker s)) (pr_worker s0).

(** The caches were not initialised. *)
Record no_caches (p : plant) : Prop := {
  nc_dom : w_dom (pl_world p) = Cache None ∅ ∅ false;
  nc_ip : w_ip (pl_world p) = Cache None ∅ ∅ false;
  nc_dns_timer : s_timer (pl_dns p) = None;
  nc_ip_timer : s_timer (pl_ip p) = None
}.

(** The process before [initDPDK]. *)
Record fresh_process s : Prop := {
  fp_caches : no_caches (plant_of s);
  fp_ports : w_ports (wk_world (pr_worker s)) = ∅;
  fp_vdevs : pr_vdevs s = ∅;
  fp_pointers : port_in s = None ∧ port_out s = None ∧ port_exception s = None
}.

(** A start that failed: no caches, and either no ports or three of them. *)
Record start_failed s : Prop := {
  sf_caches : no_caches (plant_of s);
  sf_ports : port_in s = None ∧ w_ports (wk_world (pr_worker s)) = ∅
    ∨ ∃ i o x ni no nx, port_in s = Some i ∧ port_out s = Some o ∧ port_exception s = Some x
        ∧ NoDup [i; o; x] ∧ names_at (plant_of s) = <[x := nx]> (<[o := no]> {[i := ni]})
        ∧ ports_wf (w_ports (wk_world (pr_worker s)))
}.

(** A start that succeeded. *)
Record installed (b : bool) s (i o x : ptr) : Prop := {
  in_pointers : port_in s = Some i ∧ port_out s = Some o ∧ port_exception s = Some x;
  in_world : world_inv i o x (wk_world (pr_worker s));
  in_ports : ∃ ni no nx, three_ports (plant_of s) i o x ni no nx ∧ pr_vdevs s = {[ni; no; nx]}
    ∧ names_at (plant_of s) = <[x := nx]> (<[o := no]> {[i := ni]})
}.

(** What empty databases leave of the caches: nothing. *)
Record clean_start s : Prop := {
  cl_empty : abs_world (wk_world (pr_worker s)) = AState ∅ ∅;
  cl_dom : writable_cache (E:=E) (w_dom (wk_world (pr_worker s)));
  cl_ip : writable_cache (E:=E) (w_ip (wk_world (pr_worker s)))
}.

Lemma no_caches_other (p p' : plant) : other_than_net p p' → no_caches p → no_caches p'.
Proof. intros [] []. constructor; congruence. Qed.

Lemma fresh_sys_call {A} (f : E → A * E) s :
  fresh_process s →
  ∃ a s', on_plant (sys_call f) s = Ok (a, s') ∧ fresh_process s' ∧ same_object s s'
    ∧ pr_dns s' = pr_dns s ∧ pr_ip s' = pr_ip s.
Proof.
  intros [Hc Hp Hv Hptr]. destruct (sys_call_eq f (plant_of s)) as (p & Hrun & Ho & Hports & Hvd).
  eexists _, _. split; [by apply on_plant_eq|]. split; [|by destruct Ho].
  constructor; [|cbn; by rewrite Hports|cbn; by rewrite Hvd|done].
  rewrite plant_of_set. by eapply no_caches_other.
Qed.

Lemma fresh_fails s : fresh_process s → start_failed s.
Proof. intros [Hc Hp _ (Hi & _)]. constructor; [done|]. by left. Qed.

(** The ports are allocated one by one. *)
Lemma alloc_process (m : M (nstate E) (option ptr)) name s :
  allocates (D1:=D1) (D2:=D2) m name →
  ports_wf (w_ports (wk_world (pr_worker s))) → (∀ e : E, fst (malloc_ok e) = true) →
  ∃ p s', on_plant (on_net m) s = Ok (Some p, s')
    ∧ same_object s s' ∧ ports_step (plant_of s) (plant_of s') ∧ pr_vdevs s' = pr_vdevs s
    ∧ names_at (plant_of s) !! p = None ∧ names_at (plant_of s') = <[p := name]> (names_at (plant_of s)).
Proof.
  intros Hal Hwf Hm. destruct (Hal (plant_of s) Hwf) as (r & p' & Hrun & Hst & Hv & Hr).
  destruct r as [p|]; [|by rewrite Hm in Hr; destruct Hr]. destruct Hr as [Hp Hn].
  exists p, (set_plant p' s). split; [by apply on_plant_eq|]. rewrite plant_of_set. by split_and!.
Qed.

Lemma same_object_trans s1 s2 s3 : same_object s1 s2 → same_object s2 s3 → same_object s1 s3.
Proof. unfold same_object. intros H1 H3. rewrite H3. cbn. by rewrite H1. Qed.

(** The three ports of [initDPDK]. *)
Lemma alloc_three (m1 m2 m3 : M (nstate E) (option ptr)) n1 n2 n3 pool s :
  fresh_process s → (∀ e : E, fst (malloc_ok e) = true) →
  allocates (D1:=D1) (D2:=D2) m1 n1 → allocates (D1:=D1) (D2:=D2) m2 n2 → allocates (D1:=D1) (D2:=D2) m3 n3 →
  ∃ i o x s1 s2 s3, on_plant (on_net m1) s = Ok (Some i, s1)
    ∧ on_plant (on_net m2) (set_ports (Some i) (port_out s1) (port_exception s1) pool s1) = Ok (Some o, s2)
    ∧ on_plant (on_net m3) (set_ports (Some i) (Some o) (port_exception s2) pool s2) = Ok (Some x, s3)
    ∧ allocated (plant_of s3) i o x n1 n2 n3 ∧ no_caches (plant_of s3) ∧ same_object s s3
    ∧ pr_dns s3 = pr_dns s ∧ pr_ip s3 = pr_ip s.
Proof.
  intros [Hc Hp Hv _] Hm Ha1 Ha2 Ha3.
  destruct (alloc_process m1 n1 s Ha1) as (i & s1 & R1 & O1 & [P1 W1] & V1 & F1 & N1); [by rewrite Hp|done|].
  destruct (alloc_process m2 n2 (set_ports (Some i) (port_out s1) (port_exception s1) pool s1) Ha2)
    as (o & s2 & R2 & O2 & [P2 W2] & V2 & F2 & N2); [done|done|].
  destruct (alloc_process m3 n3 (set_ports (Some i) (Some o) (port_exception s2) pool s2) Ha3)
    as (x & s3 & R3 & O3 & [P3 W3] & V3 & F3 & N3); [done|done|].
  change (plant_of (set_ports _ _ _ _ s1)) with (plant_of s1) in *.
  change (plant_of (set_ports _ _ _ _ s2)) with (plant_of s2) in *. cbn [pr_vdevs set_ports] in V2, V3.
  assert (names_at (plant_of s) = ∅) as N0 by (unfold names_at, dev_names; cbn; rewrite Hp; apply fmap_empty).
  assert (other_than_net (plant_of s) (plant_of s3)) as P by eauto using other_than_net_trans.
  rewrite N0 in N1. rewrite N1 in F2, N2. rewrite N2 in F3, N3.
  exists i, o, x, s1, s2, s3. split_and!; try done.
  - constructor; [done|by rewrite N3| |cbn; congruence].
    rewrite lookup_insert_None in F2, F3. rewrite lookup_insert_None in F3.
    repeat constructor; set_solver.
  - by eapply no_caches_other.
  - eapply same_object_trans; [exact O1|]. eapply same_object_trans; [exact O2|]. exact O3.
  - by destruct P.
  - by destruct P.
Qed.
(** The interfaces named in the environment are two. *)
Definition two_interfaces (b : bool) : Prop := ∀ (e : E) a c,
  getenv "DPDK_PORT_IN" e = Some a → getenv "DPDK_PORT_OUT" e = Some c → af_name b a ≠ af_name b c.

(** The part of [initDPDK] behind the allocation of the ports. *)
Lemma bring_up b s3 i o x n1 n2 n3 :
  let s := set_ports (Some i) (Some o) (Some x) (mbuf_pool s3) s3 in
  allocated (plant_of s3) i o x n1 n2 n3 → no_caches (plant_of s3) →
  NoDup [n1; n2; n3] → Forall (λ n, is_Some (cstr n)) [n1; n2; n3] →
  (∀ e : E, fst (dns_hash_create e) ≠ None) → (∀ e : E, fst (ip_hash_create e) ≠ None) →
  ∃ r s', (let! failed := on_plant (any_nonzero [port_init (Some i); port_init (Some o); port_init (Some x)]) in
           if (failed : bool) then throw (runtime_error "Init ports") else
           let! failed := on_plant (any_nonzero [port_start (Some i); port_start (Some o); port_start (Some x)]) in
           if (failed : bool) then throw (runtime_error "Start ports") else
           on_plant init_dns ;;; on_plant init_ip ;;; ret (inr tt)) s = Ok (r, s')
    ∧ same_object s3 s'
    ∧ match r with
      | inl _ => start_failed s'
      | inr _ => installed b s' i o x
                 ∧ (db_main (s_db (pr_dns s3)) = ∅ → db_main (s_db (pr_ip s3)) = ∅ →
                    clean_start s')
      end.
Proof.
  intros s Hal Hnc Hnd Hstr Hdns Hip. pose proof (allocated_names _ _ _ _ _ _ _ Hal) as (Hi & Ho & Hx).
  pose proof (al_names _ _ _ _ _ _ _ Hal) as Hnames. pose proof (al_distinct _ _ _ _ _ _ _ Hal) as Hptr.
  destruct (ports_initialised _ _ _ _ _ _ _ Hal Hnd Hstr) as (f & p1 & R1 & [O1 W1] & N1 & V1).
  erewrite bind_eq by (apply on_plant_eq; exact R1).
  assert (∀ p s', other_than_net (plant_of s3) p → names_at p = names_at (plant_of s3) →
    ports_wf (w_ports (pl_world p)) →
    start_failed (set_plant p (set_ports (Some i) (Some o) (Some x) (mbuf_pool s3) s'))) as Hfail.
  { intros p s' Hoth Hn Hw. constructor; rewrite plant_of_set; [by eapply no_caches_other|].
    right. exists i, o, x, n1, n2, n3. rewrite Hn. split_and!; done. }
  destruct f; [eexists _, _; split; [done|]; split; [done|]; by apply Hfail|].
  destruct (ports_started p1 i o x W1) as (f & p2 & R2 & [O2 W2] & N2 & V2).
  { rewrite N1. rewrite !Forall_cons. split_and!; by eexists || constructor. }
  erewrite bind_eq by (apply on_plant_eq; rewrite plant_of_set; exact R2).
  assert (other_than_net (plant_of s3) p2) as O by (by eapply other_than_net_trans).
  destruct f; [eexists _, _; split; [done|]; split; [done|]; apply (Hfail p2 s3); congruence || done|].
  pose proof (no_caches_other _ _ O Hnc) as [Hd0 Hi0 Ht1 Ht2].
  destruct (init_dns_spec p2 Hd0 Ht1) as (p3 & R3 & P3 & V3 & I3 & S3 & C3).
  erewrite bind_eq by (apply on_plant_eq; rewrite plant_of_set; exact R3).
  destruct (init_ip_spec p3) as (p4 & R4 & P4 & V4 & I4 & S4 & C4); [by rewrite I3|by rewrite S3|].
  erewrite bind_eq by (apply on_plant_eq; rewrite plant_of_set; exact R4).
  destruct (C3 (Hdns _)) as [Hr3 He3], (C4 (Hip _)) as [Hr4 He4].
  assert (names_at p4 = names_at (plant_of s3)) as N by (unfold names_at in *; congruence).
  eexists _, _. split; [done|]. split; [done|]. split.
  - constructor; [done| |].
    + apply (plant_inv p4); [by rewrite P4, P3| |by rewrite I4|done].
      rewrite N, !Forall_cons. split_and!; by eexists || constructor.
    + exists n1, n2, n3. rewrite plant_of_set. split_and!; [constructor; rewrite ?N; done| |by rewrite N].
      cbn. rewrite V4, V3, V2. by apply V1.
  - intros E1 E2. destruct O. destruct He3 as [A3 W3]; [cbn in *; congruence|].
    destruct He4 as [A4 W4]; [cbn in *; congruence|]. rewrite <- I4 in A3, W3.
    constructor; [unfold abs_world; cbn; congruence|done|done].
Qed.

(** [initDPDK] returns or throws; it never runs into undefined behaviour as
    long as memory lasts. *)
Lemma initDPDK_spec b s :
  fresh_process s → (∀ e : E, fst (malloc_ok e) = true) → two_interfaces b →
  (∀ e : E, fst (dns_hash_create e) ≠ None) → (∀ e : E, fst (ip_hash_create e) ≠ None) →
  ∃ r s', initDPDK b s = Ok (r, s') ∧ same_object s s'
    ∧ match r with
      | inl _ => start_failed s'
      | inr _ => ∃ i o x, installed b s' i o x
                 ∧ (db_main (s_db (pr_dns s)) = ∅ → db_main (s_db (pr_ip s)) = ∅ →
                    clean_start s')
      end.
Proof.
  intros Hf Hm Htwo Hdns Hip. unfold initDPDK.
  destruct (fresh_sys_call rte_eal_init s Hf) as (r & s1 & R1 & F1 & O1 & D1' & I1).
  erewrite bind_eq by exact R1. destruct (r <? 0).
  { eexists _, s1. split; [done|]. split; [done|]. by apply fresh_fails. }
  destruct (fresh_sys_call rte_pktmbuf_pool_create s1 F1) as (pool & s2 & R2 & F2 & O2 & D2' & I2).
  erewrite bind_eq by exact R2. erewrite bind_eq by reflexivity.
  set (s2' := set_ports (port_in s2) (port_out s2) (port_exception s2) pool s2).
  assert (fresh_process s2') as F2' by (by destruct F2).
  assert (same_object s s2') as O by (by eapply same_object_trans).
  destruct pool as [pool|]; [|eexists _, s2'; split; [done|]; split; [done|]; by apply fresh_fails].
  do 2 (erewrite bind_eq by reflexivity).
  destruct (getenv "DPDK_PORT_IN" _) as [a|] eqn:Ea; cycle 1.
  { eexists _, s2'. split; [done|]. split; [done|]. by apply fresh_fails. }
  destruct (getenv "DPDK_PORT_OUT" _) as [c|] eqn:Ec; cycle 1.
  { eexists _, s2'. split; [done|]. split; [done|]. by apply fresh_fails. }
  destruct (alloc_three (init_struct_af_xdp_port b a (Some pool)) (init_struct_af_xdp_port b c (Some pool))
    (init_struct_tap_port (bytes_of_string "tap0") (Some pool)) (af_name b a) (af_name b c)
    (tap_name (bytes_of_string "tap0")) (Some pool) s2' F2' Hm)
    as (i & o & x & s3 & s4 & s5 & R3 & R4 & R5 & Hal & Hnc & O5 & D5 & I5);
    [apply alloc_af|apply alloc_af|apply alloc_tap|].
  erewrite bind_eq by exact R3. erewrite bind_eq by reflexivity.
  erewrite bind_eq by exact R4. erewrite bind_eq by reflexivity.
  erewrite bind_eq by exact R5. erewrite bind_eq by reflexivity.
  destruct (bring_up b (set_ports (port_in s5) (port_out s5) (port_exception s5) (Some pool) s5) i o x
    (af_name b a) (af_name b c) (tap_name (bytes_of_string "tap0"))) as (r' & s' & Hrun & O6 & Hr);
    [exact Hal|exact Hnc| | |done|done|].
  { pose proof (af_tap_differ b a (bytes_of_string "tap0")). pose proof (af_tap_differ b c (bytes_of_string "tap0")).
    pose proof (Htwo _ a c Ea Ec). repeat constructor; set_solver. }
  { repeat constructor; apply snprintf_cstr; lia. }
  exists r', s'. split; [exact Hrun|]. split.
  { eapply same_object_trans; [exact O|]. eapply same_object_trans; [exact O5|]. exact O6. }
  destruct r' as [|[]]; [done|]. exists i, o, x. destruct Hr as [Hin Hempty]. split; [done|].
  cbn in Hempty, D5, I5. rewrite D5, I5, D2', I2, D1', I1 in Hempty. exact Hempty.
Qed.
(** *** The counters *)

(** No counter of the object is negative. *)
Definition counted (w : world E) : Prop := 0 ≤ w_received w ∧ 0 ≤ w_passed w ∧ 0 ≤ w_dropped w.
Definition plant_counted (p : plant) : Prop := counted (pl_world p).
Definition process_counted s : Prop := counted (wk_world (pr_worker s)).

(** The parts of the installation that setting up runs on do not contain them. *)
Lemma counted_part {T A} (g : plant → T) (put : T → plant → plant) (m : M T A) :
  (∀ t p, plant_counted p → plant_counted (put t p)) → preserves plant_counted (zoom g put m).
Proof.
  intros Hput. apply (preserves_zoom _ (λ _, True)); [done|by auto|done].
Qed.

Lemma counted_sys_call {A} (f : E → A * E) : preserves plant_counted (sys_call f).
Proof.
  apply (preserves_zoom _ counted); [done|done|]. intros w a w' Hw. destruct (f (w_env w)). by intros [= _ <-].
Qed.

Lemma counted_on_net {A} (m : M (nstate E) A) : preserves plant_counted (on_net m).
Proof. by apply counted_part. Qed.
Lemma counted_on_dns {A} (m : M _ A) : preserves plant_counted (on_dns m).
Proof. by apply counted_part. Qed.
Lemma counted_on_ips {A} (m : M _ A) : preserves plant_counted (on_ips m).
Proof. by apply counted_part. Qed.

Lemma counted_any (l : list (M plant Z)) :
  Forall (preserves plant_counted) l → preserves plant_counted (any_nonzero l).
Proof.
  induction 1 as [|m l Hm _ IH]; cbn [any_nonzero]; [apply preserves_ret|].
  apply preserves_bind; [done|]. intros r. by destruct (negb _); [apply preserves_ret|].
Qed.

Lemma counted_on_plant {A} (m : M plant A) :
  preserves plant_counted m → preserves process_counted (on_plant m).
Proof. by apply preserves_zoom. Qed.

Lemma counted_set_ports (f : process → process) :
  (∀ s, pr_worker (f s) = pr_worker s) → preserves process_counted (modify f).
Proof. intros Hf. apply preserves_modify. intros s. unfold process_counted. by rewrite Hf. Qed.

#[local] Hint Resolve counted_on_plant counted_sys_call counted_on_net counted_on_dns counted_on_ips
  counted_set_ports : cdb.

Lemma initDPDK_counted b : preserves process_counted (initDPDK b).
Proof.
  assert (∀ p, preserves plant_counted (port_init p)) as Hinit by (intros [p|]; cbn; auto with cdb).
  assert (∀ p, preserves plant_counted (port_start p)) as Hstart by (intros [p|]; cbn; auto with cdb).
  unfold initDPDK, get_env, throw, init_dns, init_ip. preserve; apply counted_on_plant.
  1, 2: by apply counted_any; rewrite !Forall_cons.
  all: preserve.
Qed.

(** ** Construction *)

Lemma cold_clear {K N} {HH : RteHash K} (e : E) (c : cache K N) :
  c_hash c = None → cache_clear (e, c) = Ok (tt, (e, c)).
Proof. intros Hc. unfold cache_clear. by rewrite Hc. Qed.

(** A policy request before the caches exist: there is nothing to clear. *)
Lemma request_policy_cold id (k : worker E) :
  c_hash (w_dom (wk_world k)) = None → c_hash (w_ip (wk_world k)) = None → cooperative id →
  ∃ k' e, requestPolicyFromController id k = Ok (tt, k')
    ∧ wk_world k' = Proc.with_env e (wk_world k)
    ∧ wk_policy_interval k' = wk_policy_interval k ∧ wk_collector k' = wk_collector k
    ∧ ∀ resp, fst (stub_GetPolicy id (wk_config_version k) (w_env (wk_world k))) = Some resp →
        resp_result resp = POLICY_PROVIDED → wk_policy k' = policy_of (resp_policy resp) ∧ policy_wf (wk_policy k').
Proof.
  intros Hd Hi Hco. unfold requestPolicyFromController. erewrite bind_eq by reflexivity.
  pose proof (co_fits _ Hco (wk_config_version k) (w_env (wk_world k))) as Hfit.
  unfold on_env, on_world at 1, zoom. unfold bind at 1.
  destruct (stub_GetPolicy id (wk_config_version k) (w_env (wk_world k))) as [[resp|] e]; cbn [fst] in *; cycle 1.
  { eexists _, e. split; [done|]. split_and!; done. }
  specialize (Hfit resp eq_refl). erewrite bind_eq by reflexivity.
  destruct (Z.eqb_spec (resp_result resp) POLICY_PROVIDED) as [Hp|Hp]; cycle 1.
  { eexists _, e. split; [done|]. split_and!; [done|done|done|]. by intros ? [= <-]. }
  rewrite load_policy_fits, bind_lift by done. erewrite bind_eq by reflexivity.
  erewrite bind_eq by (apply on_world_Ok, zoom_eq, cold_clear; exact Hi).
  eexists _, e. split; [apply on_world_Ok, zoom_eq, cold_clear; exact Hd|].
  split; [by destruct (wk_world k)|]. split; [done|]. split; [done|].
  intros ? [= <-] _. cbn. split; [done|]. by apply policy_of_wf.
Qed.

(** The constructor, when that of the collector returns. *)
Lemma new_Worker_spec fuel id (p : plant) c :
  no_caches p → w_ports (pl_world p) = ∅ → pl_vdevs p = ∅ → cooperative id →
  new_MetricsCollector fuel (snd (uninit (A:=BASE_POLICY) (w_env (pl_world p)))) = Ok c →
  ∃ s, new_Worker fuel id p = Ok s ∧ fresh_process s ∧ interval_ok (pr_worker s)
    ∧ pr_dns s = pl_dns p ∧ pr_ip s = pl_ip p
    ∧ process_counted s ∧ is_Some (wk_collector (pr_worker s))
    ∧ ((∀ e : E, ∃ resp, fst (stub_GetPolicy id 0 e) = Some resp ∧ resp_result resp = POLICY_PROVIDED) →
       policy_wf (wk_policy (pr_worker s))).
Proof.
  intros Hnc Hp Hv Hco Hc. unfold new_Worker. destruct (uninit (w_env (pl_world p))) as [garbage e].
  cbn [snd] in Hc. rewrite Hc. cbn [rbind].
  set (s0 := Process _ _ _ _ _ _ _ _).
  assert (fresh_process s0) as F0.
  { constructor; [by destruct Hnc|done|done|done]. }
  destruct (fresh_sys_call (signal_ok 2) s0 F0) as (a1 & s1 & R1 & F1 & O1 & D1' & I1).
  erewrite bind_eq by exact R1.
  destruct (fresh_sys_call (signal_ok 15) s1 F1) as (a2 & s2 & R2 & F2 & O2 & D2' & I2).
  erewrite bind_eq by exact R2.
  destruct (fresh_sys_call srand_time s2 F2) as (a3 & s3 & R3 & F3 & O3 & D3' & I3).
  erewrite bind_eq by exact R3.
  assert (same_object s0 s3) as Hw by (by do 2 (eapply same_object_trans; [done|])).
  assert (process_counted s3) as Hcnt.
  { assert (process_counted s0) as C0 by done.
    assert (∀ {A} (f : E → A * E), preserves process_counted (on_plant (sys_call f))) as Hk by auto with cdb.
    eapply (Hk _ _ _ _ _ (Hk _ _ _ _ _ (Hk _ _ _ _ _ C0 R1) R2) R3). }
  assert (on_worker (SetState FREE) s3 = Ok (tt, set_worker (pr_worker s3) s3)) as R4.
  { assert (wk_state (pr_worker s3) = FREE) as Hst by (by rewrite Hw).
    unfold on_worker, zoom, SetState, modify. by rewrite decide_True. }
  erewrite bind_eq by exact R4. destruct F3 as [Hnc3 Hp3 Hv3 Hptr3].
  destruct (request_policy_cold id (pr_worker s3)) as (k' & e' & R5 & Hw5 & Hint & Hcol & Hpol).
  { exact (f_equal c_hash (nc_dom _ Hnc3)). }
  { exact (f_equal c_hash (nc_ip _ Hnc3)). }
  { done. }
  unfold on_worker, zoom. cbn [pr_worker set_worker]. rewrite R5. cbn [rbind snd]. eexists. split; [done|].
  split; [|split; [|split; [|split; [|split; [|split]]]]].
  - constructor; [|cbn; by rewrite Hw5|done|done]. destruct Hnc3. constructor; cbn; rewrite ?Hw5; done.
  - unfold interval_ok. cbn. rewrite Hint, Hw. cbn. unfold MIN_POLICY_TIME, MAX_POLICY_TIME. lia.
  - cbn. by rewrite D3', D2', D1'.
  - cbn. by rewrite I3, I2, I1.
  - unfold process_counted. cbn. by rewrite Hw5.
  - cbn. rewrite Hcol, Hw. by eexists.
  - intros Hans. cbn. destruct (Hans (w_env (wk_world (pr_worker s3)))) as (resp & Hresp & Hprov).
    apply (Hpol resp); [|done].
    assert (wk_config_version (pr_worker s3) = 0) as -> by (by rewrite Hw). done.
Qed.

(** ** The main loop *)

Section loop.
Context (id : Z) (names : gmap ptr (list Z)) (i o x : ptr).
Context (Hco : cooperative (E:=E) id) (Hmalloc : ∀ e : E, fst (malloc_ok e) = true).

(** The loop at work on its ports. *)
Record looping s : Prop := {
  lo_pointers : port_in s = Some i ∧ port_out s = Some o ∧ port_exception s = Some x;
  lo_worker : worker_inv i o x (pr_worker s);
  lo_orderly : orderly_worker names (pr_worker s)
}.

Lemma looping_step s k :
  looping s → rtc (wstep id i o x) (pr_worker s) k → looping (set_worker k s).
Proof.
  intros [Hptr Hinv Hord] Hsteps. constructor; cbn; [done|by eapply wsteps_inv|by eapply orderly_steps].
Qed.

Lemma on_worker_eq {A} (m : M (worker E) A) s a k :
  m (pr_worker s) = Ok (a, k) → on_worker m s = Ok (a, set_worker k s).
Proof. apply zoom_eq. Qed.

Lemma on_world_run {A} (m : M (world E) A) (k : worker E) a k' :
  on_world m k = Ok (a, k') → wk_stop k' = wk_stop k.
Proof. unfold on_world, zoom. destruct (m (wk_world k)) as [[b w]|]; [|done]. by intros [= _ <-]. Qed.

(** A policy request does not take back a stop. *)
Lemma request_policy_stop (k k' : worker E) :
  requestPolicyFromController id k = Ok (tt, k') → wk_stop k' = wk_stop k.
Proof.
  unfold requestPolicyFromController. erewrite bind_eq by reflexivity.
  intros (resp & k1 & H1 & H2)%bind_Ok. unfold on_env in H1. apply on_world_run in H1.
  destruct resp as [resp|]; [|by injection H2 as <-]. erewrite bind_eq in H2 by reflexivity.
  destruct (_ =? _); [|by injection H2 as <-].
  apply bind_Ok in H2 as (p & k2 & H2 & H3). unfold lift in H2.
  destruct (load_policy _); [|done]. injection H2 as _ <-. erewrite bind_eq in H3 by reflexivity.
  apply bind_Ok in H3 as ([] & k3 & H3 & H4). apply on_world_run in H3, H4. cbn in *. congruence.
Qed.

Definition stops_loop (ev : wevent) : bool :=
  match ev with
  | Signal n => (n =? 2) || (n =? 15)
  | _ => false
  end.

(** A save leaves the object as it is. *)
Lemma save_dns_plant created (p : plant) :
  cache_ready (w_dom (pl_world p)) → writable_cache (E:=E) (w_dom (pl_world p)) →
  ∃ e d n, on_dns (cache_save_timer_cb created) p
    = Ok (tt, Plant (Proc.with_env e (pl_world p)) (pl_vdevs p)
                (Store d (s_conn (pl_dns p)) n (s_timer (pl_dns p))) (pl_ip p)).
Proof.
  intros Hr Hw. destruct created; cbn [cache_save_timer_cb]; cycle 1.
  { exists (w_env (pl_world p)), (s_db (pl_dns p)), (s_snapshots (pl_dns p)). by destruct p as [[] ? [] ?]. }
  destruct (save_safe (dns_of p) Hr Hw (Hmalloc _)) as (stats & e & d & n & Hrun). exists e, d, n.
  unfold on_dns. erewrite zoom_eq; [|erewrite bind_eq by exact Hrun; reflexivity]. by destruct p as [[] ? ? ?].
Qed.

Lemma save_ip_plant created (p : plant) :
  cache_ready (w_ip (pl_world p)) → writable_cache (E:=E) (w_ip (pl_world p)) →
  ∃ e d n, on_ips (cache_save_timer_cb_ip created) p
    = Ok (tt, Plant (Proc.with_env e (pl_world p)) (pl_vdevs p) (pl_dns p)
                (Store d (s_conn (pl_ip p)) n (s_timer (pl_ip p)))).
Proof.
  intros Hr Hw. unfold cache_save_timer_cb_ip. destruct created; cbn [cache_save_timer_cb]; cycle 1.
  { exists (w_env (pl_world p)), (s_db (pl_ip p)), (s_snapshots (pl_ip p)). by destruct p as [[] ? ? []]. }
  destruct (save_safe (ips_of p) Hr Hw (Hmalloc _)) as (stats & e & d & n & Hrun). exists e, d, n.
  unfold on_ips. erewrite zoom_eq; [|erewrite bind_eq by exact Hrun; reflexivity]. by destruct p as [[] ? ? ?].
Qed.

(** Another environment is a step. *)
Lemma looping_env s e vdevs d1 d2 :
  looping s →
  let s' := set_plant (Plant (Proc.with_env e (wk_world (pr_worker s))) vdevs d1 d2) s in
  looping s' ∧ rtc (wstep id i o x) (pr_worker s) (pr_worker s') ∧ wk_stop (pr_worker s') = wk_stop (pr_worker s).
Proof.
  intros Hlo s'. assert (rtc (wstep id i o x) (pr_worker s) (pr_worker s')) as Hst by apply rtc_once, S_env.
  split; [|done]. destruct (looping_step s _ Hlo Hst) as [Hptr Hinv Hord]. by constructor.
Qed.

Lemma deliver_spec ev s :
  looping s →
  ∃ s', deliver id ev s = Ok (tt, s') ∧ looping s' ∧ rtc (wstep id i o x) (pr_worker s) (pr_worker s')
    ∧ wk_stop (pr_worker s') = wk_stop (pr_worker s) || stops_loop ev.
Proof.
  intros Hlo. pose proof Hlo as [Hptr Hinv Hord]. destruct ev as [n| |created|created]; cbn [deliver stops_loop].
  - assert (signal_handler n (pr_worker s)
      = Ok (tt, set_run (wk_state (pr_worker s)) (wk_stop (pr_worker s) || ((n =? 2) || (n =? 15))) (pr_worker s))) as Hrun.
    { unfold signal_handler. destruct ((n =? 2) || (n =? 15)); cbn.
      - by rewrite orb_true_r.
      - rewrite orb_false_r. by destruct (pr_worker s). }
    eexists. split; [by apply on_worker_eq|].
    assert (rtc (wstep id i o x) (pr_worker s) _) as Hst by (by eapply rtc_once, S_signal).
    split; [by apply looping_step|done].
  - erewrite bind_eq by reflexivity. rewrite orb_false_r. destruct (decide _) as [Ht|Ht]; [|by exists s].
    destruct (policy_thread_spec id i o x (pr_worker s) Hco Hinv) as (k' & Hrun & Hinv').
    assert (rtc (wstep id i o x) (pr_worker s) k') as Hst by (by eapply rtc_once, S_policy).
    eexists. split; [by apply on_worker_eq|]. split; [by apply looping_step|]. split; [done|].
    unfold policy_thread in Hrun. erewrite bind_eq in Hrun by reflexivity.
    cbn. by rewrite (request_policy_stop _ _ Hrun).
  - erewrite bind_eq by reflexivity. rewrite orb_false_r. destruct (s_timer (pr_dns s)); [|by exists s].
    destruct (save_dns_plant created (plant_of s)) as (e & d & n & Hrun).
    { split; [apply (ki_world _ _ _ _ Hinv)|apply (ki_world _ _ _ _ Hinv)]. }
    { apply Hord. }
    eexists. split; [apply on_plant_eq; exact Hrun|]. by apply looping_env.
  - erewrite bind_eq by reflexivity. rewrite orb_false_r. destruct (s_timer (pr_ip s)); [|by exists s].
    destruct (save_ip_plant created (plant_of s)) as (e & d & n & Hrun).
    { split; [apply (ki_world _ _ _ _ Hinv)|apply (ki_world _ _ _ _ Hinv)]. }
    { apply Hord. }
    eexists. split; [apply on_plant_eq; exact Hrun|]. by apply looping_env.
Qed.

Lemma deliver_all_spec evs s :
  looping s →
  ∃ s', for_each (deliver id) evs s = Ok (tt, s') ∧ looping s' ∧ rtc (wstep id i o x) (pr_worker s) (pr_worker s')
    ∧ wk_stop (pr_worker s') = wk_stop (pr_worker s) || existsb stops_loop evs.
Proof.
  revert s. induction evs as [|ev evs IH]; intros s Hlo; cbn [for_each existsb].
  { exists s. split; [done|]. split; [done|]. by rewrite orb_false_r. }
  destruct (deliver_spec ev s Hlo) as (s1 & R1 & L1 & St1 & E1). erewrite bind_eq by exact R1.
  destruct (IH s1 L1) as (s2 & R2 & L2 & St2 & E2). exists s2. split_and!; [done|done|by etrans|].
  by rewrite E2, E1, <- orb_assoc.
Qed.

Lemma loop_body_spec s :
  looping s → running (pr_worker s) = true →
  ∃ s', loop_body id s = Ok (tt, s') ∧ looping s' ∧ rtc (wstep id i o x) (pr_worker s) (pr_worker s').
Proof.
  intros Hlo Hgo. pose proof Hlo as [(H1 & H2 & H3) Hinv _]. unfold loop_body.
  erewrite bind_eq by reflexivity. rewrite H1, H2, H3.
  destruct (main_iteration_spec id i o x (pr_worker s) Hinv (classifier_answers id Hco))
    as (k' & _ & _ & _ & _ & _ & Hrun & _ & _).
  assert (rtc (wstep id i o x) (pr_worker s) k') as Hst by (by apply rtc_once, S_iteration).
  eexists. split; [by apply on_worker_eq|]. split; [by apply looping_step|done].
Qed.

(** The loop ends at the latest where a stop signal is delivered, and its
    execution is a sequence of the worker's steps. *)
Lemma main_loop_spec schedule s :
  looping s →
  Exists (λ evs, existsb stops_loop evs = true) schedule →
  ∃ s', main_loop id schedule s = Ok (tt, s') ∧ looping s' ∧ running (pr_worker s') = false
    ∧ rtc (wstep id i o x) (pr_worker s) (pr_worker s').
Proof.
  intros Hlo Hstop. revert s Hlo. induction schedule as [|evs schedule IH]; intros s Hlo.
  { by apply Exists_nil in Hstop. }
  cbn [main_loop]. destruct (deliver_all_spec evs s Hlo) as (s1 & R1 & L1 & St1 & E1).
  erewrite bind_eq by exact R1. erewrite bind_eq by reflexivity.
  destruct (running (pr_worker s1)) eqn:Ego; [|by exists s1].
  destruct (loop_body_spec s1 L1 Ego) as (s2 & R2 & L2 & St2). erewrite bind_eq by exact R2.
  apply Exists_cons in Hstop as [Hst|Hstop].
  { unfold running in Ego. by rewrite E1, Hst, orb_true_r in Ego. }
  destruct (IH Hstop s2 L2) as (s3 & R3 & L3 & G3 & St3). exists s3. split_and!; [done|done|done|].
  etrans; [done|]. by etrans.
Qed.
End loop.

(** What the end of [MainLoop] leaves in the worker: the last flush adds the
    counters of the object to those of the collector. *)
Lemma main_exit_spec (k : worker E) c :
  running k = false → wk_collector k = Some c → counted (wk_world k) →
  ∃ k' c', main_exit k = Ok (tt, k') ∧ wk_state k' = SHUTTING_DOWN
    ∧ wk_world k' = with_counters 0 0 0 (wk_world k) ∧ wk_collector k' = Some c'
    ∧ counts c' = (packets_received_counter c + w_received (wk_world k),
                   packets_passed_counter c + w_passed (wk_world k),
                   packets_dropped_counter c + w_dropped (wk_world k)).
Proof.
  intros Hr Hc (H1 & H2 & H3). unfold main_exit. destruct (flush_spec k) as (k1 & R1 & _ & Hf & Hflush).
  rewrite Hc in Hflush. destruct Hflush as (c' & Hc' & Hw & Hcounts). destruct Hf as (_ & _ & _ & [Hst Hsp] & _).
  erewrite bind_eq by exact R1. erewrite bind_eq by reflexivity.
  assert (∀ k2, wk_state k2 = SHUTTING_DOWN → wk_world k2 = wk_world k1 → wk_collector k2 = wk_collector k1 →
    wk_state k2 = SHUTTING_DOWN ∧ wk_world k2 = with_counters 0 0 0 (wk_world k) ∧ wk_collector k2 = Some c'
    ∧ counts c' = (packets_received_counter c + w_received (wk_world k),
                   packets_passed_counter c + w_passed (wk_world k),
                   packets_dropped_counter c + w_dropped (wk_world k))) as Hdone.
  { intros k2 S2 W2 C2. split_and!; [done|congruence|congruence|by apply Hcounts]. }
  unfold running in Hr. rewrite Hsp. destruct (wk_stop k).
  - unfold SetState, modify. eexists _, c'. split; [done|].
    destruct (decide (wk_state k1 = SHUTTING_DOWN)); by apply Hdone.
  - cbn in Hr. apply bool_decide_eq_false in Hr. exists k1, c'. split; [done|]. apply Hdone; [|done|done].
    rewrite Hst. destruct (wk_state k); [by destruct Hr|done].
Qed.

Lemma orderly_on_worker {A} names (m : M (worker E) A) :
  preserves (orderly_worker names) m → preserves (λ s, orderly_worker names (pr_worker s)) (on_worker m).
Proof. by apply preserves_zoom. Qed.

Lemma loop_start_orderly names : preserves (λ s, orderly_worker names (pr_worker s)) loop_start.
Proof.
  unfold loop_start. preserve; apply orderly_on_worker; [apply orderly_on_env|]. by apply orderly_set.
Qed.

Lemma loop_start_spec names i o x s :
  looping names i o x s → ∃ s', loop_start s = Ok (tt, s') ∧ looping names i o x s'
    ∧ abs_world (wk_world (pr_worker s')) = abs_world (wk_world (pr_worker s)).
Proof.
  intros [Hptr [Hw Hp Ha Hint] Hord].
  assert (∃ s', loop_start s = Ok (tt, s') ∧ port_in s' = port_in s ∧ port_out s' = port_out s
    ∧ port_exception s' = port_exception s ∧ worker_inv i o x (pr_worker s')
    ∧ abs_world (wk_world (pr_worker s')) = abs_world (wk_world (pr_worker s)))
    as (s' & Hrun & P1 & P2 & P3 & Hinv & Habs).
  { unfold loop_start.
    destruct (on_env_spec i o x steady_clock_now (pr_worker s)) as (k1 & R1 & [Hsp _ _ _ Hsa _ Hsi] & Hi1 & _).
    erewrite bind_eq by (by apply on_worker_eq). eexists. split; [done|]. split_and!; [done..| |exact Hsa].
    constructor; cbn; rewrite ?Hsp, ?Hsa; try done; [by apply Hsi|].
    unfold interval_ok in *. cbn. by rewrite Hi1. }
  exists s'. split; [done|]. split; [|done]. rewrite <- P1, <- P2, <- P3 in Hptr.
  constructor; [done|done|]. exact (loop_start_orderly names s tt s' Hord Hrun).
Qed.

(** The loop and what follows it. *)
Lemma MainLoop_spec id names i o x schedule s :
  looping names i o x s → cooperative (E:=E) id → (∀ e : E, fst (malloc_ok e) = true) →
  Exists (λ evs, existsb stops_loop evs = true) schedule →
  ∃ s2 c k' c', (loop_start ;;; main_loop id schedule) s = Ok (tt, s2) ∧ looping names i o x s2
    ∧ running (pr_worker s2) = false ∧ wk_collector (pr_worker s2) = Some c
    ∧ MainLoop id schedule s = Ok (tt, set_worker k' s2) ∧ main_exit (pr_worker s2) = Ok (tt, k')
    ∧ wk_state k' = SHUTTING_DOWN ∧ wk_world k' = with_counters 0 0 0 (wk_world (pr_worker s2))
    ∧ wk_collector k' = Some c'
    ∧ counts c' = (packets_received_counter c + w_received (wk_world (pr_worker s2)),
                   packets_passed_counter c + w_passed (wk_world (pr_worker s2)),
                   packets_dropped_counter c + w_dropped (wk_world (pr_worker s2))).
Proof.
  intros Hlo Hco Hm Hstop.
  destruct (loop_start_spec names i o x s Hlo) as (s1 & R1 & L1 & _).
  destruct (main_loop_spec id names i o x Hco Hm schedule s1 L1 Hstop) as (s2 & R2 & L2 & G2 & _).
  destruct (lo_orderly _ _ _ _ _ L2) as [[_ _ _ Hcnt] [c Hc]].
  destruct (main_exit_spec (pr_worker s2) c G2 Hc Hcnt) as (k' & c' & R3 & Hst & Hw & Hc' & Hcounts).
  exists s2, c, k', c'. split_and!; try done.
  - by erewrite bind_eq by exact R1.
  - unfold MainLoop. erewrite bind_eq by exact R1. erewrite bind_eq by exact R2. by apply on_worker_eq.
Qed.

(** ** The process as a whole *)

(** A first start: nothing is set up, the databases are empty, memory lasts,
    the interfaces are two, tables can be created, the controller answers the
    first request with a policy, its policies fit the arrays, and it answers
    every request for a classification. *)
Record first_start (b : bool) (id : Z) (p : plant) : Prop := {
  fs_caches : no_caches p;
  fs_ports : w_ports (pl_world p) = ∅;
  fs_vdevs : pl_vdevs p = ∅;
  fs_dns : db_main (s_db (pl_dns p)) = ∅;
  fs_ip : db_main (s_db (pl_ip p)) = ∅;
  fs_malloc (e : E) : fst (malloc_ok e) = true;
  fs_interfaces : two_interfaces b;
  fs_dns_table (e : E) : fst (dns_hash_create e) ≠ None;
  fs_ip_table (e : E) : fst (ip_hash_create e) ≠ None;
  fs_policy (e : E) : ∃ resp, fst (stub_GetPolicy id 0 e) = Some resp ∧ resp_result resp = POLICY_PROVIDED;
  fs_controller : cooperative (E:=E) id
}.

Lemma new_Worker_collector fuel id (p : plant) s :
  new_Worker fuel id p = Ok s →
  ∃ c, new_MetricsCollector fuel (snd (uninit (A:=BASE_POLICY) (w_env (pl_world p)))) = Ok c.
Proof.
  unfold new_Worker. destruct (uninit _) as [g e]. cbn [snd].
  destruct (new_MetricsCollector fuel e); [by eexists|done].
Qed.

(** [initDPDK] on a first start. *)
Lemma first_start_init b fuel id (p : plant) s :
  first_start b id p → new_Worker fuel id p = Ok s →
  ∃ r s1, initDPDK b s = Ok (r, s1) ∧ match r with inl _ => start_failed s1 | inr _ => True end.
Proof.
  intros [] Hnew. destruct (new_Worker_collector fuel id p s Hnew) as [c Hc].
  destruct (new_Worker_spec fuel id p c) as (s' & Hnew' & Hfresh & _); try done.
  rewrite Hnew in Hnew'. injection Hnew' as <-.
  destruct (initDPDK_spec b s) as (r & s1 & Hinit & _ & Hr); try done.
  exists r, s1. split; [done|]. by destruct r.
Qed.

(** The object after the constructor and a successful [initDPDK]. *)
Lemma started_process b fuel id (p : plant) s s1 :
  first_start b id p → new_Worker fuel id p = Ok s → initDPDK b s = Ok (inr tt, s1) →
  ∃ i o x, looping (names_at (plant_of s1)) i o x s1 ∧ installed b s1 i o x.
Proof.
  intros [] Hnew Hinit.
  destruct (new_Worker_collector fuel id p s Hnew) as [c Hc].
  destruct (new_Worker_spec fuel id p c) as (s' & Hnew' & Hfresh & Hint & Hd & Hi & Hcnt & Hcol & Hpol); try done.
  rewrite Hnew in Hnew'. injection Hnew' as <-.
  destruct (initDPDK_spec b s) as (r & s1' & Hinit' & Hobj & Hr); try done.
  rewrite Hinit in Hinit'. injection Hinit' as <- <-.
  destruct Hr as (i & o & x & Hin & Hempty). rewrite Hd, Hi in Hempty. specialize (Hempty fs_dns0 fs_ip0).
  pose proof Hin as [Hptr Hw _]. pose proof (initDPDK_counted b s _ s1 Hcnt Hinit) as Hcnt1.
  destruct Hempty as [Habs Hwd Hwi]. exists i, o, x. split; [|done]. split; [done| |].
  - constructor; [done| | |].
    + rewrite Hobj. by apply Hpol.
    + rewrite Habs. apply no_block_agree.
    + unfold interval_ok in *. rewrite Hobj. done.
  - split; [by constructor|]. by rewrite Hobj.
Qed.

(** C7: from the start of the process on the policy in force is enforced.  The
    process starts for the first time ([first_start]: empty databases, memory
    lasts, policies fit the arrays, the controller provides a policy and answers
    every classification), the packets received parse ([TrafficOk]) and the
    classification struct is clean ([GarbageClean]).  Then however the worker got
    to a state by iterations, policy requests, signals and changes other threads
    make to the environment, one after the other, its next iteration runs to its
    end, and if filtering is on, every received packet whose name is on the
    block list and not on the allow list of the policy in force, or which has no
    name and whose address is on its block list (exception ports apart), is
    freed. *)
Theorem process_enforces b fuel id (p : plant) s s1 :
  first_start b id p → new_Worker fuel id p = Ok s → initDPDK b s = Ok (inr tt, s1) →
  ∃ i o x s2, port_in s1 = Some i ∧ port_out s1 = Some o ∧ port_exception s1 = Some x
    ∧ loop_start s1 = Ok (tt, s2)
    ∧ ∀ k, rtc (wstep id i o x) (pr_worker s2) k →
        ∃ k' w1 infos evs1 evs evs2, main_iteration (HC := worker_classifier id) i o x k = Ok (tt, k')
          ∧ w_trace (wk_world k') = w_trace (wk_world k) ++ evs1 ++ evs ++ evs2
          ∧ Worker.forward_to_out x i 0 (wk_world k) = Ok (tt, w1) ∧ parses i 0 32 w1 infos
          ∧ (wk_enable k = true →
             Forall2 (λ info ev, blocked (wk_policy k) info → exception_port info = false →
                                 ∃ pkt, ev = Freed pkt) infos evs).
Proof.
  intros Hfirst Hnew Hinit. destruct (started_process b fuel id p s s1 Hfirst Hnew Hinit) as (i & o & x & Hlo & _).
  destruct (loop_start_spec _ i o x s1 Hlo) as (s2 & R2 & [_ Hinv _] & _).
  exists i, o, x, s2. destruct Hlo as [(H1 & H2 & H3) _]. split_and!; try done. intros k Hsteps.
  pose proof (fs_controller _ _ _ Hfirst) as Hco.
  assert (worker_inv i o x k) as Hk by (by eapply wsteps_inv).
  destruct (main_iteration_spec id i o x k Hk (classifier_answers id Hco))
    as (k' & w1 & infos & evs1 & evs & evs2 & Hrun & _ & Ht & [Hf Hps Hdrop]).
  by exists k', w1, infos, evs1, evs, evs2.
Qed.

(** C8: liveness of the shutdown.  After a first start ([first_start]: empty
    databases, memory lasts, policies fit the arrays, the controller answers)
    that succeeds, with packets that parse ([TrafficOk]) and a clean
    classification struct ([GarbageClean]), a [MainLoop] that is ever sent a stop
    signal leaves its loop in some state [s2] and returns, without undefined
    behaviour on the way whatever policy threads, saves of the caches and
    signals the schedule holds, in the state SHUTTING_DOWN; the collector has
    then counted what it had in [s2] and what the counters of the object were in
    [s2], and these are zero. *)
Theorem MainLoop_stops b fuel id schedule (p : plant) s s1 :
  first_start b id p → new_Worker fuel id p = Ok s → initDPDK b s = Ok (inr tt, s1) →
  Exists (λ evs, existsb stops_loop evs = true) schedule →
  ∃ s2 c s' c', (loop_start ;;; main_loop id schedule) s1 = Ok (tt, s2) ∧ running (pr_worker s2) = false
    ∧ wk_collector (pr_worker s2) = Some c
    ∧ MainLoop id schedule s1 = Ok (tt, s') ∧ wk_state (pr_worker s') = SHUTTING_DOWN
    ∧ wk_collector (pr_worker s') = Some c'
    ∧ counts c' = (packets_received_counter c + w_received (wk_world (pr_worker s2)),
                   packets_passed_counter c + w_passed (wk_world (pr_worker s2)),
                   packets_dropped_counter c + w_dropped (wk_world (pr_worker s2)))
    ∧ w_received (wk_world (pr_worker s')) = 0 ∧ w_passed (wk_world (pr_worker s')) = 0
    ∧ w_dropped (wk_world (pr_worker s')) = 0.
Proof.
  intros Hfirst Hnew Hinit Hstop.
  destruct (started_process b fuel id p s s1 Hfirst Hnew Hinit) as (i & o & x & Hlo & _).
  destruct (MainLoop_spec id _ i o x schedule s1 Hlo (fs_controller _ _ _ Hfirst) (fs_malloc _ _ _ Hfirst) Hstop)
    as (s2 & c & k' & c' & R2 & _ & G2 & Hc & R3 & _ & Hst & Hw & Hc' & Hcounts).
  exists s2, c, (set_worker k' s2), c'. split_and!; try done; cbn; by rewrite Hw.
Qed.

(** *** Leaving *)

(** What the destructor of the collector leaves. *)
Lemma delete_collector_spec (k : worker E) :
  ∃ k', delete_collector k = Ok (tt, k') ∧ wk_world k' = wk_world k ∧ wk_threads k' = wk_threads k
    ∧ wk_collector k' = set_running false <$> wk_collector k.
Proof.
  unfold delete_collector. erewrite bind_eq by reflexivity. destruct (wk_collector k) as [c|] eqn:Ec.
  - unfold on_collector. rewrite Ec. by eexists.
  - exists k. by rewrite Ec.
Qed.

Lemma delete_released s i o x ni no nx :
  port_in s = Some i → port_out s = Some o → port_exception s = Some x →
  world_inv i o x (wk_world (pr_worker s)) → orderly_worker (<[x := nx]> (<[o := no]> {[i := ni]})) (pr_worker s) →
  NoDup [i; o; x] → (∀ e : E, fst (malloc_ok e) = true) →
  ∃ s', delete_Worker s = Ok (tt, s') ∧ taken_down (plant_of s) (plant_of s') ni no nx
    ∧ wk_threads (pr_worker s') = wk_threads (pr_worker s)
    ∧ wk_collector (pr_worker s') = set_running false <$> wk_collector (pr_worker s).
Proof.
  intros H1 H2 H3 Hinv [[Hd Hi Hn _] _] Hnd Hm. unfold delete_Worker. erewrite bind_eq by reflexivity.
  rewrite H1, H2, H3.
  destruct (shutdown_writable (plant_of s) i o x ni no nx) as (p & Hrun & Htd); try done.
  { split; apply Hinv. }
  { split; apply Hinv. }
  { apply Hinv. }
  erewrite bind_eq by (by apply on_plant_eq).
  destruct (delete_collector_spec (pr_worker (set_plant p s))) as (k' & R & Hw & Ht & Hc).
  eexists. split; [by apply on_worker_eq|]. split; [|done].
  assert (plant_of (set_worker k' (set_plant p s)) = p) as ->; [|done].
  unfold plant_of. cbn. rewrite Hw. by destruct p.
Qed.

(** C12: destroying a worker object whose caches can be saved ([orderly_worker],
    which every state of a process that started with empty databases is; names
    and addresses of both kinds may be cached) returns, as long as memory lasts,
    whatever SQLite and the driver answer.  Both tables are freed with
    everything they owned, both databases closed, both timers stopped, the three
    ports freed and the collector's thread told to end.  Every decision whose
    text no other key of its cache has is in the database, if the connection is
    open and SQLite's calls succeed; the three devices are removed, if the
    driver stops, closes and removes devices. *)
Theorem worker_destructor_releases s i o x ni no nx :
  port_in s = Some i → port_out s = Some o → port_exception s = Some x →
  world_inv i o x (wk_world (pr_worker s)) → orderly_worker (<[x := nx]> (<[o := no]> {[i := ni]})) (pr_worker s) →
  NoDup [i; o; x] → (∀ e : E, fst (malloc_ok e) = true) →
  ∃ s', delete_Worker s = Ok (tt, s') ∧ taken_down (plant_of s) (plant_of s') ni no nx
    ∧ wk_collector (pr_worker s') = set_running false <$> wk_collector (pr_worker s).
Proof.
  intros H1 H2 H3 Hinv Hord Hnd Hm.
  destruct (delete_released s i o x ni no nx H1 H2 H3 Hinv Hord Hnd Hm) as (s' & Hrun & Htd & _ & Hc).
  by exists s'.
Qed.

(** Without test variables [main] does the worker's work. *)
Definition no_test_mode : Prop := ∀ e : E,
  getenv "TEST_REQUEST_POLICY" e = None ∧ getenv "TEST_CLASSIFY_TARGET" e = None.

Lemma run_worker_works b id schedule s :
  no_test_mode →
  run_worker b id schedule s =
  (let! r := initDPDK b in
   match r with
   | inl e => throw e
   | inr _ => MainLoop id schedule ;;; ret (inr tt)
   end) s.
Proof.
  intros Htest. unfold run_worker. erewrite bind_eq by reflexivity. rewrite (proj1 (Htest _)).
  erewrite bind_eq by reflexivity. erewrite bind_eq by reflexivity. rewrite (proj2 (Htest _)).
  by erewrite bind_eq by reflexivity.
Qed.

(** The destructor after a start that failed. *)
Lemma delete_failed s :
  start_failed s →
  ∃ s', delete_Worker s = Ok (tt, s') ∧ w_ports (wk_world (pr_worker s')) = ∅ ∧ no_caches (plant_of s').
Proof.
  intros [Hnc Hports]. unfold delete_Worker. erewrite bind_eq by reflexivity.
  destruct Hports as [[Hi Hp]|(i & o & x & ni & no & nx & Hi & Ho & Hx & Hnd & Hn & Hwf)].
  { rewrite Hi. erewrite bind_eq by reflexivity.
    destruct (delete_collector_spec (pr_worker s)) as (k' & R & Hw & _).
    eexists. split; [by apply on_worker_eq|]. unfold plant_of. cbn. rewrite Hw. done. }
  rewrite Hi, Ho, Hx.
  destruct (shutdown_cold (plant_of s) i o x ni no nx) as (p & Hrun & Ho' & Hp); try done.
  { exact (f_equal c_hash (nc_dom _ Hnc)). }
  { exact (f_equal c_hash (nc_ip _ Hnc)). }
  erewrite bind_eq by (by apply on_plant_eq).
  destruct (delete_collector_spec (pr_worker (set_plant p s))) as (k' & R & Hw & _).
  assert (no_caches p) as Hncp by (by eapply no_caches_other).
  eexists. split; [by apply on_worker_eq|]. unfold plant_of. cbn. rewrite Hw. split; [done|]. by destruct p.
Qed.

(** The environment [main] asks for. *)
Record configured (id : Z) : Prop := {
  cf_id : ∀ e : E, ∃ str, getenv "WORKER_ID" e = Some str ∧ stoull str = inr id;
  cf_address : ∀ e : E, is_Some (getenv "METRICS_GATEWAY_ADDRESS" e);
  cf_port : ∀ e : E, is_Some (getenv "METRICS_GATEWAY_PORT" e);
  cf_work : no_test_mode
}.

Lemma main_configured b late fuel id schedule (p : plant) :
  configured id →
  main b late fuel schedule p =
  let* s := new_Worker fuel id p in
  let* (r, s) := run_worker b id schedule s in
  let* (_, s) := delete_Worker s in
  if late && bool_decide (0 < wk_threads (pr_worker s))%nat then Fault BadPointer else
  Ok (match r with inl _ => Exit 1 | inr _ => Exit 0 end, plant_of s).
Proof.
  intros [Hid Ha Hp _]. unfold main. destruct (Hid (w_env (pl_world p))) as (str & -> & ->).
  destruct (Ha (w_env (pl_world p))) as [a ->], (Hp (w_env (pl_world p))) as [q ->]. done.
Qed.

(** A start that fails ends the process with exit code 1 and leaves no port
    behind: the exception destroys the object, whose destructor copes with
    caches that were never initialised and ports that were never started. *)
Theorem failed_start_exits b fuel id schedule (p : plant) s ex s1 :
  no_caches p → w_ports (pl_world p) = ∅ → pl_vdevs p = ∅ →
  (∀ e : E, fst (malloc_ok e) = true) → two_interfaces b → cooperative (E:=E) id →
  (∀ e : E, fst (dns_hash_create e) ≠ None) → (∀ e : E, fst (ip_hash_create e) ≠ None) →
  configured id → new_Worker fuel id p = Ok s → initDPDK b s = Ok (inl ex, s1) →
  ∃ p', main b false fuel schedule p = Ok (Exit 1, p') ∧ w_ports (pl_world p') = ∅ ∧ no_caches p'.
Proof.
  intros Hnc Hp Hv Hm Htwo Hco Hdns Hip Hconf Hnew Hinit.
  destruct (new_Worker_collector fuel id p s Hnew) as [c Hc].
  destruct (new_Worker_spec fuel id p c) as (s' & Hnew' & Hfresh & _); try done.
  rewrite Hnew in Hnew'. injection Hnew' as <-.
  destruct (initDPDK_spec b s) as (r & s1' & Hinit' & _ & Hr); try done.
  rewrite Hinit in Hinit'. injection Hinit' as <- <-.
  destruct (delete_failed s1 Hr) as (s2 & Hdel & Hp2 & Hnc2).
  rewrite (main_configured b false fuel id schedule p Hconf), Hnew. cbn [rbind].
  rewrite (run_worker_works b id schedule s) by apply Hconf. erewrite bind_eq by exact Hinit.
  cbn [throw ret rbind]. rewrite Hdel. cbn [rbind]. by exists (plant_of s2).
Qed.
(** *** From start to exit *)

(** The object can be destroyed. *)
Record ended names (i o x : ptr) s : Prop := {
  en_pointers : port_in s = Some i ∧ port_out s = Some o ∧ port_exception s = Some x;
  en_world : world_inv i o x (wk_world (pr_worker s));
  en_orderly : orderly_worker names (pr_worker s)
}.

Lemma MainLoop_ended id names i o x schedule s :
  looping names i o x s → cooperative (E:=E) id → (∀ e : E, fst (malloc_ok e) = true) →
  Exists (λ evs, existsb stops_loop evs = true) schedule →
  ∃ s', MainLoop id schedule s = Ok (tt, s') ∧ ended names i o x s'.
Proof.
  intros Hlo Hco Hm Hstop. destruct (MainLoop_spec id names i o x schedule s Hlo Hco Hm Hstop)
    as (s2 & c & k' & c' & _ & [Hptr Hinv Hord] & _ & _ & Hrun & Hexit & _ & Hw & _).
  exists (set_worker k' s2). split; [done|]. constructor; [done| |by eapply orderly_exit].
  cbn. rewrite Hw. by destruct (ki_world _ _ _ _ Hinv).
Qed.

Lemma delete_ended b s0 s i o x :
  installed b s0 i o x → ended (names_at (plant_of s0)) i o x s → (∀ e : E, fst (malloc_ok e) = true) →
  ∃ s', delete_Worker s = Ok (tt, s') ∧ all_gone (plant_of s').
Proof.
  intros [_ _ (ni & no & nx & [_ _ _ Hnd] & _ & Hnames)] [(H1 & H2 & H3) Hinv Hord] Hm.
  rewrite Hnames in Hord.
  destruct (delete_released s i o x ni no nx) as (s' & Hrun & [Hgone _ _ _ _ _] & _); try done.
  by exists s'.
Qed.

End spec.
