(* ===== verification/Lab.v ===== *)
(** * A concrete environment

    Instances of every interface the packet path is built on (devices,
    classifier, address printing, checksum), a world with three ports and empty
    caches, and one DNS request for bad.com; the theorems of the packet path
    applied to them.  The two parameters of the environment say whether the
    classifier answers and whether the driver accepts packets. *)

From Stdlib Require Import ZArith Lia.
From stdpp Require Import prelude gmap strings.
From S2P Require Import Prelude CMem Types Filter Parse Hash Sqlite Cache DomainCache IpCache Proc ProcSpec Enforce.

Local Open Scope Z_scope.

Record lab_env (answers accepts : bool) := LabEnv {
  lab_rte : test_env;
  lab_rx : list rte_mbuf
}.
Arguments LabEnv {answers accepts}.
Arguments lab_rte {answers accepts}.
Arguments lab_rx {answers accepts}.

#[global] Instance mbuf_wf_dec m : Decision (mbuf_wf m) :=
  decide (74 ≤ length (mb_data m))%nat.

Section lab.
Context {answers accepts : bool}.
#[local] Abbreviation lab := (lab_env answers accepts).

#[global] Instance lab_rte_env : RteEnv lab := {|
  rte_malloc_ok e := let (b, t) := rte_malloc_ok (lab_rte e) in (b, LabEnv t (lab_rx e));
  rte_get_timer_cycles e :=
    let (n, t) := rte_get_timer_cycles (lab_rte e) in (n, LabEnv t (lab_rx e));
  rte_get_timer_hz e := rte_get_timer_hz (lab_rte e)
|}.

#[global] Instance lab_packet_env : PacketEnv lab := {|
  rte_eth_rx_burst e _ _ n := (take n (filter mbuf_wf (lab_rx e)), LabEnv (lab_rte e) []);
  rte_eth_tx_burst e _ _ _ := (if accepts then 1 else 0, e);
  stack_garbage e := (sample_clas ["ads"] 0, e)
|}.

#[global] Instance lab_classifier : Classifier lab := {|
  worker_classify _ _ req e :=
    if answers then Ok ((true, sample_clas ["news"] 50), e) else Ok ((false, req), e)
|}.

#[global] Instance lab_rte_env_ok : RteEnvOk lab.
Proof.
  constructor; intros [t rx].
  - exact (timer_cycles_range t).
  - exact (timer_hz_range t).
  - cbn. by destruct (te_allocs t).
  - done.
Qed.

#[global] Instance lab_packet_env_ok : PacketEnvOk lab.
Proof.
  constructor; intros; try done.
  - cbn. rewrite length_take. lia.
  - cbn. apply Forall_take, Forall_forall. intros m Hm. by apply list_elem_of_filter in Hm as [? _].
Qed.

#[global] Instance lab_garbage_clean : GarbageClean lab.
Proof. constructor. intros e. refine (bool_decide_unpack _ _). vm_compute. exact I. Qed.

#[global] Instance lab_classifier_ok : ClassifierOk lab.
Proof.
  constructor; intros; cbn; destruct answers; eexists _, _, _; split_and!; try done. intros _.
  apply sample_clas_wf; [unfold MAX_CATEGORIES; cbn; lia|].
  constructor; [unfold CATEGORY_MAX_LEN; cbn; lia|constructor].
Qed.
End lab.

(** An address notation: a tag and the bytes, shifted to avoid the null. *)
Definition lab_shift (z : Z) : Z := if z <? 0 then z else z + 1.
Definition lab_unshift (z : Z) : Z := if z <? 0 then z else z - 1.

Definition lab_pton (tag : Z) (len : nat) (s : list Z) : option (list Z) :=
  match cstr s with
  | Some (t :: l) =>
      if (t =? tag) && (length l =? len)%nat then Some (map lab_unshift l) else None
  | _ => None
  end.

#[global] Instance lab_inet : Inet := {|
  inet_ntop4 b := c_str (4 :: map lab_shift b);
  inet_ntop6 b := c_str (6 :: map lab_shift b);
  inet_pton4 := lab_pton 4 4;
  inet_pton6 := lab_pton 6 16
|}.

Lemma lab_shift_text tag b : tag ≠ 0 →
  cstr (c_str (tag :: map lab_shift b)) = Some (tag :: map lab_shift b).
Proof.
  intros Ht. apply cstr_c_str. constructor; [done|].
  induction b as [|z b IH]; cbn; constructor; [|done].
  unfold lab_shift. destruct (Z.ltb_spec z 0); lia.
Qed.

Lemma lab_pton_len tag len s b : lab_pton tag len s = Some b → length b = len.
Proof.
  unfold lab_pton. destruct (cstr s) as [[|t l]|]; try done.
  destruct (t =? tag); [|done]. destruct (Nat.eqb_spec (length l) len) as [<-|]; [|done].
  intros [= <-]. apply length_map.
Qed.

Lemma lab_unshift_shift b : map lab_unshift (map lab_shift b) = b.
Proof.
  induction b as [|z b IH]; [done|]. cbn. rewrite IH. f_equal. unfold lab_unshift, lab_shift.
  destruct (Z.ltb_spec z 0) as [Hz|Hz].
  - by rewrite (proj2 (Z.ltb_lt z 0)).
  - rewrite (proj2 (Z.ltb_ge (z + 1) 0)); lia.
Qed.

#[global] Instance lab_inet_ok : InetOk.
Proof.
  constructor; cbn [inet_ntop4 inet_ntop6 inet_pton4 inet_pton6 lab_inet].
  - intros b _. rewrite lab_shift_text by done. by eexists.
  - intros b _. rewrite lab_shift_text by done. by eexists.
  - intros b s Hb. rewrite lab_shift_text by done. intros [= <-]. unfold lab_pton.
    rewrite lab_shift_text, length_map, Hb by done. cbn [Z.eqb Pos.eqb Nat.eqb andb].
    by rewrite lab_unshift_shift.
  - intros b s Hb. rewrite lab_shift_text by done. intros [= <-]. unfold lab_pton.
    rewrite lab_shift_text, length_map, Hb by done. cbn [Z.eqb Pos.eqb Nat.eqb andb].
    by rewrite lab_unshift_shift.
  - apply lab_pton_len.
  - apply lab_pton_len.
Qed.

#[global] Instance lab_cksum : Ipv4Cksum :=
  {| rte_ipv4_cksum h := 65535 - word_sum (take (ihl_bytes h) h) mod 65535 |}.

#[global] Instance lab_cksum_ok : Ipv4CksumOk.
Proof.
  constructor. intros h _ _ _. cbn. set (s := word_sum _).
  pose proof (Z.mod_pos_bound s 65535). split; [lia|].
  rewrite Z.add_sub_assoc, Z.add_comm, <- Z.add_sub_assoc, Z.add_mod by lia.
  rewrite (Zminus_mod_idemp_r s s), Z.sub_diag. done.
Qed.

(** A DNS request for bad.com and what the parser makes of it. *)
Definition lab_packet : rte_mbuf :=
  let m := sample_dns_packet [bytes_of_string "bad"; bytes_of_string "com"] in
  Mbuf (mb_data m ++ zeros 32) (mb_data_len m).

Definition lab_info : info_of_pakage :=
  match @parsing_pakage sample_ptype lab_packet info_zero with
  | Ok i => i
  | Fault _ => info_zero
  end.

Lemma lab_parse : @parsing_pakage sample_ptype lab_packet info_zero = Ok lab_info.
Proof. vm_compute. reflexivity. Qed.

Definition lab_port (id : Z) : net_port :=
  NetPort id (zeros 32) (zeros 64) (zeros 256) None (replicate 6 id) (zeros 6) false.

Definition lab_world (answers accepts : bool) : world (lab_env answers accepts) :=
  World (LabEnv sample_env [lab_packet]) ∅
    {[1%positive := lab_port 1; 2%positive := lab_port 2; 3%positive := lab_port 3]}
    empty_domain_cache (Cache (Some ∅) ∅ ∅ false) 0 0 0 [].

(** The same world after the packet has been received. *)
Definition lab_world_rx (answers accepts : bool) : world (lab_env answers accepts) :=
  with_mbufs {[1%positive := lab_packet]} (lab_world answers accepts).

Lemma lab_world_inv a b : world_inv 1%positive 2%positive 3%positive (lab_world a b).
Proof.
  constructor.
  - exists ∅, ∅. apply empty_domain_cache_inv.
  - exists ∅, ∅. by apply cache_inv_created.
  - done.
  - done.
  - by repeat apply map_Forall_insert_2.
  - by eexists.
  - by eexists.
  - by eexists.
Qed.

Lemma lab_world_rx_inv a b : world_inv 1%positive 2%positive 3%positive (lab_world_rx a b).
Proof. by destruct (lab_world_inv a b). Qed.

Lemma lab_incoming a b : incoming 1%positive 0 32 (lab_world a b) = [lab_packet].
Proof. reflexivity. Qed.

Lemma lab_parses a b :
  Forall2 (λ m info, @parsing_pakage sample_ptype m info_zero = Ok info)
    (incoming 1%positive 0 32 (lab_world a b)) [lab_info].
Proof. rewrite lab_incoming. constructor; [apply lab_parse|constructor]. Qed.

Lemma lab_overrun : @overrun_wf flat_platform sample_policy.
Proof. apply flat_overrun_wf, sample_policy_wf. Qed.

Lemma lab_answers b : ¬ may_classify (E:=lab_env true b) false.
Proof. by intros (ty & target & c & e & req & e' & Hf). Qed.

Lemma lab_silent b : ¬ may_classify (E:=lab_env false b) true.
Proof. by intros (ty & target & c & e & req & e' & Hf). Qed.

Lemma lab_abs_empty a b : abs_world (lab_world a b) = AState ∅ ∅.
Proof. reflexivity. Qed.

(** ** The theorems of the packet path at this world *)

#[local] Existing Instance sample_ptype.
#[local] Existing Instance flat_platform.

Lemma pakage_processing_refines_witness :
  let w := lab_world true true in
  world_inv 1%positive 2%positive 3%positive w
  ∧ ∃ ps w0 w', pakage_processing 1%positive 2%positive 3%positive 0 32 sample_policy false w = Ok (tt, w')
    ∧ world_inv 1%positive 2%positive 3%positive w'
    ∧ received 1%positive 0 32 ps w w0 ∧ length ps = length (incoming 1%positive 0 32 w)
    ∧ burst 1%positive 2%positive 3%positive 0 sample_policy
        (zip (zip ps (incoming 1%positive 0 32 w)) [lab_info]) w0 w'.
Proof.
  split; [apply lab_world_inv|].
  apply (pakage_processing_refines 1%positive 2%positive 3%positive 0 32 sample_policy [lab_info] (lab_world true true)).
  - apply lab_world_inv.
  - apply sample_policy_wf.
  - apply lab_overrun.
  - apply lab_parses.
Defined.

Lemma pakage_processing_conserves_witness :
  let w := lab_world false false in
  ∃ w' evs, pakage_processing 1%positive 2%positive 3%positive 0 32 sample_policy false w = Ok (tt, w')
    ∧ w_mbufs w' = w_mbufs w
    ∧ w_trace w' = w_trace w ++ evs ∧ length evs = length (incoming 1%positive 0 32 w)
    ∧ NoDup (event_pkt <$> evs)
    ∧ Forall (λ ev, w_mbufs w !! event_pkt ev = None) evs
    ∧ u64 (w_received w') = u64 (w_received w + Z.of_nat (length (incoming 1%positive 0 32 w))).
Proof.
  apply (pakage_processing_conserves 1%positive 2%positive 3%positive 0 32 sample_policy [lab_info] (lab_world false false)).
  - apply lab_world_inv.
  - apply sample_policy_wf.
  - apply lab_overrun.
  - apply lab_parses.
Defined.

Lemma pakage_processing_blocks_witness :
  let w := lab_world true true in
  blocked sample_policy lab_info ∧ exception_port lab_info = false
  ∧ ∃ w' evs, pakage_processing 1%positive 2%positive 3%positive 0 32 sample_policy false w = Ok (tt, w')
    ∧ caches_agree sample_policy (abs_world w') ∧ w_trace w' = w_trace w ++ evs
    ∧ Forall2 (λ info ev, blocked sample_policy info → exception_port info = false →
                          ∃ pkt, ev = Freed pkt) [lab_info] evs.
Proof.
  split; [|split; [vm_compute; reflexivity|]].
  - left. split; [vm_compute; discriminate|]. exists (bytes_of_string "bad.com").
    split_and!; vm_compute; reflexivity.
  - apply (pakage_processing_blocks 1%positive 2%positive 3%positive 0 32 sample_policy [lab_info] (lab_world true true)).
    + apply lab_world_inv.
    + apply sample_policy_wf.
    + apply lab_overrun.
    + apply lab_parses.
    + constructor; [|constructor]. vm_compute. split; [discriminate|reflexivity].
    + apply lab_answers.
    + rewrite lab_abs_empty. constructor; cbn; intros; simplify_map_eq.
Defined.

Lemma classification_failure_fails_open_witness :
  let w := lab_world_rx false true in
  blocked sample_policy lab_info
  ∧ ∃ w', process_packet 1%positive 2%positive 3%positive 0 sample_policy 1%positive w = Ok (tt, w')
    ∧ moved (Some 2%positive) 0 1%positive lab_packet (count_received w) w'
    ∧ (abs (w_dom w') = abs (w_dom w)
       ∨ ∃ now, abs (w_dom w') = <[domain lab_info := Entry true now (u32 60)]> (abs (w_dom w))).
Proof.
  split.
  - left. split; [vm_compute; discriminate|]. exists (bytes_of_string "bad.com").
    split_and!; vm_compute; reflexivity.
  - apply (classification_failure_fails_open 1%positive 2%positive 3%positive 0 sample_policy lab_info 1%positive lab_packet
             (domain lab_info) (lab_world_rx false true)).
    + apply lab_world_rx_inv.
    + apply sample_policy_wf.
    + apply lab_overrun.
    + reflexivity.
    + vm_compute. lia.
    + apply lab_parse.
    + intros c Hc. apply (lab_silent true). by eexists _, _, _.
    + vm_compute. discriminate.
    + vm_compute. reflexivity.
    + vm_compute. reflexivity.
    + reflexivity.
Defined.

Lemma filtering_off_forwards_all_witness :
  let w := lab_world true true in
  ∃ ps w0 w', pakage_processing 1%positive 2%positive 3%positive 0 32 sample_policy true w = Ok (tt, w')
    ∧ received 1%positive 0 32 ps w w0 ∧ length ps = length (incoming 1%positive 0 32 w)
    ∧ forwards count_received 1%positive 2%positive 0 (zip ps (incoming 1%positive 0 32 w)) w0 w'
    ∧ w_dom w' = w_dom w ∧ w_ip w' = w_ip w ∧ w_mbufs w' = w_mbufs w.
Proof.
  apply (filtering_off_forwards_all 1%positive 2%positive 3%positive 0 32 sample_policy (lab_world true true)).
  apply lab_world_inv.
Defined.

Lemma forward_rewrites_hop_witness :
  let w := lab_world_rx true true in
  ∃ w' out b, forward_packet_with_rewrite 1%positive 1%positive 2%positive 0 w = Ok (tt, w')
    ∧ w_ports w' !! 2%positive = Some out
    ∧ w_trace w' = w_trace w ++ [Sent (port_id out) 0 1%positive (Mbuf b (mb_data_len lab_packet))]
    ∧ length b = length (mb_data lab_packet)
    ∧ take 6 b = (if neighbor_learned out then neighbor_mac out else broadcast)
    ∧ take 6 (drop 6 b) = mac_addr out
    ∧ b !! 22%nat = Some 63
    ∧ word_sum (take (ihl_bytes (drop 14 (mb_data lab_packet))) (drop 14 b)) mod 65535 = 0
    ∧ ∀ j, (12 ≤ j)%nat → j ∉ [22; 24; 25]%nat → b !! j = mb_data lab_packet !! j.
Proof.
  apply (forward_rewrites_hop 1%positive 2%positive 3%positive 0 1%positive lab_packet 64 (lab_world_rx true true)).
  - apply lab_world_rx_inv.
  - reflexivity.
  - vm_compute. lia.
  - reflexivity.
  - reflexivity.
  - lia.
  - vm_compute. lia.
  - intros. cbn. lia.
Defined.

(** The same frame as an IPv6 packet, offered to a driver that refuses it. *)
Definition lab_packet6 : rte_mbuf :=
  Mbuf (replicate 12 1 ++ [0x86; 0xdd] ++ zeros 60) 74.

Lemma refused_packet_counted_passed_witness :
  let w := with_mbufs {[1%positive := lab_packet6]} (lab_world true false) in
  ∃ w', forward_packet_with_rewrite 1%positive 1%positive 2%positive 0 w = Ok (tt, w')
    ∧ w_trace w' = w_trace w ++ [Freed 1%positive] ∧ w_mbufs w' = delete 1%positive (w_mbufs w)
    ∧ w_dropped w' = u64 (w_dropped w + 1) ∧ w_passed w' = u64 (w_passed w + 1).
Proof.
  apply (refused_packet_counted_passed 1%positive 2%positive 3%positive 0 1%positive lab_packet6
           (with_mbufs {[1%positive := lab_packet6]} (lab_world true false))).
  - by destruct (lab_world_inv true false).
  - reflexivity.
  - vm_compute. lia.
  - reflexivity.
  - intros. cbn. lia.
Defined.
