(* ===== verification/WorkerLab.v ===== *)
(** * A concrete worker

    An environment with a scripted network and a scripted controller that keep
    the promises of [Worker.v] and [ProcSpec.v], the theorems on policies,
    classifications and the worker applied to it, and the execution in which a
    policy update overlaps an iteration of the main loop. *)

From Stdlib Require Import ZArith Lia.
From stdpp Require Import prelude gmap strings relations.
From S2P Require Import Prelude CMem Metrics Types Filter Parse Hash Sqlite Policy Cache DomainCache IpCache Proc ProcSpec Enforce Worker Lab.

Local Open Scope Z_scope.

(** ** The environment *)

(** The bursts port 1 is going to receive and the controller's answers. *)
Record desk := Desk {
  dk_rte : test_env;
  dk_rx : list (list rte_mbuf);
  dk_policies : list GetPolicyResponse
}.

Definition good_packet (m : rte_mbuf) : bool :=
  bool_decide (mbuf_wf m) &&
  match @parsing_pakage sample_ptype m info_zero with
  | Ok info => (0 <=? ip4_dist info) && (ip4_dist info <? 2 ^ 32)
  | Fault _ => false
  end.

#[global] Instance desk_rte : RteEnv desk := {|
  rte_malloc_ok e := let (b, t) := rte_malloc_ok (dk_rte e) in (b, Desk t (dk_rx e) (dk_policies e));
  rte_get_timer_cycles e :=
    let (n, t) := rte_get_timer_cycles (dk_rte e) in (n, Desk t (dk_rx e) (dk_policies e));
  rte_get_timer_hz e := rte_get_timer_hz (dk_rte e)
|}.

#[global] Instance desk_packets : PacketEnv desk := {|
  rte_eth_rx_burst e p _ n :=
    if p =? 1 then (take n (filter (λ m, good_packet m = true) (hd [] (dk_rx e))),
                    Desk (dk_rte e) (tl (dk_rx e)) (dk_policies e))
    else ([], e);
  rte_eth_tx_burst e _ _ _ := (1, e);
  stack_garbage e := (sample_clas (replicate 100 "x"%string) 0, e)
|}.

Definition news : ClassifyResponse := MkClassifyResponse [bytes_of_string "news"] 50.

#[global] Instance desk_controller : Controller desk := {|
  stub_GetPolicy _ _ e :=
    match dk_policies e with
    | r :: rs => (if decide (policy_fits (resp_policy r)) then Some r else None,
                  Desk (dk_rte e) (dk_rx e) rs)
    | [] => (None, e)
    end;
  stub_Classify _ _ _ e := (Some news, e)
|}.

#[global] Instance desk_loop : LoopEnv desk := {|
  steady_clock_now e := (0, e);
  rand e := (7, e);
  rte_timer_manage e := (tt, e)
|}.

#[global] Instance desk_rte_ok : RteEnvOk desk.
Proof.
  constructor; intros [t rx ps].
  - exact (timer_cycles_range t).
  - exact (timer_hz_range t).
  - cbn. by destruct (te_allocs t).
  - done.
Qed.

Lemma desk_rx_good e p q n : Forall (λ m, good_packet m = true) (fst (rte_eth_rx_burst e p q n)).
Proof.
  cbn. destruct (p =? 1); [|constructor]. apply Forall_take, Forall_forall.
  intros m Hm. by apply list_elem_of_filter in Hm as [? _].
Qed.

Lemma good_packet_spec m : good_packet m = true →
  mbuf_wf m ∧ ∃ info, @parsing_pakage sample_ptype m info_zero = Ok info ∧ ip4_range info.
Proof.
  unfold good_packet. intros [Hwf%bool_decide_eq_true Hp]%andb_prop. split; [done|].
  destruct (parsing_pakage m info_zero) as [info|]; [|done]. exists info. split; [done|].
  apply andb_prop in Hp as [?%Z.leb_le ?%Z.ltb_lt]. done.
Qed.

#[global] Instance desk_packets_ok : PacketEnvOk desk.
Proof.
  constructor; intros; try done.
  - cbn. destruct (p =? 1); cbn; [|lia]. rewrite length_take. lia.
  - eapply Forall_impl; [apply desk_rx_good|]. intros m Hm. by apply good_packet_spec.
Qed.

#[global] Instance desk_traffic : TrafficOk desk (np:=sample_ptype).
Proof.
  constructor. intros. eapply Forall_impl; [apply desk_rx_good|].
  intros m Hm. by apply good_packet_spec.
Qed.

#[global] Instance desk_garbage : GarbageClean desk.
Proof. constructor. intros e. refine (bool_decide_unpack _ _). vm_compute. exact I. Qed.

Lemma desk_cooperative id : cooperative (E:=desk) id.
Proof.
  constructor; [|done]. intros v e r. cbn. destruct (dk_policies e) as [|r' rs]; [done|]. cbn.
  case_decide; [|done]. by intros [= <-].
Qed.

#[global] Instance desk_loop_ok : LoopEnvOk desk.
Proof. by constructor. Qed.

(** ** A worker at its start *)

(** A policy with nothing in it, and one that blocks bad.com. *)
Definition block_message : WorkerPolicy :=
  {| pol_block_categories := []; pol_block_by_trust := [];
     pol_block_domains := [bytes_of_string "bad.com"]; pol_allow_domains := [];
     pol_block_ips := []; pol_allow_ips := [];
     pol_min_trust_level := 0; pol_ttl_ip := 60; pol_ttl_domain := 60; pol_config_version := 2; pol_extra := [] |}.

Definition block_response : GetPolicyResponse := MkGetPolicyResponse POLICY_PROVIDED block_message true.

Definition desk_world (rx : list (list rte_mbuf)) : world desk :=
  World (Desk sample_env rx [block_response]) ∅
    {[1%positive := lab_port 1; 2%positive := lab_port 2; 3%positive := lab_port 3]}
    empty_domain_cache (Cache (Some ∅) ∅ ∅ false) 0 0 0 [].

Definition desk_collector : MetricsCollector desk :=
  Collector (Desk sample_env [] []) ∅ ∅ None 0 0 0 0 true.

Definition desk_worker (rx : list (list rte_mbuf)) : worker desk :=
  Wk (desk_world rx) 1 true policy_zero FREE false 0 MIN_POLICY_TIME 0 (Some desk_collector) 0 policy_zero 1.

#[local] Existing Instance flat_platform.
#[local] Existing Instance sample_ptype.
#[local] Abbreviation desk_iteration := (main_iteration (HC:=worker_classifier 7) 1%positive 2%positive 3%positive).
#[local] Abbreviation desk_burst := (main_packets (HC:=worker_classifier 7) 1%positive 2%positive 3%positive).

Lemma desk_world_inv rx : world_inv 1%positive 2%positive 3%positive (desk_world rx).
Proof.
  constructor; try done.
  - exists ∅, ∅. apply empty_domain_cache_inv.
  - exists ∅, ∅. by apply cache_inv_created.
  - intros p q. cbn. intros [[<- <-]|[_ [[<- <-]|[_ [<- <-]%lookup_singleton_Some]]%lookup_insert_Some]]%lookup_insert_Some; done.
Qed.

Lemma desk_started rx : worker_started 1%positive 2%positive 3%positive (desk_worker rx).
Proof.
  constructor; [apply desk_world_inv|apply policy_zero_wf|done|].
  unfold interval_ok, desk_worker, MIN_POLICY_TIME, MAX_POLICY_TIME. cbn [wk_policy_interval]. lia.
Qed.

(** The state a computation ends in. *)
Definition final {S A} (m : M S A) (s : S) : S :=
  match m s with
  | Ok (_, s') => s'
  | Fault _ => s
  end.

Definition returns {S A} (m : M S A) (s : S) : bool :=
  match m s with
  | Ok _ => true
  | Fault _ => false
  end.

Lemma final_Ok {S} (m : M S unit) s : returns m s = true → m s = Ok (tt, final m s).
Proof. unfold returns, final. by destruct (m s) as [[[] s']|]. Qed.

(** The worker after the controller provided the policy. *)
Definition updated_worker : worker desk := final (policy_thread 7) (desk_worker [[lab_packet]]).

Lemma worker_enforces_witness :
  let k := updated_worker in
  blocked (wk_policy k) lab_info
  ∧ ∃ k' w1 infos evs1 evs evs2, desk_iteration k = Ok (tt, k')
    ∧ w_trace (wk_world k') = w_trace (wk_world k) ++ evs1 ++ evs ++ evs2
    ∧ forward_to_out 3%positive 1%positive 0 (wk_world k) = Ok (tt, w1)
    ∧ parses 1%positive 0 32 w1 infos
    ∧ (wk_enable k = true →
       Forall2 (λ info ev, blocked (wk_policy k) info → exception_port info = false →
                           ∃ pkt, ev = Freed pkt) infos evs).
Proof.
  split.
  - left. split; [vm_compute; discriminate|]. exists (bytes_of_string "bad.com").
    split_and!; vm_compute; reflexivity.
  - apply (worker_enforces 7 1%positive 2%positive 3%positive (desk_worker [[lab_packet]])).
    + apply desk_started.
    + apply desk_cooperative.
    + apply rtc_once. apply S_policy; [cbn; lia|]. apply final_Ok. vm_compute. reflexivity.
Defined.

Lemma policy_request_installs_witness :
  let k := desk_worker [] in
  fst (stub_GetPolicy 7 (wk_config_version k) (w_env (wk_world k))) = Some block_response
  ∧ ∃ k', requestPolicyFromController 7 k = Ok (tt, k')
    ∧ wk_policy k' = policy_of block_message ∧ wk_config_version k' = 2 ∧ wk_enable k' = true
    ∧ abs_world (wk_world k') = AState ∅ ∅ ∧ world_inv 1%positive 2%positive 3%positive (wk_world k').
Proof.
  split; [reflexivity|].
  apply (policy_request_installs 7 1%positive 2%positive 3%positive (desk_worker []) block_response).
  - apply desk_world_inv.
  - reflexivity.
  - reflexivity.
  - refine (bool_decide_unpack _ _). vm_compute. exact I.
Defined.

(** ** A policy update during an iteration

    The main loop copies the policy, then handles packets with the copy; the
    policy thread may install a new policy and clear the caches in between. *)

Definition race_start : worker desk := desk_worker [[lab_packet]; [lab_packet]].
Definition race_policy : worker desk := final (take_policy ;;; policy_thread 7) race_start.
Definition race_burst : worker desk := final desk_burst race_policy.
Definition race_end : worker desk := final desk_iteration race_burst.

Definition sent_on (port : Z) (ev : event) : bool :=
  match ev with
  | Sent p _ _ _ => p =? port
  | Freed _ => false
  end.

(** C32: a decision of the old policy survives an update: if the controller's
    policy arrives while an iteration works with its copy of the old one, the
    iteration caches its decision after the caches were cleared, and a later
    iteration, under the new policy, forwards a packet for a name that policy
    blocks. *)
Theorem policy_race_forwards_blocked :
  (take_policy ;;; policy_thread 7) race_start = Ok (tt, race_policy)
  ∧ blocked (wk_policy race_policy) lab_info ∧ exception_port lab_info = false
  ∧ abs_world (wk_world race_policy) = AState ∅ ∅
  ∧ desk_burst race_policy = Ok (tt, race_burst)
  ∧ desk_iteration race_burst = Ok (tt, race_end)
  ∧ wk_policy race_burst = wk_policy race_policy ∧ wk_enable race_burst = true
  ∧ sent_on 2 <$> drop (length (w_trace (wk_world race_burst))) (w_trace (wk_world race_end)) = [true].
Proof.
  split_and!.
  - unfold race_policy. apply (final_Ok (take_policy ;;; policy_thread 7) race_start). vm_compute. reflexivity.
  - left. split; [vm_compute; discriminate|]. exists (bytes_of_string "bad.com").
    split_and!; vm_compute; reflexivity.
  - vm_compute. reflexivity.
  - vm_compute. reflexivity.
  - unfold race_burst. apply (final_Ok desk_burst race_policy). vm_compute. reflexivity.
  - unfold race_end. apply (final_Ok desk_iteration race_burst). vm_compute. reflexivity.
  - vm_compute. reflexivity.
  - vm_compute. reflexivity.
  - vm_compute. reflexivity.
Qed.

(** ** Policies and classifications *)

Lemma load_policy_correct_witness :
  policy_fits block_message
  ∧ load_policy block_message = Ok (policy_of block_message) ∧ policy_wf (policy_of block_message).
Proof.
  assert (policy_fits block_message) as H by (refine (bool_decide_unpack _ _); vm_compute; exact I).
  split; [exact H|]. apply (load_policy_correct block_message H).
Defined.

Lemma loaded_policy_lists_witness :
  let info := sample_info "bad.com" in
  let p := policy_of block_message in
  check_domain_is_block (domain info) (block_domains p)
    = Ok (bool_decide (bytes_of_string "bad.com" ∈ listed_names (pol_block_domains block_message)))
  ∧ check_domain_is_allow (domain info) (allow_domains p)
    = Ok (bool_decide (bytes_of_string "bad.com" ∈ listed_names (pol_allow_domains block_message)))
  ∧ check_ip_is_block info p
    = Ok (if ip_version info =? IP_4
          then bool_decide (ip4_dist info ∈ listed_addrs4 (pol_block_ips block_message))
          else bool_decide (ip6_dist info ∈ listed_addrs6 (pol_block_ips block_message)))
  ∧ check_ip_is_allow info p
    = Ok (if ip_version info =? IP_4
          then bool_decide (ip4_dist info ∈ listed_addrs4 (pol_allow_ips block_message))
          else bool_decide (ip6_dist info ∈ listed_addrs6 (pol_allow_ips block_message))).
Proof.
  apply (loaded_policy_lists block_message (policy_of block_message) (sample_info "bad.com")
           (bytes_of_string "bad.com")).
  - apply load_policy_fits. refine (bool_decide_unpack _ _). vm_compute. exact I.
  - apply sample_info_wf. unfold DOMAIN_MAX_LEN. cbn. lia.
  - vm_compute. reflexivity.
Defined.

(** One domain too many. *)
Definition long_message : WorkerPolicy :=
  {| pol_block_categories := []; pol_block_by_trust := [];
     pol_block_domains := replicate 65 (bytes_of_string "bad.com"); pol_allow_domains := [];
     pol_block_ips := []; pol_allow_ips := [];
     pol_min_trust_level := 0; pol_ttl_ip := 60; pol_ttl_domain := 60; pol_config_version := 3; pol_extra := [] |}.

Lemma load_policy_overflow_witness :
  ¬ policy_fits long_message ∧ load_policy long_message = Fault OutOfBounds.
Proof.
  assert (¬ policy_fits long_message) as H.
  { intros (_ & Hd & _). vm_compute in Hd. lia. }
  split; [exact H|]. apply (load_policy_overflow long_message H).
Defined.

(** A struct in which an earlier classification left the category ads. *)
Definition used_struct : requested_classification := sample_clas ["old"; "ads"] 10.

Lemma used_struct_clean : clas_clean used_struct.
Proof. refine (bool_decide_unpack _ _). vm_compute. exact I. Qed.

Lemma classification_strings_witness :
  clas_clean used_struct
  ∧ ∃ c, fill_classification news used_struct = Ok c ∧ clas_wf c
    ∧ get_trust_level c = resp_trust_level news
    ∧ strings_of (get_categories c)
      = (stored CATEGORY_MAX_LEN <$> take MAX_CATEGORIES (resp_categories news))
        ++ drop (length (resp_categories news)) (strings_of (get_categories used_struct)).
Proof.
  split; [apply used_struct_clean|]. apply (classification_strings news used_struct used_struct_clean).
Defined.

Lemma stale_category_drops_witness :
  let c := match fill_classification news used_struct with Ok c => c | Fault _ => used_struct end in
  main_filtring_by_domain c sample_policy (sample_info "example.com") = Ok false.
Proof.
  apply (stale_category_drops news used_struct _ sample_policy (sample_info "example.com")
           (bytes_of_string "example.com") (bytes_of_string "ads")).
  - apply used_struct_clean.
  - apply sample_policy_wf.
  - apply flat_overrun_wf, sample_policy_wf.
  - apply sample_info_wf. unfold DOMAIN_MAX_LEN. cbn. lia.
  - vm_compute. reflexivity.
  - vm_compute. discriminate.
  - refine (bool_decide_unpack _ _). vm_compute. exact I.
  - refine (bool_decide_unpack _ _). vm_compute. exact I.
  - vm_compute. reflexivity.
  - vm_compute. reflexivity.
Defined.
