(* ===== verification/Main.v ===== *)
(** * The stand-alone program: main.c

    The signal handler, the raw forwarding [forward_to_out], the endless loop
    and [main] of [src/worker/src/dpdk_filter/main.c].  The loop differs from
    the worker's: packets from the exception and the outgoing interface are
    transmitted as they are, and the policy is a local variable that is never
    written. *)

From Stdlib Require Import ZArith Lia.
From stdpp Require Import prelude gmap strings.
From S2P Require Import Prelude CMem Types Filter Parse Hash Sqlite Cache Persist PersistSpec DomainCache IpCache CacheLife Proc NetPort ProcSpec Plant Worker Lab.

Local Open Scope Z_scope.

Section main.
Context {E : Type} {HD : RteHash domain_key} {HI : RteHash ip_key}.
Context {HE : RteEnv E} {HP : PacketEnv E} {HC : Classifier E}.
Context {np : NetPtype} {platform : Platform} {inet : Inet} {ck : Ipv4Cksum}.
#[local] Abbreviation world := (world E).
Implicit Types (w : world).

(** SIGINT and SIGTERM end the loop. *)
Definition signal_handler (signum : Z) (running : bool) : bool :=
  if (signum =? 2) || (signum =? 15) then false else running.

(** One packet is handed to the driver, or freed when it is refused. *)
Definition transmit_or_free (out_id queue_number : Z) (pkt : ptr) : M world unit :=
  let! r := eth_tx_burst out_id queue_number pkt in
  if r <? 1 then rte_pktmbuf_free pkt else ret tt.

(** The port number is read for each packet; nothing writes it meanwhile. *)
Definition forward_to_out (incoming_port outgoing_port : ptr) (queue_number : Z) : M world unit :=
  let! inp := read_port incoming_port in
  let! tap_pkts := eth_rx_burst (port_id inp) queue_number FORWARD_TO_OUT_BURST_SIZE in
  for_each (λ pkt, let! out := read_port outgoing_port in
                   transmit_or_free (port_id out) queue_number pkt) tap_pkts.

(** The packets of one iteration. *)
Definition main_body (port_in port_out port_exception : ptr) (policy : BASE_POLICY) : M world unit :=
  forward_to_out port_exception port_in 0 ;;;
  pakage_processing port_in port_out port_exception 0 32 policy false ;;;
  forward_to_out port_out port_in 0.

(** The signals that arrive before each test of [running] are given; the policy
    is what the stack holds. *)
Section program.
Context {D1 D2 : Type} {HL : LoopEnv E} {HLC : LibcEnv E} {HV : EthDev E} {HY : SystemEnv E}.
Context {HS1 : Sqlite D1} {HS2 : Sqlite D2}.
Context {HUD : UninitMem E node_cache_domain} {HUI : UninitMem E node_cache_ip} {HUK : UninitMem E ip_key}.
Context {HUP : UninitMem E BASE_POLICY}.
#[local] Abbreviation plant := (plant E D1 D2).

Fixpoint packet_loop (i o x : ptr) (policy : BASE_POLICY) (signals : list (list Z))
    (running : bool) (timer_check_counter : Z) : M plant unit :=
  match signals with
  | [] => fail OutOfFuel
  | arrived :: signals' =>
      let running := foldl (λ r n, signal_handler n r) running arrived in
      if running then
        on_plant_world (main_body i o x policy) ;;;
        let counter := u64 (timer_check_counter + 1) in
        if counter >=? timer_check_interval
        then sys_call rte_timer_manage ;;; packet_loop i o x policy signals' running 0
        else packet_loop i o x policy signals' running counter
      else ret tt
  end.

(** Up to the loop: the exit code, or the ports. *)
Definition set_up (virt_ports with_af_packet : bool) : M plant (Z + (ptr * ptr * ptr)) :=
  let! ok := sys_call (signal_ok 2) in
  if negb ok then ret (inl 1) else
  let! ok := sys_call (signal_ok 15) in
  if negb ok then ret (inl 1) else
  let! ret_eal := sys_call rte_eal_init in
  if ret_eal <? 0 then ret (inl 1) else
  let! mbuf_pool := sys_call rte_pktmbuf_pool_create in
  match mbuf_pool with
  | None => ret (inl (-1))
  | Some _ =>
      init_dns ;;;
      init_ip ;;;
      let name_in := bytes_of_string (if virt_ports then "veth0" else "eth0") in
      let name_out := bytes_of_string (if virt_ports then "veth1" else "eth1") in
      let! port_in := on_net (init_struct_af_xdp_port with_af_packet name_in mbuf_pool) in
      let! port_out := on_net (init_struct_af_xdp_port with_af_packet name_out mbuf_pool) in
      let! port_exception := on_net (init_struct_tap_port (bytes_of_string "tap0") mbuf_pool) in
      match port_in, port_out, port_exception with
      | Some i, Some o, Some x =>
          let! failed := any_nonzero [port_init (Some i); port_init (Some o); port_init (Some x)] in
          if (failed : bool) then ret (inl 1) else
          let! failed := any_nonzero [port_start (Some i); port_start (Some o); port_start (Some x)] in
          if (failed : bool) then ret (inl 1) else
          ret (inr (i, o, x))
      | _, _, _ => ret (inl 1)
      end
  end.

Definition main (virt_ports with_af_packet : bool) (signals : list (list Z)) : M plant Z :=
  let! policy := sys_call uninit in
  let! r := set_up virt_ports with_af_packet in
  match r with
  | inl code => ret code
  | inr (i, o, x) =>
      packet_loop i o x policy signals true 0 ;;;
      shutdown (Some i) (Some o) (Some x) ;;;
      ret 0
  end.

End program.

(** ** What raw forwarding does *)

Context {HDO : RteHashOk domain_key HD} {HIO : RteHashOk ip_key HI}.
Context {HEO : RteEnvOk E} {HPO : PacketEnvOk E}.

(** The packet was sent unchanged on the given port, or freed. *)
Definition sent_raw (id q : Z) (pm : ptr * rte_mbuf) (ev : event) : Prop :=
  ev = Sent id q pm.1 pm.2 ∨ ev = Freed pm.1.

(** The state forwarding leaves alone. *)
Definition same_rest w w' : Prop :=
  w_ports w' = w_ports w ∧ w_dom w' = w_dom w ∧ w_ip w' = w_ip w
  ∧ w_received w' = w_received w ∧ w_passed w' = w_passed w ∧ w_dropped w' = w_dropped w.

Lemma transmit_or_free_spec id q pkt m w :
  w_mbufs w !! pkt = Some m →
  ∃ w' ev, transmit_or_free id q pkt w = Ok (tt, w') ∧ sent_raw id q (pkt, m) ev
    ∧ w_trace w' = w_trace w ++ [ev] ∧ w_mbufs w' = delete pkt (w_mbufs w) ∧ same_rest w w'.
Proof.
  intros Hm. unfold transmit_or_free, eth_tx_burst. unfold bind at 1 2, read_mbuf. rewrite Hm.
  destruct (rte_eth_tx_burst (w_env w) id q m) as [r e]. destruct (Z.geb_spec r 1) as [Hr|Hr].
  - rewrite (proj2 (Z.ltb_ge _ _)) by lia. eexists _, _. split; [done|]. split; [by left|]. done.
  - rewrite (proj2 (Z.ltb_lt _ _)) by lia. unfold rte_pktmbuf_free. cbn. rewrite Hm.
    eexists _, _. split; [done|]. split; [by right|]. done.
Qed.

Lemma forward_each_spec o out q l w :
  w_ports w !! o = Some out → NoDup l.*1 → Forall (λ pm, w_mbufs w !! pm.1 = Some pm.2) l →
  ∃ w' evs, for_each (λ pkt, let! out := read_port o in transmit_or_free (port_id out) q pkt) l.*1 w
            = Ok (tt, w')
    ∧ Forall2 (sent_raw (port_id out) q) l evs ∧ w_trace w' = w_trace w ++ evs
    ∧ w_mbufs w' = foldl (λ c p, delete p c) (w_mbufs w) l.*1 ∧ same_rest w w'.
Proof.
  intros Ho. revert w Ho. induction l as [|[pkt m] l IH]; intros w Ho Hnd Hall.
  { exists w, []. rewrite app_nil_r. by split_and!. }
  rewrite fmap_cons in Hnd. apply NoDup_cons in Hnd as [Hnot Hnd].
  apply Forall_cons in Hall as [Hm Hall]. cbn [fst snd] in *.
  destruct (transmit_or_free_spec (port_id out) q pkt m w Hm)
    as (w1 & ev & Hrun & Hev & Ht & Hb & Hp & Hd & Hi & Hc).
  destruct (IH w1) as (w2 & evs & Hrun2 & Hev2 & Ht2 & Hb2 & Hp2 & Hd2 & Hi2 & Hc2); [by rewrite Hp|done| |].
  { apply Forall_forall. intros [p' m'] Hin. rewrite Forall_forall in Hall. specialize (Hall _ Hin).
    cbn in *. rewrite Hb, lookup_delete_ne; [done|]. intros ->. apply Hnot.
    apply list_elem_of_fmap. by exists (p', m'). }
  exists w2, (ev :: evs). rewrite fmap_cons. cbn [for_each fst foldl]. split_and!.
  - erewrite bind_eq; [exact Hrun2|]. erewrite bind_eq; [exact Hrun|]. unfold read_port. by rewrite Ho.
  - by constructor.
  - by rewrite Ht2, Ht, <- app_assoc.
  - by rewrite Hb2, Hb.
  - unfold same_rest. intuition congruence.
Qed.

(** C28: raw forwarding sends every packet of the burst it receives on the
    outgoing port, unchanged and in order, except those the driver refuses,
    which it frees; none is lost, the caches and counters are untouched. *)
Theorem forward_to_out_conserves a b c q w :
  world_inv a b c w →
  ∃ w' l evs out, forward_to_out a b q w = Ok (tt, w') ∧ w_ports w !! b = Some out
    ∧ l.*2 = incoming a q FORWARD_TO_OUT_BURST_SIZE w ∧ NoDup l.*1
    ∧ Forall2 (sent_raw (port_id out) q) l evs ∧ w_trace w' = w_trace w ++ evs
    ∧ w_mbufs w' = w_mbufs w ∧ same_rest w w'.
Proof.
  intros Hinv. destruct (wi_in _ _ _ _ Hinv) as [pin Ha], (wi_out _ _ _ _ Hinv) as [out Ho].
  unfold forward_to_out, incoming. rewrite Ha. erewrite bind_eq by (unfold read_port; by rewrite Ha).
  unfold bind at 1, eth_rx_burst. destruct (rte_eth_rx_burst _ _ _ _) as [ms e].
  destruct (rx_mbufs ms (w_mbufs w)) as [ps bs] eqn:Erx.
  destruct (rx_mbufs_spec _ _ _ _ Erx) as (Hnd & _ & Hlen & Hget & _ & Hdel).
  set (w0 := with_env e (with_mbufs bs w)). set (l := zip ps ms).
  assert (l.*1 = ps) as Hl1 by (apply fst_zip; lia). assert (l.*2 = ms) as Hl2 by (apply snd_zip; lia).
  destruct (forward_each_spec b out q l w0) as (w' & evs & Hrun & Hev & Ht & Hb & Hrest);
    [done|by rewrite Hl1| |].
  { apply Forall_lookup. intros j [p m] Hj.
    apply lookup_zip_Some in Hj as [Hp Hm]. by eapply (Forall2_lookup_lr _ _ _ _ _ _ Hget). }
  rewrite Hl1 in Hrun, Hb. exists w', l, evs, out. cbn [fst]. split_and!; try done.
  - by rewrite Hl1.
  - rewrite Hb. exact Hdel.
Qed.

(** ** What the set-up establishes *)

Section set_up.
Context {D1 D2 : Type} {HLC : LibcEnv E} {HV : EthDev E} {HVO : EthDevOk E} {HY : SystemEnv E} {HYO : SystemEnvOk E}.
Context {io : InetOk}.
Context {HUD : UninitMem E node_cache_domain} {HUI : UninitMem E node_cache_ip} {HUK : UninitMem E ip_key}.
Context {HUDO : UninitOk E domain_key node_cache_domain} {HUIO : UninitOk E ip_key node_cache_ip} {HUKO : UninitKeyOk E}.
Context {HS1 : Sqlite D1} {HSO1 : SqliteOk D1 dns_sql} {HSS1 : SqliteSetup D1 dns_sql}.
Context {HS2 : Sqlite D2} {HSO2 : SqliteOk D2 ip_sql} {HSS2 : SqliteSetup D2 ip_sql}.
#[local] Abbreviation plant := (plant E D1 D2).
Implicit Types (s : plant).

(** Before the set-up, up to the environment. *)
Record untouched s : Prop := {
  un_dom : w_dom (pl_world s) = Cache None ∅ ∅ false;
  un_ip : w_ip (pl_world s) = Cache None ∅ ∅ false;
  un_timers : s_timer (pl_dns s) = None ∧ s_timer (pl_ip s) = None;
  un_ports : w_ports (pl_world s) = ∅;
  un_vdevs : pl_vdevs s = ∅
}.

Lemma untouched_call {A} (f : E → A * E) s :
  untouched s → ∃ a s', sys_call f s = Ok (a, s') ∧ untouched s'.
Proof.
  intros [Hd Hi [Ht1 Ht2] Hp Hv]. destruct (sys_call_eq f s) as (s' & Hrun & [] & Hp' & Hv').
  eexists _, s'. split; [done|]. constructor; [congruence|congruence|split; congruence|congruence|congruence].
Qed.

(** Three ports, allocated on a bus without ports. *)
Lemma alloc_all (m1 m2 m3 : M (nstate E) (option ptr)) n1 n2 n3 s :
  w_ports (pl_world s) = ∅ → pl_vdevs s = ∅ →
  allocates (D1:=D1) (D2:=D2) m1 n1 → allocates (D1:=D1) (D2:=D2) m2 n2 → allocates (D1:=D1) (D2:=D2) m3 n3 →
  ∃ r1 r2 r3 s1 s2 s', on_net m1 s = Ok (r1, s1) ∧ on_net m2 s1 = Ok (r2, s2) ∧ on_net m3 s2 = Ok (r3, s')
    ∧ other_than_net s s'
    ∧ match r1, r2, r3 with
      | Some i, Some o, Some x => allocated s' i o x n1 n2 n3
      | _, _, _ => True
      end.
Proof.
  intros Hp Hv Ha1 Ha2 Ha3.
  destruct (Ha1 s) as (r1 & s1 & R1 & [O1 W1] & V1 & C1); [by rewrite Hp|].
  destruct (Ha2 s1 W1) as (r2 & s2 & R2 & [O2 W2] & V2 & C2).
  destruct (Ha3 s2 W2) as (r3 & s3 & R3 & [O3 W3] & V3 & C3).
  exists r1, r2, r3, s1, s2, s3. split_and!; try done; [eauto using other_than_net_trans|].
  destruct r1 as [i|], r2 as [o|], r3 as [x|]; try done.
  destruct C1 as [_ N1], C2 as [F2 N2], C3 as [F3 N3].
  assert (names_at s = ∅) as N0 by (unfold names_at, dev_names; rewrite Hp; apply fmap_empty).
  rewrite N0 in N1. rewrite N1 in F2, N2. rewrite N2 in F3, N3.
  constructor; [done|by rewrite N3| |congruence].
  rewrite lookup_insert_None in F2, F3. rewrite lookup_insert_None in F3. repeat constructor; set_solver.
Qed.

(** An early return of the set-up. *)
Ltac exits := eexists (inl _), _; split; [reflexivity|tauto].

(** The names of the interfaces the program uses. *)
Definition iface_in (virt : bool) : list Z := bytes_of_string (if virt then "veth0" else "eth0").
Definition iface_out (virt : bool) : list Z := bytes_of_string (if virt then "veth1" else "eth1").

(** The set-up of the stand-alone program ends with an exit code or with the
    installation in order: the three devices exist, the three ports are theirs,
    and the caches are ready.  It tests the results of its allocations, unlike
    [initDPDK]. *)
Theorem set_up_establishes virt b s :
  untouched s → (∀ e : E, fst (dns_hash_create e) ≠ None) → (∀ e : E, fst (ip_hash_create e) ≠ None) →
  ∃ r s', set_up virt b s = Ok (r, s')
    ∧ match r with
      | inl code => code = 1 ∨ code = -1
      | inr (i, o, x) =>
          let ni := af_name b (iface_in virt) in
          let no := af_name b (iface_out virt) in
          let nx := tap_name (bytes_of_string "tap0") in
          world_inv i o x (pl_world s') ∧ pl_vdevs s' = {[ni; no; nx]}
          ∧ names_at s' = <[x := nx]> (<[o := no]> {[i := ni]})
      end.
Proof.
  intros Hun Hdns Hip. unfold set_up.
  destruct (untouched_call (signal_ok 2) s Hun) as (a1 & s1 & R1 & U1). erewrite bind_eq by exact R1.
  destruct a1; cbn [negb]; [|exits].
  destruct (untouched_call (signal_ok 15) s1 U1) as (a2 & s2 & R2 & U2). erewrite bind_eq by exact R2.
  destruct a2; cbn [negb]; [|exits].
  destruct (untouched_call rte_eal_init s2 U2) as (a3 & s3 & R3 & U3). erewrite bind_eq by exact R3.
  destruct (a3 <? 0); [exits|].
  destruct (untouched_call rte_pktmbuf_pool_create s3 U3) as (pool & s4 & R4 & U4). erewrite bind_eq by exact R4.
  destruct pool as [pool|]; [|exits].
  destruct U4 as [Hd Hi [Ht1 Ht2] Hp Hv].
  destruct (init_dns_spec s4 Hd Ht1) as (s5 & R5 & P5 & V5 & I5 & S5 & C5). erewrite bind_eq by exact R5.
  destruct (init_ip_spec s5) as (s6 & R6 & P6 & V6 & D6 & S6 & C6); [by rewrite I5|by rewrite S5|].
  erewrite bind_eq by exact R6. destruct (C5 (Hdns _)) as [Hrd _], (C6 (Hip _)) as [Hri _].
  change (bytes_of_string (if virt then "veth0" else "eth0")) with (iface_in virt).
  change (bytes_of_string (if virt then "veth1" else "eth1")) with (iface_out virt).
  set (name_in := iface_in virt) in *. set (name_out := iface_out virt) in *.
  edestruct (alloc_all (init_struct_af_xdp_port b name_in (Some pool)) (init_struct_af_xdp_port b name_out (Some pool))
    (init_struct_tap_port (bytes_of_string "tap0") (Some pool)) (af_name b name_in) (af_name b name_out)
    (tap_name (bytes_of_string "tap0")) s6) as (r1 & r2 & r3 & t1 & t2 & s7 & T1 & T2 & R7 & [D7 I7 _ _] & Hal);
    [congruence|congruence|apply alloc_af|apply alloc_af|apply alloc_tap|].
  erewrite bind_eq by exact T1. erewrite bind_eq by exact T2. erewrite bind_eq by exact R7.
  destruct r1 as [i|], r2 as [o|], r3 as [x|]; try (exits).
  destruct (ports_initialised _ _ _ _ _ _ _ Hal) as (f & s8 & R8 & [O8 W8] & N8 & V8).
  { pose proof (af_tap_differ b name_in (bytes_of_string "tap0")).
    pose proof (af_tap_differ b name_out (bytes_of_string "tap0")).
    assert (af_name b name_in ≠ af_name b name_out)
      by (intros Heq; destruct virt, b; vm_compute in Heq; discriminate).
    repeat constructor; set_solver. }
  { repeat constructor; apply snprintf_cstr; lia. }
  erewrite bind_eq by exact R8. destruct f; [exits|].
  destruct (allocated_names _ _ _ _ _ _ _ Hal) as (Ni & No & Nx).
  assert (Forall (λ p, is_Some (names_at s8 !! p)) [i; o; x]) as Hall.
  { rewrite N8, !Forall_cons. split_and!; by eexists || constructor. }
  destruct (ports_started s8 i o x W8 Hall) as (f & s9 & R9 & [O9 W9] & N9 & V9).
  erewrite bind_eq by exact R9. destruct f; [exits|].
  eexists _, _. split; [done|]. destruct O8, O9. split; [apply plant_inv; [done|by rewrite N9| |]; congruence|].
  split; [by rewrite V9, V8|]. rewrite N9, N8. apply (al_names _ _ _ _ _ _ _ Hal).
Qed.
End set_up.
End main.

(** A packet received on port 1 of the test bench, forwarded to port 2. *)
Lemma forward_to_out_conserves_witness :
  let w := lab_world true true in
  ∃ w' l evs out, forward_to_out 1%positive 2%positive 0 w = Ok (tt, w')
    ∧ w_ports w !! 2%positive = Some out
    ∧ l.*2 = incoming 1%positive 0 FORWARD_TO_OUT_BURST_SIZE w ∧ NoDup l.*1
    ∧ Forall2 (sent_raw (port_id out) 0) l evs ∧ w_trace w' = w_trace w ++ evs
    ∧ w_mbufs w' = w_mbufs w ∧ same_rest w w'.
Proof.
  apply (forward_to_out_conserves 1%positive 2%positive 3%positive 0 (lab_world true true)).
  apply lab_world_inv.
Defined.
