(* ===== verification/MemDb.v ===== *)
(** * A concrete database

    A database in memory that satisfies the promises of [Sqlite.v], an
    environment that never runs out of memory, and the theorems on persistence
    applied to them. *)

From Stdlib Require Import ZArith Lia.
From stdpp Require Import prelude gmap strings.
From S2P Require Import Prelude CMem Types Hash Sqlite Cache Persist PersistSpec DomainCache IpCache Lab.

Local Open Scope Z_scope.

Record mem_db (q : cache_sql) := MemDb {
  md_main : gmap (list Z) db_row;
  md_cats : gmap (list Z) (list (list Z))
}.
Arguments MemDb {q}.
Arguments md_main {q}.
Arguments md_cats {q}.

Definition SQLITE_ERROR : Z := 1.
Definition SQLITE_CONSTRAINT : Z := 19.

Section mem_db.
Context {q : cache_sql}.

Definition mem_run (d : mem_db q) (sql : string) (args : list sqlval) : Z * mem_db q :=
  if decide (sql = q_insert_main q) then
    match args with
    | [SqlText k; SqlInt a; SqlInt b; SqlInt c; SqlInt e] =>
        (SQLITE_DONE, MemDb (<[k := DbRow a b c e]> (md_main d)) (md_cats d))
    | _ => (SQLITE_ERROR, d)
    end
  else if decide (sql = q_delete_categories q) then
    match args with
    | [SqlText k] => (SQLITE_DONE, MemDb (md_main d) (delete k (md_cats d)))
    | _ => (SQLITE_ERROR, d)
    end
  else if decide (sql = q_insert_category q) then
    match args with
    | [SqlText k; SqlText c] =>
        let cs := default [] (md_cats d !! k) in
        if decide (c ∈ cs) then (SQLITE_CONSTRAINT, d)
        else (SQLITE_DONE, MemDb (md_main d) (<[k := cs ++ [c]]> (md_cats d)))
    | _ => (SQLITE_ERROR, d)
    end
  else (SQLITE_ERROR, d).

Definition mem_rows (d : mem_db q) (sql : string) (args : list sqlval) : list (list sqlval) :=
  if decide (sql = q_select_main q) then main_row <$> map_to_list (md_main d)
  else if decide (sql = q_select_categories q) then
    match args with
    | [SqlText k] => (λ c, [SqlText c]) <$> default [] (md_cats d !! k)
    | _ => []
    end
  else [].

#[global] Instance mem_sqlite : Sqlite (mem_db q) := {|
  sqlite3_open d _ := ((SQLITE_OK, true), d);
  sqlite3_close d := (SQLITE_OK, d);
  sqlite3_exec d _ := (SQLITE_OK, d);
  sqlite3_prepare_v2 d _ := (SQLITE_OK, d);
  sqlite3_run := mem_run;
  sqlite3_rows d sql args := (mem_rows d sql args, d);
  sqlite3_column_text v := match v with SqlText t => Some (c_str t) | _ => None end;
  sqlite3_column_int v := match v with SqlInt z => i32 z | _ => 0 end;
  sqlite3_column_int64 v := match v with SqlInt z => i64 z | _ => 0 end
|}.

(** The statements are told apart by their texts. *)
Class SqlDistinct := {
  delete_insert : q_delete_categories q ≠ q_insert_main q;
  category_insert : q_insert_category q ≠ q_insert_main q;
  category_delete : q_insert_category q ≠ q_delete_categories q;
  categories_main : q_select_categories q ≠ q_select_main q
}.

Context {Hq : SqlDistinct}.

Lemma mem_run_insert d k a b c e :
  mem_run d (q_insert_main q) [SqlText k; SqlInt a; SqlInt b; SqlInt c; SqlInt e]
  = (SQLITE_DONE, MemDb (<[k := DbRow a b c e]> (md_main d)) (md_cats d)).
Proof. unfold mem_run. by rewrite decide_True. Qed.

Lemma mem_run_delete d k :
  mem_run d (q_delete_categories q) [SqlText k]
  = (SQLITE_DONE, MemDb (md_main d) (delete k (md_cats d))).
Proof. unfold mem_run. rewrite decide_False by apply delete_insert. by rewrite decide_True. Qed.

Lemma mem_run_category d k c :
  mem_run d (q_insert_category q) [SqlText k; SqlText c]
  = let cs := default [] (md_cats d !! k) in
    if decide (c ∈ cs) then (SQLITE_CONSTRAINT, d)
    else (SQLITE_DONE, MemDb (md_main d) (<[k := cs ++ [c]]> (md_cats d))).
Proof.
  unfold mem_run. rewrite decide_False by apply category_insert.
  rewrite decide_False by apply category_delete. by rewrite decide_True.
Qed.

#[global] Instance mem_sqlite_ok : SqliteOk (mem_db q) q.
Proof.
  refine {| db_main := md_main; db_categories := md_cats |}; try done.
  - intros d k [a b c e]. cbn. unfold main_row. cbn. by rewrite mem_run_insert.
  - intros d k. cbn. by rewrite mem_run_delete.
  - intros d k c. cbn. rewrite mem_run_category. cbn. by case_decide.
  - intros d. cbn. unfold mem_rows. by rewrite decide_True.
  - intros d k. cbn. unfold mem_rows. rewrite decide_False by apply categories_main.
    by rewrite decide_True.
Defined.

#[global] Instance mem_sqlite_up : SqliteUp (mem_db q) q.
Proof.
  constructor; try done.
  - intros d k [a b c e]. cbn. unfold main_row. cbn. by rewrite mem_run_insert.
  - intros d k. cbn. by rewrite mem_run_delete.
  - intros d k c Hc. cbn in *. rewrite mem_run_category. cbn. by rewrite decide_False.
Qed.
End mem_db.
Arguments SqlDistinct : clear implicits.

#[global] Instance dns_sql_distinct : SqlDistinct dns_sql.
Proof. by constructor. Qed.

(** ** An environment with memory to spare *)

Record sure_env := SureEnv { se_now : Z; se_hz : Z }.

#[global] Instance sure_rte : RteEnv sure_env := {|
  rte_malloc_ok e := (true, e);
  rte_get_timer_cycles e := (u64 (se_now e), e);
  rte_get_timer_hz e := Z.max 1 (se_hz e mod 2 ^ 64)
|}.

#[global] Instance sure_rte_ok : RteEnvOk sure_env.
Proof.
  constructor; intros [now hz]; simpl; try done.
  - apply u64_range.
  - pose proof (Z.mod_pos_bound hz (2 ^ 64)). lia.
Qed.

#[global] Instance sure_libc : LibcEnv sure_env := {| malloc_ok e := (true, e) |}.

(** What the allocator leaves in a node: rows without a null. *)
Definition dirty_node : node_cache_domain :=
  NodeCacheDomain (replicate MAX_CATEGORIES (replicate CATEGORY_MAX_LEN 65)) true 7 7 7 7 7
    (replicate IP6_LEN 7) None.

#[global] Instance sure_uninit : UninitMem sure_env node_cache_domain :=
  {| uninit e := (dirty_node, e) |}.

#[global] Instance sure_uninit_ok : UninitOk sure_env domain_key node_cache_domain.
Proof.
  constructor; [|done]. intros e. split; [done|]. by apply Forall_replicate.
Qed.

#[global] Instance sure_uninit_key : UninitMem sure_env ip_key :=
  {| uninit e := (IpKey 7 (replicate 16 7), e) |}.

#[global] Instance sure_uninit_key_ok : UninitKeyOk sure_env.
Proof. by constructor. Qed.

(** ** The theorems on persistence *)

#[local] Abbreviation dns_state := (pstate sure_env domain_key node_cache_domain (mem_db dns_sql)).

Definition sample_pstate : dns_state :=
  PState (SureEnv 5000 1000) sample_domain_cache (MemDb ∅ ∅) true 0 None.

Lemma sample_pstate_saving : saving sample_pstate.
Proof.
  assert (view sample_domain_cache = {[sample_key := 1%positive]}) as Hv by done.
  constructor.
  - exists ∅, ∅. apply sample_domain_cache_inv.
  - done.
  - change (p_cache sample_pstate) with sample_domain_cache.
    rewrite Hv, map_size_singleton. unfold CACHE_SIZE. lia.
  - done.
  - intros k p n. change (p_cache sample_pstate) with sample_domain_cache. rewrite Hv.
    intros [<- <-]%lookup_singleton_Some.
    change (c_nodes sample_domain_cache) with ({[1%positive := stored_node]} : gmap ptr node_cache_domain).
    rewrite lookup_singleton_eq. intros [= <-].
    split; [exact sample_key_canonical|]. split_and!; try (cbn; lia).
    by apply Forall_replicate.
Qed.

(** A restarted process that opens a database with the given rows. *)
Definition restarted (e : sure_env) (m : gmap (list Z) db_row) : dns_state :=
  PState e empty_domain_cache (MemDb m ∅) true 0 None.

Lemma restarted_started e m : started m (restarted e m).
Proof. constructor; try done. exists ∅, ∅. apply empty_domain_cache_inv. Qed.

(** The same process after another thread added a second decision. *)
Definition second_key : domain_key := pad DOMAIN_MAX_LEN (bytes_of_string "example.org").

Definition second_node : node_cache_domain :=
  NodeCacheDomain (nd_categories node_domain_zero) false 0 4500 60 0 0 (zeros IP6_LEN)
    (Some 2%positive).

Definition grown_cache : cache domain_key node_cache_domain :=
  Cache (Some (<[second_key := 2%positive]> {[sample_key := 1%positive]}))
    (<[2%positive := second_node]> {[1%positive := stored_node]})
    (<[2%positive := second_key]> {[1%positive := sample_key]}) false.

Definition grown_pstate : dns_state :=
  PState (SureEnv 5000 1000) grown_cache (MemDb ∅ ∅) true 0 None.

Lemma second_key_new : second_key ≠ sample_key.
Proof. refine (bool_decide_unpack _ _). vm_compute. exact I. Qed.

Lemma grown_view :
  view grown_cache = (<[second_key := 2%positive]> {[sample_key := 1%positive]} : gmap domain_key ptr).
Proof. done. Qed.

Lemma grown_cache_inv : cache_inv ∅ ∅ grown_cache.
Proof.
  pose proof second_key_new as Hne.
  constructor; rewrite ?grown_view; unfold grown_cache; cbn [c_nodes c_keys]; try done.
  - intros k p [[<- <-]|[_ [<- <-]%lookup_singleton_Some]]%lookup_insert_Some.
    + by exists second_node, 2%positive.
    + by exists stored_node, 1%positive.
  - intros p n [[<- _]|[_ [<- _]%lookup_singleton_Some]]%lookup_insert_Some; right.
    + exists second_key. apply lookup_insert_eq.
    + exists sample_key. by rewrite lookup_insert_ne, lookup_singleton_eq.
  - intros q k [[<- <-]|[_ [<- <-]%lookup_singleton_Some]]%lookup_insert_Some; right.
    + exists 2%positive, second_node. by rewrite lookup_insert_eq.
    + exists 1%positive, stored_node. by rewrite lookup_insert_ne, lookup_singleton_eq.
Qed.

Lemma grown_pstate_grown : grown sample_pstate grown_pstate.
Proof.
  split_and!; [exists ∅, ∅; apply grown_cache_inv|done|].
  change (p_cache sample_pstate) with sample_domain_cache.
  change (p_cache grown_pstate) with grown_cache. rewrite grown_view.
  change (view sample_domain_cache) with ({[sample_key := 1%positive]} : gmap domain_key ptr).
  rewrite map_size_insert_None, map_size_singleton; [lia|].
  apply lookup_singleton_ne. apply not_eq_sym, second_key_new.
Qed.

Lemma save_load_roundtrip_witness :
  saving sample_pstate
  ∧ ∃ stats (p' : dns_state), save_all_cache sample_pstate = Ok (Some stats, p')
    ∧ ∀ e, let p2 := restarted e (db_main (p_db p')) in
      ∃ stats2 (p3 : dns_state), load_cache p2 = Ok (Some stats2, p3)
        ∧ (∃ F G, cache_inv F G (p_cache p3))
        ∧ ∀ k en, abs (p_cache p3) !! k = Some en
            ↔ abs (p_cache sample_pstate) !! k = Some en
              ∧ expired (fst (rte_get_timer_cycles e)) (rte_get_timer_hz e) en = false.
Proof.
  split; [apply sample_pstate_saving|].
  destruct (save_load_roundtrip sample_pstate) as (stats & p' & Hsave & Hload);
    [apply sample_pstate_saving|done|done|done|].
  exists stats, p'. split; [exact Hsave|]. intros e p2.
  exact (Hload p2 (restarted_started e _)).
Defined.

Lemma cleared_decisions_return_witness :
  abs (p_cache sample_pstate) !! sample_key = Some (Entry true 4000 60)
  ∧ ∃ stats (p1 p2 : dns_state) stats3 (p3 : dns_state), save_all_cache sample_pstate = Ok (Some stats, p1)
    ∧ on_cache cache_clear p1 = Ok (tt, p2) ∧ abs (p_cache p2) = ∅
    ∧ save_all_cache p2 = Ok (Some stats3, p3)
    ∧ let p4 := restarted (SureEnv 6000 1000) (db_main (p_db p3)) in
      ∃ stats5 (p5 : dns_state), load_cache p4 = Ok (Some stats5, p5)
        ∧ abs (p_cache p5) !! sample_key = Some (Entry true 4000 60).
Proof.
  assert (abs (p_cache sample_pstate) !! sample_key = Some (Entry true 4000 60)) as Hk.
  { rewrite abs_lookup. change (view (p_cache sample_pstate))
      with ({[sample_key := 1%positive]} : gmap domain_key ptr).
    by rewrite lookup_singleton_eq. }
  split; [exact Hk|].
  destruct (cleared_decisions_return sample_pstate sample_key (Entry true 4000 60))
    as (stats & p1 & p2 & stats3 & p3 & H1 & H2 & H3 & H4 & H5);
    [apply sample_pstate_saving|done|done|done|exact Hk|].
  exists stats, p1, p2, stats3, p3. split_and!; [exact H1|exact H2|exact H3|exact H4|].
  apply H5; [apply restarted_started|done].
Defined.

Lemma save_race_overruns_witness :
  ∃ count arr (p1 : dns_state), save_begin sample_pstate = Ok (Some (count, Some arr), p1)
    ∧ p_cache p1 = p_cache sample_pstate
    ∧ save_finish count (Some arr) grown_pstate = Fault OutOfBounds.
Proof.
  destruct (save_race_overruns sample_pstate) as (count & arr & p1 & Hrun & Hc & Hover);
    [apply sample_pstate_saving|done|].
  exists count, arr, p1. split_and!; [exact Hrun|exact Hc|].
  apply Hover, grown_pstate_grown.
Defined.

(** A packet to 10.0.0.2 and the key its saved decision is loaded under. *)
Lemma ip4_loaded_key_uninitialised_witness :
  let info := lab_info in
  ∃ k e', ip_str_to_key (Some (c_str (4 :: map lab_shift (le_bytes32 (ip4_dist info)))))
            (SureEnv 0 1) = Ok (Some (Ok k), e')
    ∧ version k = 4 ∧ take 4 (addr k) = le_bytes32 (ip4_dist info)
    ∧ key_tail k = key_tail (fst (uninit (SureEnv 0 1)))
    ∧ (k = packet_ip_key info ↔ key_tail (fst (uninit (SureEnv 0 1))) = zeros 12).
Proof.
  apply (ip4_loaded_key_uninitialised (SureEnv 0 1) lab_info
           (c_str (4 :: map lab_shift (le_bytes32 (ip4_dist lab_info))))).
  - vm_compute. reflexivity.
  - vm_compute. reflexivity.
  - apply lab_shift_text. lia.
Defined.
