(* ===== verification/ProcessLab.v ===== *)
(** * A concrete process

    A machine that keeps the promises the start-up, the loop and the shutdown
    rely on, with databases in memory, and the theorems of [Process.v] applied
    to it: the whole of [main] can be executed. *)

From Stdlib Require Import ZArith Lia.
From stdpp Require Import prelude gmap strings relations.
From S2P Require Import Prelude CMem Stream Metrics Types Filter Parse Hash Sqlite Policy Cache Persist PersistSpec DomainCache IpCache CacheLife Proc NetPort ProcSpec Plant Enforce Worker Writable Lab WorkerLab Main MemDb Process.

Local Open Scope Z_scope.

(** ** The machine *)

(** The bursts the incoming port is going to receive, the devices in the order
    of their creation, what starting a device returns, and the readings of the
    clock, of which the last is repeated. *)
Record machine := Machine {
  mh_rte : test_env;
  mh_rx : list (list rte_mbuf);
  mh_devs : list (list Z);
  mh_start : Z;
  mh_clock : list Z
}.

#[global] Instance machine_rte : RteEnv machine := {|
  rte_malloc_ok e := (true, e);
  rte_get_timer_cycles e := (fst (rte_get_timer_cycles (mh_rte e)), e);
  rte_get_timer_hz e := rte_get_timer_hz (mh_rte e)
|}.

#[global] Instance machine_packets : PacketEnv machine := {|
  rte_eth_rx_burst e p _ n :=
    if p =? 0 then (take n (filter (λ m, good_packet m = true) (hd [] (mh_rx e))),
                    Machine (mh_rte e) (tl (mh_rx e)) (mh_devs e) (mh_start e) (mh_clock e))
    else ([], e);
  rte_eth_tx_burst e _ _ _ := (1, e);
  stack_garbage e := (sample_clas (replicate 100 "x"%string) 0, e)
|}.

#[global] Instance machine_controller : Controller machine := {|
  stub_GetPolicy _ _ e := (Some block_response, e);
  stub_Classify _ _ _ e := (Some news, e)
|}.

#[global] Instance machine_loop : LoopEnv machine := {|
  steady_clock_now e :=
    match mh_clock e with
    | [] => (0, e)
    | [now] => (now, e)
    | now :: clock => (now, Machine (mh_rte e) (mh_rx e) (mh_devs e) (mh_start e) clock)
    end;
  rand e := (7, e);
  rte_timer_manage e := (tt, e)
|}.

#[global] Instance machine_libc : LibcEnv machine := {| malloc_ok e := (true, e) |}.

Definition with_devs (l : list (list Z)) (e : machine) : machine :=
  Machine (mh_rte e) (mh_rx e) l (mh_start e) (mh_clock e).

#[global] Instance machine_dev : EthDev machine := {|
  rte_vdev_init name _ e := (0, with_devs (mh_devs e ++ [default [] (cstr name)]) e);
  rte_vdev_uninit name e := (0, with_devs (filter (λ d, d ≠ default [] (cstr name)) (mh_devs e)) e);
  rte_eth_dev_count_avail e := Z.to_nat (Z.min 65535 (Z.of_nat (length (mh_devs e))));
  rte_eth_dev_info_get _ e := (0, e);
  rte_eth_dev_get_name_by_port p e := c_str <$> mh_devs e !! Z.to_nat p;
  rte_eth_dev_is_valid_port _ _ := true;
  rte_eth_dev_configure _ e := (0, e);
  rte_eth_rx_queue_setup _ e := (0, e);
  rte_eth_tx_queue_setup _ e := (0, e);
  rte_eth_macaddr_get _ e := ((0, replicate 6 2), e);
  rte_eth_dev_start _ e := (mh_start e, e);
  rte_eth_promiscuous_enable _ e := (0, e);
  rte_eth_dev_stop _ e := (0, e);
  rte_eth_dev_close _ e := (0, e)
|}.

#[global] Instance machine_system : SystemEnv machine := {|
  getenv name _ := bytes_of_string <$>
    (list_to_map [("WORKER_ID", "7"); ("METRICS_GATEWAY_ADDRESS", "gateway"); ("METRICS_GATEWAY_PORT", "9091");
                  ("DPDK_PORT_IN", "eth0"); ("DPDK_PORT_OUT", "eth1")]%string : gmap string string) !! name;
  signal_ok _ e := (true, e);
  rte_eal_init e := (0, e);
  rte_pktmbuf_pool_create e := (Some 1%positive, e);
  dns_hash_create e := (Some ∅, e);
  ip_hash_create e := (Some ∅, e);
  sleep_for _ e := (tt, e);
  srand_time e := (tt, e)
|}.

#[global] Instance machine_metrics : MetricsEnv machine := {|
  open_proc_stat e := (Some (stat_file 50 200), e);
  open_proc_statm e := (None, e);
  getpagesize := 4096;
  gateway_PushAdd e := (200, e)
|}.

#[global] Instance machine_uninit_domain : UninitMem machine node_cache_domain := {| uninit e := (dirty_node, e) |}.
#[global] Instance machine_uninit_ip : UninitMem machine node_cache_ip :=
  {| uninit e := (NodeCacheIp (replicate MAX_CATEGORIES (replicate CATEGORY_MAX_LEN 65)) true 7 7 7 None, e) |}.
#[global] Instance machine_uninit_key : UninitMem machine ip_key := {| uninit e := (IpKey 7 (replicate 16 7), e) |}.
#[global] Instance machine_uninit_policy : UninitMem machine BASE_POLICY := {| uninit e := (policy_zero, e) |}.

(** ** Its promises *)

#[global] Instance machine_rte_ok : RteEnvOk machine.
Proof. constructor; intros [t rx ds st cl]; [exact (timer_cycles_range t)|exact (timer_hz_range t)|done|done]. Qed.

Lemma machine_rx_good e p q n : Forall (λ m, good_packet m = true) (fst (rte_eth_rx_burst (E:=machine) e p q n)).
Proof.
  cbn. destruct (p =? 0); [|constructor]. apply Forall_take, Forall_forall.
  intros m Hm. by apply list_elem_of_filter in Hm as [? _].
Qed.

#[global] Instance machine_packets_ok : PacketEnvOk machine.
Proof.
  constructor; intros; try done.
  - cbn. destruct (p =? 0); cbn; [|lia]. rewrite length_take. lia.
  - eapply Forall_impl; [apply machine_rx_good|]. intros m Hm. by apply good_packet_spec.
Qed.

#[global] Instance machine_traffic : TrafficOk machine (np:=sample_ptype).
Proof.
  constructor. intros. eapply Forall_impl; [apply machine_rx_good|].
  intros m Hm. by apply good_packet_spec.
Qed.

#[global] Instance machine_garbage : GarbageClean machine.
Proof. constructor. intros e. refine (bool_decide_unpack _ _). vm_compute. exact I. Qed.

Lemma machine_cooperative id : cooperative (E:=machine) id.
Proof.
  constructor; [|done]. intros v e r [= <-]. refine (bool_decide_unpack _ _). vm_compute. exact I.
Qed.

#[global] Instance machine_loop_ok : LoopEnvOk machine.
Proof. by constructor. Qed.

#[global] Instance machine_dev_ok : EthDevOk machine.
Proof.
  constructor; try done.
  - intros p e n. cbn. destruct (mh_devs e !! Z.to_nat p); [|done]. intros [= <-]. apply c_str_terminated.
  - intros e. cbn. lia.
Qed.

#[global] Instance machine_system_ok : SystemEnvOk machine.
Proof. constructor; by intros e h [= <-]. Qed.

#[global] Instance machine_uninit_domain_ok : UninitOk machine domain_key node_cache_domain.
Proof. constructor; [|done]. intros e. split; [done|]. by apply Forall_replicate. Qed.
#[global] Instance machine_uninit_ip_ok : UninitOk machine ip_key node_cache_ip.
Proof. constructor; [|done]. intros e. split; [done|]. by apply Forall_replicate. Qed.
#[global] Instance machine_uninit_key_ok : UninitKeyOk machine.
Proof. by constructor. Qed.

#[global] Instance ip_sql_distinct : SqlDistinct ip_sql.
Proof. by constructor. Qed.

#[global] Instance mem_setup q `{SqlDistinct q} : SqliteSetup (mem_db q) q.
Proof. by constructor. Qed.

(** ** The process *)

#[local] Existing Instance flat_platform.
#[local] Existing Instance sample_ptype.
#[local] Abbreviation site := (plant machine (mem_db dns_sql) (mem_db ip_sql)).
#[local] Abbreviation worker_process := (process machine (mem_db dns_sql) (mem_db ip_sql)).

(** The clock reads 0, 4, 44 and then 45 seconds. *)
Definition bench_clock : list Z := [0; 4000000000; 44000000000; 45000000000].

Definition site_start (rx : list (list rte_mbuf)) (start : Z) : site :=
  cold (Machine sample_env rx [] start bench_clock) (MemDb ∅ ∅) (MemDb ∅ ∅).

Definition new_process (rx : list (list rte_mbuf)) (start : Z) : res worker_process :=
  new_Worker 3 7 (site_start rx start).

(** A packet without a name, from 10.0.0.1 to 10.0.0.2. *)
Definition plain_packet : rte_mbuf :=
  Mbuf (replicate 12 1 ++ [8; 0; 69; 0; 0; 60; 0; 0; 0; 0; 64; 6; 0; 0; 10; 0; 0; 1; 10; 0; 0; 2] ++ zeros 40) 74.

(** A burst, then nothing, then a burst. *)
Definition bench_rx : list (list rte_mbuf) := [[lab_packet]; []; [lab_packet; plain_packet; lab_packet6]].

Definition exit_code (r : res (outcome * site)) : option outcome :=
  match r with
  | Ok (c, _) => Some c
  | Fault _ => None
  end.

(** The whole program with policy threads, saves of the caches and signals; a
    device that does not start ends it with exit code 1. *)
Definition bench_schedule : list (list wevent) :=
  [[]; [PolicyThread]; [PolicyThread; SaveDns true; SaveIp true; SaveDns false; Signal 1]; [Signal 15]].

Example main_runs :
  exit_code (main false false 3 bench_schedule (site_start bench_rx 0)) = Some (Exit 0)
  ∧ exit_code (main false false 3 [[]; [Signal 15]] (site_start [] (-5))) = Some (Exit 1).
Proof. split; vm_compute; reflexivity. Qed.

(** A policy thread outlives the object: the second round starts one, which is
    detached; the stop signal comes before it runs, [main] destroys the object,
    and the thread goes on with its policy, its mutex and the freed caches. *)
Theorem late_policy_thread_dangles :
  exit_code (main false false 3 [[]; []; [Signal 15]] (site_start bench_rx 0)) = Some (Exit 0)
  ∧ main false true 3 [[]; []; [Signal 15]] (site_start bench_rx 0) = Fault BadPointer.
Proof. split; vm_compute; reflexivity. Qed.

(** The object after its constructor and after [initDPDK]. *)
Definition born (rx : list (list rte_mbuf)) (start : Z) : worker_process :=
  match new_process rx start with
  | Ok s => s
  | Fault _ => Process (worker_fields (pl_world (site_start rx start)) policy_zero
                   (collector_fields (Machine sample_env rx [] start [])))
                 ∅ (Store (MemDb ∅ ∅) false 0 None) (Store (MemDb ∅ ∅) false 0 None) None None None None
  end.

Lemma born_eq rx start :
  (match new_process rx start with Ok _ => true | Fault _ => false end) = true →
  new_Worker 3 7 (site_start rx start) = Ok (born rx start).
Proof. unfold born, new_process. by destruct (new_Worker 3 7 (site_start rx start)). Qed.

(** The machine's promises hold whatever its state. *)
Lemma machine_interfaces : two_interfaces (E:=machine) false.
Proof.
  intros e a c Ha Hc. vm_compute in Ha, Hc. injection Ha as <-. injection Hc as <-.
  intros H. vm_compute in H. discriminate.
Qed.

Lemma site_no_caches rx start : no_caches (site_start rx start).
Proof. by constructor. Qed.

Lemma site_first_start rx start : first_start false 7 (site_start rx start).
Proof.
  constructor; try done; [apply machine_interfaces| |apply machine_cooperative].
  intros e. exists block_response. done.
Qed.

Lemma machine_configured : configured (E:=machine) 7.
Proof.
  constructor.
  - intros e. exists (bytes_of_string "7"). split; vm_compute; reflexivity.
  - intros e. exists (bytes_of_string "gateway"). vm_compute. reflexivity.
  - intros e. exists (bytes_of_string "9091"). vm_compute. reflexivity.
  - intros e. split; vm_compute; reflexivity.
Qed.

Definition up (rx : list (list rte_mbuf)) : worker_process := final (initDPDK false) (born rx 0).

(** The result of a computation. *)
Definition value {S A} (m : M S A) (s : S) : option A :=
  match m s with
  | Ok (a, _) => Some a
  | Fault _ => None
  end.

Lemma final_value {S A} (m : M S A) s a : value m s = Some a → m s = Ok (a, final m s).
Proof. unfold value, final. destruct (m s) as [[b s']|]; [|done]. by intros [= ->]. Qed.

Lemma born_runs : new_Worker 3 7 (site_start bench_rx 0) = Ok (born bench_rx 0).
Proof. apply born_eq. vm_compute. reflexivity. Qed.

Lemma up_eq : initDPDK false (born bench_rx 0) = Ok (inr tt, up bench_rx).
Proof. apply (final_value (initDPDK false) (born bench_rx 0)). vm_compute. reflexivity. Qed.

Lemma bench_stops : Exists (λ evs, existsb stops_loop evs = true) bench_schedule.
Proof. apply Exists_exists. exists [Signal 15]. split; [unfold bench_schedule; set_solver|reflexivity]. Qed.

Lemma process_enforces_witness :
  ∃ i o x s2, port_in (up bench_rx) = Some i ∧ port_out (up bench_rx) = Some o
    ∧ port_exception (up bench_rx) = Some x ∧ loop_start (up bench_rx) = Ok (tt, s2)
    ∧ ∀ k, rtc (wstep 7 i o x) (pr_worker s2) k →
        ∃ k' w1 infos evs1 evs evs2, main_iteration (HC := worker_classifier 7) i o x k = Ok (tt, k')
          ∧ w_trace (wk_world k') = w_trace (wk_world k) ++ evs1 ++ evs ++ evs2
          ∧ Worker.forward_to_out x i 0 (wk_world k) = Ok (tt, w1) ∧ parses i 0 32 w1 infos
          ∧ (wk_enable k = true →
             Forall2 (λ info ev, blocked (wk_policy k) info → exception_port info = false →
                                 ∃ pkt, ev = Freed pkt) infos evs).
Proof.
  refine (process_enforces false 3 7 (site_start bench_rx 0) (born bench_rx 0) (up bench_rx) _ _ _).
  - apply site_first_start.
  - apply born_runs.
  - apply up_eq.
Defined.

Lemma MainLoop_stops_witness :
  ∃ s2 c s' c', (loop_start ;;; main_loop 7 bench_schedule) (up bench_rx) = Ok (tt, s2)
    ∧ running (pr_worker s2) = false ∧ wk_collector (pr_worker s2) = Some c
    ∧ MainLoop 7 bench_schedule (up bench_rx) = Ok (tt, s') ∧ wk_state (pr_worker s') = SHUTTING_DOWN
    ∧ wk_collector (pr_worker s') = Some c'
    ∧ counts c' = (packets_received_counter c + w_received (wk_world (pr_worker s2)),
                   packets_passed_counter c + w_passed (wk_world (pr_worker s2)),
                   packets_dropped_counter c + w_dropped (wk_world (pr_worker s2)))
    ∧ w_received (wk_world (pr_worker s')) = 0 ∧ w_passed (wk_world (pr_worker s')) = 0
    ∧ w_dropped (wk_world (pr_worker s')) = 0.
Proof.
  refine (MainLoop_stops false 3 7 bench_schedule (site_start bench_rx 0) (born bench_rx 0) (up bench_rx) _ _ _ _).
  - apply site_first_start.
  - apply born_runs.
  - apply up_eq.
  - apply bench_stops.
Defined.


(** A device that does not start. *)
Lemma failed_start_exits_witness :
  ∃ s1, initDPDK false (born [] (-5)) = Ok (inl (runtime_error "Start ports"), s1)
    ∧ ∃ p', main false false 3 [] (site_start [] (-5)) = Ok (Exit 1, p') ∧ w_ports (pl_world p') = ∅ ∧ no_caches p'.
Proof.
  exists (final (initDPDK false) (born [] (-5))).
  assert (initDPDK false (born [] (-5))
    = Ok (inl (runtime_error "Start ports"), final (initDPDK false) (born [] (-5)))) as H.
  { apply (final_value (initDPDK false) (born [] (-5))). vm_compute. reflexivity. }
  split; [exact H|].
  refine (failed_start_exits false 3 7 [] (site_start [] (-5)) (born [] (-5)) (runtime_error "Start ports")
           (final (initDPDK false) (born [] (-5))) _ _ _ _ _ _ _ _ _ _ H).
  - apply site_no_caches.
  - reflexivity.
  - reflexivity.
  - done.
  - apply machine_interfaces.
  - apply machine_cooperative.
  - done.
  - done.
  - apply machine_configured.
  - apply born_eq. vm_compute. reflexivity.
Defined.

(** The process after its main loop, with a name, an IPv4 and an IPv6 address in
    its caches. *)
Definition served : worker_process := final (MainLoop 7 bench_schedule) (up bench_rx).

Example served_caches :
  size (abs (w_dom (wk_world (pr_worker served)))) = 1%nat
  ∧ size (abs (w_ip (wk_world (pr_worker served)))) = 2%nat.
Proof. split; vm_compute; reflexivity. Qed.

Lemma machine_malloc (e : machine) : fst (malloc_ok e) = true.
Proof. done. Qed.

Lemma served_ended :
  ended (<[3%positive := tap_name (bytes_of_string "tap0")]> (<[2%positive := af_name false (bytes_of_string "eth1")]>
    {[1%positive := af_name false (bytes_of_string "eth0")]})) 1%positive 2%positive 3%positive served.
Proof.
  destruct (started_process false 3 7 (site_start bench_rx 0) (born bench_rx 0) (up bench_rx))
    as (i & o & x & Hlo & _); [apply site_first_start|apply born_runs|apply up_eq|].
  destruct (MainLoop_ended 7 _ i o x bench_schedule (up bench_rx) Hlo (machine_cooperative 7) machine_malloc bench_stops)
    as (s' & Hrun & Hend).
  assert (served = s') as <- by (unfold served, final; by rewrite Hrun).
  destruct (lo_pointers _ _ _ _ _ Hlo) as (H1 & H2 & H3). vm_compute in H1, H2, H3.
  injection H1 as <-. injection H2 as <-. injection H3 as <-.
  assert (names_at (plant_of (up bench_rx)) = <[3%positive := tap_name (bytes_of_string "tap0")]>
    (<[2%positive := af_name false (bytes_of_string "eth1")]>
      {[1%positive := af_name false (bytes_of_string "eth0")]})) as <- by (vm_compute; reflexivity).
  exact Hend.
Qed.

Lemma worker_destructor_releases_witness :
  let ni := af_name false (bytes_of_string "eth0") in
  let no := af_name false (bytes_of_string "eth1") in
  let nx := tap_name (bytes_of_string "tap0") in
  ∃ s', delete_Worker served = Ok (tt, s') ∧ taken_down (plant_of served) (plant_of s') ni no nx
    ∧ wk_collector (pr_worker s') = set_running false <$> wk_collector (pr_worker served).
Proof.
  destruct served_ended as [(H1 & H2 & H3) Hinv Hord].
  refine (worker_destructor_releases served 1%positive 2%positive 3%positive
    (af_name false (bytes_of_string "eth0")) (af_name false (bytes_of_string "eth1"))
    (tap_name (bytes_of_string "tap0")) H1 H2 H3 Hinv Hord _ _).
  - clear. repeat constructor; set_solver.
  - done.
Defined.

(** ** The stand-alone program *)

Lemma set_up_establishes_witness :
  ∃ r s', set_up true false (site_start [] 0) = Ok (r, s')
    ∧ match r with
      | inl code => code = 1 ∨ code = -1
      | inr (i, o, x) =>
          let ni := af_name false (iface_in true) in
          let no := af_name false (iface_out true) in
          let nx := tap_name (bytes_of_string "tap0") in
          world_inv i o x (pl_world s') ∧ pl_vdevs s' = {[ni; no; nx]}
          ∧ names_at s' = <[x := nx]> (<[o := no]> {[i := ni]})
      end.
Proof.
  refine (set_up_establishes true false (site_start [] 0) _ _ _).
  - by constructor.
  - done.
  - done.
Defined.

(** The whole of [main.c]'s [main]: two rounds with a burst each and SIGINT end
    with exit code 0; a device that does not start ends it with exit code 1. *)
Example standalone_runs :
  value (Main.main (HC:=worker_classifier 7) true false [[]; [1]; [2]]) (site_start [[lab_packet]; [lab_packet]] 0) = Some 0
  ∧ value (Main.main (HC:=worker_classifier 7) true false [[]]) (site_start [] (-5)) = Some 1.
Proof. split; vm_compute; reflexivity. Qed.
